(* ===== verification/_CoqProject ===== *)
-Q . S2P
Prelude.v
Float64.v
Utils.v
Interface.v
Packer.v
PartContext.v
Types.v
Reassembly.v
Metrics.v
Dataplane.v
SCIONPacker.v
Loopback.v
Transfer.v
Losses.v
Arrivals.v
Retransfer.v
Recovery.v
Single.v
RateControl.v
Gob.v
Handshake.v
GobMessages.v
ControlPlane.v
Requests.v
Acks.v
Sessions.v
PartsConn.v
Repair.v
System.v
SystemInv.v
SystemSpec.v
PartsSocket.v
FileTransfer.v
Local.v
