(* ===== verification/Prelude.v ===== *)
(** * PARTS: a model of the PARTS bulk transfer library and its correctness

    PARTS sends large buffers ("parts") and single messages over SCION/UDP
    sockets.  A part is announced by a handshake, cut into numbered packets,
    sent once, and completed by retransfers of what the receiver reports
    missing.  This file is the root of the development: it documents the whole
    and then defines what all components share.

    ** The program and its model

    The program is a few mutable objects behind pointers.  Its state is the
    record [Dataplane.world]: the data plane, the store of part contexts (a
    finite map from addresses, so that the data plane, the control plane and
    their callers share them), and the state of the owner, which for the
    program is the control plane.  A fragment of a goroutine is a function
    [go S A] from a state to an [outcome]: it ends with a value ([Done]), ends
    the program with a run-time panic or [log.Fatal] ([Faulted]), or is
    blocked for good ([Blocked]).  [zoom] runs a fragment on a field of a
    larger state, as a method call through a pointer does.  [int], [int64] and
    [uint64] are kept at their width by [i64] and [u64]; slices are lists and
    their bounds are checked where the source slices.

    - [Float64], [Utils]: utils/utils.go; the float64 arithmetic of CeilForce,
      CeilForceInt and ByteCountSI is IEEE 754 by the Standard Library's
      SpecFloat.
    - [Interface]: the structs of dataplane/interface.go and
      dataplane/partcontext.go, the packer interface as the class
      [PartsPacketPacker] with its laws [PartsPacketPackerSpec], the status
      callback as the class [StatusListener].
    - [Packer]: dataplane/partspacker.go, an instance of the packer interface.
    - [PartContext]: the methods of dataplane/partcontext.go; [Types]: its
      fields stay machine integers; [Reassembly]: what DeSerializePacket
      achieves over sequences of packets.
    - [Metrics]: dataplane/metrics.go.
    - [Dataplane]: dataplane/dataplane.go, over a socket library that is the
      class [SCIONNet]; [SCIONPacker]: its SCIONPacketPacker.
    - [Transfer], [Losses], [Retransfer], [Recovery], [Single]: theorems about
      WritePart and ReadPart, what ReadPart misses, RetransferMissingPackets,
      what a receiver with losses knows, and the single packets, the lock and
      the refused packets; [Repair]: a part with losses through request,
      acknowledgement handling and retransfer.
    - [RateControl]: controlplane/ratecontrol.go and controlplane/interface.go.
    - [Handshake]: controlplane/handshake.go over an interface of encoding/gob
      (classes [Gob], [GobSpec]); [Gob], [GobMessages]: the wire format, an
      instance of that interface.
    - [ControlPlane]: controlplane/controlplane.go; [Requests], [Acks],
      [Sessions]: theorems about the requests for retransfers, the
      acknowledgements, and the two ends of a handshake.  An address parsed
      from a string has no path: [Sessions.routed] says that there is a packet
      serializer for an address with its path or, when it has none, with the
      one [SetDefaultPath] gives it, which SetRemote leaves in the address.
    - [PartsConn]: api/conn.go; [PartsSocket]: api/mp.go.
    - [System]: the goroutines of a Write and a Read and the network between
      them as a step relation; [Arrivals], [SystemInv]: what one packet does at
      the receiver and what every turn keeps; [SystemSpec]: the abstract
      transfer and the refinement.
    - [FileTransfer]: example/filetransfer/filetransfer.go; [Local]:
      example/local/local.go.
    - [Loopback]: a network of two queues, on which every theorem with
      hypotheses is run once on concrete data (the lemmas ending in
      [_witness]).

    ** What the theorems show

    - The system: whatever the order of the turns of its goroutines and
      whatever the network loses, repeats and reorders, a Write and a Read
      refine an abstract transfer of the packets that Read was given
      ([SystemSpec.system_refines_transfer]) and nothing panics
      ([SystemSpec.system_safe]); an end acknowledged too early is forgotten
      ([SystemSpec.early_finish_forgotten]).  [System.write_turns],
      [System.retransfer_turns], [System.read_turns] and [System.ack_turns] say
      that the turns put together are the calls.
    - Whole programs: a file, checksum included, from client to server
      ([FileTransfer.file_arrives]); a buffer of two billion bytes between the
      two goroutines of one process, which may end before the one that writes
      logs its line ([Local.singlehost_delivers]).
    - Whole calls: [PartsConn.Dial_Accept_connects],
      [PartsConn.Write_Read_part] (Write at one end and Read at the other, over
      any two connections that carry the same datagrams, the packets in any
      order, end with the sender's data at the receiver),
      [PartsConn.Write_Read_single], [PartsSocket.Write_Read_pieces],
      [PartsSocket.too_many_connections], [PartsSocket.ListenMP_connects].
    - Parts: what WritePart puts on the wire, failing connections included,
      and that ReadPart rebuilds it ([Transfer]); that it can return with a
      packet outstanding ([Losses]); the missing ranges are exactly the packets
      not received while none comes twice, a duplicate or a refusal never
      spoils the data, foreign packets are errors and out-of-range ones panic,
      but for one that is taken ([Reassembly]); lost packets are requested,
      resent and complete the part ([Repair]).
    - Retransfers: the loop goes on while the state says so and ends as soon
      as it changes ([Retransfer]); requests and the finishing acknowledgement
      drive it ([Acks]), the lock left behind by the first part stops the
      second one from ending; what one tick requests ([Requests]).
    - Handshake: both ends agree on the part's id, and on its packets exactly
      when their headers and buffers are equally long ([Sessions]); its message
      survives the wire format ([GobMessages]).
    - Rate control: bounds of the congestion window under any sequence of
      operations, the reaction in every phase, the pacing ([RateControl]).
    - Sizes, addresses, lists and formatting ([PartContext], [Utils]); machine
      integers of a part context under any operations ([Types]).

    ** Interleaving

    The code runs a few goroutines besides the caller.  A fragment is atomic
    between the points where the model lets others in: each sleep of
    RetransferMissingPackets runs the next element of a schedule of arbitrary
    fragments; a goroutine that only waits (HandleAckPackets,
    requestRetransfers, a metrics collector) is counted when it starts and
    what it does at one message, tick or sample is a fragment of its own;
    the goroutines of one call of a PartsSocket run in parallel on separate
    connections.  In [System] both ends are there at once: a thread takes one
    turn (a packet, the start of a pass of retransfers, of a range or its end, one
    packet of a range, the reading of an acknowledgement, its handling, a
    tick), then any other may, and the network delivers any datagram written so
    far, any number of times.  The two goroutines of HandleAckPackets are
    [reader_turn] and [handler_turn]: the reader runs ahead of the handler by
    one datagram and stays when the handler has returned; the function
    [HandleAckPackets] is the run in which each datagram is handled as it is
    read.  A mutex whose region cannot block is not part of the state;
    that of the data plane, whose region can, is.

    ** Fuel

    Loops that are bounded by data are structural on it.  [WriteSingle] takes
    fuel, and any fuel above the number of foreign replies is enough;
    [request_loop] takes fuel, and 53 is enough for fewer than [2^53] ranges,
    since its position at least doubles; [ByteCountSI_loop] has fuel 7, more
    than the divisions of an int64; the schedule of RetransferMissingPackets
    is its fuel, and its theorem says when it returns.  Lengths are bounded
    below [2^52] or [2^53] where the code goes through float64.

    ** What is not modelled

    The socket library, snet, appnet and the operating system are class
    parameters with the documented behaviour the code relies on; so are gob's
    type descriptors.  Data races inside a fragment, logging (but for
    the lines of example/local), the lengths of
    sleeps, flag parsing of the programs under example/, allocation failure of
    huge slices, and fields and functions that nothing uses: SCIONDataplane's
    Header, the index fields of TestingState, PartSinglePacket, SocketMetrics,
    PartsHandshakePacket and the pass-through wrappers of PacketConn. *)


From stdpp Require Export base tactics sets gmap list list_numbers numbers option strings.
From Stdlib Require Export ZArith Lia.
From coqutil Require Export Byte Word.LittleEndianList.

#[global] Open Scope Z_scope.

#[export] Instance byte_eq_dec : EqDecision byte := Byte.byte_eq_dec.

(** ** Integers of fixed width

    [int] and [int64] are two's complement integers of 64 bits, [uint64] the
    residues modulo [2^64]: every arithmetic operation of the source that can
    leave the range is followed by [i64] or [u64]. *)

Definition i64 (z : Z) : Z := (z + 2 ^ 63) mod 2 ^ 64 - 2 ^ 63.

Definition u64 (z : Z) : Z := z mod 2 ^ 64.

Definition in_i64 (z : Z) : Prop := - 2 ^ 63 <= z < 2 ^ 63.

Definition in_u64 (z : Z) : Prop := 0 <= z < 2 ^ 64.

(** ** Outcomes of a goroutine

    A fragment of a goroutine either ends with a value, or ends the whole
    program (a run-time panic or [log.Fatal]), or is blocked for good in a
    state (a send on a full channel nobody reads, a lock nobody releases). *)

Inductive fault : Type :=
| SliceBounds | IndexRange | DivideByZero | NilDeref | MakeLen | GoPanic | LogFatal.

Inductive outcome (S A : Type) : Type :=
| Done (a : A) (s : S)
| Faulted (f : fault)
| Blocked (s : S).
Arguments Done {S A} a s.
Arguments Faulted {S A} f.
Arguments Blocked {S A} s.

Definition go (S A : Type) : Type := S -> outcome S A.

(** The state-and-outcome monad, with stdpp's notations: [x ← m; k] and [m;; k]. *)
#[export] Instance go_ret (S : Type) : MRet (go S) := fun A a s => Done a s.

#[export] Instance go_bind (S : Type) : MBind (go S) := fun A B k m s =>
  match m s with
  | Done a s' => k a s'
  | Faulted f => Faulted f
  | Blocked s' => Blocked s'
  end.

Definition gets {S A : Type} (f : S -> A) : go S A := fun s => Done (f s) s.

Definition modify {S : Type} (f : S -> S) : go S unit := fun s => Done tt (f s).

Definition fail {S A : Type} (f : fault) : go S A := fun _ => Faulted f.

Definition or_fail {S A : Type} (f : fault) (o : option A) : go S A :=
  match o with Some a => mret a | None => fail f end.

(** Run a fragment on one field of a larger state (a method called through a
    struct field). *)
Definition zoom {S T A : Type} (get : S -> T) (set : T -> S -> S) (m : go T A) : go S A :=
  fun s =>
  match m (get s) with
  | Done a t => Done a (set t s)
  | Faulted f => Faulted f
  | Blocked t => Blocked (set t s)
  end.

(** ** Slices

    A slice is the list of its elements; [len] is an [int]. *)

Definition zlen {A : Type} (l : list A) : Z := Z.of_nat (length l).

(** [l[lo:hi]], for a slice whose capacity is its length: [None] is the
    run-time panic. *)
Definition go_slice {A : Type} (l : list A) (lo hi : Z) : option (list A) :=
  if (0 <=? lo) && (lo <=? hi) && (hi <=? zlen l)
  then Some (take (Z.to_nat (hi - lo)) (drop (Z.to_nat lo) l))
  else None.

(** Overwrite the elements from position [i] on with [src]. *)
Definition splice {A : Type} (l : list A) (i : nat) (src : list A) : list A :=
  take i l ++ src ++ drop (i + length src) l.

(** [copy(l[lo:hi], src)] on bounds that are in range: as many elements as the
    shorter of the two has. *)
Definition go_copy {A : Type} (l : list A) (lo hi : Z) (src : list A) : list A :=
  splice l (Z.to_nat lo) (take (Z.to_nat (hi - lo)) src).

(** [copy(l[lo:hi], src)]: [None] is the panic of the bounds. *)
Definition copy_into {A : Type} (l : list A) (lo hi : Z) (src : list A) : option (list A) :=
  match go_slice l lo hi with
  | Some _ => Some (go_copy l lo hi src)
  | None => None
  end.

(** [make([]T, n)]: panics on a negative length. *)
Definition go_make {A : Type} (zero : A) (n : Z) : option (list A) :=
  if 0 <=? n then Some (replicate (Z.to_nat n) zero) else None.

Definition go_index {A : Type} (l : list A) (i : Z) : option A :=
  if 0 <=? i then l !! Z.to_nat i else None.

(** ** [encoding/binary]: big-endian integers *)

(** The [n] bytes of [v], most significant first: [b[k] = byte(v >> 8*(n-1-k))]. *)
Fixpoint be_bytes (n : nat) (v : Z) : list byte :=
  match n with
  | O => []
  | S n' => byte.of_Z (Z.shiftr v (8 * Z.of_nat n')) :: be_bytes n' v
  end.

(** The unsigned integer of big-endian bytes. *)
Definition be_uint (l : list byte) : Z :=
  fold_left (fun acc b => Z.lor (Z.shiftl acc 8) (byte.unsigned b)) l 0.

(** [binary.BigEndian.PutUint64(b[lo:lo+8], v)] on the slice [b] itself. *)
Definition PutUint64_at (b : list byte) (lo : Z) (v : Z) : option (list byte) :=
  copy_into b lo (lo + 8) (be_bytes 8 v).

(** [binary.BigEndian.Uint64(b[lo:lo+8])]. *)
Definition Uint64_at (b : list byte) (lo : Z) : option Z :=
  match go_slice b lo (lo + 8) with
  | Some w => Some (be_uint w)
  | None => None
  end.

(** ** Automation *)

Create HintDb parts discriminated.
Create Rewrite HintDb go_list.
Create Rewrite HintDb go_step.

(** Case analysis on the boolean comparisons of the code. *)
Ltac bool_cases :=
  repeat match goal with
  | |- context [?a <? ?b] => destruct (Z.ltb_spec a b)
  | |- context [?a <=? ?b] => destruct (Z.leb_spec a b)
  | |- context [?a =? ?b] => destruct (Z.eqb_spec a b)
  | |- context [?a >? ?b] => rewrite (Z.gtb_ltb a b)
  | |- context [?a >=? ?b] => rewrite (Z.geb_leb a b)
  end.

(** ** Lemmas on integers *)

Lemma i64_id (z : Z) : in_i64 z -> i64 z = z.
Proof. unfold in_i64, i64. intros. rewrite Z.mod_small; lia. Qed.

Lemma i64_range (z : Z) : in_i64 (i64 z).
Proof.
  unfold in_i64, i64. pose proof (Z.mod_pos_bound (z + 2 ^ 63) (2 ^ 64)). lia.
Qed.

Lemma u64_id (z : Z) : in_u64 z -> u64 z = z.
Proof. unfold in_u64, u64. intros. rewrite Z.mod_small; lia. Qed.

Lemma u64_range (z : Z) : in_u64 (u64 z).
Proof. unfold in_u64, u64. pose proof (Z.mod_pos_bound z (2 ^ 64)). lia. Qed.

Lemma u64_add_l (a b : Z) : u64 (u64 a + b) = u64 (a + b).
Proof. unfold u64. by rewrite Z.add_mod_idemp_l by lia. Qed.

Lemma u64_add_r (a b : Z) : u64 (a + u64 b) = u64 (a + b).
Proof. unfold u64. by rewrite Z.add_mod_idemp_r by lia. Qed.

Lemma i64_add_l (a b : Z) : i64 (i64 a + b) = i64 (a + b).
Proof.
  unfold i64. replace ((a + 2 ^ 63) mod 2 ^ 64 - 2 ^ 63 + b + 2 ^ 63) with ((a + 2 ^ 63) mod 2 ^ 64 + b) by lia.
  rewrite Z.add_mod_idemp_l by lia. do 2 f_equal. lia.
Qed.

(** The conversion [int64(uint64(x))] is the identity. *)
Lemma i64_u64 (z : Z) : i64 (u64 z) = i64 z.
Proof. unfold i64, u64. rewrite Z.add_mod_idemp_l by lia. reflexivity. Qed.

Lemma i64_sub_eq0 (a b : Z) : in_i64 a -> in_i64 b -> i64 (a - b) = 0 -> a = b.
Proof.
  unfold in_i64, i64. intros Ha Hb H.
  assert (Hm : (a - b + 2 ^ 63) mod 2 ^ 64 = 2 ^ 63) by lia.
  pose proof (Z.div_mod (a - b + 2 ^ 63) (2 ^ 64) ltac:(lia)).
  assert ((a - b + 2 ^ 63) / 2 ^ 64 = 0) by nia. lia.
Qed.

#[export] Hint Resolve i64_range u64_range : parts.

(** Remove the [i64] of terms that stay in range. *)
Ltac no_wrap :=
  repeat match goal with
  | |- context [i64 ?z] =>
      lazymatch z with
      | context [i64 _] => fail
      | _ => rewrite (i64_id z) by (unfold in_i64 in *; lia)
      end
  end.

(** ** Lemmas on slices *)

Section slices.
Context {A : Type}.
Implicit Types (l src : list A).

Lemma zlen_nonneg l : 0 <= zlen l.
Proof. unfold zlen. lia. Qed.

(** The bytes of a list of datagrams. *)
Definition total_len (ls : list (list A)) : Z := fold_right (fun l n => zlen l + n) 0 ls.

Lemma go_slice_Some l lo hi :
  0 <= lo <= hi -> hi <= zlen l ->
  go_slice l lo hi = Some (take (Z.to_nat (hi - lo)) (drop (Z.to_nat lo) l)).
Proof. intros. unfold go_slice. by bool_cases; try lia. Qed.

Lemma go_slice_inv l lo hi l' :
  go_slice l lo hi = Some l' ->
  0 <= lo <= hi /\ hi <= zlen l /\ l' = take (Z.to_nat (hi - lo)) (drop (Z.to_nat lo) l).
Proof. unfold go_slice. bool_cases; simpl; intros; simplify_eq; repeat split; lia. Qed.

Lemma go_slice_None l lo hi :
  lo < 0 \/ hi < lo \/ zlen l < hi -> go_slice l lo hi = None.
Proof. intros. unfold go_slice. by bool_cases; try lia. Qed.

Lemma zlen_go_slice l lo hi l' : go_slice l lo hi = Some l' -> zlen l' = hi - lo.
Proof.
  intros (?&?&->)%go_slice_inv. unfold zlen in *.
  rewrite length_take, length_drop. lia.
Qed.

Lemma length_splice l i src : (i + length src <= length l)%nat -> length (splice l i src) = length l.
Proof. intros. unfold splice. rewrite !length_app, length_take, length_drop. lia. Qed.

Lemma lookup_splice l i src (j : nat) :
  (i + length src <= length l)%nat ->
  splice l i src !! j =
    if decide (i <= j < i + length src)%nat then src !! (j - i)%nat else l !! j.
Proof.
  intros Hl. unfold splice. case_decide as Hj.
  - rewrite lookup_app_r, length_take by (rewrite length_take; lia).
    rewrite lookup_app_l by lia. f_equal. lia.
  - destruct (decide (j < i)%nat) as [Hlt|Hge].
    + rewrite lookup_app_l by (rewrite length_take; lia). by rewrite lookup_take_lt.
    + rewrite !lookup_app_r, length_take, lookup_drop by (rewrite ?length_take; lia).
      f_equal. lia.
Qed.

(** [copy] into [l[lo:hi]] changes no length. *)
Lemma length_go_copy l lo hi src :
  0 <= lo <= hi -> hi <= zlen l -> length (go_copy l lo hi src) = length l.
Proof. unfold go_copy, zlen. intros. apply length_splice. rewrite length_take. lia. Qed.

(** With a source long enough, [copy] overwrites exactly the positions of
    [l[lo:hi]]. *)
Lemma lookup_go_copy l lo hi src (j : nat) :
  0 <= lo <= hi -> hi <= zlen l -> hi - lo <= zlen src ->
  go_copy l lo hi src !! j =
    if decide (lo <= Z.of_nat j < hi) then src !! (j - Z.to_nat lo)%nat else l !! j.
Proof.
  unfold go_copy, zlen. intros. rewrite lookup_splice by (rewrite length_take; lia).
  rewrite length_take. repeat case_decide; try lia; [|done].
  apply lookup_take_lt. lia.
Qed.

Lemma copy_into_Some l lo hi src :
  0 <= lo <= hi -> hi <= zlen l -> copy_into l lo hi src = Some (go_copy l lo hi src).
Proof. intros. unfold copy_into. by rewrite go_slice_Some. Qed.

Lemma copy_into_None l lo hi src :
  lo < 0 \/ hi < lo \/ zlen l < hi -> copy_into l lo hi src = None.
Proof. intros. unfold copy_into. by rewrite go_slice_None. Qed.

Lemma copy_into_inv l lo hi src l' :
  copy_into l lo hi src = Some l' ->
  0 <= lo <= hi /\ hi <= zlen l /\ l' = go_copy l lo hi src.
Proof.
  unfold copy_into. destruct (go_slice l lo hi) eqn:E; intros; simplify_eq.
  apply go_slice_inv in E. tauto.
Qed.

Lemma go_index_middle l1 l2 (x : A) i : i = zlen l1 -> go_index (l1 ++ x :: l2) i = Some x.
Proof.
  intros ->. unfold go_index, zlen. rewrite (proj2 (Z.leb_le _ _)), Nat2Z.id by lia.
  by apply list_lookup_middle.
Qed.

Lemma insert_middle l1 l2 (x y : A) i :
  i = zlen l1 -> <[Z.to_nat i := y]> (l1 ++ x :: l2) = l1 ++ y :: l2.
Proof.
  intros ->. unfold zlen. rewrite Nat2Z.id. rewrite <- (Nat.add_0_r (length l1)).
  by rewrite insert_app_r.
Qed.

Lemma go_index_Some l i : 0 <= i < zlen l -> exists x, go_index l i = Some x.
Proof.
  unfold go_index, zlen. intros. bool_cases; [|lia]. apply lookup_lt_is_Some_2. lia.
Qed.

End slices.

Section filters.
Context {A : Type} (P Q : A -> Prop) `{forall x, Decision (P x)} `{forall x, Decision (Q x)}.

Lemma filter_ext_in (l : list A) : (forall x, x ∈ l -> P x <-> Q x) -> filter P l = filter Q l.
Proof.
  induction l as [|x l IH]; intros HPQ; [done|].
  rewrite !filter_cons, IH by (intros; apply HPQ; by apply elem_of_cons; right).
  specialize (HPQ x ltac:(by apply elem_of_cons; left)). repeat case_decide; tauto.
Qed.

Lemma filter_all (l : list A) : (forall x, x ∈ l -> P x) -> filter P l = l.
Proof.
  induction l as [|x l IH]; intros HP; [done|].
  rewrite filter_cons_True, IH; [done| |]; intros; apply HP; rewrite elem_of_cons; tauto.
Qed.

End filters.

Lemma string_app_assoc (a b c : string) : (a +:+ b) +:+ c = a +:+ b +:+ c.
Proof. induction a as [|x a IH]; [done|]. exact (f_equal (String x) IH). Qed.

#[export] Hint Rewrite @length_app @length_take @length_drop @length_replicate : go_list.

(** ** Lemmas on big-endian integers *)

Lemma be_bytes_le_split (n : nat) (v : Z) : be_bytes n v = rev (le_split n v).
Proof.
  induction n as [|n IH] in v |- *; [done|].
  assert (H : forall k w, le_split (k + 1) w = le_split k w ++ [byte.of_Z (Z.shiftr w (8 * Z.of_nat k))]).
  { clear. induction k as [|k IH]; intros w; [reflexivity|].
    change (le_split (S k + 1) w) with (byte.of_Z w :: le_split (k + 1) (Z.shiftr w 8)).
    rewrite IH, Z.shiftr_shiftr by lia.
    change (le_split (S k) w) with (byte.of_Z w :: le_split k (Z.shiftr w 8)).
    simpl. repeat f_equal. lia. }
  cbn [be_bytes]. rewrite IH, <- Nat.add_1_r, H, rev_app_distr. reflexivity.
Qed.

Lemma length_be_bytes (n : nat) (v : Z) : length (be_bytes n v) = n.
Proof. by rewrite be_bytes_le_split, length_rev, length_le_split. Qed.

Lemma be_uint_le_combine (l : list byte) : be_uint l = le_combine (rev l).
Proof.
  unfold be_uint. rewrite <- fold_left_rev_right.
  induction (rev l) as [|b t IH]; [done|].
  cbn [fold_right]. rewrite IH, Z.lor_comm. reflexivity.
Qed.

Lemma be_uint_be_bytes (n : nat) (v : Z) :
  be_uint (be_bytes n v) = v mod 2 ^ (Z.of_nat n * 8).
Proof.
  by rewrite be_uint_le_combine, be_bytes_le_split, rev_involutive, le_combine_split.
Qed.

Lemma be_bytes_be_uint (l : list byte) : be_bytes (length l) (be_uint l) = l.
Proof.
  rewrite be_uint_le_combine, be_bytes_le_split, <- length_rev, split_le_combine.
  apply rev_involutive.
Qed.

Lemma be_uint_range (l : list byte) : 0 <= be_uint l < 2 ^ (8 * zlen l).
Proof.
  rewrite be_uint_le_combine. unfold zlen. rewrite <- length_rev. apply le_combine_bound.
Qed.

(** ** Lemmas on goroutine fragments *)

Section bind.
Context {S A B : Type}.
Implicit Types (m : go S A) (k : A -> go S B).

Lemma bind_Done m k s a s' : m s = Done a s' -> (m ≫= k) s = k a s'.
Proof. unfold mbind, go_bind. by intros ->. Qed.

Lemma bind_Faulted m k s f : m s = Faulted f -> (m ≫= k) s = Faulted f.
Proof. unfold mbind, go_bind. by intros ->. Qed.

Lemma bind_Blocked m k s s' : m s = Blocked s' -> (m ≫= k) s = Blocked s'.
Proof. unfold mbind, go_bind. by intros ->. Qed.

Lemma bind_ret a k s : (mret a ≫= k) s = k a s.
Proof. reflexivity. Qed.

Lemma bind_gets (f : S -> A) k s : (gets f ≫= k) s = k (f s) s.
Proof. reflexivity. Qed.

Lemma bind_some fl a k s : (or_fail fl (Some a) ≫= k) s = k a s.
Proof. reflexivity. Qed.

Lemma bind_none fl k s : (or_fail fl None ≫= k) s = Faulted fl.
Proof. reflexivity. Qed.

Lemma bind_fail fl k s : (fail fl ≫= k) s = Faulted fl.
Proof. reflexivity. Qed.

Lemma bind_Done_inv m k s b s' :
  (m ≫= k) s = Done b s' -> exists a s1, m s = Done a s1 /\ k a s1 = Done b s'.
Proof. unfold mbind, go_bind. destruct (m s) eqn:E; intros; simplify_eq; eauto. Qed.

End bind.

Lemma bind_modify {S B : Type} (f : S -> S) (k : unit -> go S B) s :
  (modify f ≫= k) s = k tt (f s).
Proof. reflexivity. Qed.

Lemma bind_assoc {S A B C : Type} (m : go S A) (k : A -> go S B) (h : B -> go S C) s :
  ((m ≫= k) ≫= h) s = (m ≫= (fun a => k a ≫= h)) s.
Proof. unfold mbind, go_bind. by destruct (m s). Qed.

Lemma ret_Done {S A : Type} (a : A) (s : S) : mret (M := go S) a s = Done a s.
Proof. reflexivity. Qed.

Lemma some_Done {S A : Type} fl (a : A) (s : S) : or_fail fl (Some a) s = Done a s.
Proof. reflexivity. Qed.

Lemma modify_Done {S : Type} (f : S -> S) (s : S) : modify f s = Done tt (f s).
Proof. reflexivity. Qed.

Lemma gets_Done {S A : Type} (f : S -> A) (s : S) : gets f s = Done (f s) s.
Proof. reflexivity. Qed.

#[export] Hint Rewrite @bind_ret @bind_gets @bind_some @bind_none @bind_fail @bind_modify
  @bind_assoc @ret_Done @some_Done @modify_Done @gets_Done : go_step.

(** Run the straight-line statements of a fragment. *)
Ltac go_step := repeat (autorewrite with go_step; cbn beta iota).

Lemma or_fail_Done {S A : Type} f (o : option A) (s : S) a s' :
  or_fail f o s = Done a s' -> o = Some a /\ s' = s.
Proof. destruct o; unfold or_fail, mret, go_ret, fail; intros; simplify_eq; eauto. Qed.

(** ** Partial correctness of fragments

    [ensures P m Q]: started in a state of [P], [m] ends, if it does, with a
    value and a state of [Q]. *)

Definition ensures {S A : Type} (P : S -> Prop) (m : go S A) (Q : A -> S -> Prop) : Prop :=
  forall s a s', P s -> m s = Done a s' -> Q a s'.

Section ensures.
Context {S : Type}.
Implicit Types P : S -> Prop.

Lemma ensures_bind {A B : Type} P (m : go S A) (k : A -> go S B) R (Q : B -> S -> Prop) :
  ensures P m R -> (forall a, ensures (R a) (k a) Q) -> ensures P (m ≫= k) Q.
Proof. intros Hm Hk s b s' Hs (a & s1 & H1 & H2)%bind_Done_inv. by apply (Hk a s1 b s'); [apply (Hm s)|]. Qed.

Lemma ensures_ret {A : Type} P (a : A) (Q : A -> S -> Prop) : (forall s, P s -> Q a s) -> ensures P (mret a) Q.
Proof. intros HQ s a' s' Hs [= <- <-]. by apply HQ. Qed.

Lemma ensures_gets {A : Type} P (f : S -> A) : ensures P (gets f) (fun a s => P s /\ a = f s).
Proof. by intros s a s' Hs [= <- <-]. Qed.

Lemma ensures_modify P (f : S -> S) (Q : unit -> S -> Prop) :
  (forall s, P s -> Q tt (f s)) -> ensures P (modify f) Q.
Proof. intros HQ s a s' Hs [= <- <-]. by apply HQ. Qed.

Lemma ensures_or_fail {A : Type} P f (o : option A) : ensures P (or_fail f o) (fun a s => P s /\ o = Some a).
Proof. intros s a s' Hs [-> ->]%or_fail_Done. done. Qed.

Lemma ensures_if {A : Type} P (c : bool) (m m' : go S A) Q :
  (c = true -> ensures P m Q) -> (c = false -> ensures P m' Q) -> ensures P (if c then m else m') Q.
Proof. destruct c; auto. Qed.

Lemma ensures_weaken {A : Type} P P' (m : go S A) (Q Q' : A -> S -> Prop) :
  ensures P' m Q' -> (forall s, P s -> P' s) -> (forall a s, Q' a s -> Q a s) -> ensures P m Q.
Proof. intros Hm HP HQ s a s' Hs Hr. by eapply HQ, Hm; [apply HP|]. Qed.

End ensures.

#[global] Arguments i64 : simpl never.
#[global] Arguments u64 : simpl never.
#[global] Arguments be_bytes : simpl never.
#[global] Arguments be_uint : simpl never.
#[global] Arguments go_slice : simpl never.
#[global] Arguments go_copy : simpl never.
#[global] Arguments copy_into : simpl never.
