(* ===== verification/Float64.v ===== *)
(** * Float64: the [float64] operations of [utils/utils.go]

    The source compares a quotient computed in [float64] with an integer
    quotient ([CeilForce], [CeilForceInt]) and prints scaled byte counts
    ([ByteCountSI]).  The IEEE 754 operations of the language are those of the
    Standard Library's [SpecFloat] at precision 53 and maximal exponent 1024:
    conversion from [int64] (round to nearest, ties to even), division and
    comparison.  The lemmas say what the comparison of a rounded quotient with
    an exact integer quotient decides. *)

From S2P Require Import Prelude.
From Stdlib Require Import SpecFloat.

Definition f64 : Type := spec_float.

(** [float64(z)] *)
Definition f64_of_int (z : Z) : f64 := binary_normalize 53 1024 z 0 false.

(** [a / b] *)
Definition f64_div (a b : f64) : f64 := SFdiv 53 1024 a b.

(** [a > b] *)
Definition f64_gtb (a b : f64) : bool := SFltb b a.

(** A finite positive number whose significand has exactly 53 bits. *)
Definition normal (f : f64) (m : positive) (e : Z) : Prop :=
  f = S754_finite false m e /\ 2 ^ 52 <= Zpos m < 2 ^ 53.

(** ** Digits and shifts *)

Lemma digits2_bounds (p : positive) :
  2 ^ (Zpos (digits2_pos p) - 1) <= Zpos p < 2 ^ Zpos (digits2_pos p).
Proof.
  induction p as [p IH|p IH|]; cbn [digits2_pos]; [| |by split].
  all: rewrite Pos2Z.inj_succ;
    replace (Z.succ (Zpos (digits2_pos p)) - 1) with (Z.succ (Zpos (digits2_pos p) - 1)) by lia;
    rewrite !Z.pow_succ_r by lia;
    rewrite ?(Pos2Z.inj_xI p), ?(Pos2Z.inj_xO p); lia.
Qed.

Lemma digits2_unique (p : positive) (k : Z) :
  2 ^ (k - 1) <= Zpos p < 2 ^ k -> Zpos (digits2_pos p) = k.
Proof.
  intros Hk. pose proof (digits2_bounds p) as Hd.
  assert (0 <= k). { destruct (decide (0 <= k)); [done|]. rewrite !Z.pow_neg_r in Hk by lia. lia. }
  assert (Zpos (digits2_pos p) - 1 < k) by (apply (Z.pow_lt_mono_r_iff 2); lia).
  assert (k - 1 < Zpos (digits2_pos p)) by (apply (Z.pow_lt_mono_r_iff 2); lia).
  lia.
Qed.

Lemma iter_xO (p d : positive) : Zpos (Pos.iter xO p d) = Zpos p * 2 ^ Zpos d.
Proof.
  induction d as [|d IH] using Pos.peano_ind; [cbn; lia|].
  rewrite Pos.iter_succ, Pos2Z.inj_succ, Z.pow_succ_r by lia. lia.
Qed.

(** ** Rounding *)

Lemma shr_fexp_53 (m : positive) (e : Z) (l : location) :
  2 ^ 52 <= Zpos m < 2 ^ 53 -> -1074 <= e ->
  shr_fexp 53 1024 (Zpos m) e l = (shr_record_of_loc (Zpos m) l, e).
Proof.
  intros Hm He. unfold shr_fexp, fexp, emin. cbn [Zdigits2].
  rewrite (digits2_unique m 53) by (cbn in *; lia).
  replace (Z.max (53 + e - 53) (3 - 1024 - 53) - e) with 0 by lia. reflexivity.
Qed.

Lemma shr_fexp_54 (m : positive) (e : Z) (l : location) :
  2 ^ 53 <= Zpos m < 2 ^ 54 -> -1074 <= e ->
  shr_fexp 53 1024 (Zpos m) e l = (shr_1 (shr_record_of_loc (Zpos m) l), e + 1).
Proof.
  intros Hm He. unfold shr_fexp, fexp, emin. cbn [Zdigits2].
  rewrite (digits2_unique m 54) by (cbn in *; lia).
  replace (Z.max (54 + e - 53) (3 - 1024 - 53) - e) with 1 by lia. reflexivity.
Qed.

(** The last step of a rounding: a significand of 53 bits is kept, the carry
    [2^53] is renormalised. *)
Definition finish (m e : Z) : f64 :=
  let '(mrs, e') := shr_fexp 53 1024 m e loc_Exact in
  match shr_m mrs with
  | Z0 => S754_zero false
  | Zpos p => if e' <=? 1024 - 53 then S754_finite false p e' else S754_infinity false
  | Zneg _ => S754_nan
  end.

Lemma finish_normal (m e : Z) :
  2 ^ 52 <= m <= 2 ^ 53 -> -1074 <= e <= 900 ->
  exists p e', normal (finish m e) p e' /\ e <= e' /\ Zpos p * 2 ^ (e' - e) = m.
Proof.
  intros Hm He. unfold finish.
  destruct m as [|m|m]; try (cbn in Hm; lia).
  destruct (decide (Zpos m = 2 ^ 53)) as [E|E].
  - rewrite shr_fexp_54 by lia. injection E as ->. cbn [shr_1 shr_record_of_loc shr_m].
    rewrite (proj2 (Z.leb_le _ _)) by lia.
    exists (2 ^ 52)%positive, (e + 1). unfold normal.
    replace (e + 1 - e) with 1 by lia. repeat split; lia.
  - rewrite shr_fexp_53 by lia. cbn [shr_record_of_loc shr_m].
    rewrite (proj2 (Z.leb_le _ _)) by lia.
    exists m, e. unfold normal. rewrite Z.sub_diag. repeat split; lia.
Qed.

Lemma loc_of_record (m : Z) (l : location) : loc_of_shr_record (shr_record_of_loc m l) = l.
Proof. by destruct l as [|[]]. Qed.

Lemma shr_m_of_loc (m : Z) (l : location) : shr_m (shr_record_of_loc m l) = m.
Proof. by destruct l as [|[]]. Qed.

Lemma round_even_bounds (m : Z) (l : location) :
  m <= round_nearest_even m l <= m + 1.
Proof. destruct l as [|[]]; cbn; try lia. destruct (Z.even m); lia. Qed.

Lemma binary_round_aux_53 (m : positive) (e : Z) (l : location) :
  2 ^ 52 <= Zpos m < 2 ^ 53 -> -1074 <= e ->
  binary_round_aux 53 1024 false (Zpos m) e l = finish (round_nearest_even (Zpos m) l) e.
Proof.
  intros Hm He. unfold binary_round_aux, finish.
  rewrite shr_fexp_53, loc_of_record, shr_m_of_loc by done. reflexivity.
Qed.

(** A significand of 54 bits loses its last bit: an odd one with a remainder
    is rounded up. *)
Lemma binary_round_aux_54 (m : positive) (e : Z) (l : location) :
  2 ^ 53 <= Zpos m < 2 ^ 54 -> -1074 <= e ->
  exists r, binary_round_aux 53 1024 false (Zpos m) e l = finish r (e + 1) /\
    Zpos m / 2 <= r <= Zpos m / 2 + 1 /\
    (l = loc_Exact -> Z.even (Zpos m) = true -> r = Zpos m / 2) /\
    (l <> loc_Exact -> Z.odd (Zpos m) = true -> r = Zpos m / 2 + 1).
Proof.
  intros Hm He. unfold binary_round_aux, finish.
  rewrite shr_fexp_54 by done. eexists. split; [reflexivity|].
  pose proof (Z.div_mod (Zpos m) 2) as Hdm. pose proof (Z.mod_pos_bound (Zpos m) 2).
  assert (Hs : shr_m (shr_1 (shr_record_of_loc (Zpos m) l)) = Zpos m / 2).
  { destruct m as [m|m|]; [| |cbn in Hm; lia]; destruct l as [|[]]; cbn [shr_record_of_loc shr_1 shr_m];
      cbn in Hdm |- *; lia. }
  rewrite Hs. split; [apply round_even_bounds|].
  destruct m as [m|m|]; [| |cbn in Hm; lia]; destruct l as [|[]]; done.
Qed.

(** ** Comparison *)

Lemma digits_pos_compare (m1 m2 : positive) : Pos.compare_cont Eq m1 m2 = (Zpos m1 ?= Zpos m2).
Proof. reflexivity. Qed.

Lemma pow2_split (a b : Z) : 0 <= a < b -> 2 ^ b = 2 ^ (b - a - 1) * 2 * 2 ^ a.
Proof.
  intros. replace (2 ^ (b - a - 1) * 2) with (2 ^ (b - a - 1 + 1)).
  - rewrite <- Z.pow_add_r by lia. f_equal. lia.
  - rewrite Z.pow_add_r by lia. lia.
Qed.

Lemma mantissa_lt (m m' t p : Z) :
  2 ^ 52 <= m -> m' < 2 ^ 53 -> 0 < t -> 0 < p -> m' * p < m * (t * 2 * p).
Proof.
  intros. replace (m * (t * 2 * p)) with (m * 2 * t * p) by ring.
  apply Z.mul_lt_mono_pos_r; [done|]. nia.
Qed.

Lemma f64_gtb_normal (f g : f64) m e m' e' :
  normal f m e -> normal g m' e' -> -200 <= e -> -200 <= e' ->
  f64_gtb f g = (Zpos m' * 2 ^ (e' + 200) <? Zpos m * 2 ^ (e + 200)).
Proof.
  intros [-> Hm] [-> Hm'] He He'. unfold f64_gtb, SFltb, SFcompare.
  destruct (Z.compare_spec e' e) as [->|Hlt|Hgt].
  - rewrite digits_pos_compare.
    pose proof (Z.pow_pos_nonneg 2 (e + 200) ltac:(lia) ltac:(lia)) as Hp.
    destruct (Z.compare_spec (Zpos m') (Zpos m)) as [E|E|E]; symmetry;
      [apply Z.ltb_ge|apply Z.ltb_lt|apply Z.ltb_ge]; nia.
  - symmetry. apply Z.ltb_lt. rewrite (pow2_split (e' + 200) (e + 200)) by lia.
    by apply mantissa_lt; try apply Z.pow_pos_nonneg; lia.
  - symmetry. apply Z.ltb_ge. rewrite (pow2_split (e + 200) (e' + 200)) by lia.
    apply Z.lt_le_incl. by apply mantissa_lt; try apply Z.pow_pos_nonneg; lia.
Qed.

(** ** Conversion and division of integers below [2^53] *)

(** The number of binary digits of a positive integer. *)
Definition bits (p : positive) : Z := Zpos (digits2_pos p).

Lemma bits_range (z : positive) : Zpos z < 2 ^ 53 -> 1 <= bits z <= 53.
Proof.
  intros Hz. pose proof (digits2_bounds z) as Hd. unfold bits.
  assert (Zpos (digits2_pos z) - 1 < 53) by (apply (Z.pow_lt_mono_r_iff 2); lia). lia.
Qed.

Lemma scaled_bounds (z : positive) :
  Zpos z < 2 ^ 53 -> 2 ^ 52 <= Zpos z * 2 ^ (53 - bits z) < 2 ^ 53.
Proof.
  intros Hz. pose proof (digits2_bounds z) as Hd. pose proof (bits_range z Hz).
  unfold bits in *. set (d := Zpos (digits2_pos z)) in *.
  assert (E1 : 2 ^ 52 = 2 ^ (d - 1) * 2 ^ (53 - d)) by (rewrite <- Z.pow_add_r by lia; f_equal; lia).
  assert (E2 : 2 ^ 53 = 2 ^ d * 2 ^ (53 - d)) by (rewrite <- Z.pow_add_r by lia; f_equal; lia).
  pose proof (Z.pow_pos_nonneg 2 (53 - d)). nia.
Qed.

Lemma f64_of_int_normal (z : positive) :
  Zpos z < 2 ^ 53 ->
  exists m, normal (f64_of_int (Zpos z)) m (bits z - 53) /\ Zpos m = Zpos z * 2 ^ (53 - bits z).
Proof.
  intros Hz. pose proof (scaled_bounds z Hz) as Hs. pose proof (bits_range z Hz) as Hb.
  assert (Hal : exists m, shl_align z 0 (fexp 53 1024 (bits z + 0)) = (m, bits z - 53) /\
                  Zpos m = Zpos z * 2 ^ (53 - bits z)).
  { unfold shl_align, fexp, emin. replace (Z.max _ _) with (bits z - 53) by lia.
    rewrite Z.sub_0_r. destruct (bits z - 53) as [|d|d] eqn:Ed; [|lia|].
    - exists z. split; [done|]. replace (53 - bits z) with 0 by lia. lia.
    - eexists. split; [reflexivity|]. rewrite iter_xO. do 2 f_equal. lia. }
  destruct Hal as (m & Hal & Hm). exists m.
  unfold f64_of_int, binary_normalize, binary_round. fold (bits z). rewrite Hal.
  rewrite binary_round_aux_53 by lia. cbn [round_nearest_even].
  unfold finish. rewrite shr_fexp_53 by lia. cbn [shr_record_of_loc shr_m].
  rewrite (proj2 (Z.leb_le _ _)) by lia. unfold normal. split; [split; [done|lia]|done].
Qed.

Lemma new_location_exact (n k : Z) : new_location n k = loc_Exact <-> k = 0.
Proof.
  unfold new_location, new_location_even, new_location_odd.
  destruct (Z.even n), (Z.eqb_spec k 0); split; intros; (done || lia).
Qed.

(** The quotient of two converted integers, before rounding: the significand
    is the integer part of the quotient scaled by [2^k], where
    [k = 53 - (bits x - bits y)]. *)
Lemma f64_div_core (x y : positive) :
  Zpos x < 2 ^ 53 -> Zpos y < 2 ^ 53 ->
  let k := 53 - (bits x - bits y) in
  let q := Zpos x * 2 ^ k / Zpos y in
  let r := (Zpos x * 2 ^ k) mod Zpos y in
  exists l, f64_div (f64_of_int (Zpos x)) (f64_of_int (Zpos y)) = binary_round_aux 53 1024 false q (- k) l /\
    (l = loc_Exact <-> r = 0) /\ 2 ^ 52 <= q < 2 ^ 54.
Proof.
  intros Hx Hy k q r.
  destruct (f64_of_int_normal x Hx) as (mx & [Ex Hmx] & Vx).
  destruct (f64_of_int_normal y Hy) as (my & [Ey Hmy] & Vy).
  pose proof (bits_range x Hx). pose proof (bits_range y Hy).
  assert (Hpy : 0 < 2 ^ (53 - bits y)) by (apply Z.pow_pos_nonneg; lia).
  assert (Hscale : Zpos mx * 2 ^ 53 = (Zpos x * 2 ^ k) * 2 ^ (53 - bits y)).
  { rewrite Vx, <- !Z.mul_assoc, <- !Z.pow_add_r by lia. do 2 f_equal. lia. }
  assert (Hq : Zpos mx * 2 ^ 53 / Zpos my = q).
  { rewrite Hscale, Vy. apply Z.div_mul_cancel_r; lia. }
  assert (Hr : (Zpos mx * 2 ^ 53) mod Zpos my = r * 2 ^ (53 - bits y)).
  { rewrite Hscale, Vy. apply Z.mul_mod_distr_r; lia. }
  exists (new_location (Zpos my) ((Zpos mx * 2 ^ 53) mod Zpos my)). split; [|split].
  - rewrite Ex, Ey. unfold f64_div, SFdiv, SFdiv_core_binary. cbn [Zdigits2 xorb].
    rewrite !(digits2_unique _ 53) by (cbn in *; lia).
    unfold fexp, emin. replace (Z.min _ _) with (- k) by lia.
    replace (bits x - 53 - (bits y - 53) - - k) with 53 by lia.
    rewrite Z.shiftl_mul_pow2 by lia. unfold Z.div, Z.modulo in *.
    destruct (Z.div_eucl (Zpos mx * 2 ^ 53) (Zpos my)) as [a b]. by rewrite Hq.
  - rewrite new_location_exact, Hr. nia.
  - rewrite <- Hq. split.
    + apply Z.div_le_lower_bound; lia.
    + apply Z.div_lt_upper_bound; lia.
Qed.

(** Rounding the scaled quotient [q]: with 53 digits it is kept or
    incremented, with 54 digits it is halved first. *)
Lemma f64_div_rounded (x y : positive) :
  Zpos x < 2 ^ 53 -> Zpos y < 2 ^ 53 ->
  let k := 53 - (bits x - bits y) in
  let q := Zpos x * 2 ^ k / Zpos y in
  let r := (Zpos x * 2 ^ k) mod Zpos y in
  exists m e,
    normal (f64_div (f64_of_int (Zpos x)) (f64_of_int (Zpos y))) m e /\ - k <= e /\
    ((q < 2 ^ 53 /\ q <= Zpos m * 2 ^ (e + k) /\ (r = 0 -> Zpos m * 2 ^ (e + k) = q)) \/
     exists h, Zpos m * 2 ^ (e + k) = 2 * h /\ q / 2 <= h /\
       (r = 0 -> Z.even q = true -> h = q / 2) /\ (r <> 0 -> Z.odd q = true -> h = q / 2 + 1)).
Proof.
  intros Hx Hy k q r. destruct (f64_div_core x y Hx Hy) as (l & -> & Hl & Hq).
  fold k q r in Hl, Hq |- *. pose proof (bits_range x Hx). pose proof (bits_range y Hy).
  destruct q as [|q|q]; try (cbn in Hq; lia).
  destruct (decide (Zpos q < 2 ^ 53)) as [H53|H54].
  - rewrite binary_round_aux_53 by lia.
    pose proof (round_even_bounds (Zpos q) l) as Hr.
    destruct (finish_normal (round_nearest_even (Zpos q) l) (- k)) as (m & e & Hn & He & Hv); [lia..|].
    exists m, e. replace (e - - k) with (e + k) in Hv by lia. split; [done|]. split; [done|].
    left. rewrite Hv. split_and!; [done|lia|]. intros ->%Hl. reflexivity.
  - destruct (binary_round_aux_54 q (- k) l) as (h & -> & Hh & Hex & Hodd); [lia..|].
    assert (2 ^ 52 <= Zpos q / 2) by (apply Z.div_le_lower_bound; lia).
    assert (Zpos q / 2 < 2 ^ 53) by (apply Z.div_lt_upper_bound; lia).
    destruct (finish_normal h (- k + 1)) as (m & e & Hn & He & Hv); [lia..|].
    exists m, e. split; [done|]. split; [lia|]. right. exists h. split_and!.
    + replace (e + k) with (Z.succ (e - (- k + 1))) by lia. rewrite Z.pow_succ_r by lia. lia.
    + lia.
    + intros ->%Hl. by apply Hex.
    + intros Hr. apply Hodd. by rewrite Hl.
Qed.

(** The scaled quotient against the scaled integer quotient. *)
Lemma scaled_quotient (x y : positive) :
  Zpos x < 2 ^ 53 -> Zpos y < 2 ^ 53 ->
  let k := 53 - (bits x - bits y) in
  let q := Zpos x * 2 ^ k / Zpos y in
  let r := (Zpos x * 2 ^ k) mod Zpos y in
  let w := Zpos x / Zpos y * 2 ^ (k - 1) in
  (Zpos x mod Zpos y = 0 -> q = 2 * w /\ r = 0) /\
  (Zpos x mod Zpos y <> 0 -> 2 * w + 1 <= q /\ (q = 2 * w + 1 -> r <> 0)).
Proof.
  intros Hx Hy k q r w. pose proof (bits_range x Hx). pose proof (bits_range y Hy).
  pose proof (Z.div_mod (Zpos x) (Zpos y) ltac:(lia)) as Hdm.
  pose proof (Z.mod_pos_bound (Zpos x) (Zpos y) ltac:(lia)) as Hmb.
  pose proof (Z.div_mod (Zpos x * 2 ^ k) (Zpos y) ltac:(lia)) as Hdq.
  pose proof (Z.mod_pos_bound (Zpos x * 2 ^ k) (Zpos y) ltac:(lia)) as Hrb.
  fold q r in Hdq, Hrb.
  assert (Hk : 2 ^ k = 2 * 2 ^ (k - 1)).
  { replace k with (Z.succ (k - 1)) at 1 by lia. apply Z.pow_succ_r. lia. }
  assert (Hyk : Zpos y < 2 ^ k).
  { pose proof (digits2_bounds y) as Hd. fold (bits y) in Hd.
    apply Z.lt_le_trans with (2 ^ bits y); [lia|]. apply Z.pow_le_mono_r; lia. }
  assert (Hw : 2 * w = Zpos x / Zpos y * 2 ^ k) by (unfold w; lia).
  clearbody q r w.
  set (Q := Zpos x / Zpos y) in *. set (rho := Zpos x mod Zpos y) in *. clearbody Q rho.
  set (P := 2 ^ k) in *. clearbody P. rewrite Hdm, Z.mul_add_distr_r in Hdq.
  assert (Heq : Zpos y * (q - 2 * w) = rho * P - r) by lia. split; intros Hz.
  - assert (q - 2 * w = 0) by nia. split; nia.
  - assert (P <= rho * P) by nia. split; [nia|]. intros ->. nia.
Qed.

(** Comparing the rounded [float64] quotient of two integers below [2^53] with
    their converted integer quotient decides whether the division leaves a
    remainder: no quotient that is not an integer is rounded onto one. *)
Lemma f64_quotient_gtb (x y : Z) :
  0 <= x < 2 ^ 53 -> 0 < y < 2 ^ 53 ->
  f64_gtb (f64_div (f64_of_int x) (f64_of_int y)) (f64_of_int (x / y)) =
  negb (x mod y =? 0).
Proof.
  intros Hx Hy. destruct y as [|y|y]; try lia. destruct x as [|x|x]; try lia.
  { destruct (f64_of_int_normal y) as (my & [-> _] & _); [lia|].
    rewrite Z.div_0_l, Z.mod_0_l by lia. reflexivity. }
  destruct (f64_div_rounded x y) as (m & e & Hn & He & Hv); [lia..|].
  destruct (scaled_quotient x y) as [H0 H1]; [lia..|].
  pose proof (bits_range x). pose proof (bits_range y).
  set (k := 53 - (bits x - bits y)) in *.
  set (q := Zpos x * 2 ^ k / Zpos y) in *. set (r := (Zpos x * 2 ^ k) mod Zpos y) in *.
  set (w := Zpos x / Zpos y * 2 ^ (k - 1)) in *.
  assert (HvQ : Zpos x mod Zpos y = 0 /\ Zpos m * 2 ^ (e + k) = 2 * w \/
                Zpos x mod Zpos y <> 0 /\ 2 * w < Zpos m * 2 ^ (e + k)).
  { destruct (decide (Zpos x mod Zpos y = 0)) as [Hz|Hz]; [left|right]; (split; [done|]).
    - destruct (H0 Hz) as [Hq Hr]. destruct Hv as [(_ & _ & Hv)|(h & -> & _ & Hh & _)].
      + rewrite Hv; lia.
      + rewrite Hh; [|done|rewrite Hq, Z.even_mul; done]. rewrite Hq, (Z.mul_comm 2 w), Z.div_mul; lia.
    - destruct (H1 Hz) as [Hq Hr]. destruct Hv as [(_ & Hv & _)|(h & -> & Hh & _ & Hodd)]; [lia|].
      destruct (decide (q = 2 * w + 1)) as [Eq|Ne].
      + rewrite Hodd; [|auto|rewrite Eq, Z.odd_add, Z.odd_mul; done].
        rewrite Eq, (Z.mul_comm 2 w), Z.div_add_l by lia. change (1 / 2) with 0. lia.
      + assert (w + 1 <= q / 2) by (apply Z.div_le_lower_bound; lia). lia. }
  pose proof (Z.div_pos (Zpos x) (Zpos y) ltac:(lia) ltac:(lia)) as HQ.
  assert (HQx : Zpos x / Zpos y < 2 ^ 53).
  { apply Z.le_lt_trans with (Zpos x); [apply Z.div_le_upper_bound; nia|lia]. }
  unfold w in HvQ. destruct (Zpos x / Zpos y) as [|Q|Q]; [|clear H0 H1|lia].
  - destruct Hn as [-> Hm]. change (f64_of_int 0) with (S754_zero false).
    destruct HvQ as [[_ HvQ]|[Hz _]]; [|by rewrite (proj2 (Z.eqb_neq _ _) Hz)].
    pose proof (Z.pow_pos_nonneg 2 (e + k)). nia.
  - destruct (f64_of_int_normal Q HQx) as (mQ & HnQ & VQ). pose proof (bits_range Q HQx).
    rewrite (f64_gtb_normal _ _ _ _ _ _ Hn HnQ), VQ by lia.
    assert (E1 : Zpos Q * 2 ^ (53 - bits Q) * 2 ^ (bits Q - 53 + 200) = 2 * (Zpos Q * 2 ^ (k - 1)) * 2 ^ (200 - k)).
    { rewrite <- Z.mul_assoc, <- Z.pow_add_r by lia.
      replace (2 * (Zpos Q * 2 ^ (k - 1)) * 2 ^ (200 - k)) with (Zpos Q * (2 ^ 1 * 2 ^ (k - 1) * 2 ^ (200 - k))) by ring.
      rewrite <- !Z.pow_add_r by lia. do 2 f_equal. lia. }
    assert (E2 : Zpos m * 2 ^ (e + 200) = Zpos m * 2 ^ (e + k) * 2 ^ (200 - k)).
    { rewrite <- Z.mul_assoc, <- Z.pow_add_r by lia. do 2 f_equal. lia. }
    rewrite E1, E2. pose proof (Z.pow_pos_nonneg 2 (200 - k) ltac:(lia) ltac:(lia)) as Hp.
    destruct HvQ as [[-> ->]|[Hz HvQ]].
    + rewrite Z.ltb_irrefl. reflexivity.
    + rewrite (proj2 (Z.eqb_neq _ _) Hz). apply Z.ltb_lt. by apply Z.mul_lt_mono_pos_r.
Qed.

(** ** Signs *)

(** Not a positive number: a negative one, the negative zero or no number. *)
Definition not_positive (f : f64) : Prop :=
  match f with
  | S754_zero s | S754_infinity s | S754_finite s _ _ => s = true
  | S754_nan => True
  end.

Lemma binary_round_aux_sign (s : bool) (m e : Z) (l : location) :
  s = true -> not_positive (binary_round_aux 53 1024 s m e l).
Proof.
  intros ->. unfold binary_round_aux. destruct (shr_fexp _ _ _ _ _) as [r e1].
  destruct (shr_fexp _ _ _ _ _) as [r' e2]. destruct (shr_m r'); [done| |done]. by destruct (_ <=? _).
Qed.

Lemma f64_of_int_sign (z : Z) : z < 0 -> not_positive (f64_of_int z).
Proof.
  intros Hz. destruct z as [|z|z]; [lia..|]. unfold f64_of_int, binary_normalize, binary_round.
  destruct (shl_align _ _ _) as [m e]. by apply binary_round_aux_sign.
Qed.

Lemma f64_of_int_unsigned (z : Z) : 0 <= z ->
  match f64_of_int z with S754_zero s | S754_infinity s | S754_finite s _ _ => s = false | S754_nan => True end.
Proof.
  intros Hz. destruct z as [|z|z]; [done| |lia]. unfold f64_of_int, binary_normalize, binary_round, binary_round_aux.
  destruct (shl_align _ _ _) as [m e]. destruct (shr_fexp _ _ _ _ _) as [r e1].
  destruct (shr_fexp _ _ _ _ _) as [r' e2]. destruct (shr_m r'); [done| |done]. by destruct (_ <=? _).
Qed.

(** A quotient by a negative number is never compared as greater than zero. *)
Lemma f64_quotient_negative (x y : Z) :
  0 <= x -> y < 0 -> f64_gtb (f64_div (f64_of_int x) (f64_of_int y)) (f64_of_int 0) = false.
Proof.
  intros Hx Hy. pose proof (f64_of_int_unsigned x Hx) as Hu. pose proof (f64_of_int_sign y Hy) as Hs.
  change (f64_of_int 0) with (S754_zero false).
  assert (Hn : not_positive (f64_div (f64_of_int x) (f64_of_int y))).
  { destruct (f64_of_int x) as [sx|sx| |sx mx ex], (f64_of_int y) as [sy|sy| |sy my ey];
      cbn [not_positive] in *; subst; try done.
    unfold f64_div, SFdiv. destruct (SFdiv_core_binary _ _ _ _ _ _) as [[mz ez] lz]. by apply binary_round_aux_sign. }
  unfold f64_gtb, SFltb. destruct (f64_div _ _) as [s|s| |s m e]; cbn in *; subst; done.
Qed.
