(* ===== verification/Utils.v ===== *)
(** * Utils: [utils/utils.go]

    The helpers on ports, sequence-number slices, integers and byte counts.
    Functions that can panic return an [option]: [None] is the panic. *)

From S2P Require Import Prelude Float64.
From stdpp Require Import pretty.
From Stdlib Require Import SpecFloat Ascii Sorted.
#[local] Open Scope Z_scope.

(** ** [strings.Split], [strings.Join] and [strconv.Atoi] *)

(** [strings.Split(s, sep)] for a separator of one character. *)
Fixpoint Split (sep : ascii) (s : string) : list string :=
  match s with
  | EmptyString => [""]
  | String c s' =>
      if decide (c = sep) then "" :: Split sep s'
      else match Split sep s' with
           | w :: ws => String c w :: ws
           | [] => [String c ""]
           end
  end.

(** [strings.Join(l, sep)] for a separator of one character. *)
Fixpoint Join (sep : ascii) (l : list string) : string :=
  match l with
  | [] => ""
  | [w] => w
  | w :: ws => w +:+ String sep (Join sep ws)
  end.

Definition digit (c : ascii) : option Z :=
  let d := Z.of_nat (Ascii.nat_of_ascii c) - 48 in
  if (0 <=? d) && (d <=? 9) then Some d else None.

(** The unsigned accumulation of [strconv.ParseUint] in base 10: [None] is a
    syntax error; a number above the [uint64] range stops at the maximum. *)
Fixpoint ParseUint (s : string) (n : Z) : option Z :=
  match s with
  | EmptyString => Some n
  | String c s' =>
      match digit c with
      | None => None
      | Some d =>
          let n1 := n * 10 + d in
          if 2 ^ 64 - 1 <? n1 then Some (2 ^ 64 - 1) else ParseUint s' n1
      end
  end.

(** The first result of [strconv.Atoi(s)], the one kept when the error is
    ignored: 0 for a syntax error, the nearest bound for a range error. *)
Definition Atoi (s : string) : Z :=
  let '(neg, digits) :=
    match s with
    | String "-"%char s' => (true, s')
    | String "+"%char s' => (false, s')
    | _ => (false, s)
    end in
  match digits with
  | EmptyString => 0
  | _ =>
      match ParseUint digits 0 with
      | None => 0
      | Some un =>
          if neg then (if 2 ^ 63 <? un then - 2 ^ 63 else - un)
          else (if 2 ^ 63 <=? un then 2 ^ 63 - 1 else un)
      end
  end.

(** ** The functions of the file *)

Definition IncreasePortInAddress (addr : string) (index : Z) : string :=
  let addrParts := Split ":"%char addr in
  let last := (length addrParts - 1)%nat in
  let port := Atoi (default "" (addrParts !! last)) in
  let addrParts := <[last := pretty (i64 (port + index))]> addrParts in
  Join ":"%char addrParts.

(** The loop of [IndexOf]: [k] is the index of the first element of [data]. *)
Fixpoint IndexOf_from (element : Z) (k : Z) (data : list Z) : Z :=
  match data with
  | [] => -1
  | v :: vs => if element =? v then k else IndexOf_from element (k + 1) vs
  end.

Definition IndexOf (element : Z) (data : list Z) : Z := IndexOf_from element 0 data.

(** The loop of [IndexOfMin]: [n] is [len(data)], [k] the current index; the
    element [data[k+1]] is the head of the remaining list. *)
Fixpoint IndexOfMin_from (element n : Z) (k : Z) (data : list Z) : Z :=
  match data with
  | [] => -1
  | v :: vs =>
      if element =? v then k
      else if (element >? v) && (n =? 1) then k
      else if (element >? v) && (k =? n - 1) then k
      else if (element >? v) && (k <? n - 1) &&
              match vs with next :: _ => element <? next | [] => false end then k
      else IndexOfMin_from element n (k + 1) vs
  end.

Definition IndexOfMin (element : Z) (data : list Z) : Z :=
  IndexOfMin_from element (zlen data) 0 data.

Definition RemoveFromSlice (s : list Z) (i : Z) : list Z :=
  let index := IndexOf i s in
  if index =? -1 then s
  else
    let n := length s in
    let s := <[Z.to_nat index := default 0 (s !! (n - 1)%nat)]> s in
    take (n - 1) s.

(** [append(s[:index], s[index+1:]...)] *)
Definition RemoveFromSliceByIndex (s : list Z) (index : Z) : option (list Z) :=
  match go_slice s 0 index, go_slice s (index + 1) (zlen s) with
  | Some a, Some b => Some (a ++ b)
  | _, _ => None
  end.

Definition Max64 (x y : Z) : Z := if x <? y then y else x.

Definition Max (x y : Z) : Z := if x <? y then y else x.

Definition Min (x y : Z) : Z := if x >? y then y else x.

Definition CeilForce (x y : Z) : option Z :=
  if y =? 0 then None
  else
    let res := i64 (Z.quot x y) in
    let f := f64_div (f64_of_int x) (f64_of_int y) in
    if f64_gtb f (f64_of_int res) then Some (i64 (res + 1)) else Some res.

Definition CeilForceInt (x y : Z) : option Z :=
  if y =? 0 then None
  else
    let res := i64 (Z.quot x y) in
    let f := f64_div (f64_of_int x) (f64_of_int y) in
    if f64_gtb f (f64_of_int res) then Some (i64 (res + 1)) else Some res.

Fixpoint AppendIfMissing_from (all slice : list Z) (i : Z) : list Z :=
  match slice with
  | [] => all ++ [i]
  | ele :: rest => if ele =? i then all else AppendIfMissing_from all rest i
  end.

Definition AppendIfMissing (slice : list Z) (i : Z) : list Z := AppendIfMissing_from slice slice i.

Definition Sum (array : list Z) : Z := fold_left (fun result v => i64 (result + v)) array 0.

(** The loop of [ByteCountSI]: [None] when the fuel runs out. *)
Fixpoint ByteCountSI_loop (fuel : nat) (n div exp : Z) : option (Z * Z) :=
  if n >=? 1000 then
    match fuel with
    | O => None
    | S fuel' => ByteCountSI_loop fuel' (Z.quot n 1000) (i64 (div * 1000)) (i64 (exp + 1))
    end
  else Some (div, exp).

(** The decimal digits that [%.1f] prints of a finite positive [float64]:
    ten times the value, rounded to the nearest integer, ties to even. *)
Definition tenths (f : f64) : Z :=
  match f with
  | S754_finite false m e =>
      let num := Zpos m * 10 * 2 ^ Z.max e 0 in
      let den := 2 ^ Z.max (- e) 0 in
      let q := num / den in
      let r := 2 * (num mod den) in
      if (r >? den) || ((r =? den) && Z.odd q) then q + 1 else q
  | _ => 0
  end.

(** The result of [ByteCountSI]: [None] is the panic of an index out of the
    six unit letters, or fuel that ran out. *)
Definition ByteCountSI (b : Z) : option string :=
  if b <? 1000 then Some (pretty b +:+ " B")
  else
    match ByteCountSI_loop 7 (Z.quot b 1000) 1000 0 with
    | None => None
    | Some (div, exp) =>
        let t := tenths (f64_div (f64_of_int b) (f64_of_int div)) in
        match go_index ["k"; "M"; "G"; "T"; "P"; "E"] exp with
        | None => None
        | Some unit => Some (pretty (t / 10) +:+ "." +:+ pretty (t mod 10) +:+ " " +:+ unit +:+ "B")
        end
    end.

(** ** Ceilings *)

(** The ceiling of a quotient of nonnegative integers. *)
Definition ceil_div (x y : Z) : Z := (x + y - 1) / y.

Lemma ceil_div_cases (x y : Z) :
  0 < y -> ceil_div x y = if x mod y =? 0 then x / y else x / y + 1.
Proof.
  intros Hy. unfold ceil_div.
  pose proof (Z.div_mod x y ltac:(lia)). pose proof (Z.mod_pos_bound x y Hy).
  destruct (Z.eqb_spec (x mod y) 0) as [Hz|Hz]; symmetry.
  - apply Z.div_unique with (y - 1); lia.
  - apply Z.div_unique with (x mod y - 1); lia.
Qed.

Lemma ceil_div_bounds (x y : Z) :
  0 < y -> (ceil_div x y - 1) * y < x <= ceil_div x y * y.
Proof.
  intros Hy. unfold ceil_div.
  pose proof (Z.div_mod (x + y - 1) y ltac:(lia)). pose proof (Z.mod_pos_bound (x + y - 1) y Hy). nia.
Qed.

Lemma ceil_div_nonneg (x y : Z) : 0 <= x -> 0 < y -> 0 <= ceil_div x y.
Proof. intros. apply Z.div_pos; lia. Qed.

Lemma ceil_div_le (x y : Z) : 0 <= x -> 0 < y -> ceil_div x y <= x.
Proof. intros. pose proof (ceil_div_bounds x y). nia. Qed.

Lemma CeilForceInt_exact (x y : Z) :
  0 <= x < 2 ^ 53 -> 0 < y < 2 ^ 53 -> CeilForceInt x y = Some (ceil_div x y).
Proof.
  intros Hx Hy. unfold CeilForceInt. rewrite (proj2 (Z.eqb_neq y 0)) by lia.
  rewrite Z.quot_div_nonneg by lia.
  pose proof (Z.div_pos x y). assert (x / y <= x) by (apply Z.div_le_upper_bound; nia).
  rewrite (i64_id (x / y)) by (unfold in_i64; lia).
  rewrite f64_quotient_gtb, ceil_div_cases by lia.
  destruct (x mod y =? 0); cbn [negb]; [done|]. no_wrap. done.
Qed.

(** By a negative number the result is never positive. *)
Lemma CeilForceInt_negative (x y : Z) :
  0 <= x < 2 ^ 63 -> y < 0 -> exists q, CeilForceInt x y = Some q /\ - x <= q <= 0.
Proof.
  intros Hx Hy. unfold CeilForceInt. rewrite (proj2 (Z.eqb_neq y 0)) by lia.
  assert (Hq : Z.quot x y = - (x / - y)).
  { rewrite <- (Z.opp_involutive y) at 1. rewrite Z.quot_opp_r, Z.quot_div_nonneg by lia. done. }
  pose proof (Z.div_pos x (- y) ltac:(lia) ltac:(lia)).
  assert (x / - y <= x) by (apply Z.div_le_upper_bound; nia).
  rewrite Hq, (i64_id (- _)) by (unfold in_i64; lia).
  destruct (decide (x / - y = 0)) as [E|E].
  - rewrite E. change (- 0) with 0. rewrite f64_quotient_negative by lia. exists 0. split; [done|lia].
  - destruct (f64_gtb _ _); eexists; (split; [reflexivity|]); rewrite ?i64_id by (unfold in_i64; lia); lia.
Qed.

Lemma CeilForceInt_CeilForce (x y : Z) : CeilForceInt x y = CeilForce x y.
Proof. reflexivity. Qed.

(** ** Searching *)

Lemma IndexOf_from_spec (element k : Z) (data : list Z) :
  0 <= k ->
  (IndexOf_from element k data = -1 /\ element ∉ data) \/
  (exists i : nat, IndexOf_from element k data = k + Z.of_nat i /\
     data !! i = Some element /\ forall j, (j < i)%nat -> data !! j <> Some element).
Proof.
  induction data as [|v vs IH] in k |- *; intros Hk; cbn [IndexOf_from].
  { left. split; [done|]. apply not_elem_of_nil. }
  destruct (Z.eqb_spec element v) as [->|Hne].
  { right. exists 0%nat. split_and!; [lia|done|lia]. }
  destruct (IH (k + 1)) as [[-> Hn]|(i & -> & Hi & Hfirst)]; [lia| |].
  - left. split; [done|]. by apply not_elem_of_cons.
  - right. exists (S i). split_and!; [lia|done|].
    intros [|j] Hj; cbn; [congruence|]. apply Hfirst. lia.
Qed.

Lemma IndexOf_absent (element : Z) (data : list Z) :
  element ∉ data -> IndexOf element data = -1.
Proof.
  intros Hn. destruct (IndexOf_from_spec element 0 data) as [[? _]|(i & _ & Hi & _)]; [lia|done|].
  destruct Hn. by apply list_elem_of_lookup_2 in Hi.
Qed.

Lemma IndexOf_present (element : Z) (data : list Z) :
  element ∈ data -> 0 <= IndexOf element data.
Proof.
  intros Hn. unfold IndexOf.
  destruct (IndexOf_from_spec element 0 data) as [[_ ?]|(i & -> & _)]; [lia|done|lia].
Qed.

(** Strictly ascending sequences. *)
Definition ascending (data : list Z) : Prop := StronglySorted Z.lt data.

Lemma ascending_cons (v : Z) (vs : list Z) :
  ascending (v :: vs) <-> (forall w, w ∈ vs -> v < w) /\ ascending vs.
Proof.
  unfold ascending. split.
  - intros H%StronglySorted_inv. rewrite Forall_forall in H. tauto.
  - intros [H1 H2]. constructor; [done|]. by apply Forall_forall.
Qed.

(** The number of elements at most [element]. *)
Definition count_le (element : Z) (data : list Z) : nat :=
  length (filter (fun v => v <= element) data).

Lemma count_le_cons_le element v vs :
  v <= element -> count_le element (v :: vs) = S (count_le element vs).
Proof. intros. unfold count_le. by rewrite filter_cons_True. Qed.

Lemma count_le_none element (data : list Z) :
  (forall w, w ∈ data -> element < w) -> count_le element data = 0%nat.
Proof.
  intros H. unfold count_le. destruct (filter _ data) as [|w ws] eqn:E; [done|].
  assert (Hw : w ∈ filter (fun v => v <= element) data) by (rewrite E; set_solver).
  apply list_elem_of_filter in Hw as [? ?%H]. lia.
Qed.

Lemma IndexOfMin_from_below (element n k : Z) (data : list Z) :
  (forall w, w ∈ data -> element < w) -> IndexOfMin_from element n k data = -1.
Proof.
  induction data as [|v vs IH] in k |- *; intros H; [done|]. cbn [IndexOfMin_from].
  assert (element < v) by (apply H; set_solver).
  rewrite (proj2 (Z.eqb_neq _ _)), Z.gtb_ltb, (proj2 (Z.ltb_ge _ _)) by lia.
  cbn [andb]. apply IH. intros w ?. apply H. set_solver.
Qed.

(** On an ascending sequence the loop finds the last element that is at most
    [element]. *)
Lemma IndexOfMin_from_ascending (element n k : Z) (data : list Z) :
  ascending data -> n = k + zlen data -> 0 <= k ->
  IndexOfMin_from element n k data =
    match count_le element data with O => -1 | S c => k + Z.of_nat c end.
Proof.
  unfold zlen.
  induction data as [|v vs IH] in k |- *; intros Hs Hn Hk; [done|].
  apply ascending_cons in Hs as [Hlt Hs]. cbn [IndexOfMin_from length] in *.
  destruct (Z.eqb_spec element v) as [->|Hne].
  { rewrite count_le_cons_le, count_le_none by (done || lia). lia. }
  rewrite Z.gtb_ltb. destruct (Z.ltb_spec v element) as [Hgt|Hge]; cbn [andb].
  2:{ rewrite count_le_none by (intros w [->|?%Hlt]%elem_of_cons; lia).
      apply IndexOfMin_from_below. intros w ?%Hlt. lia. }
  rewrite count_le_cons_le by lia.
  destruct vs as [|next vs'].
  { cbn [length] in Hn. rewrite (proj2 (Z.eqb_eq k (n - 1))) by lia.
    destruct (n =? 1); cbn; lia. }
  cbn [length] in Hn. rewrite (proj2 (Z.eqb_neq n 1)), (proj2 (Z.eqb_neq k (n - 1))) by lia.
  rewrite (proj2 (Z.ltb_lt k (n - 1))) by lia. cbn [andb].
  destruct (Z.ltb_spec element next) as [Hnext|Hnext].
  - rewrite count_le_none; [lia|]. intros w Hw. apply ascending_cons in Hs as [Hs _].
    apply elem_of_cons in Hw as [->|?%Hs]; lia.
  - rewrite IH; [|done|cbn [length]; lia|lia].
    rewrite count_le_cons_le by lia. lia.
Qed.

Lemma IndexOfMin_count (element : Z) (data : list Z) :
  ascending data -> IndexOfMin element data = Z.of_nat (count_le element data) - 1.
Proof.
  intros Hs. unfold IndexOfMin.
  rewrite IndexOfMin_from_ascending by (auto || lia). destruct (count_le element data); lia.
Qed.

(** The elements at most [element] are the first ones. *)
Lemma count_le_split (element : Z) (data : list Z) :
  ascending data ->
  (count_le element data = O /\ forall v, v ∈ data -> element < v) \/
  (exists a v b, data = a ++ v :: b /\ count_le element data = S (length a) /\ v <= element /\
     forall w, w ∈ b -> element < w).
Proof.
  induction data as [|v vs IH]; intros Hasc.
  { left. split; [done|]. intros w Hw. by apply elem_of_nil in Hw. }
  apply ascending_cons in Hasc as [Hlt Hasc].
  destruct (decide (v <= element)) as [Hv|Hv].
  - right. rewrite count_le_cons_le by done.
    destruct (IH Hasc) as [[-> Hall]|(a & w & b & -> & -> & Hw & Hb)].
    + exists [], v, vs. by split_and!.
    + exists (v :: a), w, b. by split_and!.
  - left. assert (Hall : forall w, w ∈ v :: vs -> element < w).
    { intros w [->|Hw%Hlt]%elem_of_cons; lia. }
    split; [by apply count_le_none|done].
Qed.

Lemma IndexOfMin_from_range (element n k : Z) (data : list Z) :
  0 <= k -> IndexOfMin_from element n k data = -1 \/
    k <= IndexOfMin_from element n k data < k + zlen data.
Proof.
  unfold zlen. induction data as [|v vs IH] in k |- *; intros Hk; [by left|].
  cbn [IndexOfMin_from length]. specialize (IH (k + 1) ltac:(lia)).
  repeat case_match; lia.
Qed.

Lemma IndexOfMin_range (element : Z) (data : list Z) :
  IndexOfMin element data = -1 \/ 0 <= IndexOfMin element data < zlen data.
Proof. apply IndexOfMin_from_range. lia. Qed.

(** ** Removing and summing *)

Lemma RemoveFromSliceByIndex_eq (s : list Z) (i : nat) :
  (i < length s)%nat ->
  RemoveFromSliceByIndex s (Z.of_nat i) = Some (take i s ++ drop (S i) s).
Proof.
  intros Hi. unfold RemoveFromSliceByIndex.
  rewrite !go_slice_Some by (unfold zlen; lia). unfold zlen. do 2 f_equal.
  - rewrite Z.sub_0_r, Nat2Z.id. done.
  - rewrite take_ge by (rewrite length_drop; lia). f_equal. lia.
Qed.

Lemma RemoveFromSliceByIndex_middle (a b : list Z) (x : Z) (i : Z) :
  i = zlen a -> RemoveFromSliceByIndex (a ++ x :: b) i = Some (a ++ b).
Proof.
  intros ->. unfold zlen. rewrite RemoveFromSliceByIndex_eq by (rewrite length_app; cbn; lia).
  rewrite take_app_length. change (x :: b) with ([x] ++ b). rewrite app_assoc.
  by rewrite drop_app_length' by (rewrite length_app; cbn; lia).
Qed.

Lemma RemoveFromSliceByIndex_length (s : list Z) (i : Z) :
  0 <= i < zlen s ->
  exists s', RemoveFromSliceByIndex s i = Some s' /\ S (length s') = length s.
Proof.
  unfold zlen. intros Hi. rewrite <- (Z2Nat.id i) by lia.
  rewrite RemoveFromSliceByIndex_eq by lia. eexists. split; [reflexivity|].
  rewrite length_app, length_take, length_drop. lia.
Qed.

(** ** The unit of a byte count *)

(** Below [1000^(k+1)] the loop divides at most [k] times. *)
Lemma ByteCountSI_loop_exp (k fuel : nat) (n div exp : Z) :
  (k < fuel)%nat -> 0 <= n < 1000 ^ Z.of_nat (S k) -> 0 <= exp <= 5 - Z.of_nat k ->
  exists div' exp', ByteCountSI_loop fuel n div exp = Some (div', exp') /\ 0 <= exp' <= 5.
Proof.
  induction k as [|k IH] in fuel, n, div, exp |- *; intros Hf Hn He;
    (destruct fuel as [|fuel]; [lia|]); cbn [ByteCountSI_loop]; rewrite Z.geb_leb.
  - change (1000 ^ Z.of_nat 1) with 1000 in Hn. rewrite (proj2 (Z.leb_gt 1000 n)) by lia.
    exists div, exp. split; [done|lia].
  - destruct (Z.leb_spec 1000 n); [|exists div, exp; split; [done|lia]].
    rewrite (i64_id (exp + 1)) by (unfold in_i64; lia). rewrite Z.quot_div_nonneg by lia.
    apply IH; [lia| |lia]. split; [apply Z.div_pos; lia|].
    apply Z.div_lt_upper_bound; [lia|]. rewrite <- Z.pow_succ_r, <- Nat2Z.inj_succ by lia. apply Hn.
Qed.

(** ** Ports *)

Lemma Join_snoc (sep : ascii) (l : list string) (w : string) :
  l <> [] -> Join sep (l ++ [w]) = Join sep l +:+ String sep w.
Proof.
  induction l as [|a [|b l] IH]; intros H; [done|done|].
  change (a +:+ String sep (Join sep ((b :: l) ++ [w])) = (a +:+ String sep (Join sep (b :: l))) +:+ String sep w).
  rewrite IH by done. by rewrite string_app_assoc.
Qed.

Lemma Split_nonempty (sep : ascii) (s : string) : Split sep s <> [].
Proof. destruct s as [|c s]; cbn; [done|]. case_decide; [done|]. by destruct (Split sep s). Qed.

Lemma Join_Split (sep : ascii) (s : string) : Join sep (Split sep s) = s.
Proof.
  induction s as [|c s IH]; [done|]. cbn [Split].
  pose proof (Split_nonempty sep s). case_decide as Hc.
  - subst. destruct (Split sep s) as [|w ws] eqn:E; [done|].
    change (String sep (Join sep (w :: ws)) = String sep s). by rewrite IH.
  - destruct (Split sep s) as [|w [|w' ws]] eqn:E; [done| |].
    + cbn in IH |- *. by rewrite IH.
    + change (String c (Join sep (w :: w' :: ws)) = String c s). by rewrite IH.
Qed.

Lemma Split_app_sep (sep : ascii) (s t : string) :
  Split sep (s +:+ String sep t) = Split sep s ++ Split sep t.
Proof.
  induction s as [|c s IH].
  { change (Split sep (String sep t) = "" :: Split sep t). cbn [Split]. by rewrite decide_True. }
  change (String c s +:+ String sep t) with (String c (s +:+ String sep t)).
  cbn [Split]. rewrite IH. case_decide; [done|].
  pose proof (Split_nonempty sep s). by destruct (Split sep s).
Qed.

(** The decimal digits of [x] in front of [s]. *)
Lemma ParseUint_pretty_N_go (x : N) (s : string) :
  Z.of_N x <= 2 ^ 64 - 1 -> ParseUint (pretty_N_go x s) 0 = ParseUint s (Z.of_N x).
Proof.
  induction (N.lt_wf_0 x) as [x _ IH] in s |- *. intros Hx.
  destruct (decide (x = 0)%N) as [->|Hne]; [by rewrite pretty_N_go_0|].
  rewrite pretty_N_go_step by lia.
  assert (Hlt : (x `div` 10 < x)%N) by (apply N.div_lt; lia).
  rewrite IH by (lia || (apply N2Z.inj_lt in Hlt; lia)).
  cbn [ParseUint]. pose proof (N.mod_lt x 10 ltac:(lia)) as Hm.
  assert (Hd : digit (pretty_N_char (x `mod` 10)) = Some (Z.of_N (x `mod` 10))).
  { generalize dependent (x `mod` 10)%N. intros r Hr.
    destruct r as [|[[[|[]|]|[|[]|]|]|[[|[]|]|[|[]|]|]|]]; try lia; reflexivity. }
  rewrite Hd. pose proof (N.div_mod x 10 ltac:(lia)).
  replace (Z.of_N (x `div` 10) * 10 + Z.of_N (x `mod` 10)) with (Z.of_N x) by lia.
  by rewrite (proj2 (Z.ltb_ge _ _)) by lia.
Qed.

Lemma Split_pretty_N_go (x : N) (s : string) :
  Split ":"%char s = [s] -> Split ":"%char (pretty_N_go x s) = [pretty_N_go x s].
Proof.
  induction (N.lt_wf_0 x) as [x _ IH] in s |- *. intros Hs.
  destruct (decide (x = 0)%N) as [->|Hne]; [by rewrite pretty_N_go_0|].
  rewrite pretty_N_go_step by lia. apply IH; [apply N.div_lt; lia|].
  cbn [Split]. rewrite Hs. rewrite decide_False; [done|].
  unfold pretty_N_char. by repeat case_match.
Qed.

Lemma pretty_N_go_ne (x : N) (c : ascii) (s : string) : pretty_N_go x (String c s) <> "".
Proof.
  induction (N.lt_wf_0 x) as [x _ IH] in c, s |- *.
  destruct (decide (x = 0)%N) as [->|Hne]; [by rewrite pretty_N_go_0|].
  rewrite pretty_N_go_step by lia. apply IH, N.div_lt; lia.
Qed.

Lemma pretty_N_go_digit (x : N) (c : ascii) (s : string) :
  digit c <> None -> exists c' s', pretty_N_go x (String c s) = String c' s' /\ digit c' <> None.
Proof.
  induction (N.lt_wf_0 x) as [x _ IH] in c, s |- *. intros Hc.
  destruct (decide (x = 0)%N) as [->|Hne]; [rewrite pretty_N_go_0; eauto|].
  rewrite pretty_N_go_step by lia. apply IH; [apply N.div_lt; lia|].
  unfold pretty_N_char. by repeat case_match.
Qed.

(** Printing then reading a port. *)
Lemma Atoi_pretty (p : Z) : 0 <= p < 2 ^ 63 -> Atoi (pretty p) = p.
Proof.
  intros Hp. destruct p as [|p|p]; [done| |lia].
  change (pretty (Zpos p)) with (pretty_N_go (Npos p) "").
  pose proof (ParseUint_pretty_N_go (Npos p) "") as HP.
  rewrite pretty_N_go_step in HP |- * by lia.
  destruct (pretty_N_go_digit (Npos p `div` 10) (pretty_N_char (Npos p `mod` 10)) "") as (c & s & E & Hc).
  { unfold pretty_N_char. by repeat case_match. }
  rewrite E in HP |- *. unfold Atoi.
  assert (Hsel : match String c s with
                 | String "-"%char s' => (true, s') | String "+"%char s' => (false, s')
                 | _ => (false, String c s) end = (false, String c s)).
  { destruct c as [[] [] [] [] [] [] [] []]; try reflexivity; by destruct Hc. }
  rewrite Hsel, HP by lia. cbn [ParseUint]. by rewrite (proj2 (Z.leb_gt _ _)) by lia.
Qed.

Lemma Split_pretty_pos (p : Z) : 0 <= p -> Split ":"%char (pretty p) = [pretty p].
Proof.
  intros Hp. destruct p as [|p|p]; [done| |lia].
  by apply (Split_pretty_N_go (Npos p) "").
Qed.

(** ** The properties of the helpers *)

(** [IncreasePortInAddress] adds to the port after the last colon and
    leaves the rest of the address, colons included, as it was. *)
Theorem IncreasePortInAddress_adds (host : string) (p index : Z) :
  0 <= p < 2 ^ 63 -> in_i64 (p + index) ->
  IncreasePortInAddress (host +:+ ":" +:+ pretty p) index = host +:+ ":" +:+ pretty (p + index).
Proof.
  intros Hp Hi. unfold IncreasePortInAddress.
  change (host +:+ ":" +:+ pretty p) with (host +:+ String ":" (pretty p)).
  rewrite Split_app_sep, Split_pretty_pos by lia. rewrite length_app, Nat.add_sub.
  cbn [length]. rewrite list_lookup_middle by done. cbn [from_option id].
  rewrite Atoi_pretty, i64_id by done.
  rewrite insert_app_r_alt, Nat.sub_diag by done. cbn [insert list_insert].
  rewrite Join_snoc, Join_Split by apply Split_nonempty. done.
Qed.

Lemma IncreasePortInAddress_adds_witness :
  0 <= 8000 < 2 ^ 63 /\
  IncreasePortInAddress ("19-ffaa:1:cf1,[127.0.0.1]" +:+ ":" +:+ pretty 8000) 2 =
    "19-ffaa:1:cf1,[127.0.0.1]" +:+ ":" +:+ pretty 8002.
Proof.
  split; [lia|]. apply (IncreasePortInAddress_adds "19-ffaa:1:cf1,[127.0.0.1]" 8000 2); unfold in_i64; lia.
Defined.

(** C39: on sizes below [2^53], where every [int] is a [float64], the division
    of [CeilForceInt] and [CeilForce] rounds up exactly: no rounding of the
    floating point quotient changes the result. *)
Theorem CeilForceInt_rounds_up (x y : Z) :
  0 <= x < 2 ^ 53 -> 0 < y < 2 ^ 53 ->
  exists q, CeilForceInt x y = Some q /\ CeilForce x y = Some q /\ (q - 1) * y < x <= q * y.
Proof.
  intros Hx Hy. exists (ceil_div x y). pose proof (CeilForceInt_exact x y Hx Hy) as H.
  split; [exact H|]. split; [by rewrite CeilForceInt_CeilForce in H|apply ceil_div_bounds; lia].
Qed.

Lemma CeilForceInt_rounds_up_witness :
  0 <= 1000000007 < 2 ^ 53 /\ exists q, CeilForceInt 1000000007 1384 = Some q /\
    CeilForce 1000000007 1384 = Some q /\ (q - 1) * 1384 < 1000000007 <= q * 1384.
Proof. split; [lia|]. apply (CeilForceInt_rounds_up 1000000007 1384); lia. Defined.

(** Above that bound it does not: the quotient of [2^60 + 1] and 2 is rounded
    down to an integer. *)
Example CeilForceInt_inexact : CeilForceInt (2 ^ 60 + 1) 2 = Some (2 ^ 59).
Proof. vm_compute. reflexivity. Qed.

(** On an ascending list [IndexOfMin] finds the last element that is at
    most the one searched for, and reports -1 exactly when all are greater. *)
Theorem IndexOfMin_last (element : Z) (data : list Z) :
  ascending data ->
  (IndexOfMin element data = -1 /\ forall v, v ∈ data -> element < v) \/
  (exists a v b, data = a ++ v :: b /\ IndexOfMin element data = zlen a /\ v <= element /\
     forall w, w ∈ b -> element < w).
Proof.
  intros Hasc. rewrite IndexOfMin_count by done.
  destruct (count_le_split element data Hasc) as [[-> Hall]|(a & v & b & -> & -> & Hv & Hb)].
  - by left.
  - right. exists a, v, b. split_and!; [done|unfold zlen; lia|done|done].
Qed.

Lemma IndexOfMin_last_witness :
  exists a v b, [3; 7; 12] = a ++ v :: b /\ IndexOfMin 9 [3; 7; 12] = zlen a /\ v <= 9.
Proof.
  destruct (IndexOfMin_last 9 [3; 7; 12]) as [[H _]|(a & v & b & H1 & H2 & H3 & _)].
  - repeat constructor.
  - discriminate.
  - exists a, v, b. auto.
Defined.

(** C40: [ByteCountSI] terminates on every [int64] and the index into its six
    unit letters stays in range. *)
Theorem ByteCountSI_returns (b : Z) : in_i64 b -> exists s, ByteCountSI b = Some s.
Proof.
  unfold in_i64, ByteCountSI. intros Hb. destruct (Z.ltb_spec b 1000); [eauto|].
  rewrite Z.quot_div_nonneg by lia.
  assert (Hn : 0 <= b / 1000 < 1000 ^ 6).
  { split; [apply Z.div_pos; lia|]. apply Z.div_lt_upper_bound; lia. }
  destruct (ByteCountSI_loop_exp 5 7 (b / 1000) 1000 0) as (div & exp & -> & Hexp); [lia|exact Hn|lia|].
  destruct (go_index_Some ["k"; "M"; "G"; "T"; "P"; "E"] exp) as (u & ->); [unfold zlen; cbn [length]; lia|]. eauto.
Qed.

Lemma ByteCountSI_returns_witness : exists s, ByteCountSI (2 ^ 63 - 1) = Some s.
Proof. apply (ByteCountSI_returns (2 ^ 63 - 1)). split; [discriminate|reflexivity]. Defined.
