(* ===== verification/Interface.v ===== *)
(** * Interface: the data and the interfaces of the data plane

    [dataplane/interface.go], the structure of [dataplane/partcontext.go] and
    the packer interfaces.  A part context is one shared object of the
    program: the data plane, the control plane and the packer all work on the
    same pointer, and every operation here takes and returns its contents. *)

From S2P Require Import Prelude.

(** Go [error] values the source creates or passes on. *)
Inductive error : Type :=
| MismatchingPartId        (* errors.New("mismatching partId") *)
| DuplicateRetransfer      (* errors.New("Duplicate Retransfer") *)
| NetError (code : Z)      (* from the socket library *)
| AddrError (code : Z)     (* from snet.ParseUDPAddr *)
| GobError (code : Z).     (* from encoding/gob *)

#[export] Instance error_eq_dec : EqDecision error.
Proof. solve_decision. Defined.

Record PartPacket : Type := mkPartPacket {
  pkt_SequenceNumber : Z;
  pkt_PartId : Z;
  pkt_PartSize : Z;
  pkt_Payload : list byte;
}.

Record PartRequestPacket : Type := mkPartRequestPacket {
  req_PartId : Z;
  req_LastSequenceNumber : Z;
  req_NumPacketsPerTx : Z;
  req_PacketTxIndex : Z;
  req_MissingSequenceNumbers : list Z;
  req_MissingSequenceNumberOffsets : list Z;
  req_TransactionId : Z;
  req_RequestSequenceId : Z;
  req_NumPackets : Z;
  req_PartFinished : bool;
}.

Record SocketOptions : Type := mkSocketOptions {
  UseMmsg : bool;
  UseGsoGro : bool;
  StartWithDefaultPath : bool;
}.

(** A transport packer, as the record of its methods.  [Pack] and [Unpack]
    rewrite the buffer behind the pointer, their errors are dropped by every
    caller; the header length needs a packet serializer, [None] is the nil
    pointer. *)
Record TransportPacketPacker : Type := mkTransportPacketPacker {
  TransportHeaderLen : option Z;
  TransportPack : list byte -> Z -> list byte;
  TransportUnpack : list byte -> list byte;
}.

(** What the part context relies on: the socket itself adds and removes the
    transport header, the packer only knows its length. *)
Record transport_ok (t : TransportPacketPacker) : Prop := {
  TransportHeaderLen_nonneg : forall n, TransportHeaderLen t = Some n -> 0 <= n;
  TransportPack_id : forall buf n, TransportPack t buf n = buf;
  TransportUnpack_id : forall buf, TransportUnpack t buf = buf;
}.

(** The two closures the source stores in [OnPartStatusChange]: the one of
    [Handshake] counts in the rate control, the one of [AwaitHandshake] does
    nothing. *)
Inductive status_callback : Type := CountInRateControl | IgnoreStatus.

(** The fields of [PartContext]; the packer of the parts header, the only
    implementation of its interface, is the class below. *)
Record PartContext : Type := mkPartContext {
  PCSocketOptions : SocketOptions;
  OnPartStatusChange : status_callback;
  PCTransportPacketPacker : TransportPacketPacker;
  TransferFinished : bool;
  MaxPacketLength : Z;
  PayloadLength : Z;
  NumPackets : Z;
  RecommendedBufferSize : Z;
  HeaderLength : Z;
  Data : list byte;
  Buffer : list byte;
  HighestSequenceNumber : Z;
  MissingSequenceNums : list Z;
  MissingSequenceNumOffsets : list Z;
  currentSequenceNumber : Z;
  PartId : Z;
  TestingMode : bool;
  RecvPackets : Z;
}.

(** Assignments to fields. *)
Definition set_sizes (hl pl np rb : Z) (b : PartContext) : PartContext :=
  mkPartContext (PCSocketOptions b) (OnPartStatusChange b)
    (PCTransportPacketPacker b) (TransferFinished b) (MaxPacketLength b) pl np rb hl
    (Data b) (Buffer b) (HighestSequenceNumber b) (MissingSequenceNums b)
    (MissingSequenceNumOffsets b) (currentSequenceNumber b) (PartId b) (TestingMode b) (RecvPackets b).

Definition set_Data (d : list byte) (b : PartContext) : PartContext :=
  mkPartContext (PCSocketOptions b) (OnPartStatusChange b)
    (PCTransportPacketPacker b) (TransferFinished b) (MaxPacketLength b) (PayloadLength b)
    (NumPackets b) (RecommendedBufferSize b) (HeaderLength b) d (Buffer b)
    (HighestSequenceNumber b) (MissingSequenceNums b) (MissingSequenceNumOffsets b)
    (currentSequenceNumber b) (PartId b) (TestingMode b) (RecvPackets b).

Definition set_Buffer (u : list byte) (b : PartContext) : PartContext :=
  mkPartContext (PCSocketOptions b) (OnPartStatusChange b)
    (PCTransportPacketPacker b) (TransferFinished b) (MaxPacketLength b) (PayloadLength b)
    (NumPackets b) (RecommendedBufferSize b) (HeaderLength b) (Data b) u
    (HighestSequenceNumber b) (MissingSequenceNums b) (MissingSequenceNumOffsets b)
    (currentSequenceNumber b) (PartId b) (TestingMode b) (RecvPackets b).

Definition set_HighestSequenceNumber (h : Z) (b : PartContext) : PartContext :=
  mkPartContext (PCSocketOptions b) (OnPartStatusChange b)
    (PCTransportPacketPacker b) (TransferFinished b) (MaxPacketLength b) (PayloadLength b)
    (NumPackets b) (RecommendedBufferSize b) (HeaderLength b) (Data b) (Buffer b)
    h (MissingSequenceNums b) (MissingSequenceNumOffsets b)
    (currentSequenceNumber b) (PartId b) (TestingMode b) (RecvPackets b).

Definition set_Missing (nums offs : list Z) (b : PartContext) : PartContext :=
  mkPartContext (PCSocketOptions b) (OnPartStatusChange b)
    (PCTransportPacketPacker b) (TransferFinished b) (MaxPacketLength b) (PayloadLength b)
    (NumPackets b) (RecommendedBufferSize b) (HeaderLength b) (Data b) (Buffer b)
    (HighestSequenceNumber b) nums offs
    (currentSequenceNumber b) (PartId b) (TestingMode b) (RecvPackets b).

Definition set_currentSequenceNumber (c : Z) (b : PartContext) : PartContext :=
  mkPartContext (PCSocketOptions b) (OnPartStatusChange b)
    (PCTransportPacketPacker b) (TransferFinished b) (MaxPacketLength b) (PayloadLength b)
    (NumPackets b) (RecommendedBufferSize b) (HeaderLength b) (Data b) (Buffer b)
    (HighestSequenceNumber b) (MissingSequenceNums b) (MissingSequenceNumOffsets b)
    c (PartId b) (TestingMode b) (RecvPackets b).

Definition set_RecvPackets (r : Z) (b : PartContext) : PartContext :=
  mkPartContext (PCSocketOptions b) (OnPartStatusChange b)
    (PCTransportPacketPacker b) (TransferFinished b) (MaxPacketLength b) (PayloadLength b)
    (NumPackets b) (RecommendedBufferSize b) (HeaderLength b) (Data b) (Buffer b)
    (HighestSequenceNumber b) (MissingSequenceNums b) (MissingSequenceNumOffsets b)
    (currentSequenceNumber b) (PartId b) (TestingMode b) r.

(** [PartContext.GetNextSequenceNumber] *)
Definition GetNextSequenceNumber : go PartContext Z :=
  modify (fun b => set_currentSequenceNumber (i64 (currentSequenceNumber b + 1)) b);;
  gets currentSequenceNumber.

(** ** The packer interfaces

    [Pack], [PackRetransfer] and [Unpack] get a pointer to the packet buffer:
    the first result is the buffer afterwards.  The errors of [Pack] and
    [PackRetransfer] are dropped by every caller. *)
Class PartsPacketPacker : Type := {
  GetHeaderLen : Z;
  Pack : list byte -> go PartContext (list byte);
  PackRetransfer : list byte -> Z -> go PartContext (list byte);
  Unpack : list byte -> go PartContext (list byte * (error + PartPacket));
}.

(** What the part context relies on: every packet carries a header that names
    the part and the sequence number, and is read back. *)
Class PartsPacketPackerSpec `{P : PartsPacketPacker} : Type := {
  packet_header : Z -> Z -> list byte;
  packet_header_len : forall pid seq, zlen (packet_header pid seq) = GetHeaderLen;
  Pack_spec : forall hdr payload b, zlen hdr = GetHeaderLen ->
    let seq := i64 (currentSequenceNumber b + 1) in
    Pack (hdr ++ payload) b =
      Done (packet_header (PartId b) seq ++ payload) (set_currentSequenceNumber seq b);
  PackRetransfer_spec : forall hdr payload seq b, zlen hdr = GetHeaderLen ->
    PackRetransfer (hdr ++ payload) seq b = Done (packet_header (PartId b) seq ++ payload) b;
  Unpack_spec : forall pid seq rest b, in_i64 pid -> in_i64 seq ->
    Unpack (packet_header pid seq ++ rest) b =
      if pid =? PartId b then Done (rest, inr (mkPartPacket seq pid 0 [])) b
      else Done (packet_header pid seq ++ rest, inl MismatchingPartId) b;
}.

(** A call of the status callback, on the state of its owner. *)
Class StatusListener (K : Type) : Type := {
  run_status : status_callback -> Z -> Z -> go K unit;
}.

(** Callbacks that return on every state they can meet. *)
Class StatusListenerSpec (K : Type) `{StatusListener K} : Type := {
  listener_ok : K -> Prop;
  run_status_ok : forall cb n bts k, listener_ok k ->
    exists k', run_status cb n bts k = Done tt k' /\ listener_ok k';
}.

Lemma packet_header_length `{PartsPacketPackerSpec} pid seq :
  length (packet_header pid seq) = Z.to_nat GetHeaderLen.
Proof. pose proof (packet_header_len pid seq). unfold zlen in *. lia. Qed.
