(* ===== verification/Packer.v ===== *)
(** * Packer: [dataplane/partspacker.go]

    The 16-byte header of a packet: the part id, then the sequence number,
    both big-endian. *)

From S2P Require Import Prelude Interface.

Module BinaryPartsPacketPacker.

Definition GetHeaderLen : Z := 16.

Definition PackRetransfer (buf : list byte) (sequenceNumber : Z) : go PartContext (list byte) :=
  buf ← or_fail SliceBounds (PutUint64_at buf 8 (u64 sequenceNumber));
  partId ← gets PartId;
  or_fail SliceBounds (PutUint64_at buf 0 (u64 partId)).

Definition Pack (buf : list byte) : go PartContext (list byte) :=
  sequenceNumber ← GetNextSequenceNumber;
  buf ← or_fail SliceBounds (PutUint64_at buf 8 (u64 sequenceNumber));
  partId ← gets PartId;
  or_fail SliceBounds (PutUint64_at buf 0 (u64 partId)).

Definition Unpack (buf : list byte) : go PartContext (list byte * (error + PartPacket)) :=
  seq ← or_fail SliceBounds (Uint64_at buf 8);
  pid ← or_fail SliceBounds (Uint64_at buf 0);
  let p := mkPartPacket (i64 seq) (i64 pid) 0 [] in
  ownId ← gets PartId;
  if negb (pkt_PartId p =? ownId) then mret (buf, inl MismatchingPartId)
  else
    buf ← or_fail SliceBounds (go_slice buf GetHeaderLen (zlen buf));
    mret (buf, inr p).

(** The 16 bytes the packer writes. *)
Definition header (pid seq : Z) : list byte := be_bytes 8 (u64 pid) ++ be_bytes 8 (u64 seq).

Lemma length_header pid seq : length (header pid seq) = 16%nat.
Proof. unfold header. by rewrite length_app, !length_be_bytes. Qed.

(** The two writes of 8 bytes replace exactly the first 16. *)
Lemma put_header (hdr payload : list byte) (pid seq : Z) :
  length hdr = 16%nat ->
  exists b1, PutUint64_at (hdr ++ payload) 8 (u64 seq) = Some b1 /\
    PutUint64_at b1 0 (u64 pid) = Some (header pid seq ++ payload).
Proof.
  intros Hl. unfold PutUint64_at.
  rewrite copy_into_Some by (unfold zlen; rewrite ?length_app; lia).
  eexists. split; [reflexivity|]. unfold go_copy, splice.
  rewrite (take_ge (be_bytes 8 (u64 seq))) by (rewrite length_be_bytes; lia).
  rewrite copy_into_Some by (unfold zlen; rewrite ?length_app, ?length_be_bytes, ?length_take, ?length_drop, ?length_app; lia).
  f_equal. unfold go_copy, splice, header.
  rewrite (take_ge (be_bytes 8 (u64 pid))) by (rewrite length_be_bytes; lia).
  rewrite !length_be_bytes. change (Z.to_nat 0) with 0%nat. change (Z.to_nat 8) with 8%nat.
  rewrite take_0, app_nil_l, <- app_assoc. apply (f_equal (app _)).
  rewrite drop_app_length' by (rewrite length_take, length_app; lia).
  by rewrite drop_app_length' by lia.
Qed.

Lemma Uint64_at_app (a b c : list byte) (lo : Z) :
  Z.of_nat (length a) = lo -> length b = 8%nat -> Uint64_at (a ++ b ++ c) lo = Some (be_uint b).
Proof.
  intros <- Hb. unfold Uint64_at.
  rewrite go_slice_Some by (unfold zlen; rewrite ?length_app; lia). f_equal. f_equal.
  rewrite drop_app_length' by lia. by rewrite take_app_length' by lia.
Qed.

Lemma be_uint_u64 (z : Z) : i64 (be_uint (be_bytes 8 (u64 z))) = i64 z.
Proof.
  rewrite be_uint_be_bytes. change (Z.of_nat 8 * 8) with 64.
  unfold u64. rewrite Z.mod_mod by lia. apply i64_u64.
Qed.

Lemma Unpack_header (pid seq : Z) (rest : list byte) (b : PartContext) :
  in_i64 pid -> in_i64 seq ->
  Unpack (header pid seq ++ rest) b =
    if pid =? PartId b then Done (rest, inr (mkPartPacket seq pid 0 [])) b
    else Done (header pid seq ++ rest, inl MismatchingPartId) b.
Proof.
  intros Hp Hs. unfold Unpack, header. rewrite <- app_assoc.
  rewrite (Uint64_at_app (be_bytes 8 (u64 pid)) (be_bytes 8 (u64 seq)) rest 8 eq_refl eq_refl).
  rewrite (Uint64_at_app [] (be_bytes 8 (u64 pid)) (be_bytes 8 (u64 seq) ++ rest) 0 eq_refl eq_refl
           : Uint64_at (be_bytes 8 (u64 pid) ++ be_bytes 8 (u64 seq) ++ rest) 0 = _).
  go_step. cbn [pkt_PartId]. rewrite !be_uint_u64, !i64_id by done.
  destruct (pid =? PartId b); cbn [negb]; go_step; [|done].
  rewrite go_slice_Some by (unfold zlen, GetHeaderLen; rewrite ?length_app, ?length_be_bytes; lia).
  unfold GetHeaderLen, zlen. rewrite !length_app, !length_be_bytes, app_assoc.
  rewrite drop_app_length' by (rewrite length_app, !length_be_bytes; done).
  by rewrite take_ge by lia.
Qed.

#[export] Instance packer : Interface.PartsPacketPacker := {|
  Interface.GetHeaderLen := GetHeaderLen;
  Interface.Pack := Pack;
  Interface.PackRetransfer := PackRetransfer;
  Interface.Unpack := Unpack;
|}.

(** The binary packer implements the packer interface. *)
#[export, refine] Instance packer_spec : PartsPacketPackerSpec := {|
  packet_header := header;
|}.
Proof.
  - intros. unfold zlen. by rewrite length_header.
  - intros hdr payload b Hl seq. cbn. unfold Pack, GetNextSequenceNumber.
    destruct (put_header hdr payload (PartId b) seq) as (b1 & H1 & H2); [change (Z.of_nat (length hdr) = 16) in Hl; lia|].
    go_step. cbn [currentSequenceNumber set_currentSequenceNumber PartId]. fold seq.
    rewrite H1. go_step. cbn [PartId set_currentSequenceNumber]. by rewrite H2.
  - intros hdr payload seq b Hl. cbn. unfold PackRetransfer.
    destruct (put_header hdr payload (PartId b) seq) as (b1 & H1 & H2); [change (Z.of_nat (length hdr) = 16) in Hl; lia|].
    rewrite H1. go_step. by rewrite H2.
  - intros. by apply Unpack_header.
Defined.

(** C20: a header written by [Pack] over the first 16 bytes of a buffer is
    read back by [Unpack] at a receiver of the same part: the packet carries
    the next sequence number, the rest of the buffer is the payload.  A
    receiver of another part refuses it and keeps the buffer; [PackRetransfer]
    writes the same header for the number it is given. *)
Theorem Pack_Unpack (hdr rest : list byte) (bs br other : PartContext) :
  length hdr = 16%nat -> in_i64 (PartId bs) -> PartId br = PartId bs -> PartId other <> PartId bs ->
  let seq := i64 (currentSequenceNumber bs + 1) in
  exists buf, Pack (hdr ++ rest) bs = Done buf (set_currentSequenceNumber seq bs) /\
    PackRetransfer (hdr ++ rest) seq bs = Done buf bs /\
    Unpack buf br = Done (rest, inr (mkPartPacket seq (PartId bs) 0 [])) br /\
    Unpack buf other = Done (buf, inl MismatchingPartId) other.
Proof.
  intros Hl Hp Hbr Ho seq. exists (header (PartId bs) seq ++ rest).
  assert (Hh : zlen hdr = @Interface.GetHeaderLen packer) by (unfold zlen; by rewrite Hl).
  split; [exact (Pack_spec hdr rest bs Hh)|]. split; [exact (PackRetransfer_spec hdr rest seq bs Hh)|].
  rewrite !Unpack_header by (done || apply i64_range).
  by rewrite (proj2 (Z.eqb_eq _ _)), (proj2 (Z.eqb_neq _ _)) by done.
Qed.

(** A part context that only has an id and a sequence counter. *)
Definition numbered (pid seq : Z) : PartContext :=
  mkPartContext (mkSocketOptions false false false) IgnoreStatus
    (mkTransportPacketPacker (Some 0) (fun buf _ => buf) (fun buf => buf)) false
    0 0 0 0 0 [] [] 0 [] [] seq pid false 0.

Lemma Pack_Unpack_witness :
  exists buf, Pack (replicate 16 Byte.x00 ++ [Byte.x41]) (numbered 7 41) = Done buf (numbered 7 42) /\
    Unpack buf (numbered 7 0) = Done ([Byte.x41], inr (mkPartPacket 42 7 0 [])) (numbered 7 0).
Proof.
  destruct (Pack_Unpack (replicate 16 Byte.x00) [Byte.x41] (numbered 7 41) (numbered 7 0) (numbered 8 0))
    as (buf & H1 & _ & H2 & _).
  - reflexivity.
  - split; [discriminate|reflexivity].
  - reflexivity.
  - discriminate.
  - exists buf. split; [exact H1|exact H2].
Defined.

End BinaryPartsPacketPacker.
