(* ===== verification/PartContext.v ===== *)
(** * PartContext: [dataplane/partcontext.go]

    Cutting a part into payloads, and the receiver's bookkeeping: the highest
    sequence number seen, and the missing ranges as two parallel slices, the
    first missing number of a range and the number of packets still missing
    from it.  The theorems about Prepare follow;
    those about sequences of packets are in [Reassembly]. *)

From S2P Require Import Prelude Utils Interface Packer.

(** The package variable [testingState] (its index fields are never used). *)
Record TestingState : Type := mkTestingState {
  TestingReceiveBuffer : list byte;
  BufferCreated : bool;
}.

Section operations.
Context `{PartsPacketPacker}.

(** The bounds of the payload of packet [i]: [b.Data[partStart:end]]. *)
Definition payload_bounds (i : Z) (b : PartContext) : Z * Z :=
  let partStart := i64 (i * PayloadLength b) in
  let end_ := Min (i64 (partStart + PayloadLength b)) (zlen (Data b)) in
  (partStart, end_).

Definition GetPayloadByPacketIndex (i : Z) : go PartContext (list byte) := fun b =>
  let '(partStart, end_) := payload_bounds i b in
  or_fail SliceBounds (go_slice (Data b) partStart end_) b.

Definition SetPayloadByPacketIndex (i : Z) (payload : list byte) : go PartContext unit := fun b =>
  let '(partStart, end_) := payload_bounds i b in
  (d ← or_fail SliceBounds (copy_into (Data b) partStart end_ payload);
   modify (set_Data d)) b.

Definition Prepare : go (TestingState * PartContext) unit := fun '(ts, b) =>
  let b := set_Missing [] [] b in
  match TransportHeaderLen (PCTransportPacketPacker b) with
  | None => Faulted NilDeref
  | Some transportHeaderLen =>
      let headerLength := i64 (transportHeaderLen + GetHeaderLen) in
      let payloadLength := i64 (MaxPacketLength b - headerLength) in
      match CeilForceInt (zlen (Data b)) payloadLength with
      | None => Faulted DivideByZero
      | Some numPackets =>
          let size := i64 (numPackets * MaxPacketLength b) in
          let b := set_sizes headerLength payloadLength numPackets size b in
          if TestingMode b && negb (BufferCreated ts) then
            match go_make Byte.x00 size with
            | None => Faulted MakeLen
            | Some buf => Done tt (mkTestingState buf true, b)
            end
          else Done tt (ts, b)
      end
  end.

Definition SerializePacket (packetBuffer : list byte) : go PartContext (list byte) :=
  packetBuffer ← Pack packetBuffer;
  payloadLength ← gets PayloadLength;
  transport ← gets PCTransportPacketPacker;
  mret (TransportPack transport packetBuffer (i64 (payloadLength + GetHeaderLen))).

Definition SerializeRetransferPacket (packetBuffer : list byte) (sequenceNum : Z) :
    go PartContext (list byte) :=
  packetBuffer ← PackRetransfer packetBuffer sequenceNum;
  payloadLength ← gets PayloadLength;
  transport ← gets PCTransportPacketPacker;
  mret (TransportPack transport packetBuffer (i64 (payloadLength + GetHeaderLen))).

(** A packet beyond the next expected one opens a missing range. *)
Definition open_missing_range (sequenceNumber diff : Z) : go PartContext unit :=
  let start := i64 (sequenceNumber - i64 (diff - 1)) in
  nums ← gets MissingSequenceNums;
  offs ← gets MissingSequenceNumOffsets;
  if IndexOf start nums <? 0 then
    modify (set_Missing (nums ++ [start]) (offs ++ [i64 (diff - 1)]));;
    modify (set_HighestSequenceNumber sequenceNumber)
  else mret tt.

(** A packet below the highest one is counted in the last range that starts
    at or before it; [false] is the early [return] of the error. *)
Definition count_retransfer (sequenceNumber : Z) : go PartContext bool :=
  nums ← gets MissingSequenceNums;
  offs ← gets MissingSequenceNumOffsets;
  let index := IndexOfMin sequenceNumber nums in
  if index >=? 0 then
    off ← or_fail IndexRange (go_index offs index);
    let off := i64 (off - 1) in
    let offs := <[Z.to_nat index := off]> offs in
    modify (set_Missing nums offs);;
    if off =? 0 then
      nums ← or_fail SliceBounds (RemoveFromSliceByIndex nums index);
      offs ← or_fail SliceBounds (RemoveFromSliceByIndex offs index);
      modify (set_Missing nums offs);;
      mret true
    else mret true
  else mret false.

(** The bookkeeping of a packet whose number is [diff] above the highest one. *)
Definition track_missing (sequenceNumber diff : Z) : go PartContext bool :=
  if diff >? 1 then open_missing_range sequenceNumber diff;; mret true
  else if diff <? 0 then count_retransfer sequenceNumber
  else mret true.

(** [copy(b.Data[partStart:end], *packetBuffer)] and the highest number. *)
Definition store_payload (sequenceNumber diff : Z) (packetBuffer : list byte) : go PartContext unit :=
  fun b =>
  let '(partStart, end_) := payload_bounds (i64 (sequenceNumber - 1)) b in
  (d ← or_fail SliceBounds (copy_into (Data b) partStart end_ packetBuffer);
   modify (set_Data d);;
   if diff >? 0 then modify (set_HighestSequenceNumber sequenceNumber) else mret tt) b.

(** The first result is [*packetBuffer] afterwards, the second the error. *)
Definition DeSerializePacket (packetBuffer : list byte) :
    go PartContext (list byte * option error) :=
  transport ← gets PCTransportPacketPacker;
  let packetBuffer := TransportUnpack transport packetBuffer in
  '(packetBuffer, r) ← Unpack packetBuffer;
  match r with
  | inl err => mret (packetBuffer, Some err)
  | inr p =>
      highest ← gets HighestSequenceNumber;
      let diff := i64 (pkt_SequenceNumber p - highest) in
      handled ← track_missing (pkt_SequenceNumber p) diff;
      if (handled : bool) then
        store_payload (pkt_SequenceNumber p) diff packetBuffer;;
        mret (packetBuffer, None)
      else mret (packetBuffer, Some DuplicateRetransfer)
  end.

End operations.

(** ** Cutting a part into payloads *)

(** Payload [i] of the data [d]: the last one is what is left. *)
Definition payload (pl : Z) (d : list byte) (i : Z) : list byte :=
  take (Z.to_nat pl) (drop (Z.to_nat (i * pl)) d).

(** The sizes [Prepare] computes, below the bound where [float64] is exact. *)
Definition geometry (b : PartContext) : Prop :=
  0 < PayloadLength b < 2 ^ 53 /\ zlen (Data b) < 2 ^ 53 /\
  NumPackets b = ceil_div (zlen (Data b)) (PayloadLength b).

Lemma payload_index_bounds (b : PartContext) (i : Z) :
  geometry b -> 0 <= i < NumPackets b ->
  0 <= i * PayloadLength b < zlen (Data b) /\ in_i64 (i * PayloadLength b) /\
  in_i64 (i * PayloadLength b + PayloadLength b).
Proof.
  intros (Hpl & Hd & Hn) Hi.
  pose proof (ceil_div_bounds (zlen (Data b)) (PayloadLength b)) as Hc.
  rewrite <- Hn in Hc. unfold in_i64. nia.
Qed.

(** The bounds of a payload do not wrap and stay inside the part. *)
Lemma payload_bounds_eq (b : PartContext) (i : Z) :
  geometry b -> 0 <= i < NumPackets b ->
  payload_bounds i b = (i * PayloadLength b, Z.min ((i + 1) * PayloadLength b) (zlen (Data b))).
Proof.
  intros Hg Hi. destruct (payload_index_bounds b i Hg Hi) as (H1 & H2 & H3).
  unfold payload_bounds, Min. rewrite (i64_id _ H2), (i64_id _ H3), Z.gtb_ltb.
  f_equal. destruct (Z.ltb_spec (zlen (Data b)) (i * PayloadLength b + PayloadLength b)); lia.
Qed.

Lemma GetPayload_eq (b : PartContext) (i : Z) :
  geometry b -> 0 <= i < NumPackets b ->
  GetPayloadByPacketIndex i b = Done (payload (PayloadLength b) (Data b) i) b.
Proof.
  intros Hg Hi. destruct (payload_index_bounds b i Hg Hi) as (H1 & _).
  unfold GetPayloadByPacketIndex. rewrite payload_bounds_eq by done.
  destruct Hg as (Hpl & _).
  rewrite go_slice_Some by lia. go_step. f_equal. unfold payload, zlen in *.
  destruct (Z.min_spec ((i + 1) * PayloadLength b) (Z.of_nat (length (Data b)))) as [[? ->]|[? ->]].
  - f_equal. lia.
  - rewrite !take_ge by (rewrite length_drop; lia). done.
Qed.

Lemma length_payload (pl : Z) (d : list byte) (i : Z) :
  0 < pl -> 0 <= i -> i * pl <= zlen d -> zlen (payload pl d i) = Z.min ((i + 1) * pl) (zlen d) - i * pl.
Proof. intros. unfold payload, zlen in *. rewrite length_take, length_drop. lia. Qed.

Lemma lookup_payload (pl : Z) (d : list byte) (i : Z) (j : nat) :
  0 < pl -> 0 <= i -> Z.of_nat j < pl -> payload pl d i !! j = d !! (Z.to_nat (i * pl) + j)%nat.
Proof. intros. unfold payload. by rewrite lookup_take_lt, lookup_drop by lia. Qed.

Lemma payload_cons (pl : Z) (d : list byte) :
  0 <= pl -> payload pl d 0 = take (Z.to_nat pl) d.
Proof. intros. unfold payload. by rewrite Z.mul_0_l, drop_0. Qed.

Lemma payload_drop (pl : Z) (d : list byte) (i : Z) :
  0 <= pl -> 0 <= i -> payload pl (drop (Z.to_nat pl) d) i = payload pl d (i + 1).
Proof. intros. unfold payload. rewrite drop_drop. do 2 f_equal. nia. Qed.

(** The first [n] payloads put together are the beginning of the data. *)
Lemma payloads_concat (pl : Z) (n : nat) (d : list byte) :
  0 < pl -> concat (payload pl d <$> seqZ 0 (Z.of_nat n)) = take (n * Z.to_nat pl) d.
Proof.
  intros Hpl. induction n as [|n IH] in d |- *; [by rewrite take_0|].
  rewrite seqZ_cons by lia. cbn [fmap list_fmap concat]. rewrite payload_cons by lia.
  replace (Z.succ 0) with (1 + 0) by lia. replace (Z.pred (Z.of_nat (S n))) with (Z.of_nat n) by lia.
  rewrite <- fmap_add_seqZ, <- list_fmap_compose.
  rewrite (list_fmap_ext _ (payload pl (drop (Z.to_nat pl) d))).
  - rewrite IH. cbn [Nat.mul]. rewrite <- (take_take_drop d (Z.to_nat pl)). done.
  - intros i z Hz. apply lookup_seqZ in Hz as [-> _]. unfold compose.
    rewrite payload_drop by lia. f_equal. lia.
Qed.

Lemma payloads_cover (b : PartContext) :
  geometry b -> concat (payload (PayloadLength b) (Data b) <$> seqZ 0 (NumPackets b)) = Data b.
Proof.
  intros (Hpl & Hd & Hn). pose proof (ceil_div_bounds (zlen (Data b)) (PayloadLength b)) as Hc.
  pose proof (ceil_div_nonneg (zlen (Data b)) (PayloadLength b) (zlen_nonneg _)).
  rewrite <- Hn in *. rewrite <- (Z2Nat.id (NumPackets b)) by lia.
  rewrite payloads_concat by lia. apply take_ge. unfold zlen in *. nia.
Qed.

(** ** [Prepare] establishes the geometry *)

Lemma Prepare_geometry `{PartsPacketPacker} (ts : TestingState) (b : PartContext) (h : Z) :
  TransportHeaderLen (PCTransportPacketPacker b) = Some h -> 0 <= h -> 0 <= GetHeaderLen ->
  h + GetHeaderLen < MaxPacketLength b < 2 ^ 53 -> zlen (Data b) < 2 ^ 53 ->
  TestingMode b = false ->
  exists b', Prepare (ts, b) = Done tt (ts, b') /\ geometry b' /\
    b' = set_sizes (h + GetHeaderLen) (MaxPacketLength b - (h + GetHeaderLen))
           (ceil_div (zlen (Data b)) (MaxPacketLength b - (h + GetHeaderLen)))
           (i64 (ceil_div (zlen (Data b)) (MaxPacketLength b - (h + GetHeaderLen)) * MaxPacketLength b))
           (set_Missing [] [] b).
Proof.
  intros Ht Hh0 Hh Hm Hd Htest. pose proof (zlen_nonneg (Data b)).
  unfold Prepare. cbn [MaxPacketLength Data set_Missing PCTransportPacketPacker]. rewrite Ht.
  no_wrap. rewrite CeilForceInt_exact by lia.
  cbn [TestingMode set_sizes set_Missing]. rewrite Htest. cbn [andb].
  eexists. split; [reflexivity|]. split; [|reflexivity].
  unfold geometry. cbn. split_and!; (done || lia).
Qed.

(** ** The properties of cutting *)

(** C21: [Prepare] computes sizes that cut the part without gap or overlap:
    every packet index has a payload, all but the last one are as long as the
    packet allows, the last one is not empty, together they are the data, and
    the receive buffer has room for one maximal packet each. *)
Theorem Prepare_cuts_part `{PartsPacketPacker} (ts : TestingState) (b : PartContext) (h : Z) :
  TransportHeaderLen (PCTransportPacketPacker b) = Some h -> 0 <= h -> 0 <= GetHeaderLen ->
  h + GetHeaderLen < MaxPacketLength b < 2 ^ 53 -> zlen (Data b) < 2 ^ 53 ->
  zlen (Data b) * MaxPacketLength b < 2 ^ 63 -> TestingMode b = false ->
  exists b', Prepare (ts, b) = Done tt (ts, b') /\
    PayloadLength b' = MaxPacketLength b - (h + GetHeaderLen) /\
    RecommendedBufferSize b' = NumPackets b' * MaxPacketLength b /\
    MissingSequenceNums b' = [] /\ MissingSequenceNumOffsets b' = [] /\
    (forall i, 0 <= i < NumPackets b' ->
       GetPayloadByPacketIndex i b' = Done (payload (PayloadLength b') (Data b) i) b' /\
       0 < zlen (payload (PayloadLength b') (Data b) i) <= PayloadLength b' /\
       (i < NumPackets b' - 1 -> zlen (payload (PayloadLength b') (Data b) i) = PayloadLength b')) /\
    concat (payload (PayloadLength b') (Data b) <$> seqZ 0 (NumPackets b')) = Data b.
Proof.
  intros Ht Hh0 Hh Hm Hd Hprod Htest.
  destruct (Prepare_geometry ts b h) as (b' & Hr & Hg & ->); try done.
  eexists. split; [exact Hr|]. set (b' := set_sizes _ _ _ _ _) in *.
  pose proof (ceil_div_nonneg (zlen (Data b)) (PayloadLength b') (zlen_nonneg _)) as H0.
  pose proof (ceil_div_le (zlen (Data b)) (PayloadLength b') (zlen_nonneg _)) as H1.
  assert (Hp : 0 < PayloadLength b') by (cbn; lia).
  split; [done|]. split; [|split; [done|split; [done|split]]].
  - cbn in *. apply i64_id. unfold in_i64. pose proof (zlen_nonneg (Data b)). nia.
  - intros i Hi. split; [exact (GetPayload_eq b' i Hg Hi)|].
    destruct (payload_index_bounds b' i Hg Hi) as (Hb & _).
    change (Data b') with (Data b) in Hb. rewrite length_payload by lia.
    destruct Hg as (_ & _ & Hn). pose proof (ceil_div_bounds (zlen (Data b')) (PayloadLength b') Hp) as Hc.
    rewrite <- Hn in Hc. change (Data b') with (Data b) in Hc. nia.
  - exact (payloads_cover b' Hg).
Qed.

(** C38: [Prepare] without room for a payload.  It ends the program when the
    transport packer has no packet serializer yet, and when the headers fill
    the packet exactly, because the number of packets is a division by the
    payload length.  When the headers are longer than the packet it does not:
    outside the testing mode it returns with a negative payload length and no
    packets, or a negative number of them, whatever the length of the data. *)
Theorem Prepare_no_room `{PartsPacketPacker} (ts : TestingState) (b : PartContext) (h : Z) :
  0 <= h + GetHeaderLen < 2 ^ 63 -> 0 <= MaxPacketLength b < 2 ^ 63 -> zlen (Data b) < 2 ^ 63 -> TestingMode b = false ->
  (TransportHeaderLen (PCTransportPacketPacker b) = None -> Prepare (ts, b) = Faulted NilDeref) /\
  (TransportHeaderLen (PCTransportPacketPacker b) = Some h -> MaxPacketLength b <= h + GetHeaderLen ->
   if MaxPacketLength b =? h + GetHeaderLen then Prepare (ts, b) = Faulted DivideByZero
   else exists b', Prepare (ts, b) = Done tt (ts, b') /\ Data b' = Data b /\
     HeaderLength b' = h + GetHeaderLen /\ PayloadLength b' = MaxPacketLength b - (h + GetHeaderLen) /\ PayloadLength b' < 0 /\
     - zlen (Data b) <= NumPackets b' <= 0 /\ RecommendedBufferSize b' = i64 (NumPackets b' * MaxPacketLength b)).
Proof.
  intros Hr Hm Hd Htest. pose proof (zlen_nonneg (Data b)). unfold Prepare.
  cbn [PCTransportPacketPacker set_Missing MaxPacketLength Data]. split; [by intros ->|]. intros -> Hle. no_wrap.
  destruct (Z.eqb_spec (MaxPacketLength b) (h + GetHeaderLen)) as [->|Hne]; [by rewrite Z.sub_diag|].
  destruct (CeilForceInt_negative (zlen (Data b)) (MaxPacketLength b - (h + GetHeaderLen))) as (q & -> & Hq); [lia..|].
  cbn [TestingMode set_sizes set_Missing]. rewrite Htest. cbn [andb]. eexists. split; [reflexivity|]. cbn.
  split_and!; (done || lia).
Qed.

#[local] Existing Instance BinaryPartsPacketPacker.packer.

(** A part to prepare. *)
Definition unprepared (transport : option Z) (max : Z) (data : list byte) : PartContext :=
  mkPartContext (mkSocketOptions false false false) IgnoreStatus
    (mkTransportPacketPacker transport (fun buf _ => buf) (fun buf => buf)) false
    max 0 0 0 0 data [] 0 [] [] 0 1 false 0.

Lemma Prepare_cuts_part_witness :
  exists b', Prepare (mkTestingState [] false, unprepared (Some 4) 23 (replicate 10 Byte.x61)) =
      Done tt (mkTestingState [] false, b') /\
    PayloadLength b' = 3 /\ RecommendedBufferSize b' = NumPackets b' * 23.
Proof.
  destruct (Prepare_cuts_part (mkTestingState [] false) (unprepared (Some 4) 23 (replicate 10 Byte.x61)) 4)
    as (b' & H1 & H2 & H3 & _); [vm_compute; done..|].
  exists b'. split; [exact H1|]. split; [exact H2|exact H3].
Defined.

(** No serializer, headers of 20 bytes, and of 24, against packets of 20. *)
Lemma Prepare_no_room_witness :
  Prepare (mkTestingState [] false, unprepared None 20 []) = Faulted NilDeref /\
  Prepare (mkTestingState [] false, unprepared (Some 4) 20 []) = Faulted DivideByZero /\
  exists b', Prepare (mkTestingState [] false, unprepared (Some 8) 20 (replicate 10 Byte.x61)) =
      Done tt (mkTestingState [] false, b') /\ PayloadLength b' = -4 /\ NumPackets b' <= 0.
Proof.
  split; [|split].
  - apply (Prepare_no_room (mkTestingState [] false) (unprepared None 20 []) 4); by split.
  - apply (proj2 (Prepare_no_room (mkTestingState [] false) (unprepared (Some 4) 20 []) 4
      ltac:(by split) ltac:(by split) eq_refl eq_refl) eq_refl). discriminate.
  - destruct (proj2 (Prepare_no_room (mkTestingState [] false) (unprepared (Some 8) 20 (replicate 10 Byte.x61)) 8
      ltac:(by split) ltac:(by split) eq_refl eq_refl) eq_refl ltac:(discriminate)) as (b' & H1 & _ & _ & H2 & _ & [_ H3] & _).
    exists b'. split; [exact H1|]. split; [exact H2|exact H3].
Defined.
