(* ===== verification/Types.v ===== *)
(** * Types: the machine integers of a part context

    Every field of a part context that the source declares [int] or [int64]
    stays a two's complement integer of 64 bits, and the two slices of the
    missing ranges stay parallel, whatever the program does to it. *)

From S2P Require Import Prelude Float64 Utils Interface Packer PartContext.
From stdpp Require Import relations.
#[local] Open Scope Z_scope.

Import BinaryPartsPacketPacker.
#[local] Existing Instance packer.

Record typed (b : PartContext) : Prop := {
  ty_ints : Forall in_i64 [MaxPacketLength b; PayloadLength b; NumPackets b; RecommendedBufferSize b; HeaderLength b;
    HighestSequenceNumber b; currentSequenceNumber b; PartId b; RecvPackets b];
  ty_nums : Forall in_i64 (MissingSequenceNums b);
  ty_offs : Forall in_i64 (MissingSequenceNumOffsets b);
  ty_parallel : length (MissingSequenceNums b) = length (MissingSequenceNumOffsets b);
}.

(** What the program does to a part context: the methods, and the assignments
    of the two planes. *)
Inductive pc_step : PartContext -> PartContext -> Prop :=
| pc_prepare ts ts' b b' : Prepare (ts, b) = Done tt (ts', b') -> pc_step b b'
| pc_set_payload i payload b b' : SetPayloadByPacketIndex i payload b = Done tt b' -> pc_step b b'
| pc_serialize buf buf' b b' : SerializePacket buf b = Done buf' b' -> pc_step b b'
| pc_serialize_again buf buf' s b b' : SerializeRetransferPacket buf s b = Done buf' b' -> pc_step b b'
| pc_deserialize buf r b b' : DeSerializePacket buf b = Done r b' -> pc_step b b'
| pc_buffer u b : pc_step b (set_Buffer u b)
| pc_received b : pc_step b (set_RecvPackets (i64 (RecvPackets b + 1)) b)
| pc_reset b : pc_step b (set_Missing [] [] b)
| pc_asked v off b : in_i64 v -> in_i64 off ->
    pc_step b (set_Missing (MissingSequenceNums b ++ [v]) (MissingSequenceNumOffsets b ++ [off]) b).

Lemma typed_Missing nums offs b :
  typed b -> Forall in_i64 nums -> Forall in_i64 offs -> length nums = length offs -> typed (set_Missing nums offs b).
Proof. by intros []. Qed.

Lemma typed_highest h b : typed b -> in_i64 h -> typed (set_HighestSequenceNumber h b).
Proof.
  intros [Hi ? ? ?] Hh. split; try done. rewrite !Forall_cons in Hi |- *. cbn. intuition.
Qed.

Lemma typed_Data d b : typed b -> typed (set_Data d b).
Proof. by intros []. Qed.

Lemma typed_current c b : typed b -> in_i64 c -> typed (set_currentSequenceNumber c b).
Proof. intros [Hi ? ? ?] Hh. split; try done. rewrite !Forall_cons in Hi |- *. cbn. intuition. Qed.

Lemma typed_received r b : typed b -> in_i64 r -> typed (set_RecvPackets r b).
Proof. intros [Hi ? ? ?] Hh. split; try done. rewrite !Forall_cons in Hi |- *. cbn. intuition. Qed.

Lemma typed_sizes hl pl np rb b :
  typed b -> in_i64 hl -> in_i64 pl -> in_i64 np -> in_i64 rb -> typed (set_sizes hl pl np rb b).
Proof. intros [Hi ? ? ?] ? ? ? ?. split; try done. rewrite !Forall_cons in Hi |- *. cbn. intuition. Qed.

Create HintDb typed discriminated.
#[export] Hint Resolve typed_Missing typed_highest typed_Data typed_current typed_received typed_sizes i64_range : typed.

Lemma CeilForceInt_typed x y q : CeilForceInt x y = Some q -> in_i64 q.
Proof.
  unfold CeilForceInt. destruct (y =? 0); [done|]. destruct (f64_gtb _ _); intros [= <-]; apply i64_range.
Qed.

Lemma Prepare_typed ts ts' b b' : Prepare (ts, b) = Done tt (ts', b') -> typed b -> typed b'.
Proof.
  intros Hp Hb. unfold Prepare in Hp.
  assert (Hm : typed (set_Missing [] [] b)) by (apply typed_Missing; done).
  destruct (TransportHeaderLen _); [|done]. destruct (CeilForceInt _ _) as [q|] eqn:Hq; [|done].
  apply CeilForceInt_typed in Hq. cbv zeta in Hp.
  destruct (_ && _); [destruct (go_make _ _); [|done]|]; injection Hp as _ <-; auto with typed.
Qed.

(** A fragment that keeps a part context typed. *)
Definition keeps_typed {A : Type} (m : go PartContext A) : Prop := ensures typed m (fun _ => typed).

Lemma keeps_bind {A B : Type} (m : go PartContext A) (k : A -> go PartContext B) :
  keeps_typed m -> (forall a, keeps_typed (k a)) -> keeps_typed (m ≫= k).
Proof. intros Hm Hk. by eapply ensures_bind. Qed.

Lemma keeps_ret {A : Type} (a : A) : keeps_typed (mret a).
Proof. by apply ensures_ret. Qed.

Lemma keeps_modify f : (forall b, typed b -> typed (f b)) -> keeps_typed (modify f).
Proof. intros Hf b a b' Hb [= _ <-]. auto. Qed.

Lemma keeps_gets {A : Type} (f : PartContext -> A) : keeps_typed (gets f).
Proof. by intros b a b' Hb [= _ <-]. Qed.

Lemma keeps_or_fail {A : Type} fl (o : option A) : keeps_typed (or_fail fl o).
Proof. by intros b a b' Hb [_ ->]%or_fail_Done. Qed.

Lemma keeps_if {A : Type} (c : bool) (m m' : go PartContext A) :
  keeps_typed m -> keeps_typed m' -> keeps_typed (if c then m else m').
Proof. by destruct c. Qed.

#[export] Hint Resolve keeps_ret keeps_gets keeps_or_fail keeps_if typed_Data : typed.

Lemma GetNextSequenceNumber_typed : keeps_typed GetNextSequenceNumber.
Proof. apply keeps_bind; [apply keeps_modify|]; auto with typed. Qed.

Lemma RemoveFromSliceByIndex_typed l i l' :
  Forall in_i64 l -> RemoveFromSliceByIndex l i = Some l' -> Forall in_i64 l'.
Proof.
  intros Hl. unfold RemoveFromSliceByIndex.
  destruct (go_slice l 0 i) eqn:Ha; [|done]. destruct (go_slice l (i + 1) _) eqn:Hc; [|done]. intros [= <-].
  apply go_slice_inv in Ha as (_ & _ & ->), Hc as (_ & _ & ->).
  apply Forall_app; auto using Forall_take, Forall_drop.
Qed.

Lemma length_RemoveFromSliceByIndex l i l' :
  RemoveFromSliceByIndex l i = Some l' -> S (length l') = length l.
Proof.
  unfold RemoveFromSliceByIndex.
  destruct (go_slice l 0 i) eqn:Ha; [|done]. destruct (go_slice l (i + 1) _) eqn:Hc; [|done]. intros [= <-].
  apply go_slice_inv in Ha as (? & ? & ->), Hc as (? & ? & ->). unfold zlen in *.
  rewrite length_app, !length_take, !length_drop. lia.
Qed.

Lemma open_missing_range_typed s diff : in_i64 s -> keeps_typed (open_missing_range s diff).
Proof.
  intros Hs b r b' Hb. unfold open_missing_range. go_step. destruct (_ <? 0); go_step; intros [= _ <-]; [|done].
  apply typed_highest; [|done]. destruct Hb as [Hi Hn Ho Hl]. apply typed_Missing; [by split| | |].
  - apply Forall_app. auto using i64_range.
  - apply Forall_app. auto using i64_range.
  - rewrite !length_app, Hl. done.
Qed.

Lemma count_retransfer_typed s : keeps_typed (count_retransfer s).
Proof.
  intros b r b' Hb. unfold count_retransfer. go_step. destruct (_ >=? 0); go_step; [|by intros [= _ <-]].
  destruct (go_index _ _) as [off|] eqn:Hoff; go_step; [|done].
  set (offs := <[_ := _]> _). destruct Hb as [Hi Hn Ho Hl].
  assert (Hoffs : Forall in_i64 offs) by (apply Forall_insert; auto using i64_range).
  assert (Hlen : length (MissingSequenceNums b) = length offs) by (unfold offs; by rewrite length_insert).
  destruct (_ =? 0); go_step.
  - destruct (RemoveFromSliceByIndex (MissingSequenceNums b) _) as [nums1|] eqn:Hr1; go_step; [|done].
    destruct (RemoveFromSliceByIndex offs _) as [offs1|] eqn:Hr2; go_step; [|done]. intros [= _ <-].
    pose proof (length_RemoveFromSliceByIndex _ _ _ Hr1). pose proof (length_RemoveFromSliceByIndex _ _ _ Hr2).
    repeat apply typed_Missing; [by split|done|done|done| | |lia]; eauto using RemoveFromSliceByIndex_typed.
  - intros [= _ <-]. by apply typed_Missing.
Qed.

Lemma store_payload_typed s diff buf : in_i64 s -> keeps_typed (store_payload s diff buf).
Proof.
  intros Hs b r b' Hb. unfold store_payload. destruct (payload_bounds _ b) as [lo hi].
  destruct (copy_into _ _ _ _) as [d|]; go_step; [|done].
  destruct (diff >? 0); go_step; intros [= _ <-]; auto with typed.
Qed.

Lemma SetPayload_typed i p : keeps_typed (SetPayloadByPacketIndex i p).
Proof.
  intros b r b' Hb. unfold SetPayloadByPacketIndex. destruct (payload_bounds _ b) as [lo hi].
  destruct (copy_into _ _ _ _) as [d|]; go_step; [|done]. intros [= _ <-]. auto with typed.
Qed.

Lemma Pack_typed buf : keeps_typed (Pack buf).
Proof. apply keeps_bind; [apply GetNextSequenceNumber_typed|intros seq]. repeat (apply keeps_bind; [|intros ?]); auto with typed. Qed.

Lemma PackRetransfer_typed buf s : keeps_typed (PackRetransfer buf s).
Proof. repeat (apply keeps_bind; [|intros ?]); auto with typed. Qed.

Lemma SerializePacket_typed buf : keeps_typed (SerializePacket buf).
Proof. apply keeps_bind; [apply Pack_typed|intros buf']. repeat (apply keeps_bind; [|intros ?]); auto with typed. Qed.

Lemma SerializeRetransferPacket_typed buf s : keeps_typed (SerializeRetransferPacket buf s).
Proof. apply keeps_bind; [apply PackRetransfer_typed|intros buf']. repeat (apply keeps_bind; [|intros ?]); auto with typed. Qed.

(** The sequence number of a packet that was read is an [int64]. *)
Lemma Unpack_typed buf :
  ensures typed (Unpack buf) (fun r b => typed b /\ match r.2 with inr p => in_i64 (pkt_SequenceNumber p) | inl _ => True end).
Proof.
  intros b r b' Hb. unfold Unpack. go_step.
  destruct (Uint64_at buf 8); go_step; [|done]. destruct (Uint64_at buf 0); go_step; [|done].
  destruct (negb _); go_step; [by intros [= <- <-]|].
  destruct (go_slice _ _ _); go_step; [|done]. intros [= <- <-]. split; [done|apply i64_range].
Qed.

Lemma DeSerializePacket_typed buf : keeps_typed (DeSerializePacket buf).
Proof.
  apply keeps_bind; [auto with typed|intros t]. eapply ensures_bind; [apply Unpack_typed|]. intros [rest [e|p]].
  { apply ensures_ret. by intros b [??]. }
  assert (Hrest : in_i64 (pkt_SequenceNumber p) -> keeps_typed (
    highest ← gets HighestSequenceNumber;
    let diff := i64 (pkt_SequenceNumber p - highest) in
    handled ← track_missing (pkt_SequenceNumber p) diff;
    if (handled : bool) then store_payload (pkt_SequenceNumber p) diff rest;; mret (rest, None)
    else mret (rest, Some DuplicateRetransfer))).
  { intros Hp. apply keeps_bind; [auto with typed|intros highest]. apply keeps_bind.
    - repeat apply keeps_if; auto using count_retransfer_typed with typed.
      apply keeps_bind; auto using open_missing_range_typed with typed.
    - intros []; [|auto with typed]. apply keeps_bind; auto using store_payload_typed with typed. }
  intros b r b' [Hb Hp]. by apply Hrest.
Qed.

(** C22: every [int] and [int64] of a part context stays a two's complement
    integer of 64 bits and the two slices of its missing ranges stay parallel,
    whatever sequence of operations the program performs on it and whatever
    bytes its packets have. *)
Theorem part_context_typed b b' : rtc pc_step b b' -> typed b -> typed b'.
Proof.
  induction 1 as [|b b1 b' Hs _ IH]; [done|]. intros Hb. apply IH. clear IH.
  destruct Hs as [ts ts' ? ? Hr|i p ? ? Hr|buf buf' ? ? Hr|buf buf' s ? ? Hr|buf r ? ? Hr|u b|b|b|v off b Hv Ho].
  - by eapply Prepare_typed.
  - by eapply SetPayload_typed.
  - by eapply SerializePacket_typed.
  - by eapply SerializeRetransferPacket_typed.
  - by eapply DeSerializePacket_typed.
  - by destruct Hb.
  - auto with typed.
  - by apply typed_Missing.
  - destruct Hb as [? ? ? Hl]. apply typed_Missing; [by split| | |by rewrite !length_app, Hl]; apply Forall_app; auto.
Qed.

(** A part of five bytes, prepared; then the packet 3 of its three arrives. *)
Definition fresh_part : PartContext := unprepared (Some 0) 18 (replicate 5 Byte.x00).

Lemma part_context_typed_witness :
  exists b', rtc pc_step fresh_part b' /\ typed b' /\ MissingSequenceNums b' = [1] /\ HighestSequenceNumber b' = 3.
Proof.
  assert (Hrun : exists b', rtc pc_step fresh_part b' /\ MissingSequenceNums b' = [1] /\ HighestSequenceNumber b' = 3).
  { eexists. split; [|split].
    - eapply rtc_l; [eapply (pc_prepare (mkTestingState [] false)); vm_compute; reflexivity|].
      eapply rtc_l; [|apply rtc_refl]. eapply (pc_deserialize (header 1 3 ++ [Byte.x61])). vm_compute. reflexivity.
    - reflexivity.
    - reflexivity. }
  destruct Hrun as (b' & Hr & Hn & Hh). exists b'. split; [exact Hr|]. split; [|split; [exact Hn|exact Hh]].
  apply (part_context_typed fresh_part b' Hr).
  assert (Hi : forall z, (- 2 ^ 63 <=? z) && (z <? 2 ^ 63) = true -> in_i64 z).
  { intros z [?%Z.leb_le ?%Z.ltb_lt]%andb_prop. by split. }
  split; [repeat constructor; by apply Hi|constructor|constructor|reflexivity].
Defined.
