(* ===== verification/Reassembly.v ===== *)
(** * Reassembly: what [DeSerializePacket] achieves

    The receiver state is related to the set [R] of the sequence numbers that
    were accepted.  [data_inv]: the data holds the sender's bytes in the
    blocks of [R] and its old bytes elsewhere; this survives duplicates.
    [missing_inv]: the missing ranges are ascending, disjoint, cover every
    number below the highest one that is not in [R], and each offset counts
    exactly the numbers of its range that are not in [R]; this holds as long
    as no packet arrives twice. *)

From S2P Require Import Prelude Utils Interface Packer PartContext.

(** ** Counting what a range still misses *)

(** The numbers of [st .. st+len-1] that are not in [R]. *)
Definition unrecv (R : gset Z) (st len : Z) : Z :=
  Z.of_nat (length (filter (fun s => s ∉ R) (seqZ st len))).

Lemma unrecv_split R st len s :
  st <= s < st + len ->
  unrecv R st len = unrecv R st (s - st) + (if decide (s ∉ R) then 1 else 0) + unrecv R (s + 1) (st + len - s - 1).
Proof.
  intros Hs. unfold unrecv.
  replace len with ((s - st) + (1 + (st + len - s - 1))) at 1 by lia.
  rewrite !seqZ_app by lia. rewrite !filter_app, !length_app.
  replace (st + (s - st)) with s by lia.
  rewrite (seqZ_cons s 1), (seqZ_nil (Z.succ s)), filter_cons, filter_nil by lia.
  destruct (decide (s ∉ R)); cbn [length]; lia.
Qed.

Lemma unrecv_outside R st len s :
  ~ (st <= s < st + len) -> unrecv ({[s]} ∪ R) st len = unrecv R st len.
Proof.
  intros Hs. unfold unrecv. do 2 f_equal. apply filter_ext_in.
  intros x Hx%elem_of_seqZ. assert (x <> s) by lia. rewrite elem_of_union, elem_of_singleton. tauto.
Qed.

Lemma unrecv_inside R st len s :
  st <= s < st + len -> s ∉ R -> unrecv ({[s]} ∪ R) st len = unrecv R st len - 1.
Proof.
  intros Hs HR. rewrite (unrecv_split R st len s), (unrecv_split ({[s]} ∪ R) st len s) by done.
  rewrite !unrecv_outside by lia.
  rewrite decide_False by (rewrite elem_of_union, elem_of_singleton; tauto). rewrite decide_True by done. lia.
Qed.

Lemma unrecv_pos R st len : 0 < unrecv R st len <-> exists s, st <= s < st + len /\ s ∉ R.
Proof.
  unfold unrecv. split.
  - intros Hp. destruct (filter (fun s => s ∉ R) (seqZ st len)) as [|s l] eqn:E; [cbn in Hp; lia|].
    assert (Hin : s ∈ filter (fun s => s ∉ R) (seqZ st len)) by (rewrite E; set_solver).
    apply list_elem_of_filter in Hin as [? ?%elem_of_seqZ]. eauto.
  - intros (s & Hs & HR). destruct (filter (fun s => s ∉ R) (seqZ st len)) as [|s' l] eqn:E; [|cbn; lia].
    assert (Hin : s ∈ filter (fun s => s ∉ R) (seqZ st len))
      by (apply list_elem_of_filter; rewrite elem_of_seqZ; done).
    rewrite E in Hin. by apply elem_of_nil in Hin.
Qed.

Lemma unrecv_fresh R st len :
  0 <= len -> (forall s, st <= s < st + len -> s ∉ R) -> unrecv R st len = len.
Proof.
  intros Hl HR. unfold unrecv.
  rewrite filter_all, length_seqZ by (intros s ?%elem_of_seqZ; auto). lia.
Qed.

Lemma unrecv_le R st len : 0 <= len -> unrecv R st len <= len.
Proof.
  intros. unfold unrecv. pose proof (length_filter (fun s => s ∉ R) (seqZ st len)).
  rewrite length_seqZ in *. lia.
Qed.

Lemma unrecv_none R st len : (forall s, st <= s < st + len -> s ∈ R) -> unrecv R st len = 0.
Proof.
  intros Hall. destruct (decide (0 < unrecv R st len)) as [Hp|Hp]; [|unfold unrecv in *; lia].
  apply unrecv_pos in Hp as (s & Hs & HR). by destruct HR; apply Hall.
Qed.

Lemma unrecv_app R st n1 n2 :
  0 <= n1 -> 0 <= n2 -> unrecv R st (n1 + n2) = unrecv R st n1 + unrecv R (st + n1) n2.
Proof. intros. unfold unrecv. rewrite seqZ_app, filter_app, length_app by done. lia. Qed.

(** ** Missing ranges *)

Abbreviation range := (Z * Z)%type.

Lemma ascending_NoDup seqs : ascending seqs -> NoDup seqs.
Proof.
  induction seqs as [|s seqs IH]; [constructor|]. intros [Hlt Hasc]%ascending_cons.
  constructor; [|by apply IH]. intros Hs%Hlt. lia.
Qed.

(** The ranges lie in [lo .. hi] in ascending order; what is outside them was
    received, and each of them misses something. *)
Fixpoint ranges_ok (R : gset Z) (lo hi : Z) (rs : list range) : Prop :=
  match rs with
  | [] => forall s, lo <= s <= hi -> s ∈ R
  | (st, len) :: rs' =>
      lo <= st /\ (forall s, lo <= s < st -> s ∈ R) /\ 0 < unrecv R st len /\
      st + len <= hi + 1 /\ ranges_ok R (st + len) hi rs'
  end.

Definition count_missing (R : gset Z) (r : range) : Z := unrecv R r.1 r.2.

Lemma range_len_pos R st len : 0 < unrecv R st len -> 0 < len.
Proof. intros (s & ? & _)%unrecv_pos. lia. Qed.

Lemma ranges_ok_lower R lo hi rs : ranges_ok R lo hi rs -> Forall (fun r => lo <= r.1) rs.
Proof.
  induction rs as [|[st len] rs IH] in lo |- *; cbn; [constructor|].
  intros (Hlo & _ & Hp%range_len_pos & _ & Hrs). constructor; [done|].
  eapply Forall_impl; [by apply IH|]. cbn. intros. lia.
Qed.

Lemma ranges_ok_ascending R lo hi rs : ranges_ok R lo hi rs -> ascending (rs.*1).
Proof.
  induction rs as [|[st len] rs IH] in lo |- *; cbn; [constructor|].
  intros (Hlo & _ & Hp%range_len_pos & _ & Hrs). apply ascending_cons. split; [|by eapply IH].
  intros w (r & -> & Hr)%list_elem_of_fmap.
  pose proof (ranges_ok_lower _ _ _ _ Hrs) as HF. rewrite Forall_forall in HF.
  apply HF in Hr. lia.
Qed.

(** Every number that is missing is in exactly one range, found by the count
    of the starts that are at most it. *)
Lemma ranges_ok_locate R lo hi rs s :
  ranges_ok R lo hi rs -> lo <= s <= hi -> s ∉ R ->
  exists rs1 st len rs2, rs = rs1 ++ (st, len) :: rs2 /\ st <= s < st + len /\
    count_le s (rs.*1) = S (length rs1).
Proof.
  induction rs as [|[st len] rs IH] in lo |- *; cbn [ranges_ok].
  { intros Hall Hs HR. destruct HR. by apply Hall. }
  intros (Hlo & Hgap & Hp & Hle & Hrs) Hs HR.
  destruct (decide (s < st)) as [Hlt|Hge]; [destruct HR; apply Hgap; lia|].
  rewrite fmap_cons, count_le_cons_le by (cbn; lia).
  destruct (decide (s < st + len)) as [Hin|Hout].
  - exists [], st, len, rs. split_and!; [done|lia|lia|]. f_equal. apply count_le_none.
    intros w (r & -> & Hr)%list_elem_of_fmap.
    pose proof (ranges_ok_lower _ _ _ _ Hrs) as HF. rewrite Forall_forall in HF. apply HF in Hr. lia.
  - destruct (IH (st + len)) as (rs1 & st' & len' & rs2 & -> & Hs' & Hc); [done|lia|done|].
    exists ((st, len) :: rs1), st', len', rs2. rewrite Hc. split_and!; (done || lia).
Qed.

(** Receiving a number above the ranges. *)
Lemma ranges_ok_extend R lo hi rs :
  lo <= hi + 1 -> ranges_ok R lo hi rs -> ranges_ok ({[hi + 1]} ∪ R) lo (hi + 1) rs.
Proof.
  induction rs as [|[st len] rs IH] in lo |- *; cbn [ranges_ok].
  - intros Hlo H s Hs. destruct (decide (s = hi + 1)) as [->|]; [by apply elem_of_union_l, elem_of_singleton|].
    apply elem_of_union_r, H. lia.
  - intros Hlo (? & Hgap & Hp & Hle & Hrs). pose proof (range_len_pos _ _ _ Hp). split_and!; [done| | |lia|].
    + intros s Hs. by apply elem_of_union_r, Hgap.
    + rewrite unrecv_outside by lia. done.
    + apply IH; [lia|done].
Qed.

(** Receiving a number that leaves a gap above the highest one. *)
Lemma ranges_ok_gap R lo hi rs s :
  lo <= hi + 1 -> hi + 1 < s -> (forall x, hi < x -> x ∉ R) ->
  ranges_ok R lo hi rs -> ranges_ok ({[s]} ∪ R) lo s (rs ++ [(hi + 1, s - hi - 1)]).
Proof.
  intros Hlo Hs Hnew. induction rs as [|[st len] rs IH] in lo, Hlo |- *; cbn [ranges_ok app].
  - intros H. split_and!; [done| | |lia|].
    + intros x Hx. apply elem_of_union_r, H. lia.
    + rewrite unrecv_outside, unrecv_fresh by (lia || (intros; apply Hnew; lia)). lia.
    + intros x Hx. assert (x = s) as -> by lia. by apply elem_of_union_l, elem_of_singleton.
  - intros (? & Hgap & Hp & Hle & Hrs). pose proof (range_len_pos _ _ _ Hp). split_and!; [done| | |lia|].
    + intros x Hx. by apply elem_of_union_r, Hgap.
    + rewrite unrecv_outside by lia. done.
    + apply IH; [lia|done].
Qed.

(** Receiving a number below all ranges. *)
Lemma ranges_ok_above R lo hi rs s :
  s < lo -> ranges_ok R lo hi rs -> ranges_ok ({[s]} ∪ R) lo hi rs.
Proof.
  induction rs as [|[st len] rs IH] in lo |- *; cbn [ranges_ok].
  - intros _ H x Hx. apply elem_of_union_r. auto.
  - intros Hs (? & Hgap & Hp & Hle & Hrs). pose proof (range_len_pos _ _ _ Hp).
    split_and!; [done| | |done|].
    + intros x Hx. by apply elem_of_union_r, Hgap.
    + rewrite unrecv_outside by lia. done.
    + apply IH; [lia|done].
Qed.

(** Receiving a missing number: its range misses one less, and disappears
    when that was the last. *)
Lemma ranges_ok_fill R lo hi rs1 st len rs2 s :
  ranges_ok R lo hi (rs1 ++ (st, len) :: rs2) -> st <= s < st + len -> s ∉ R ->
  ranges_ok ({[s]} ∪ R) lo hi
    (rs1 ++ (if unrecv R st len =? 1 then rs2 else (st, len) :: rs2)).
Proof.
  induction rs1 as [|[st1 len1] rs1 IH] in lo |- *; cbn [ranges_ok app].
  - intros (Hlo & Hgap & Hp & Hle & Hrs) Hs HR.
    pose proof (ranges_ok_above R (st + len) hi rs2 s ltac:(lia) Hrs) as Hrs2.
    destruct (Z.eqb_spec (unrecv R st len) 1) as [E|E].
    + assert (Hnone : forall x, lo <= x < st + len -> x ∈ {[s]} ∪ R).
      { intros x Hx. destruct (decide (x < st)) as [|Hge]; [by apply elem_of_union_r, Hgap; lia|].
        destruct (decide (x ∈ {[s]} ∪ R)) as [|Hn]; [done|].
        assert (0 < unrecv ({[s]} ∪ R) st len) by (apply unrecv_pos; exists x; split; [lia|done]).
        rewrite unrecv_inside in *; (done || lia). }
      clear Hrs. destruct rs2 as [|[st2 len2] rs2]; cbn [ranges_ok] in Hrs2 |- *.
      * intros x Hx. destruct (decide (x < st + len)); [apply Hnone; lia|apply Hrs2; lia].
      * destruct Hrs2 as (? & Hgap2 & Hp2 & Hle2 & Hrs2). pose proof (range_len_pos _ _ _ Hp).
        split_and!; [lia| |done|done|done].
        intros x Hx. destruct (decide (x < st + len)); [apply Hnone; lia|apply Hgap2; lia].
    + cbn [ranges_ok]. split_and!; [done| | |done|done].
      * intros x Hx. apply elem_of_union_r, Hgap. lia.
      * rewrite unrecv_inside by done. lia.
  - intros (Hlo & Hgap & Hp & Hle & Hrs) Hs HR. pose proof (range_len_pos _ _ _ Hp).
    assert (st1 + len1 <= st).
    { pose proof (ranges_ok_lower _ _ _ _ Hrs) as HF. apply Forall_app in HF as [_ HF].
      by inversion HF. }
    split_and!; [done| | |done|].
    + intros x Hx. apply elem_of_union_r, Hgap. lia.
    + rewrite unrecv_outside by lia. done.
    + by apply IH.
Qed.

Lemma ranges_ok_middle R lo hi rs1 st len rs2 :
  ranges_ok R lo hi (rs1 ++ (st, len) :: rs2) -> lo <= st /\ st + len <= hi + 1.
Proof.
  induction rs1 as [|[st1 len1] rs1 IH] in lo |- *; cbn [ranges_ok app].
  - by intros (? & _ & _ & ? & _).
  - intros (? & _ & Hp%range_len_pos & _ & [??]%IH). lia.
Qed.

(** Nothing is missing once everything was received. *)
Lemma ranges_ok_complete R lo hi rs :
  ranges_ok R lo hi rs -> (forall s, lo <= s <= hi -> s ∈ R) -> rs = [].
Proof.
  destruct rs as [|[st len] rs]; [done|]. intros (Hlo & _ & Hp & Hle & _) Hall.
  apply unrecv_pos in Hp as (s & Hs & HR). destruct HR. apply Hall. lia.
Qed.

(** ** The receiver invariants *)

(** [H] is the highest number received, 0 before any. *)
Definition is_highest (R : gset Z) (H : Z) : Prop :=
  (forall s, s ∈ R -> 1 <= s <= H) /\ (H = 0 \/ H ∈ R).

(** The missing slices describe ranges that are right for [R]. *)
Definition missing_inv (R : gset Z) (b : PartContext) : Prop :=
  is_highest R (HighestSequenceNumber b) /\
  exists rs, ranges_ok R 1 (HighestSequenceNumber b) rs /\
    MissingSequenceNums b = rs.*1 /\ MissingSequenceNumOffsets b = count_missing R <$> rs.

(** The blocks of [R] hold the sender's bytes, the others those of [init]. *)
Definition data_inv (pl : Z) (sent init : list byte) (R : gset Z) (b : PartContext) : Prop :=
  length (Data b) = length sent /\
  forall j : nat, Data b !! j = if decide (Z.of_nat j / pl + 1 ∈ R) then sent !! j else init !! j.

Lemma data_inv_init pl sent b :
  length (Data b) = length sent -> data_inv pl sent (Data b) ∅ b.
Proof. intros Hl. split; [done|]. intros j. by rewrite decide_False by set_solver. Qed.

(** With every block received the data is the sender's. *)
Lemma data_inv_complete pl sent init R b :
  0 < pl -> (forall s, 1 <= s <= ceil_div (zlen sent) pl -> s ∈ R) ->
  data_inv pl sent init R b -> Data b = sent.
Proof.
  intros Hpl HR [Hl Hd]. apply list_eq. intros j. rewrite Hd.
  destruct (decide (Z.of_nat j / pl + 1 ∈ R)) as [|Hn]; [done|].
  destruct (decide (j < length sent)%nat) as [Hj|Hj].
  - destruct Hn. apply HR. pose proof (ceil_div_bounds (zlen sent) pl Hpl). unfold zlen in *.
    pose proof (Z.div_mod (Z.of_nat j) pl). pose proof (Z.mod_pos_bound (Z.of_nat j) pl).
    pose proof (Z.div_pos (Z.of_nat j) pl). nia.
  - rewrite (proj2 (lookup_ge_None sent j)) by lia.
    pose proof (Hd j) as Hdj. rewrite decide_False in Hdj by done. rewrite <- Hdj.
    apply lookup_ge_None. lia.
Qed.

Lemma missing_inv_complete R n b :
  missing_inv R b -> (forall s, s ∈ R <-> 1 <= s <= n) -> 0 < n ->
  MissingSequenceNums b = [] /\ MissingSequenceNumOffsets b = [] /\ HighestSequenceNumber b = n.
Proof.
  intros ([Hin Hmax] & rs & Hrs & Hn & Ho) HR Hpos.
  assert (HighestSequenceNumber b = n).
  { assert (n ∈ R) as Hnr by (apply HR; lia). apply Hin in Hnr.
    destruct Hmax as [|Hm%HR]; lia. }
  rewrite (ranges_ok_complete _ _ _ _ Hrs) in Hn, Ho by (intros; apply HR; lia). done.
Qed.

(** ** One packet *)

(** The part context with its data and its bookkeeping replaced. *)
Definition received (d : list byte) (nums offs : list Z) (h : Z) (b : PartContext) : PartContext :=
  set_HighestSequenceNumber h (set_Missing nums offs (set_Data d b)).

Lemma received_id b :
  received (Data b) (MissingSequenceNums b) (MissingSequenceNumOffsets b) (HighestSequenceNumber b) b = b.
Proof. by destruct b. Qed.

Lemma received_Data d b :
  set_Data d b = received d (MissingSequenceNums b) (MissingSequenceNumOffsets b) (HighestSequenceNumber b) b.
Proof. by destruct b. Qed.

Lemma geometry_received d nums offs h b :
  length d = length (Data b) -> geometry b -> geometry (received d nums offs h b).
Proof. unfold geometry, zlen. cbn. by intros ->. Qed.

(** Position [j] lies in block [s] exactly when [j / pl + 1 = s]. *)
Lemma block_index (pl j s : Z) : 0 < pl -> (s - 1) * pl <= j < s * pl <-> j / pl + 1 = s.
Proof.
  intros Hpl. pose proof (Z.div_mod j pl ltac:(lia)). pose proof (Z.mod_pos_bound j pl Hpl).
  split; [|intros <-; nia]. intros Hj. assert (j / pl = s - 1); [|lia].
  symmetry. apply Z.div_unique with (j - (s - 1) * pl); lia.
Qed.

(** Storing the payload of packet [s], whatever follows it in the buffer,
    replaces block [s] and nothing else. *)
Lemma store_payload_block (b : PartContext) (sent pad : list byte) (s diff : Z) :
  geometry b -> 1 <= s <= NumPackets b -> length (Data b) = length sent ->
  exists d, store_payload s diff (payload (PayloadLength b) sent (s - 1) ++ pad) b =
      Done tt (received d (MissingSequenceNums b) (MissingSequenceNumOffsets b)
                 (if diff >? 0 then s else HighestSequenceNumber b) b) /\
    length d = length sent /\
    forall j : nat, d !! j = if decide (Z.of_nat j / PayloadLength b + 1 = s) then sent !! j else Data b !! j.
Proof.
  intros Hg Hs Hl. set (pl := PayloadLength b).
  destruct (payload_index_bounds b (s - 1) Hg ltac:(lia)) as (Hb & _ & _). fold pl in Hb.
  assert (Hpl : 0 < pl) by (unfold pl; destruct Hg as (? & _); lia).
  assert (Hz : zlen sent = zlen (Data b)) by (unfold zlen; lia).
  unfold store_payload. rewrite i64_id.
  2:{ destruct Hg as (Hp & Hd & Hn). unfold in_i64.
      pose proof (ceil_div_le (zlen (Data b)) (PayloadLength b) (zlen_nonneg _)). lia. }
  rewrite payload_bounds_eq by (done || lia). fold pl. replace (s - 1 + 1) with s by lia.
  rewrite copy_into_Some by nia. go_step.
  match goal with |- context [set_Data ?d b] => exists d end. split; [|split].
  - rewrite received_Data. by destruct (diff >? 0).
  - rewrite length_go_copy by nia. done.
  - pose proof (length_payload pl sent (s - 1) Hpl ltac:(lia) ltac:(lia)) as Hlp.
    replace (s - 1 + 1) with s in Hlp by lia. intros j.
    rewrite lookup_go_copy; [|nia|nia|unfold zlen in *; rewrite length_app; lia].
    destruct (decide (Z.of_nat j / pl + 1 = s)) as [E|E].
    + apply block_index in E; [|done]. destruct (decide (Z.of_nat j < zlen (Data b))).
      * rewrite decide_True by lia. rewrite lookup_app_l by (unfold zlen in *; lia).
        rewrite lookup_payload by lia. f_equal. lia.
      * rewrite decide_False by lia. unfold zlen in *.
        rewrite !(proj2 (lookup_ge_None _ _)) by lia. done.
    + rewrite decide_False; [done|]. intros Hj. apply E, block_index; [done|]. lia.
Qed.

(** The accepted packet extends the blocks that are right. *)
Lemma data_inv_store (pl : Z) (sent init d : list byte) nums offs h R b s :
  data_inv pl sent init R b -> length d = length sent ->
  (forall j : nat, d !! j = if decide (Z.of_nat j / pl + 1 = s) then sent !! j else Data b !! j) ->
  data_inv pl sent init ({[s]} ∪ R) (received d nums offs h b).
Proof.
  intros [Hl Hd] Hld Hj. split; [done|]. intros j. cbn. rewrite Hj, Hd.
  destruct (decide (Z.of_nat j / pl + 1 = s)) as [->|Hne].
  - rewrite decide_True; [done|]. by apply elem_of_union_l, elem_of_singleton.
  - destruct (decide (Z.of_nat j / pl + 1 ∈ R)).
    + rewrite decide_True; [done|]. by apply elem_of_union_r.
    + rewrite decide_False; [done|]. rewrite elem_of_union, elem_of_singleton. tauto.
Qed.

Lemma is_highest_insert R H s :
  is_highest R H -> 1 <= s -> is_highest ({[s]} ∪ R) (Z.max s H).
Proof.
  intros [Hin Hmax] Hs. split.
  - intros x [->%elem_of_singleton|Hx%Hin]%elem_of_union; lia.
  - right. destruct (Z.max_spec s H) as [[? ->]|[? ->]].
    + apply elem_of_union_r. destruct Hmax; [lia|done].
    + by apply elem_of_union_l, elem_of_singleton.
Qed.

Lemma is_highest_nonneg R H : is_highest R H -> 0 <= H.
Proof. intros [Hin [->|HH%Hin]]; lia. Qed.

Lemma is_highest_above R H x : is_highest R H -> H < x -> x ∉ R.
Proof. intros [Hin _] Hx HR%Hin. lia. Qed.

Lemma count_missing_above R rs lo hi s :
  ranges_ok R lo hi rs -> hi < s ->
  count_missing ({[s]} ∪ R) <$> rs = count_missing R <$> rs.
Proof.
  intros Hrs Hs. apply list_fmap_ext. intros i r Hr%list_elem_of_lookup_2.
  unfold count_missing. apply unrecv_outside.
  enough (r.1 + r.2 <= hi + 1) by lia. clear Hs.
  induction rs as [|[st len] rs IH] in lo, Hrs, Hr |- *; [by apply elem_of_nil in Hr|].
  destruct Hrs as (_ & _ & _ & Hle & Hrs). apply elem_of_cons in Hr as [->|Hr]; [done|]. by eapply IH.
Qed.

(** What the missing ranges ask for: as many numbers as the offset says, from
    the start of the range on. *)
Definition requested (b : PartContext) : list Z :=
  concat (zip_with seqZ (MissingSequenceNums b) (MissingSequenceNumOffsets b)).

(** The numbers asked for are outside [R].  This is so while packets arrive in
    ascending order: no range was filled yet. *)
Definition asked_missing (R : gset Z) (nums offs : list Z) : Prop :=
  Forall2 (fun v off => forall x, v <= x < v + off -> x ∉ R) nums offs.

Definition asks_right (R : gset Z) (b : PartContext) : Prop :=
  asked_missing R (MissingSequenceNums b) (MissingSequenceNumOffsets b).

Lemma filter_missing_prefix R st len :
  (forall s, st <= s < st + unrecv R st len -> s ∉ R) ->
  filter (fun s => s ∉ R) (seqZ st len) = seqZ st (unrecv R st len).
Proof.
  intros Hp. destruct (decide (0 <= len)) as [Hl|Hl].
  2:{ unfold unrecv. rewrite seqZ_nil by lia. done. }
  pose proof (unrecv_le R st len Hl) as Hle.
  assert (Hn : 0 <= unrecv R st len) by (unfold unrecv; lia).
  assert (Hlen : length (filter (fun s => s ∉ R) (seqZ st len)) = Z.to_nat (unrecv R st len))
    by (unfold unrecv; lia).
  remember (unrecv R st len) as c eqn:Hc. clear Hc.
  replace len with (c + (len - c)) in Hlen |- * by lia. rewrite seqZ_app, filter_app in Hlen |- * by lia.
  rewrite (filter_all _ (seqZ st c)) in Hlen |- * by (intros s Hs%elem_of_seqZ; apply Hp; lia).
  rewrite length_app, length_seqZ in Hlen.
  rewrite (nil_length_inv (filter _ (seqZ (st + c) _))) by lia. apply app_nil_r.
Qed.

(** The ranges ask for every missing number, once, in order. *)
Lemma requested_ranges R lo hi rs :
  lo <= hi + 1 -> ranges_ok R lo hi rs ->
  asked_missing R (rs.*1) (count_missing R <$> rs) ->
  concat (zip_with seqZ (rs.*1) (count_missing R <$> rs)) = filter (fun s => s ∉ R) (seqZ lo (hi - lo + 1)).
Proof.
  assert (Hnone : forall a n, (forall s, a <= s < a + n -> s ∈ R) -> filter (fun s => s ∉ R) (seqZ a n) = []).
  { intros a n HR. destruct (filter _ _) as [|s l] eqn:E; [done|].
    assert (Hs : s ∈ filter (fun s => s ∉ R) (seqZ a n)) by (rewrite E; by left).
    apply list_elem_of_filter in Hs as [HsR Hs%elem_of_seqZ]. destruct HsR. by apply HR. }
  induction rs as [|[st len] rs IH] in lo |- *; cbn [ranges_ok]; intros Hlo.
  - intros Hall _. cbn. by rewrite Hnone by (intros; apply Hall; lia).
  - intros (Hst & Hgap & Hp & Hle & Hrs). rewrite !fmap_cons. intros [Hpre Hpres]%Forall2_cons.
    cbn [zip_with concat]. pose proof (range_len_pos _ _ _ Hp).
    rewrite (IH (st + len)) by (done || lia).
    replace (hi - lo + 1) with ((st - lo) + (len + (hi - (st + len) + 1))) by lia.
    rewrite (seqZ_app lo (st - lo)), (seqZ_app _ len), !filter_app by lia.
    rewrite (Hnone lo (st - lo)) by (intros; apply Hgap; lia).
    replace (lo + (st - lo)) with st by lia. cbn [app].
    rewrite (filter_missing_prefix R st len Hpre). done.
Qed.

Lemma requested_missing R b :
  missing_inv R b -> asks_right R b ->
  requested b = filter (fun s => s ∉ R) (seqZ 1 (HighestSequenceNumber b)).
Proof.
  intros ([Hin Hmax] & rs & Hrs & Hn & Ho) Hpre. unfold asks_right, requested in *.
  rewrite Hn, Ho in *. rewrite (requested_ranges R 1 (HighestSequenceNumber b)); [|destruct Hmax as [->|?%Hin]; lia|done|done].
  do 2 f_equal. lia.
Qed.

(** No range reaches beyond the highest number. *)
Lemma ranges_below R lo hi rs :
  ranges_ok R lo hi rs -> Forall2 (fun v off => v + off <= hi + 1) (rs.*1) (count_missing R <$> rs).
Proof.
  induction rs as [|[st len] rs IH] in lo |- *; [constructor|].
  intros (_ & _ & Hp & Hle & Hrs). rewrite !fmap_cons. constructor; [|by eapply IH].
  pose proof (range_len_pos _ _ _ Hp). pose proof (unrecv_le R st len ltac:(lia)).
  unfold count_missing. cbn. lia.
Qed.

Lemma missing_below R b :
  missing_inv R b ->
  Forall2 (fun v off => v + off <= HighestSequenceNumber b + 1)
    (MissingSequenceNums b) (MissingSequenceNumOffsets b).
Proof.
  intros (_ & rs & Hrs & -> & ->). by eapply ranges_below.
Qed.

(** The ranges of a receiver name packets of the part. *)
Lemma missing_in_part R n b :
  missing_inv R b -> HighestSequenceNumber b <= n ->
  Forall2 (fun v off => 1 <= v /\ 0 <= off /\ v + off <= n + 1)
    (MissingSequenceNums b) (MissingSequenceNumOffsets b).
Proof.
  intros (_ & rs & Hrs & -> & ->) Hn. pose proof (ranges_ok_lower _ _ _ _ Hrs) as Hlo.
  apply ranges_below in Hrs. induction Hlo as [|[st len] rs Hst Hlo IH]; [constructor|].
  rewrite !fmap_cons in Hrs |- *. apply Forall2_cons in Hrs as [Hle Hrs].
  constructor; [|by apply IH]. cbn in *. unfold count_missing, unrecv in *. cbn in *. lia.
Qed.

(** The offsets after one more number of range [length rs1] came in. *)
Lemma count_missing_fill R lo hi rs1 st len rs2 s :
  ranges_ok R lo hi (rs1 ++ (st, len) :: rs2) -> st <= s < st + len -> s ∉ R ->
  count_missing ({[s]} ∪ R) <$> rs1 ++ (st, len) :: rs2 =
    (count_missing R <$> rs1) ++ (unrecv R st len - 1) :: (count_missing R <$> rs2).
Proof.
  intros Hrs Hs HR. rewrite fmap_app, fmap_cons. f_equal; [|f_equal].
  - apply list_fmap_ext. intros i [st1 len1] Hr%list_elem_of_lookup_2. apply unrecv_outside. cbn.
    enough (st1 + len1 <= st) by lia. clear Hs.
    induction rs1 as [|[st0 len0] rs1 IH] in lo, Hrs, Hr |- *; [by apply elem_of_nil in Hr|].
    destruct Hrs as (_ & _ & _ & _ & Hrs). apply elem_of_cons in Hr as [[= -> ->]|Hr]; [|by eapply IH].
    apply ranges_ok_lower, Forall_app in Hrs as [_ HF]. by inversion HF.
  - unfold count_missing. cbn. by apply unrecv_inside.
  - apply list_fmap_ext. intros i [st2 len2] Hr%list_elem_of_lookup_2. apply unrecv_outside. cbn.
    enough (st + len <= st2) by lia.
    induction rs1 as [|[st0 len0] rs1 IH] in lo, Hrs |- *.
    + destruct Hrs as (_ & _ & _ & _ & Hrs). apply ranges_ok_lower in Hrs.
      rewrite Forall_forall in Hrs. by apply Hrs in Hr.
    + destruct Hrs as (_ & _ & _ & _ & Hrs). by eapply IH.
Qed.

Section track.
Context (R : gset Z) (b : PartContext) (s : Z).
Hypothesis Hinv : missing_inv R b.
Hypothesis Hs : 1 <= s < 2 ^ 62.
Hypothesis Hnew : s ∉ R.
Hypothesis Hh : HighestSequenceNumber b < 2 ^ 62.

(** What the bookkeeping of a packet that was not received yet leaves. *)
Definition tracked (nums offs : list Z) (h : Z) : Prop :=
  track_missing s (s - HighestSequenceNumber b) b =
    Done true (received (Data b) nums offs h b) /\
  (h = HighestSequenceNumber b \/ h = s /\ HighestSequenceNumber b < s) /\
  exists rs, ranges_ok ({[s]} ∪ R) 1 (Z.max s (HighestSequenceNumber b)) rs /\
    nums = rs.*1 /\ offs = count_missing ({[s]} ∪ R) <$> rs.

Lemma track_gap :
  HighestSequenceNumber b + 1 < s ->
  tracked (MissingSequenceNums b ++ [HighestSequenceNumber b + 1])
    (MissingSequenceNumOffsets b ++ [s - HighestSequenceNumber b - 1]) s.
Proof.
  intros Hgap. destruct Hinv as (Hmax & rs & Hrs & Hn & Ho).
  pose proof (is_highest_nonneg _ _ Hmax) as Hh0. set (H := HighestSequenceNumber b) in *.
  split; [|split; [right; unfold H in *; lia|]].
  - fold H. unfold track_missing. rewrite Z.gtb_ltb, (proj2 (Z.ltb_lt _ _)) by lia.
    unfold open_missing_range. go_step. no_wrap. replace (s - (s - H - 1)) with (H + 1) by lia.
    rewrite IndexOf_absent.
    { cbn [Z.ltb Z.compare]. go_step. by destruct b. }
    rewrite Hn. intros (r & Hr1 & Hr2)%list_elem_of_fmap.
    pose proof (ranges_ok_lower _ _ _ _ Hrs) as HF. clear -Hrs Hr1 Hr2.
    assert (forall lo, ranges_ok R lo H rs -> r.1 <= H) as Hle; [|specialize (Hle 1 Hrs); lia].
    clear Hrs. induction rs as [|[st len] rs IH]; [by apply elem_of_nil in Hr2|].
    intros lo (_ & _ & Hp%range_len_pos & Hle & Hrs).
    apply elem_of_cons in Hr2 as [->|Hr2]; [cbn; lia|by eapply IH].
  - exists (rs ++ [(H + 1, s - H - 1)]). rewrite Z.max_l by lia. split_and!.
    + apply ranges_ok_gap; [lia|lia| |done]. intros x Hx. by apply (is_highest_above R H).
    + rewrite fmap_app, Hn. done.
    + rewrite fmap_app, (count_missing_above _ _ _ _ _ Hrs), Ho by lia. f_equal. cbn. f_equal.
      unfold count_missing. cbn. rewrite unrecv_outside, unrecv_fresh; [done|lia| |lia].
      intros x Hx. apply (is_highest_above R H); [done|lia].
Qed.

Lemma track_next :
  s = HighestSequenceNumber b + 1 ->
  tracked (MissingSequenceNums b) (MissingSequenceNumOffsets b) (HighestSequenceNumber b).
Proof.
  intros Hnext. destruct Hinv as (Hmax & rs & Hrs & Hn & Ho).
  pose proof (is_highest_nonneg _ _ Hmax).
  split; [|split; [by left|]].
  - unfold track_missing. replace (s - HighestSequenceNumber b) with 1 by lia. cbn [Z.gtb Z.ltb Z.compare Pos.compare Pos.compare_cont]. go_step.
    by rewrite received_id.
  - exists rs. rewrite Z.max_l, Hnext by lia. split_and!; [|done|].
    + apply ranges_ok_extend; [lia|done].
    + rewrite (count_missing_above _ _ _ _ _ Hrs) by lia. done.
Qed.

Lemma track_retransfer : s < HighestSequenceNumber b -> exists nums offs h, tracked nums offs h.
Proof.
  intros Hlt. destruct Hinv as (Hmax & rs & Hrs & Hn & Ho).
  destruct (ranges_ok_locate R 1 (HighestSequenceNumber b) rs s Hrs ltac:(lia) Hnew)
    as (rs1 & st & len & rs2 & -> & Hin & Hc).
  pose proof (ranges_ok_ascending _ _ _ _ Hrs) as Hasc. rewrite <- Hn in Hasc, Hc.
  pose proof (count_missing_fill _ _ _ _ _ _ _ _ Hrs Hin Hnew) as Hfill.
  pose proof (ranges_ok_fill _ _ _ _ _ _ _ _ Hrs Hin Hnew) as Hrs'.
  assert (Hpos : 0 < unrecv R st len) by (apply unrecv_pos; eauto).
  assert (Hle : unrecv R st len <= len) by (apply unrecv_le; lia).
  destruct (ranges_ok_middle _ _ _ _ _ _ _ Hrs) as [Hst Hend].
  set (c := unrecv R st len) in *. set (rest := if c =? 1 then rs2 else (st, len) :: rs2) in *.
  exists ((rs1 ++ rest).*1), (count_missing ({[s]} ∪ R) <$> rs1 ++ rest), (HighestSequenceNumber b).
  split; [|split; [by left|]].
  - unfold track_missing. rewrite Z.gtb_ltb, (proj2 (Z.ltb_ge _ _)), (proj2 (Z.ltb_lt _ 0)) by lia.
    unfold count_retransfer. go_step. rewrite IndexOfMin_count, Hc by done.
    replace (Z.of_nat (S (length rs1)) - 1) with (zlen (rs1.*1)) by (unfold zlen; rewrite length_fmap; lia).
    rewrite Z.geb_leb, (proj2 (Z.leb_le _ _)) by apply zlen_nonneg.
    rewrite Ho, fmap_app, fmap_cons. fold (count_missing R (st, len)) in c.
    change (count_missing R (st, len)) with c.
    rewrite go_index_middle by (unfold zlen; rewrite !length_fmap; done). go_step. no_wrap.
    rewrite Hn, insert_middle by (unfold zlen; rewrite !length_fmap; done).
    unfold rest. destruct (Z.eqb_spec c 1) as [E|E].
    + rewrite (proj2 (Z.eqb_eq _ _)) by lia.
      rewrite (fmap_app fst rs1 ((st, len) :: rs2)), (fmap_cons fst). rewrite (RemoveFromSliceByIndex_middle (rs1.*1)) by done. go_step.
      rewrite RemoveFromSliceByIndex_middle by (unfold zlen; rewrite !length_fmap; done). go_step.
      rewrite fmap_app, fmap_cons in Hfill.
      apply app_inj_1 in Hfill as [E1 [= _ E2]]; [|by rewrite !length_fmap].
      rewrite (fmap_app fst), (fmap_app (count_missing _)), E1, E2. by destruct b.
    + rewrite (proj2 (Z.eqb_neq _ _)) by lia. go_step. rewrite Hfill. by destruct b.
  - exists (rs1 ++ rest). rewrite Z.max_r by lia. done.
Qed.
End track.

Lemma asked_missing_above R b s :
  missing_inv R b -> asks_right R b ->
  HighestSequenceNumber b < s ->
  asks_right ({[s]} ∪ R) b.
Proof.
  intros Hinv Hpre Hgt. pose proof (missing_below _ _ Hinv) as Hle.
  unfold asks_right, asked_missing in *.
  induction Hpre as [|v off nums offs Hv Hpre IH]; [constructor|].
  apply Forall2_cons in Hle as [Hle Hles]. constructor; [|by apply IH].
  intros x Hx. rewrite elem_of_union, elem_of_singleton. intros [->|HxR]; [lia|]. by apply (Hv x).
Qed.

Lemma track_fresh R b s :
  missing_inv R b -> 1 <= s < 2 ^ 62 -> s ∉ R -> HighestSequenceNumber b < 2 ^ 62 ->
  exists nums offs h, tracked R b s nums offs h /\
    (asks_right R b ->
     HighestSequenceNumber b < s -> asked_missing ({[s]} ∪ R) nums offs).
Proof.
  intros Hinv Hs Hnew Hh.
  destruct (Z.lt_trichotomy s (HighestSequenceNumber b)) as [Hlt|[Heq|Hgt]].
  - destruct (track_retransfer R b s) as (nums & offs & h & Htr); [done..|].
    exists nums, offs, h. split; [done|]. lia.
  - destruct Hinv as [[_ [H0|HR]] _]; [lia|]. by subst.
  - destruct (decide (s = HighestSequenceNumber b + 1)).
    + do 3 eexists. split; [by apply track_next|]. intros. by apply asked_missing_above.
    + do 3 eexists. split; [apply track_gap; (done || lia)|]. intros Hpre _.
      apply Forall2_app; [by apply asked_missing_above|]. constructor; [|constructor].
      intros x Hx. rewrite elem_of_union, elem_of_singleton. intros [->|HxR]; [lia|].
      destruct Hinv as [Hm _]. by apply (is_highest_above _ _ x Hm); [lia|].
Qed.

Section packets.
Context `{PartsPacketPackerSpec}.

(** The buffer after a packet of the part was read into it: what follows the
    payload is what the buffer held before. *)
Definition packet_buffer (pid pl : Z) (sent : list byte) (s : Z) (pad : list byte) : list byte :=
  packet_header pid s ++ payload pl sent (s - 1) ++ pad.

(** A packet of this part, after the header was read. *)
Lemma DeSerialize_header pid s rest b :
  transport_ok (PCTransportPacketPacker b) -> in_i64 pid -> in_i64 s -> pid = PartId b ->
  DeSerializePacket (packet_header pid s ++ rest) b =
    (let diff := i64 (s - HighestSequenceNumber b) in
     handled ← track_missing s diff;
     if (handled : bool) then store_payload s diff rest;; mret (rest, None)
     else mret (rest, Some DuplicateRetransfer)) b.
Proof.
  intros Ht Hp Hs ->. unfold DeSerializePacket. go_step. rewrite TransportUnpack_id by done.
  unfold mbind at 1, go_bind at 1. rewrite Unpack_spec, Z.eqb_refl by done. reflexivity.
Qed.

Lemma geometry_NumPackets b : geometry b -> NumPackets b < 2 ^ 53.
Proof.
  intros (Hp & Hd & ->). pose proof (ceil_div_le (zlen (Data b)) (PayloadLength b) (zlen_nonneg _)). lia.
Qed.

(** ** Any packet of the part, duplicates included *)

(** The two missing slices have the same length and the highest number is one
    of the part. *)
Definition aligned (b : PartContext) : Prop :=
  length (MissingSequenceNums b) = length (MissingSequenceNumOffsets b) /\
  0 <= HighestSequenceNumber b <= NumPackets b.

Lemma count_retransfer_total b s :
  aligned b ->
  exists ok nums offs, count_retransfer s b =
      Done ok (received (Data b) nums offs (HighestSequenceNumber b) b) /\
    length nums = length offs /\
    (ok = false -> nums = MissingSequenceNums b /\ offs = MissingSequenceNumOffsets b).
Proof.
  intros [Hal _]. unfold count_retransfer. go_step.
  destruct (IndexOfMin_range s (MissingSequenceNums b)) as [->|Hi].
  { exists false, (MissingSequenceNums b), (MissingSequenceNumOffsets b). by rewrite received_id. }
  rewrite Z.geb_leb, (proj2 (Z.leb_le _ _)) by lia.
  set (i := IndexOfMin s (MissingSequenceNums b)) in *.
  destruct (go_index_Some (MissingSequenceNumOffsets b) i) as [off Hoff]; [unfold zlen in *; lia|].
  rewrite Hoff. go_step. set (offs := <[Z.to_nat i := i64 (off - 1)]> (MissingSequenceNumOffsets b)).
  assert (Ho : length offs = length (MissingSequenceNumOffsets b)) by apply length_insert.
  destruct (i64 (off - 1) =? 0).
  - destruct (RemoveFromSliceByIndex_length (MissingSequenceNums b) i Hi) as (nums' & -> & Hn').
    destruct (RemoveFromSliceByIndex_length offs i) as (offs' & HR & Ho'); [unfold zlen in *; lia|].
    go_step. rewrite HR. go_step.
    exists true, nums', offs'. split; [by destruct b|]. split; [lia|done].
  - go_step. exists true, (MissingSequenceNums b), offs. split; [by destruct b|]. split; [lia|done].
Qed.

Lemma track_total b s :
  aligned b -> 1 <= s <= NumPackets b -> NumPackets b < 2 ^ 53 ->
  exists ok nums offs h, track_missing s (s - HighestSequenceNumber b) b =
      Done ok (received (Data b) nums offs h b) /\
    length nums = length offs /\
    (h = HighestSequenceNumber b \/ h = s /\ HighestSequenceNumber b < s) /\
    (ok = false -> nums = MissingSequenceNums b /\ offs = MissingSequenceNumOffsets b /\
       h = HighestSequenceNumber b /\ s < HighestSequenceNumber b).
Proof.
  intros Hal Hs HN. unfold track_missing. rewrite Z.gtb_ltb.
  destruct (Z.ltb_spec 1 (s - HighestSequenceNumber b)).
  - unfold open_missing_range. go_step. destruct (IndexOf _ _ <? 0); go_step.
    + do 4 eexists. split; [by destruct b|]. rewrite !length_app. destruct Hal.
      cbn [length]. split_and!; [lia|right; split; [done|lia]|done].
    + exists true, (MissingSequenceNums b), (MissingSequenceNumOffsets b), (HighestSequenceNumber b).
      rewrite received_id. destruct Hal. split_and!; [done|done|by left|done].
  - destruct (Z.ltb_spec (s - HighestSequenceNumber b) 0).
    + destruct (count_retransfer_total b s Hal) as (ok & nums & offs & -> & Hl & Hok).
      exists ok, nums, offs, (HighestSequenceNumber b). split_and!; [done|done|by left|].
      intros E. destruct (Hok E). split_and!; [done..|lia].
    + exists true, (MissingSequenceNums b), (MissingSequenceNumOffsets b), (HighestSequenceNumber b).
      rewrite received_id. destruct Hal. split_and!; [done|done|by left|done].
Qed.

(** A packet of the part, in any state: it is stored, or refused as a
    duplicate without a change. *)
Lemma DeSerialize_any sent init R b s pad :
  geometry b -> aligned b -> transport_ok (PCTransportPacketPacker b) -> in_i64 (PartId b) ->
  data_inv (PayloadLength b) sent init R b ->
  1 <= s <= NumPackets b ->
  exists rest r d nums offs h, let b' := received d nums offs h b in
    DeSerializePacket (packet_buffer (PartId b) (PayloadLength b) sent s pad) b = Done (rest, r) b' /\
    length d = length (Data b) /\ aligned b' /\
    h = Z.max s (HighestSequenceNumber b) /\
    ((r = None /\ data_inv (PayloadLength b) sent init ({[s]} ∪ R) b') \/
     (r = Some DuplicateRetransfer /\ b' = b /\ s < HighestSequenceNumber b)).
Proof.
  intros Hg Hal Ht Hpid Hd Hs. pose proof (geometry_NumPackets b Hg) as HN.
  unfold packet_buffer. rewrite DeSerialize_header; [|done|done|unfold in_i64; lia|done].
  rewrite i64_id by (destruct Hal; unfold in_i64; lia). cbv zeta.
  destruct (track_total b s Hal Hs HN) as (ok & nums & offs & h & Htr & Hl & Hh & Hok).
  rewrite (bind_Done _ _ _ _ _ Htr). destruct ok; cbn beta iota.
  - destruct (store_payload_block (received (Data b) nums offs h b) sent pad s (s - HighestSequenceNumber b))
      as (d & Hst & Hld & Hj); [by apply geometry_received|done|apply Hd|].
    rewrite (bind_Done _ _ _ _ _ Hst). go_step. do 2 eexists.
    exists d, nums, offs, (if s - HighestSequenceNumber b >? 0 then s else h). split; [reflexivity|]. split; [by rewrite Hld; destruct Hd|]. split.
    + split; cbn; [done|]. destruct Hal as [_ ?]. destruct (_ >? 0); [lia|]. destruct Hh as [|[]]; lia.
    + split; [rewrite Z.gtb_ltb; destruct (Z.ltb_spec 0 (s - HighestSequenceNumber b)); destruct Hh as [|[]]; lia|].
      left. split; [done|]. eapply data_inv_store; [|done|exact Hj]. exact Hd.
  - destruct (Hok eq_refl) as (-> & -> & -> & Hlow). rewrite received_id. go_step.
    exists (payload (PayloadLength b) sent (s - 1) ++ pad), (Some DuplicateRetransfer).
    do 4 eexists. rewrite received_id. split; [reflexivity|]. split; [done|]. split; [done|]. split; [lia|by right].
Qed.

(** A payload is stored when its first byte is one of the data or its end. *)
Lemma store_payload_above (b : PartContext) (s diff : Z) (buf : list byte) :
  0 < PayloadLength b < 2 ^ 53 -> zlen (Data b) < 2 ^ 53 -> in_i64 s -> 1 <= s -> 0 < diff ->
  let start := i64 ((s - 1) * PayloadLength b) in
  store_payload s diff buf b =
    if (0 <=? start) && (start <=? zlen (Data b)) then
      Done tt (set_HighestSequenceNumber s
        (set_Data (go_copy (Data b) start (Z.min (start + PayloadLength b) (zlen (Data b))) buf) b))
    else Faulted SliceBounds.
Proof.
  intros Hpl Hd Hs H1 Hdiff start. pose proof (zlen_nonneg (Data b)).
  pose proof (i64_range ((s - 1) * PayloadLength b)) as Hr. fold start in Hr.
  unfold store_payload, payload_bounds, Min. rewrite (i64_id (s - 1)) by (unfold in_i64 in *; lia). fold start.
  rewrite (Z.gtb_ltb diff), (proj2 (Z.ltb_lt 0 diff)) by done.
  destruct (Z.leb_spec 0 start); cbn [andb]; [destruct (Z.leb_spec start (zlen (Data b)))|].
  - rewrite i64_id by (unfold in_i64; lia). rewrite Z.gtb_ltb.
    replace (if _ <? _ then _ else _) with (Z.min (start + PayloadLength b) (zlen (Data b)))
      by (destruct (Z.ltb_spec (zlen (Data b)) (start + PayloadLength b)); lia).
    rewrite copy_into_Some by lia. by destruct b.
  - rewrite copy_into_None; [done|]. right; left. rewrite Z.gtb_ltb.
    destruct (Z.ltb_spec (zlen (Data b)) (i64 (start + PayloadLength b))); lia.
  - rewrite copy_into_None; [done|]. by left.
Qed.

(** The receiver's state after the packets of [R] of the part [sent] came in,
    each once. *)
Record recv_state (sent init : list byte) (R : gset Z) (b : PartContext) : Prop := {
  rs_geometry : geometry b;
  rs_transport : transport_ok (PCTransportPacketPacker b);
  rs_pid : in_i64 (PartId b);
  rs_range : forall s, s ∈ R -> 1 <= s <= NumPackets b;
  rs_data : data_inv (PayloadLength b) sent init R b;
  rs_missing : missing_inv R b;
}.

Lemma recv_highest sent init R b :
  recv_state sent init R b -> 0 <= HighestSequenceNumber b <= NumPackets b.
Proof.
  intros [Hg _ _ Hr _ [Hm _]]. split; [by eapply is_highest_nonneg|].
  destruct Hm as [_ [->|Hin%Hr]]; [|lia]. destruct Hg as (Hp & _ & ->).
  apply ceil_div_nonneg; [apply zlen_nonneg|lia].
Qed.

(** A packet whose bookkeeping is known. *)
Lemma DeSerialize_tracked sent init R b s pad nums offs h :
  recv_state sent init R b -> 1 <= s <= NumPackets b -> tracked R b s nums offs h ->
  exists d,
    DeSerializePacket (packet_buffer (PartId b) (PayloadLength b) sent s pad) b =
      Done (payload (PayloadLength b) sent (s - 1) ++ pad, None)
        (received d nums offs (Z.max s (HighestSequenceNumber b)) b) /\
    length d = length sent /\
    recv_state sent init ({[s]} ∪ R) (received d nums offs (Z.max s (HighestSequenceNumber b)) b).
Proof.
  intros Hst Hs (Htr & Hhs & rs & Hrs & Hnums & Hoffs).
  pose proof (recv_highest _ _ _ _ Hst) as Hh.
  pose proof (geometry_NumPackets b (rs_geometry _ _ _ _ Hst)) as HN.
  destruct Hst as [Hg Ht Hpid Hr Hd Hm].
  set (b1 := received (Data b) nums offs h b) in *.
  destruct (store_payload_block b1 sent pad s (s - HighestSequenceNumber b)) as (d & Hstore & Hld & Hj).
  { by apply geometry_received. }
  { done. }
  { apply Hd. }
  exists d. split; [|split; [done|]].
  - unfold packet_buffer. rewrite DeSerialize_header; [|done|done|unfold in_i64; lia|done].
    rewrite i64_id by (unfold in_i64; lia). cbv zeta.
    rewrite (bind_Done _ _ _ _ _ Htr). cbn beta iota. rewrite (bind_Done _ _ _ _ _ Hstore).
    rewrite ret_Done. f_equal. unfold b1, received.
    replace (if _ >? 0 then s else _) with (Z.max s (HighestSequenceNumber b)); [by destruct b|].
    cbn. rewrite Z.gtb_ltb. destruct (Z.ltb_spec 0 (s - HighestSequenceNumber b)); [lia|].
    destruct Hhs; lia.
  - split.
    + apply geometry_received; [|done]. rewrite Hld. symmetry. apply Hd.
    + done.
    + done.
    + intros x [->%elem_of_singleton|Hx]%elem_of_union; [done|]. by apply Hr.
    + apply data_inv_store; [done|done|]. apply Hj.
    + destruct Hm as [Hm _]. split; cbn; [by apply is_highest_insert; [|lia]|].
      exists rs. by split_and!.
Qed.

(** A packet that was not received yet is accepted. *)
Lemma DeSerialize_fresh sent init R b s pad :
  recv_state sent init R b -> 1 <= s <= NumPackets b -> s ∉ R ->
  exists d nums offs,
    DeSerializePacket (packet_buffer (PartId b) (PayloadLength b) sent s pad) b =
      Done (payload (PayloadLength b) sent (s - 1) ++ pad, None)
        (received d nums offs (Z.max s (HighestSequenceNumber b)) b) /\
    length d = length sent /\
    recv_state sent init ({[s]} ∪ R) (received d nums offs (Z.max s (HighestSequenceNumber b)) b) /\
    (asks_right R b ->
     HighestSequenceNumber b < s -> asked_missing ({[s]} ∪ R) nums offs).
Proof.
  intros Hst Hs Hnew. pose proof (recv_highest _ _ _ _ Hst) as Hh.
  pose proof (geometry_NumPackets b (rs_geometry _ _ _ _ Hst)) as HN.
  destruct (track_fresh R b s (rs_missing _ _ _ _ Hst)) as (nums & offs & h & Htr & Hask); [lia|done|lia|].
  destruct (DeSerialize_tracked sent init R b s pad nums offs h) as (d & Hde & Hld & Hst'); [done..|].
  exists d, nums, offs. by split_and!.
Qed.

End packets.

(** ** Counting what is missing *)

Lemma Sum_from (l : list Z) (acc : Z) :
  Forall (fun x => 0 <= x) l -> 0 <= acc -> acc + fold_right Z.add 0 l < 2 ^ 63 ->
  fold_left (fun result v => i64 (result + v)) l acc = acc + fold_right Z.add 0 l.
Proof.
  intros Hl. induction Hl as [|x l Hx Hl IH] in acc |- *; cbn; [lia|]. intros Ha Hs.
  assert (0 <= fold_right Z.add 0 l) by (clear -Hl; induction Hl; cbn; lia).
  rewrite i64_id by (unfold in_i64; lia). rewrite IH by lia. lia.
Qed.

(** The offsets add up to the numbers that are missing. *)
Lemma ranges_total R lo hi rs :
  lo <= hi + 1 -> ranges_ok R lo hi rs ->
  fold_right Z.add 0 (count_missing R <$> rs) = unrecv R lo (hi - lo + 1).
Proof.
  induction rs as [|[st len] rs IH] in lo |- *; cbn [ranges_ok]; intros Hlo.
  - intros Hall. cbn. symmetry. apply unrecv_none. intros s Hs. apply Hall. lia.
  - intros (Hst & Hgap & Hp & Hle & Hrs). pose proof (range_len_pos _ _ _ Hp).
    rewrite fmap_cons. cbn [fold_right]. rewrite (IH (st + len)) by (done || lia).
    replace (hi - lo + 1) with ((st - lo) + (len + (hi - (st + len) + 1))) by lia.
    rewrite (unrecv_app R lo (st - lo)), (unrecv_app R _ len) by lia.
    rewrite (unrecv_none R lo (st - lo)) by (intros; apply Hgap; lia).
    replace (lo + (st - lo)) with st by lia. unfold count_missing. cbn. lia.
Qed.

Lemma Sum_missing R b :
  missing_inv R b -> HighestSequenceNumber b < 2 ^ 62 ->
  Sum (MissingSequenceNumOffsets b) = unrecv R 1 (HighestSequenceNumber b).
Proof.
  intros (Hm & rs & Hrs & _ & ->) Hh. apply is_highest_nonneg in Hm.
  pose proof (ranges_total R 1 (HighestSequenceNumber b) rs ltac:(lia) Hrs) as Ht.
  replace (HighestSequenceNumber b - 1 + 1) with (HighestSequenceNumber b) in Ht by lia.
  pose proof (unrecv_le R 1 (HighestSequenceNumber b) Hm).
  unfold Sum. rewrite Sum_from; [lia| |lia|lia].
  apply Forall_fmap, Forall_true. intros r. unfold count_missing, unrecv. cbn. lia.
Qed.

(** A missing number lies in the last range that starts at or before it. *)
Lemma missing_covered R b s :
  missing_inv R b -> 1 <= s <= HighestSequenceNumber b -> s ∉ R ->
  exists i v off, IndexOfMin s (MissingSequenceNums b) = Z.of_nat i /\
    MissingSequenceNums b !! i = Some v /\ MissingSequenceNumOffsets b !! i = Some off /\ v <= s /\ 0 < off.
Proof.
  intros (_ & rs & Hrs & -> & ->) Hs Hnew.
  destruct (ranges_ok_locate R 1 _ rs s Hrs Hs Hnew) as (rs1 & st & len & rs2 & -> & Hin & Hc).
  exists (length rs1), st, (unrecv R st len).
  rewrite IndexOfMin_count, Hc by (by eapply ranges_ok_ascending).
  rewrite !fmap_app, !fmap_cons. split_and!; [lia| | |lia|apply unrecv_pos; eauto].
  - by rewrite list_lookup_middle by by rewrite length_fmap.
  - by rewrite list_lookup_middle by by rewrite length_fmap.
Qed.

(** ** The properties of a receiver *)

Section properties.
Context `{PartsPacketPackerSpec}.

(** A sequence of packets, handed to [DeSerializePacket] one by one. *)
Fixpoint receive_all (bufs : list (list byte)) : go PartContext (list (option error)) :=
  match bufs with
  | [] => mret []
  | buf :: bufs' =>
      '(_, r) ← DeSerializePacket buf;
      rs ← receive_all bufs';
      mret (r :: rs)
  end.

(** The buffers of the packets [order]; [pad] is what follows each of them. *)
Definition buffers (b : PartContext) (sent : list byte) (pad : Z -> list byte) (order : list Z) : list (list byte) :=
  (fun s => packet_buffer (PartId b) (PayloadLength b) sent s (pad s)) <$> order.

Lemma receive_fresh sent init pad order R b :
  recv_state sent init R b -> NoDup order ->
  (forall s, s ∈ order -> 1 <= s <= NumPackets b /\ s ∉ R) ->
  exists b', receive_all (buffers b sent pad order) b = Done (replicate (length order) None) b' /\
    recv_state sent init (list_to_set order ∪ R) b' /\
    HighestSequenceNumber b' = fold_right Z.max (HighestSequenceNumber b) order.
Proof.
  induction order as [|s order IH] in R, b |- *; intros Hst Hnd Hin.
  { exists b. split; [done|]. by rewrite list_to_set_nil, union_empty_l_L. }
  apply NoDup_cons in Hnd as [Hs Hnd]. destruct (Hin s ltac:(by left)) as [Hr Hnew].
  destruct (DeSerialize_fresh sent init R b s (pad s) Hst Hr Hnew) as (d & nums & offs & Hde & _ & Hst' & _).
  set (b1 := received _ _ _ _ b) in *.
  destruct (IH ({[s]} ∪ R) b1 Hst' Hnd) as (b' & Hrec & Hst2 & Hh).
  { intros x Hx. destruct (Hin x ltac:(by right)) as [? Hx']. split; [done|].
    rewrite elem_of_union, elem_of_singleton. intros [->|?]; contradiction. }
  exists b'. split_and!.
  - unfold buffers in *. cbn [fmap list_fmap receive_all]. rewrite (bind_Done _ _ _ _ _ Hde). cbn beta iota.
    by rewrite (bind_Done _ _ _ _ _ Hrec).
  - by rewrite list_to_set_cons, (comm_L (∪) {[s]}), <- (assoc_L (∪)).
  - rewrite Hh. cbn. clear. induction order; cbn; lia.
Qed.

Lemma receive_any sent init pad order R b :
  geometry b -> aligned b -> transport_ok (PCTransportPacketPacker b) -> in_i64 (PartId b) ->
  data_inv (PayloadLength b) sent init R b -> (forall s, s ∈ order -> 1 <= s <= NumPackets b) ->
  exists rs b', receive_all (buffers b sent pad order) b = Done rs b' /\
    Forall (fun r => r = None \/ r = Some DuplicateRetransfer) rs /\
    data_inv (PayloadLength b) sent init
      (list_to_set (fst <$> filter (fun '(_, r) => r = None) (zip order rs)) ∪ R) b' /\
    HighestSequenceNumber b' = fold_left Z.max order (HighestSequenceNumber b) /\
    forall k s, order !! k = Some s -> rs !! k = Some (Some DuplicateRetransfer) ->
      s < fold_left Z.max (take k order) (HighestSequenceNumber b).
Proof.
  induction order as [|s order IH] in R, b |- *; intros Hg Hal Ht Hp Hd Hin.
  { exists [], b. split; [done|]. split; [constructor|]. cbn. by rewrite union_empty_l_L. }
  destruct (DeSerialize_any sent init R b s (pad s) Hg Hal Ht Hp Hd (Hin s ltac:(by left)))
    as (rest & r & d & nums & offs & h & Hde & Hld & Hal1 & Hh & Hr). set (b1 := received d nums offs h b) in *.
  set (R1 := match r with None => {[s]} ∪ R | Some _ => R end).
  assert (Hd1 : data_inv (PayloadLength b1) sent init R1 b1).
  { unfold R1. by destruct Hr as [[-> Hd1]|(-> & -> & _)]. }
  destruct (IH R1 b1 (geometry_received _ _ _ _ _ Hld Hg) Hal1 Ht Hp Hd1) as (rs & b' & Hrec & Hrs & Hd' & Hhi & Href).
  { intros x Hx. apply Hin. by right. }
  assert (E1 : HighestSequenceNumber b1 = Z.max (HighestSequenceNumber b) s) by (rewrite Z.max_comm; exact Hh).
  rewrite E1 in Hhi, Href.
  exists (r :: rs), b'. split; [|split; [|split; [|split; [done|]]]].
  - unfold buffers in *. cbn [fmap list_fmap receive_all]. rewrite (bind_Done _ _ _ _ _ Hde). cbn beta iota.
    by rewrite (bind_Done _ _ _ _ _ Hrec).
  - constructor; [|done]. destruct Hr as [[-> _]|[-> _]]; [by left|by right].
  - cbn [zip_with]. unfold R1 in Hd'. destruct Hr as [[-> _]|[-> _]].
    + rewrite filter_cons_True, fmap_cons, list_to_set_cons by done.
      by rewrite (comm_L (∪) {[_]}), <- (assoc_L (∪)).
    + by rewrite filter_cons_False.
  - intros [|k] x Hk Hrk; cbn in Hk, Hrk |- *.
    + injection Hk as <-. destruct Hr as [[-> _]|(_ & _ & Hlow)]; [discriminate|exact Hlow].
    + by eapply Href.
Qed.

(** C14: packets of a part that arrive once each, in any order, are all
    accepted.  Afterwards the missing ranges are exact: the offsets add up to
    the number of packets missing below the highest one, and every one of
    these is found by [IndexOfMin] in a range with a positive offset. *)
Theorem missing_ranges_exact sent pad order b :
  recv_state sent (Data b) ∅ b -> HighestSequenceNumber b = 0 -> NoDup order ->
  (forall s, s ∈ order -> 1 <= s <= NumPackets b) ->
  exists b', receive_all (buffers b sent pad order) b = Done (replicate (length order) None) b' /\
    HighestSequenceNumber b' = fold_right Z.max 0 order /\
    Sum (MissingSequenceNumOffsets b') = unrecv (list_to_set order) 1 (HighestSequenceNumber b') /\
    forall s, 1 <= s <= HighestSequenceNumber b' -> s ∉ order ->
      exists i v off, IndexOfMin s (MissingSequenceNums b') = Z.of_nat i /\
        MissingSequenceNums b' !! i = Some v /\ MissingSequenceNumOffsets b' !! i = Some off /\
        v <= s /\ 0 < off.
Proof.
  intros Hst H0 Hnd Hin.
  destruct (receive_fresh sent (Data b) pad order ∅ b Hst Hnd) as (b' & Hrec & Hst' & Hh).
  { intros s Hs. split; [by apply Hin|apply not_elem_of_empty]. }
  rewrite union_empty_r_L in Hst'. rewrite H0 in Hh. pose proof (rs_missing _ _ _ _ Hst') as Hm.
  pose proof (recv_highest _ _ _ _ Hst'). pose proof (geometry_NumPackets _ (rs_geometry _ _ _ _ Hst')).
  exists b'. split_and!; [done|done|apply Sum_missing; [done|lia]|].
  intros s Hs Hn. apply (missing_covered (list_to_set order)); [done|done|]. by rewrite elem_of_list_to_set.
Qed.

(** C31: packets of a part in any order, any of them any number of times: the
    receiver never panics, and takes or refuses each packet.  It refuses only
    packets below the highest number of those before them, so never the first
    packet of a new highest number.  Its data holds the sender's bytes in every
    block of a packet it took and its old bytes everywhere else: a duplicate
    or a refusal spoils nothing. *)
Theorem packets_stored_or_refused sent pad order b :
  geometry b -> aligned b -> transport_ok (PCTransportPacketPacker b) -> in_i64 (PartId b) ->
  length (Data b) = length sent -> (forall s, s ∈ order -> 1 <= s <= NumPackets b) ->
  exists rs b', receive_all (buffers b sent pad order) b = Done rs b' /\
    Forall (fun r => r = None \/ r = Some DuplicateRetransfer) rs /\
    (forall k s, order !! k = Some s -> rs !! k = Some (Some DuplicateRetransfer) ->
       s < fold_left Z.max (take k order) (HighestSequenceNumber b)) /\
    HighestSequenceNumber b' = fold_left Z.max order (HighestSequenceNumber b) /\
    data_inv (PayloadLength b) sent (Data b)
      (list_to_set (fst <$> filter (fun '(_, r) => r = None) (zip order rs))) b'.
Proof.
  intros Hg Hal Ht Hp Hl Hin.
  destruct (receive_any sent (Data b) pad order ∅ b) as (rs & b' & H1 & H2 & H3 & H4 & H5); try done.
  exists rs, b'. rewrite union_empty_r_L in H3. done.
Qed.

(** The missing ranges when a packet comes in that is above the next one. *)
Definition opened (s : Z) (b : PartContext) : list Z * list Z :=
  let first := HighestSequenceNumber b + 1 in
  if (first <? s) && (IndexOf first (MissingSequenceNums b) <? 0) then
    (MissingSequenceNums b ++ [first], MissingSequenceNumOffsets b ++ [s - first])
  else (MissingSequenceNums b, MissingSequenceNumOffsets b).

Lemma track_opened b s :
  in_i64 s -> 0 <= HighestSequenceNumber b < s ->
  exists h, track_missing s (s - HighestSequenceNumber b) b =
    Done true (received (Data b) (opened s b).1 (opened s b).2 h b).
Proof.
  intros Hs Hh. unfold in_i64 in *. unfold track_missing, opened.
  rewrite Z.gtb_ltb. destruct (Z.ltb_spec 1 (s - HighestSequenceNumber b)).
  - rewrite (proj2 (Z.ltb_lt _ s)) by lia. unfold open_missing_range. rewrite (i64_id (s - _ - 1)) by (unfold in_i64; lia).
    replace (s - (s - HighestSequenceNumber b - 1)) with (HighestSequenceNumber b + 1) by lia.
    rewrite i64_id by (unfold in_i64; lia). go_step. destruct (IndexOf _ _ <? 0); cbn [andb fst snd]; go_step.
    + exists s. replace (s - (HighestSequenceNumber b + 1)) with (s - HighestSequenceNumber b - 1) by lia.
      by destruct b.
    + eexists. by rewrite received_id.
  - rewrite (proj2 (Z.ltb_ge _ s)), (proj2 (Z.ltb_ge _ 0)) by lia. cbn [andb fst snd]. eexists.
    by rewrite received_id.
Qed.

(** C32: a packet of another part is refused with an error and changes nothing.
    A packet of this part with a number above the part's packets ends the
    program, because the bounds of its payload lie outside the data, unless
    the product of the two is, modulo 2^64, a position in the data or its end:
    then it is taken, and its number becomes the highest one.  Without that
    overflow the only such number is the one after the last packet, when the
    payloads fill the data exactly, and the data stays as it is. *)
Theorem strange_packets pid s rest b :
  geometry b -> transport_ok (PCTransportPacketPacker b) -> in_i64 pid -> in_i64 s ->
  0 <= HighestSequenceNumber b <= NumPackets b ->
  (pid <> PartId b ->
     DeSerializePacket (packet_header pid s ++ rest) b =
       Done (packet_header pid s ++ rest, Some MismatchingPartId) b) /\
  (pid = PartId b -> NumPackets b < s ->
     let start := i64 ((s - 1) * PayloadLength b) in
     DeSerializePacket (packet_header pid s ++ rest) b =
       (if (0 <=? start) && (start <=? zlen (Data b)) then
         Done (rest, None)
           (received (go_copy (Data b) start (Z.min (start + PayloadLength b) (zlen (Data b))) rest)
              (opened s b).1 (opened s b).2 s b)
       else Faulted SliceBounds) /\
     ((s - 1) * PayloadLength b < 2 ^ 63 ->
       0 <= start <= zlen (Data b) <-> s = NumPackets b + 1 /\ start = zlen (Data b))).
Proof.
  intros Hg Ht Hp Hs Hh. pose proof Hg as ((Hpl & Hpl2) & Hd & Hn). pose proof (zlen_nonneg (Data b)).
  split.
  - intros Hne. unfold DeSerializePacket. go_step. rewrite TransportUnpack_id by done.
    unfold mbind, go_bind. by rewrite Unpack_spec, (proj2 (Z.eqb_neq _ _)) by done.
  - intros -> Hbig start. split.
    + rewrite DeSerialize_header by done. cbv zeta. rewrite i64_id by (unfold in_i64 in *; lia).
      destruct (track_opened b s Hs ltac:(lia)) as (h & Htr). rewrite (bind_Done _ _ _ _ _ Htr). cbn beta iota.
      pose proof (store_payload_above (received (Data b) (opened s b).1 (opened s b).2 h b) s
        (s - HighestSequenceNumber b) rest (conj Hpl Hpl2) Hd Hs ltac:(lia) ltac:(lia)) as Hst.
      cbv zeta in Hst. cbn [Data PayloadLength received] in Hst. fold start in Hst.
      destruct (_ && _).
      * rewrite (bind_Done _ _ _ _ _ Hst). by destruct b.
      * by rewrite (bind_Faulted _ _ _ _ Hst).
    + intros Hmul. unfold start. rewrite i64_id by (unfold in_i64; nia).
      pose proof (ceil_div_bounds (zlen (Data b)) (PayloadLength b) Hpl) as Hc. rewrite <- Hn in Hc. nia.
Qed.

End properties.

(** ** On a small part *)

#[local] Existing Instances BinaryPartsPacketPacker.packer BinaryPartsPacketPacker.packer_spec.

(** Five bytes in packets of two, nothing received yet. *)
Definition small : PartContext :=
  mkPartContext (mkSocketOptions false false false) IgnoreStatus
    (mkTransportPacketPacker (Some 0) (fun buf _ => buf) (fun buf => buf)) false
    18 2 3 54 16 (replicate 5 Byte.x00) [] 0 [] [] 0 7 false 0.

Definition abcde : list byte := [Byte.x61; Byte.x62; Byte.x63; Byte.x64; Byte.x65].

Lemma small_transport : transport_ok (PCTransportPacketPacker small).
Proof. split; [|done|done]. by intros n [= <-]. Qed.

Lemma small_ok : geometry small.
Proof. vm_compute. repeat split; done. Qed.

Lemma small_state : recv_state abcde (Data small) ∅ small.
Proof.
  split; [exact small_ok|exact small_transport|split; [discriminate|reflexivity]| | |].
  - intros s Hs. by apply not_elem_of_empty in Hs.
  - by apply data_inv_init.
  - split; [split; [intros s Hs; by apply not_elem_of_empty in Hs|by left]|].
    exists []. split; [|done]. intros s Hs. cbn in Hs. lia.
Qed.

(** Check a bound for every number of a list. *)
Lemma all_in_part (l : list Z) n : forallb (fun s => (1 <=? s) && (s <=? n)) l = true -> forall s, s ∈ l -> 1 <= s <= n.
Proof.
  intros Hl s Hs%list_elem_of_In. rewrite forallb_forall in Hl. apply Hl in Hs.
  apply andb_prop in Hs as [?%Z.leb_le ?%Z.leb_le]. lia.
Qed.

Lemma missing_ranges_exact_witness :
  exists b', receive_all (buffers small abcde (fun _ => []) [3; 1]) small = Done [None; None] b' /\
    HighestSequenceNumber b' = 3 /\
    Sum (MissingSequenceNumOffsets b') = unrecv (list_to_set [3; 1]) 1 (HighestSequenceNumber b').
Proof.
  destruct (missing_ranges_exact abcde (fun _ => []) [3; 1] small) as (b' & H1 & H2 & H3 & _).
  - exact small_state.
  - reflexivity.
  - apply NoDup_cons. split; [by intros H%elem_of_cons; destruct H as [?|?%elem_of_nil]|apply NoDup_singleton].
  - apply all_in_part. reflexivity.
  - exists b'. auto.
Defined.

(** The last packet is a duplicate of the second one, and refused. *)
Lemma packets_stored_or_refused_witness :
  exists rs b', receive_all (buffers small abcde (fun _ => []) [3; 1; 3; 2; 1]) small = Done rs b' /\
    Forall (fun r => r = None \/ r = Some DuplicateRetransfer) rs /\ HighestSequenceNumber b' = 3 /\
    data_inv 2 abcde (Data small)
      (list_to_set (fst <$> filter (fun '(_, r) => r = None) (zip [3; 1; 3; 2; 1] rs))) b'.
Proof.
  destruct (packets_stored_or_refused abcde (fun _ => []) [3; 1; 3; 2; 1] small) as (rs & b' & H1 & H2 & _ & H3 & H4).
  - exact small_ok.
  - split; [reflexivity|split; discriminate].
  - exact small_transport.
  - split; [discriminate|reflexivity].
  - reflexivity.
  - apply all_in_part. reflexivity.
  - exists rs, b'. auto.
Defined.

(** Seven bytes in packets of two: after packets 1 and 4, the second packet
    twice closes the range of packets 2 and 3, and packet 3 is refused although
    it never came in. *)
Definition small4 : PartContext :=
  mkPartContext (mkSocketOptions false false false) IgnoreStatus
    (mkTransportPacketPacker (Some 0) (fun buf _ => buf) (fun buf => buf)) false
    18 2 4 72 16 (replicate 7 Byte.x00) [] 0 [] [] 0 7 false 0.

Example fresh_packet_refused :
  match receive_all (buffers small4 (abcde ++ [Byte.x66; Byte.x67]) (fun _ => []) [1; 4; 2; 2; 3]) small4 with
  | Done rs b' => Some (rs, Data b')
  | _ => None
  end = Some ([None; None; None; None; Some DuplicateRetransfer],
              [Byte.x61; Byte.x62; Byte.x63; Byte.x64; Byte.x00; Byte.x00; Byte.x67]).
Proof. reflexivity. Qed.

(** Packet 8 of another part, packet 5 of a part of three, and the packet after
    the last one of four bytes in packets of two. *)
Lemma strange_packets_witness :
  DeSerializePacket (packet_header 8 1 ++ []) small = Done (packet_header 8 1 ++ [], Some MismatchingPartId) small /\
  DeSerializePacket (packet_header 7 5 ++ []) small = Faulted SliceBounds /\
  let four := set_Data (replicate 4 Byte.x00) (set_sizes 16 2 2 36 small) in
  DeSerializePacket (packet_header 7 3 ++ [Byte.x61]) four =
    Done ([Byte.x61], None) (received (Data four) [1] [2] 3 four).
Proof.
  assert (Hr : forall z, (- 2 ^ 63 <=? z) && (z <? 2 ^ 63) = true -> in_i64 z).
  { intros z [?%Z.leb_le ?%Z.ltb_lt]%andb_prop. by split. }
  split; [|split; [|intros four]].
  - apply (strange_packets 8 1 [] small small_ok small_transport); [by apply Hr|by apply Hr|split; discriminate|discriminate].
  - apply (strange_packets 7 5 [] small small_ok small_transport); [by apply Hr|by apply Hr|split; discriminate|reflexivity..].
  - assert (Hg : geometry four) by (vm_compute; repeat split; done).
    apply (strange_packets 7 3 [Byte.x61] four Hg small_transport);
      [by apply Hr|by apply Hr|split; discriminate|reflexivity..].
Defined.
