(* ===== verification/Metrics.v ===== *)
(** * Metrics: [dataplane/metrics.go]

    The counters of a socket and the goroutine that samples them.  The
    channel [signalChan] is unbuffered: a send meets a collector goroutine
    that waits in its [select], or blocks.  The number of running collectors
    is part of the state.  The fields [RxPacketsLast] and [TxPacketsLast], which
    no code reads or writes, are left out. *)

From S2P Require Import Prelude.

Record Metrics : Type := mkMetrics {
  RxBytes : Z;
  TxBytes : Z;
  RxPackets : Z;
  TxPackets : Z;
  RxBytesLast : Z;
  TxBytesLast : Z;
  RxBandwidth : Z;
  TxBandwidth : Z;
  RxBytesOverTime : list Z;
  TxBytesOverTime : list Z;
  RxBandwidthOverTime : list Z;
  TxBandwidthOverTime : list Z;
  RxPacketsOverTime : list Z;
  TxPacketsOverTime : list Z;
  timeInterval : Z;
  collectors : nat;
}.

Definition NewMetrics (timeInterval : Z) : Metrics :=
  mkMetrics 0 0 0 0 0 0 0 0 [] [] [] [] [] [] timeInterval 0.

Definition set_collectors (n : nat) (m : Metrics) : Metrics :=
  mkMetrics (RxBytes m) (TxBytes m) (RxPackets m) (TxPackets m) (RxBytesLast m) (TxBytesLast m)
    (RxBandwidth m) (TxBandwidth m) (RxBytesOverTime m) (TxBytesOverTime m)
    (RxBandwidthOverTime m) (TxBandwidthOverTime m) (RxPacketsOverTime m) (TxPacketsOverTime m)
    (timeInterval m) n.

(** [metrics.TxBytes += uint64(bts)] and [metrics.TxPackets += 1]. *)
Definition add_tx (bts : Z) (m : Metrics) : Metrics :=
  mkMetrics (RxBytes m) (u64 (TxBytes m + u64 bts)) (RxPackets m) (u64 (TxPackets m + 1))
    (RxBytesLast m) (TxBytesLast m) (RxBandwidth m) (TxBandwidth m) (RxBytesOverTime m)
    (TxBytesOverTime m) (RxBandwidthOverTime m) (TxBandwidthOverTime m) (RxPacketsOverTime m)
    (TxPacketsOverTime m) (timeInterval m) (collectors m).

(** One sample: the [time.After] case of the collector's loop. *)
Definition sample (m : Metrics) : Metrics :=
  let rxBandwidth := u64 (RxBytes m - RxBytesLast m) in
  let txBandwidth := u64 (TxBytes m - TxBytesLast m) in
  mkMetrics (RxBytes m) (TxBytes m) (RxPackets m) (TxPackets m) (RxBytes m) (TxBytes m)
    rxBandwidth txBandwidth (RxBytesOverTime m ++ [RxBytes m]) (TxBytesOverTime m ++ [TxBytes m])
    (RxBandwidthOverTime m ++ [rxBandwidth]) (TxBandwidthOverTime m ++ [txBandwidth])
    (RxPacketsOverTime m ++ [RxPackets m]) (TxPacketsOverTime m ++ [TxPackets m])
    (timeInterval m) (collectors m).

(** [go func() { ... }]: one more collector. *)
Definition Collect : go Metrics unit := modify (fun m => set_collectors (S (collectors m)) m).

(** [m.signalChan <- true]: a waiting collector receives it and returns;
    without one the sender blocks. *)
Definition Stop : go Metrics unit := fun m =>
  match collectors m with
  | O => Blocked m
  | S n => Done tt (set_collectors n m)
  end.

(** The life of the counters: packets are counted, and every collector takes
    samples. *)
Inductive metrics_step : Metrics -> Metrics -> Prop :=
| step_tx bts m : metrics_step m (add_tx bts m)
| step_sample m : collectors m <> O -> metrics_step m (sample m)
| step_collect m m' : Collect m = Done tt m' -> metrics_step m m'
| step_stop m m' : Stop m = Done tt m' -> metrics_step m m'.

(** The samples are aligned, and the bandwidths add up to the bytes counted
    at the last sample. *)
Definition metrics_inv (m : Metrics) : Prop :=
  in_u64 (TxBytesLast m) /\ in_u64 (RxBytesLast m) /\ in_u64 (TxBytes m) /\ in_u64 (RxBytes m) /\
  u64 (fold_right Z.add 0 (TxBandwidthOverTime m)) = TxBytesLast m /\
  u64 (fold_right Z.add 0 (RxBandwidthOverTime m)) = RxBytesLast m /\
  length (TxBandwidthOverTime m) = length (TxBytesOverTime m) /\
  length (RxBandwidthOverTime m) = length (RxBytesOverTime m) /\
  length (TxPacketsOverTime m) = length (TxBytesOverTime m) /\
  length (RxPacketsOverTime m) = length (RxBytesOverTime m).

Lemma sum_snoc (l : list Z) (x : Z) : fold_right Z.add 0 (l ++ [x]) = fold_right Z.add 0 l + x.
Proof. induction l as [|y l IH]; cbn; lia. Qed.

Lemma u64_telescope (sum last now : Z) :
  in_u64 now -> u64 sum = last -> u64 (sum + u64 (now - last)) = now.
Proof.
  intros Hn <-. unfold u64. rewrite Z.add_mod_idemp_r by lia.
  replace (sum + (now - sum mod 2 ^ 64)) with (now + (sum - sum mod 2 ^ 64)) by lia.
  rewrite <- Z.add_mod_idemp_r, Zminus_mod_idemp_r, Z.sub_diag, Z.mod_0_l, Z.add_0_r by lia.
  by apply Z.mod_small.
Qed.

Lemma metrics_inv_init (t : Z) : metrics_inv (NewMetrics t).
Proof. unfold metrics_inv, in_u64. cbn. split_and!; (done || lia). Qed.

Lemma metrics_inv_step m m' : metrics_step m m' -> metrics_inv m -> metrics_inv m'.
Proof.
  unfold metrics_inv. intros Hs (H1 & H2 & H3 & H4 & H5 & H6 & H7 & H8 & H9 & H10).
  destruct Hs as [bts m|m Hc|m m' E|m m' E].
  - cbn. split_and!; (done || apply u64_range).
  - cbn. rewrite !sum_snoc, !u64_telescope, !length_app by done. cbn. split_and!; (done || lia).
  - injection E as <-. done.
  - unfold Stop in E. destruct (collectors m); [done|]. by injection E as <-.
Qed.

(** ** The property of the samples *)

(** C37: however sending, sampling, starting and stopping collectors
    interleave, the bandwidth samples add up to the bytes counted at the last
    sample, modulo the wrap of [uint64], and the series of samples stay
    aligned. *)
Theorem samples_account (t : Z) (m : Metrics) :
  rtc metrics_step (NewMetrics t) m ->
  u64 (fold_right Z.add 0 (TxBandwidthOverTime m)) = TxBytesLast m /\
  u64 (fold_right Z.add 0 (RxBandwidthOverTime m)) = RxBytesLast m /\
  length (TxBandwidthOverTime m) = length (TxBytesOverTime m) /\
  length (RxBandwidthOverTime m) = length (RxBytesOverTime m) /\
  length (TxPacketsOverTime m) = length (TxBytesOverTime m) /\
  length (RxPacketsOverTime m) = length (RxBytesOverTime m).
Proof.
  assert (Hinv : forall a b, rtc metrics_step a b -> metrics_inv a -> metrics_inv b).
  { induction 1; [done|]. eauto using metrics_inv_step. }
  intros Hr. by apply Hinv in Hr as (_ & _ & _ & _ & ?); [|apply metrics_inv_init].
Qed.

Lemma samples_account_witness :
  exists m, rtc metrics_step (NewMetrics 100) m /\ TxBandwidthOverTime m = [1400] /\
    u64 (fold_right Z.add 0 (TxBandwidthOverTime m)) = TxBytesLast m.
Proof.
  set (m := sample (add_tx 1400 (set_collectors 1 (NewMetrics 100)))).
  assert (Hr : rtc metrics_step (NewMetrics 100) m).
  { eapply rtc_l; [by apply step_collect|]. eapply rtc_l; [apply (step_tx 1400)|].
    eapply rtc_l; [by apply step_sample|]. apply rtc_refl. }
  exists m. split; [exact Hr|]. split; [reflexivity|]. exact (proj1 (samples_account 100 m Hr)).
Defined.
