(* ===== verification/Dataplane.v ===== *)
(** * Dataplane: [dataplane/dataplane.go]

    Sending and receiving a part over the socket.  The socket library, snet
    and appnet are not part of the sources: they are the operations of the
    classes below.  Part contexts live in a store and are passed by pointer,
    so that the data plane, the control plane and their callers share them. *)

From S2P Require Import Prelude Utils Interface Packer PartContext Metrics.

Definition DP_STATE_SENDING : Z := 100.
Definition DP_STATE_RETRANSFER : Z := 101.
Definition DP_STATE_PENDING : Z := 200.
Definition DP_STATE_RECEIVING : Z := 300.

Definition PACKET_SIZE : Z := 1400.
Definition PACKET_PAYLOAD_SIZE : Z := 1200.

(** The optimized connection, [snet.UDPAddr] and the address functions.  A
    read is given the length of the buffer and returns the bytes it put at
    the front of it. *)
Class SCIONNet (C Addr : Type) : Type := {
  conn_Read : C -> Z -> C * (list byte * option error);
  conn_Write : C -> list byte -> C * (Z * option error);
  conn_Close : C -> C * option error;
  conn_SetDeadline : C -> Z -> C * option error;
  conn_SetReadDeadline : C -> Z -> C * option error;
  conn_SetWriteDeadline : C -> Z -> C * option error;
  conn_SetRemote : C -> Addr -> C;
  optimizedconn_Dial : Addr -> Addr -> error + C;
  optimizedconn_Listen : Addr -> error + C;
  ParseUDPAddr : string -> error + Addr;
  UDPAddr_String : option Addr -> string;
  SetDefaultPath : Addr -> Addr * option error;
}.

(** The contract of [net.Conn] the data plane relies on: a read never returns
    more than the buffer holds, a write without error wrote everything. *)
Class SCIONNetSpec (C Addr : Type) `{SCIONNet C Addr} : Prop := {
  conn_Read_len : forall c n c' bs err, 0 <= n -> conn_Read c n = (c', (bs, err)) -> zlen bs <= n;
  conn_Write_len : forall c buf c' n, conn_Write c buf = (c', (n, None)) -> n = zlen buf;
}.

Section dataplane.
Context {C Addr K : Type} `{SCIONNet C Addr} `{StatusListener K}.
Context `{PartsPacketPacker}.

(** ** State *)

Record SCIONDataplane : Type := mkSCIONDataplane {
  locked : bool;
  Conn : option C;
  remoteAddr : option Addr;
  localAddr : option Addr;
  listenAddr : option Addr;
  PacketChan : list (list byte);
  PacketChanCap : nat;
  state : Z;
  partContext : option nat;
  metrics : Metrics;
}.

(** The data plane, the part contexts of the program and the state behind the
    status callback. *)
Record world : Type := mkWorld {
  dp : SCIONDataplane;
  parts : gmap nat PartContext;
  owner : K;
}.

Definition NewSCIONDataplane (packetChanCap : nat) : SCIONDataplane :=
  mkSCIONDataplane false None None None None [] packetChanCap 0 None (NewMetrics 100).

Definition set_locked (l : bool) (d : SCIONDataplane) : SCIONDataplane :=
  mkSCIONDataplane l (Conn d) (remoteAddr d) (localAddr d) (listenAddr d) (PacketChan d)
    (PacketChanCap d) (state d) (partContext d) (metrics d).

Definition set_Conn (c : C) (d : SCIONDataplane) : SCIONDataplane :=
  mkSCIONDataplane (locked d) (Some c) (remoteAddr d) (localAddr d) (listenAddr d) (PacketChan d)
    (PacketChanCap d) (state d) (partContext d) (metrics d).

Definition set_addrs (remote local listen : option Addr) (d : SCIONDataplane) : SCIONDataplane :=
  mkSCIONDataplane (locked d) (Conn d) remote local listen (PacketChan d)
    (PacketChanCap d) (state d) (partContext d) (metrics d).

Definition set_PacketChan (ch : list (list byte)) (d : SCIONDataplane) : SCIONDataplane :=
  mkSCIONDataplane (locked d) (Conn d) (remoteAddr d) (localAddr d) (listenAddr d) ch
    (PacketChanCap d) (state d) (partContext d) (metrics d).

Definition set_state (s : Z) (d : SCIONDataplane) : SCIONDataplane :=
  mkSCIONDataplane (locked d) (Conn d) (remoteAddr d) (localAddr d) (listenAddr d) (PacketChan d)
    (PacketChanCap d) s (partContext d) (metrics d).

Definition set_partContext (p : option nat) (d : SCIONDataplane) : SCIONDataplane :=
  mkSCIONDataplane (locked d) (Conn d) (remoteAddr d) (localAddr d) (listenAddr d) (PacketChan d)
    (PacketChanCap d) (state d) p (metrics d).

Definition set_metrics (m : Metrics) (d : SCIONDataplane) : SCIONDataplane :=
  mkSCIONDataplane (locked d) (Conn d) (remoteAddr d) (localAddr d) (listenAddr d) (PacketChan d)
    (PacketChanCap d) (state d) (partContext d) m.

Definition set_dp (d : SCIONDataplane) (w : world) : world := mkWorld d (parts w) (owner w).

Definition set_parts (ps : gmap nat PartContext) (w : world) : world := mkWorld (dp w) ps (owner w).

Definition set_owner (k : K) (w : world) : world := mkWorld (dp w) (parts w) k.

(** Run a fragment on the data plane, on the part context behind a pointer,
    on the state of the callback. *)
Definition at_dp {A : Type} (m : go SCIONDataplane A) : go world A := zoom dp set_dp m.

Definition at_owner {A : Type} (m : go K A) : go world A := zoom owner set_owner m.

Definition at_part {A : Type} (p : nat) (m : go PartContext A) : go world A := fun w =>
  match parts w !! p with
  | None => Faulted NilDeref
  | Some b => zoom (fun _ => b) (fun b' => set_parts (<[p := b']> (parts w))) m w
  end.

(** [p.OnPartStatusChange(n, bts)] *)
Definition on_status (p : nat) (n bts : Z) : go world unit :=
  cb ← at_part p (gets OnPartStatusChange);
  at_owner (run_status cb n bts).

(** [*sts.partContext]: a nil pointer panics. *)
Definition current_part : go world nat :=
  p ← gets (fun w => partContext (dp w));
  or_fail NilDeref p.

(** ** The socket *)

Definition Write (buf : list byte) : go SCIONDataplane (Z * option error) :=
  c ← gets Conn;
  c ← or_fail NilDeref c;
  let '(c', r) := conn_Write c buf in
  modify (set_Conn c');;
  mret r.

(** [Read(buf)]: the bytes at the front of [buf], whose length is [n]. *)
Definition Read (n : Z) : go SCIONDataplane (list byte * option error) :=
  c ← gets Conn;
  c ← or_fail NilDeref c;
  let '(c', r) := conn_Read c n in
  modify (set_Conn c');;
  mret r.

(** A method of the connection that only returns an error. *)
Definition on_conn (f : C -> C * option error) : go SCIONDataplane (option error) :=
  c ← gets Conn;
  c ← or_fail NilDeref c;
  let '(c', err) := f c in
  modify (set_Conn c');;
  mret err.

Definition Stop : go SCIONDataplane (option error) := on_conn conn_Close.

Definition SetDeadline (t : Z) : go SCIONDataplane (option error) :=
  on_conn (fun c => conn_SetDeadline c t).

Definition SetReadDeadline (t : Z) : go SCIONDataplane (option error) :=
  on_conn (fun c => conn_SetReadDeadline c t).

Definition SetWriteDeadline (t : Z) : go SCIONDataplane (option error) :=
  on_conn (fun c => conn_SetWriteDeadline c t).

Definition LocalAddr : go SCIONDataplane (option Addr) := gets localAddr.

Definition RemoteAddr : go SCIONDataplane (option Addr) := gets remoteAddr.

Definition SetPartContext (p : option nat) : go SCIONDataplane unit := modify (set_partContext p).

(** A buffer after a read of it. *)
Definition read_buffer (buf bs : list byte) : list byte := splice buf 0 bs.

Definition SetRemoteAddr (addr : string) : go SCIONDataplane (option error) :=
  match ParseUDPAddr addr with
  | inl err => mret (Some err)
  | inr remote =>
      modify (fun d => set_addrs (Some remote) (localAddr d) (listenAddr d) d);;
      c ← gets Conn;
      c ← or_fail NilDeref c;
      modify (set_Conn (conn_SetRemote c remote));;
      mret None
  end.

Definition Dial (laddr addr : string) : go SCIONDataplane (option error) :=
  match ParseUDPAddr addr with
  | inl err => mret (Some err)
  | inr remote =>
      match ParseUDPAddr laddr with
      | inl err => mret (Some err)
      | inr listen =>
          let '(remote, _) := SetDefaultPath remote in
          modify (set_addrs (Some remote) (Some listen) (Some listen));;
          match optimizedconn_Dial listen remote with
          | inl err => mret (Some err)
          | inr c => modify (set_Conn c);; modify (set_state DP_STATE_PENDING);; mret None
          end
      end
  end.

Definition Listen (addr : string) : go SCIONDataplane (option error) :=
  match ParseUDPAddr addr with
  | inl err => modify (fun d => set_addrs (remoteAddr d) None (listenAddr d) d);; mret (Some err)
  | inr listen =>
      modify (fun d => set_addrs (remoteAddr d) (Some listen) (listenAddr d) d);;
      match optimizedconn_Listen listen with
      | inl err => mret (Some err)
      | inr c =>
          modify (set_Conn c);;
          modify (set_state DP_STATE_PENDING);;
          modify (fun d => set_addrs (remoteAddr d) (localAddr d) (Some listen) d);;
          mret None
      end
  end.

(** [SetState]: the lock is taken first and given back last. *)
Definition SetState (s : Z) : go SCIONDataplane unit := fun d =>
  if locked d then Blocked d
  else
    (modify (set_locked true);;
     modify (set_state s);;
     (if s =? DP_STATE_SENDING then mret tt
      else if s =? DP_STATE_RECEIVING then zoom metrics set_metrics Collect
      else if s =? DP_STATE_PENDING then zoom metrics set_metrics Metrics.Stop
      else if s =? DP_STATE_RETRANSFER then zoom metrics set_metrics Metrics.Stop
      else mret tt);;
     modify (set_locked false)) d.

(** [sts.PacketChan <- packet]: blocks when the channel is full. *)
Definition send_PacketChan (packet : list byte) : go SCIONDataplane unit := fun d =>
  if (length (PacketChan d) <? PacketChanCap d)%nat
  then Done tt (set_PacketChan (PacketChan d ++ [packet]) d)
  else Blocked d.

(** ** Writing a part *)

(** The packet buffer of a payload: the header space in front of it. *)
Definition alloc_packet (payload : list byte) : go world (list byte) :=
  buf ← or_fail MakeLen (go_make Byte.x00 (i64 (zlen payload + GetHeaderLen)));
  or_fail SliceBounds (copy_into buf GetHeaderLen (zlen buf) payload).

(** The loop of [WritePart] from packet [i] on, [k] packets to go. *)
Fixpoint WritePart_loop (bc k : nat) (i n : Z) : go world (Z * option error) :=
  match k with
  | O => mret (n, None)
  | S k' =>
      payload ← at_part bc (GetPayloadByPacketIndex i);
      buf ← alloc_packet payload;
      buf ← at_part bc (SerializePacket buf);
      '(bts, err) ← at_dp (Write buf);
      on_status bc 1 bts;;
      match err with
      | Some e => mret (0, Some e)
      | None => WritePart_loop bc k' (i + 1) (u64 (n + u64 bts))
      end
  end.

Definition WritePart (bc : nat) : go world (Z * option error) :=
  modify (fun w => set_dp (set_partContext (Some bc) (dp w)) w);;
  numPackets ← at_part bc (gets NumPackets);
  WritePart_loop bc (Z.to_nat numPackets) 0 0.

(** ** Reading a part *)

(** One iteration of [ReadPart]: the bytes counted, or the error returned. *)
Definition ReadPart_step (bc : nat) (i : Z) : go world (error + Z) :=
  buffer ← at_part bc (gets Buffer);
  maxLen ← at_part bc (gets MaxPacketLength);
  let start := i64 (i * maxLen) in
  let end_ := i64 (start + maxLen) in
  view ← or_fail SliceBounds (go_slice buffer start end_);
  '(bs, err) ← at_dp (Read (zlen view));
  at_part bc (modify (set_Buffer (splice buffer (Z.to_nat start) bs)));;
  match err with
  | Some e => mret (inl e)
  | None =>
      '(packetBuffer, err) ← at_part bc (DeSerializePacket (read_buffer view bs));
      match err with
      | None =>
          at_part bc (modify (fun b => set_RecvPackets (i64 (RecvPackets b + 1)) b));;
          on_status bc 1 (zlen bs);;
          mret (inr (u64 (zlen bs)))
      | Some _ =>
          at_dp (send_PacketChan packetBuffer);;
          mret (inr 0)
      end
  end.

Fixpoint ReadPart_loop (bc k : nat) (i n : Z) : go world (Z * option error) :=
  match k with
  | O => mret (n, None)
  | S k' =>
      r ← ReadPart_step bc i;
      match r with
      | inl e => mret (0, Some e)
      | inr bts => ReadPart_loop bc k' (i + 1) (u64 (n + bts))
      end
  end.

Definition ReadPart (bc : nat) : go world (Z * option error) :=
  numPackets ← at_part bc (gets NumPackets);
  ReadPart_loop bc (Z.to_nat numPackets) 0 0.

(** ** Retransfer *)

(** The inner loop: packets [v+j .. ], [k] of them to go. *)
Fixpoint resend (k : nat) (v j : Z) : go world unit :=
  match k with
  | O => mret tt
  | S k' =>
      p ← current_part;
      packet ← at_part p (GetPayloadByPacketIndex (i64 (i64 (v + j) - 1)));
      buf ← alloc_packet packet;
      buf ← at_part p (SerializeRetransferPacket buf (i64 (v + j)));
      '(bts, err) ← at_dp (Write buf);
      at_dp (zoom metrics set_metrics (modify (add_tx bts)));;
      on_status p 1 bts;;
      match err with
      | Some _ => fail LogFatal
      | None => resend k' v (j + 1)
      end
  end.

(** [for i, v := range MissingSequenceNums]: the slice is read once, the
    offsets at every iteration. *)
Fixpoint retransfer_range (nums : list Z) (i : Z) : go world unit :=
  match nums with
  | [] => mret tt
  | v :: nums' =>
      if v =? 0 then fail LogFatal
      else
        p ← current_part;
        offs ← at_part p (gets MissingSequenceNumOffsets);
        match go_index offs i with
        | None => mret tt
        | Some off => resend (Z.to_nat off) v 0;; retransfer_range nums' (i + 1)
        end
  end.

(** One pass of the outer loop, up to its [time.Sleep]. *)
Definition retransfer_pass : go world unit :=
  p ← current_part;
  nums ← at_part p (gets MissingSequenceNums);
  retransfer_range nums 0;;
  p ← current_part;
  at_part p (modify (set_Missing [] [])).

(** The outer loop under a schedule of what the other goroutines do during
    each sleep; [false] when the schedule ends before the loop does. *)
Fixpoint retransfer_loop (others : list (go world unit)) : go world bool :=
  s ← gets (fun w => state (dp w));
  if negb (s =? DP_STATE_RETRANSFER) then mret true
  else
    match others with
    | [] => mret false
    | other :: others' => retransfer_pass;; other;; retransfer_loop others'
    end.

Definition RetransferMissingPackets (others : list (go world unit)) : go world bool :=
  modify (fun w => set_dp (set_state DP_STATE_RETRANSFER (dp w)) w);;
  retransfer_loop others.

(** ** Single packets *)

(** The first result is the content of [data] afterwards. *)
Definition ReadSingle (data : list byte) : go SCIONDataplane (list byte * Z * option error) :=
  let buffer := replicate (Z.to_nat PACKET_SIZE) Byte.x00 in
  '(bs, err) ← Read PACKET_SIZE;
  let buffer := read_buffer buffer bs in
  match err with
  | Some e => mret (data, 0, Some e)
  | None =>
      partId ← or_fail SliceBounds (Uint64_at buffer 0);
      rest ← or_fail SliceBounds (go_slice buffer 8 (zlen buffer));
      let data := go_copy data 0 (zlen data) rest in
      returnBuffer ← or_fail SliceBounds (PutUint64_at (replicate 8 Byte.x00) 0 (u64 (i64 partId)));
      '(_, err) ← Write buffer;
      match err with
      | Some e => mret (data, 0, Some e)
      | None => mret (data, u64 (u64 (zlen bs) - 8), None)
      end
  end.

(** The loop of [WriteSingle] repeats until the reply carries the part id;
    [None] when the fuel runs out. *)
Fixpoint WriteSingle_loop (fuel : nat) (data : list byte) (partId retPartId n : Z) :
    go SCIONDataplane (option (Z * option error)) :=
  if retPartId =? partId then mret (Some (u64 n, None))
  else
    match fuel with
    | O => mret None
    | S fuel' =>
        buffer ← or_fail MakeLen (go_make Byte.x00 (i64 (zlen data + 8)));
        buffer ← or_fail SliceBounds (PutUint64_at buffer 0 (u64 partId));
        buffer ← or_fail SliceBounds (copy_into buffer 8 (zlen buffer) data);
        '(n, err) ← Write buffer;
        match err with
        | Some e => mret (Some (0, Some e))
        | None =>
            '(bs, err) ← Read 8;
            match err with
            | Some e => mret (Some (0, Some e))
            | None =>
                ret ← or_fail SliceBounds (Uint64_at (read_buffer (replicate 8 Byte.x00) bs) 0);
                WriteSingle_loop fuel' data partId (i64 ret) n
            end
        end
    end.

Definition WriteSingle (fuel : nat) (data : list byte) (partId : Z) :
    go SCIONDataplane (option (Z * option error)) :=
  WriteSingle_loop fuel data partId 0 0.

End dataplane.

Arguments SCIONDataplane : clear implicits.
Arguments world : clear implicits.
