(* ===== verification/SCIONPacker.v ===== *)
(** * SCIONPacker: the transport packer of [dataplane/dataplane.go]

    The packer of the SCION header only knows the header's length, from a
    packet serializer it builds once both addresses are set; the socket adds
    and removes the header itself, so packing leaves the buffer alone. *)

From S2P Require Import Prelude Interface Dataplane.

(** The path of an address, and the packet serializer of the optimized
    connection library. *)
Class PathLib (Addr IA Serializer : Type) : Type := {
  Path_IsEmpty : Addr -> bool;
  PrepareConnectivityContext : error + IA;
  NewPacketSerializer : IA -> Addr -> Addr -> error + Serializer;
  Serializer_GetHeaderLen : Serializer -> Z;
}.

Section scion_packer.
Context {C Addr IA Serializer : Type} `{SCIONNet C Addr} `{PathLib Addr IA Serializer}.

Record SCIONPacketPacker : Type := mkSCIONPacketPacker {
  packetSerializer : option Serializer;
  packer_remoteAddr : option Addr;
  packer_localAddr : option Addr;
}.

Definition NewSCIONPacketPacker : SCIONPacketPacker := mkSCIONPacketPacker None None None.

Definition PrepareHeaderLen : go SCIONPacketPacker (option error) := fun up =>
  match packer_localAddr up, packer_remoteAddr up with
  | Some local, Some remote =>
      match PrepareConnectivityContext with
      | inl err => Done (Some err) up
      | inr ia =>
          match NewPacketSerializer ia local remote with
          | inl err => Done (Some err) (mkSCIONPacketPacker None (Some remote) (Some local))
          | inr s => Done None (mkSCIONPacketPacker (Some s) (Some remote) (Some local))
          end
      end
  | _, _ => Done None up
  end.

(** [if err != nil { panic(err) }] *)
Definition panic_on {S : Type} (err : option error) : go S unit :=
  match err with None => mret tt | Some _ => fail GoPanic end.

(** The result is the remote address afterwards: [SetDefaultPath] changes the
    address the caller's pointer refers to. *)
Definition SetRemote (remote : option Addr) : go SCIONPacketPacker Addr :=
  remote ← or_fail NilDeref remote;
  let '(remote, err) := if Path_IsEmpty remote then SetDefaultPath remote else (remote, None) in
  modify (fun up => mkSCIONPacketPacker (packetSerializer up) (Some remote) (packer_localAddr up));;
  panic_on err;;
  err ← PrepareHeaderLen;
  panic_on err;;
  mret remote.

Definition SetLocal (local : option Addr) : go SCIONPacketPacker unit :=
  modify (fun up => mkSCIONPacketPacker (packetSerializer up) (packer_remoteAddr up) local);;
  err ← PrepareHeaderLen;
  panic_on err.

Definition GetHeaderLen (up : SCIONPacketPacker) : option Z :=
  Serializer_GetHeaderLen <$> packetSerializer up.

Definition Pack (buf : list byte) (payloadLen : Z) : list byte := buf.

Definition Unpack (buf : list byte) : list byte := buf.

(** The packer behind the interface. *)
Definition as_transport (up : SCIONPacketPacker) : TransportPacketPacker :=
  mkTransportPacketPacker (GetHeaderLen up) Pack Unpack.

(** It is a transport packer the part context can use. *)
Lemma scion_transport_ok (up : SCIONPacketPacker) :
  (forall s, 0 <= Serializer_GetHeaderLen s) -> transport_ok (as_transport up).
Proof.
  intros Hs. split; [|done|done]. intros n. cbn. unfold GetHeaderLen.
  destruct (packetSerializer up); cbn; intros; simplify_eq. apply Hs.
Qed.

(** Both addresses set without a panic: the header length is known. *)
Lemma prepared local remote up remote' up1 up2 :
  SetLocal (Some local) up = Done tt up1 -> SetRemote (Some remote) up1 = Done remote' up2 ->
  exists s, packetSerializer up2 = Some s /\ packer_remoteAddr up2 = Some remote' /\
    packer_localAddr up2 = Some local.
Proof.
  intros H1 H2. unfold SetLocal in H1.
  assert (Hl : packer_localAddr up1 = Some local).
  { revert H1. go_step. unfold PrepareHeaderLen, mbind, go_bind, panic_on, mret, go_ret, fail. cbn.
    destruct (packer_remoteAddr up); [|by intros [= <-]].
    destruct PrepareConnectivityContext; [done|]. destruct NewPacketSerializer; [done|]. by intros [= <-]. }
  revert H2. unfold SetRemote. go_step.
  destruct (if Path_IsEmpty remote then SetDefaultPath remote else (remote, None)) as [r [e|]]; [done|].
  unfold panic_on at 1. go_step. unfold PrepareHeaderLen, mbind, go_bind, panic_on, mret, go_ret, fail.
  cbn. rewrite Hl. destruct PrepareConnectivityContext as [|ia]; [done|].
  destruct (NewPacketSerializer ia local r) as [|s]; [done|].
  intros [= <- <-]. by exists s.
Qed.

End scion_packer.

Arguments SCIONPacketPacker : clear implicits.
