(* ===== verification/Loopback.v ===== *)
(** * Loopback: a network of two queues

    An instance of the socket interface on which the theorems about the
    program are run: a connection is the datagrams still to be read and those
    written so far.  A read truncates a datagram to the buffer, as a UDP
    socket does, and fails when there is none. *)

From S2P Require Import Prelude Interface Dataplane.
From Stdlib Require Import Ascii.

Record link : Type := mkLink {
  rx : list (list byte);
  tx : list (list byte);
}.

(** An address with a path is marked by an exclamation mark. *)
Definition with_path (a : string) : string := String "!"%char a.

Definition has_path (a : string) : bool := match a with String "!"%char _ => true | _ => false end.

Definition without_path (a : string) : string := match a with String "!"%char b => b | _ => a end.

#[export] Instance loopback : SCIONNet link string := {|
  conn_Read c n :=
    match rx c with
    | [] => (c, ([], Some (NetError 0)))
    | d :: ds => (mkLink ds (tx c), (take (Z.to_nat n) d, None))
    end;
  conn_Write c d := (mkLink (rx c) (tx c ++ [d]), (zlen d, None));
  conn_Close c := (c, None);
  conn_SetDeadline c _ := (c, None);
  conn_SetReadDeadline c _ := (c, None);
  conn_SetWriteDeadline c _ := (c, None);
  conn_SetRemote c _ := c;
  optimizedconn_Dial _ _ := inr (mkLink [] []);
  optimizedconn_Listen _ := inr (mkLink [] []);
  ParseUDPAddr s := inr s;
  UDPAddr_String o := match o with Some a => without_path a | None => "<nil>"%string end;
  SetDefaultPath a := (with_path a, None);
|}.

#[export] Instance loopback_spec : SCIONNetSpec link string.
Proof.
  split.
  - cbn. intros [[|d ds] tx0] n c' bs err Hn [= <- <- <-]; cbn; [done|].
    unfold zlen. rewrite length_take. lia.
  - cbn. by intros c buf c' n [= <- <-].
Qed.

(** The same, but a connection refuses to send more than [k] datagrams. *)
Definition full_after (k : nat) : SCIONNet link string := {|
  conn_Read := conn_Read (SCIONNet := loopback);
  conn_Write c d :=
    if (length (tx c) <? k)%nat then (mkLink (rx c) (tx c ++ [d]), (zlen d, None)) else (c, (0, Some (NetError 1)));
  conn_Close := conn_Close (SCIONNet := loopback);
  conn_SetDeadline := conn_SetDeadline (SCIONNet := loopback);
  conn_SetReadDeadline := conn_SetReadDeadline (SCIONNet := loopback);
  conn_SetWriteDeadline := conn_SetWriteDeadline (SCIONNet := loopback);
  conn_SetRemote := conn_SetRemote (SCIONNet := loopback);
  optimizedconn_Dial := optimizedconn_Dial (SCIONNet := loopback);
  optimizedconn_Listen := optimizedconn_Listen (SCIONNet := loopback);
  ParseUDPAddr := ParseUDPAddr (SCIONNet := loopback);
  UDPAddr_String := UDPAddr_String (SCIONNet := loopback);
  SetDefaultPath := SetDefaultPath (SCIONNet := loopback);
|}.

(** The same, with the connections that [Dial] and [Listen] open. *)
Definition meeting (dialed listening : link) : SCIONNet link string := {|
  conn_Read := conn_Read (SCIONNet := loopback);
  conn_Write := conn_Write (SCIONNet := loopback);
  conn_Close := conn_Close (SCIONNet := loopback);
  conn_SetDeadline := conn_SetDeadline (SCIONNet := loopback);
  conn_SetReadDeadline := conn_SetReadDeadline (SCIONNet := loopback);
  conn_SetWriteDeadline := conn_SetWriteDeadline (SCIONNet := loopback);
  conn_SetRemote := conn_SetRemote (SCIONNet := loopback);
  optimizedconn_Dial _ _ := inr dialed;
  optimizedconn_Listen _ := inr listening;
  ParseUDPAddr := ParseUDPAddr (SCIONNet := loopback);
  UDPAddr_String := UDPAddr_String (SCIONNet := loopback);
  SetDefaultPath := SetDefaultPath (SCIONNet := loopback);
|}.

#[export] Instance meeting_spec dialed listening : @SCIONNetSpec link string (meeting dialed listening).
Proof. split; [exact (conn_Read_len (SCIONNetSpec := loopback_spec))|exact (conn_Write_len (SCIONNetSpec := loopback_spec))]. Qed.

(** A status callback that does nothing. *)
#[export] Instance no_listener : StatusListener unit := {| run_status _ _ _ := mret tt |}.

#[export, refine] Instance no_listener_spec : StatusListenerSpec unit := {| listener_ok _ := True |}.
Proof. intros. exists tt. split; [by destruct k|done]. Defined.

(** A transport packer with a header of [n] bytes. *)
Definition plain_transport (n : Z) : TransportPacketPacker :=
  mkTransportPacketPacker (Some n) (fun buf _ => buf) (fun buf => buf).

Lemma plain_transport_ok n : 0 <= n -> transport_ok (plain_transport n).
Proof. intros Hn. split; [|done|done]. by intros m [= <-]. Qed.

(** A part of five bytes in packets of two: what [Prepare] leaves for a
    maximal packet length of 18. *)
Definition small_part (pid : Z) (data buffer : list byte) (nums offs : list Z) (highest recv : Z) : PartContext :=
  mkPartContext (mkSocketOptions false false false) IgnoreStatus (plain_transport 0) false
    18 2 3 54 16 data buffer highest nums offs 0 pid false recv.

Definition five : list byte := [Byte.x61; Byte.x62; Byte.x63; Byte.x64; Byte.x65].

Definition no_bytes (n : nat) : list byte := replicate n Byte.x00.

(** A data plane on a link, with one part context at address 0. *)
Definition one_part (c : link) (b : PartContext) : world link string unit :=
  mkWorld (mkSCIONDataplane false (Some c) None None None [] 64 DP_STATE_PENDING (Some O) (Metrics.NewMetrics 100))
    {[ O := b ]} tt.
