(* ===== verification/Transfer.v ===== *)
(** * Transfer: a whole part from a sender to a receiver

    [WritePart] against the packets of the part, [ReadPart] against the order
    in which the network hands them over, and both put together. *)

From S2P Require Import Prelude Utils Interface Packer PartContext Reassembly Metrics Dataplane Loopback.

(** ** The datagrams of a part *)

Section packets.
Context `{PartsPacketPackerSpec}.

(** Packet [s] of a part. *)
Definition packet (pid pl : Z) (d : list byte) (s : Z) : list byte :=
  packet_header pid s ++ payload pl d (s - 1).

(** The packets of a part, first to last. *)
Definition packets (b : PartContext) : list (list byte) :=
  packet (PartId b) (PayloadLength b) (Data b) <$> seqZ 1 (NumPackets b).

End packets.

Section conn.
Context {C Addr : Type} `{SCIONNet C Addr}.

(** The connection takes the datagrams, one write each. *)
Inductive writes : C -> list (list byte) -> C -> Prop :=
| writes_nil c : writes c [] c
| writes_cons c d c1 ds c2 :
    conn_Write c d = (c1, (zlen d, None)) -> writes c1 ds c2 -> writes c (d :: ds) c2.

(** The connection hands over the datagrams, one read of [n] bytes each. *)
Inductive reads (n : Z) : C -> list (list byte) -> C -> Prop :=
| reads_nil c : reads n c [] c
| reads_cons c d c1 ds c2 :
    conn_Read c n = (c1, (d, None)) -> reads n c1 ds c2 -> reads n c (d :: ds) c2.

End conn.

(** ** Sending *)

Section write.
Context {C Addr K : Type} `{SCIONNet C Addr} `{StatusListenerSpec K}.
Context `{PartsPacketPackerSpec}.
Implicit Types (w : world C Addr K).

Lemma at_part_Done {A} p (m : go PartContext A) w b a b' :
  parts w !! p = Some b -> m b = Done a b' ->
  at_part p m w = Done a (set_parts (<[p := b']> (parts w)) w).
Proof. intros Hb Hm. unfold at_part, zoom. by rewrite Hb, Hm. Qed.

Lemma at_part_gets {A} p (f : PartContext -> A) w b :
  parts w !! p = Some b -> at_part p (gets f) w = Done (f b) w.
Proof.
  intros Hb. rewrite (at_part_Done p _ w b (f b) b) by done.
  rewrite insert_id by done. by destruct w.
Qed.

Lemma GetHeaderLen_nonneg : 0 <= GetHeaderLen.
Proof. rewrite <- (packet_header_len 0 0). apply zlen_nonneg. Qed.

(** The buffer of a payload: some header bytes, then the payload. *)
Lemma alloc_packet_eq (pl : list byte) w :
  zlen pl + GetHeaderLen < 2 ^ 63 ->
  exists hdr, zlen hdr = GetHeaderLen /\ alloc_packet pl w = Done (hdr ++ pl) w.
Proof.
  intros Hl. pose proof GetHeaderLen_nonneg as Hh. pose proof (zlen_nonneg pl) as Hp.
  unfold alloc_packet, go_make. no_wrap.
  rewrite (proj2 (Z.leb_le _ _)) by lia. go_step.
  exists (replicate (Z.to_nat GetHeaderLen) Byte.x00). split; [unfold zlen; rewrite length_replicate; lia|].
  rewrite copy_into_Some by (unfold zlen in *; rewrite length_replicate; lia). go_step. f_equal.
  unfold go_copy, splice, zlen in *. rewrite length_replicate.
  rewrite take_replicate, drop_replicate, take_ge by lia.
  rewrite Nat.min_l by lia.
  replace (Z.to_nat (Z.of_nat (length pl) + GetHeaderLen) - (Z.to_nat GetHeaderLen + length pl))%nat with O by lia.
  by rewrite app_nil_r.
Qed.

Lemma Write_Done (buf : list byte) w c c' r :
  Conn (dp w) = Some c -> conn_Write c buf = (c', r) ->
  at_dp (Write buf) w = Done r (set_dp (set_Conn c' (dp w)) w).
Proof. intros Hc Hw. unfold at_dp, zoom, Write. go_step. rewrite Hc. go_step. rewrite Hw. by go_step. Qed.

Lemma Read_Done (n : Z) w c c' r :
  Conn (dp w) = Some c -> conn_Read c n = (c', r) ->
  at_dp (Read n) w = Done r (set_dp (set_Conn c' (dp w)) w).
Proof. intros Hc Hw. unfold at_dp, zoom, Read. go_step. rewrite Hc. go_step. rewrite Hw. by go_step. Qed.

Lemma at_owner_Done {A} (m : go K A) w a k :
  m (owner w) = Done a k -> at_owner m w = Done a (set_owner k w).
Proof. intros Hm. unfold at_owner, zoom. by rewrite Hm. Qed.

Lemma on_status_Done p n bts w b :
  parts w !! p = Some b -> listener_ok (owner w) ->
  exists o, on_status p n bts w = Done tt (set_owner o w) /\ listener_ok o.
Proof.
  intros Hb Ho. destruct (run_status_ok (OnPartStatusChange b) n bts (owner w) Ho) as (o & Hr & Hok).
  exists o. split; [|done]. unfold on_status.
  rewrite (bind_Done _ _ _ _ _ (at_part_gets p OnPartStatusChange w b Hb)). by apply at_owner_Done.
Qed.

Lemma SerializePacket_eq (hdr pl : list byte) b :
  zlen hdr = GetHeaderLen -> transport_ok (PCTransportPacketPacker b) ->
  let seq := i64 (currentSequenceNumber b + 1) in
  SerializePacket (hdr ++ pl) b =
    Done (packet_header (PartId b) seq ++ pl) (set_currentSequenceNumber seq b).
Proof.
  intros Hl Ht seq. unfold SerializePacket.
  rewrite (bind_Done _ _ _ _ _ (Pack_spec hdr pl b Hl)). go_step. by rewrite TransportPack_id by done.
Qed.

Lemma zlen_packet_bound b s :
  geometry b -> 1 <= s <= NumPackets b -> GetHeaderLen < 2 ^ 53 ->
  zlen (payload (PayloadLength b) (Data b) (s - 1)) + GetHeaderLen < 2 ^ 63.
Proof.
  intros Hg Hs Hh. destruct (payload_index_bounds b (s - 1) Hg ltac:(lia)) as (? & _ & _).
  destruct Hg as (Hp & Hd & _). rewrite length_payload by lia. lia.
Qed.

Lemma set_Conn_id (d : SCIONDataplane C Addr) c : Conn d = Some c -> set_Conn c d = d.
Proof. destruct d. cbn. by intros ->. Qed.

Lemma set_currentSequenceNumber_id b i :
  currentSequenceNumber b = i -> set_currentSequenceNumber i b = b.
Proof. intros <-. by destruct b. Qed.

(** Reference: give datagrams to a connection one by one until it refuses one.
    The results are the connection, how many it was given, and what
    [WritePart] returns when it counted [n] bytes before. *)
Fixpoint send_all (c : C) (ds : list (list byte)) (n : Z) : C * nat * (Z * option error) :=
  match ds with
  | [] => (c, O, (n, None))
  | d :: ds' =>
      let '(c1, (bts, err)) := conn_Write c d in
      match err with
      | Some e => (c1, 1%nat, (0, Some e))
      | None => let '(c2, m, r) := send_all c1 ds' (u64 (n + u64 bts)) in (c2, S m, r)
      end
  end.

Lemma send_all_writes c ds c' n :
  in_u64 n -> writes c ds c' -> send_all c ds n = (c', length ds, (u64 (n + total_len ds), None)).
Proof.
  intros Hn Hw. induction Hw as [c|c d c1 ds c' Hd Hw IH] in n, Hn |- *; cbn [send_all].
  { cbn. by rewrite Z.add_0_r, u64_id. }
  rewrite Hd, IH by apply u64_range. rewrite u64_add_r, u64_add_l. cbn [total_len fold_right length].
  by rewrite Z.add_assoc.
Qed.

(** The loop of [WritePart] gives the packets from [i+1] on to the connection,
    in order. *)
Lemma WritePart_loop_eq bc k i n w b c c' m r :
  parts w !! bc = Some b -> geometry b -> transport_ok (PCTransportPacketPacker b) ->
  GetHeaderLen < 2 ^ 53 ->
  0 <= i -> i + Z.of_nat k <= NumPackets b -> currentSequenceNumber b = i ->
  Conn (dp w) = Some c -> listener_ok (owner w) ->
  send_all c (packet (PartId b) (PayloadLength b) (Data b) <$> seqZ (i + 1) (Z.of_nat k)) n = (c', m, r) ->
  exists o, listener_ok o /\
    WritePart_loop bc k i n w =
      Done r (mkWorld (set_Conn c' (dp w)) (<[bc := set_currentSequenceNumber (i + Z.of_nat m) b]> (parts w)) o).
Proof.
  induction k as [|k IH] in i, n, w, b, c, c', m, r |- *; intros Hb Hg Ht Hhl Hi Hk Hcur Hc Ho Hw.
  { injection Hw as <- <- <-. exists (owner w). split; [done|]. cbn [WritePart_loop].
    rewrite ret_Done, Z.add_0_r, set_Conn_id, set_currentSequenceNumber_id, insert_id by done. by destruct w. }
  pose proof (geometry_NumPackets b Hg) as HN.
  rewrite seqZ_cons in Hw by lia. replace (Z.pred (Z.of_nat (S k))) with (Z.of_nat k) in * by lia.
  rewrite fmap_cons in Hw. cbn [send_all] in Hw.
  cbn [WritePart_loop]. subst i. set (i := currentSequenceNumber b) in *.
  rewrite (bind_Done _ _ _ _ _ (at_part_Done bc _ w b _ b Hb (GetPayload_eq b i Hg ltac:(lia)))).
  rewrite (insert_id (parts w)) by done.
  replace (set_parts (parts w) w) with w by (by destruct w).
  destruct (alloc_packet_eq (payload (PayloadLength b) (Data b) i) w) as (hdr & Hhdr & Ha).
  { replace i with (i + 1 - 1) by lia. apply zlen_packet_bound; (done || lia). }
  rewrite (bind_Done _ _ _ _ _ Ha).
  pose proof (SerializePacket_eq hdr (payload (PayloadLength b) (Data b) i) b Hhdr Ht) as Hser.
  cbv zeta in Hser. fold i in Hser. rewrite i64_id in Hser by (unfold in_i64; lia).
  rewrite (bind_Done _ _ _ _ _ (at_part_Done bc _ w b _ _ Hb Hser)).
  set (d := packet_header (PartId b) (i + 1) ++ payload (PayloadLength b) (Data b) i).
  assert (Hd : packet (PartId b) (PayloadLength b) (Data b) (i + 1) = d).
  { unfold packet, d. do 3 f_equal. lia. }
  rewrite Hd in Hw. destruct (conn_Write c d) as [c1 [bts err]] eqn:Hw1.
  set (w1 := set_parts _ w). rewrite (bind_Done _ _ _ _ _ (Write_Done d w1 c c1 _ Hc Hw1)).
  set (w2 := set_dp (set_Conn c1 (dp w1)) w1).
  assert (Hb2 : parts w2 !! bc = Some (set_currentSequenceNumber (i + 1) b)) by apply lookup_insert_eq.
  destruct (on_status_Done bc 1 bts w2 _ Hb2 Ho) as (o1 & Ho1 & Hok1).
  cbn beta iota. rewrite (bind_Done _ _ _ _ _ Ho1). destruct err as [e|].
  { injection Hw as <- <- <-. by exists o1. }
  destruct (send_all c1 _ _) as [[c2 m'] r'] eqn:Hs. injection Hw as <- <- <-.
  destruct (IH (i + 1) (u64 (n + u64 bts)) (set_owner o1 w2)
              (set_currentSequenceNumber (i + 1) b) c1 c2 m' r') as (o & Hok & Hrec);
    first [done | by cbn; rewrite lookup_insert_eq | cbn; lia | idtac].
  exists o. split; [done|]. rewrite Hrec.
  replace (i + 1 + Z.of_nat m') with (i + Z.of_nat (S m')) by lia.
  cbn [parts dp set_owner set_dp set_parts w1 w2]. by rewrite insert_insert_eq.
Qed.

(** The state of the program after [WritePart]: the packets are in the
    connection, the sequence counter is at the last packet. *)
Definition after_write (bc : nat) (b : PartContext) (c' : C) (o : K) w : world C Addr K :=
  mkWorld (set_Conn c' (set_partContext (Some bc) (dp w)))
    (<[bc := set_currentSequenceNumber (NumPackets b) b]> (parts w)) o.

Lemma length_packets b : geometry b -> Z.of_nat (length (packets b)) = NumPackets b.
Proof.
  intros (? & _ & HN). unfold packets. rewrite length_fmap, length_seqZ, Z2Nat.id; [done|].
  rewrite HN. apply ceil_div_nonneg; [apply zlen_nonneg|lia].
Qed.

(** [WritePart] gives the packets of the part to the connection. *)
Lemma WritePart_eq bc w b c c' m r :
  parts w !! bc = Some b -> geometry b -> transport_ok (PCTransportPacketPacker b) ->
  GetHeaderLen < 2 ^ 53 -> currentSequenceNumber b = 0 ->
  Conn (dp w) = Some c -> listener_ok (owner w) -> send_all c (packets b) 0 = (c', m, r) ->
  exists o, listener_ok o /\
    WritePart bc w = Done r (mkWorld (set_Conn c' (set_partContext (Some bc) (dp w)))
      (<[bc := set_currentSequenceNumber (Z.of_nat m) b]> (parts w)) o).
Proof.
  intros Hb Hg Ht Hh Hcur Hc Ho Hw. unfold WritePart. go_step.
  set (w0 := set_dp (set_partContext (Some bc) (dp w)) w).
  rewrite (bind_Done _ _ _ _ _ (at_part_gets bc NumPackets w0 b Hb)).
  assert (HN : 0 <= NumPackets b) by (rewrite <- length_packets by done; lia).
  by destruct (WritePart_loop_eq bc (Z.to_nat (NumPackets b)) 0 0 w0 b c c' m r)
    as (o & Hok & ->); [done|done|done|done|done|lia|done|done|done|by rewrite Z2Nat.id|exists o].
Qed.

Lemma WritePart_sends bc w b c c' :
  parts w !! bc = Some b -> geometry b -> transport_ok (PCTransportPacketPacker b) ->
  GetHeaderLen < 2 ^ 53 -> currentSequenceNumber b = 0 ->
  Conn (dp w) = Some c -> listener_ok (owner w) -> writes c (packets b) c' ->
  exists o, listener_ok o /\
    WritePart bc w = Done (u64 (total_len (packets b)), None) (after_write bc b c' o w).
Proof.
  intros Hb Hg Ht Hh Hcur Hc Ho Hw. apply (send_all_writes _ _ _ 0) in Hw; [|done].
  destruct (WritePart_eq bc w b c c' _ _ Hb Hg Ht Hh Hcur Hc Ho Hw) as (o & Hok & ->).
  exists o. split; [done|]. by rewrite length_packets.
Qed.

(** A send that ends with an error: the last datagram it gave is the first one
    the connection refused. *)
Lemma send_all_error c ds n c' m k e :
  send_all c ds n = (c', m, (k, Some e)) ->
  k = 0 /\ exists sent d rest c1 bts, ds = sent ++ d :: rest /\ m = S (length sent) /\
    conn_Write c1 d = (c', (bts, Some e)).
Proof.
  induction ds as [|d ds IH] in c, n, m |- *; cbn [send_all]; [done|].
  destruct (conn_Write c d) as [c1 [bts [e'|]]] eqn:Hd.
  { intros [= <- <- <- <-]. split; [done|]. by exists [], d, ds, c, bts. }
  destruct (send_all c1 ds _) as [[c2 m'] r] eqn:Hs. intros [= <- <- ->].
  destruct (IH _ _ _ Hs) as (-> & sent & d' & rest & c3 & bts' & -> & -> & Hw).
  split; [done|]. by exists (d :: sent), d', rest, c3, bts'.
Qed.

Lemma send_all_complete c ds n c' m k : send_all c ds n = (c', m, (k, None)) -> m = length ds.
Proof.
  induction ds as [|d ds IH] in c, n, m |- *; cbn [send_all]; [by intros [= <- <- <-]|].
  destruct (conn_Write c d) as [c1 [bts [e'|]]]; [done|].
  destruct (send_all c1 ds _) as [[c2 m'] r] eqn:Hs. intros [= <- <- ->]. cbn. f_equal. by eapply IH.
Qed.

End write.

(** ** Receiving *)

Section read.
Context {C Addr K : Type} `{SCIONNetSpec C Addr} `{StatusListenerSpec K}.
Context `{PartsPacketPackerSpec}.
Implicit Types (w : world C Addr K).

Lemma recv_state_other sent init R b u r :
  recv_state sent init R b -> recv_state sent init R (set_RecvPackets r (set_Buffer u b)).
Proof. by intros []; constructor. Qed.

Lemma packet_padded pid pl sent s pad : packet pid pl sent s ++ pad = packet_buffer pid pl sent s pad.
Proof. unfold packet, packet_buffer. by rewrite <- app_assoc. Qed.

(** The receiver while it reads: [n] bytes of room per packet. *)
Record reading (sent init : list byte) (R : gset Z) (b : PartContext) : Prop := {
  rd_state : recv_state sent init R b;
  rd_room : zlen (Buffer b) = NumPackets b * MaxPacketLength b;
  rd_max : 0 <= MaxPacketLength b /\ NumPackets b * MaxPacketLength b < 2 ^ 63;
}.

(** What one iteration does once the packet is unpacked. *)
Definition packet_read bc (d rest : list byte) (r : option error) : go (world C Addr K) (error + Z) :=
  match r with
  | None =>
      at_part bc (modify (fun b => set_RecvPackets (i64 (RecvPackets b + 1)) b));;
      on_status bc 1 (zlen d);;
      mret (inr (u64 (zlen d)))
  | Some _ => at_dp (send_PacketChan rest);; mret (inr 0)
  end.

(** Where iteration [i] reads to, and what it leaves there. *)
Definition view (b : PartContext) (i : Z) : list byte :=
  take (Z.to_nat (MaxPacketLength b)) (drop (Z.to_nat (i * MaxPacketLength b)) (Buffer b)).

Definition after_read (b : PartContext) (i : Z) (d : list byte) : PartContext :=
  set_Buffer (splice (Buffer b) (Z.to_nat (i * MaxPacketLength b)) d) b.

(** One iteration of the loop at a datagram. *)
Lemma ReadPart_step_at bc i w b c c' d rest r b1 :
  parts w !! bc = Some b -> Conn (dp w) = Some c ->
  zlen (Buffer b) = NumPackets b * MaxPacketLength b ->
  0 <= MaxPacketLength b /\ NumPackets b * MaxPacketLength b < 2 ^ 63 ->
  0 <= i < NumPackets b -> conn_Read c (MaxPacketLength b) = (c', (d, None)) ->
  DeSerializePacket (d ++ drop (length d) (view b i)) (after_read b i d) = Done (rest, r) b1 ->
  ReadPart_step bc i w =
    packet_read bc d rest r (mkWorld (set_Conn c' (dp w)) (<[bc := b1]> (parts w)) (owner w)).
Proof.
  intros Hb Hc Hroom [Hm0 Hm] Hi Hr Hde.
  assert (Hend : i * MaxPacketLength b + MaxPacketLength b <= NumPackets b * MaxPacketLength b) by nia.
  assert (Hview : zlen (view b i) = MaxPacketLength b).
  { unfold view, zlen in *. rewrite length_take, length_drop. nia. }
  unfold ReadPart_step.
  rewrite (bind_Done _ _ _ _ _ (at_part_gets bc Buffer w b Hb)).
  rewrite (bind_Done _ _ _ _ _ (at_part_gets bc MaxPacketLength w b Hb)). cbv zeta.
  rewrite (i64_id (i * MaxPacketLength b)), i64_id by (unfold in_i64; nia).
  rewrite go_slice_Some by nia.
  replace (i * MaxPacketLength b + MaxPacketLength b - i * MaxPacketLength b) with (MaxPacketLength b) by lia.
  fold (view b i). go_step. rewrite Hview, (bind_Done _ _ _ _ _ (Read_Done _ w c c' _ Hc Hr)). cbn beta iota.
  set (w1 := set_dp (set_Conn c' (dp w)) w).
  rewrite (bind_Done _ _ _ _ _ (at_part_Done bc _ w1 b _ _ Hb (modify_Done _ b))). fold (after_read b i d).
  set (w2 := set_parts (<[bc := after_read b i d]> (parts w1)) w1).
  assert (Hb2 : parts w2 !! bc = Some (after_read b i d)) by apply lookup_insert_eq.
  assert (Hrb : read_buffer (view b i) d = d ++ drop (length d) (view b i)) by (unfold read_buffer, splice; by rewrite take_0).
  rewrite Hrb, (bind_Done _ _ _ _ _ (at_part_Done bc _ w2 _ _ _ Hb2 Hde)). cbn beta iota.
  unfold set_parts at 1, w2, w1. cbn. rewrite insert_insert_eq. by destruct r.
Qed.

Lemma ReadPart_step_reads bc i w b c c' d :
  parts w !! bc = Some b -> Conn (dp w) = Some c ->
  zlen (Buffer b) = NumPackets b * MaxPacketLength b ->
  0 <= MaxPacketLength b /\ NumPackets b * MaxPacketLength b < 2 ^ 63 ->
  0 <= i < NumPackets b -> conn_Read c (MaxPacketLength b) = (c', (d, None)) ->
  exists u pad, length u = length (Buffer b) /\
    forall rest r b1, DeSerializePacket (d ++ pad) (set_Buffer u b) = Done (rest, r) b1 ->
      ReadPart_step bc i w =
        packet_read bc d rest r (mkWorld (set_Conn c' (dp w)) (<[bc := b1]> (parts w)) (owner w)).
Proof.
  intros Hb Hc Hroom Hm Hi Hr. pose proof (conn_Read_len _ _ _ _ _ (proj1 Hm) Hr) as Hlen.
  eexists _, _. split; [|intros rest r b1; exact (ReadPart_step_at bc i w b c c' d rest r b1 Hb Hc Hroom Hm Hi Hr)].
  unfold zlen in *. apply length_splice. nia.
Qed.


(** One iteration of the loop at a packet that is accepted. *)
Lemma ReadPart_step_accepts bc i w b c c' d :
  parts w !! bc = Some b -> Conn (dp w) = Some c -> listener_ok (owner w) ->
  zlen (Buffer b) = NumPackets b * MaxPacketLength b ->
  0 <= MaxPacketLength b /\ NumPackets b * MaxPacketLength b < 2 ^ 63 ->
  0 <= i < NumPackets b -> conn_Read c (MaxPacketLength b) = (c', (d, None)) ->
  exists u pad, length u = length (Buffer b) /\
    forall rest b1, DeSerializePacket (d ++ pad) (set_Buffer u b) = Done (rest, None) b1 ->
      exists o, listener_ok o /\
        ReadPart_step bc i w = Done (inr (u64 (zlen d)))
          (mkWorld (set_Conn c' (dp w)) (<[bc := set_RecvPackets (i64 (RecvPackets b1 + 1)) b1]> (parts w)) o).
Proof.
  intros Hb Hc Ho Hroom Hm Hi Hr.
  destruct (ReadPart_step_reads bc i w b c c' d Hb Hc Hroom Hm Hi Hr) as (u & pad & Hu & Hstep).
  exists u, pad. split; [done|]. intros rest b1 Hde. rewrite (Hstep _ _ _ Hde). unfold packet_read.
  set (w3 := mkWorld _ _ _). assert (Hb3 : parts w3 !! bc = Some b1) by apply lookup_insert_eq.
  rewrite (bind_Done _ _ _ _ _ (at_part_Done bc _ w3 _ _ _ Hb3 (modify_Done _ b1))).
  set (w4 := set_parts _ w3).
  assert (Hb4 : parts w4 !! bc = Some (set_RecvPackets (i64 (RecvPackets b1 + 1)) b1)) by apply lookup_insert_eq.
  destruct (on_status_Done bc 1 (zlen d) w4 _ Hb4 Ho) as (o1 & Ho1 & Hok1).
  rewrite (bind_Done _ _ _ _ _ Ho1). exists o1. split; [done|].
  rewrite ret_Done. f_equal. unfold w4, w3. cbn. by rewrite insert_insert_eq.
Qed.

(** One packet that was not received yet. *)
Lemma ReadPart_step_fresh bc i w b c c' sent init R s :
  parts w !! bc = Some b -> Conn (dp w) = Some c -> listener_ok (owner w) ->
  reading sent init R b -> 0 <= i < NumPackets b -> 1 <= s <= NumPackets b -> s ∉ R ->
  conn_Read c (MaxPacketLength b) = (c', (packet (PartId b) (PayloadLength b) sent s, None)) ->
  exists o b', listener_ok o /\
    ReadPart_step bc i w = Done (inr (u64 (zlen (packet (PartId b) (PayloadLength b) sent s))))
      (mkWorld (set_Conn c' (dp w)) (<[bc := b']> (parts w)) o) /\
    reading sent init ({[s]} ∪ R) b' /\ PartId b' = PartId b /\ PayloadLength b' = PayloadLength b /\
    NumPackets b' = NumPackets b /\ MaxPacketLength b' = MaxPacketLength b /\
    RecvPackets b' = i64 (RecvPackets b + 1) /\
    HighestSequenceNumber b' = Z.max s (HighestSequenceNumber b) /\
    (asks_right R b -> HighestSequenceNumber b < s -> asks_right ({[s]} ∪ R) b').
Proof.
  intros Hb Hc Ho [Hst Hroom Hmax] Hi Hs Hnew Hr.
  destruct (ReadPart_step_accepts bc i w b c c' _ Hb Hc Ho Hroom Hmax Hi Hr) as (u & pad & Hu & Hstep).
  destruct (DeSerialize_fresh sent init R (set_Buffer u b) s pad) as (d & nums & offs & Hde & Hld & Hst' & Hask);
    [by apply (recv_state_other _ _ _ b u (RecvPackets b)) in Hst|done|done|].
  set (b1 := received d nums offs _ (set_Buffer u b)) in *.
  rewrite packet_padded in Hstep. destruct (Hstep _ _ Hde) as (o & Ho1 & Hrun).
  exists o, (set_RecvPackets (i64 (RecvPackets b1 + 1)) b1). split; [done|]. split; [exact Hrun|]. split; [|done].
  split; [by apply (recv_state_other _ _ _ b1 (Buffer b1))| |done]. unfold zlen in *. cbn. by rewrite Hu.
Qed.

(** The loop over packets that arrive once each, in any order. *)
Lemma ReadPart_loop_any_order bc k i n w b c c' sent init R order :
  parts w !! bc = Some b -> Conn (dp w) = Some c -> listener_ok (owner w) ->
  reading sent init R b -> 0 <= i -> i + Z.of_nat k <= NumPackets b -> in_u64 n ->
  in_i64 (RecvPackets b) ->
  length order = k -> NoDup order ->
  (forall s, s ∈ order -> 1 <= s <= NumPackets b /\ s ∉ R) ->
  reads (MaxPacketLength b) c (packet (PartId b) (PayloadLength b) sent <$> order) c' ->
  exists o b', listener_ok o /\
    ReadPart_loop bc k i n w =
      Done (u64 (n + total_len (packet (PartId b) (PayloadLength b) sent <$> order)), None)
        (mkWorld (set_Conn c' (dp w)) (<[bc := b']> (parts w)) o) /\
    reading sent init (list_to_set order ∪ R) b' /\ NumPackets b' = NumPackets b /\
    PayloadLength b' = PayloadLength b /\ PartId b' = PartId b /\
    MaxPacketLength b' = MaxPacketLength b /\
    RecvPackets b' = i64 (RecvPackets b + Z.of_nat k) /\
    (asks_right R b -> ascending (HighestSequenceNumber b :: order) ->
     asks_right (list_to_set order ∪ R) b').
Proof.
  induction k as [|k IH] in i, n, w, b, c, R, order |- *; intros Hb Hc Ho Hrd Hi Hk Hn Hrp Hlen Hnd Hord Hr.
  { destruct order; [|done]. inversion Hr; subst. exists (owner w), b. split; [done|]. split; [|split].
    - cbn [ReadPart_loop fmap list_fmap total_len fold_right]. rewrite ret_Done.
      rewrite Z.add_0_r, u64_id, set_Conn_id, insert_id by done. by destruct w.
    - cbn. by rewrite union_empty_l_L.
    - cbn [list_to_set]. rewrite Z.add_0_r, i64_id, union_empty_l_L by done. done. }
  destruct order as [|s order]; [done|]. injection Hlen as Hlen.
  apply NoDup_cons in Hnd as [Hs Hnd]. rewrite fmap_cons in Hr |- *.
  inversion Hr as [|? ? c1 ? ? Hr1 Hrs]; subst.
  destruct (Hord s ltac:(by left)) as [Hrange Hnew].
  destruct (ReadPart_step_fresh bc i w b c c1 sent init R s) as
    (o1 & b1 & Ho1 & Hstep & Hrd1 & Hp1 & Hpl1 & Hn1 & Hm1 & Hrp1 & Hh1 & Hask1); try (done || lia).
  cbn [ReadPart_loop]. rewrite (bind_Done _ _ _ _ _ Hstep). cbn beta iota.
  destruct (IH (i + 1) (u64 (n + u64 (zlen (packet (PartId b) (PayloadLength b) sent s))))
              (mkWorld (set_Conn c1 (dp w)) (<[bc := b1]> (parts w)) o1) b1 c1 ({[s]} ∪ R) order)
    as (o & b' & Hok & Hrec & Hrd' & Hn' & Hpl' & Hp' & Hm' & Hrp' & Hask').
  { by cbn; rewrite lookup_insert_eq. }
  all: try (rewrite ?Hp1, ?Hpl1, ?Hn1, ?Hm1, ?Hrp1; first [done | lia | apply u64_range | apply i64_range]).
  { intros x Hx. rewrite Hn1. destruct (Hord x ltac:(by right)) as [? Hx']. split; [done|].
    rewrite elem_of_union, elem_of_singleton. intros [->|?]; contradiction. }
  assert (Hset : (list_to_set (s :: order) ∪ R : gset Z) = list_to_set order ∪ ({[s]} ∪ R))
    by (rewrite list_to_set_cons, (assoc_L (∪)), (comm_L (∪) (list_to_set order) {[s]}); done).
  exists o, b'. split; [done|]. split; [|split].
  - rewrite Hrec, Hp1, Hpl1, u64_add_r, u64_add_l.
    cbn [total_len fold_right parts dp]. rewrite insert_insert_eq, <- Z.add_assoc. reflexivity.
  - by rewrite Hset.
  - rewrite Hn', Hpl', Hp', Hm', Hrp', Hrp1, i64_add_l, Hset. split_and!; try done; [f_equal; lia|].
    intros Hask [Hlt Hasc]%ascending_cons. apply Hask'.
    + apply Hask1; [done|]. apply Hlt. by left.
    + rewrite Hh1, Z.max_l; [done|]. specialize (Hlt s ltac:(by left)). lia.
Qed.

(** A part context ready to receive: nothing seen yet, one packet's room per
    packet in the buffer. *)
Record receiver_ready (b : PartContext) : Prop := {
  rr_geometry : geometry b;
  rr_transport : transport_ok (PCTransportPacketPacker b);
  rr_pid : in_i64 (PartId b);
  rr_nums : MissingSequenceNums b = [];
  rr_offs : MissingSequenceNumOffsets b = [];
  rr_highest : HighestSequenceNumber b = 0;
  rr_recv : RecvPackets b = 0;
  rr_room : zlen (Buffer b) = NumPackets b * MaxPacketLength b;
  rr_max : 0 <= MaxPacketLength b /\ NumPackets b * MaxPacketLength b < 2 ^ 63;
}.

Lemma ready_reading sent b :
  receiver_ready b -> length sent = length (Data b) -> reading sent (Data b) ∅ b.
Proof.
  intros [] Hl. split; [split|done|done]; [done|done|done|done|by apply data_inv_init|].
  unfold missing_inv. rewrite rr_highest0. split; [split; [done|by left]|]. exists []. cbn.
  split_and!; [lia|done|done].
Qed.

(** Every packet of the part arrives once, in any order. *)
Lemma ReadPart_permuted bc w b c c' sent ds :
  parts w !! bc = Some b -> Conn (dp w) = Some c -> listener_ok (owner w) ->
  receiver_ready b -> 0 < NumPackets b -> length sent = length (Data b) ->
  ds ≡ₚ (packet (PartId b) (PayloadLength b) sent <$> seqZ 1 (NumPackets b)) ->
  reads (MaxPacketLength b) c ds c' ->
  exists o b', listener_ok o /\
    ReadPart bc w = Done (u64 (total_len ds), None)
      (mkWorld (set_Conn c' (dp w)) (<[bc := b']> (parts w)) o) /\
    Data b' = sent /\ MissingSequenceNums b' = [] /\ MissingSequenceNumOffsets b' = [] /\
    HighestSequenceNumber b' = NumPackets b /\ RecvPackets b' = NumPackets b /\ PartId b' = PartId b.
Proof.
  intros Hb Hc Ho Hrr HN Hl (order & -> & Hperm)%Permutation_map_inv Hr.
  pose proof (ready_reading sent b Hrr Hl) as Hrd.
  pose proof (geometry_NumPackets b (rr_geometry _ Hrr)) as HN53.
  unfold ReadPart. rewrite (bind_Done _ _ _ _ _ (at_part_gets bc NumPackets w b Hb)).
  assert (Hin : forall s, s ∈ order <-> 1 <= s <= NumPackets b).
  { intros s. rewrite <- Hperm, elem_of_seqZ. lia. }
  destruct (ReadPart_loop_any_order bc (Z.to_nat (NumPackets b)) 0 0 w b c c' sent (Data b) ∅ order)
    as (o & b' & Hok & Hrun & Hrd' & Hn' & Hpl' & Hid' & _ & Hrp' & _); try (done || lia).
  - rewrite (rr_recv _ Hrr). done.
  - rewrite <- (Permutation_length Hperm), length_seqZ. done.
  - rewrite <- Hperm. apply NoDup_seqZ.
  - intros s Hs. split; [by apply Hin|apply not_elem_of_empty].
  - exists o, b'. split; [done|]. split; [exact Hrun|].
    rewrite union_empty_r_L in Hrd'. destruct Hrd' as [[Hg' _ _ _ Hd Hm] _ _].
    assert (HR : forall s, s ∈ (list_to_set order : gset Z) <-> 1 <= s <= NumPackets b).
    { intros s. rewrite elem_of_list_to_set. apply Hin. }
    split.
    { destruct Hg' as (Hp' & Hd' & Hc'). refine (data_inv_complete (PayloadLength b') sent (Data b) _ b' _ _ Hd); [lia|].
      intros s Hs. apply HR. rewrite <- Hn', Hc'.
      destruct Hd as [Hld _]. unfold zlen in *. rewrite Hld. lia. }
    destruct (missing_inv_complete _ (NumPackets b) _ Hm HR HN) as (-> & -> & ->).
    split_and!; try done. rewrite Hrp', (rr_recv _ Hrr), Z2Nat.id by lia.
    apply i64_id. unfold in_i64. lia.
Qed.

End read.

(** ** The properties of a transfer *)

Section transfer.
Context {C Addr K : Type} `{SCIONNetSpec C Addr} `{StatusListenerSpec K}.
Context `{PartsPacketPackerSpec}.
Implicit Types (w : world C Addr K).

(** C3: a part that one end writes and whose datagrams reach the other end in
    any order, each of them once, is received completely: [WritePart] and
    [ReadPart] both return without error, the receiver's data is the sender's,
    no range is missing and every packet was counted. *)
Theorem transfer_delivers ps ws bs cs cs' pr wr br cr cr' arrived :
  parts ws !! ps = Some bs -> Conn (dp ws) = Some cs -> listener_ok (owner ws) ->
  geometry bs -> transport_ok (PCTransportPacketPacker bs) -> GetHeaderLen < 2 ^ 53 ->
  currentSequenceNumber bs = 0 ->
  parts wr !! pr = Some br -> Conn (dp wr) = Some cr -> listener_ok (owner wr) ->
  receiver_ready br -> PartId br = PartId bs -> PayloadLength br = PayloadLength bs ->
  0 < NumPackets br -> length (Data br) = length (Data bs) ->
  writes cs (packets bs) cs' -> arrived ≡ₚ packets bs -> reads (MaxPacketLength br) cr arrived cr' ->
  exists os wr' br',
    WritePart ps ws = Done (u64 (total_len (packets bs)), None) (after_write ps bs cs' os ws) /\
    ReadPart pr wr = Done (u64 (total_len arrived), None) wr' /\ parts wr' !! pr = Some br' /\
    Data br' = Data bs /\ MissingSequenceNums br' = [] /\ MissingSequenceNumOffsets br' = [] /\
    RecvPackets br' = NumPackets bs.
Proof.
  intros Hbs Hcs Hos Hg Ht Hh Hcur Hbr Hcr Hor Hrr Hpid Hpl HN Hl Hws Harr Hrs.
  destruct (WritePart_sends ps ws bs cs cs') as (os & _ & Hwrite); try done.
  assert (Hn : NumPackets br = NumPackets bs).
  { destruct Hg as (_ & _ & ->). destruct (rr_geometry _ Hrr) as (_ & _ & ->).
    unfold zlen. by rewrite Hpl, Hl. }
  destruct (ReadPart_permuted pr wr br cr cr' (Data bs) arrived) as
    (o & b' & _ & Hread & Hd & Hm & Hmo & _ & Hrp & _); try done.
  { by rewrite Hpid, Hpl, Hn. }
  eexists os, _, b'. split; [exact Hwrite|]. split; [exact Hread|].
  split; [apply lookup_insert_eq|]. by rewrite <- Hn.
Qed.

(** The payloads of the packets are the data, cut without gap or overlap. *)
Lemma packets_payloads b : geometry b -> concat (drop (Z.to_nat GetHeaderLen) <$> packets b) = Data b.
Proof.
  intros Hg. rewrite <- (payloads_cover b Hg). f_equal. unfold packets.
  replace (seqZ 1 (NumPackets b)) with (Z.add 1 <$> seqZ 0 (NumPackets b)) by by rewrite fmap_add_seqZ.
  rewrite <- !list_fmap_compose. apply list_fmap_ext. intros i x _. unfold compose, packet.
  rewrite <- (packet_header_length (PartId b) (1 + x)), drop_app_length. f_equal. lia.
Qed.

(** A packet has a header. *)
Lemma packets_have_headers b : Forall (fun d => GetHeaderLen <= zlen d) (packets b).
Proof.
  apply Forall_fmap, Forall_true. intros s. unfold compose, packet.
  rewrite <- (packet_header_len (PartId b) s). unfold zlen. rewrite length_app. lia.
Qed.

(** What goes over the wire: the data, and a header for every packet. *)
Lemma total_len_packets b : geometry b -> total_len (packets b) = zlen (Data b) + NumPackets b * GetHeaderLen.
Proof.
  intros Hg. rewrite <- (packets_payloads b Hg), <- (length_packets b Hg).
  assert (Hds := packets_have_headers b). revert Hds. generalize (packets b). intros ds Hds.
  pose proof (packet_header_len 0 0) as Hh. pose proof (zlen_nonneg (packet_header 0 0)).
  induction Hds as [|d ds Hd _ IH]; [done|].
  cbn [total_len fold_right fmap list_fmap concat length]. fold (total_len ds). rewrite IH.
  unfold zlen in *. rewrite length_app, length_drop. lia.
Qed.

(** A part that a connection takes whole. *)
Corollary WritePart_whole_part bc w b c c' :
  parts w !! bc = Some b -> geometry b -> transport_ok (PCTransportPacketPacker b) ->
  GetHeaderLen < 2 ^ 53 -> currentSequenceNumber b = 0 ->
  Conn (dp w) = Some c -> listener_ok (owner w) -> writes c (packets b) c' ->
  (exists o, WritePart bc w = Done (u64 (total_len (packets b)), None) (after_write bc b c' o w)) /\
  concat (drop (Z.to_nat GetHeaderLen) <$> packets b) = Data b.
Proof.
  intros Hb Hg Ht Hh Hcur Hc Ho Hw. split; [|by apply packets_payloads].
  destruct (WritePart_sends bc w b c c') as (o & _ & ?); try done. by exists o.
Qed.

(** C17: [WritePart] on any connection, one that fails included, does what the
    reference does that gives the packets of the part to it one by one, in the
    order of their sequence numbers: same connection afterwards, same result,
    and the sequence counter at the number of packets given.  Without an error
    all packets were given, and the count is the length of the data and of a
    header for each packet; with one the count is zero, and the last packet
    given is the one that was refused.  The payloads of the packets are the
    data, cut without gap or overlap. *)
Theorem WritePart_reference bc w b c c' m n err :
  parts w !! bc = Some b -> geometry b -> transport_ok (PCTransportPacketPacker b) ->
  GetHeaderLen < 2 ^ 53 -> currentSequenceNumber b = 0 ->
  Conn (dp w) = Some c -> listener_ok (owner w) -> send_all c (packets b) 0 = (c', m, (n, err)) ->
  (exists o, WritePart bc w = Done (n, err) (mkWorld (set_Conn c' (set_partContext (Some bc) (dp w)))
     (<[bc := set_currentSequenceNumber (Z.of_nat m) b]> (parts w)) o)) /\
  match err with
  | None => Z.of_nat m = NumPackets b /\
      (writes c (packets b) c' -> n = u64 (zlen (Data b) + NumPackets b * GetHeaderLen))
  | Some e => n = 0 /\ 1 <= Z.of_nat m <= NumPackets b /\
      exists c1 d bts, packets b !! (m - 1)%nat = Some d /\ conn_Write c1 d = (c', (bts, Some e))
  end /\
  concat (drop (Z.to_nat GetHeaderLen) <$> packets b) = Data b.
Proof.
  intros Hb Hg Ht Hh Hcur Hc Ho Hs. split; [|split; [|by apply packets_payloads]].
  { destruct (WritePart_eq bc w b c c' m (n, err)) as (o & _ & Hw); try done. by exists o. }
  destruct err as [e|].
  - apply send_all_error in Hs as (-> & sent & d & rest & c1 & bts & Hp & -> & Hd).
    split; [done|]. rewrite <- (length_packets b Hg), Hp, length_app. cbn [length]. split; [lia|].
    exists c1, d, bts. split; [|done]. apply list_lookup_middle. lia.
  - split; [by rewrite (send_all_complete _ _ _ _ _ _ Hs), length_packets|]. intros Hw.
    apply (send_all_writes _ _ _ 0) in Hw; [|done]. rewrite Hs in Hw. injection Hw as -> ->.
    by rewrite Z.add_0_l, total_len_packets.
Qed.

End transfer.

(** ** On the loopback network *)

#[local] Existing Instances BinaryPartsPacketPacker.packer BinaryPartsPacketPacker.packer_spec.

Lemma loopback_writes c ds : writes c ds (mkLink (rx c) (tx c ++ ds)).
Proof.
  induction ds as [|d ds IH] in c |- *.
  - rewrite app_nil_r. destruct c. constructor.
  - econstructor; [reflexivity|]. specialize (IH (mkLink (rx c) (tx c ++ [d]))).
    cbn in IH. by rewrite <- app_assoc in IH.
Qed.

Lemma loopback_reads n ds rest t :
  Forall (fun d => zlen d <= n) ds -> reads n (mkLink (ds ++ rest) t) ds (mkLink rest t).
Proof.
  intros Hf. induction Hf as [|d ds Hd Hf IH]; [constructor|].
  econstructor; [|exact IH]. cbn. rewrite take_ge; [done|]. unfold zlen in Hd. lia.
Qed.

Lemma small_geometry pid data buffer nums offs highest recv :
  length data = 5%nat -> geometry (small_part pid data buffer nums offs highest recv).
Proof. intros Hl. unfold geometry, zlen. cbn. rewrite Hl. cbn. split_and!; (done || lia). Qed.

Lemma small_ready pid data buffer :
  length data = 5%nat -> length buffer = 54%nat -> in_i64 pid ->
  receiver_ready (small_part pid data buffer [] [] 0 0).
Proof.
  intros Hl Hb Hp. split; try done; [by apply small_geometry|by apply plain_transport_ok|].
  unfold zlen. cbn. by rewrite Hb.
Qed.

Definition small_sender : PartContext := small_part 7 five [] [] [] 0 0.
Definition small_receiver : PartContext := small_part 7 (no_bytes 5) (no_bytes 54) [] [] 0 0.

Lemma transfer_delivers_witness :
  exists os wr' br',
    WritePart 0 (one_part (mkLink [] []) small_sender) =
      Done (u64 (total_len (packets small_sender)), None) (after_write 0 small_sender (mkLink [] (packets small_sender)) os
        (one_part (mkLink [] []) small_sender)) /\
    ReadPart 0 (one_part (mkLink (rev (packets small_sender)) []) small_receiver) =
      Done (u64 (total_len (rev (packets small_sender))), None) wr' /\
    parts wr' !! O = Some br' /\ Data br' = five /\ MissingSequenceNums br' = [] /\
    MissingSequenceNumOffsets br' = [] /\ RecvPackets br' = 3.
Proof.
  apply (transfer_delivers (C := link) (Addr := string) 0 (one_part (mkLink [] []) small_sender)
    small_sender (mkLink [] []) (mkLink [] (packets small_sender)) 0
    (one_part (mkLink (rev (packets small_sender)) []) small_receiver)
    small_receiver (mkLink (rev (packets small_sender)) []) (mkLink [] []) (rev (packets small_sender)));
    try done.
  - by apply plain_transport_ok.
  - by apply small_ready.
  - apply (loopback_writes (mkLink [] [])).
  - symmetry. apply Permutation_rev.
  - rewrite <- (app_nil_r (rev (packets small_sender))) at 1. apply loopback_reads.
    vm_compute. repeat constructor; done.
Defined.

Lemma WritePart_whole_part_witness :
  (exists o, WritePart 0 (one_part (mkLink [] []) small_sender) =
     Done (u64 (total_len (packets small_sender)), None) (after_write 0 small_sender (mkLink [] (packets small_sender)) o
       (one_part (mkLink [] []) small_sender))) /\
  concat (drop (Z.to_nat GetHeaderLen) <$> packets small_sender) = five.
Proof.
  apply (WritePart_whole_part (C := link) (Addr := string) 0 (one_part (mkLink [] []) small_sender)
    small_sender (mkLink [] []) (mkLink [] (packets small_sender))); try done.
  - by apply plain_transport_ok.
  - apply (loopback_writes (mkLink [] [])).
Defined.

(** A connection that refuses the third datagram. *)
Definition two_datagrams : SCIONNet link string := full_after 2.

Lemma WritePart_reference_witness :
  (exists o, WritePart (H := two_datagrams) 0 (one_part (mkLink [] []) small_sender) =
    Done (0, Some (NetError 1)) (mkWorld (set_Conn (mkLink [] (packet 7 2 five <$> [1; 2]))
      (set_partContext (Some O) (dp (one_part (mkLink [] []) small_sender))))
      (<[O := set_currentSequenceNumber 3 small_sender]> (parts (one_part (mkLink [] []) small_sender))) o)) /\
  exists o, WritePart 0 (one_part (mkLink [] []) small_sender) =
    Done (53, None) (mkWorld (set_Conn (mkLink [] (packets small_sender))
      (set_partContext (Some O) (dp (one_part (mkLink [] []) small_sender))))
      (<[O := set_currentSequenceNumber 3 small_sender]> (parts (one_part (mkLink [] []) small_sender))) o).
Proof.
  split.
  - apply (WritePart_reference (H := two_datagrams) 0 (one_part (mkLink [] []) small_sender) small_sender
      (mkLink [] []) (mkLink [] (packet 7 2 five <$> [1; 2])) 3 0 (Some (NetError 1))); try done.
    by apply plain_transport_ok.
  - apply (WritePart_reference (C := link) (Addr := string) 0 (one_part (mkLink [] []) small_sender) small_sender
      (mkLink [] []) (mkLink [] (packets small_sender)) 3 53 None); try done.
    by apply plain_transport_ok.
Defined.
