(* ===== verification/Losses.v ===== *)
(** * Losses: what [ReadPart] does not notice

    [ReadPart] counts the packets it reads, not the numbers it has seen.  When
    the last packet of a part is lost and the one before it comes twice, it
    ends without an error and with nothing recorded as missing. *)

From S2P Require Import Prelude Utils Interface Packer PartContext Reassembly Metrics Dataplane Loopback Transfer.

Section losses.
Context {C Addr K : Type} `{SCIONNetSpec C Addr} `{StatusListenerSpec K}.
Context `{PartsPacketPackerSpec}.
Implicit Types (w : world C Addr K).

Lemma ReadPart_loop_app bc k1 k2 i n w n1 w1 :
  ReadPart_loop bc k1 i n w = Done (n1, None) w1 ->
  ReadPart_loop bc (k1 + k2) i n w = ReadPart_loop bc k2 (i + Z.of_nat k1) n1 w1.
Proof.
  induction k1 as [|k1 IH] in i, n, w |- *; cbn [ReadPart_loop Nat.add].
  { rewrite ret_Done. intros [= -> ->]. by rewrite Z.add_0_r. }
  intros (r & w2 & Hs & Hl)%bind_Done_inv. rewrite (bind_Done _ _ _ _ _ Hs).
  destruct r as [e|bts]; [by rewrite ret_Done in Hl|].
  rewrite (IH _ _ _ Hl). by replace (i + 1 + Z.of_nat k1) with (i + Z.of_nat (S k1)) by lia.
Qed.

Lemma reads_split n c ds1 ds2 c' :
  reads n c (ds1 ++ ds2) c' -> exists c1, reads n c ds1 c1 /\ reads n c1 ds2 c'.
Proof.
  induction ds1 as [|d ds1 IH] in c |- *; cbn [app]; [intros ?; exists c; split; [constructor|done]|].
  inversion 1 as [|? ? c1 ? ? Hd Hds]; subst. destruct (IH _ Hds) as (c2 & ? & ?).
  exists c2. split; [by econstructor|done].
Qed.

Lemma total_len_snoc (ds : list (list byte)) d : total_len (ds ++ [d]) = total_len ds + zlen d.
Proof.
  unfold total_len. induction ds as [|x ds IH]; cbn [app fold_right]; [lia|]. rewrite IH. lia.
Qed.

(** A second copy of the highest packet: its number is neither above nor below
    the highest one, so it is accepted, and stores the same bytes again. *)
Lemma DeSerialize_highest sent init R b pad :
  recv_state sent init R b -> HighestSequenceNumber b ∈ R ->
  exists d, DeSerializePacket (packet_buffer (PartId b) (PayloadLength b) sent (HighestSequenceNumber b) pad) b =
      Done (payload (PayloadLength b) sent (HighestSequenceNumber b - 1) ++ pad, None)
        (received d (MissingSequenceNums b) (MissingSequenceNumOffsets b) (HighestSequenceNumber b) b) /\
    data_inv (PayloadLength b) sent init R
      (received d (MissingSequenceNums b) (MissingSequenceNumOffsets b) (HighestSequenceNumber b) b).
Proof.
  intros Hst HR. pose proof (rs_range _ _ _ _ Hst _ HR) as Hs. destruct Hst as [Hg Ht Hp _ Hd _].
  pose proof (geometry_NumPackets b Hg) as HN. unfold packet_buffer.
  rewrite DeSerialize_header by (done || (unfold in_i64; lia)). rewrite Z.sub_diag. change (i64 0) with 0. cbv zeta.
  unfold track_missing. cbn [Z.gtb Z.ltb Z.compare]. go_step.
  destruct (store_payload_block b sent pad (HighestSequenceNumber b) 0 Hg Hs (proj1 Hd)) as (d & Hstore & Hld & Hj).
  exists d. rewrite (bind_Done _ _ _ _ _ Hstore). split; [done|].
  pose proof (data_inv_store _ _ _ _ (MissingSequenceNums b) (MissingSequenceNumOffsets b) (HighestSequenceNumber b) _ _ _ Hd Hld Hj)
    as Hd'. by rewrite subseteq_union_1_L in Hd' by (intros x ->%elem_of_singleton; done).
Qed.

(** C30: the packets of a part but the last one arrive, once each and in any
    order, and the highest of them a second time.  [ReadPart] then returns
    without an error, every packet of the part counted and no range missing,
    while the bytes of the last packet are still the receiver's old ones. *)
Theorem ReadPart_misses_last bc w b c c' sent order :
  parts w !! bc = Some b -> Conn (dp w) = Some c -> listener_ok (owner w) ->
  receiver_ready b -> 2 <= NumPackets b -> length sent = length (Data b) ->
  order ≡ₚ seqZ 1 (NumPackets b - 1) ->
  let ds := packet (PartId b) (PayloadLength b) sent <$> order ++ [NumPackets b - 1] in
  reads (MaxPacketLength b) c ds c' ->
  exists w' b', ReadPart bc w = Done (u64 (total_len ds), None) w' /\ parts w' !! bc = Some b' /\
    RecvPackets b' = NumPackets b /\ MissingSequenceNums b' = [] /\
    forall j : nat, Data b' !! j =
      if decide (Z.of_nat j / PayloadLength b + 1 <= NumPackets b - 1) then sent !! j else Data b !! j.
Proof.
  intros Hb Hc Ho Hrr HN Hl Hperm ds Hr.
  pose proof (geometry_NumPackets b (rr_geometry _ Hrr)) as HN53.
  assert (Hlen : length order = Z.to_nat (NumPackets b - 1)) by (rewrite Hperm; apply length_seqZ).
  assert (Hord : forall s, s ∈ order <-> 1 <= s <= NumPackets b - 1) by (intros s; rewrite Hperm, elem_of_seqZ; lia).
  unfold ds in Hr. rewrite fmap_app in Hr. apply reads_split in Hr as (c1 & Hr1 & Hr2).
  inversion Hr2 as [|? ? c2 ? ? Hlast Hnil]; subst. inversion Hnil; subst.
  destruct (ReadPart_loop_any_order bc (length order) 0 0 w b c c1 sent (Data b) ∅ order)
    as (o & b1 & Hok & Hrun & Hrd & Hn1 & Hpl1 & Hid1 & Hm1 & Hrp1 & _); try (done || lia).
  { by apply ready_reading. }
  { by rewrite (rr_recv _ Hrr). }
  { rewrite Hperm. apply NoDup_seqZ. }
  { intros s Hs%Hord. split; [lia|apply not_elem_of_empty]. }
  rewrite union_empty_r_L in Hrd. destruct Hrd as [Hst Hroom Hmax].
  set (R := list_to_set order : gset Z) in *. pose proof (rs_missing _ _ _ _ Hst) as Hm.
  destruct (missing_inv_complete R (NumPackets b - 1) b1 Hm) as (Hnums & _ & Hhigh);
    [intros s; unfold R; by rewrite elem_of_list_to_set|lia|].
  assert (HhR : HighestSequenceNumber b1 ∈ R) by (unfold R; rewrite Hhigh, elem_of_list_to_set; apply Hord; lia).
  set (w1 := mkWorld (set_Conn c1 (dp w)) (<[bc := b1]> (parts w)) o) in *.
  rewrite <- Hm1, <- Hhigh, <- Hid1, <- Hpl1 in Hlast.
  destruct (ReadPart_step_accepts bc (Z.of_nat (length order)) w1 b1 c1 c' _ (lookup_insert_eq _ _ _) eq_refl Hok
    Hroom Hmax ltac:(lia) Hlast) as (u & pad & _ & Hstep).
  destruct (DeSerialize_highest sent (Data b) R (set_Buffer u b1) pad) as (d & Hde & Hd);
    [by apply (recv_state_other _ _ _ b1 u (RecvPackets b1)) in Hst|done|].
  rewrite packet_padded in Hstep. destruct (Hstep _ _ Hde) as (o2 & _ & Hrun2).
  do 2 eexists. split.
  { unfold ReadPart. rewrite (bind_Done _ _ _ _ _ (at_part_gets bc NumPackets w b Hb)).
    replace (Z.to_nat (NumPackets b)) with (length order + 1)%nat by lia.
    rewrite (ReadPart_loop_app _ _ _ _ _ _ _ _ Hrun). cbn [ReadPart_loop].
    rewrite (bind_Done _ _ _ _ _ Hrun2), ret_Done, Hid1, Hpl1, Hhigh, Z.add_0_l, u64_add_r, u64_add_l.
    unfold ds. rewrite fmap_app.
    change (packet (PartId b) (PayloadLength b) sent <$> [NumPackets b - 1]) with
      [packet (PartId b) (PayloadLength b) sent (NumPackets b - 1)].
    rewrite total_len_snoc. reflexivity. }
  split; [apply lookup_insert_eq|].
  split; [|split; [exact Hnums|]].
  - transitivity (i64 (RecvPackets b1 + 1)); [done|].
    rewrite Hrp1, (rr_recv _ Hrr), i64_add_l, i64_id by (unfold in_i64; lia). lia.
  - intros j. destruct Hd as [_ Hd]. etransitivity; [exact (Hd j)|].
    change (PayloadLength (set_Buffer u b1)) with (PayloadLength b1). rewrite Hpl1. apply decide_ext.
    unfold R. rewrite elem_of_list_to_set, Hord. pose proof (rr_geometry _ Hrr) as [Hp _].
    pose proof (Z.div_pos (Z.of_nat j) (PayloadLength b)). lia.
Qed.

End losses.

(** ** On the loopback network *)

#[local] Existing Instances BinaryPartsPacketPacker.packer BinaryPartsPacketPacker.packer_spec.

(** Packets 2, 1 and again 2 of three: the fifth byte never comes. *)
Definition without_last : list (list byte) := packet 7 2 five <$> [2; 1; 2].

Lemma ReadPart_misses_last_witness :
  exists w' b', ReadPart 0 (one_part (mkLink without_last []) small_receiver) = Done (u64 (total_len without_last), None) w' /\
    parts w' !! O = Some b' /\ RecvPackets b' = 3 /\ MissingSequenceNums b' = [] /\
    forall j : nat, Data b' !! j = if decide (Z.of_nat j / 2 + 1 <= 2) then five !! j else no_bytes 5 !! j.
Proof.
  apply (ReadPart_misses_last (C := link) (Addr := string) 0 (one_part (mkLink without_last []) small_receiver)
    small_receiver (mkLink without_last []) (mkLink [] []) five [2; 1]); try done.
  - by apply small_ready.
  - change (seqZ 1 (NumPackets small_receiver - 1)) with [1; 2]. apply Permutation_swap.
  - rewrite <- (app_nil_r without_last) at 1. apply loopback_reads. vm_compute. repeat constructor; done.
Defined.
