(* ===== verification/Arrivals.v ===== *)
(** * Arrivals: any packet of the part at any time

    What a receiver keeps true of its missing ranges and its data whatever
    packets of the part arrive, in whatever order and however often, and what
    one iteration of ReadPart does at such a packet. *)

From S2P Require Import Prelude Utils Interface Packer PartContext Reassembly Metrics Dataplane Loopback Transfer.

(** ** The missing ranges stay inside the part *)

(** Every range of the two slices starts inside the part of [n] packets, is
    not empty and ends inside it; no two start at the same number. *)
Record ranges_in (n : Z) (b : PartContext) : Prop := {
  ri_starts : NoDup (MissingSequenceNums b);
  ri_ranges : Forall2 (fun v off => 1 <= v /\ 1 <= off /\ v + off <= n + 1)
    (MissingSequenceNums b) (MissingSequenceNumOffsets b);
  ri_highest : 0 <= HighestSequenceNumber b <= n;
}.

Lemma ranges_in_length n b : ranges_in n b -> length (MissingSequenceNums b) = length (MissingSequenceNumOffsets b).
Proof. intros [_ H _]. by eapply Forall2_length. Qed.

Lemma ranges_in_aligned b : ranges_in (NumPackets b) b -> aligned b.
Proof. intros H. split; [by eapply ranges_in_length|apply H]. Qed.

(** There are no more ranges than packets. *)
Lemma ranges_in_few n b : ranges_in n b -> zlen (MissingSequenceNums b) <= n.
Proof.
  intros [Hnd Hf Hh]. assert (Hsub : MissingSequenceNums b ⊆+ seqZ 1 n).
  { apply NoDup_submseteq; [done|]. intros v (i & Hi)%list_elem_of_lookup_1.
    destruct (Forall2_lookup_l _ _ _ _ _ Hf Hi) as (off & _ & ?). apply elem_of_seqZ. lia. }
  apply submseteq_length in Hsub. rewrite length_seqZ in Hsub. unfold zlen. lia.
Qed.

(** Ranges that are right for the numbers received lie in the part. *)
Lemma missing_ranges_in R n b :
  missing_inv R b -> 0 <= HighestSequenceNumber b <= n -> ranges_in n b.
Proof.
  intros (Hmax & rs & Hrs & Hnums & Hoffs) Hh. split; [| |done]; rewrite Hnums.
  - apply ascending_NoDup. by eapply ranges_ok_ascending.
  - rewrite Hoffs. pose proof (ranges_ok_lower _ _ _ _ Hrs) as Hlo. pose proof (ranges_below _ _ _ _ Hrs) as Hbel.
    assert (Hpos : Forall (fun r => 0 < count_missing R r) rs).
    { clear - Hrs. generalize dependent 1. induction rs as [|[st len] rs IH]; intros lo Hrs; [constructor|].
      destruct Hrs as (_ & _ & Hp & _ & Hrs). constructor; [exact Hp|]. by apply (IH (st + len)). }
    clear - Hlo Hbel Hpos Hh. induction rs as [|[st len] rs IH]; [constructor|].
    inversion Hlo; inversion Hpos; subst. rewrite !fmap_cons in *. apply Forall2_cons in Hbel as [Hb Hbel].
    constructor; [cbn in *; lia|]. by apply IH.
Qed.

Lemma RemoveFromSliceByIndex_delete (l : list Z) (i : nat) l' :
  RemoveFromSliceByIndex l (Z.of_nat i) = Some l' -> l' = delete i l.
Proof.
  unfold RemoveFromSliceByIndex.
  destruct (go_slice l 0 _) eqn:Ha; [|done]. destruct (go_slice l _ (zlen l)) eqn:Hc; [|done]. intros [= <-].
  apply go_slice_inv in Ha as (? & ? & ->), Hc as (? & ? & ->). rewrite delete_take_drop, drop_0. f_equal.
  - f_equal. lia.
  - rewrite take_ge; [f_equal; lia|]. rewrite length_drop. unfold zlen. lia.
Qed.

Section ranges.
Variable n : Z.
Hypothesis Hn : n < 2 ^ 53.

Lemma count_retransfer_ranges s : ensures (ranges_in n) (count_retransfer s) (fun _ => ranges_in n).
Proof.
  intros b r b' [Hnd Hf Hh]. unfold count_retransfer. go_step.
  destruct (IndexOfMin s (MissingSequenceNums b) >=? 0) eqn:Hi; go_step; [|by intros [= _ <-]].
  rewrite Z.geb_leb in Hi. apply Z.leb_le in Hi.
  set (i := IndexOfMin s _) in *. rewrite <- (Z2Nat.id i) by done. set (k := Z.to_nat i). rewrite Nat2Z.id.
  unfold go_index. rewrite (proj2 (Z.leb_le _ _)), Nat2Z.id by lia.
  destruct (MissingSequenceNumOffsets b !! k) as [off|] eqn:Hoff; go_step; [|done].
  destruct (Forall2_lookup_r _ _ _ _ _ Hf Hoff) as (v & Hv & Hr). no_wrap.
  destruct (Z.eqb_spec (off - 1) 0) as [E|E]; go_step.
  - destruct (RemoveFromSliceByIndex (MissingSequenceNums b) _) as [nums1|] eqn:Hr1; go_step; [|done].
    destruct (RemoveFromSliceByIndex (<[_ := _]> _) _) as [offs1|] eqn:Hr2; go_step; [|done]. intros [= _ <-].
    apply RemoveFromSliceByIndex_delete in Hr1 as ->, Hr2 as ->.
    rewrite (delete_take_drop (<[_ := _]> _)), take_insert_ge, drop_insert_lt, <- delete_take_drop by lia.
    split; cbn; [|by apply Forall2_delete|done]. eapply sublist_NoDup; [done|apply sublist_delete].
  - intros [= _ <-]. split; cbn; [done| |done]. rewrite <- (list_insert_id (MissingSequenceNums b) k v Hv).
    apply Forall2_insert; [done|lia].
Qed.

Lemma open_missing_range_ranges s :
  1 <= s <= n -> forall b, ranges_in n b -> 1 < s - HighestSequenceNumber b ->
  forall r b', open_missing_range s (s - HighestSequenceNumber b) b = Done r b' -> ranges_in n b'.
Proof.
  intros Hs b [Hnd Hf Hh] Hd r b'. unfold open_missing_range. go_step. no_wrap.
  replace (s - (s - HighestSequenceNumber b - 1)) with (HighestSequenceNumber b + 1) by lia. no_wrap.
  destruct (Z.ltb_spec (IndexOf (HighestSequenceNumber b + 1) (MissingSequenceNums b)) 0) as [Hi|Hi]; go_step;
    intros [= _ <-]; [|done].
  split; cbn; [| |lia].
  - apply NoDup_app. split_and!; [done| |apply NoDup_singleton].
    intros x Hx ->%list_elem_of_singleton. apply IndexOf_present in Hx. lia.
  - apply Forall2_app; [done|]. repeat constructor; lia.
Qed.

Lemma track_ranges s b r b' :
  1 <= s <= n -> ranges_in n b -> track_missing s (s - HighestSequenceNumber b) b = Done r b' -> ranges_in n b'.
Proof.
  intros Hs Hb. unfold track_missing. rewrite Z.gtb_ltb.
  destruct (Z.ltb_spec 1 (s - HighestSequenceNumber b)).
  - intros (u & b1 & Ho & [= _ <-])%bind_Done_inv. by eapply open_missing_range_ranges.
  - destruct (_ <? 0); [by apply count_retransfer_ranges|by intros [= _ <-]].
Qed.

Lemma store_ranges s diff buf :
  1 <= s <= n -> ensures (ranges_in n) (store_payload s diff buf) (fun _ => ranges_in n).
Proof.
  intros Hs b r b' [Hnd Hf Hh]. unfold store_payload. destruct (payload_bounds _ b) as [lo hi].
  destruct (copy_into _ _ _ _) as [d|]; go_step; [|done].
  destruct (diff >? 0); go_step; intros [= _ <-]; split; cbn; done || lia.
Qed.

End ranges.

Section arrivals.
Context `{PartsPacketPackerSpec}.

(** What a receiver keeps true: its missing ranges lie in the part, and its
    data is the sender's in the blocks of [R] and still its own elsewhere. *)
Record arrivals (sent init : list byte) (R : gset Z) (b : PartContext) : Prop := {
  ar_geometry : geometry b;
  ar_transport : transport_ok (PCTransportPacketPacker b);
  ar_pid : in_i64 (PartId b);
  ar_ranges : ranges_in (NumPackets b) b;
  ar_data : data_inv (PayloadLength b) sent init R b;
}.

(** A packet that was not received yet is accepted while the missing ranges are
    right, and they stay right. *)
Lemma DeSerialize_new sent init R b s pad rest r b' :
  arrivals sent init R b -> missing_inv R b -> 1 <= s <= NumPackets b -> s ∉ R ->
  DeSerializePacket (packet_buffer (PartId b) (PayloadLength b) sent s pad) b = Done (rest, r) b' ->
  r = None /\ missing_inv ({[s]} ∪ R) b'.
Proof.
  intros [Hg Ht Hp Hr Hd] Hm Hs Hnew Hde.
  assert (Hst : recv_state sent init R b).
  { split; try done. intros x Hx. destruct Hm as [[Hmax _] _]. apply Hmax in Hx. destruct Hr. lia. }
  destruct (DeSerialize_fresh sent init R b s pad Hst Hs Hnew) as (d & nums & offs & Hde' & _ & Hst' & _).
  rewrite Hde in Hde'. injection Hde' as _ -> ->. split; [done|]. apply (rs_missing _ _ _ _ Hst').
Qed.

(** A packet of the part that arrives is stored, or refused as a duplicate and
    nothing changes. *)
Lemma DeSerialize_arrival sent init R b s pad :
  arrivals sent init R b -> 1 <= s <= NumPackets b ->
  exists rest r d nums offs h, let b' := received d nums offs h b in
    DeSerializePacket (packet_buffer (PartId b) (PayloadLength b) sent s pad) b = Done (rest, r) b' /\
    ((r = None /\ arrivals sent init ({[s]} ∪ R) b' /\ (missing_inv R b -> s ∉ R -> missing_inv ({[s]} ∪ R) b')) \/
     (r = Some DuplicateRetransfer /\ b' = b /\ (missing_inv R b -> s ∈ R))).
Proof.
  intros Har Hs. pose proof Har as [Hg Ht Hp Hr Hd]. pose proof (geometry_NumPackets b Hg) as HN.
  destruct (DeSerialize_any sent init R b s pad Hg (ranges_in_aligned b Hr) Ht Hp Hd Hs)
    as (rest & r & d & nums & offs & h & Hde & Hl & Hal & _ & Hcase).
  exists rest, r, d, nums, offs, h. split; [done|].
  assert (Hnew : missing_inv R b -> s ∉ R -> r = None /\ missing_inv ({[s]} ∪ R) (received d nums offs h b)).
  { intros Hm Hn. by eapply DeSerialize_new. }
  destruct Hcase as [[-> Hd']|(-> & E & _)].
  2:{ right. split_and!; try done. intros Hm. destruct (decide (s ∈ R)) as [|Hn]; [done|]. by destruct (Hnew Hm Hn). }
  left. split; [done|]. split; [|intros Hm Hn; by apply Hnew].
  split; [by apply geometry_received|done|done| |exact Hd'].
  change (NumPackets (received d nums offs h b)) with (NumPackets b).
  revert Hde. unfold packet_buffer. rewrite DeSerialize_header; [|done|done|unfold in_i64; lia|done].
  rewrite i64_id by (destruct Hr; unfold in_i64; lia). cbv zeta.
  intros (ok & b1 & Htr & Hst)%bind_Done_inv. eapply track_ranges in Htr; [|done|done|done].
  destruct ok; [|by injection Hst]. apply bind_Done_inv in Hst as (u & b2 & Hst & [= _ <-]).
  exact (store_ranges _ _ _ _ Hs _ _ _ Htr Hst).
Qed.

Lemma arrivals_other sent init R b u r :
  arrivals sent init R b -> arrivals sent init R (set_RecvPackets r (set_Buffer u b)).
Proof. intros [? ? ? [] ?]. split; try done. Qed.

End arrivals.

(** ** One iteration of [ReadPart] *)

(** The part context of a receiver of a part of [n] packets of at most [m]
    bytes, with payloads of [pl] bytes. *)
Record receiver_part `{PartsPacketPackerSpec} (pid pl n m : Z) (sent init : list byte) (R : gset Z) (b : PartContext) : Prop := {
  rp_arrivals : arrivals sent init R b;
  rp_id : PartId b = pid;
  rp_payload : PayloadLength b = pl;
  rp_packets : NumPackets b = n;
  rp_max : MaxPacketLength b = m;
  rp_room : zlen (Buffer b) = n * m;
}.

Section iteration.
Context {C Addr K : Type} `{SCIONNetSpec C Addr} `{StatusListenerSpec K}.
Context `{PartsPacketPackerSpec}.
Variables pid pl n m : Z.
Hypothesis Hm : 0 <= m /\ n * m < 2 ^ 63.
Implicit Types (w : world C Addr K).

Lemma receiver_part_other sent init R b u r :
  length u = length (Buffer b) -> receiver_part pid pl n m sent init R b ->
  receiver_part pid pl n m sent init R (set_RecvPackets r (set_Buffer u b)).
Proof. intros Hu []. split; try done; [by apply arrivals_other|]. unfold zlen in *. cbn. by rewrite Hu. Qed.

Lemma receiver_part_received sent init R R' b d nums offs h :
  receiver_part pid pl n m sent init R b -> arrivals sent init R' (received d nums offs h b) ->
  receiver_part pid pl n m sent init R' (received d nums offs h b).
Proof. intros [] Ha. by split. Qed.

(** A packet of the part is accepted and counted, or it is refused and goes to
    the packet channel, where the receiver hangs when the channel is full. *)
Lemma ReadPart_step_arrival q i w b c c' sent init R s :
  parts w !! q = Some b -> Conn (dp w) = Some c -> listener_ok (owner w) ->
  receiver_part pid pl n m sent init R b -> 0 <= i < n -> 1 <= s <= n ->
  conn_Read c m = (c', (packet pid pl sent s, None)) ->
  (exists o b', listener_ok o /\ receiver_part pid pl n m sent init ({[s]} ∪ R) b' /\
     RecvPackets b' = i64 (RecvPackets b + 1) /\ (missing_inv R b -> s ∉ R -> missing_inv ({[s]} ∪ R) b') /\
     ReadPart_step q i w = Done (inr (u64 (zlen (packet pid pl sent s))))
       (mkWorld (set_Conn c' (dp w)) (<[q := b']> (parts w)) o)) \/
  (exists b' rest, receiver_part pid pl n m sent init R b' /\ RecvPackets b' = RecvPackets b /\
     (missing_inv R b -> s ∈ R /\ missing_inv R b') /\
     let w' := mkWorld (set_Conn c' (dp w)) (<[q := b']> (parts w)) (owner w) in
     ReadPart_step q i w = Blocked w' \/
     ReadPart_step q i w = Done (inr 0) (set_dp (set_PacketChan (PacketChan (dp w) ++ [rest]) (dp w')) w')).
Proof.
  intros Hb Hc Ho Hrp Hi Hs Hr. pose proof Hrp as [Har Hid Hpl Hn Hmax Hroom].
  destruct (ReadPart_step_reads q i w b c c' (packet pid pl sent s) Hb Hc) as (u & pad & Hu & Hstep);
    [by rewrite Hn, Hmax|by rewrite Hn, Hmax|by rewrite Hn|by rewrite Hmax|].
  set (b0 := set_Buffer u b) in *.
  assert (Hrp0 : receiver_part pid pl n m sent init R b0).
  { replace b0 with (set_RecvPackets (RecvPackets b) b0) by (unfold b0; clear; destruct b; reflexivity). by apply receiver_part_other. }
  destruct (DeSerialize_arrival sent init R b0 s pad (rp_arrivals _ _ _ _ _ _ _ _ Hrp0))
    as (rest & r & d & nums & offs & h & Hde & Hcase); [by rewrite (rp_packets _ _ _ _ _ _ _ _ Hrp0)|].
  cbv zeta in Hde, Hcase. set (b1 := received d nums offs h b0) in *.
  rewrite packet_padded in Hstep. rewrite (rp_id _ _ _ _ _ _ _ _ Hrp0), (rp_payload _ _ _ _ _ _ _ _ Hrp0) in Hde.
  rewrite (Hstep _ _ _ Hde). set (w1 := mkWorld _ (<[q := b1]> _) _).
  assert (Hb1 : parts w1 !! q = Some b1) by apply lookup_insert_eq.
  destruct Hcase as [(-> & Har' & Hnew)|(-> & E & Hdup)]; unfold packet_read.
  - left. rewrite (bind_Done _ _ _ _ _ (at_part_Done q _ w1 _ _ _ Hb1 (modify_Done _ b1))).
    set (w2 := set_parts _ w1).
    assert (Hb2 : parts w2 !! q = Some (set_RecvPackets (i64 (RecvPackets b1 + 1)) b1)) by apply lookup_insert_eq.
    destruct (on_status_Done q 1 (zlen (packet pid pl sent s)) w2 _ Hb2 Ho) as (o & Ho1 & Hok).
    rewrite (bind_Done _ _ _ _ _ Ho1). exists o, (set_RecvPackets (i64 (RecvPackets b1 + 1)) b1).
    split; [done|]. split.
    { apply (receiver_part_other _ _ _ b1 (Buffer b1)); [done|]. by apply receiver_part_received with R. }
    split; [done|]. split; [exact Hnew|]. rewrite ret_Done. f_equal. unfold w2, w1. cbn. by rewrite insert_insert_eq.
  - right. exists b1, rest. split; [by rewrite E|]. split; [done|].
    split; [intros Hmi; split; [by apply Hdup|by rewrite E]|].
    unfold at_dp, zoom, send_PacketChan, mbind, go_bind. destruct (Nat.ltb _ _); [right|left]; reflexivity.
Qed.

End iteration.
