(* ===== verification/Retransfer.v ===== *)
(** * Retransfer: what [RetransferMissingPackets] sends

    One pass over the missing ranges sends, for every range, as many packets
    as its offset says from its first number on, and each of them is the very
    datagram [WritePart] sent for that number. *)

From S2P Require Import Prelude Utils Interface Packer PartContext Reassembly Metrics Dataplane Loopback Transfer.

Section retransfer.
Context {C Addr K : Type} `{SCIONNet C Addr} `{StatusListenerSpec K}.
Context `{PartsPacketPackerSpec}.
Implicit Types (w : world C Addr K).

(** The packets with the given numbers. *)
Definition packets_of (b : PartContext) (seqs : list Z) : list (list byte) :=
  packet (PartId b) (PayloadLength b) (Data b) <$> seqs.

Lemma writes_app c ds1 ds2 c' :
  writes c (ds1 ++ ds2) c' <-> exists c1, writes c ds1 c1 /\ writes c1 ds2 c'.
Proof.
  induction ds1 as [|d ds1 IH] in c |- *; cbn [app].
  - split; [intros Hw; exists c; split; [constructor|done]|intros (c1 & Hw & ?); by inversion Hw; subst].
  - split.
    + intros Hw. inversion Hw as [|? ? c1 ? ? Hd Hds]; subst. apply IH in Hds as (c2 & ? & ?).
      exists c2. split; [by econstructor|done].
    + intros (c1 & Hw & ?). inversion Hw as [|? ? c2 ? ? Hd Hds]; subst.
      econstructor; [exact Hd|]. apply IH. eauto.
Qed.

(** The metrics count every packet sent. *)
Definition count_tx (ds : list (list byte)) (m : Metrics) : Metrics :=
  fold_left (fun m d => add_tx (zlen d) m) ds m.

(** The program after the datagrams [ds] were sent again. *)
Definition after_resend (ds : list (list byte)) (c' : C) (o : K) w : world C Addr K :=
  mkWorld (set_metrics (count_tx ds (metrics (dp w))) (set_Conn c' (dp w))) (parts w) o.

Lemma after_resend_app ds1 ds2 c1 c2 o1 o2 w :
  after_resend ds2 c2 o2 (after_resend ds1 c1 o1 w) = after_resend (ds1 ++ ds2) c2 o2 w.
Proof. unfold after_resend, count_tx. cbn. by rewrite fold_left_app. Qed.

(** What the sender needs to know of its part. *)
Record sending p c b w : Prop := {
  sd_current : partContext (dp w) = Some p;
  sd_part : parts w !! p = Some b;
  sd_conn : Conn (dp w) = Some c;
  sd_owner : listener_ok (owner w);
}.

Lemma sending_after p c b w ds c' o :
  sending p c b w -> listener_ok o -> sending p c' b (after_resend ds c' o w).
Proof. by intros []; split. Qed.

Lemma SerializeRetransfer_eq (hdr pl : list byte) seq b :
  zlen hdr = GetHeaderLen -> transport_ok (PCTransportPacketPacker b) ->
  SerializeRetransferPacket (hdr ++ pl) seq b = Done (packet_header (PartId b) seq ++ pl) b.
Proof.
  intros Hl Ht. unfold SerializeRetransferPacket.
  rewrite (bind_Done _ _ _ _ _ (PackRetransfer_spec hdr pl seq b Hl)). go_step.
  by rewrite TransportPack_id by done.
Qed.

Lemma current_part_eq w p : partContext (dp w) = Some p -> current_part w = Done p w.
Proof. intros E. unfold current_part. go_step. by rewrite E. Qed.

Lemma at_part_same {A} p (m : go PartContext A) w b a :
  parts w !! p = Some b -> m b = Done a b -> at_part p m w = Done a w.
Proof.
  intros Hb Hm. rewrite (at_part_Done p m w b a b Hb Hm), insert_id by done. by destruct w.
Qed.

Lemma resend_sends p b w c c' k v j :
  sending p c b w -> geometry b -> transport_ok (PCTransportPacketPacker b) -> GetHeaderLen < 2 ^ 53 ->
  1 <= v -> 0 <= j -> v + j + Z.of_nat k <= NumPackets b + 1 ->
  writes c (packets_of b (seqZ (v + j) (Z.of_nat k))) c' ->
  exists o, listener_ok o /\
    resend k v j w = Done tt (after_resend (packets_of b (seqZ (v + j) (Z.of_nat k))) c' o w).
Proof.
  intros Hsd Hg Ht Hh Hv. induction k as [|k IH] in j, w, c, Hsd |- *; intros Hj Hk Hw.
  { inversion Hw; subst. exists (owner w). split; [apply Hsd|]. cbn [resend]. rewrite ret_Done.
    unfold after_resend, packets_of. cbn. rewrite set_Conn_id by apply Hsd.
    by destruct w as [[]]. }
  pose proof (geometry_NumPackets b Hg) as HN.
  rewrite seqZ_cons in Hw |- * by lia. replace (Z.pred (Z.of_nat (S k))) with (Z.of_nat k) in * by lia.
  unfold packets_of in Hw |- *. rewrite fmap_cons in Hw |- *.
  inversion Hw as [|? ? c1 ? ? Hw1 Hws]; subst.
  cbn [resend]. rewrite (bind_Done _ _ _ _ _ (current_part_eq w p (sd_current _ _ _ _ Hsd))).
  rewrite (i64_id (v + j)), i64_id by (unfold in_i64; lia).
  rewrite (bind_Done _ _ _ _ _ (at_part_same p _ w b _ (sd_part _ _ _ _ Hsd) (GetPayload_eq b (v + j - 1) Hg ltac:(lia)))).
  destruct (alloc_packet_eq (payload (PayloadLength b) (Data b) (v + j - 1)) w) as (hdr & Hhdr & Ha).
  { apply zlen_packet_bound; (done || lia). }
  rewrite (bind_Done _ _ _ _ _ Ha).
  rewrite (bind_Done _ _ _ _ _ (at_part_same p _ w b _ (sd_part _ _ _ _ Hsd) (SerializeRetransfer_eq hdr _ (v + j) b Hhdr Ht))).
  set (d := packet_header _ _ ++ _). change (packet _ _ _ (v + j)) with d in *.
  rewrite (bind_Done _ _ _ _ _ (Write_Done d w c c1 _ (sd_conn _ _ _ _ Hsd) Hw1)). cbn beta iota.
  set (w1 := set_dp _ w).
  set (w2 := set_dp (set_metrics (add_tx (zlen d) (metrics (dp w1))) (dp w1)) w1).
  rewrite (bind_Done _ _ _ tt w2) by done.
  destruct (on_status_Done p 1 (zlen d) w2 b (sd_part _ _ _ _ Hsd) (sd_owner _ _ _ _ Hsd)) as (o1 & Ho1 & Hok1).
  rewrite (bind_Done _ _ _ _ _ Ho1). cbn beta iota.
  change (set_owner o1 w2) with (after_resend [d] c1 o1 w).
  destruct (IH (after_resend [d] c1 o1 w) c1 (j + 1)) as (o & Hok & Hrec); [by apply sending_after with c|lia|lia| |].
  { by replace (v + (j + 1)) with (Z.succ (v + j)) by lia. }
  exists o. split; [done|]. rewrite Hrec, after_resend_app.
  by replace (v + (j + 1)) with (Z.succ (v + j)) by lia.
Qed.

(** The ranges name packets of the part. *)
Definition in_part (b : PartContext) (nums offs : list Z) : Prop :=
  Forall2 (fun v off => 1 <= v /\ 0 <= off /\ v + off <= NumPackets b + 1) nums offs.

Lemma retransfer_range_sends p b w c c' nums offs i pre :
  sending p c b w -> geometry b -> transport_ok (PCTransportPacketPacker b) -> GetHeaderLen < 2 ^ 53 ->
  MissingSequenceNumOffsets b = pre ++ offs -> i = zlen pre -> in_part b nums offs ->
  writes c (packets_of b (concat (zip_with seqZ nums offs))) c' ->
  exists o, listener_ok o /\
    retransfer_range nums i w = Done tt (after_resend (packets_of b (concat (zip_with seqZ nums offs))) c' o w).
Proof.
  intros Hsd Hg Ht Hh Hoffs Hi Hin.
  induction Hin as [|v off nums offs (Hv & Ho & Hle) Hin IH] in w, c, i, pre, Hsd, Hoffs, Hi |- *; intros Hw.
  { inversion Hw; subst. exists (owner w). split; [apply Hsd|]. cbn [retransfer_range]. rewrite ret_Done.
    unfold after_resend, packets_of. cbn. rewrite set_Conn_id by apply Hsd. by destruct w as [[]]. }
  cbn [zip_with concat] in Hw |- *. unfold packets_of in Hw |- *. rewrite fmap_app in Hw |- *.
  apply writes_app in Hw as (c1 & Hw1 & Hw2).
  cbn [retransfer_range]. rewrite (proj2 (Z.eqb_neq _ _)) by lia.
  rewrite (bind_Done _ _ _ _ _ (current_part_eq w p (sd_current _ _ _ _ Hsd))).
  rewrite (bind_Done _ _ _ _ _ (at_part_gets p _ w b (sd_part _ _ _ _ Hsd))).
  rewrite Hoffs, go_index_middle by done.
  destruct (resend_sends p b w c c1 (Z.to_nat off) v 0) as (o1 & Ho1 & Hr1); try (done || lia).
  { by rewrite Z.add_0_r, Z2Nat.id. }
  rewrite Z.add_0_r, Z2Nat.id in Hr1 by done. rewrite (bind_Done _ _ _ _ _ Hr1).
  destruct (IH (after_resend (packets_of b (seqZ v off)) c1 o1 w) c1 (i + 1) (pre ++ [off])) as (o & Hok & Hrec).
  { by apply sending_after with c. }
  { by rewrite Hoffs, <- app_assoc. }
  { unfold zlen in *. rewrite length_app. cbn [length]. lia. }
  { done. }
  exists o. split; [done|]. rewrite Hrec. unfold packets_of. by rewrite after_resend_app.
Qed.

(** The program after a pass: the datagrams are sent, nothing is missing. *)
Definition after_pass (p : nat) (b : PartContext) (c' : C) (o : K) w : world C Addr K :=
  let w' := after_resend (packets_of b (requested b)) c' o w in
  set_parts (<[p := set_Missing [] [] b]> (parts w')) w'.

Lemma retransfer_pass_eq p b w c c' :
  sending p c b w -> geometry b -> transport_ok (PCTransportPacketPacker b) -> GetHeaderLen < 2 ^ 53 ->
  in_part b (MissingSequenceNums b) (MissingSequenceNumOffsets b) ->
  writes c (packets_of b (requested b)) c' ->
  exists o, listener_ok o /\ retransfer_pass w = Done tt (after_pass p b c' o w).
Proof.
  intros Hsd Hg Ht Hh Hin Hw. unfold retransfer_pass.
  rewrite (bind_Done _ _ _ _ _ (current_part_eq w p (sd_current _ _ _ _ Hsd))).
  rewrite (bind_Done _ _ _ _ _ (at_part_gets p _ w b (sd_part _ _ _ _ Hsd))).
  destruct (retransfer_range_sends p b w c c' (MissingSequenceNums b) (MissingSequenceNumOffsets b) 0 [])
    as (o & Ho & Hr); try done.
  exists o. split; [done|]. rewrite (bind_Done _ _ _ _ _ Hr).
  pose proof (sending_after p c b w (packets_of b (requested b)) c' o Hsd Ho) as Hsd'.
  rewrite (bind_Done _ _ _ _ _ (current_part_eq _ p (sd_current _ _ _ _ Hsd'))).
  by rewrite (at_part_Done p _ _ b tt _ (sd_part _ _ _ _ Hsd') (modify_Done _ b)).
Qed.

(** *** The loop *)

(** The connection takes every datagram. *)
Definition accepting : Prop := forall (c : C) (d : list byte), exists c', conn_Write c d = (c', (zlen d, None)).

Lemma accepting_writes c ds : accepting -> exists c', writes c ds c'.
Proof.
  intros Hacc. induction ds as [|d ds IH] in c |- *; [exists c; constructor|].
  destruct (Hacc c d) as (c1 & Hd). destruct (IH c1) as (c' & Hds). exists c'. by econstructor.
Qed.

(** A sender that can go through a pass: its missing ranges lie in the part of
    [n] packets. *)
Definition can_retransfer (p : nat) (n : Z) w : Prop :=
  exists c b, sending p c b w /\ geometry b /\ transport_ok (PCTransportPacketPacker b) /\ NumPackets b = n /\
    in_part b (MissingSequenceNums b) (MissingSequenceNumOffsets b).

(** What does not change while the loop goes on. *)
Definition unchanged w w' : Prop :=
  state (dp w') = state (dp w) /\ locked (dp w') = locked (dp w) /\
  collectors (metrics (dp w')) = collectors (metrics (dp w)).

Lemma unchanged_trans w1 w2 w3 : unchanged w1 w2 -> unchanged w2 w3 -> unchanged w1 w3.
Proof. unfold unchanged. intuition congruence. Qed.

Lemma collectors_count_tx ds m : collectors (count_tx ds m) = collectors m.
Proof. induction ds as [|d ds IH] in m |- *; [done|]. cbn. by rewrite IH. Qed.

Lemma retransfer_pass_again p n w :
  accepting -> GetHeaderLen < 2 ^ 53 -> can_retransfer p n w ->
  exists w', retransfer_pass w = Done tt w' /\ can_retransfer p n w' /\ unchanged w w'.
Proof.
  intros Hacc Hh (c & b & Hsd & Hg & Ht & Hn & Hin).
  destruct (accepting_writes c (packets_of b (requested b)) Hacc) as (c' & Hw).
  destruct (retransfer_pass_eq p b w c c' Hsd Hg Ht Hh Hin Hw) as (o & Ho & Hr).
  exists (after_pass p b c' o w). split; [done|].
  split; [|split; [done|split; [done|apply collectors_count_tx]]].
  exists c', (set_Missing [] [] b). split_and!; [|done|done|done|constructor].
  split; [apply Hsd|apply lookup_insert_eq|done|done].
Qed.

(** What another goroutine may do during the sleep of the loop. *)
Definition keeps_retransfer (p : nat) (n : Z) (a : go (world C Addr K) unit) : Prop :=
  forall w, can_retransfer p n w -> exists w', a w = Done tt w' /\ can_retransfer p n w' /\ unchanged w w'.

Lemma retransfer_loop_runs p n (pre : list (go (world C Addr K) unit)) others w :
  accepting -> GetHeaderLen < 2 ^ 53 -> Forall (keeps_retransfer p n) pre ->
  can_retransfer p n w -> state (dp w) = DP_STATE_RETRANSFER ->
  exists w', retransfer_loop (pre ++ others) w = retransfer_loop others w' /\
    can_retransfer p n w' /\ unchanged w w'.
Proof.
  intros Hacc Hh Hpre. induction Hpre as [|a pre Ha Hpre IH] in w |- *; intros Hw Hs.
  { exists w. by split_and!. }
  destruct (retransfer_pass_again p n w Hacc Hh Hw) as (w1 & Hp & Hw1 & Hu1).
  destruct (Ha w1 Hw1) as (w2 & Ha2 & Hw2 & Hu2).
  destruct (IH w2 Hw2) as (w' & Hrun & Hw' & Hu'); [destruct Hu1, Hu2; congruence|].
  exists w'. split; [|split; [done|by eapply unchanged_trans, unchanged_trans]].
  cbn [app retransfer_loop]. rewrite bind_gets, Hs. cbn [negb Z.eqb Pos.eqb DP_STATE_RETRANSFER].
  by rewrite (bind_Done _ _ _ _ _ Hp), (bind_Done _ _ _ _ _ Ha2).
Qed.

(** C6: [RetransferMissingPackets] goes on for as long as the state stays
    [RETRANSFER], and returns as soon as another goroutine (the one that
    handles acknowledgements) moved the state on during one of the sleeps; it
    never panics and never reads outside the part on the way, whatever valid
    ranges the other goroutine adds. *)
Theorem RetransferMissingPackets_ends p n pre stop rest w :
  accepting -> GetHeaderLen < 2 ^ 53 -> can_retransfer p n w ->
  Forall (keeps_retransfer p n) pre ->
  (forall w1, can_retransfer p n w1 -> locked (dp w1) = locked (dp w) ->
     exists w2, stop w1 = Done tt w2 /\ state (dp w2) <> DP_STATE_RETRANSFER) ->
  (exists w', RetransferMissingPackets pre w = Done false w' /\ state (dp w') = DP_STATE_RETRANSFER) /\
  (exists w', RetransferMissingPackets (pre ++ stop :: rest) w = Done true w').
Proof.
  intros Hacc Hh Hw Hpre Hstop. unfold RetransferMissingPackets. rewrite !bind_modify.
  set (w0 := set_dp _ w).
  assert (Hw0 : can_retransfer p n w0).
  { destruct Hw as (c & b & [] & ?). exists c, b. split; [by split|done]. }
  split.
  - destruct (retransfer_loop_runs p n pre [] w0) as (w1 & Hrun & _ & Hs1 & _); try done.
    change (state (dp w0)) with DP_STATE_RETRANSFER in Hs1.
    exists w1. rewrite app_nil_r in Hrun. rewrite Hrun. cbn [retransfer_loop].
    rewrite bind_gets, Hs1. done.
  - destruct (retransfer_loop_runs p n pre (stop :: rest) w0) as (w1 & Hrun & Hw1 & Hs1 & Hl1 & _); try done.
    change (state (dp w0)) with DP_STATE_RETRANSFER in Hs1.
    destruct (retransfer_pass_again p n w1 Hacc Hh Hw1) as (w2 & Hp2 & Hw2 & _ & Hl2 & _).
    destruct (Hstop w2 Hw2) as (w3 & Hst3 & Hs3); [by rewrite Hl2, Hl1|].
    exists w3. rewrite Hrun. cbn [retransfer_loop]. rewrite bind_gets, Hs1.
    cbn [negb Z.eqb Pos.eqb DP_STATE_RETRANSFER]. rewrite (bind_Done _ _ _ _ _ Hp2), (bind_Done _ _ _ _ _ Hst3).
    destruct rest; cbn [retransfer_loop]; rewrite bind_gets;
      by rewrite (proj2 (Z.eqb_neq _ _) Hs3).
Qed.

End retransfer.

(** ** On the loopback network *)

#[local] Existing Instances BinaryPartsPacketPacker.packer BinaryPartsPacketPacker.packer_spec.

Lemma loopback_accepting : accepting (C := link) (Addr := string).
Proof. intros c d. by eexists. Qed.

(** A sender that is asked for packet 2. *)
Definition asked_sender : PartContext := small_part 7 five [] [2] [1] 0 0.

Lemma RetransferMissingPackets_ends_witness :
  exists w', RetransferMissingPackets
    [at_dp (modify (set_state DP_STATE_PENDING))] (one_part (mkLink [] []) asked_sender) = Done true w'.
Proof.
  destruct (RetransferMissingPackets_ends (C := link) (Addr := string) 0 3 []
    (at_dp (modify (set_state DP_STATE_PENDING))) [] (one_part (mkLink [] []) asked_sender)) as [_ H].
  - exact loopback_accepting.
  - reflexivity.
  - exists (mkLink [] []), asked_sender. split_and!.
    + by split.
    + by apply small_geometry.
    + by apply plain_transport_ok.
    + reflexivity.
    + by repeat constructor.
  - constructor.
  - intros w1 _ _. by eexists.
  - exact H.
Defined.
