(* ===== verification/Recovery.v ===== *)
(** * Recovery: a part whose packets were lost

    What a receiver asks for once some packets of a part came in in ascending
    order while the others were lost. *)

From S2P Require Import Prelude Utils Interface PartContext Packer Reassembly Metrics Dataplane Loopback Transfer Retransfer.

Section recovery.
Context {C Addr K : Type} `{SCIONNetSpec C Addr} `{StatusListenerSpec K}.
Context `{PartsPacketPackerSpec}.
Implicit Types (w : world C Addr K).

(** Two ends of one part. *)
Record same_part (bs br : PartContext) : Prop := {
  sp_id : PartId br = PartId bs;
  sp_payload : PayloadLength br = PayloadLength bs;
  sp_packets : NumPackets br = NumPackets bs;
  sp_length : length (Data br) = length (Data bs);
}.

(** The numbers of the part that are not in [seqs]. *)
Definition lost (n : Z) (seqs : list Z) : list Z := filter (fun s => s ∉ seqs) (seqZ 1 n).

Lemma lost_permutation n seqs :
  NoDup seqs -> (forall s, s ∈ seqs -> 1 <= s <= n) -> seqs ++ lost n seqs ≡ₚ seqZ 1 n.
Proof.
  intros Hnd Hin. apply NoDup_Permutation; [|apply NoDup_seqZ|].
  - apply NoDup_app. split_and!; [done| |by apply NoDup_filter, NoDup_seqZ].
    intros s Hs [Hn _]%list_elem_of_filter. done.
  - intros s. unfold lost. rewrite elem_of_app, list_elem_of_filter, elem_of_seqZ.
    destruct (decide (s ∈ seqs)) as [Hs|Hs]; [specialize (Hin s Hs); intuition lia|]. intuition lia.
Qed.

Lemma reads_app n c ds1 ds2 c1 c2 : reads n c ds1 c1 -> reads n c1 ds2 c2 -> reads n c (ds1 ++ ds2) c2.
Proof. induction 1; [done|]. intros ?. econstructor; eauto. Qed.

(** The receiver after it read the packets [seqs], in ascending order. *)
Lemma read_ascending p w br c c' bs seqs :
  parts w !! p = Some br -> Conn (dp w) = Some c -> listener_ok (owner w) ->
  receiver_ready br -> same_part bs br ->
  ascending seqs -> NumPackets bs ∈ seqs -> (forall s, s ∈ seqs -> 1 <= s <= NumPackets bs) ->
  reads (MaxPacketLength br) c (packets_of bs seqs) c' ->
  exists o b1, listener_ok o /\
    ReadPart_loop p (length seqs) 0 0 w =
      Done (u64 (total_len (packets_of bs seqs)), None)
        (mkWorld (set_Conn c' (dp w)) (<[p := b1]> (parts w)) o) /\
    requested b1 = lost (NumPackets bs) seqs /\ HighestSequenceNumber b1 = NumPackets bs /\
    reading (Data bs) (Data br) (list_to_set seqs) b1 /\ same_part bs b1 /\
    MaxPacketLength b1 = MaxPacketLength br /\ RecvPackets b1 = Z.of_nat (length seqs).
Proof.
  intros Hb Hc Ho Hrr [Hid Hpl Hn Hl] Hasc Hlast Hin Hr.
  pose proof (ascending_NoDup seqs Hasc) as Hnd.
  assert (Hlen : Z.of_nat (length seqs) <= NumPackets bs).
  { pose proof (lost_permutation (NumPackets bs) seqs Hnd Hin) as Hp%Permutation_length.
    rewrite length_app, length_seqZ in Hp. specialize (Hin _ Hlast). lia. }
  unfold packets_of in *. rewrite <- Hid, <- Hpl in *.
  destruct (ReadPart_loop_any_order p (length seqs) 0 0 w br c c' (Data bs) (Data br) ∅ seqs)
    as (o & b1 & Hok & Hrun & Hrd & Hn1 & Hpl1 & Hid1 & Hm1 & Hrp1 & Hask); try (done || lia).
  { apply ready_reading; [done|]. by rewrite Hl. }
  { rewrite (rr_recv _ Hrr). done. }
  { intros s Hs. split; [rewrite Hn; by apply Hin|apply not_elem_of_empty]. }
  exists o, b1. split; [done|]. split; [exact Hrun|].
  rewrite union_empty_r_L in Hrd, Hask. pose proof (rd_state _ _ _ _ Hrd) as Hst.
  pose proof (rs_missing _ _ _ _ Hst) as Hm.
  assert (Hhigh : HighestSequenceNumber b1 = NumPackets bs).
  { pose proof (recv_highest _ _ _ _ Hst) as Hle. destruct Hm as [[Hmax _] _].
    specialize (Hmax (NumPackets bs) ltac:(by apply elem_of_list_to_set)). lia. }
  split_and!; try done.
  - rewrite (requested_missing _ _ Hm).
    + rewrite Hhigh. unfold lost. apply filter_ext_in. intros s _. by rewrite elem_of_list_to_set.
    + apply Hask.
      * unfold asks_right, asked_missing. rewrite (rr_nums _ Hrr), (rr_offs _ Hrr). constructor.
      * apply ascending_cons. rewrite (rr_highest _ Hrr). split; [|done]. intros s Hs%Hin. lia.
  - pose proof (rs_data _ _ _ _ Hst) as [Hlen1 _]. split; [by rewrite Hid1|by rewrite Hpl1|by rewrite Hn1|done].
  - pose proof (geometry_NumPackets br (rr_geometry _ Hrr)).
    rewrite Hrp1, (rr_recv _ Hrr), i64_id by (unfold in_i64; lia). lia.
Qed.

End recovery.
