(* ===== verification/Single.v ===== *)
(** * Single: one-packet exchanges, locks and refused packets

    [WriteSingle] against the replies it gets, [ReadSingle] against the packet
    it reads, [SetState] on every state, and what [ReadPart] does with packets
    it refuses. *)

From S2P Require Import Prelude Utils Interface Packer PartContext Reassembly Metrics Dataplane Loopback Transfer.

(** ** Single packets *)

Section single.
Context {C Addr : Type} `{SCIONNetSpec C Addr}.

(** The datagram of [WriteSingle]. *)
Definition single_packet (pid : Z) (data : list byte) : list byte := be_bytes 8 (u64 pid) ++ data.

(** The connection takes a datagram and hands over a reply of eight bytes. *)
Inductive exchanges (d : list byte) : C -> list (list byte) -> C -> Prop :=
| exchanges_nil c : exchanges d c [] c
| exchanges_cons c c1 c2 reply replies c' :
    conn_Write c d = (c1, (zlen d, None)) -> conn_Read c1 8 = (c2, (reply, None)) -> length reply = 8%nat ->
    exchanges d c2 replies c' -> exchanges d c (reply :: replies) c'.

(** The part id of a reply. *)
Definition reply_id (reply : list byte) : Z := i64 (be_uint reply).

Lemma put_single (pid : Z) (data : list byte) :
  zlen data + 8 < 2 ^ 63 ->
  exists b0 b1, go_make Byte.x00 (i64 (zlen data + 8)) = Some b0 /\
    PutUint64_at b0 0 (u64 pid) = Some b1 /\
    copy_into b1 8 (zlen b1) data = Some (single_packet pid data).
Proof.
  intros Hl. pose proof (zlen_nonneg data).
  rewrite i64_id by (unfold in_i64; lia). unfold go_make. rewrite (proj2 (Z.leb_le _ _)) by lia.
  unfold zlen in *. replace (Z.to_nat (Z.of_nat (length data) + 8)) with (8 + length data)%nat by lia.
  rewrite replicate_add. set (zs := replicate (length data) Byte.x00).
  assert (Hz : length zs = length data) by apply length_replicate.
  exists (replicate 8 Byte.x00 ++ zs), (be_bytes 8 (u64 pid) ++ zs). split; [done|]. split.
  - unfold PutUint64_at. rewrite copy_into_Some by (unfold zlen; rewrite ?length_app, ?length_replicate; lia).
    reflexivity.
  - rewrite copy_into_Some by (unfold zlen; rewrite ?length_app, ?length_be_bytes; lia).
    f_equal. unfold single_packet, go_copy, splice.
    rewrite length_app, length_be_bytes. change (Z.to_nat 8) with 8%nat.
    rewrite (take_ge data), take_app_length' by (rewrite ?length_be_bytes; lia).
    f_equal. rewrite drop_ge; [by rewrite app_nil_r|]. rewrite length_app, length_be_bytes. lia.
Qed.

(** A reply fills the buffer of eight bytes. *)
Lemma reply_Uint64 (reply : list byte) :
  length reply = 8%nat ->
  Uint64_at (read_buffer (replicate 8 Byte.x00) reply) 0 = Some (be_uint reply).
Proof.
  intros Hl. unfold read_buffer, splice. rewrite take_0, Hl. cbn [app drop replicate Nat.add].
  rewrite app_nil_r. unfold Uint64_at. rewrite go_slice_Some by (unfold zlen; lia).
  by rewrite drop_0, take_ge by (rewrite Hl; done).
Qed.

(** One round of the loop. *)
Lemma WriteSingle_round fuel (data : list byte) pid ret n (dpl : SCIONDataplane C Addr) c c1 c2 reply :
  Conn dpl = Some c -> zlen data + 8 < 2 ^ 63 -> ret <> pid ->
  conn_Write c (single_packet pid data) = (c1, (zlen (single_packet pid data), None)) ->
  conn_Read c1 8 = (c2, (reply, None)) -> length reply = 8%nat ->
  WriteSingle_loop (S fuel) data pid ret n dpl =
    WriteSingle_loop fuel data pid (reply_id reply) (zlen (single_packet pid data)) (set_Conn c2 dpl).
Proof.
  intros Hc Hl Hne Hw Hr Hlen. cbn [WriteSingle_loop]. rewrite (proj2 (Z.eqb_neq _ _)) by done.
  destruct (put_single pid data Hl) as (b0 & b1 & -> & H1 & H2). go_step. rewrite H1. go_step. rewrite H2. go_step.
  unfold Write. go_step. rewrite Hc. go_step. rewrite Hw. go_step.
  unfold Read. go_step. cbn [Conn set_Conn]. go_step. rewrite Hr. go_step.
  rewrite reply_Uint64 by done. go_step. by destruct dpl.
Qed.

Lemma zlen_single_packet pid (data : list byte) : zlen (single_packet pid data) = zlen data + 8.
Proof. unfold single_packet, zlen. rewrite length_app, length_be_bytes. lia. Qed.

Lemma reply_id_own pid : in_i64 pid -> reply_id (be_bytes 8 (u64 pid)) = pid.
Proof. intros Hi. unfold reply_id. rewrite BinaryPartsPacketPacker.be_uint_u64. by apply i64_id. Qed.

(** The loop from any state before the acknowledgement. *)
Lemma WriteSingle_loop_ends (data : list byte) pid (dpl : SCIONDataplane C Addr) c c1 c2 c3 others fuel ret n :
  Conn dpl = Some c -> zlen data + 8 < 2 ^ 63 -> in_i64 pid -> ret <> pid ->
  Forall (fun reply => reply_id reply <> pid) others ->
  exchanges (single_packet pid data) c others c1 ->
  conn_Write c1 (single_packet pid data) = (c2, (zlen (single_packet pid data), None)) ->
  conn_Read c2 8 = (c3, (be_bytes 8 (u64 pid), None)) -> (length others < fuel)%nat ->
  WriteSingle_loop fuel data pid ret n dpl = Done (Some (zlen data + 8, None)) (set_Conn c3 dpl).
Proof.
  intros Hc Hl Hi Hret Hothers Hex Hw Hr Hf.
  induction Hex as [c|c c4 c5 reply replies c1 Hw1 Hr1 Hlen Hex IH] in fuel, dpl, Hc, Hothers, Hf, Hw, ret, n, Hret |- *.
  - destruct fuel as [|fuel]; [lia|].
    rewrite (WriteSingle_round fuel data pid ret n dpl c c2 c3 (be_bytes 8 (u64 pid))) by (done || apply length_be_bytes).
    rewrite reply_id_own by done. destruct fuel; cbn [WriteSingle_loop];
      rewrite Z.eqb_refl, ret_Done, zlen_single_packet, u64_id;
      (done || (pose proof (zlen_nonneg data); unfold in_u64; lia)).
  - destruct fuel as [|fuel]; [cbn in Hf; lia|]. apply Forall_cons in Hothers as [Hne Hothers].
    rewrite (WriteSingle_round fuel data pid ret n dpl c c4 c5 reply) by done.
    rewrite (IH (set_Conn c5 dpl) fuel); try done. cbn in Hf. lia.
Qed.

(** C25: [WriteSingle] sends the part id and the data as one datagram and
    repeats it until a reply carries the part id; however many other replies
    come first, it then returns, with enough fuel for the replies, the length
    of the datagram, header included. *)
Theorem WriteSingle_until_acknowledged (data : list byte) pid (dpl : SCIONDataplane C Addr) c c1 c2 c3 others fuel :
  Conn dpl = Some c -> zlen data + 8 < 2 ^ 63 -> pid <> 0 -> in_i64 pid ->
  Forall (fun reply => reply_id reply <> pid) others ->
  exchanges (single_packet pid data) c others c1 ->
  conn_Write c1 (single_packet pid data) = (c2, (zlen (single_packet pid data), None)) ->
  conn_Read c2 8 = (c3, (be_bytes 8 (u64 pid), None)) -> (length others < fuel)%nat ->
  WriteSingle fuel data pid dpl = Done (Some (zlen data + 8, None)) (set_Conn c3 dpl).
Proof. intros. by apply WriteSingle_loop_ends with c c1 c2 others. Qed.

(** The buffer of [ReadSingle] after a packet was read into it. *)
Definition padded (d : list byte) : list byte := d ++ replicate (1400 - length d) Byte.x00.

Lemma padded_eq (d : list byte) :
  (length d <= 1400)%nat -> read_buffer (replicate (Z.to_nat PACKET_SIZE) Byte.x00) d = padded d.
Proof.
  intros Hl. unfold read_buffer, splice, padded. rewrite take_0. cbn [app Nat.add].
  by rewrite drop_replicate.
Qed.

Lemma padded_single pid (d : list byte) :
  padded (single_packet pid d) = be_bytes 8 (u64 pid) ++ d ++ replicate (1392 - length d) Byte.x00.
Proof. unfold padded, single_packet. rewrite length_app, length_be_bytes, <- app_assoc. done. Qed.

Lemma take_padded_single pid (d : list byte) : take 8 (padded (single_packet pid d)) = be_bytes 8 (u64 pid).
Proof. by rewrite padded_single, take_app_length' by by rewrite length_be_bytes. Qed.

(** What [ReadSingle] leaves in the caller's buffer. *)
Definition single_read (data buffer : list byte) : list byte := take (length data) (drop 8 buffer) ++ drop 1392 data.

(** The length it returns: unsigned, so that a datagram shorter than a part id
    makes it wrap. *)
Definition single_length (bs : list byte) : Z :=
  if zlen bs <? 8 then zlen bs + (2 ^ 64 - 8) else zlen bs - 8.

Lemma ReadSingle_any (data bs : list byte) (dpl : SCIONDataplane C Addr) c c1 c2 n err :
  Conn dpl = Some c -> zlen bs <= 1400 -> conn_Read c PACKET_SIZE = (c1, (bs, None)) ->
  conn_Write c1 (padded bs) = (c2, (n, err)) ->
  ReadSingle data dpl =
    Done (single_read data (padded bs), match err with None => single_length bs | Some _ => 0 end, err) (set_Conn c2 dpl).
Proof.
  intros Hc Hbs Hr Hw. unfold zlen in Hbs. unfold ReadSingle, Read. go_step. rewrite Hc. go_step. rewrite Hr. go_step.
  rewrite padded_eq by lia. assert (Hlen : length (padded bs) = 1400%nat).
  { unfold padded. rewrite length_app, length_replicate. lia. }
  destruct (padded bs) as [|b0 [|b1 [|b2 [|b3 [|b4 [|b5 [|b6 [|b7 rest]]]]]]]] eqn:Ep; try (cbn in Hlen; lia).
  change (b0 :: b1 :: b2 :: b3 :: b4 :: b5 :: b6 :: b7 :: rest) with ([b0; b1; b2; b3; b4; b5; b6; b7] ++ rest) in *.
  rewrite length_app in Hlen. cbn [length] in Hlen.
  pose proof (BinaryPartsPacketPacker.Uint64_at_app [] [b0; b1; b2; b3; b4; b5; b6; b7] rest 0 eq_refl eq_refl) as Hu.
  cbn [app] in Hu. cbn [app]. rewrite Hu. go_step.
  change (b0 :: b1 :: b2 :: b3 :: b4 :: b5 :: b6 :: b7 :: rest) with ([b0; b1; b2; b3; b4; b5; b6; b7] ++ rest) in *.
  rewrite go_slice_Some by (unfold zlen; rewrite length_app; cbn [length]; lia). go_step.
  rewrite drop_app_length' by reflexivity.
  rewrite take_ge by (unfold zlen; rewrite length_app; cbn [length]; lia).
  unfold PutUint64_at. rewrite copy_into_Some by (unfold zlen; rewrite ?length_replicate; lia). go_step.
  unfold Write. go_step. cbn [Conn set_Conn]. go_step. rewrite Hw. go_step.
  assert (E1 : go_copy data 0 (zlen data) rest = single_read data (padded bs)).
  { unfold go_copy, splice, zlen, single_read. rewrite Ep, drop_app_length' by reflexivity.
    change (Z.to_nat 0) with O. rewrite take_0, Z.sub_0_r, Nat2Z.id. cbn [app Nat.add].
    rewrite length_take. destruct (decide (length data <= 1392)%nat).
    - rewrite !drop_ge by lia. done.
    - by replace (length data `min` length rest)%nat with 1392%nat by lia. }
  assert (E2 : u64 (u64 (zlen bs) - 8) = single_length bs).
  { unfold single_length. pose proof (zlen_nonneg bs). unfold zlen in *. rewrite (u64_id (Z.of_nat _)) by (unfold in_u64; lia).
    destruct (Z.ltb_spec (Z.of_nat (length bs)) 8); [|apply u64_id; unfold in_u64; lia].
    unfold u64. rewrite <- (Z_mod_plus_full _ 1), Z.mod_small by lia. lia. }
  rewrite E1, Ep. destruct err; [|rewrite E2]; go_step; by destruct dpl.
Qed.

Lemma ReadSingle_eq (data d : list byte) pid (dpl : SCIONDataplane C Addr) c c1 c2 n :
  Conn dpl = Some c -> zlen data <= 1392 -> zlen d <= 1392 ->
  conn_Read c PACKET_SIZE = (c1, (single_packet pid d, None)) ->
  conn_Write c1 (padded (single_packet pid d)) = (c2, (n, None)) ->
  ReadSingle data dpl =
    Done (take (length data) (d ++ replicate (1392 - length d) Byte.x00), zlen d, None) (set_Conn c2 dpl).
Proof.
  intros Hc Hdata Hd Hr Hw. pose proof (zlen_single_packet pid d) as Hl. pose proof (zlen_nonneg d).
  rewrite (ReadSingle_any data (single_packet pid d) dpl c c1 c2 n None Hc) by (done || lia).
  unfold single_read, single_length. rewrite padded_single, (proj2 (Z.ltb_ge _ 8)), Hl by lia.
  rewrite drop_app_length' by by rewrite length_be_bytes.
  rewrite (drop_ge data), app_nil_r by (unfold zlen in Hdata; lia). do 3 f_equal. lia.
Qed.

(** C26: [ReadSingle] on any datagram that fits its buffer of 1400 bytes and
    any buffer of the caller.  When the read fails nothing is written and the
    caller's buffer is untouched.  Otherwise the whole buffer goes back, the
    datagram with zeros behind it; the caller's buffer holds what follows the
    part id, zeros included, as far as both reach, and its own bytes from
    position 1392 on; the length returned is that of the datagram less eight,
    or zero with the error of the write.  A datagram shorter than eight bytes
    makes the length wrap to almost [2^64]. *)
Theorem ReadSingle_acknowledges (data bs : list byte) (dpl : SCIONDataplane C Addr) c c1 rerr :
  Conn dpl = Some c -> zlen bs <= 1400 -> conn_Read c PACKET_SIZE = (c1, (bs, rerr)) ->
  match rerr with
  | Some e => ReadSingle data dpl = Done (data, 0, Some e) (set_Conn c1 dpl)
  | None => exists data' length',
      (forall c2 n err, conn_Write c1 (padded bs) = (c2, (n, err)) ->
         ReadSingle data dpl = Done (data', match err with None => length' | Some _ => 0 end, err) (set_Conn c2 dpl)) /\
      length data' = length data /\
      (forall j : nat, (j < length data)%nat ->
         data' !! j = if decide (j < 1392)%nat then padded bs !! (j + 8)%nat else data !! j) /\
      (8 <= zlen bs -> length' = zlen bs - 8) /\ (zlen bs < 8 -> 2 ^ 64 - 8 <= length' < 2 ^ 64)
  end.
Proof.
  intros Hc Hbs Hr. destruct rerr as [e|].
  { unfold ReadSingle, Read. go_step. rewrite Hc. go_step. rewrite Hr. by go_step. }
  assert (Hlen : length (drop 8 (padded bs)) = 1392%nat).
  { unfold padded, zlen in *. rewrite length_drop, length_app, length_replicate. lia. }
  exists (single_read data (padded bs)), (single_length bs). split; [|split; [|split]].
  - intros c2 n err Hw. by apply (ReadSingle_any data bs dpl c c1 c2 n err).
  - unfold single_read. rewrite length_app, length_take, Hlen, length_drop. lia.
  - intros j Hj. unfold single_read. case_decide as Hj'.
    + rewrite lookup_app_l by (rewrite length_take, Hlen; lia).
      rewrite lookup_take_lt, lookup_drop by lia. f_equal. lia.
    + rewrite lookup_app_r by (rewrite length_take, Hlen; lia).
      rewrite length_take, Hlen, lookup_drop. f_equal. lia.
  - unfold single_length. pose proof (zlen_nonneg bs). destruct (Z.ltb_spec (zlen bs) 8); lia.
Qed.

End single.

(** ** States and refused packets *)

Section states.
Context {C Addr K : Type} `{SCIONNetSpec C Addr} `{StatusListenerSpec K}.
Context `{PartsPacketPackerSpec}.

(** A sequence of calls of [SetState]. *)
Fixpoint SetStates (ss : list Z) : go (SCIONDataplane C Addr) unit :=
  match ss with
  | [] => mret tt
  | s :: ss' => SetState s;; SetStates ss'
  end.

(** The collectors a call starts, or the one it needs to stop. *)
Definition collector_change (s : Z) : Z :=
  if s =? DP_STATE_RECEIVING then 1
  else if (s =? DP_STATE_PENDING) || (s =? DP_STATE_RETRANSFER) then -1 else 0.

(** The collectors that run after the first calls, if none of them blocks. *)
Definition balance (n : nat) (ss : list Z) : Z := Z.of_nat n + fold_right Z.add 0 (collector_change <$> ss).

Lemma SetState_eq s (d : SCIONDataplane C Addr) :
  locked d = false ->
  let n := balance (collectors (metrics d)) [s] in
  if 0 <=? n then SetState s d = Done tt (set_metrics (set_collectors (Z.to_nat n) (metrics d)) (set_state s d))
  else SetState s d = Blocked (set_state s (set_locked true d)).
Proof.
  destruct d as [l c ra la li ch cap st pc m]. cbn [locked]. intros ->. unfold SetState, balance, collector_change.
  destruct m as [? ? ? ? ? ? ? ? ? ? ? ? ? ? ? col]. cbn [fmap list_fmap fold_right metrics collectors locked].
  destruct (Z.eqb_spec s DP_STATE_SENDING) as [->|Hs].
  { change (DP_STATE_SENDING =? _) with false at 1. cbn -[Z.leb Z.add]. rewrite !Z.add_0_r, (proj2 (Z.leb_le _ _)), Nat2Z.id by lia. done. }
  destruct (Z.eqb_spec s DP_STATE_RECEIVING) as [->|Hr].
  { cbn -[Z.leb Z.add Z.to_nat]. rewrite (proj2 (Z.leb_le _ _)) by lia. by replace (Z.to_nat _) with (S col) by lia. }
  destruct (Z.eqb_spec s DP_STATE_PENDING) as [->|Hp]; [|destruct (Z.eqb_spec s DP_STATE_RETRANSFER) as [->|Ht]].
  3:{ cbn -[Z.leb Z.add Z.to_nat]. rewrite (proj2 (Z.leb_le _ _)) by lia. by replace (Z.to_nat _) with col by lia. }
  all: cbn [orb]; destruct col as [|col]; [done|]; rewrite (proj2 (Z.leb_le _ _)) by lia;
    by replace (Z.to_nat _) with col by lia.
Qed.

(** C28: a sequence of calls of [SetState] on a data plane whose lock is free.
    [RECEIVING] starts a metrics collector, [PENDING] and [RETRANSFER] need a
    running one to stop.  As long as there is one for each, all calls return,
    the lock is free again and the state is the last one set; the first call
    that finds none blocks with its state set and the lock held, so that
    every later call of [SetState] blocks, whatever its argument. *)
Theorem SetState_outcome (ss : list Z) (d : SCIONDataplane C Addr) :
  locked d = false ->
  let n := collectors (metrics d) in
  ((forall k, 0 <= balance n (take k ss)) ->
     exists d', SetStates ss d = Done tt d' /\ locked d' = false /\ state d' = default (state d) (last ss) /\
       Z.of_nat (collectors (metrics d')) = balance n ss) /\
  (forall k s, ss !! k = Some s -> (forall j, (j <= k)%nat -> 0 <= balance n (take j ss)) -> balance n (take (S k) ss) < 0 ->
     exists d', SetStates ss d = Blocked d' /\ state d' = s /\ locked d' = true /\
       forall s', SetState s' d' = Blocked d').
Proof.
  cbv zeta. induction ss as [|s ss IH] in d |- *; intros Hl.
  { split; [|done]. intros _. exists d. split_and!; try done. unfold balance. cbn. lia. }
  pose proof (SetState_eq s d Hl) as Hs. cbv zeta in Hs. set (n1 := balance _ [s]) in Hs.
  assert (Hstep : forall k, 0 <= n1 ->
    balance (collectors (metrics d)) (take (S k) (s :: ss)) = balance (Z.to_nat n1) (take k ss)).
  { intros k Hn. unfold n1, balance in *. cbn in *. lia. }
  cbn [SetStates]. split.
  - intros Hall. pose proof (Hall 1%nat) as Hone. change (take 1 (s :: ss)) with [s] in Hone. fold n1 in Hone.
    rewrite (proj2 (Z.leb_le _ _) Hone) in Hs. rewrite (bind_Done _ _ _ _ _ Hs). set (d1 := set_metrics _ _).
    destruct (proj1 (IH d1 Hl)) as (d' & Hrun & Hl' & Hst & Hc).
    { intros k. cbn. rewrite <- Hstep by done. apply Hall. }
    exists d'. split_and!; [done|done| |].
    + rewrite Hst, last_cons. by destruct (last ss).
    + rewrite Hc. cbn. rewrite <- (firstn_all ss), <- Hstep by done. cbn. by rewrite firstn_all.
  - intros [|k] s' Hk Hpre Hneg.
    + injection Hk as <-. change (take 1 (s :: ss)) with [s] in Hneg. fold n1 in Hneg.
      rewrite (proj2 (Z.leb_gt _ _) Hneg) in Hs. rewrite (bind_Blocked _ _ _ _ Hs). by eexists.
    + pose proof (Hpre 1%nat ltac:(lia)) as Hone. change (take 1 (s :: ss)) with [s] in Hone. fold n1 in Hone.
      rewrite (proj2 (Z.leb_le _ _) Hone) in Hs. rewrite (bind_Done _ _ _ _ _ Hs). set (d1 := set_metrics _ _).
      apply (proj2 (IH d1 Hl) k s' Hk).
      * intros j Hj. cbn. rewrite <- Hstep by done. apply Hpre. lia.
      * cbn. by rewrite <- Hstep.
Qed.

(** The datagrams of a part's context that [ReadPart] refuses: those of other
    parts, and numbers at or above which nothing is missing and that are below
    the highest one. *)
Definition refused (b : PartContext) (pid s : Z) : Prop :=
  pid <> PartId b \/
  pid = PartId b /\ 0 <= s < HighestSequenceNumber b /\ forall v, v ∈ MissingSequenceNums b -> s < v.

(** What is left of the packet buffer: the header is cut off once the part id
    was found to be right. *)
Definition refused_packet (b : PartContext) (pid s : Z) (rest : list byte) : list byte :=
  if pid =? PartId b then rest else packet_header pid s ++ rest.

Lemma DeSerialize_refused b pid s rest :
  transport_ok (PCTransportPacketPacker b) -> in_i64 pid -> in_i64 s -> HighestSequenceNumber b < 2 ^ 63 -> refused b pid s ->
  exists e, DeSerializePacket (packet_header pid s ++ rest) b = Done (refused_packet b pid s rest, Some e) b.
Proof.
  intros Ht Hp Hs Hh Hr. unfold refused_packet. destruct (Z.eqb_spec pid (PartId b)) as [->|Hne].
  - destruct Hr as [?|(_ & Hlt & Hall)]; [done|]. rewrite DeSerialize_header by done. cbv zeta.
    rewrite i64_id by (unfold in_i64; lia). unfold track_missing. rewrite Z.gtb_ltb, (proj2 (Z.ltb_ge 1 _)) by lia.
    rewrite (proj2 (Z.ltb_lt _ 0)) by lia. unfold count_retransfer. go_step.
    unfold IndexOfMin. rewrite IndexOfMin_from_below by done. by eexists.
  - unfold DeSerializePacket. go_step. rewrite TransportUnpack_id by done. unfold mbind, go_bind.
    rewrite Unpack_spec by done. rewrite (proj2 (Z.eqb_neq _ _)) by done. by eexists.
Qed.

(** C29: a datagram that [ReadPart] refuses, one of another part or one it
    takes for a duplicate, is not counted and changes nothing of the part but
    the bytes of the receive buffer.  What is left of the packet goes to the
    packet channel, followed by what the buffer held behind it; when the
    channel is full, and the program has no reader for it, the receiver is
    stuck. *)
Theorem ReadPart_refuses bc i (w : world C Addr K) b c c' pid s body :
  parts w !! bc = Some b -> Conn (dp w) = Some c -> transport_ok (PCTransportPacketPacker b) ->
  zlen (Buffer b) = NumPackets b * MaxPacketLength b -> 0 <= MaxPacketLength b ->
  NumPackets b * MaxPacketLength b < 2 ^ 63 -> 0 <= i < NumPackets b ->
  in_i64 pid -> in_i64 s -> HighestSequenceNumber b < 2 ^ 63 -> refused b pid s ->
  let d := packet_header pid s ++ body in
  conn_Read c (MaxPacketLength b) = (c', (d, None)) ->
  let w' := mkWorld (set_Conn c' (dp w)) (<[bc := after_read b i d]> (parts w)) (owner w) in
  ReadPart_step bc i w =
    if (length (PacketChan (dp w)) <? PacketChanCap (dp w))%nat then
      Done (inr 0) (set_dp (set_PacketChan
        (PacketChan (dp w) ++ [refused_packet b pid s (body ++ drop (length d) (view b i))]) (dp w')) w')
    else Blocked w'.
Proof.
  intros Hb Hc Ht Hroom Hm0 Hm Hi Hp Hs Hh Hr d Hrd w'.
  destruct (DeSerialize_refused (after_read b i d) pid s (body ++ drop (length d) (view b i))) as (e & Hde); try done.
  rewrite app_assoc in Hde. fold d in Hde.
  rewrite (ReadPart_step_at bc i w b c c' d _ _ _ Hb Hc Hroom (conj Hm0 Hm) Hi Hrd Hde). fold w'.
  unfold packet_read, at_dp, zoom, send_PacketChan, mbind, go_bind. change (dp w') with (set_Conn c' (dp w)).
  cbn [PacketChan PacketChanCap set_Conn]. by destruct (Nat.ltb _ _).
Qed.

End states.

(** ** On the loopback network *)

#[local] Existing Instances BinaryPartsPacketPacker.packer BinaryPartsPacketPacker.packer_spec.

Definition on_link (c : link) (cap : nat) : SCIONDataplane link string :=
  mkSCIONDataplane false (Some c) None None None [] cap DP_STATE_PENDING None (NewMetrics 100).

(** The first reply carries part id 4, the second the right one. *)
Lemma WriteSingle_until_acknowledged_witness :
  WriteSingle 2 five 5 (on_link (mkLink [be_bytes 8 4; be_bytes 8 5] []) 64) =
    Done (Some (13, None))
      (on_link (mkLink [] [single_packet 5 five; single_packet 5 five]) 64).
Proof.
  apply (WriteSingle_until_acknowledged (C := link) (Addr := string) five 5
    (on_link (mkLink [be_bytes 8 4; be_bytes 8 5] []) 64)
    (mkLink [be_bytes 8 4; be_bytes 8 5] []) (mkLink [be_bytes 8 5] [single_packet 5 five])
    (mkLink [be_bytes 8 5] [single_packet 5 five; single_packet 5 five])
    (mkLink [] [single_packet 5 five; single_packet 5 five]) [be_bytes 8 4] 2).
  - reflexivity.
  - reflexivity.
  - discriminate.
  - split; [discriminate|reflexivity].
  - repeat constructor. vm_compute. discriminate.
  - eapply exchanges_cons; [reflexivity|reflexivity|reflexivity|]. apply exchanges_nil.
  - reflexivity.
  - reflexivity.
  - cbn. lia.
Defined.

(** Eight bytes into a buffer of two. *)
Lemma ReadSingle_acknowledges_witness :
  exists data' length',
    ReadSingle (no_bytes 2) (on_link (mkLink [single_packet 5 five] []) 64) =
      Done (data', length', None) (on_link (mkLink [] [padded (single_packet 5 five)]) 64) /\
    length data' = 2%nat /\ data' !! 1%nat = padded (single_packet 5 five) !! 9%nat /\ length' = 5.
Proof.
  destruct (ReadSingle_acknowledges (C := link) (Addr := string) (no_bytes 2) (single_packet 5 five)
    (on_link (mkLink [single_packet 5 five] []) 64) (mkLink [single_packet 5 five] []) (mkLink [] []) None)
    as (data' & length' & H1 & H2 & H3 & H4 & _).
  - reflexivity.
  - discriminate.
  - reflexivity.
  - exists data', length'. split; [|split; [exact H2|split]].
    + exact (H1 (mkLink [] [padded (single_packet 5 five)]) 1400 None eq_refl).
    + exact (H3 1%nat (le_n 2)).
    + apply H4. discriminate.
Defined.

(** A collector is started and stopped; for the third call there is none. *)
Lemma SetState_outcome_witness :
  exists d', SetStates [DP_STATE_RECEIVING; DP_STATE_PENDING; DP_STATE_PENDING] (on_link (mkLink [] []) 64) = Blocked d' /\
    state d' = DP_STATE_PENDING /\ locked d' = true /\ forall s', SetState s' d' = Blocked d'.
Proof.
  apply (proj2 (SetState_outcome (C := link) (Addr := string)
    [DP_STATE_RECEIVING; DP_STATE_PENDING; DP_STATE_PENDING] (on_link (mkLink [] []) 64) eq_refl) 2%nat DP_STATE_PENDING).
  - reflexivity.
  - intros [|[|[|j]]] Hj; [discriminate..|]. exfalso. lia.
  - reflexivity.
Defined.

(** A packet of part 8 at a receiver of part 7, with no room in the channel,
    and with room. *)
Lemma ReadPart_refuses_witness :
  let d := packet_header 8 1 ++ [] in
  let w cap := mkWorld (on_link (mkLink [packet_header 8 1] []) cap) {[ O := small_receiver ]} tt in
  let w' cap := mkWorld (set_Conn (mkLink [] []) (dp (w cap)))
    (<[O := after_read small_receiver 0 d]> (parts (w cap))) (owner (w cap)) in
  ReadPart_step 0 0 (w 0%nat) = Blocked (w' 0%nat) /\
  ReadPart_step 0 0 (w 1%nat) =
    Done (inr 0) (set_dp (set_PacketChan
      (PacketChan (dp (w 1%nat)) ++ [refused_packet small_receiver 8 1 ([] ++ drop (length d) (view small_receiver 0))])
      (dp (w' 1%nat))) (w' 1%nat)).
Proof.
  assert (Hr : in_i64 8 /\ in_i64 1) by (split; (split; [discriminate|reflexivity])).
  assert (Hp : refused small_receiver 8 1) by (left; discriminate).
  intros d w w'. split.
  - apply (ReadPart_refuses (C := link) (Addr := string) (K := unit) 0 0 (w 0%nat)
      small_receiver (mkLink [packet_header 8 1] []) (mkLink [] []) 8 1 []);
      first [exact Hp|reflexivity|discriminate|apply Hr|by apply plain_transport_ok|by split].
  - apply (ReadPart_refuses (C := link) (Addr := string) (K := unit) 0 0 (w 1%nat)
      small_receiver (mkLink [packet_header 8 1] []) (mkLink [] []) 8 1 []);
      first [exact Hp|reflexivity|discriminate|apply Hr|by apply plain_transport_ok|by split].
Defined.
