(* ===== verification/RateControl.v ===== *)
(** * RateControl: [controlplane/ratecontrol.go] and [controlplane/interface.go]

    The congestion window of a sender: it grows and shrinks on the packet loss
    that the receiver's acknowledgements report, and paces the sender, which
    sleeps after every window of packets.  Nothing blocks between [Lock] and
    [Unlock], so a locked region is one step and the mutex is not part of the
    state. *)

From S2P Require Import Prelude Utils.

(** ** [controlplane/interface.go] *)

Record controlPacketTypes : Type := mkControlPacketTypes {
  AckPacket : Z;
  HandshakePacket : Z;
  UndefinedPacket : Z;
}.

Definition newControlPacketTypes : controlPacketTypes := mkControlPacketTypes 1 2 99.

Definition ControlPacketTypes : controlPacketTypes := newControlPacketTypes.

Record PartAckPacket : Type := mkPartAckPacket {
  ack_PartId : Z;
  ack_LastSequenceNumber : Z;
  ack_NumPacketsPerTx : Z;
  ack_PacketTxIndex : Z;
  ack_MissingSequenceNumbers : list Z;
  ack_MissingSequenceNumberOffsets : list Z;
  ack_TransactionId : Z;
  ack_RequestSequenceId : Z;
  ack_NumPackets : Z;
  ack_PartFinished : bool;
}.

Record PartTransfer : Type := mkPartTransfer {
  tr_PartId : Z;
  tr_PartSize : Z;
  tr_Port : Z;
}.

(** ** The rate control *)

Definition START_CONGESTION_WINDOW : Z := 100.
Definition PACKET_WAITING_TIME : Z := 200000.
Definition CONGESTION_WINDOW_MAX : Z := 150000.
Definition PACKET_LOSS_THRESHOLD_PERCENT : Z := 5.
Definition RC_STATE_STARTUP : Z := 1.
Definition RC_STATE_DRAIN : Z := 2.
Definition RC_STATE_PROBE : Z := 3.
Definition RC_STATE_IDLE : Z := 4.
Definition DRAIN_INCREASE_WINDOW : Z := 20.

Record RateControl : Type := mkRateControl {
  congestionWindow : Z;
  rc_state : Z;
  lastIntervalBytes : Z;
  lastIntervalPackets : Z;
  lastPacketTxIndex : Z;
  packetLossPercent : Z;
  windowCompletionTime : Z;
  lastMissingSequenceNums : Z;
  curNumMissingPackets : Z;
  curNumCheckedPackets : Z;
  lastNumMissingPackets : Z;
  drainIncreaseCount : Z;
  drainLossCount : Z;
  probeIncreaseCount : Z;
  rc_partContext : option nat;
}.

Definition NewRateControl : RateControl :=
  mkRateControl START_CONGESTION_WINDOW RC_STATE_IDLE 0 0 0 0 PACKET_WAITING_TIME 0 0 0 0 0 0 0 None.

(** Assignments to fields. *)
Definition set_congestionWindow (w : Z) (rc : RateControl) : RateControl :=
  mkRateControl w (rc_state rc) (lastIntervalBytes rc) (lastIntervalPackets rc) (lastPacketTxIndex rc)
    (packetLossPercent rc) (windowCompletionTime rc) (lastMissingSequenceNums rc) (curNumMissingPackets rc)
    (curNumCheckedPackets rc) (lastNumMissingPackets rc) (drainIncreaseCount rc) (drainLossCount rc)
    (probeIncreaseCount rc) (rc_partContext rc).

Definition set_rc_state (s : Z) (rc : RateControl) : RateControl :=
  mkRateControl (congestionWindow rc) s (lastIntervalBytes rc) (lastIntervalPackets rc) (lastPacketTxIndex rc)
    (packetLossPercent rc) (windowCompletionTime rc) (lastMissingSequenceNums rc) (curNumMissingPackets rc)
    (curNumCheckedPackets rc) (lastNumMissingPackets rc) (drainIncreaseCount rc) (drainLossCount rc)
    (probeIncreaseCount rc) (rc_partContext rc).

Definition set_lastInterval (bts packets : Z) (rc : RateControl) : RateControl :=
  mkRateControl (congestionWindow rc) (rc_state rc) bts packets (lastPacketTxIndex rc)
    (packetLossPercent rc) (windowCompletionTime rc) (lastMissingSequenceNums rc) (curNumMissingPackets rc)
    (curNumCheckedPackets rc) (lastNumMissingPackets rc) (drainIncreaseCount rc) (drainLossCount rc)
    (probeIncreaseCount rc) (rc_partContext rc).

Definition set_lastAck (missing txIndex : Z) (rc : RateControl) : RateControl :=
  mkRateControl (congestionWindow rc) (rc_state rc) (lastIntervalBytes rc) (lastIntervalPackets rc) txIndex
    (packetLossPercent rc) (windowCompletionTime rc) missing (curNumMissingPackets rc)
    (curNumCheckedPackets rc) (lastNumMissingPackets rc) (drainIncreaseCount rc) (drainLossCount rc)
    (probeIncreaseCount rc) (rc_partContext rc).

Definition set_packetLossPercent (loss : Z) (rc : RateControl) : RateControl :=
  mkRateControl (congestionWindow rc) (rc_state rc) (lastIntervalBytes rc) (lastIntervalPackets rc) (lastPacketTxIndex rc)
    loss (windowCompletionTime rc) (lastMissingSequenceNums rc) (curNumMissingPackets rc)
    (curNumCheckedPackets rc) (lastNumMissingPackets rc) (drainIncreaseCount rc) (drainLossCount rc)
    (probeIncreaseCount rc) (rc_partContext rc).

Definition set_checked (curMissing curChecked lastMissing : Z) (rc : RateControl) : RateControl :=
  mkRateControl (congestionWindow rc) (rc_state rc) (lastIntervalBytes rc) (lastIntervalPackets rc) (lastPacketTxIndex rc)
    (packetLossPercent rc) (windowCompletionTime rc) (lastMissingSequenceNums rc) curMissing
    curChecked lastMissing (drainIncreaseCount rc) (drainLossCount rc)
    (probeIncreaseCount rc) (rc_partContext rc).

Definition set_phase_counts (drainIncrease drainLoss probeIncrease : Z) (rc : RateControl) : RateControl :=
  mkRateControl (congestionWindow rc) (rc_state rc) (lastIntervalBytes rc) (lastIntervalPackets rc) (lastPacketTxIndex rc)
    (packetLossPercent rc) (windowCompletionTime rc) (lastMissingSequenceNums rc) (curNumMissingPackets rc)
    (curNumCheckedPackets rc) (lastNumMissingPackets rc) drainIncrease drainLoss probeIncrease (rc_partContext rc).

Definition set_rc_partContext (p : option nat) (rc : RateControl) : RateControl :=
  mkRateControl (congestionWindow rc) (rc_state rc) (lastIntervalBytes rc) (lastIntervalPackets rc) (lastPacketTxIndex rc)
    (packetLossPercent rc) (windowCompletionTime rc) (lastMissingSequenceNums rc) (curNumMissingPackets rc)
    (curNumCheckedPackets rc) (lastNumMissingPackets rc) (drainIncreaseCount rc) (drainLossCount rc)
    (probeIncreaseCount rc) p.

Definition SetPartContext (p : option nat) : go RateControl unit := modify (set_rc_partContext p).

(** *** [AddAckMessage] *)

(** Integer division of the source: truncation, and a panic on zero. *)
Definition go_div (x y : Z) : option Z := if y =? 0 then None else Some (i64 (Z.quot x y)).

(** The loss since the last complete acknowledgement.  The debug messages
    read [rc.partContext.PartId]. *)
Definition account_loss (msg : PartAckPacket) : go RateControl unit :=
  rc ← gets id;
  let missingPackets := i64 (curNumMissingPackets rc - lastNumMissingPackets rc) in
  (if negb (ack_NumPackets msg =? curNumCheckedPackets rc) then
     loss ← or_fail DivideByZero
       (go_div (i64 (missingPackets * 100)) (i64 (ack_NumPackets msg - curNumCheckedPackets rc)));
     modify (set_packetLossPercent loss)
   else mret tt);;
  rc ← gets id;
  (if packetLossPercent rc >? 0 then _ ← or_fail NilDeref (rc_partContext rc); mret tt else mret tt);;
  modify (set_checked 0 (ack_NumPackets msg) (curNumMissingPackets rc)).

Definition react_probe (rc : RateControl) : RateControl :=
  let w := congestionWindow rc in
  if packetLossPercent rc >=? PACKET_LOSS_THRESHOLD_PERCENT then
    set_phase_counts (drainIncreaseCount rc) (drainLossCount rc) 0
      (set_rc_state RC_STATE_DRAIN (set_congestionWindow (i64 (w - Z.quot w 4)) rc))
  else
    let n := i64 (probeIncreaseCount rc + 1) in
    let rc := set_phase_counts (drainIncreaseCount rc) (drainLossCount rc) n rc in
    if Z.rem n DRAIN_INCREASE_WINDOW =? 0 then
      let w := i64 (w + Z.quot w 5) in
      if w >? CONGESTION_WINDOW_MAX then set_congestionWindow CONGESTION_WINDOW_MAX rc
      else set_congestionWindow w rc
    else rc.

Definition react_drain (rc : RateControl) : RateControl :=
  let w := congestionWindow rc in
  let lossCount := i64 (drainLossCount rc + 1) in
  let rc := set_phase_counts (drainIncreaseCount rc) lossCount (probeIncreaseCount rc) rc in
  if (lossCount >? 1) && (lossCount <=? 5) then rc
  else if packetLossPercent rc >=? PACKET_LOSS_THRESHOLD_PERCENT then
    set_phase_counts 0 lossCount (probeIncreaseCount rc)
      (set_congestionWindow (i64 (w - Z.quot w 3)) rc)
  else
    let n := i64 (drainIncreaseCount rc + 1) in
    let rc := set_phase_counts n lossCount (probeIncreaseCount rc) rc in
    if Z.rem n DRAIN_INCREASE_WINDOW =? 0 then set_rc_state RC_STATE_PROBE rc else rc.

Definition react_startup (rc : RateControl) : RateControl :=
  let w := congestionWindow rc in
  if packetLossPercent rc >=? PACKET_LOSS_THRESHOLD_PERCENT then
    let rc := set_rc_state RC_STATE_DRAIN rc in
    if w <=? CONGESTION_WINDOW_MAX then set_congestionWindow (i64 (w - Z.quot w 2)) rc else rc
  else
    let w := i64 (w + Z.quot w 3) in
    if w >? CONGESTION_WINDOW_MAX then set_congestionWindow CONGESTION_WINDOW_MAX rc
    else set_congestionWindow w rc.

(** [switch rc.state] *)
Definition react (rc : RateControl) : RateControl :=
  if rc_state rc =? RC_STATE_PROBE then react_probe rc
  else if rc_state rc =? RC_STATE_DRAIN then react_drain rc
  else if rc_state rc =? RC_STATE_STARTUP then react_startup rc
  else rc.

Definition AddAckMessage (msg : PartAckPacket) : go RateControl unit :=
  modify (fun rc =>
    set_checked (i64 (curNumMissingPackets rc + Sum (ack_MissingSequenceNumberOffsets msg)))
      (curNumCheckedPackets rc) (lastNumMissingPackets rc) rc);;
  (if ack_PacketTxIndex msg >=? i64 (ack_NumPacketsPerTx msg - 1) then
     account_loss msg;; modify react
   else mret tt);;
  modify (fun rc => set_lastInterval 0 0
    (set_lastAck (zlen (ack_MissingSequenceNumbers msg)) (ack_RequestSequenceId msg) rc)).

(** The empty body of [Recalculate]. *)
Definition Recalculate {A : Type} (msg : A) : go RateControl unit := mret tt.

(** The result is the time slept, in nanoseconds. *)
Definition Add (numPackets numBytes : Z) : go RateControl Z :=
  modify (fun rc => set_lastInterval numBytes (i64 (lastIntervalPackets rc + numPackets)) rc);;
  rc ← gets id;
  if congestionWindow rc =? 0 then fail DivideByZero
  else if (Z.rem (lastIntervalPackets rc) (congestionWindow rc) =? 0) && negb (windowCompletionTime rc =? 0)
  then mret (windowCompletionTime rc)
  else mret 0.

Definition Start : go RateControl unit := modify (set_rc_state RC_STATE_STARTUP).

Definition Stop : go RateControl unit := modify (set_rc_state RC_STATE_IDLE).

(** The empty body of [recalculateRate]: all of it is commented out. *)
Definition recalculateRate : go RateControl unit := mret tt.

(** Everything the program does with a rate control. *)
Inductive rc_step : RateControl -> RateControl -> Prop :=
| rc_ack msg rc rc' : AddAckMessage msg rc = Done tt rc' -> rc_step rc rc'
| rc_add n bts t rc rc' : Add n bts rc = Done t rc' -> rc_step rc rc'
| rc_start rc rc' : Start rc = Done tt rc' -> rc_step rc rc'
| rc_stop rc rc' : Stop rc = Done tt rc' -> rc_step rc rc'
| rc_context p rc rc' : SetPartContext p rc = Done tt rc' -> rc_step rc rc'.

(** ** The window *)

Definition rc_inv (rc : RateControl) : Prop :=
  1 <= congestionWindow rc <= CONGESTION_WINDOW_MAX /\ windowCompletionTime rc = PACKET_WAITING_TIME.

(** A window shrunk by a part of it. *)
Lemma shrink_bounds w k :
  1 <= w <= CONGESTION_WINDOW_MAX -> 2 <= k ->
  i64 (w - Z.quot w k) = w - w / k /\ 1 <= w - w / k <= w.
Proof.
  unfold CONGESTION_WINDOW_MAX. intros Hw Hk. rewrite Z.quot_div_nonneg by lia.
  pose proof (Z.div_pos w k). pose proof (Z.mul_div_le w k). assert (w / k < w) by (apply Z.div_lt; lia).
  rewrite i64_id by (unfold in_i64; lia). lia.
Qed.

(** A window grown by a part of it. *)
Lemma grow_bounds w k :
  1 <= w <= CONGESTION_WINDOW_MAX -> 2 <= k ->
  i64 (w + Z.quot w k) = w + w / k /\ w <= w + w / k.
Proof.
  unfold CONGESTION_WINDOW_MAX. intros Hw Hk. rewrite Z.quot_div_nonneg by lia.
  pose proof (Z.div_pos w k). assert (w / k < w) by (apply Z.div_lt; lia).
  rewrite i64_id by (unfold in_i64; lia). lia.
Qed.

(** How a loss moves a window: never up when it is high, never down when it is
    low. *)
Definition window_moves (loss w w' : Z) : Prop :=
  1 <= w' <= CONGESTION_WINDOW_MAX /\
  (PACKET_LOSS_THRESHOLD_PERCENT <= loss -> w' <= w) /\
  (loss < PACKET_LOSS_THRESHOLD_PERCENT -> w <= w').

Lemma window_stays loss w : 1 <= w <= CONGESTION_WINDOW_MAX -> window_moves loss w w.
Proof. unfold window_moves. lia. Qed.

Lemma window_shrinks loss w k :
  1 <= w <= CONGESTION_WINDOW_MAX -> 2 <= k -> PACKET_LOSS_THRESHOLD_PERCENT <= loss ->
  window_moves loss w (i64 (w - Z.quot w k)).
Proof. intros Hw Hk Hl. destruct (shrink_bounds w k Hw Hk) as [-> ?]. unfold window_moves. lia. Qed.

Lemma window_grows loss w k :
  1 <= w <= CONGESTION_WINDOW_MAX -> 2 <= k -> loss < PACKET_LOSS_THRESHOLD_PERCENT ->
  i64 (w + Z.quot w k) <= CONGESTION_WINDOW_MAX -> window_moves loss w (i64 (w + Z.quot w k)).
Proof. intros Hw Hk Hl. destruct (grow_bounds w k Hw Hk) as [-> ?]. unfold window_moves. lia. Qed.

Lemma window_capped loss w :
  1 <= w <= CONGESTION_WINDOW_MAX -> loss < PACKET_LOSS_THRESHOLD_PERCENT ->
  window_moves loss w CONGESTION_WINDOW_MAX.
Proof. unfold window_moves. lia. Qed.

#[export] Hint Resolve window_stays window_shrinks window_grows window_capped : parts.

(** Split the tests of a reaction, as inequalities. *)
Ltac rc_cases :=
  repeat match goal with
  | |- context [if ?x >=? ?y then _ else _] => rewrite (Z.geb_leb x y); destruct (Z.leb_spec y x)
  | |- context [if ?x >? ?y then _ else _] => rewrite (Z.gtb_ltb x y); destruct (Z.ltb_spec y x)
  | |- context [if ?x <=? ?y then _ else _] => destruct (Z.leb_spec x y)
  | |- context [if ?x =? ?y then _ else _] => destruct (Z.eqb_spec x y)
  | |- context [if ?x && ?y then _ else _] => destruct (x && y)
  end; cbn.

(** The moves between the phases. *)
Inductive phase_move : Z -> Z -> Prop :=
| phase_same s : phase_move s s
| startup_drain : phase_move RC_STATE_STARTUP RC_STATE_DRAIN
| drain_probe : phase_move RC_STATE_DRAIN RC_STATE_PROBE
| probe_drain : phase_move RC_STATE_PROBE RC_STATE_DRAIN.
#[export] Hint Constructors phase_move : parts.

Lemma phase_not_startup s s' : phase_move s s' -> s <> RC_STATE_STARTUP -> s' <> RC_STATE_STARTUP.
Proof. by destruct 1. Qed.

Lemma react_moves rc :
  rc_inv rc ->
  window_moves (packetLossPercent rc) (congestionWindow rc) (congestionWindow (react rc)) /\
  phase_move (rc_state rc) (rc_state (react rc)) /\
  windowCompletionTime (react rc) = windowCompletionTime rc.
Proof.
  intros [Hw _]. unfold react.
  destruct (Z.eqb_spec (rc_state rc) RC_STATE_PROBE) as [E|_];
    [|destruct (Z.eqb_spec (rc_state rc) RC_STATE_DRAIN) as [E|_];
      [|destruct (Z.eqb_spec (rc_state rc) RC_STATE_STARTUP) as [E|_]]].
  - unfold react_probe. rc_cases; split_and!; rewrite ?E; auto 6 with parts lia.
  - unfold react_drain. rc_cases; split_and!; rewrite ?E; auto 6 with parts lia.
  - unfold react_startup. rc_cases; split_and!; rewrite ?E; auto 6 with parts lia.
  - auto with parts.
Qed.

Lemma react_accounts rc :
  lastNumMissingPackets (react rc) = lastNumMissingPackets rc /\ curNumMissingPackets (react rc) = curNumMissingPackets rc /\
  curNumCheckedPackets (react rc) = curNumCheckedPackets rc /\ packetLossPercent (react rc) = packetLossPercent rc.
Proof. unfold react, react_probe, react_drain, react_startup. rc_cases; done. Qed.

(** Outside startup a window of at most four does not grow. *)
Lemma react_small rc :
  1 <= congestionWindow rc <= 4 -> rc_state rc <> RC_STATE_STARTUP -> congestionWindow (react rc) <= congestionWindow rc.
Proof.
  intros Hw Hs. pose proof (Z.eqb_spec (rc_state rc) RC_STATE_STARTUP) as HS.
  assert (Hshrink : forall k, 2 <= k ->
    i64 (congestionWindow rc - Z.quot (congestionWindow rc) k) <= congestionWindow rc).
  { intros k Hk. destruct (shrink_bounds (congestionWindow rc) k) as [-> ?]; unfold CONGESTION_WINDOW_MAX; lia. }
  assert (Hgrow : i64 (congestionWindow rc + Z.quot (congestionWindow rc) 5) <= congestionWindow rc).
  { rewrite Z.quot_small, i64_id by (unfold in_i64; lia). lia. }
  pose proof (Hshrink 4). pose proof (Hshrink 3).
  unfold react, react_probe, react_drain. rc_cases; unfold CONGESTION_WINDOW_MAX in *; (lia || done).
Qed.

(** Multiples of the threshold of increases. *)
Definition twentieth (n : Z) : bool := Z.rem n DRAIN_INCREASE_WINDOW =? 0.

(** What a reaction does to the window, the phase and the counters of the
    phases, by the phase and the loss: a high loss takes a half, a third or a
    quarter of the window away; without one the window grows by a third, or a
    fifth every twentieth time, up to the maximum; in the drain phase the
    second to fifth reports are ignored, and the twentieth report without a
    high loss starts probing. *)
Record reaction (rc rc' : RateControl) : Prop := {
  rn_startup : rc_state rc = RC_STATE_STARTUP ->
    if PACKET_LOSS_THRESHOLD_PERCENT <=? packetLossPercent rc
    then congestionWindow rc' = congestionWindow rc - congestionWindow rc / 2 /\ rc_state rc' = RC_STATE_DRAIN
    else congestionWindow rc' = Z.min (congestionWindow rc + congestionWindow rc / 3) CONGESTION_WINDOW_MAX /\
      rc_state rc' = RC_STATE_STARTUP;
  rn_drain : rc_state rc = RC_STATE_DRAIN ->
    drainLossCount rc' = i64 (drainLossCount rc + 1) /\
    if (2 <=? drainLossCount rc') && (drainLossCount rc' <=? 5)
    then congestionWindow rc' = congestionWindow rc /\ rc_state rc' = RC_STATE_DRAIN /\
      drainIncreaseCount rc' = drainIncreaseCount rc
    else if PACKET_LOSS_THRESHOLD_PERCENT <=? packetLossPercent rc
    then congestionWindow rc' = congestionWindow rc - congestionWindow rc / 3 /\ rc_state rc' = RC_STATE_DRAIN /\
      drainIncreaseCount rc' = 0
    else congestionWindow rc' = congestionWindow rc /\ drainIncreaseCount rc' = i64 (drainIncreaseCount rc + 1) /\
      rc_state rc' = if twentieth (drainIncreaseCount rc') then RC_STATE_PROBE else RC_STATE_DRAIN;
  rn_probe : rc_state rc = RC_STATE_PROBE ->
    if PACKET_LOSS_THRESHOLD_PERCENT <=? packetLossPercent rc
    then congestionWindow rc' = congestionWindow rc - congestionWindow rc / 4 /\ rc_state rc' = RC_STATE_DRAIN /\
      probeIncreaseCount rc' = 0
    else probeIncreaseCount rc' = i64 (probeIncreaseCount rc + 1) /\ rc_state rc' = RC_STATE_PROBE /\
      congestionWindow rc' =
        if twentieth (probeIncreaseCount rc')
        then Z.min (congestionWindow rc + congestionWindow rc / 5) CONGESTION_WINDOW_MAX else congestionWindow rc;
  rn_other : rc_state rc <> RC_STATE_STARTUP -> rc_state rc <> RC_STATE_DRAIN -> rc_state rc <> RC_STATE_PROBE ->
    congestionWindow rc' = congestionWindow rc /\ rc_state rc' = rc_state rc;
}.

Lemma react_reaction rc : rc_inv rc -> reaction rc (react rc).
Proof.
  intros [Hw _]. pose proof (shrink_bounds _ 2 Hw ltac:(lia)) as [E2 _].
  pose proof (shrink_bounds _ 3 Hw ltac:(lia)) as [E3 _]. pose proof (shrink_bounds _ 4 Hw ltac:(lia)) as [E4 _].
  pose proof (grow_bounds _ 3 Hw ltac:(lia)) as [G3 _]. pose proof (grow_bounds _ 5 Hw ltac:(lia)) as [G5 _].
  split; intros H; unfold react.
  - rewrite H. change (RC_STATE_STARTUP =? RC_STATE_PROBE) with false. change (RC_STATE_STARTUP =? RC_STATE_DRAIN) with false.
    change (RC_STATE_STARTUP =? RC_STATE_STARTUP) with true. cbn [negb]. unfold react_startup. rewrite E2, G3, Z.geb_leb.
    rc_cases; split; (done || lia).
  - rewrite H. change (RC_STATE_DRAIN =? RC_STATE_PROBE) with false. change (RC_STATE_DRAIN =? RC_STATE_DRAIN) with true.
    cbn iota. unfold react_drain, twentieth. rewrite E3, Z.geb_leb, Z.gtb_ltb.
    replace (1 <? i64 (drainLossCount rc + 1)) with (2 <=? i64 (drainLossCount rc + 1)) by lia.
    set (l := i64 (drainLossCount rc + 1)). cbn -[Z.leb Z.rem Z.eqb andb i64].
    destruct ((2 <=? l) && (l <=? 5)) eqn:Eb; cbn -[Z.leb Z.rem Z.eqb andb i64]; [by rewrite Eb|].
    destruct (_ <=? packetLossPercent rc); cbn -[Z.leb Z.rem Z.eqb andb i64]; [by rewrite Eb|].
    destruct (Z.rem _ _ =? 0) eqn:Er; cbn -[Z.leb Z.rem Z.eqb andb i64]; by rewrite Eb, Er.
  - rewrite H. change (RC_STATE_PROBE =? RC_STATE_PROBE) with true. cbn iota. unfold react_probe, twentieth.
    rewrite E4, G5, Z.geb_leb. cbn -[Z.leb Z.rem Z.eqb i64].
    destruct (_ <=? packetLossPercent rc); cbn -[Z.leb Z.rem Z.eqb i64]; [done|].
    destruct (Z.rem _ _ =? 0) eqn:Er; cbn -[Z.leb Z.rem Z.eqb i64]; [|by rewrite Er].
    rewrite Z.gtb_ltb. destruct (Z.ltb_spec CONGESTION_WINDOW_MAX (congestionWindow rc + congestionWindow rc / 5));
      cbn -[Z.leb Z.rem Z.eqb i64]; rewrite Er; split_and!; (done || lia).
  - intros Hd Hp. rewrite (proj2 (Z.eqb_neq _ _) H), (proj2 (Z.eqb_neq _ _) Hd), (proj2 (Z.eqb_neq _ _) Hp). done.
Qed.

Lemma Add_Done n bts rc :
  rc_inv rc ->
  exists t, Add n bts rc =
    Done t (set_lastInterval bts (i64 (lastIntervalPackets rc + n)) rc) /\
    (t = PACKET_WAITING_TIME \/ t = 0) /\
    (t = PACKET_WAITING_TIME <-> Z.rem (i64 (lastIntervalPackets rc + n)) (congestionWindow rc) = 0).
Proof.
  intros [Hw Ht]. unfold Add. go_step. cbn.
  rewrite (proj2 (Z.eqb_neq _ _)), Ht by lia. cbn.
  destruct (Z.eqb_spec (Z.rem (i64 (lastIntervalPackets rc + n)) (congestionWindow rc)) 0); cbn;
    eexists; (split; [reflexivity|]); unfold PACKET_WAITING_TIME; intuition lia.
Qed.

(** *** Acknowledgements *)

Definition ack_ok (msg : PartAckPacket) : Prop := in_i64 (ack_NumPackets msg).

(** The accounts of the loss are machine integers. *)
Definition accounts_ok (rc : RateControl) : Prop := in_i64 (curNumCheckedPackets rc).

(** The loss that a complete acknowledgement reports. *)
Definition reported_loss (msg : PartAckPacket) (rc : RateControl) : Z :=
  if ack_NumPackets msg =? curNumCheckedPackets rc then packetLossPercent rc
  else i64 (Z.quot
    (i64 (i64 (i64 (curNumMissingPackets rc + Sum (ack_MissingSequenceNumberOffsets msg)) - lastNumMissingPackets rc) * 100))
    (i64 (ack_NumPackets msg - curNumCheckedPackets rc))).

(** The last packet of a request. *)
Definition completes (msg : PartAckPacket) : bool :=
  ack_PacketTxIndex msg >=? i64 (ack_NumPacketsPerTx msg - 1).

Lemma set_checked_last a b c l x y z rc :
  set_checked a b c (set_packetLossPercent l (set_checked x y z rc)) =
  set_checked a b c (set_packetLossPercent l rc).
Proof. reflexivity. Qed.

Lemma account_loss_eq msg rc :
  ack_ok msg -> accounts_ok rc -> rc_partContext rc <> None ->
  let rc1 := set_checked (i64 (curNumMissingPackets rc + Sum (ack_MissingSequenceNumberOffsets msg)))
      (curNumCheckedPackets rc) (lastNumMissingPackets rc) rc in
  account_loss msg rc1 =
    Done tt (set_checked 0 (ack_NumPackets msg) (curNumMissingPackets rc1)
      (set_packetLossPercent (reported_loss msg rc) rc)).
Proof.
  intros Hm Hc Hp rc1. unfold account_loss, reported_loss. go_step. cbn [id].
  change (curNumCheckedPackets rc1) with (curNumCheckedPackets rc).
  destruct (rc_partContext rc) as [p|] eqn:Ep; [clear Hp|done].
  destruct (Z.eqb_spec (ack_NumPackets msg) (curNumCheckedPackets rc)) as [E|E]; cbn [negb].
  - go_step. cbn [id]. change (packetLossPercent rc1) with (packetLossPercent rc).
    change (rc_partContext rc1) with (rc_partContext rc). rewrite Ep.
    destruct (_ >? 0); go_step; destruct rc; reflexivity.
  - unfold go_div.
    destruct (Z.eqb_spec (i64 (ack_NumPackets msg - curNumCheckedPackets rc)) 0) as [E0|_].
    { by apply i64_sub_eq0 in E0. }
    go_step. cbn [id]. change (rc_partContext (set_packetLossPercent _ rc1)) with (rc_partContext rc). rewrite Ep.
    subst rc1. destruct (_ >? 0); go_step.
    all: cbn [curNumMissingPackets lastNumMissingPackets set_checked set_packetLossPercent].
    all: by rewrite set_checked_last.
Qed.

(** What an acknowledgement leaves. *)
Definition acked (msg : PartAckPacket) (rc : RateControl) : RateControl :=
  let rc1 := set_checked (i64 (curNumMissingPackets rc + Sum (ack_MissingSequenceNumberOffsets msg)))
      (curNumCheckedPackets rc) (lastNumMissingPackets rc) rc in
  set_lastInterval 0 0 (set_lastAck (zlen (ack_MissingSequenceNumbers msg)) (ack_RequestSequenceId msg)
    (if completes msg then
       react (set_checked 0 (ack_NumPackets msg) (curNumMissingPackets rc1)
         (set_packetLossPercent (reported_loss msg rc) rc))
     else rc1)).

Lemma AddAckMessage_eq msg rc :
  ack_ok msg -> accounts_ok rc -> rc_partContext rc <> None ->
  AddAckMessage msg rc = Done tt (acked msg rc).
Proof.
  intros Hm Hc Hp. unfold AddAckMessage, acked. go_step. fold (completes msg).
  destruct (completes msg); [|by go_step].
  rewrite (bind_assoc (account_loss msg)). rewrite (bind_Done _ _ _ _ _ (account_loss_eq msg rc Hm Hc Hp)).
  by go_step.
Qed.

Lemma react_context rc : rc_partContext (react rc) = rc_partContext rc.
Proof. unfold react, react_probe, react_drain, react_startup. rc_cases; done. Qed.

Lemma acked_context msg rc : rc_partContext (acked msg rc) = rc_partContext rc.
Proof. unfold acked. destruct (completes msg); [|done]. cbn. by rewrite react_context. Qed.

Lemma acked_accounts msg rc : ack_ok msg -> accounts_ok rc -> accounts_ok (acked msg rc).
Proof. intros Hm Hc. unfold acked, accounts_ok. destruct (completes msg); [|done]. cbn. by rewrite (proj1 (proj2 (proj2 (react_accounts _)))). Qed.

Lemma account_loss_keeps msg rc rc' :
  account_loss msg rc = Done tt rc' ->
  congestionWindow rc' = congestionWindow rc /\ rc_state rc' = rc_state rc /\
  windowCompletionTime rc' = windowCompletionTime rc.
Proof.
  unfold account_loss. go_step. cbn [id].
  destruct (negb _); [destruct (go_div _ _); [|done]|]; go_step; cbn [id];
    destruct (_ >? 0); try (destruct (rc_partContext _); [|done]); go_step; by intros [= <-].
Qed.

(** Any acknowledgement that does not end the program. *)
Lemma AddAckMessage_keeps msg rc rc' :
  rc_inv rc -> AddAckMessage msg rc = Done tt rc' ->
  rc_inv rc' /\ phase_move (rc_state rc) (rc_state rc') /\
  (congestionWindow rc' = congestionWindow rc /\ rc_state rc' = rc_state rc \/
   exists rc1, congestionWindow rc1 = congestionWindow rc /\ rc_state rc1 = rc_state rc /\
     congestionWindow rc' = congestionWindow (react rc1) /\ rc_state rc' = rc_state (react rc1)).
Proof.
  intros [Hw Ht]. unfold AddAckMessage. go_step. set (rc1 := set_checked _ _ _ rc).
  destruct (_ >=? _); go_step.
  - intros (u & rc2 & Ha & Hr)%bind_Done_inv. destruct u. revert Hr. go_step. intros [= <-].
    apply account_loss_keeps in Ha as (Hw2 & Hs2 & Ht2). cbn in Hw2, Hs2, Ht2.
    assert (Hinv2 : rc_inv rc2) by (split; congruence).
    destruct (react_moves rc2 Hinv2) as ((Hb & _) & Hp & Ht'). split_and!.
    + split; cbn; [done|]. congruence.
    + cbn. by rewrite <- Hs2.
    + right. by exists rc2.
  - intros [= <-]. split_and!; [done|apply phase_same|by left].
Qed.

Lemma rc_inv_step rc rc' : rc_step rc rc' -> rc_inv rc -> rc_inv rc'.
Proof.
  intros Hs Hinv. destruct Hs as [msg rc rc' E|n bts t rc rc' E|rc rc' E|rc rc' E|p rc rc' E].
  - by apply AddAckMessage_keeps in E as [? _].
  - destruct (Add_Done n bts rc Hinv) as (t' & Ha & _). rewrite Ha in E. injection E as _ <-. exact Hinv.
  - injection E as <-. exact Hinv.
  - injection E as <-. exact Hinv.
  - injection E as <-. exact Hinv.
Qed.

Lemma rc_inv_init : rc_inv NewRateControl.
Proof. split; [|done]. cbn. unfold START_CONGESTION_WINDOW, CONGESTION_WINDOW_MAX. lia. Qed.

Lemma rc_inv_reachable rc : rtc rc_step NewRateControl rc -> rc_inv rc.
Proof.
  assert (H : forall a b, rtc rc_step a b -> rc_inv a -> rc_inv b).
  { induction 1; [done|]. intros. by eauto using rc_inv_step. }
  intros Hr. eapply H; [exact Hr|apply rc_inv_init].
Qed.

(** *** Pacing *)

(** [k] packets sent one by one, and the time slept. *)
Fixpoint Add_packets (k : nat) (bts : Z) : go RateControl Z :=
  match k with
  | O => mret 0
  | S k' => t ← Add 1 bts; t' ← Add_packets k' bts; mret (t + t')
  end.

Lemma div_succ n w : 0 <= n -> 0 < w -> (n + 1) / w = n / w + (if (n + 1) mod w =? 0 then 1 else 0).
Proof.
  intros Hn Hw. pose proof (Z.div_mod n w ltac:(lia)). pose proof (Z.mod_pos_bound n w Hw).
  pose proof (Z.div_mod (n + 1) w ltac:(lia)). pose proof (Z.mod_pos_bound (n + 1) w Hw).
  destruct (Z.eqb_spec ((n + 1) mod w) 0); nia.
Qed.

Lemma Add_packets_time k bts rc :
  rc_inv rc -> 0 <= lastIntervalPackets rc -> lastIntervalPackets rc + Z.of_nat k < 2 ^ 63 ->
  exists t rc', Add_packets k bts rc = Done t rc' /\
    t = PACKET_WAITING_TIME *
      ((lastIntervalPackets rc + Z.of_nat k) / congestionWindow rc - lastIntervalPackets rc / congestionWindow rc).
Proof.
  induction k as [|k IH] in rc |- *; intros Hinv H0 Hk.
  { exists 0, rc. split; [done|]. rewrite Z.add_0_r. lia. }
  destruct (Add_Done 1 bts rc Hinv) as (t & Ha & Ht & Hz).
  cbn [Add_packets]. rewrite (bind_Done _ _ _ _ _ Ha).
  set (rc1 := set_lastInterval _ _ rc) in *.
  assert (Hn : lastIntervalPackets rc1 = lastIntervalPackets rc + 1).
  { cbn. apply i64_id. unfold in_i64. lia. }
  destruct (IH rc1) as (t' & rc' & Hr & Ht'); [exact Hinv|lia|lia|].
  rewrite (bind_Done _ _ _ _ _ Hr). eexists _, rc'. split; [reflexivity|].
  rewrite Ht', Hn. change (congestionWindow rc1) with (congestionWindow rc).
  destruct Hinv as [Hw _]. change (i64 (lastIntervalPackets rc + 1)) with (lastIntervalPackets rc1) in Hz.
  rewrite Hn, Z.rem_mod_nonneg in Hz by lia.
  replace (lastIntervalPackets rc + 1 + Z.of_nat k) with (lastIntervalPackets rc + Z.of_nat (S k)) by lia.
  pose proof (div_succ (lastIntervalPackets rc) (congestionWindow rc) H0 ltac:(lia)) as Hd.
  destruct (Z.eqb_spec ((lastIntervalPackets rc + 1) mod congestionWindow rc) 0) as [E|E].
  - rewrite (proj2 Hz E). lia.
  - destruct Ht as [Ht|Ht]; [by apply Hz in Ht|lia].
Qed.

(** ** The properties of the rate control *)

(** C18: whatever acknowledgements arrive and whatever is sent, the congestion
    window stays between 1 and its maximum, so that [Add] never divides by
    zero and returns in every state the program can reach. *)
Theorem window_bounded rc n bts :
  rtc rc_step NewRateControl rc ->
  1 <= congestionWindow rc <= CONGESTION_WINDOW_MAX /\ exists t rc', Add n bts rc = Done t rc'.
Proof.
  intros Hinv%rc_inv_reachable. split; [apply Hinv|].
  destruct (Add_Done n bts rc Hinv) as (t & Ha & _). eauto.
Qed.

(** C19: an acknowledgement never ends the program once a part context is set.
    The last packet of a request replaces the accounts (the packets missing so
    far become those of the last report, counting starts again at zero, the
    number of received packets is that of the message, the loss is the share
    of newly missing ones) and the window, the phase and the counters react to
    that loss as [reaction] says.  Any other packet adds its missing packets
    to the count and touches neither the window nor the phase.  Both kinds
    start a new interval and remember the message, and keep the window within
    its bounds. *)
Theorem AddAckMessage_reacts msg rc :
  rc_inv rc -> ack_ok msg -> accounts_ok rc -> rc_partContext rc <> None ->
  let missing := i64 (curNumMissingPackets rc + Sum (ack_MissingSequenceNumberOffsets msg)) in
  let interval rc' := set_lastInterval 0 0
    (set_lastAck (zlen (ack_MissingSequenceNumbers msg)) (ack_RequestSequenceId msg) rc') in
  exists rc', AddAckMessage msg rc = Done tt rc' /\ rc_inv rc' /\ accounts_ok rc' /\ interval rc' = rc' /\
    if completes msg then
      lastNumMissingPackets rc' = missing /\ curNumMissingPackets rc' = 0 /\
      curNumCheckedPackets rc' = ack_NumPackets msg /\ packetLossPercent rc' = reported_loss msg rc /\
      reaction (set_packetLossPercent (reported_loss msg rc) rc) rc' /\
      phase_move (rc_state rc) (rc_state rc')
    else rc' = interval (set_checked missing (curNumCheckedPackets rc) (lastNumMissingPackets rc) rc).
Proof.
  intros Hinv Hm Hc Hp missing interval. pose proof (AddAckMessage_eq msg rc Hm Hc Hp) as Ha.
  exists (acked msg rc). split; [done|]. split; [by eapply AddAckMessage_keeps|]. split; [by apply acked_accounts|].
  unfold acked. destruct (completes msg); [|done]. split; [done|].
  set (rc1 := set_checked 0 _ _ _). destruct (react_moves rc1 Hinv) as (_ & Hs & _).
  destruct (react_accounts rc1) as (E1 & E2 & E3 & E4). cbn. rewrite E1, E2, E3, E4. split_and!; try done.
  pose proof (react_reaction rc1 Hinv) as []. by split.
Qed.

(** C35: the pacing: [k] packets sent one by one after an acknowledgement sleep
    once per full congestion window, no more and no less. *)
Theorem Add_sleeps_once_per_window k bts rc :
  rc_inv rc -> lastIntervalPackets rc = 0 -> Z.of_nat k < 2 ^ 63 ->
  exists rc', Add_packets k bts rc =
    Done (PACKET_WAITING_TIME * (Z.of_nat k / congestionWindow rc)) rc'.
Proof.
  intros Hinv H0 Hk. destruct (Add_packets_time k bts rc Hinv) as (t & rc' & Hr & ->); [lia|lia|].
  exists rc'. rewrite Hr. f_equal. rewrite H0, Z.add_0_l, Zdiv_0_l. lia.
Qed.

(** What happens to a rate control while a part is sent. *)
Inductive sending_step : RateControl -> RateControl -> Prop :=
| sending_ack msg rc rc' : AddAckMessage msg rc = Done tt rc' -> sending_step rc rc'
| sending_add n bts t rc rc' : Add n bts rc = Done t rc' -> sending_step rc rc'.

(** C36: a congestion window that losses brought down to four packets or less
    never grows again while the part is sent, even without any further loss: a
    fifth of it is rounded down to nothing. *)
Theorem small_window_stuck rc rc' :
  rc_inv rc -> congestionWindow rc <= 4 -> rc_state rc <> RC_STATE_STARTUP ->
  rtc sending_step rc rc' -> congestionWindow rc' <= congestionWindow rc.
Proof.
  intros Hinv Hw Hs Hr. revert Hinv Hw Hs. induction Hr as [|rc rc1 rc' Hstep Hr IH]; [done|].
  intros Hinv Hw Hs. enough (rc_inv rc1 /\ congestionWindow rc1 <= congestionWindow rc /\ rc_state rc1 <> RC_STATE_STARTUP)
    as (Hinv1 & Hw1 & Hs1) by (etrans; [apply IH; (done || lia)|done]).
  destruct Hstep as [msg rc rc1 Ha|n bts t rc rc1 Ha].
  - apply AddAckMessage_keeps in Ha as (Hinv1 & Hphase & Hmove); [|done]. split; [done|].
    split; [|by eapply phase_not_startup]. destruct Hmove as [[-> _]|(rc2 & Hw2 & Hs2 & -> & _)]; [done|].
    rewrite <- Hw2. apply react_small; [rewrite Hw2; split; [apply Hinv|done]|congruence].
  - destruct (Add_Done n bts rc Hinv) as (t' & Ha' & _). rewrite Ha' in Ha. by injection Ha as _ <-.
Qed.

(** *** On concrete acknowledgements *)

(** The last packet of a request: [missing] packets missing of [n] received. *)
Definition ack (missing n : Z) : PartAckPacket := mkPartAckPacket 1 n 1 0 [1] [missing] 1 1 n false.

(** A sender in its startup phase. *)
Definition started : RateControl := set_rc_state RC_STATE_STARTUP (set_rc_partContext (Some O) NewRateControl).

(** Loss in every acknowledgement: the missing packets double each time. *)
Definition losses (k : nat) : list PartAckPacket := (fun i => ack (2 ^ i) (10 * i)) <$> seqZ 1 (Z.of_nat k).

Definition run_acks (l : list PartAckPacket) (rc : RateControl) : RateControl :=
  fold_left (fun rc msg => acked msg rc) l rc.

Lemma window_bounded_witness :
  exists rc, rtc rc_step NewRateControl rc /\
    1 <= congestionWindow rc <= CONGESTION_WINDOW_MAX /\ exists t rc', Add 1 1400 rc = Done t rc'.
Proof.
  exists started. assert (H : rtc rc_step NewRateControl started).
  { eapply rtc_l; [apply (rc_context (Some O)); reflexivity|]. eapply rtc_l; [apply rc_start; reflexivity|].
    apply rtc_refl. }
  split; [exact H|]. exact (window_bounded started 1 1400 H).
Defined.

Lemma AddAckMessage_reacts_witness :
  exists rc', AddAckMessage (ack 3 10) started = Done tt rc' /\ packetLossPercent rc' = 30 /\
    congestionWindow rc' = 50 /\ rc_state rc' = RC_STATE_DRAIN.
Proof.
  destruct (AddAckMessage_reacts (ack 3 10) started) as (rc' & Ha & _ & _ & _ & _ & _ & _ & Hl & Hr & _).
  - split; [split; discriminate|reflexivity].
  - split; [discriminate|reflexivity].
  - split; [discriminate|reflexivity].
  - discriminate.
  - exists rc'. split; [exact Ha|]. split; [exact Hl|]. exact (rn_startup _ _ Hr eq_refl).
Defined.

Lemma Add_sleeps_once_per_window_witness :
  exists rc', Add_packets 250 1400 started = Done 400000 rc'.
Proof.
  apply (Add_sleeps_once_per_window 250 1400 started); [|reflexivity|reflexivity].
  split; [split; discriminate|reflexivity].
Defined.

(** Twenty-five lossy acknowledgements bring the window down to two. *)
Lemma small_window_stuck_witness :
  congestionWindow (run_acks (losses 25) started) = 2 /\
  forall rc', rtc sending_step (run_acks (losses 25) started) rc' -> congestionWindow rc' <= 2.
Proof.
  split; [vm_compute; reflexivity|]. intros rc'.
  apply (small_window_stuck (run_acks (losses 25) started)).
  - vm_compute. split; [split; discriminate|reflexivity].
  - vm_compute. discriminate.
  - vm_compute. discriminate.
Defined.
