(* ===== verification/Gob.v ===== *)
(** * Gob: what the control plane uses of [encoding/gob]

    The wire format of the Go standard library for the control packets:
    unsigned integers in one byte or as a negated byte count and big-endian
    bytes, signed integers with the sign in the lowest bit, strings and
    slices with their length in front, structs as fields with the distance to
    the field before, where zero fields are left out, and a zero at the end.  A
    message is preceded by its length and starts with its type id.  The
    messages that describe types have a negative id and come first; both ends
    are this program, so the decoder skips them. *)

From S2P Require Import Prelude.
From Stdlib Require String.

(** ** Integers *)

(** The number of bytes of an unsigned integer. *)
Fixpoint uint_bytes (fuel : nat) (n : Z) : nat :=
  match fuel with
  | O => 1
  | S fuel' => if n <? 256 then 1 else S (uint_bytes fuel' (n / 256))
  end.

Definition encode_uint (n : Z) : list byte :=
  if n <? 128 then [byte.of_Z n]
  else let k := uint_bytes 7 n in byte.of_Z (256 - Z.of_nat k) :: be_bytes k n.

Definition decode_uint (bs : list byte) : option (Z * list byte) :=
  match bs with
  | [] => None
  | b :: rest =>
      let u := byte.unsigned b in
      if u <? 128 then Some (u, rest)
      else
        let k := Z.to_nat (256 - u) in
        if (8 <? k)%nat || (length rest <? k)%nat then None
        else Some (be_uint (take k rest), drop k rest)
  end.

Definition encode_int (i : Z) : list byte :=
  encode_uint (if i <? 0 then 2 * (- i - 1) + 1 else 2 * i).

Definition decode_int (bs : list byte) : option (Z * list byte) :=
  '(u, rest) ← decode_uint bs;
  Some (if Z.odd u then - (u / 2) - 1 else u / 2, rest).

Lemma uint_bytes_bounds fuel n :
  0 <= n < 256 ^ Z.of_nat (S fuel) ->
  (1 <= uint_bytes fuel n <= S fuel)%nat /\ n < 256 ^ Z.of_nat (uint_bytes fuel n).
Proof.
  induction fuel as [|fuel IH] in n |- *; intros Hn; cbn [uint_bytes].
  - split; [lia|]. exact (proj2 Hn).
  - destruct (Z.ltb_spec n 256) as [Hlt|Hge].
    + split; [lia|]. change (256 ^ Z.of_nat 1) with 256. lia.
    + assert (Hd : 0 <= n / 256 < 256 ^ Z.of_nat (S fuel)).
      { split; [apply Z.div_pos; lia|]. apply Z.div_lt_upper_bound; [lia|].
        rewrite <- Z.pow_succ_r, <- Nat2Z.inj_succ by lia. apply Hn. }
      destruct (IH _ Hd) as [Hk Hlt]. split; [lia|].
      rewrite Nat2Z.inj_succ, Z.pow_succ_r by lia.
      pose proof (Z.mul_div_le n 256). pose proof (Z.mod_pos_bound n 256). pose proof (Z.div_mod n 256). lia.
Qed.

Lemma unsigned_of_Z n : 0 <= n < 256 -> byte.unsigned (byte.of_Z n) = n.
Proof. intros. rewrite byte.unsigned_of_Z. unfold byte.wrap. by rewrite Z.mod_small. Qed.

Lemma decode_encode_uint n rest : in_u64 n -> decode_uint (encode_uint n ++ rest) = Some (n, rest).
Proof.
  unfold in_u64, encode_uint. intros Hn. destruct (Z.ltb_spec n 128) as [Hlt|Hge].
  - cbn [app decode_uint]. rewrite unsigned_of_Z by lia. by rewrite (proj2 (Z.ltb_lt n 128)).
  - destruct (uint_bytes_bounds 7 n) as [Hk Hb]; [exact Hn|]. set (k := uint_bytes 7 n) in *.
    cbn [app decode_uint]. rewrite unsigned_of_Z by lia.
    rewrite (proj2 (Z.ltb_ge _ 128)) by lia.
    replace (Z.to_nat (256 - (256 - Z.of_nat k))) with k by lia.
    rewrite length_app, length_be_bytes.
    rewrite (proj2 (Nat.ltb_ge 8 k)), (proj2 (Nat.ltb_ge (k + length rest) k)) by lia. cbn [orb].
    rewrite take_app_length', drop_app_length' by (by rewrite length_be_bytes).
    rewrite be_uint_be_bytes, Z.mod_small; [done|].
    replace (2 ^ (Z.of_nat k * 8)) with (256 ^ Z.of_nat k); [lia|].
    change 256 with (2 ^ 8). rewrite <- Z.pow_mul_r by lia. f_equal. lia.
Qed.

Lemma decode_encode_int i rest : in_i64 i -> decode_int (encode_int i ++ rest) = Some (i, rest).
Proof.
  unfold in_i64, encode_int, decode_int. intros Hi.
  rewrite decode_encode_uint by (unfold in_u64; destruct (Z.ltb_spec i 0); lia). cbn.
  destruct (Z.ltb_spec i 0).
  - rewrite Z.odd_add, Z.odd_mul. cbn [Z.odd andb xorb]. replace (2 * (- i - 1) + 1) with (1 + (- i - 1) * 2) by lia.
    rewrite Z.div_add by lia. change (1 / 2) with 0. cbn [xorb]. do 2 f_equal. lia.
  - rewrite Z.odd_mul, Z.mul_comm, Z.div_mul by lia. done.
Qed.

(** ** Values

    A codec of the values of a type: which of them is the zero value, that is
    left out of a struct, and how the others are written and read. *)
Record codec (A : Type) : Type := mkCodec {
  zero : A;
  is_zero : A -> bool;
  encode : A -> list byte;
  decode : list byte -> option (A * list byte);
}.
Arguments zero {A}. Arguments is_zero {A}. Arguments encode {A}. Arguments decode {A}.

(** On the values [ok] the codec reads back what it wrote. *)
Record codec_ok {A : Type} (ok : A -> Prop) (c : codec A) : Prop := {
  decode_encode : forall a rest, ok a -> decode c (encode c a ++ rest) = Some (a, rest);
  is_zero_zero : forall a, is_zero c a = true <-> a = zero c;
}.

Definition uint_codec : codec Z := mkCodec Z 0 (Z.eqb 0) encode_uint decode_uint.
Definition int_codec : codec Z := mkCodec Z 0 (Z.eqb 0) encode_int decode_int.
Definition bool_codec : codec bool :=
  mkCodec bool false negb (fun b => encode_uint (if b then 1 else 0))
    (fun bs => '(u, rest) ← decode_uint bs; Some (negb (u =? 0), rest)).

(** The first [n] bytes. *)
Definition split_at (n : Z) (bs : list byte) : option (list byte * list byte) :=
  if n <=? zlen bs then Some (take (Z.to_nat n) bs, drop (Z.to_nat n) bs) else None.

Definition string_codec : codec string :=
  mkCodec string "" (fun s => match s with EmptyString => true | _ => false end)
    (fun s => let l := String.list_byte_of_string s in encode_uint (zlen l) ++ l)
    (fun bs =>
      '(n, rest) ← decode_uint bs;
      '(l, rest) ← split_at n rest;
      Some (String.string_of_list_byte l, rest)).

(** The elements of a slice. *)
Fixpoint decode_elements {A : Type} (c : codec A) (n : nat) (bs : list byte) : option (list A * list byte) :=
  match n with
  | O => Some ([], bs)
  | S n' =>
      '(a, rest) ← decode c bs;
      '(l, rest) ← decode_elements c n' rest;
      Some (a :: l, rest)
  end.

Definition slice_codec {A : Type} (c : codec A) : codec (list A) :=
  mkCodec (list A) [] (fun l => match l with [] => true | _ => false end)
    (fun l => encode_uint (zlen l) ++ concat (encode c <$> l))
    (fun bs =>
      '(n, rest) ← decode_uint bs;
      if n <=? zlen rest then decode_elements c (Z.to_nat n) rest else None).

Lemma uint_codec_ok : codec_ok in_u64 uint_codec.
Proof.
  split; [apply decode_encode_uint|]. intros a.
  change (Z.eqb 0 a = true <-> a = 0). rewrite Z.eqb_eq. by split.
Qed.

Lemma int_codec_ok : codec_ok in_i64 int_codec.
Proof.
  split; [apply decode_encode_int|]. intros a.
  change (Z.eqb 0 a = true <-> a = 0). rewrite Z.eqb_eq. by split.
Qed.

Lemma bool_codec_ok : codec_ok (fun _ => True) bool_codec.
Proof.
  split; [|by intros []]. intros a rest _. cbn.
  rewrite decode_encode_uint by (unfold in_u64; destruct a; lia). by destruct a.
Qed.

Lemma string_codec_ok : codec_ok (fun s => zlen (String.list_byte_of_string s) < 2 ^ 63) string_codec.
Proof.
  split; [|by intros []]. intros a rest Hl. pose proof (zlen_nonneg (String.list_byte_of_string a)).
  cbn. rewrite <- app_assoc, decode_encode_uint by (unfold in_u64; lia). cbn.
  unfold split_at, zlen in *. rewrite length_app, (proj2 (Z.leb_le _ _)) by lia. cbn.
  rewrite Nat2Z.id, take_app_length, drop_app_length, String.string_of_list_byte_of_string. done.
Qed.

Section slices.
Context {A : Type} (ok : A -> Prop) (c : codec A).
Hypothesis Hc : codec_ok ok c.
(** An element takes at least one byte. *)
Hypothesis encode_nonempty : forall a, (1 <= length (encode c a))%nat.

Lemma decode_elements_encode (l : list A) rest :
  Forall ok l -> decode_elements c (length l) (concat (encode c <$> l) ++ rest) = Some (l, rest).
Proof.
  intros Hl. induction Hl as [|a l Ha Hl IH]; [done|]. cbn.
  rewrite <- app_assoc, (decode_encode _ _ Hc) by done. cbn. by rewrite IH.
Qed.

Lemma slice_codec_ok : codec_ok (fun l => Forall ok l /\ zlen l < 2 ^ 63) (slice_codec c).
Proof.
  split; [|by intros []]. intros l rest [Hl Hn]. pose proof (zlen_nonneg l). cbn.
  rewrite <- app_assoc, decode_encode_uint by (unfold in_u64; lia). cbn.
  assert (Hlen : (length l <= length (concat (encode c <$> l)))%nat).
  { clear -encode_nonempty. induction l as [|a l IH]; [done|]. cbn. rewrite length_app.
    specialize (encode_nonempty a). lia. }
  rewrite (proj2 (Z.leb_le _ _)) by (unfold zlen; rewrite length_app; lia).
  unfold zlen. rewrite Nat2Z.id. by apply decode_elements_encode.
Qed.

End slices.

(** ** Structs *)

Record field (S : Type) : Type := mkField {
  f_zero : S -> bool;
  f_encode : S -> list byte;
  f_decode : S -> list byte -> option (S * list byte);
  f_copy : S -> S -> S;
}.
Arguments f_zero {S}. Arguments f_encode {S}. Arguments f_decode {S}. Arguments f_copy {S}.

(** A field with its codec, and how it is read from and assigned to. *)
Definition field_of {S A : Type} (c : codec A) (get : S -> A) (set : A -> S -> S) : field S :=
  mkField S (fun s => is_zero c (get s)) (fun s => encode c (get s))
    (fun s0 bs => '(a, rest) ← decode c bs; Some (set a s0, rest))
    (fun s s0 => set (get s) s0).

(** The fields of [s] from a distance [gap] after the last one written. *)
Fixpoint encode_fields {S : Type} (fs : list (field S)) (gap : Z) (s : S) : list byte :=
  match fs with
  | [] => encode_uint 0
  | f :: fs' =>
      if f_zero f s then encode_fields fs' (gap + 1) s
      else encode_uint gap ++ f_encode f s ++ encode_fields fs' 1 s
  end.

(** Assign the fields that are there to [s0]. *)
Fixpoint decode_fields {S : Type} (fuel : nat) (fs : list (field S)) (s0 : S) (bs : list byte) :
    option (S * list byte) :=
  '(gap, rest) ← decode_uint bs;
  if gap =? 0 then Some (s0, rest)
  else
    match fuel, drop (Z.to_nat (gap - 1)) fs with
    | Datatypes.S fuel', f :: fs' =>
        '(s0, rest) ← f_decode f s0 rest;
        decode_fields fuel' fs' s0 rest
    | _, _ => None
    end.

(** What decoding makes of [s0]: the fields of [s] that are not zero. *)
Fixpoint overlay {S : Type} (fs : list (field S)) (s s0 : S) : S :=
  match fs with
  | [] => s0
  | f :: fs' => overlay fs' s (if f_zero f s then s0 else f_copy f s s0)
  end.

Definition field_ok {S : Type} (s : S) (f : field S) : Prop :=
  forall s0 rest, f_decode f s0 (f_encode f s ++ rest) = Some (f_copy f s s0, rest).

Lemma field_of_ok {S A : Type} (ok : A -> Prop) (c : codec A) get set (s : S) :
  codec_ok ok c -> ok (get s) -> field_ok s (field_of c get set).
Proof. intros Hc Ha s0 rest. cbn. by rewrite (decode_encode _ _ Hc). Qed.

Lemma decode_encode_fields {S : Type} (fs pre : list (field S)) (s s0 : S) fuel rest :
  Forall (field_ok s) fs -> (length fs < fuel)%nat -> zlen pre + zlen fs + 1 < 2 ^ 63 ->
  decode_fields fuel (pre ++ fs) s0 (encode_fields fs (zlen pre + 1) s ++ rest) = Some (overlay fs s s0, rest).
Proof.
  intros Hfs. induction Hfs as [|f fs Hf Hfs IH] in pre, s0, fuel |- *; intros Hfuel Hl.
  - pose proof (decode_encode_uint 0 rest ltac:(unfold in_u64; lia)) as H0.
    cbn [encode_fields]. destruct fuel; cbn [decode_fields]; by rewrite H0.
  - pose proof (zlen_nonneg pre). pose proof (zlen_nonneg fs).
    assert (Hz : zlen (f :: fs) = 1 + zlen fs) by (unfold zlen; cbn [length]; lia).
    cbn [encode_fields overlay]. destruct (f_zero f s) eqn:Ez.
    + specialize (IH (pre ++ [f]) s0 fuel). rewrite <- app_assoc in IH.
      replace (zlen (pre ++ [f])) with (zlen pre + 1) in IH by (unfold zlen; rewrite length_app; cbn [length]; lia).
      apply IH; [cbn in Hfuel; lia|lia].
    + destruct fuel as [|fuel]; [lia|]. cbn [decode_fields].
      rewrite <- !app_assoc, decode_encode_uint by (unfold in_u64; lia). cbn.
      rewrite (proj2 (Z.eqb_neq _ _)) by lia.
      replace (Z.to_nat (zlen pre + 1 - 1)) with (length pre) by (unfold zlen; lia).
      rewrite drop_app_length. rewrite (Hf s0). cbn.
      apply (IH [] (f_copy f s s0) fuel); [cbn in Hfuel; lia|change (zlen (@nil (field S))) with 0; lia].
Qed.

(** The codec of a slice's element of a struct type. *)
Definition struct_codec {S : Type} (fs : list (field S)) (z : S) : codec S :=
  mkCodec S z (fun s => forallb (fun f => f_zero f s) fs)
    (encode_fields fs 1) (decode_fields (Datatypes.S (length fs)) fs z).

(** ** Messages *)

Definition frame (payload : list byte) : list byte := encode_uint (zlen payload) ++ payload.

(** The message of a type description. *)
Definition encode_descriptor (d : Z * list byte) : list byte := frame (encode_int d.1 ++ d.2).

Definition encode_message {S : Type} (types : list (Z * list byte)) (id : Z) (fs : list (field S)) (s : S) : list byte :=
  concat (encode_descriptor <$> types) ++ frame (encode_int id ++ encode_fields fs 1 s).

(** Messages that describe types, and empty ones, are skipped. *)
Fixpoint decode_message {S : Type} (fuel : nat) (fs : list (field S)) (s0 : S) (bs : list byte) : option S :=
  match fuel with
  | O => None
  | Datatypes.S fuel' =>
      '(n, rest) ← decode_uint bs;
      '(payload, rest) ← split_at n rest;
      if n =? 0 then decode_message fuel' fs s0 rest
      else
        '(id, body) ← decode_int payload;
        if id <? 0 then decode_message fuel' fs s0 rest
        else '(s, _) ← decode_fields (Datatypes.S (length fs)) fs s0 body; Some s
  end.

(** A registry of types: descriptions have negative ids, the struct itself a
    positive one, and the messages are short. *)
Record types_ok (types : list (Z * list byte)) (id : Z) : Prop := {
  descriptor_ids : Forall (fun d => - 2 ^ 63 <= d.1 < 0 /\ zlen d.2 < 2 ^ 62) types;
  struct_id : 0 < id < 2 ^ 62;
}.

Lemma encode_uint_length n : 0 < zlen (encode_uint n) <= 9.
Proof.
  unfold encode_uint, zlen. destruct (n <? 128); [cbn; lia|]. cbn [length]. rewrite length_be_bytes.
  assert (H : forall fuel n, (1 <= uint_bytes fuel n <= Datatypes.S fuel)%nat).
  { induction fuel as [|fuel IH]; intros m; cbn [uint_bytes]; [lia|]. destruct (m <? 256); [lia|].
    specialize (IH (m / 256)). lia. }
  specialize (H 7%nat n). lia.
Qed.

Lemma decode_frame payload rest :
  zlen payload < 2 ^ 63 ->
  exists bs, decode_uint (frame payload ++ rest) = Some (zlen payload, bs) /\
    split_at (zlen payload) bs = Some (payload, rest).
Proof.
  intros Hl. pose proof (zlen_nonneg payload). exists (payload ++ rest). unfold frame.
  rewrite <- app_assoc, decode_encode_uint by (unfold in_u64; lia). split; [done|].
  unfold split_at, zlen in *. rewrite length_app, (proj2 (Z.leb_le _ _)) by lia.
  by rewrite Nat2Z.id, take_app_length, drop_app_length.
Qed.

Lemma decode_encode_message {S : Type} types id (fs : list (field S)) (s s0 : S) fuel rest :
  types_ok types id -> Forall (field_ok s) fs -> zlen fs < 2 ^ 62 ->
  zlen (encode_fields fs 1 s) < 2 ^ 62 -> (length types < fuel)%nat ->
  decode_message fuel fs s0 (encode_message types id fs s ++ rest) = Some (overlay fs s s0).
Proof.
  intros [Hds Hid] Hfs Hn Hlen Hfuel. pose proof (encode_uint_length (if id <? 0 then 2 * (- id - 1) + 1 else 2 * id)) as Hidl.
  unfold encode_message. induction Hds as [|[did body] types [Hd Hb] Hds IH] in fuel, Hfuel |- *;
    (destruct fuel as [|fuel]; [lia|]); cbn [fmap list_fmap concat decode_message].
  - destruct (decode_frame (encode_int id ++ encode_fields fs 1 s) rest) as (bs & H1 & H2).
    { unfold zlen in *. rewrite length_app. unfold encode_int. lia. }
    cbn [app]. rewrite H1. cbn [mbind option_bind]. rewrite H2. cbn [mbind option_bind].
    rewrite (proj2 (Z.eqb_neq _ 0)) by (unfold zlen in *; rewrite length_app; unfold encode_int; lia).
    rewrite decode_encode_int by (unfold in_i64; lia). cbn [mbind option_bind].
    rewrite (proj2 (Z.ltb_ge id 0)) by lia.
    pose proof (decode_encode_fields fs [] s s0 (Datatypes.S (length fs)) [] Hfs ltac:(lia)) as Hdec.
    rewrite app_nil_r in Hdec. change (zlen (@nil (field S)) + 1) with 1 in Hdec. cbn [app] in Hdec.
    pose proof (zlen_nonneg fs). by rewrite Hdec by (change (zlen (@nil (field S))) with 0; lia).
  - pose proof (encode_uint_length (if did <? 0 then 2 * (- did - 1) + 1 else 2 * did)) as Hdl.
    rewrite <- !app_assoc. unfold encode_descriptor at 1. cbn [fst snd] in *.
    destruct (decode_frame (encode_int did ++ body)
      (concat (encode_descriptor <$> types) ++ frame (encode_int id ++ encode_fields fs 1 s) ++ rest)) as (bs & H1 & H2).
    { unfold zlen in *. rewrite length_app. unfold encode_int. lia. }
    rewrite H1. cbn [mbind option_bind]. rewrite H2. cbn [mbind option_bind].
    rewrite (proj2 (Z.eqb_neq _ 0)) by (unfold zlen in *; rewrite length_app; unfold encode_int; lia).
    rewrite decode_encode_int by (unfold in_i64; lia). cbn. rewrite (proj2 (Z.ltb_lt did 0)) by lia.
    rewrite app_assoc. apply IH. cbn in Hfuel. lia.
Qed.
