(* ===== verification/Handshake.v ===== *)
(** * Handshake: [controlplane/handshake.go] and the codec of the control packets

    The handshake message, and the interface of [encoding/gob] that the
    control plane relies on: what is encoded is decoded again, whatever
    follows it in the buffer. *)

From S2P Require Import Prelude Interface Dataplane RateControl.

(** The exported fields travel, [raw] is the buffer of the datagram. *)
Record PartsHandshake : Type := mkPartsHandshake {
  hs_Version : Z;
  hs_Flags : Z;
  hs_Reserved : Z;
  hs_MTU : Z;
  hs_InterfaceSpeed : Z;
  hs_NumPorts : Z;
  hs_BufferSize : Z;
  hs_EstimatedBandwidthPerPort : Z;
  hs_NumTransfers : Z;
  hs_LocalAddr : string;
  hs_PartTransfers : list PartTransfer;
  raw : list byte;
}.

Definition set_raw (r : list byte) (hs : PartsHandshake) : PartsHandshake :=
  mkPartsHandshake (hs_Version hs) (hs_Flags hs) (hs_Reserved hs) (hs_MTU hs) (hs_InterfaceSpeed hs)
    (hs_NumPorts hs) (hs_BufferSize hs) (hs_EstimatedBandwidthPerPort hs) (hs_NumTransfers hs)
    (hs_LocalAddr hs) (hs_PartTransfers hs) r.

(** [hs.PartTransfers = ...] and [hs.LocalAddr = ...]. *)
Definition set_transfer (local : string) (ts : list PartTransfer) (hs : PartsHandshake) : PartsHandshake :=
  mkPartsHandshake (hs_Version hs) (hs_Flags hs) (hs_Reserved hs) (hs_MTU hs) (hs_InterfaceSpeed hs)
    (hs_NumPorts hs) (hs_BufferSize hs) (hs_EstimatedBandwidthPerPort hs) (hs_NumTransfers hs)
    local ts (raw hs).

Definition NewPartsHandshake : PartsHandshake :=
  mkPartsHandshake 0 0 0 0 0 0 0 0 0 "" [] (replicate (Z.to_nat PACKET_SIZE) Byte.x00).

(** The acknowledgement the receiver of a request packet decodes: the two
    structs have the same fields. *)
Definition ack_of (p : PartRequestPacket) : PartAckPacket :=
  mkPartAckPacket (req_PartId p) (req_LastSequenceNumber p) (req_NumPacketsPerTx p) (req_PacketTxIndex p)
    (req_MissingSequenceNumbers p) (req_MissingSequenceNumberOffsets p) (req_TransactionId p)
    (req_RequestSequenceId p) (req_NumPackets p) (req_PartFinished p).

(** The encoders and decoders of the control packets.  An acknowledgement is
    decoded into a zero struct, a handshake into one that exists. *)
Class Gob : Type := {
  gob_encode_request : PartRequestPacket -> error + list byte;
  gob_decode_ack : list byte -> error + PartAckPacket;
  gob_encode_handshake : PartsHandshake -> error + list byte;
  gob_decode_handshake : PartsHandshake -> list byte -> error + PartsHandshake;
}.

Class GobSpec `{Gob} : Type := {
  request_ok : PartRequestPacket -> Prop;
  handshake_ok : PartsHandshake -> Prop;
  gob_request : forall p, request_ok p -> exists bs, gob_encode_request p = inr bs /\
    forall pad, gob_decode_ack (bs ++ pad) = inr (ack_of p);
  gob_handshake : forall hs, handshake_ok hs -> exists bs, gob_encode_handshake hs = inr bs /\
    forall r pad,
      gob_decode_handshake (set_raw r NewPartsHandshake) (bs ++ pad) = inr (set_raw r hs) /\
      gob_decode_handshake (set_raw r hs) (bs ++ pad) = inr (set_raw r hs);
}.

Section handshake.
Context `{Gob}.

Definition Decode (hs : PartsHandshake) : error + PartsHandshake := gob_decode_handshake hs (raw hs).

Definition Encode (hs : PartsHandshake) : error + PartsHandshake :=
  match gob_encode_handshake hs with
  | inl err => inl err
  | inr bs => inr (set_raw bs hs)
  end.

End handshake.
