(* ===== verification/GobMessages.v ===== *)
(** * GobMessages: the control packets in the gob format

    The fields of the request, acknowledgement and handshake structs in their
    order of declaration, and the encoders and decoders they give.  Type ids
    and type descriptions come from the type registry of the running program;
    both ends run the same one. *)

From S2P Require Import Prelude Interface RateControl Handshake Gob.

(** What the registry holds for the two types that are sent. *)
Class TypeRegistry : Type := {
  request_types : list (Z * list byte);
  request_id : Z;
  handshake_types : list (Z * list byte);
  handshake_id : Z;
  request_registered : types_ok request_types request_id;
  handshake_registered : types_ok handshake_types handshake_id;
}.

Definition ints_codec : codec (list Z) := slice_codec int_codec.

(** ** Acknowledgements *)

(** A request and an acknowledgement have the same fields. *)
Definition ack_fields : list (field PartAckPacket) := [
  field_of int_codec ack_PartId (fun v s => mkPartAckPacket v (ack_LastSequenceNumber s)
    (ack_NumPacketsPerTx s) (ack_PacketTxIndex s) (ack_MissingSequenceNumbers s)
    (ack_MissingSequenceNumberOffsets s) (ack_TransactionId s) (ack_RequestSequenceId s)
    (ack_NumPackets s) (ack_PartFinished s));
  field_of int_codec ack_LastSequenceNumber (fun v s => mkPartAckPacket (ack_PartId s) v
    (ack_NumPacketsPerTx s) (ack_PacketTxIndex s) (ack_MissingSequenceNumbers s)
    (ack_MissingSequenceNumberOffsets s) (ack_TransactionId s) (ack_RequestSequenceId s)
    (ack_NumPackets s) (ack_PartFinished s));
  field_of int_codec ack_NumPacketsPerTx (fun v s => mkPartAckPacket (ack_PartId s)
    (ack_LastSequenceNumber s) v (ack_PacketTxIndex s) (ack_MissingSequenceNumbers s)
    (ack_MissingSequenceNumberOffsets s) (ack_TransactionId s) (ack_RequestSequenceId s)
    (ack_NumPackets s) (ack_PartFinished s));
  field_of int_codec ack_PacketTxIndex (fun v s => mkPartAckPacket (ack_PartId s)
    (ack_LastSequenceNumber s) (ack_NumPacketsPerTx s) v (ack_MissingSequenceNumbers s)
    (ack_MissingSequenceNumberOffsets s) (ack_TransactionId s) (ack_RequestSequenceId s)
    (ack_NumPackets s) (ack_PartFinished s));
  field_of ints_codec ack_MissingSequenceNumbers (fun v s => mkPartAckPacket (ack_PartId s)
    (ack_LastSequenceNumber s) (ack_NumPacketsPerTx s) (ack_PacketTxIndex s) v
    (ack_MissingSequenceNumberOffsets s) (ack_TransactionId s) (ack_RequestSequenceId s)
    (ack_NumPackets s) (ack_PartFinished s));
  field_of ints_codec ack_MissingSequenceNumberOffsets (fun v s => mkPartAckPacket (ack_PartId s)
    (ack_LastSequenceNumber s) (ack_NumPacketsPerTx s) (ack_PacketTxIndex s)
    (ack_MissingSequenceNumbers s) v (ack_TransactionId s) (ack_RequestSequenceId s) (ack_NumPackets
    s) (ack_PartFinished s));
  field_of int_codec ack_TransactionId (fun v s => mkPartAckPacket (ack_PartId s)
    (ack_LastSequenceNumber s) (ack_NumPacketsPerTx s) (ack_PacketTxIndex s)
    (ack_MissingSequenceNumbers s) (ack_MissingSequenceNumberOffsets s) v (ack_RequestSequenceId s)
    (ack_NumPackets s) (ack_PartFinished s));
  field_of int_codec ack_RequestSequenceId (fun v s => mkPartAckPacket (ack_PartId s)
    (ack_LastSequenceNumber s) (ack_NumPacketsPerTx s) (ack_PacketTxIndex s)
    (ack_MissingSequenceNumbers s) (ack_MissingSequenceNumberOffsets s) (ack_TransactionId s) v
    (ack_NumPackets s) (ack_PartFinished s));
  field_of int_codec ack_NumPackets (fun v s => mkPartAckPacket (ack_PartId s)
    (ack_LastSequenceNumber s) (ack_NumPacketsPerTx s) (ack_PacketTxIndex s)
    (ack_MissingSequenceNumbers s) (ack_MissingSequenceNumberOffsets s) (ack_TransactionId s)
    (ack_RequestSequenceId s) v (ack_PartFinished s));
  field_of bool_codec ack_PartFinished (fun v s => mkPartAckPacket (ack_PartId s)
    (ack_LastSequenceNumber s) (ack_NumPacketsPerTx s) (ack_PacketTxIndex s)
    (ack_MissingSequenceNumbers s) (ack_MissingSequenceNumberOffsets s) (ack_TransactionId s)
    (ack_RequestSequenceId s) (ack_NumPackets s) v)].

Definition zero_ack : PartAckPacket := mkPartAckPacket 0 0 0 0 [] [] 0 0 0 false.

(** ** Handshakes *)

Definition transfer_fields : list (field PartTransfer) := [
  field_of uint_codec tr_PartId (fun v s => mkPartTransfer v (tr_PartSize s) (tr_Port s));
  field_of uint_codec tr_PartSize (fun v s => mkPartTransfer (tr_PartId s) v (tr_Port s));
  field_of uint_codec tr_Port (fun v s => mkPartTransfer (tr_PartId s) (tr_PartSize s) v)].

Definition transfers_codec : codec (list PartTransfer) :=
  slice_codec (struct_codec transfer_fields (mkPartTransfer 0 0 0)).

(** The field [raw] is not exported and stays. *)
Definition handshake_fields : list (field PartsHandshake) := [
  field_of uint_codec hs_Version (fun v s => mkPartsHandshake v (hs_Flags s) (hs_Reserved s) (hs_MTU
    s) (hs_InterfaceSpeed s) (hs_NumPorts s) (hs_BufferSize s) (hs_EstimatedBandwidthPerPort s)
    (hs_NumTransfers s) (hs_LocalAddr s) (hs_PartTransfers s) (raw s));
  field_of uint_codec hs_Flags (fun v s => mkPartsHandshake (hs_Version s) v (hs_Reserved s) (hs_MTU
    s) (hs_InterfaceSpeed s) (hs_NumPorts s) (hs_BufferSize s) (hs_EstimatedBandwidthPerPort s)
    (hs_NumTransfers s) (hs_LocalAddr s) (hs_PartTransfers s) (raw s));
  field_of uint_codec hs_Reserved (fun v s => mkPartsHandshake (hs_Version s) (hs_Flags s) v (hs_MTU
    s) (hs_InterfaceSpeed s) (hs_NumPorts s) (hs_BufferSize s) (hs_EstimatedBandwidthPerPort s)
    (hs_NumTransfers s) (hs_LocalAddr s) (hs_PartTransfers s) (raw s));
  field_of uint_codec hs_MTU (fun v s => mkPartsHandshake (hs_Version s) (hs_Flags s) (hs_Reserved
    s) v (hs_InterfaceSpeed s) (hs_NumPorts s) (hs_BufferSize s) (hs_EstimatedBandwidthPerPort s)
    (hs_NumTransfers s) (hs_LocalAddr s) (hs_PartTransfers s) (raw s));
  field_of uint_codec hs_InterfaceSpeed (fun v s => mkPartsHandshake (hs_Version s) (hs_Flags s)
    (hs_Reserved s) (hs_MTU s) v (hs_NumPorts s) (hs_BufferSize s) (hs_EstimatedBandwidthPerPort s)
    (hs_NumTransfers s) (hs_LocalAddr s) (hs_PartTransfers s) (raw s));
  field_of uint_codec hs_NumPorts (fun v s => mkPartsHandshake (hs_Version s) (hs_Flags s)
    (hs_Reserved s) (hs_MTU s) (hs_InterfaceSpeed s) v (hs_BufferSize s)
    (hs_EstimatedBandwidthPerPort s) (hs_NumTransfers s) (hs_LocalAddr s) (hs_PartTransfers s) (raw
    s));
  field_of uint_codec hs_BufferSize (fun v s => mkPartsHandshake (hs_Version s) (hs_Flags s)
    (hs_Reserved s) (hs_MTU s) (hs_InterfaceSpeed s) (hs_NumPorts s) v (hs_EstimatedBandwidthPerPort
    s) (hs_NumTransfers s) (hs_LocalAddr s) (hs_PartTransfers s) (raw s));
  field_of uint_codec hs_EstimatedBandwidthPerPort (fun v s => mkPartsHandshake (hs_Version s)
    (hs_Flags s) (hs_Reserved s) (hs_MTU s) (hs_InterfaceSpeed s) (hs_NumPorts s) (hs_BufferSize s)
    v (hs_NumTransfers s) (hs_LocalAddr s) (hs_PartTransfers s) (raw s));
  field_of uint_codec hs_NumTransfers (fun v s => mkPartsHandshake (hs_Version s) (hs_Flags s)
    (hs_Reserved s) (hs_MTU s) (hs_InterfaceSpeed s) (hs_NumPorts s) (hs_BufferSize s)
    (hs_EstimatedBandwidthPerPort s) v (hs_LocalAddr s) (hs_PartTransfers s) (raw s));
  field_of string_codec hs_LocalAddr (fun v s => mkPartsHandshake (hs_Version s) (hs_Flags s)
    (hs_Reserved s) (hs_MTU s) (hs_InterfaceSpeed s) (hs_NumPorts s) (hs_BufferSize s)
    (hs_EstimatedBandwidthPerPort s) (hs_NumTransfers s) v (hs_PartTransfers s) (raw s));
  field_of transfers_codec hs_PartTransfers (fun v s => mkPartsHandshake (hs_Version s) (hs_Flags s)
    (hs_Reserved s) (hs_MTU s) (hs_InterfaceSpeed s) (hs_NumPorts s) (hs_BufferSize s)
    (hs_EstimatedBandwidthPerPort s) (hs_NumTransfers s) (hs_LocalAddr s) v (raw s))].

Definition or_gob_error {A : Type} (o : option A) : error + A :=
  match o with Some a => inr a | None => inl (GobError 0) end.

#[export] Instance go_gob `{TypeRegistry} : Gob := {|
  gob_encode_request p := inr (encode_message request_types request_id ack_fields (ack_of p));
  gob_decode_ack bs := or_gob_error (decode_message (length bs) ack_fields zero_ack bs);
  gob_encode_handshake hs := inr (encode_message handshake_types handshake_id handshake_fields hs);
  gob_decode_handshake hs bs := or_gob_error (decode_message (length bs) handshake_fields hs bs);
|}.

(** ** The format keeps its promise *)

(** The values that travel are machine integers, and messages are shorter than
    [2^62] bytes. *)
Record ack_in_range (p : PartAckPacket) : Prop := {
  ack_ints : Forall in_i64 [ack_PartId p; ack_LastSequenceNumber p; ack_NumPacketsPerTx p; ack_PacketTxIndex p;
    ack_TransactionId p; ack_RequestSequenceId p; ack_NumPackets p];
  ack_nums : Forall in_i64 (ack_MissingSequenceNumbers p) /\ zlen (ack_MissingSequenceNumbers p) < 2 ^ 63;
  ack_offs : Forall in_i64 (ack_MissingSequenceNumberOffsets p) /\ zlen (ack_MissingSequenceNumberOffsets p) < 2 ^ 63;
  ack_short : zlen (encode_fields ack_fields 1 p) < 2 ^ 62;
}.

Definition transfer_in_range (t : PartTransfer) : Prop :=
  in_u64 (tr_PartId t) /\ in_u64 (tr_PartSize t) /\ in_u64 (tr_Port t).

Record handshake_in_range (hs : PartsHandshake) : Prop := {
  hs_ints : Forall in_u64 [hs_Version hs; hs_Flags hs; hs_Reserved hs; hs_MTU hs; hs_InterfaceSpeed hs;
    hs_NumPorts hs; hs_BufferSize hs; hs_EstimatedBandwidthPerPort hs; hs_NumTransfers hs];
  hs_addr : zlen (String.list_byte_of_string (hs_LocalAddr hs)) < 2 ^ 63;
  hs_transfers : Forall transfer_in_range (hs_PartTransfers hs) /\ zlen (hs_PartTransfers hs) < 2 ^ 63;
  hs_short : zlen (encode_fields handshake_fields 1 hs) < 2 ^ 62;
}.

Lemma ints_codec_ok : codec_ok (fun l => Forall in_i64 l /\ zlen l < 2 ^ 63) ints_codec.
Proof.
  apply slice_codec_ok; [exact int_codec_ok|]. intros i. cbn. unfold encode_int.
  pose proof (encode_uint_length (if i <? 0 then 2 * (- i - 1) + 1 else 2 * i)). unfold zlen in *. lia.
Qed.

(** Every field by the codec it is declared with. *)
Ltac fields_ok :=
  repeat match goal with
  | |- Forall _ (_ :: _) => apply Forall_cons_2
  | |- Forall _ [] => apply Forall_nil_2
  | |- field_ok _ (field_of int_codec _ _) => apply (field_of_ok in_i64); [exact int_codec_ok|assumption]
  | |- field_ok _ (field_of uint_codec _ _) => apply (field_of_ok in_u64); [exact uint_codec_ok|assumption]
  | |- field_ok _ (field_of bool_codec _ _) => eapply field_of_ok; [exact bool_codec_ok|exact I]
  | |- field_ok _ (field_of string_codec _ _) => eapply field_of_ok; [exact string_codec_ok|assumption]
  | |- field_ok _ (field_of ints_codec _ _) => eapply field_of_ok; [exact ints_codec_ok|assumption]
  end.

Lemma ack_fields_ok p : ack_in_range p -> Forall (field_ok p) ack_fields.
Proof.
  intros [Hi Hn Ho _]. rewrite !Forall_cons in Hi. destruct Hi as (? & ? & ? & ? & ? & ? & ? & _).
  unfold ack_fields. fields_ok.
Qed.

(** A zero field of the zero struct needs no assignment. *)
Lemma overlay_field {S A : Type} (ok : A -> Prop) (c : codec A) get set (fs : list (field S)) (s s0 : S) :
  codec_ok ok c -> (get s = zero c -> set (get s) s0 = s0) ->
  overlay (field_of c get set :: fs) s s0 = overlay fs s (set (get s) s0).
Proof.
  intros Hc Hz. cbn. destruct (is_zero c (get s)) eqn:E; [|done].
  apply (is_zero_zero _ _ Hc) in E. by rewrite Hz.
Qed.

Lemma overlay_keep {S : Type} (fs : list (field S)) (s s0 : S) :
  Forall (fun f => f_copy f s s0 = s0) fs -> overlay fs s s0 = s0.
Proof. intros Hf. induction Hf as [|f fs Hf Hfs IH]; [done|]. cbn. rewrite Hf. by destruct (f_zero f s). Qed.

Ltac assign_field H :=
  rewrite (overlay_field _ _ _ _ _ _ _ H) by (cbn; intros ->; reflexivity); cbn -[overlay].

Ltac assign_all :=
  repeat first [assign_field int_codec_ok | assign_field uint_codec_ok | assign_field bool_codec_ok
               | assign_field string_codec_ok | assign_field ints_codec_ok].

Lemma overlay_ack p : overlay ack_fields p zero_ack = p.
Proof. destruct p. unfold ack_fields, zero_ack. assign_all. reflexivity. Qed.

Lemma overlay_transfer t : overlay transfer_fields t (mkPartTransfer 0 0 0) = t.
Proof. destruct t. unfold transfer_fields. assign_all. reflexivity. Qed.

Lemma transfer_codec_ok :
  codec_ok transfer_in_range (struct_codec transfer_fields (mkPartTransfer 0 0 0)).
Proof.
  split.
  - intros t rest (H1 & H2 & H3).
    assert (Hf : Forall (field_ok t) transfer_fields) by (unfold transfer_fields; fields_ok).
    pose proof (decode_encode_fields transfer_fields [] t (mkPartTransfer 0 0 0) 4 rest Hf
      ltac:(cbn; lia) ltac:(reflexivity)) as Hd.
    rewrite overlay_transfer in Hd. exact Hd.
  - intros [a b c]. change (forallb (fun f => f_zero f (mkPartTransfer a b c)) transfer_fields = true <->
      mkPartTransfer a b c = mkPartTransfer 0 0 0).
    cbn [transfer_fields forallb f_zero field_of tr_PartId tr_PartSize tr_Port].
    rewrite !andb_true_iff, !(is_zero_zero _ _ uint_codec_ok). cbn. intuition congruence.
Qed.

Lemma transfers_codec_ok : codec_ok (fun l => Forall transfer_in_range l /\ zlen l < 2 ^ 63) transfers_codec.
Proof.
  apply slice_codec_ok; [exact transfer_codec_ok|]. intros t. cbn [struct_codec encode].
  generalize 1 as gap. induction transfer_fields as [|f fs IH]; intros gap; cbn [encode_fields].
  - pose proof (encode_uint_length 0). unfold zlen in *. lia.
  - destruct (f_zero f t); [apply IH|]. rewrite length_app. pose proof (encode_uint_length gap). unfold zlen in *. lia.
Qed.

Lemma handshake_fields_ok hs : handshake_in_range hs -> Forall (field_ok hs) handshake_fields.
Proof.
  intros [Hi Ha Ht _]. rewrite !Forall_cons in Hi. destruct Hi as (? & ? & ? & ? & ? & ? & ? & ? & ? & _).
  unfold handshake_fields. fields_ok. eapply field_of_ok; [exact transfers_codec_ok|exact Ht].
Qed.

Lemma overlay_handshake hs r :
  overlay handshake_fields hs (set_raw r NewPartsHandshake) = set_raw r hs.
Proof.
  destruct hs. unfold handshake_fields, set_raw, NewPartsHandshake. assign_all.
  assign_field transfers_codec_ok. reflexivity.
Qed.

Lemma overlay_same hs r : overlay handshake_fields hs (set_raw r hs) = set_raw r hs.
Proof. apply overlay_keep. unfold handshake_fields. by repeat constructor. Qed.

Lemma types_short {types id} (bs : list byte) : (length types < length (concat (encode_descriptor <$> types) ++
    frame (encode_int id ++ bs)))%nat.
Proof.
  induction types as [|d types IH]; cbn [fmap list_fmap concat].
  - unfold frame. rewrite !length_app. pose proof (encode_uint_length (zlen (encode_int id ++ bs))).
    unfold zlen in *. cbn [length] in *. lia.
  - rewrite <- app_assoc, length_app. unfold encode_descriptor at 1, frame at 1. rewrite length_app.
    pose proof (encode_uint_length (zlen (encode_int d.1 ++ d.2))). unfold zlen in *. cbn [length] in *. lia.
Qed.

#[export, refine] Instance go_gob_spec `{TypeRegistry} : GobSpec := {|
  request_ok p := ack_in_range (ack_of p);
  handshake_ok hs := handshake_in_range hs;
|}.
Proof.
  - intros p Hp. eexists. split; [reflexivity|]. intros pad. cbn [gob_decode_ack go_gob].
    rewrite (decode_encode_message request_types request_id ack_fields (ack_of p) zero_ack).
    + by rewrite overlay_ack.
    + exact request_registered.
    + by apply ack_fields_ok.
    + reflexivity.
    + apply Hp.
    + rewrite length_app. pose proof (types_short (types := request_types) (id := request_id)
        (encode_fields ack_fields 1 (ack_of p))). unfold encode_message. lia.
  - intros hs Hhs. eexists. split; [reflexivity|]. intros r pad. cbn [gob_decode_handshake go_gob].
    pose proof (types_short (types := handshake_types) (id := handshake_id) (encode_fields handshake_fields 1 hs)).
    pose proof (handshake_fields_ok hs Hhs).
    split; rewrite (decode_encode_message handshake_types handshake_id handshake_fields hs).
    all: try exact handshake_registered. all: try done. all: try apply Hhs.
    all: try (rewrite length_app; unfold encode_message; lia).
    + by rewrite overlay_handshake.
    + by rewrite overlay_same.
Defined.

(** A registry whose type descriptions are already known to the other end. *)
#[export, refine] Instance known_types : TypeRegistry := {|
  request_types := [];
  request_id := 65;
  handshake_types := [];
  handshake_id := 67;
|}.
Proof. all: split; [constructor|lia]. Defined.

(** ** The property of the handshake message *)

(** C23: a handshake encoded by one end is decoded by the other from its
    datagram, whatever follows it in the buffer: every exported field arrives
    and the buffer of the receiving struct stays its own. *)
Theorem Encode_Decode_handshake `{TypeRegistry} (hs : PartsHandshake) pad :
  handshake_in_range hs ->
  exists sent, Encode hs = inr sent /\
    Decode (set_raw (raw sent ++ pad) NewPartsHandshake) = inr (set_raw (raw sent ++ pad) hs).
Proof.
  intros Hhs. destruct (@gob_handshake _ go_gob_spec hs Hhs) as (bs & He & Hd).
  exists (set_raw bs hs). unfold Encode, Decode. rewrite He. split; [done|].
  exact (proj1 (Hd (bs ++ pad) pad)).
Qed.

(** The handshake of a dialing end. *)
Definition dialing : PartsHandshake :=
  set_transfer "19-ffaa:1:cf1,[127.0.0.1]:8001" [mkPartTransfer 1 2000000000 0] NewPartsHandshake.

Lemma dialing_in_range : handshake_in_range dialing.
Proof.
  split.
  - repeat (apply Forall_cons_2; [split; [discriminate|reflexivity]|]). apply Forall_nil_2.
  - reflexivity.
  - split; [|reflexivity]. apply Forall_cons_2; [|apply Forall_nil_2].
    split_and!; (split; [discriminate|reflexivity]).
  - reflexivity.
Qed.

Lemma Encode_Decode_handshake_witness :
  exists sent, Encode dialing = inr sent /\
    Decode (set_raw (raw sent ++ replicate 100 Byte.x00) NewPartsHandshake) =
      inr (set_raw (raw sent ++ replicate 100 Byte.x00) dialing).
Proof. exact (Encode_Decode_handshake dialing (replicate 100 Byte.x00) dialing_in_range). Defined.
