(* ===== verification/ControlPlane.v ===== *)
(** * ControlPlane: [controlplane/controlplane.go]

    Handshakes, acknowledgements and requests for retransfers.  The control
    plane shares the data plane and the part contexts with the connection: its
    operations are fragments on the same world, whose owner state it is.
    Goroutines it starts are counted; what they do at each message or tick is
    a fragment of its own, and [as_goroutine] runs one in the background. *)

From S2P Require Import Prelude Utils Interface Packer PartContext Metrics Dataplane SCIONPacker RateControl Handshake.

Definition CP_STATE_SENDING : Z := 100.
Definition CP_STATE_RETRANSFER : Z := 101.
Definition CP_STATE_PENDING : Z := 200.
Definition CP_STATE_RECEIVING : Z := 300.

(** The data plane and the packet channel are those of the world; the two
    counters are the goroutines that wait on the two stop channels. *)
Record ControlPlane : Type := mkControlPlane {
  cp_state : Z;
  cp_PartContext : option nat;
  Ratecontrol : RateControl;
  currentPartId : Z;
  ack_handlers : nat;
  requesters : nat;
}.

Definition NewControlPlane : ControlPlane := mkControlPlane 0 None NewRateControl 0 0 0.

Definition set_cp_state (s : Z) (cp : ControlPlane) : ControlPlane :=
  mkControlPlane s (cp_PartContext cp) (Ratecontrol cp) (currentPartId cp) (ack_handlers cp) (requesters cp).

Definition set_cp_PartContext (p : option nat) (cp : ControlPlane) : ControlPlane :=
  mkControlPlane (cp_state cp) p (Ratecontrol cp) (currentPartId cp) (ack_handlers cp) (requesters cp).

Definition set_Ratecontrol (rc : RateControl) (cp : ControlPlane) : ControlPlane :=
  mkControlPlane (cp_state cp) (cp_PartContext cp) rc (currentPartId cp) (ack_handlers cp) (requesters cp).

Definition set_currentPartId (n : Z) (cp : ControlPlane) : ControlPlane :=
  mkControlPlane (cp_state cp) (cp_PartContext cp) (Ratecontrol cp) n (ack_handlers cp) (requesters cp).

Definition set_goroutines (handlers reqs : nat) (cp : ControlPlane) : ControlPlane :=
  mkControlPlane (cp_state cp) (cp_PartContext cp) (Ratecontrol cp) (currentPartId cp) handlers reqs.

Definition at_ratecontrol {A : Type} (m : go RateControl A) : go ControlPlane A := zoom Ratecontrol set_Ratecontrol m.

(** The closures stored in a part context: that of [Handshake] counts in the
    rate control, that of [AwaitHandshake] is empty. *)
#[export] Instance cp_listener : StatusListener ControlPlane := {|
  run_status cb numMsg bts :=
    match cb with
    | CountInRateControl => _ ← at_ratecontrol (Add numMsg bts); mret tt
    | IgnoreStatus => mret tt
    end;
|}.

(** The rate control never fails on the states it reaches. *)
#[export, refine] Instance cp_listener_spec : StatusListenerSpec ControlPlane := {|
  listener_ok cp := rc_inv (Ratecontrol cp);
|}.
Proof.
  intros cb n bts cp Hcp. destruct cb; [|by exists cp].
  destruct (Add_Done n bts (Ratecontrol cp) Hcp) as (t & Ha & _).
  cbn [run_status cp_listener]. eexists. split.
  - unfold mbind, go_bind, at_ratecontrol, zoom. rewrite Ha. reflexivity.
  - exact Hcp.
Defined.

(** A goroutine in the background: when it blocks, the others go on. *)
Definition as_goroutine {S : Type} (m : go S unit) : go S unit := fun s =>
  match m s with
  | Done _ s' => Done tt s'
  | Faulted f => Faulted f
  | Blocked s' => Done tt s'
  end.

(** Wait for good. *)
Definition block {S A : Type} : go S A := fun s => Blocked s.

(** Run a fragment on a new object. *)
Definition with_new {S T A : Type} (t : T) (m : go T A) : go S (A * T) := fun s =>
  match m t with
  | Done a t' => Done (a, t') s
  | Faulted f => Faulted f
  | Blocked _ => Blocked s
  end.

Section controlplane.
Context {C Addr IA Serializer : Type} `{SCIONNet C Addr} `{PathLib Addr IA Serializer}.
Context `{PartsPacketPacker} `{Gob}.

(** The whole program's state, as the control plane sees it. *)
Abbreviation W := (world C Addr ControlPlane).

Definition at_cp {A : Type} (m : go ControlPlane A) : go W A := at_owner m.

Definition SetPartContext (p : option nat) : go W unit :=
  at_cp (modify (set_cp_PartContext p);; at_ratecontrol (RateControl.SetPartContext p)).

Definition SetState (s : Z) : go W unit := at_cp (modify (set_cp_state s)).

Definition StartWritepart : go W unit :=
  at_cp (modify (fun cp => set_goroutines (S (ack_handlers cp)) (requesters cp) cp)).

Definition StartReadpart : go W unit :=
  at_cp (modify (fun cp => set_goroutines (ack_handlers cp) (S (requesters cp)) cp)).

(** Empty bodies: all of it is commented out. *)
Definition Run : go W unit := mret tt.
Definition FinishWritepart : go W unit := mret tt.

(** [*cp.PartContext]: a nil pointer panics. *)
Definition own_part : go W nat :=
  p ← gets (fun w => cp_PartContext (owner w));
  or_fail NilDeref p.

(** ** Handshakes *)

Definition NextPartId : go W Z :=
  at_cp (modify (fun cp => set_currentPartId (i64 (currentPartId cp + 1)) cp);; gets currentPartId).

(** [cp.Dataplane.Read(hs.raw)]: errors are dropped. *)
Definition read_raw (hs : PartsHandshake) : go W PartsHandshake :=
  '(bs, _) ← at_dp (Read (zlen (raw hs)));
  mret (set_raw (read_buffer (raw hs) bs) hs).

(** [if cp.Dataplane.RemoteAddr() == nil { SetRemoteAddr(hs.LocalAddr) }] *)
Definition learn_remote (hs : PartsHandshake) : go W unit :=
  remote ← at_dp RemoteAddr;
  match remote with
  | Some _ => mret tt
  | None => _ ← at_dp (SetRemoteAddr (hs_LocalAddr hs)); mret tt
  end.

Definition Accept : go W (option error) :=
  hs ← read_raw NewPartsHandshake;
  match Decode hs with
  | inl err => mret (Some err)
  | inr hs => learn_remote hs;; mret None
  end.

(** The handshake for a part of [size] bytes. *)
Definition transfer_handshake (partId size : Z) : go W PartsHandshake :=
  local ← at_dp LocalAddr;
  mret (set_transfer (UDPAddr_String local) [mkPartTransfer (u64 partId) (u64 size) 0] NewPartsHandshake).

Definition InitialHandshake (data : list byte) : go W (option error) :=
  nextPartId ← NextPartId;
  hs ← transfer_handshake nextPartId (zlen data);
  match Encode hs with
  | inl err => mret (Some err)
  | inr hs => _ ← at_dp (Write (raw hs)); mret None
  end.

(** [hs.PartTransfers[0]] *)
Definition first_transfer (hs : PartsHandshake) : go W PartTransfer :=
  or_fail IndexRange (go_index (hs_PartTransfers hs) 0).

(** A part context whose transport packer knows both addresses.  [SetRemote]
    may change the remote address behind the pointer of the data plane. *)
Definition transport_packer : go W TransportPacketPacker :=
  local ← at_dp LocalAddr;
  remote ← at_dp RemoteAddr;
  '(remote, up) ← with_new NewSCIONPacketPacker (SCIONPacker.SetLocal local;; SetRemote remote);
  at_dp (modify (fun d => set_addrs (Some remote) (localAddr d) (listenAddr d) d));;
  mret (as_transport up).

(** The struct literal of [dataplane.PartContext]. *)
Definition new_PartContext (cb : status_callback) (partId : Z) (data : list byte)
    (transport : TransportPacketPacker) : PartContext :=
  mkPartContext (mkSocketOptions false false false) cb transport false PACKET_SIZE 0 0 0 0
    data [] 0 [] [] 0 partId false 0.

(** [partContext.Prepare()]: outside testing mode the testing state is not
    touched. *)
Definition prepared_part (b : PartContext) : go W PartContext :=
  '(_, (_, b)) ← with_new (mkTestingState [] false, b) Prepare;
  mret b.

(** A pointer to a new part context. *)
Definition alloc_part (b : PartContext) : go W nat :=
  ps ← gets parts;
  let p := fresh (dom ps) in
  modify (set_parts (<[p := b]> ps));;
  mret p.

(** The own message is decoded again, not the answer. *)
Definition Handshake (data : list byte) : go W (error + nat) :=
  nextPartId ← NextPartId;
  hs ← transfer_handshake nextPartId (zlen data);
  match Encode hs with
  | inl err => mret (inl err)
  | inr hs =>
      _ ← at_dp (Write (raw hs));
      _ ← read_raw NewPartsHandshake;
      match Decode hs with
      | inl err => mret (inl err)
      | inr hs =>
          t ← first_transfer hs;
          transport ← transport_packer;
          b ← prepared_part (new_PartContext CountInRateControl (i64 (tr_PartId t)) data transport);
          p ← alloc_part b;
          mret (inr p)
      end
  end.

Definition AwaitHandshake (b : list byte) : go W (error + nat) :=
  hs ← read_raw NewPartsHandshake;
  match Decode hs with
  | inl err => mret (inl err)
  | inr hs =>
      learn_remote hs;;
      t ← first_transfer hs;
      local ← at_dp LocalAddr;
      let retHs := set_transfer (UDPAddr_String local) [mkPartTransfer (tr_PartId t) (tr_PartSize t) 0]
        NewPartsHandshake in
      transport ← transport_packer;
      pc ← prepared_part (new_PartContext IgnoreStatus (i64 (tr_PartId t)) b transport);
      buffer ← or_fail MakeLen (go_make Byte.x00 (RecommendedBufferSize pc));
      match Encode retHs with
      | inl err => mret (inl err)
      | inr retHs =>
          _ ← at_dp (Write (raw retHs));
          p ← alloc_part (set_Buffer buffer pc);
          mret (inr p)
      end
  end.

(** ** Acknowledgements, at the sender *)

Definition parsePartAckPacket (packet : list byte) : error + PartAckPacket := gob_decode_ack packet.

(** The loop over the requested ranges, from index [i] on: a range is added
    when no range with the same start is there. *)
Fixpoint add_missing (nums : list Z) (i : Z) (offs : list Z) : go W unit :=
  match nums with
  | [] => mret tt
  | v :: nums' =>
      p ← own_part;
      known ← at_part p (gets MissingSequenceNums);
      (if IndexOf v known <? 0 then
         off ← or_fail IndexRange (go_index offs i);
         at_part p (modify (fun b => set_Missing (MissingSequenceNums b ++ [v]) (MissingSequenceNumOffsets b ++ [off]) b))
       else mret tt);;
      add_missing nums' (i + 1) offs
  end.

Definition handlePartAckPacket (p : PartAckPacket) : go W bool :=
  if ack_PartFinished p then
    at_cp (modify (set_cp_state CP_STATE_PENDING));;
    at_dp (Dataplane.SetState DP_STATE_PENDING);;
    mret true
  else
    at_cp (at_ratecontrol (AddAckMessage p));;
    add_missing (ack_MissingSequenceNumbers p) 0 (ack_MissingSequenceNumberOffsets p);;
    mret false.

(** The reader goroutine of [HandleAckPackets]: one read into a new buffer. *)
Definition read_ack : go W (error + list byte) :=
  '(bs, err) ← at_dp (Read PACKET_SIZE);
  match err with
  | Some e => mret (inl e)
  | None => mret (inr (read_buffer (replicate (Z.to_nat PACKET_SIZE) Byte.x00) bs))
  end.

(** One packet or error from the reader: [true] ends [HandleAckPackets]. *)
Definition handle_read (r : error + list byte) : go W bool :=
  match r with
  | inl _ => mret false
  | inr buffer =>
      match parsePartAckPacket buffer with
      | inl _ => mret false
      | inr ackPacket => handlePartAckPacket ackPacket
      end
  end.

(** The two goroutines of [HandleAckPackets]: whether the one that handles goes
    on, and what the one that reads holds and wants to send on one of the two
    channels, which have no buffer. *)
Record ack_threads : Type := mkAckThreads {
  handling : bool;
  in_channel : option (error + list byte);
}.

(** The reader reads the next datagram; it waits for the handler to take it,
    for good once the handler is gone. *)
Definition reader_turn (t : ack_threads) : option (go W ack_threads) :=
  match in_channel t with
  | Some _ => None
  | None => Some (r ← read_ack; mret (mkAckThreads (handling t) (Some r)))
  end.

(** The handler takes what the reader holds. *)
Definition handler_turn (t : ack_threads) : option (go W ack_threads) :=
  match handling t, in_channel t with
  | true, Some r => Some (finished ← handle_read r; mret (mkAckThreads (negb finished) None))
  | _, _ => None
  end.

(** [HandleAckPackets] for [n] packets or errors at most, when the reader does
    not run ahead: every datagram is handled as it was read. *)
Fixpoint HandleAckPackets (n : nat) : go W bool :=
  match n with
  | O => mret false
  | S n' =>
      r ← read_ack;
      finished ← handle_read r;
      if (finished : bool) then mret true else HandleAckPackets n'
  end.

(** One packet from the packet channel, in the loop of [readControlPackets]. *)
Definition readControlPackets_step (packet : list byte) : go W unit :=
  s ← gets (fun w => cp_state (owner w));
  if s =? CP_STATE_SENDING then
    match parsePartAckPacket packet with
    | inl _ => mret tt
    | inr ackPacket => _ ← handlePartAckPacket ackPacket; mret tt
    end
  else mret tt.

(** ** Requests for retransfers, at the receiver *)

Definition sendPartFinish : go W (option error) :=
  p ← own_part;
  b ← at_part p (gets id);
  match gob_encode_request (mkPartRequestPacket (PartId b) 0 0 0 [] [] 0 0 (i64 (RecvPackets b)) true) with
  | inl err => mret (Some err)
  | inr bs => '(_, err) ← at_dp (Write bs); mret err
  end.

(** The send on the stop channel meets a requester or blocks. *)
Definition FinishReadpart : go W unit :=
  _ ← sendPartFinish;
  n ← at_cp (gets requesters);
  match n with
  | O => block
  | S n' => at_cp (modify (fun cp => set_goroutines (ack_handlers cp) n' cp))
  end.

(** A request for the ranges [start .. min] of the slices. *)
Definition request_packet (b : PartContext) (start min index txId requestSequenceId : Z) : go W PartRequestPacket :=
  perTx ← or_fail DivideByZero (CeilForceInt (zlen (MissingSequenceNums b)) 100);
  nums ← or_fail SliceBounds (go_slice (MissingSequenceNums b) start min);
  offs ← or_fail SliceBounds (go_slice (MissingSequenceNumOffsets b) start min);
  mret (mkPartRequestPacket (PartId b) (HighestSequenceNumber b) perTx index nums offs txId
    requestSequenceId (i64 (RecvPackets b)) false).

(** The inner loop of [requestRetransfers]: [None] when the fuel runs out.
    An encoder that fails leaves an empty buffer, which is written. *)
Fixpoint request_loop (fuel : nat) (missingNumIndex start index txId requestSequenceId : Z) : go W (option unit) :=
  p ← own_part;
  b ← at_part p (gets id);
  let n := zlen (MissingSequenceNums b) in
  if (n =? 0) || (missingNumIndex <? n) then
    match fuel with
    | O => mret None
    | S fuel' =>
        let min := Min (i64 (start + 100)) n in
        let start := if start >? min then min else start in
        packet ← request_packet b start min index txId requestSequenceId;
        let network := match gob_encode_request packet with inr bs => bs | inl _ => [] end in
        _ ← at_dp (Write network);
        if min =? 0 then mret (Some tt)
        else request_loop fuel' (i64 (missingNumIndex + min)) (i64 (start + min)) (i64 (index + 1)) txId requestSequenceId
    end
  else mret (Some tt).

(** One tick of [requestRetransfers]: the next request sequence id. *)
Definition requestRetransfers_tick (fuel : nat) (txId requestSequenceId : Z) : go W (option Z) :=
  pc ← gets (fun w => cp_PartContext (owner w));
  match pc with
  | None => mret (Some requestSequenceId)
  | Some p =>
      highest ← at_part p (gets HighestSequenceNumber);
      if highest <? 1 then mret (Some requestSequenceId)
      else
        r ← request_loop fuel 0 0 0 txId requestSequenceId;
        match r with
        | None => mret None
        | Some _ => mret (Some (i64 (requestSequenceId + 1)))
        end
  end.

(** The goroutine, for a number of ticks. *)
Fixpoint requestRetransfers (fuel ticks : nat) (requestSequenceId : Z) : go W (option Z) :=
  match ticks with
  | O => mret (Some requestSequenceId)
  | S ticks' =>
      r ← requestRetransfers_tick fuel 1 requestSequenceId;
      match r with
      | None => mret None
      | Some id => requestRetransfers fuel ticks' id
      end
  end.

End controlplane.
