(* ===== verification/Requests.v ===== *)
(** * Requests: what a receiver asks for

    The requests that one tick of [requestRetransfers] writes, as a function
    of the number of missing ranges, and which ranges they cover. *)

From S2P Require Import Prelude Utils Interface Packer PartContext Reassembly Metrics Dataplane Loopback Transfer.
From S2P Require Import RateControl Handshake Gob GobMessages ControlPlane.

(** ** The batches *)

(** The bounds of the batches from [start] on.  The loop adds the end of a
    batch, not its length, to its position. *)
Fixpoint batches (fuel : nat) (start n : Z) : list (Z * Z) :=
  if start <? n then
    match fuel with
    | O => []
    | S fuel' => (start, Z.min (start + 100) n) :: batches fuel' (start + Z.min (start + 100) n) n
    end
  else [].

Lemma batches_bounds fuel start n :
  0 <= start -> Forall (fun '(s, e) => start <= s < e /\ e <= n /\ e <= s + 100) (batches fuel start n).
Proof.
  induction fuel as [|fuel IH] in start |- *; intros Hs; cbn [batches];
    (destruct (Z.ltb_spec start n); [|constructor]); constructor; [lia|].
  eapply Forall_impl; [apply IH; lia|]. intros [s e] ?. lia.
Qed.

Section slices.
Context {A : Type}.
Implicit Types l : list A.

Definition slice l (s e : Z) : list A := take (Z.to_nat (e - s)) (drop (Z.to_nat s) l).

Lemma slice_all l n : n = zlen l -> slice l 0 n = l.
Proof. intros ->. unfold slice, zlen. rewrite drop_0, Z.sub_0_r, Nat2Z.id. by apply take_ge. Qed.

Lemma slice_split l m n : 0 <= m <= n -> n = zlen l -> slice l 0 m ++ slice l m n = l.
Proof.
  intros Hm ->. unfold slice, zlen in *. rewrite drop_0, Z.sub_0_r.
  rewrite (take_ge (drop _ _)) by (rewrite length_drop; lia). apply take_drop.
Qed.

(** Up to two hundred elements the batches cut the slice in one or two. *)
Lemma batches_few l fuel :
  0 < zlen l <= 200 -> (2 <= fuel)%nat ->
  concat ((fun '(s, e) => slice l s e) <$> batches fuel 0 (zlen l)) = l.
Proof.
  intros Hl Hf. destruct fuel as [|[|fuel]]; [lia..|]. cbn [batches].
  rewrite (proj2 (Z.ltb_lt 0 _)) by lia. rewrite !Z.add_0_l.
  destruct (Z.min_spec 100 (zlen l)) as [[Hlt ->]|[Hge ->]].
  - rewrite (proj2 (Z.ltb_lt 100 _)), Z.min_r by lia.
    assert (E : batches fuel (100 + zlen l) (zlen l) = []).
    { destruct fuel; cbn [batches]; by rewrite (proj2 (Z.ltb_ge _ _)) by lia. }
    rewrite E. cbn. rewrite app_nil_r. by apply slice_split; [lia|].
  - rewrite (proj2 (Z.ltb_ge (zlen l) _)) by lia. cbn. rewrite app_nil_r. by apply slice_all.
Qed.

End slices.

(** Beyond two hundred, the ranges from the two hundredth on are skipped. *)
Lemma batches_many fuel n s e : 200 < n -> (s, e) ∈ batches fuel 0 n -> ~ (s <= 200 < e).
Proof.
  intros Hn. destruct fuel as [|[|fuel]]; cbn [batches]; rewrite (proj2 (Z.ltb_lt 0 n)) by lia.
  - by intros ?%elem_of_nil.
  - rewrite Z.min_l, (proj2 (Z.ltb_lt _ n)) by lia. cbn.
    intros [[= -> ->]|?%elem_of_nil]%elem_of_cons; lia.
  - rewrite (Z.min_l (0 + 100)), (proj2 (Z.ltb_lt _ n)), Z.min_l by lia.
    intros [[= -> ->]|[[= -> ->]|Hin]%elem_of_cons]%elem_of_cons; [lia|lia|].
    pose proof (batches_bounds fuel (0 + (0 + 100) + (0 + (0 + 100) + 100)) n ltac:(lia)) as Hb.
    rewrite Forall_forall in Hb. specialize (Hb _ Hin). cbn in Hb. lia.
Qed.

(** ** The loop *)

Section requests.
Context {C Addr IA Serializer : Type} `{SCIONNet C Addr} `{SCIONPacker.PathLib Addr IA Serializer}.
Context `{PartsPacketPacker} `{GobSpec}.
Implicit Types (w : world C Addr ControlPlane).

(** The request for one batch. *)
Definition request (b : PartContext) (s e index txId seqId : Z) : PartRequestPacket :=
  mkPartRequestPacket (PartId b) (HighestSequenceNumber b) (ceil_div (zlen (MissingSequenceNums b)) 100) index
    (slice (MissingSequenceNums b) s e) (slice (MissingSequenceNumOffsets b) s e) txId seqId
    (i64 (RecvPackets b)) false.

Fixpoint requests (b : PartContext) (index txId seqId : Z) (bs : list (Z * Z)) : list PartRequestPacket :=
  match bs with
  | [] => []
  | (s, e) :: bs' => request b s e index txId seqId :: requests b (index + 1) txId seqId bs'
  end.

(** The datagrams of requests. *)
Definition encoded (ps : list PartRequestPacket) (ds : list (list byte)) : Prop :=
  Forall2 (fun p d => gob_encode_request p = inr d) ps ds.

(** A receiver with a part context. *)
Record receiving p b c w : Prop := {
  rc_part : cp_PartContext (owner w) = Some p;
  rc_context : parts w !! p = Some b;
  rc_conn : Conn (dp w) = Some c;
}.

Lemma own_part_eq p b c w : receiving p b c w -> own_part w = Done p w.
Proof. intros Hr. unfold own_part. go_step. by rewrite (rc_part _ _ _ _ Hr). Qed.

Lemma receiving_after p b c c' w : receiving p b c w -> receiving p b c' (set_dp (set_Conn c' (dp w)) w).
Proof. intros []. by split. Qed.

Lemma request_packet_eq b s e index txId seqId w :
  0 <= s <= e -> e <= zlen (MissingSequenceNums b) ->
  zlen (MissingSequenceNumOffsets b) = zlen (MissingSequenceNums b) -> zlen (MissingSequenceNums b) < 2 ^ 53 ->
  request_packet b s e index txId seqId w = Done (request b s e index txId seqId) w.
Proof.
  intros Hs He Hl Hn. pose proof (zlen_nonneg (MissingSequenceNums b)).
  unfold request_packet. rewrite CeilForceInt_exact by lia. go_step.
  rewrite !go_slice_Some by lia. by go_step.
Qed.

Lemma request_loop_eq fuel p b c c' start index txId seqId w ds :
  receiving p b c w -> 0 < zlen (MissingSequenceNums b) < 2 ^ 53 ->
  zlen (MissingSequenceNumOffsets b) = zlen (MissingSequenceNums b) ->
  0 <= start < 2 ^ 54 -> zlen (MissingSequenceNums b) < 2 ^ Z.of_nat fuel * (start + 1) ->
  0 <= index -> index + Z.of_nat fuel < 2 ^ 62 ->
  encoded (requests b index txId seqId (batches fuel start (zlen (MissingSequenceNums b)))) ds ->
  writes c ds c' ->
  request_loop fuel start start index txId seqId w = Done (Some tt) (set_dp (set_Conn c' (dp w)) w).
Proof.
  intros Hr Hn Hl. set (n := zlen (MissingSequenceNums b)) in *.
  induction fuel as [|fuel IH] in start, index, c, w, ds, Hr |- *; intros Hs Hf Hi Hif Henc Hw; cbn [request_loop batches] in *;
    rewrite (bind_Done _ _ _ _ _ (own_part_eq p b c w Hr));
    rewrite (bind_Done _ _ _ _ _ (at_part_gets p id w b (rc_context _ _ _ _ Hr)));
    cbn [id]; fold n; rewrite (proj2 (Z.eqb_neq n 0)) by lia; cbn [orb].
  - rewrite (proj2 (Z.ltb_ge start n)) in Henc |- * by lia. cbn in Henc. inversion Henc; subst.
    inversion Hw; subst. rewrite set_Conn_id by apply Hr. by destruct w.
  - destruct (Z.ltb_spec start n) as [Hlt|Hge].
    2:{ cbn in Henc. inversion Henc; subst. inversion Hw; subst. rewrite set_Conn_id by apply Hr. by destruct w. }
    cbn [requests] in Henc. apply Forall2_cons_inv_l in Henc as (d & ds' & Hd & Henc & ->).
    inversion Hw as [|? ? c1 ? ? Hw1 Hws]; subst.
    assert (Hmin : Min (i64 (start + 100)) n = Z.min (start + 100) n).
    { unfold Min. rewrite i64_id, Z.gtb_ltb by (unfold in_i64; lia). destruct (Z.ltb_spec n (start + 100)); lia. }
    rewrite Hmin. set (e := Z.min (start + 100) n) in *.
    rewrite (Z.gtb_ltb start e), (proj2 (Z.ltb_ge e start)) by (unfold e; lia).
    rewrite (bind_Done _ _ _ _ _ (request_packet_eq b start e index txId seqId w ltac:(unfold e; lia) ltac:(unfold e; lia) Hl ltac:(lia))).
    rewrite Hd. rewrite (bind_Done _ _ _ _ _ (Write_Done d w c c1 _ (rc_conn _ _ _ _ Hr) Hw1)).
    rewrite (proj2 (Z.eqb_neq e 0)) by (unfold e; lia).
    rewrite !i64_id by (unfold in_i64, e; lia).
    rewrite (IH c1 (start + e) (index + 1) (set_dp (set_Conn c1 (dp w)) w) ds'); try done.
    + by apply receiving_after with c.
    + unfold e. lia.
    + destruct (Z.min_spec (start + 100) n) as [[? E]|[? E]]; fold e in E; rewrite E.
      * rewrite Nat2Z.inj_succ, Z.pow_succ_r in Hf by lia. pose proof (Z.pow_pos_nonneg 2 (Z.of_nat fuel)). nia.
      * pose proof (Z.pow_pos_nonneg 2 (Z.of_nat fuel)). nia.
    + lia.
    + lia.
Qed.

Lemma requests_nums b index txId seqId bs :
  concat (req_MissingSequenceNumbers <$> requests b index txId seqId bs) =
    concat ((fun '(s, e) => slice (MissingSequenceNums b) s e) <$> bs).
Proof. induction bs as [|[s e] bs IH] in index |- *; [done|]. cbn. by rewrite IH. Qed.

Lemma requests_offs b index txId seqId bs :
  concat (req_MissingSequenceNumberOffsets <$> requests b index txId seqId bs) =
    concat ((fun '(s, e) => slice (MissingSequenceNumOffsets b) s e) <$> bs).
Proof. induction bs as [|[s e] bs IH] in index |- *; [done|]. cbn. by rewrite IH. Qed.

Lemma slice_lookup {A} (l : list A) s e x :
  0 <= s -> x ∈ slice l s e -> exists i : nat, l !! i = Some x /\ s <= Z.of_nat i < e.
Proof.
  intros Hs (j & Hj)%list_elem_of_lookup_1. unfold slice in Hj.
  apply lookup_take_Some in Hj as [Hj Hlt]. rewrite lookup_drop in Hj.
  exists (Z.to_nat s + j)%nat. split; [done|lia].
Qed.

(** One tick writes the requests of the batches. *)
Lemma requestRetransfers_tick_eq p b c c' txId seqId w ds :
  receiving p b c w -> 1 <= HighestSequenceNumber b ->
  let n := zlen (MissingSequenceNums b) in
  0 < n < 2 ^ 53 -> zlen (MissingSequenceNumOffsets b) = n ->
  encoded (requests b 0 txId seqId (batches 53 0 n)) ds -> writes c ds c' ->
  requestRetransfers_tick 53 txId seqId w = Done (Some (i64 (seqId + 1))) (set_dp (set_Conn c' (dp w)) w).
Proof.
  intros Hr Hhigh n Hn Hl Henc Hw. unfold requestRetransfers_tick. go_step. rewrite (rc_part _ _ _ _ Hr).
  rewrite (bind_Done _ _ _ _ _ (at_part_gets p _ w b (rc_context _ _ _ _ Hr))).
  rewrite (proj2 (Z.ltb_ge _ 1)) by done.
  rewrite (bind_Done _ _ _ (Some tt) (set_dp (set_Conn c' (dp w)) w)); [done|].
  apply (request_loop_eq 53 p b c c' 0 0 txId seqId w ds); (done || (change (Z.of_nat 53) with 53; lia)).
Qed.

(** Up to two hundred ranges are requested once each. *)
Lemma requests_all b txId seqId :
  let n := zlen (MissingSequenceNums b) in
  0 < n <= 200 -> zlen (MissingSequenceNumOffsets b) = n ->
  let qs := requests b 0 txId seqId (batches 53 0 n) in
  concat (req_MissingSequenceNumbers <$> qs) = MissingSequenceNums b /\
  concat (req_MissingSequenceNumberOffsets <$> qs) = MissingSequenceNumOffsets b.
Proof.
  intros n Hn Hl qs. unfold qs. rewrite requests_nums, requests_offs. split.
  - apply (batches_few (MissingSequenceNums b)); [fold n|]; lia.
  - rewrite <- Hl. apply (batches_few (MissingSequenceNumOffsets b)); lia.
Qed.

(** C16: one tick of [requestRetransfers] at a receiver with [n] missing
    ranges.  It terminates and writes the requests of its batches.  Up to two
    hundred ranges are all requested, each exactly once; of more than two
    hundred, the one at index 200 is in none of the requests. *)
Theorem requestRetransfers_requests p b c c' txId seqId w ds :
  receiving p b c w -> 1 <= HighestSequenceNumber b -> NoDup (MissingSequenceNums b) ->
  let n := zlen (MissingSequenceNums b) in
  0 < n < 2 ^ 53 -> zlen (MissingSequenceNumOffsets b) = n ->
  let qs := requests b 0 txId seqId (batches 53 0 n) in
  encoded qs ds -> writes c ds c' ->
  requestRetransfers_tick 53 txId seqId w = Done (Some (i64 (seqId + 1))) (set_dp (set_Conn c' (dp w)) w) /\
  (n <= 200 ->
     concat (req_MissingSequenceNumbers <$> qs) = MissingSequenceNums b /\
     concat (req_MissingSequenceNumberOffsets <$> qs) = MissingSequenceNumOffsets b) /\
  (200 < n -> forall v, MissingSequenceNums b !! 200%nat = Some v ->
     v ∉ concat (req_MissingSequenceNumbers <$> qs)).
Proof.
  intros Hr Hhigh Hnd n Hn Hl qs Henc Hw. split; [|split].
  - by apply (requestRetransfers_tick_eq p b c c' txId seqId w ds).
  - intros Hfew. apply requests_all; [fold n; lia|done].
  - intros Hmany v Hv. unfold qs. rewrite requests_nums.
    intros Hin. apply list_elem_of_In, List.in_concat in Hin as (l & Hl1 & Hl2).
    apply list_elem_of_In, list_elem_of_fmap in Hl1 as ([s e] & -> & Hse). apply list_elem_of_In in Hl2.
    pose proof (batches_bounds 53 0 n ltac:(lia)) as Hb. rewrite Forall_forall in Hb. specialize (Hb _ Hse). cbn in Hb.
    apply slice_lookup in Hl2 as (i & Hi & Hsei); [|lia].
    assert (i = 200%nat) as -> by by apply (NoDup_lookup _ _ _ _ Hnd Hi).
    by apply (batches_many 53 n s e Hmany Hse).
Qed.

End requests.

(** ** On the loopback network *)

#[local] Existing Instances BinaryPartsPacketPacker.packer.

(** A receiver that misses packet 2 of 3. *)
Definition missing_one : PartContext := small_part 7 (no_bytes 5) (no_bytes 54) [2] [1] 3 2.

Definition receiver_world (c : link) (b : PartContext) : world link string ControlPlane :=
  mkWorld (mkSCIONDataplane false (Some c) None None None [] 64 DP_STATE_PENDING None (NewMetrics 100))
    {[ O := b ]} (set_cp_PartContext (Some O) NewControlPlane).

Lemma encodable (qs : list PartRequestPacket) : exists ds, encoded qs ds.
Proof.
  induction qs as [|q qs (ds & IH)]; [exists []; constructor|]. eexists (_ :: ds). constructor; [reflexivity|exact IH].
Qed.

Lemma requestRetransfers_requests_witness :
  exists ds, encoded (requests missing_one 0 1 1 (batches 53 0 1)) ds /\
    requestRetransfers_tick 53 1 1 (receiver_world (mkLink [] []) missing_one) =
      Done (Some 2) (receiver_world (mkLink [] ds) missing_one).
Proof.
  destruct (encodable (requests missing_one 0 1 1 (batches 53 0 1))) as (ds & Hds).
  exists ds. split; [exact Hds|].
  apply (requestRetransfers_requests (C := link) (Addr := string) O missing_one (mkLink [] [])
    (mkLink [] ds) 1 1 (receiver_world (mkLink [] []) missing_one) ds).
  - by split.
  - discriminate.
  - apply NoDup_singleton.
  - split; reflexivity.
  - reflexivity.
  - exact Hds.
  - exact (loopback_writes (mkLink [] []) ds).
Defined.
