(* ===== verification/Acks.v ===== *)
(** * Acks: a sender and its acknowledgements

    What [handlePartAckPacket] does to the missing ranges of the sender, and
    how the retransfer loop ends, or does not, under the acknowledgements that
    the background goroutine handles. *)

From S2P Require Import Prelude Utils Interface Packer PartContext Reassembly Metrics Dataplane Loopback Transfer.
From S2P Require Import Retransfer RateControl Handshake ControlPlane.

(** ** Merging requested ranges *)

(** The ranges [ms], [os] added to those that are there, unless a range with
    the same start is. *)
Fixpoint merged (nums offs ms os : list Z) : list Z * list Z :=
  match ms, os with
  | v :: ms', off :: os' =>
      if decide (v ∈ nums) then merged nums offs ms' os' else merged (nums ++ [v]) (offs ++ [off]) ms' os'
  | _, _ => (nums, offs)
  end.

(** Exactly what is added: of the pairs asked for, in their order, the first
    one with each start that is not there yet. *)
Lemma merged_adds nums offs ms os :
  length nums = length offs -> length ms = length os -> NoDup nums ->
  exists new, merged nums offs ms os = (nums ++ new.*1, offs ++ new.*2) /\
    new `sublist_of` zip ms os /\ NoDup (nums ++ new.*1) /\
    forall v off, (v, off) ∈ new <->
      (v ∉ nums) /\ exists i : nat, ms !! i = Some v /\ os !! i = Some off /\ forall j, (j < i)%nat -> ms !! j <> Some v.
Proof.
  induction ms as [|m ms IH] in nums, offs, os |- *; intros Hl Hms Hnd; (destruct os as [|o os]; [|]); try done.
  { exists []. cbn. rewrite !app_nil_r. split_and!; try done. intros v off. rewrite elem_of_nil.
    split; [done|]. by intros (_ & i & Hi & _). }
  cbn [merged]. cbn in Hms. case_decide as Hv.
  - destruct (IH nums offs os Hl ltac:(lia) Hnd) as (new & E & Hsub & Hnd' & Hnew). exists new.
    split; [done|]. split; [by apply sublist_cons|]. split; [done|]. intros v off. rewrite Hnew. split.
    + intros (Hn & i & Hi & Ho & Hf). split; [done|]. exists (S i). split_and!; [done|done|].
      intros [|j] Hj; cbn; [intros [= ->]; done|]. apply Hf. lia.
    + intros (Hn & [|i] & Hi & Ho & Hf); [by injection Hi as ->|]. split; [done|]. exists i.
      split_and!; [done|done|]. intros j Hj. apply (Hf (S j)). lia.
  - destruct (IH (nums ++ [m]) (offs ++ [o]) os) as (new & E & Hsub & Hnd' & Hnew).
    { rewrite !length_app. cbn. lia. }
    { lia. }
    { apply NoDup_app. split_and!; [done| |apply NoDup_singleton]. by intros x Hx ->%list_elem_of_singleton. }
    exists ((m, o) :: new). rewrite E, <- !app_assoc in *. split; [done|]. split; [by apply sublist_skip|].
    split; [done|]. intros v off. rewrite elem_of_cons, Hnew, elem_of_app, list_elem_of_singleton. split.
    + intros [[= -> ->]|(Hn & i & Hi & Ho & Hf)].
      * split; [done|]. exists O. split_and!; [done|done|lia].
      * assert ((v ∉ nums) /\ v <> m) as [Hn' Hne] by tauto. split; [done|]. exists (S i). split_and!; [done|done|].
        intros [|j] Hj; cbn; [intros [= ->]; done|]. apply Hf. lia.
    + intros (Hn & [|i] & Hi & Ho & Hf); [injection Hi as ->; injection Ho as ->; by left|]. right.
      split; [intros [?| ->]; [done|]; by apply (Hf O ltac:(lia))|]. exists i. split_and!; [done|done|].
      intros j Hj. apply (Hf (S j)). lia.
Qed.

Lemma merged_Forall2 (Q : Z -> Z -> Prop) nums offs ms os :
  Forall2 Q nums offs -> Forall2 Q ms os -> Forall2 Q (merged nums offs ms os).1 (merged nums offs ms os).2.
Proof.
  intros Hn Hm. induction Hm as [|v off ms os Hq Hm IH] in nums, offs, Hn |- *; [done|]. cbn [merged].
  case_decide; apply IH; [done|]. apply Forall2_app; [done|]. by repeat constructor.
Qed.

Section acks.
Context {C Addr IA Serializer : Type} `{SCIONNet C Addr}.
Context `{PartsPacketPackerSpec} `{GobSpec}.
Implicit Types (w : world C Addr ControlPlane).

Lemma IndexOf_known (v : Z) (known : list Z) : (IndexOf v known <? 0) = negb (bool_decide (v ∈ known)).
Proof.
  destruct (decide (v ∈ known)) as [Hv|Hv].
  - rewrite bool_decide_true by done. apply Z.ltb_ge. by apply IndexOf_present.
  - rewrite bool_decide_false by done. by rewrite IndexOf_absent.
Qed.

Lemma add_missing_eq p w b ms os i pre all :
  cp_PartContext (owner w) = Some p -> parts w !! p = Some b ->
  length ms = length os -> i = zlen pre -> all = pre ++ os ->
  add_missing ms i all w =
    let r := merged (MissingSequenceNums b) (MissingSequenceNumOffsets b) ms os in
    Done tt (set_parts (<[p := set_Missing r.1 r.2 b]> (parts w)) w).
Proof.
  intros Hp. induction ms as [|v ms IH] in w, b, os, i, pre, Hp |- *; intros Hb Hl Hi Hall;
    (destruct os as [|off os]; [|]); try done.
  { cbn. unfold mret, go_ret. replace (set_Missing _ _ b) with b by by destruct b.
    rewrite insert_id by done. by destruct w. }
  cbn [add_missing merged].
  assert (Hown : own_part w = Done p w) by (unfold own_part; go_step; by rewrite Hp).
  rewrite (bind_Done _ _ _ _ _ Hown), (bind_Done _ _ _ _ _ (at_part_gets p MissingSequenceNums w b Hb)), IndexOf_known.
  assert (Hall' : all = (pre ++ [off]) ++ os) by (rewrite Hall, <- app_assoc; done).
  assert (Hi' : i + 1 = zlen (pre ++ [off])) by (unfold zlen in *; rewrite length_app; cbn; lia).
  cbn in Hl. destruct (decide (v ∈ MissingSequenceNums b)) as [Hv|Hv].
  - rewrite bool_decide_true by done. cbn [negb]. go_step. by apply (IH w b os (i + 1) (pre ++ [off])); [..|lia| |].
  - rewrite bool_decide_false by done. cbn [negb]. go_step. rewrite Hall, go_index_middle by done. go_step.
    rewrite (bind_Done _ _ _ _ _ (at_part_Done p _ w b tt _ Hb (modify_Done _ b))).
    set (b1 := set_Missing _ _ b). rewrite <- Hall.
    rewrite (IH (set_parts (<[p := b1]> (parts w)) w) b1 os (i + 1) (pre ++ [off]));
      [|done|apply lookup_insert_eq|lia|done|done].
    cbn. by rewrite insert_insert_eq.
Qed.

(** The control plane of a sender of the part at [p]. *)
Record sender_ok (p : nat) (cp : ControlPlane) : Prop := {
  so_rc : rc_inv (Ratecontrol cp);
  so_accounts : accounts_ok (Ratecontrol cp);
  so_context : rc_partContext (Ratecontrol cp) <> None;
  so_part : cp_PartContext cp = Some p;
}.

#[refine] Instance sender_listener_spec (p : nat) : StatusListenerSpec ControlPlane := {| listener_ok := sender_ok p |}.
Proof.
  intros cb n bts cp Hcp. destruct cb; [|by exists cp].
  destruct (Add_Done n bts (Ratecontrol cp) (so_rc _ _ Hcp)) as (t & Ha & _).
  cbn [run_status cp_listener]. eexists. split.
  - unfold mbind, go_bind, at_ratecontrol, zoom. rewrite Ha. reflexivity.
  - by destruct Hcp.
Defined.

(** An acknowledgement as a receiver sends it. *)
Record request_like (msg : PartAckPacket) : Prop := {
  rl_ok : ack_ok msg;
  rl_open : ack_PartFinished msg = false;
  rl_length : length (ack_MissingSequenceNumbers msg) = length (ack_MissingSequenceNumberOffsets msg);
}.

Lemma handle_request p w b msg :
  sender_ok p (owner w) -> parts w !! p = Some b -> request_like msg ->
  let r := merged (MissingSequenceNums b) (MissingSequenceNumOffsets b)
    (ack_MissingSequenceNumbers msg) (ack_MissingSequenceNumberOffsets msg) in
  exists cp', sender_ok p cp' /\
    handlePartAckPacket msg w = Done false (mkWorld (dp w) (<[p := set_Missing r.1 r.2 b]> (parts w)) cp').
Proof.
  intros [Hrc Hacc Hctx Hp] Hb [Hok Hopen Hl] r. unfold handlePartAckPacket. rewrite Hopen.
  pose proof (AddAckMessage_eq msg _ Hok Hacc Hctx) as Ha. set (rc' := acked msg (Ratecontrol (owner w))) in *.
  set (cp' := set_Ratecontrol rc' (owner w)). exists cp'. split.
  { destruct (AddAckMessage_keeps msg _ rc' Hrc Ha) as (Hrc' & _).
    split; [done|by apply acked_accounts| |done].
    change (rc_partContext (acked msg (Ratecontrol (owner w))) <> None). by rewrite acked_context. }
  assert (Hrun1 : at_cp (at_ratecontrol (AddAckMessage msg)) w = Done tt (set_owner cp' w)).
  { unfold at_cp. apply at_owner_Done. unfold at_ratecontrol, zoom. by rewrite Ha. }
  rewrite (bind_Done _ _ _ _ _ Hrun1).
  pose proof (add_missing_eq p (set_owner cp' w) b _ _ 0 [] _ Hp Hb Hl eq_refl eq_refl) as Hrun2.
  cbv zeta in Hrun2. by rewrite (bind_Done _ _ _ _ _ Hrun2).
Qed.

(** The goroutine of [HandleAckPackets] at an acknowledgement. *)
Definition in_background (msg : PartAckPacket) : go (world C Addr ControlPlane) unit :=
  as_goroutine (_ ← handlePartAckPacket msg; mret tt).

Lemma finished_unlocked w msg :
  ack_PartFinished msg = true -> locked (dp w) = false ->
  exists w', in_background msg w = Done tt w' /\ state (dp w') = DP_STATE_PENDING /\
    (collectors (metrics (dp w)) = O -> locked (dp w') = true).
Proof.
  intros Hf Hl. unfold in_background, as_goroutine, handlePartAckPacket. rewrite Hf.
  destruct w as [[l c ra la li ch cap st pc m] ps cp]. cbn in Hl. subst l.
  destruct m as [? ? ? ? ? ? ? ? ? ? ? ? ? ? ? col]. destruct col; cbn; eexists; by split_and!.
Qed.

Lemma finished_locked w msg :
  ack_PartFinished msg = true -> locked (dp w) = true ->
  in_background msg w = Done tt (set_owner (set_cp_state CP_STATE_PENDING (owner w)) w).
Proof.
  intros Hf Hl. unfold in_background, as_goroutine, handlePartAckPacket. rewrite Hf.
  destruct w as [[l c ra la li ch cap st pc m] ps cp]. cbn in Hl. subst l. reflexivity.
Qed.

(** An acknowledgement whose ranges lie in the part of [n] packets. *)
Definition asks_within (n : Z) (msg : PartAckPacket) : Prop :=
  Forall2 (fun v off => 1 <= v /\ 0 <= off /\ v + off <= n + 1)
    (ack_MissingSequenceNumbers msg) (ack_MissingSequenceNumberOffsets msg).

(** C15: an acknowledgement that is not the last one adds to the sender's
    ranges those it asks for, each with its own offset, without touching the
    ranges that are there: the new ones follow in the order of the message,
    and of several with the same start the first one counts unless the start
    is there already.  The two slices stay parallel and free of duplicates, and
    ranges within the part stay within the part. *)
Theorem handlePartAckPacket_merges p w b msg :
  sender_ok p (owner w) -> parts w !! p = Some b -> request_like msg ->
  length (MissingSequenceNums b) = length (MissingSequenceNumOffsets b) -> NoDup (MissingSequenceNums b) ->
  let ms := ack_MissingSequenceNumbers msg in
  let os := ack_MissingSequenceNumberOffsets msg in
  exists cp' new,
    let nums := MissingSequenceNums b ++ new.*1 in
    let offs := MissingSequenceNumOffsets b ++ new.*2 in
    handlePartAckPacket msg w = Done false (mkWorld (dp w) (<[p := set_Missing nums offs b]> (parts w)) cp') /\
    sender_ok p cp' /\ length nums = length offs /\ NoDup nums /\ new `sublist_of` zip ms os /\
    (forall v off, (v, off) ∈ new <->
       (v ∉ MissingSequenceNums b) /\
       exists i : nat, ms !! i = Some v /\ os !! i = Some off /\ forall j, (j < i)%nat -> ms !! j <> Some v) /\
    (in_part b (MissingSequenceNums b) (MissingSequenceNumOffsets b) -> asks_within (NumPackets b) msg ->
     in_part b nums offs).
Proof.
  intros Hs Hb Hr Hl Hnd ms os. destruct (handle_request p w b msg Hs Hb Hr) as (cp' & Hs' & Hh). cbv zeta in Hh.
  destruct (merged_adds _ _ ms os Hl (rl_length _ Hr) Hnd) as (new & E & Hsub & Hnd' & Hnew).
  exists cp', new. cbv zeta. unfold ms, os in E. rewrite E in Hh. split; [exact Hh|].
  split_and!; try done.
  - rewrite !length_app, !length_fmap. lia.
  - intros Hin Hask. pose proof (merged_Forall2 _ _ _ _ _ Hin Hask) as Hm. by rewrite E in Hm.
Qed.

Lemma request_keeps p n msg :
  request_like msg -> asks_within n msg ->
  keeps_retransfer (H0 := cp_listener) (H1 := sender_listener_spec p) p n (in_background msg).
Proof.
  intros Hr Hask w (c & b & [Hc Hb Hcn Ho] & Hg & Ht & Hn & Hin).
  destruct (handle_request p w b msg Ho Hb Hr) as (cp' & Ho' & Hh). cbv zeta in Hh.
  set (r := merged _ _ _ _) in *.
  exists (mkWorld (dp w) (<[p := set_Missing r.1 r.2 b]> (parts w)) cp'). split; [|split; [|done]].
  - unfold in_background, as_goroutine. by rewrite (bind_Done _ _ _ _ _ Hh).
  - exists c, (set_Missing r.1 r.2 b). split_and!; try done.
    + split; [done|apply lookup_insert_eq|done|done].
    + apply merged_Forall2; [done|]. unfold asks_within in Hask. by rewrite <- Hn in Hask.
Qed.

(** C7: the sender of a part under acknowledgements: while requests for
    ranges of the part come in during the sleeps of the loop,
    [RetransferMissingPackets] goes on; the acknowledgement that the part is
    finished ends it, as long as the lock of the data plane is free.  With no
    metrics collector running, which the program never starts, that leaves the
    lock held for good. *)
Theorem sender_finishes p n (w : world C Addr ControlPlane) msgs finish rest :
  accepting (C := C) (Addr := Addr) -> GetHeaderLen < 2 ^ 53 ->
  can_retransfer (H1 := sender_listener_spec p) p n w ->
  Forall (fun msg => request_like msg /\ asks_within n msg) msgs ->
  ack_PartFinished finish = true -> locked (dp w) = false ->
  (exists w', RetransferMissingPackets (in_background <$> msgs) w = Done false w' /\
     state (dp w') = DP_STATE_RETRANSFER) /\
  exists w', RetransferMissingPackets ((in_background <$> msgs) ++ in_background finish :: rest) w = Done true w' /\
    (collectors (metrics (dp w)) = O -> locked (dp w') = true).
Proof.
  intros Hacc Hh Hw Hmsgs Hfin Hl.
  assert (Hpre : Forall (keeps_retransfer (H1 := sender_listener_spec p) p n) (in_background <$> msgs)).
  { apply Forall_fmap. eapply Forall_impl; [exact Hmsgs|]. intros msg [??]. by apply request_keeps. }
  unfold RetransferMissingPackets. rewrite !bind_modify. set (w0 := set_dp _ w).
  assert (Hw0 : can_retransfer (H1 := sender_listener_spec p) p n w0).
  { destruct Hw as (c & b & [] & ?). exists c, b. split; [by split|done]. }
  split.
  - destruct (retransfer_loop_runs p n _ [] w0 Hacc Hh Hpre Hw0 eq_refl) as (w1 & Hrun & _ & Hs1 & _).
    rewrite app_nil_r in Hrun. exists w1. rewrite Hrun. cbn [retransfer_loop]. rewrite bind_gets, Hs1. done.
  - destruct (retransfer_loop_runs p n _ (in_background finish :: rest) w0 Hacc Hh Hpre Hw0 eq_refl)
      as (w1 & Hrun & Hw1 & Hs1 & Hl1 & Hc1).
    destruct (retransfer_pass_again p n w1 Hacc Hh Hw1) as (w2 & Hp2 & Hw2 & Hs2 & Hl2 & Hc2).
    destruct (finished_unlocked w2 finish Hfin) as (w3 & Hf3 & Hs3 & Hl3); [rewrite Hl2, Hl1; exact Hl|].
    exists w3. split; [|by rewrite Hc2, Hc1 in Hl3]. rewrite Hrun. cbn [retransfer_loop]. rewrite bind_gets, Hs1. cbn [w0 dp state set_dp set_state].
    cbn [negb Z.eqb Pos.eqb DP_STATE_RETRANSFER]. rewrite (bind_Done _ _ _ _ _ Hp2), (bind_Done _ _ _ _ _ Hf3).
    destruct rest; cbn [retransfer_loop]; rewrite bind_gets, Hs3; done.
Qed.

(** C27: once a data plane's lock is held for good, as the end of the first part
    leaves it, no acknowledgement ends [RetransferMissingPackets] any
    more: the sender of the next part never returns. *)
Theorem sender_never_finishes p n (w : world C Addr ControlPlane) msgs :
  accepting (C := C) (Addr := Addr) -> GetHeaderLen < 2 ^ 53 ->
  can_retransfer (H1 := sender_listener_spec p) p n w -> locked (dp w) = true ->
  Forall (fun msg => ack_PartFinished msg = true \/ request_like msg /\ asks_within n msg) msgs ->
  exists w', RetransferMissingPackets (in_background <$> msgs) w = Done false w' /\
    state (dp w') = DP_STATE_RETRANSFER.
Proof.
  intros Hacc Hh Hw Hl Hmsgs. unfold RetransferMissingPackets. rewrite !bind_modify. set (w0 := set_dp _ w).
  assert (Hw0 : can_retransfer (H1 := sender_listener_spec p) p n w0).
  { destruct Hw as (c & b & [] & ?). exists c, b. split; [by split|done]. }
  assert (Hl0 : locked (dp w0) = true) by exact Hl. assert (Hs0 : state (dp w0) = DP_STATE_RETRANSFER) by done.
  clear Hl Hw. clearbody w0. induction Hmsgs as [|msg msgs Hmsg Hmsgs IH] in w0, Hw0, Hl0, Hs0 |- *.
  { exists w0. split; [|done]. cbn. unfold mbind, go_bind, gets. by rewrite Hs0. }
  destruct (retransfer_pass_again p n w0 Hacc Hh Hw0) as (w1 & Hp1 & Hw1 & Hs1 & Hl1 & _).
  assert (Hstep : exists w2, in_background msg w1 = Done tt w2 /\
    can_retransfer (H1 := sender_listener_spec p) p n w2 /\ unchanged w1 w2).
  { destruct Hmsg as [Hfin|[Hr Hask]]; [|by apply request_keeps].
    eexists. split; [apply finished_locked; [done|by rewrite Hl1]|]. split; [|done].
    destruct Hw1 as (c & b & [? ? ? []] & ?). exists c, b. split; [by split|done]. }
  destruct Hstep as (w2 & Ha & Hw2 & Hs2 & Hl2 & _).
  destruct (IH w2 Hw2) as (w' & Hrun & Hs'); [congruence|congruence|]. exists w'. split; [|done].
  cbn [fmap list_fmap retransfer_loop]. rewrite bind_gets, Hs0. cbn [negb Z.eqb Pos.eqb DP_STATE_RETRANSFER].
  by rewrite (bind_Done _ _ _ _ _ Hp1), (bind_Done _ _ _ _ _ Ha).
Qed.

End acks.

(** ** On the loopback network *)

#[local] Existing Instances BinaryPartsPacketPacker.packer BinaryPartsPacketPacker.packer_spec.

(** A control plane that sends the part at 0. *)
Definition sending_cp : ControlPlane := mkControlPlane CP_STATE_PENDING (Some O) started 1 1 0.

Definition sender_world (l : bool) (b : PartContext) : world link string ControlPlane :=
  mkWorld (mkSCIONDataplane l (Some (mkLink [] [])) None None None [] 64 DP_STATE_PENDING (Some O) (NewMetrics 100))
    {[ O := b ]} sending_cp.

(** A request for packet 3, and the end of the part. *)
Definition ask_three : PartAckPacket := mkPartAckPacket 7 3 1 0 [3] [1] 1 1 2 false.
Definition part_done : PartAckPacket := mkPartAckPacket 7 0 0 0 [] [] 0 0 3 true.

Lemma sending_cp_ok : sender_ok O sending_cp.
Proof. split; [split; [split; discriminate|reflexivity]|split; [discriminate|reflexivity]|discriminate|reflexivity]. Qed.

Lemma ask_three_request : request_like ask_three.
Proof. split; [split; [discriminate|reflexivity]|reflexivity|reflexivity]. Qed.

Lemma sender_world_ready l :
  can_retransfer (H1 := sender_listener_spec O) O 3 (sender_world l (small_part 7 five [] [2] [1] 0 0)).
Proof.
  exists (mkLink [] []), (small_part 7 five [] [2] [1] 0 0). split_and!.
  - split; [reflexivity|reflexivity|reflexivity|exact sending_cp_ok].
  - by apply small_geometry.
  - by apply plain_transport_ok.
  - reflexivity.
  - by repeat constructor.
Qed.

Lemma handlePartAckPacket_merges_witness :
  exists cp' new, handlePartAckPacket ask_three (sender_world false (small_part 7 five [] [2] [1] 0 0)) =
      Done false (mkWorld (dp (sender_world false (small_part 7 five [] [2] [1] 0 0)))
        (<[O := set_Missing ([2] ++ new.*1) ([1] ++ new.*2) (small_part 7 five [] [2] [1] 0 0)]>
          (parts (sender_world false (small_part 7 five [] [2] [1] 0 0)))) cp') /\ (3, 1) ∈ new.
Proof.
  destruct (handlePartAckPacket_merges (C := link) (Addr := string) O
    (sender_world false (small_part 7 five [] [2] [1] 0 0)) (small_part 7 five [] [2] [1] 0 0) ask_three)
    as (cp' & new & H1 & _ & _ & _ & _ & H2 & _).
  - exact sending_cp_ok.
  - reflexivity.
  - exact ask_three_request.
  - reflexivity.
  - apply NoDup_singleton.
  - exists cp', new. split; [exact H1|]. apply H2. split; [by intros H%list_elem_of_singleton|].
    exists O. split; [reflexivity|]. split; [reflexivity|]. intros j Hj. by apply Nat.nlt_0_r in Hj.
Defined.

Lemma asks_three : Forall (fun msg => request_like msg /\ asks_within 3 msg) [ask_three].
Proof. apply Forall_singleton. split; [exact ask_three_request|]. by repeat constructor. Qed.

Lemma sender_finishes_witness :
  exists w', RetransferMissingPackets [in_background ask_three; in_background part_done]
    (sender_world false (small_part 7 five [] [2] [1] 0 0)) = Done true w' /\ (O = O -> locked (dp w') = true).
Proof.
  exact (proj2 (sender_finishes (C := link) (Addr := string) O 3
    (sender_world false (small_part 7 five [] [2] [1] 0 0)) [ask_three] part_done []
    loopback_accepting eq_refl (sender_world_ready false) asks_three eq_refl eq_refl)).
Defined.

Lemma sender_never_finishes_witness :
  exists w', RetransferMissingPackets [in_background part_done; in_background part_done]
    (sender_world true (small_part 7 five [] [2] [1] 0 0)) = Done false w' /\ state (dp w') = DP_STATE_RETRANSFER.
Proof.
  apply (sender_never_finishes (C := link) (Addr := string) O 3
    (sender_world true (small_part 7 five [] [2] [1] 0 0)) [part_done; part_done]).
  - exact loopback_accepting.
  - reflexivity.
  - exact (sender_world_ready true).
  - reflexivity.
  - repeat constructor.
Defined.
