(* ===== verification/Sessions.v ===== *)
(** * Sessions: the two ends of a handshake

    [Handshake] and [AwaitHandshake] against each other: the part contexts
    that come out agree, and satisfy what the transfer of a part needs. *)

From S2P Require Import Prelude Utils Interface Packer PartContext Reassembly Metrics Dataplane SCIONPacker Loopback.
From S2P Require Import Transfer Retransfer Recovery RateControl Handshake Gob GobMessages ControlPlane.

Section sessions.
Context {C Addr IA Serializer : Type} `{SCIONNetSpec C Addr} `{PathLib Addr IA Serializer}.
Context `{PartsPacketPackerSpec} `{GobSpec}.
Implicit Types (w : world C Addr ControlPlane).

(** [SetRemote] gives an address that has no path the default one: the address
    afterwards, and the error. *)
Definition path_of (remote : Addr) : Addr * option error :=
  if Path_IsEmpty remote then SetDefaultPath remote else (remote, None).

Definition route (remote : Addr) : Addr := (path_of remote).1.

(** A serializer between two addresses, the second one with the path it has or
    the default one. *)
Record routed (local remote : Addr) (s : Serializer) : Prop := {
  rt_path : (path_of remote).2 = None;
  rt_serializer : exists ia, PrepareConnectivityContext = inr ia /\ NewPacketSerializer ia local (route remote) = inr s;
  rt_header : 0 <= Serializer_GetHeaderLen s /\ Serializer_GetHeaderLen s + Interface.GetHeaderLen < PACKET_SIZE;
}.

(** The transport packer for a serializer. *)
Definition routed_transport (local remote : Addr) (s : Serializer) : TransportPacketPacker :=
  as_transport (mkSCIONPacketPacker (Some s) (Some (route remote)) (Some local)).

Lemma routed_transport_ok local remote s : routed local remote s -> transport_ok (routed_transport local remote s).
Proof. intros [_ _ [Hs _]]. split; [|done|done]. by intros n [= <-]. Qed.

(** The data plane once its remote address got its path. *)
Definition rerouted (remote : Addr) (d : SCIONDataplane C Addr) : SCIONDataplane C Addr :=
  set_addrs (Some (route remote)) (localAddr d) (listenAddr d) d.

Lemma SetRemote_routed local remote s :
  routed local remote s ->
  (SCIONPacker.SetLocal (Some local);; SetRemote (Some remote)) NewSCIONPacketPacker =
    Done (route remote) (mkSCIONPacketPacker (Some s) (Some (route remote)) (Some local)).
Proof.
  intros [Hpath (ia & Hia & Hs) _]. unfold route in *. unfold path_of in *.
  unfold SetLocal, SetRemote, PrepareHeaderLen, panic_on, mbind, go_bind, modify, mret, go_ret. cbn.
  destruct (if Path_IsEmpty remote then _ else _) as [r err]. cbn [fst snd] in *. subst. rewrite Hia. cbn. by rewrite Hs.
Qed.

Lemma transport_packer_eq w local remote s :
  localAddr (dp w) = Some local -> remoteAddr (dp w) = Some remote -> routed local remote s ->
  transport_packer w = Done (routed_transport local remote s) (set_dp (rerouted remote (dp w)) w).
Proof.
  intros Hl Hr Hrt. unfold transport_packer.
  assert (E1 : at_dp LocalAddr w = Done (Some local) w) by (unfold at_dp, zoom, LocalAddr, gets; rewrite Hl; by destruct w).
  assert (E2 : at_dp RemoteAddr w = Done (Some remote) w) by (unfold at_dp, zoom, RemoteAddr, gets; rewrite Hr; by destruct w).
  rewrite (bind_Done _ _ _ _ _ E1), (bind_Done _ _ _ _ _ E2).
  assert (E3 : with_new NewSCIONPacketPacker (SCIONPacker.SetLocal (Some local);; SetRemote (Some remote)) w =
    Done (route remote, mkSCIONPacketPacker (Some s) (Some (route remote)) (Some local)) w).
  { unfold with_new. by rewrite (SetRemote_routed local remote s Hrt). }
  rewrite (bind_Done _ _ _ _ _ E3). reflexivity.
Qed.

(** What a handshake makes of the caller's bytes. *)
Definition session_part (cb : status_callback) (partId : Z) (data : list byte) (local remote : Addr) (s : Serializer) : PartContext :=
  let hl := Serializer_GetHeaderLen s + Interface.GetHeaderLen in
  set_sizes hl (PACKET_SIZE - hl) (ceil_div (zlen data) (PACKET_SIZE - hl))
    (i64 (ceil_div (zlen data) (PACKET_SIZE - hl) * PACKET_SIZE))
    (new_PartContext cb partId data (routed_transport local remote s)).

Lemma prepared_part_eq w cb partId data local remote s :
  routed local remote s -> 0 <= Interface.GetHeaderLen -> zlen data < 2 ^ 52 ->
  let b := session_part cb partId data local remote s in
  prepared_part (new_PartContext cb partId data (routed_transport local remote s)) w = Done b w /\ geometry b.
Proof.
  intros Hrt Hh Hd b. destruct (rt_header _ _ _ Hrt) as [Hs0 Hs1]. unfold PACKET_SIZE in Hs1.
  set (b0 := new_PartContext cb partId data (routed_transport local remote s)).
  destruct (Prepare_geometry (mkTestingState [] false) b0 (Serializer_GetHeaderLen s)) as (b' & Hp & Hg & Hb');
    [done|done|done| | |done|].
  { cbn. unfold PACKET_SIZE. lia. }
  { cbn. lia. }
  assert (b' = b) as -> by (rewrite Hb'; reflexivity). split; [|done].
  unfold prepared_part, mbind, go_bind, with_new. by rewrite Hp.
Qed.

Lemma session_room cb partId data local remote s :
  routed local remote s -> 0 <= Interface.GetHeaderLen -> zlen data < 2 ^ 52 ->
  let b := session_part cb partId data local remote s in
  0 <= NumPackets b * PACKET_SIZE < 2 ^ 63 /\ RecommendedBufferSize b = NumPackets b * PACKET_SIZE.
Proof.
  intros Hrt Hh Hd b. destruct (rt_header _ _ _ Hrt) as [Hs0 Hs1]. unfold PACKET_SIZE in *.
  pose proof (zlen_nonneg data). cbn [b session_part NumPackets RecommendedBufferSize set_sizes].
  set (pl := 1400 - (Serializer_GetHeaderLen s + Interface.GetHeaderLen)) in *. unfold PACKET_SIZE. fold pl.
  pose proof (ceil_div_nonneg (zlen data) pl ltac:(lia) ltac:(unfold pl; lia)).
  pose proof (ceil_div_le (zlen data) pl ltac:(lia) ltac:(unfold pl; lia)).
  split; [lia|]. apply i64_id. unfold in_i64. lia.
Qed.

Lemma alloc_part_eq w b :
  let p := fresh (dom (parts w)) in
  alloc_part b w = Done p (set_parts (<[p := b]> (parts w)) w).
Proof. reflexivity. Qed.

(** The message of a handshake. *)
Definition session_message (local : Addr) (partId size : Z) : PartsHandshake :=
  set_transfer (UDPAddr_String (Some local)) [mkPartTransfer (u64 partId) (u64 size) 0] NewPartsHandshake.

Lemma read_raw_eq w c c' bs err :
  Conn (dp w) = Some c -> conn_Read c 1400 = (c', (bs, err)) ->
  read_raw NewPartsHandshake w =
    Done (set_raw (read_buffer (replicate 1400 Byte.x00) bs) NewPartsHandshake) (set_dp (set_Conn c' (dp w)) w).
Proof.
  intros Hc Hr. unfold read_raw.
  by rewrite (bind_Done _ _ _ _ _ (Read_Done 1400 w c c' _ Hc Hr : at_dp (Read (zlen (raw NewPartsHandshake))) w = _)).
Qed.

(** The sender: the part id is the next one of its own counter. *)
Lemma Handshake_eq w c c1 c2 data local remote s n bs reply :
  Conn (dp w) = Some c -> localAddr (dp w) = Some local -> remoteAddr (dp w) = Some remote ->
  routed local remote s -> 0 <= Interface.GetHeaderLen -> zlen data < 2 ^ 52 ->
  let partId := i64 (currentPartId (owner w) + 1) in
  let hs := session_message local partId (zlen data) in
  handshake_ok hs -> gob_encode_handshake hs = inr bs ->
  conn_Write c bs = (c1, n) -> conn_Read c1 1400 = (c2, reply) ->
  let b := session_part CountInRateControl partId data local remote s in
  let p := fresh (dom (parts w)) in
  Handshake data w =
    Done (inr p) (mkWorld (set_Conn c2 (rerouted remote (dp w))) (<[p := b]> (parts w)) (set_currentPartId partId (owner w))).
Proof.
  intros Hc Hl Hr Hrt Hh Hd partId hs Hok He Hw Hrd b p.
  destruct (gob_handshake hs Hok) as (bs' & He' & Hdec). rewrite He in He'. injection He' as <-.
  unfold Handshake.
  set (w1 := set_owner (set_currentPartId partId (owner w)) w).
  assert (E1 : NextPartId w = Done partId w1) by reflexivity.
  rewrite (bind_Done _ _ _ _ _ E1).
  assert (E2 : transfer_handshake partId (zlen data) w1 = Done hs w1).
  { unfold transfer_handshake, at_dp, zoom, LocalAddr, gets, mbind, go_bind. cbn. rewrite Hl. by destruct w. }
  rewrite (bind_Done _ _ _ _ _ E2). unfold Encode. rewrite He. cbn [raw set_raw].
  rewrite (bind_Done _ _ _ _ _ (Write_Done bs w1 c c1 n Hc Hw)).
  set (w2 := set_dp (set_Conn c1 (dp w1)) w1). destruct reply as [rb rerr].
  rewrite (bind_Done _ _ _ _ _ (read_raw_eq w2 c1 c2 rb rerr eq_refl Hrd)).
  set (w3 := set_dp (set_Conn c2 (dp w2)) w2).
  assert (E3 : Decode (set_raw bs hs) = inr (set_raw bs hs)).
  { unfold Decode. cbn [raw set_raw]. pose proof (proj2 (Hdec bs [])) as Hself. by rewrite app_nil_r in Hself. }
  rewrite E3. unfold first_transfer. cbn [hs_PartTransfers set_raw hs session_message set_transfer].
  change (go_index [mkPartTransfer (u64 partId) (u64 (zlen data)) 0] 0) with (Some (mkPartTransfer (u64 partId) (u64 (zlen data)) 0)).
  go_step. rewrite (bind_Done _ _ _ _ _ (transport_packer_eq w3 local remote s Hl Hr Hrt)).
  cbn [tr_PartId]. rewrite i64_u64, (i64_id partId) by apply i64_range.
  set (w4 := set_dp (rerouted remote (dp w3)) w3).
  destruct (prepared_part_eq w4 CountInRateControl partId data local remote s Hrt Hh Hd) as [Hp _].
  rewrite (bind_Done _ _ _ _ _ Hp), (bind_Done _ _ _ _ _ (alloc_part_eq w4 _)). reflexivity.
Qed.

(** The receiver: the part id is that of the message. *)
Lemma AwaitHandshake_eq w c c1 c2 buffer local remote s n partId size from bs reply :
  Conn (dp w) = Some c -> localAddr (dp w) = Some local -> remoteAddr (dp w) = Some remote ->
  routed local remote s -> 0 <= Interface.GetHeaderLen -> zlen buffer < 2 ^ 52 ->
  in_i64 partId ->
  let hs := session_message from partId size in
  handshake_ok hs -> gob_encode_handshake hs = inr bs ->
  gob_encode_handshake (session_message local partId size) = inr reply ->
  conn_Read c 1400 = (c1, (bs, None)) -> conn_Write c1 reply = (c2, n) ->
  let b := session_part IgnoreStatus partId buffer local remote s in
  let p := fresh (dom (parts w)) in
  AwaitHandshake buffer w =
    Done (inr p) (mkWorld (set_Conn c2 (rerouted remote (dp w)))
      (<[p := set_Buffer (replicate (Z.to_nat (RecommendedBufferSize b)) Byte.x00) b]> (parts w)) (owner w)).
Proof.
  intros Hc Hl Hr Hrt Hh Hd Hid hs Hok He Her Hrd Hw b p.
  destruct (gob_handshake hs Hok) as (bs' & He' & Hdec). rewrite He in He'. injection He' as <-.
  unfold AwaitHandshake. rewrite (bind_Done _ _ _ _ _ (read_raw_eq w c c1 bs None Hc Hrd)).
  set (r := read_buffer _ bs). set (w1 := set_dp (set_Conn c1 (dp w)) w).
  assert (E1 : Decode (set_raw r NewPartsHandshake) = inr (set_raw r hs)).
  { unfold Decode. cbn [raw set_raw]. unfold r at 2, read_buffer, splice. rewrite take_0. cbn [app]. apply Hdec. }
  rewrite E1.
  assert (E2 : learn_remote (set_raw r hs) w1 = Done tt w1).
  { unfold learn_remote, at_dp, zoom, RemoteAddr, gets, mbind, go_bind. cbn. rewrite Hr. cbn. by destruct w. }
  rewrite (bind_Done _ _ _ _ _ E2). unfold first_transfer. cbn [hs_PartTransfers set_raw hs session_message set_transfer].
  change (go_index [mkPartTransfer (u64 partId) (u64 size) 0] 0) with (Some (mkPartTransfer (u64 partId) (u64 size) 0)).
  go_step.
  assert (E3 : at_dp LocalAddr w1 = Done (Some local) w1).
  { unfold at_dp, zoom, LocalAddr, gets. cbn. rewrite Hl. by destruct w. }
  rewrite (bind_Done _ _ _ _ _ E3). cbv zeta.
  rewrite (bind_Done _ _ _ _ _ (transport_packer_eq w1 local remote s Hl Hr Hrt)).
  cbn [tr_PartId tr_PartSize]. rewrite i64_u64, (i64_id partId) by done.
  set (w1' := set_dp (rerouted remote (dp w1)) w1).
  destruct (prepared_part_eq w1' IgnoreStatus partId buffer local remote s Hrt Hh Hd) as [Hp Hg]. fold b in Hp, Hg.
  rewrite (bind_Done _ _ _ _ _ Hp).
  assert (E4 : go_make Byte.x00 (RecommendedBufferSize b) = Some (replicate (Z.to_nat (RecommendedBufferSize b)) Byte.x00)).
  { destruct (session_room IgnoreStatus partId buffer local remote s Hrt Hh Hd) as [Hroom Heq]. fold b in Hroom, Heq.
    unfold go_make. destruct (Z.leb_spec 0 (RecommendedBufferSize b)); [done|lia]. }
  rewrite E4. go_step. unfold Encode.
  change (set_transfer _ _ _) with (session_message local partId size). rewrite Her. cbn [raw set_raw].
  rewrite (bind_Done _ _ _ _ _ (Write_Done reply w1' c1 c2 n eq_refl Hw)).
  set (w2 := set_dp _ w1'). rewrite (bind_Done _ _ _ _ _ (alloc_part_eq w2 _)). reflexivity.
Qed.

(** ** Agreement *)

Lemma zlen_same_length (l l' : list byte) : length l = length l' -> zlen l = zlen l'.
Proof. unfold zlen. congruence. Qed.

(** The receiver's part context, with its buffer. *)
Definition session_receiver (partId : Z) (buffer : list byte) (local remote : Addr) (s : Serializer) : PartContext :=
  let b := session_part IgnoreStatus partId buffer local remote s in
  set_Buffer (replicate (Z.to_nat (RecommendedBufferSize b)) Byte.x00) b.

Lemma session_sender_ok cb partId data local remote s :
  routed local remote s -> 0 <= Interface.GetHeaderLen -> zlen data < 2 ^ 52 ->
  let b := session_part cb partId data local remote s in
  geometry b /\ transport_ok (PCTransportPacketPacker b).
Proof.
  intros Hrt Hh Hd b. split; [|by apply routed_transport_ok].
  destruct (rt_header _ _ _ Hrt) as [Hs0 Hs1]. unfold PACKET_SIZE in *. unfold geometry, b. cbn. unfold PACKET_SIZE.
  split_and!; (done || lia).
Qed.

Lemma session_receiver_ready partId buffer local remote s :
  routed local remote s -> 0 <= Interface.GetHeaderLen -> zlen buffer < 2 ^ 52 -> in_i64 partId ->
  receiver_ready (session_receiver partId buffer local remote s).
Proof.
  intros Hrt Hh Hd Hp. destruct (session_sender_ok IgnoreStatus partId buffer local remote s Hrt Hh Hd) as [Hg Ht].
  destruct (session_room IgnoreStatus partId buffer local remote s Hrt Hh Hd) as [Hroom Heq].
  split; try done; cbn [session_receiver set_Buffer Buffer NumPackets MaxPacketLength].
  - rewrite Heq. unfold zlen. rewrite length_replicate, Z2Nat.id by lia. done.
  - split; [done|apply Hroom].
Qed.

Lemma session_same_part cb partId data buffer ls rs ss lr rr sr :
  length buffer = length data -> Serializer_GetHeaderLen sr = Serializer_GetHeaderLen ss ->
  same_part (session_part cb partId data ls rs ss) (session_receiver partId buffer lr rr sr).
Proof.
  intros Hl Hs. split; cbn; [done|by rewrite Hs| |done].
  by rewrite Hs, (zlen_same_length buffer data Hl).
Qed.

(** The parts agree on their packets exactly when the headers are equally long
    and the buffer is as long as the data. *)
Lemma session_same_part_iff cb partId data buffer ls rs ss lr rr sr :
  same_part (session_part cb partId data ls rs ss) (session_receiver partId buffer lr rr sr) <->
  Serializer_GetHeaderLen sr = Serializer_GetHeaderLen ss /\ length buffer = length data.
Proof.
  split; [|intros [Hs Hl]; by apply session_same_part].
  intros [_ Hpl _ Hlen]. cbn in Hpl, Hlen. split; [lia|done].
Qed.

(** C9: the two ends of a handshake.  When the message [Handshake] writes is the
    one [AwaitHandshake] reads, both return a new part context, for data and a
    buffer below [2^52] bytes.  The two agree
    on the part's id, which is the sender's next one; the sender's starts at
    its first packet, with sizes that cut its data, and the receiver's is
    ready to receive, with sizes that cut its own buffer: the size that the
    message announces is not used.  So they agree on the packets exactly when
    the headers of the two ends are equally long and the buffer is as long as
    the data.  An end whose remote address had no path has the default one
    afterwards. *)
Theorem handshake_agrees ws cs cs1 cs2 data ls rs ss reply wr cr cr1 cr2 buffer lr rr sr ns nr bs ans :
  Conn (dp ws) = Some cs -> localAddr (dp ws) = Some ls -> remoteAddr (dp ws) = Some rs -> routed ls rs ss ->
  Conn (dp wr) = Some cr -> localAddr (dp wr) = Some lr -> remoteAddr (dp wr) = Some rr -> routed lr rr sr ->
  0 <= Interface.GetHeaderLen -> zlen data < 2 ^ 52 -> zlen buffer < 2 ^ 52 ->
  let partId := i64 (currentPartId (owner ws) + 1) in
  let hs := session_message ls partId (zlen data) in
  handshake_ok hs -> gob_encode_handshake hs = inr bs ->
  gob_encode_handshake (session_message lr partId (zlen data)) = inr ans ->
  conn_Write cs bs = (cs1, ns) -> conn_Read cs1 1400 = (cs2, reply) ->
  conn_Read cr 1400 = (cr1, (bs, None)) -> conn_Write cr1 ans = (cr2, nr) ->
  exists p q ws' wr' b br,
    Handshake data ws = Done (inr p) ws' /\ AwaitHandshake buffer wr = Done (inr q) wr' /\
    parts ws' = <[p := b]> (parts ws) /\ parts ws !! p = None /\
    parts wr' = <[q := br]> (parts wr) /\ parts wr !! q = None /\
    remoteAddr (dp ws') = Some (route rs) /\ remoteAddr (dp wr') = Some (route rr) /\
    currentPartId (owner ws') = partId /\ PartId b = partId /\ PartId br = partId /\
    Data b = data /\ currentSequenceNumber b = 0 /\ geometry b /\ transport_ok (PCTransportPacketPacker b) /\
    PayloadLength b = PACKET_SIZE - (Serializer_GetHeaderLen ss + Interface.GetHeaderLen) /\
    Data br = buffer /\ receiver_ready br /\
    PayloadLength br = PACKET_SIZE - (Serializer_GetHeaderLen sr + Interface.GetHeaderLen) /\
    (same_part b br <-> Serializer_GetHeaderLen sr = Serializer_GetHeaderLen ss /\ length buffer = length data).
Proof.
  intros Hcs Hls Hrs Hrts Hcr Hlr Hrr Hrtr Hh Hd Hd' partId hs Hok He Hea Hws Hrs' Hrr' Hwr.
  pose proof (Handshake_eq ws cs cs1 cs2 data ls rs ss ns bs reply) as HS. cbv zeta in HS.
  pose proof (AwaitHandshake_eq wr cr cr1 cr2 buffer lr rr sr nr partId (zlen data) ls bs ans) as HA. cbv zeta in HA.
  destruct (session_sender_ok CountInRateControl partId data ls rs ss Hrts Hh Hd) as [Hg Ht].
  do 6 eexists. split; [by apply HS|]. split; [apply HA; (done || apply i64_range)|].
  split; [done|]. split; [apply not_elem_of_dom, is_fresh|]. split; [done|].
  split; [apply not_elem_of_dom, is_fresh|]. split_and!; try done.
  - apply session_receiver_ready; (done || apply i64_range).
  - apply session_same_part_iff.
Qed.

End sessions.

(** ** On the loopback network *)

#[local] Existing Instances BinaryPartsPacketPacker.packer BinaryPartsPacketPacker.packer_spec.

(** A path library with one path, whose header has 72 bytes: an address that
    was only parsed has none. *)
#[export] Instance one_path : PathLib string unit unit := {|
  Path_IsEmpty a := negb (has_path a);
  PrepareConnectivityContext := inr tt;
  NewPacketSerializer _ _ _ := inr tt;
  Serializer_GetHeaderLen _ := 72;
|}.

Definition alice : string := "19-ffaa:1:cf1,[127.0.0.1]:8001".
Definition bob : string := "19-ffaa:1:cf1,[127.0.0.1]:9001".

(** An end that has no part yet. *)
Definition idle_end (local remote : string) (c : link) : world link string ControlPlane :=
  mkWorld (mkSCIONDataplane false (Some c) (Some remote) (Some local) (Some local) [] 64 DP_STATE_PENDING None
    (NewMetrics 100)) ∅ NewControlPlane.

(** An end that listens and has accepted nobody yet. *)
Definition listening_end (local : string) (c : link) : world link string ControlPlane :=
  mkWorld (mkSCIONDataplane false (Some c) None (Some local) (Some local) [] 64 DP_STATE_PENDING None
    (NewMetrics 100)) ∅ NewControlPlane.

(** On every network that sets this default path. *)
Lemma default_routed (net : SCIONNet link string) local remote :
  (forall a, SetDefaultPath (SCIONNet := net) a = (with_path a, None)) -> routed (H := net) local remote tt.
Proof.
  intros Hp. split; [|by exists tt|]; cbn; [|by split]. unfold path_of. cbn.
  destruct (has_path remote); cbn; [done|by rewrite Hp].
Qed.

Lemma idle_routed local remote : routed local remote tt.
Proof. by apply default_routed. Qed.

Lemma loopback_message local size :
  local = alice \/ local = bob -> size = 5 \/ size = 0 \/ size = 2000 ->
  handshake_ok (session_message local 1 size) /\
  exists bs, gob_encode_handshake (session_message local 1 size) = inr bs /\ zlen bs <= 1400.
Proof.
  intros Hl Hs.
  assert (Hok : handshake_in_range (session_message local 1 size)).
  { split.
    - repeat (apply Forall_cons_2; [split; [discriminate|reflexivity]|]). apply Forall_nil_2.
    - destruct Hl as [-> | ->]; reflexivity.
    - split; [|reflexivity]. apply Forall_cons_2; [|apply Forall_nil_2].
      destruct Hs as [-> | [-> | ->]]; split_and!; (split; [discriminate|reflexivity]).
    - destruct Hl as [-> | ->], Hs as [-> | [-> | ->]]; reflexivity. }
  split; [exact Hok|]. eexists. split; [reflexivity|].
  destruct Hl as [-> | ->], Hs as [-> | [-> | ->]]; vm_compute; discriminate.
Qed.

Lemma loopback_read d ds t : zlen d <= 1400 -> conn_Read (mkLink (d :: ds) t) 1400 = (mkLink ds t, (d, None)).
Proof.
  intros Hd. change (conn_Read _ _) with (mkLink ds t, (take (Z.to_nat 1400) d, @None error)).
  rewrite take_ge; [done|]. unfold zlen in Hd. lia.
Qed.

(** Neither end has a path yet; the receiver's buffer is a byte too long. *)
Lemma handshake_agrees_witness :
  exists ws wr p q ws' wr' b br,
    Handshake five ws = Done (inr p) ws' /\ AwaitHandshake (no_bytes 6) wr = Done (inr q) wr' /\
    parts ws' !! p = Some b /\ parts wr' !! q = Some br /\ Data b = five /\ receiver_ready br /\
    remoteAddr (dp ws) = Some bob /\ remoteAddr (dp ws') = Some (with_path bob) /\ PartId b = PartId br /\ ~ same_part b br.
Proof.
  destruct (loopback_message alice 5 (or_introl eq_refl) (or_introl eq_refl)) as [Hok (bs & He & Hl)].
  destruct (loopback_message bob 5 (or_intror eq_refl) (or_introl eq_refl)) as [_ (ans & Hea & Hla)].
  destruct (handshake_agrees (C := link) (Addr := string)
    (idle_end alice bob (mkLink [ans] [])) (mkLink [ans] []) (mkLink [ans] [bs]) (mkLink [] [bs]) five alice bob tt (ans, None)
    (idle_end bob alice (mkLink [bs] [])) (mkLink [bs] []) (mkLink [] []) (mkLink [] [ans]) (no_bytes 6) bob alice tt
    (zlen bs, None) (zlen ans, None) bs ans)
    as (p & q & ws' & wr' & b & br & H1 & H2 & H3 & _ & H5 & _ & H7 & _ & _ & H8 & H9 & H10 & _ & _ & _ & _ & _ & H11 & _ & H12).
  all: try reflexivity.
  - exact (idle_routed alice bob).
  - exact (idle_routed bob alice).
  - discriminate.
  - exact Hok.
  - exact He.
  - exact Hea.
  - by apply loopback_read.
  - by apply loopback_read.
  - exists (idle_end alice bob (mkLink [ans] [])), (idle_end bob alice (mkLink [bs] [])), p, q, ws', wr', b, br.
    split_and!; [exact H1|exact H2| | |exact H10|exact H11|reflexivity|exact H7| |].
    + rewrite H3. apply lookup_insert_eq.
    + rewrite H5. apply lookup_insert_eq.
    + by rewrite H8, H9.
    + rewrite H12. by intros [_ ?].
Defined.
