(* ===== verification/PartsConn.v ===== *)
(** * PartsConn: [api/conn.go]

    A connection is a data plane and a control plane over it.  Short buffers
    go as single packets, longer ones as parts. *)

From S2P Require Import Prelude Utils Interface Packer PartContext Reassembly Metrics Dataplane SCIONPacker Loopback.
From S2P Require Import Transfer Retransfer Recovery Single RateControl Handshake Gob GobMessages ControlPlane Acks.
From S2P Require Import Sessions.

Section parts_conn.
Context {C Addr IA Serializer : Type} `{SCIONNet C Addr} `{PathLib Addr IA Serializer}.
Context `{PartsPacketPacker} `{Gob}.

Abbreviation W := (world C Addr ControlPlane).

(** A new connection: the packet channel is made here and shared by the two
    planes.  The constructor of the control plane never fails. *)
Definition newPartsConn : W := mkWorld (NewSCIONDataplane 64) ∅ NewControlPlane.

Definition Listen {S : Type} (localAddr : string) : go S (error + W) :=
  '(err, pc) ← with_new newPartsConn (at_dp (Dataplane.Listen localAddr));
  mret (match err with Some e => inl e | None => inr pc end).

Definition Dial {S : Type} (localAddr remoteAddr : string) : go S (error + W) :=
  '(err, pc) ← with_new newPartsConn
    (err ← at_dp (Dataplane.Dial localAddr remoteAddr);
     match err with
     | Some e => mret (Some e)
     | None => InitialHandshake []
     end);
  mret (match err with Some e => inl e | None => inr pc end).

Definition Accept : go W (option error) := ControlPlane.Accept.

(** The first result is the content of [b] afterwards, which for a part is the
    data of its part context. *)
Definition Read (b : list byte) : go W (list byte * Z * option error) :=
  if PACKET_PAYLOAD_SIZE <=? zlen b then
    r ← AwaitHandshake b;
    match r with
    | inl e => mret (b, 0, Some e)
    | inr p =>
        ControlPlane.SetPartContext (Some p);;
        at_cp (at_ratecontrol RateControl.Start);;
        StartReadpart;;
        '(_, err) ← ReadPart p;
        match err with
        | Some e => data ← at_part p (gets Data); mret (data, 0, Some e)
        | None =>
            FinishReadpart;;
            data ← at_part p (gets Data);
            mret (data, zlen b, None)
        end
    end
  else
    '(data, n, err) ← at_dp (ReadSingle b);
    mret (data, i64 n, err).

(** [fuel] bounds the rounds of [WriteSingle]; [others] is what the other
    goroutines do during the sleeps of [RetransferMissingPackets].  [None]:
    either of them ended before the call returned. *)
Definition Write (fuel : nat) (others : list (go W unit)) (b : list byte) : go W (option (Z * option error)) :=
  if PACKET_PAYLOAD_SIZE <=? zlen b then
    r ← Handshake b;
    match r with
    | inl e => mret (Some (0, Some e))
    | inr p =>
        ControlPlane.SetPartContext (Some p);;
        at_cp (at_ratecontrol RateControl.Start);;
        StartWritepart;;
        '(n, err) ← WritePart p;
        match err with
        | Some e => mret (Some (0, Some e))
        | None =>
            finished ← RetransferMissingPackets others;
            if (finished : bool) then
              at_cp (at_ratecontrol RateControl.Stop);;
              FinishWritepart;;
              mret (Some (i64 n, None))
            else mret None
        end
    end
  else
    partid ← NextPartId;
    r ← at_dp (WriteSingle fuel b partid);
    mret (match r with Some (n, err) => Some (i64 n, err) | None => None end).

Definition Close : go W (option error) := at_dp Dataplane.Stop.
Definition LocalAddr : go W (option Addr) := at_dp Dataplane.LocalAddr.
Definition RemoteAddr : go W (option Addr) := at_dp Dataplane.RemoteAddr.
Definition SetDeadline (t : Z) : go W (option error) := at_dp (Dataplane.SetDeadline t).
Definition SetReadDeadline (t : Z) : go W (option error) := at_dp (Dataplane.SetReadDeadline t).
Definition SetWriteDeadline (t : Z) : go W (option error) := at_dp (Dataplane.SetWriteDeadline t).

(** What the goroutine of [StartWritepart] does at the next packet. *)
Definition ack_goroutine : go W unit :=
  as_goroutine (r ← read_ack; _ ← handle_read r; mret tt).

End parts_conn.

(** ** What goes over a connection *)

Section conversation.
Context {C Addr : Type} `{SCIONNet C Addr}.

(** A datagram sent, or one read with a buffer of [n] bytes. *)
Inductive event : Type :=
| Sends (d : list byte)
| Gets (n : Z) (d : list byte).

Inductive conversation : C -> list event -> C -> Prop :=
| conversation_nil c : conversation c [] c
| conversation_sends c d c1 es c2 :
    conn_Write c d = (c1, (zlen d, None)) -> conversation c1 es c2 -> conversation c (Sends d :: es) c2
| conversation_gets c n d c1 es c2 :
    conn_Read c n = (c1, (d, None)) -> conversation c1 es c2 -> conversation c (Gets n d :: es) c2.

Lemma conversation_app c es1 es2 c2 :
  conversation c (es1 ++ es2) c2 -> exists c1, conversation c es1 c1 /\ conversation c1 es2 c2.
Proof.
  induction es1 as [|e es1 IH] in c |- *; cbn [app]; [intros ?; exists c; split; [constructor|done]|].
  inversion 1 as [|? ? c1 ? ? Hw Hes|? ? ? c1 ? ? Hr Hes]; subst; destruct (IH _ Hes) as (c3 & ? & ?);
    exists c3; (split; [econstructor; eassumption|done]).
Qed.

Lemma conversation_writes c ds c' : conversation c (Sends <$> ds) c' -> writes c ds c'.
Proof.
  induction ds as [|d ds IH] in c |- *; cbn; inversion 1; subst; [constructor|]. econstructor; [eassumption|]. by apply IH.
Qed.

Lemma conversation_reads n c ds c' : conversation c (Gets n <$> ds) c' -> reads n c ds c'.
Proof.
  induction ds as [|d ds IH] in c |- *; cbn; inversion 1; subst; [constructor|]. econstructor; [eassumption|]. by apply IH.
Qed.

End conversation.

(** ** A part through two connections *)

Section sessions.
Context {C Addr IA Serializer : Type} `{SCIONNetSpec C Addr} `{PathLib Addr IA Serializer}.
Context `{PartsPacketPackerSpec} `{GobSpec}.
Implicit Types (w : world C Addr ControlPlane).

(** A connection between two addresses. *)
Record connected (w : world C Addr ControlPlane) (c : C) (local remote : Addr) (s : Serializer) : Prop := {
  cd_conn : Conn (dp w) = Some c;
  cd_local : localAddr (dp w) = Some local;
  cd_remote : remoteAddr (dp w) = Some remote;
  cd_routed : routed local remote s;
  cd_rc : rc_inv (Ratecontrol (owner w));
}.

(** The control plane when a part starts. *)
Definition starts (p : nat) (handlers reqs : nat) (cp : ControlPlane) : ControlPlane :=
  set_goroutines (handlers + ack_handlers cp) (reqs + requesters cp)
    (set_Ratecontrol (set_rc_state RC_STATE_STARTUP (set_rc_partContext (Some p) (Ratecontrol cp)))
      (set_cp_PartContext (Some p) cp)).

Lemma Write_starts {A} p w (k : go (world C Addr ControlPlane) A) :
  (ControlPlane.SetPartContext (Some p);; at_cp (at_ratecontrol RateControl.Start);; StartWritepart;; k) w =
    k (set_owner (starts p 1 0 (owner w)) w).
Proof. reflexivity. Qed.

Lemma Read_starts {A} p w (k : go (world C Addr ControlPlane) A) :
  (ControlPlane.SetPartContext (Some p);; at_cp (at_ratecontrol RateControl.Start);; StartReadpart;; k) w =
    k (set_owner (starts p 0 1 (owner w)) w).
Proof. reflexivity. Qed.

(** The control plane of a receiver of the part at [p]. *)
Definition receiver_ok (p : nat) (cp : ControlPlane) : Prop :=
  rc_inv (Ratecontrol cp) /\ cp_PartContext cp = Some p /\ (0 < requesters cp)%nat.

#[refine] Instance receiver_listener_spec (p : nat) : StatusListenerSpec ControlPlane := {| listener_ok := receiver_ok p |}.
Proof.
  intros cb n bts cp (Hcp & Hrest). destruct cb; [|by exists cp].
  destruct (Add_Done n bts (Ratecontrol cp) Hcp) as (t & Ha & _).
  cbn [run_status cp_listener]. eexists. split.
  - unfold mbind, go_bind, at_ratecontrol, zoom. rewrite Ha. reflexivity.
  - done.
Defined.

(** The acknowledgement that ends a part. *)
Definition finish_packet (partId n : Z) : PartRequestPacket := mkPartRequestPacket partId 0 0 0 [] [] 0 0 n true.

(** The sender's goroutine reads it. *)
Lemma ack_goroutine_finishes w c c' partId n fin :
  Conn (dp w) = Some c -> conn_Read c 1400 = (c', (fin, None)) ->
  request_ok (finish_packet partId n) -> gob_encode_request (finish_packet partId n) = inr fin ->
  locked (dp w) = false ->
  exists w', ack_goroutine w = Done tt w' /\ state (dp w') = DP_STATE_PENDING.
Proof.
  intros Hc Hr Hok He Hl. destruct (gob_request _ Hok) as (fin' & He' & Hdec). rewrite He in He'. injection He' as <-.
  set (w1 := set_dp (set_Conn c' (dp w)) w).
  destruct (finished_unlocked w1 (ack_of (finish_packet partId n)) eq_refl Hl) as (w' & Hrun & Hs & _).
  exists w'. split; [|done]. rewrite <- Hrun. unfold ack_goroutine, in_background, as_goroutine, read_ack.
  rewrite bind_assoc, (bind_Done _ _ _ _ _ (Read_Done 1400 w c c' _ Hc Hr : at_dp (Dataplane.Read PACKET_SIZE) w = _)).
  fold w1. go_step. unfold handle_read, parsePartAckPacket, read_buffer, splice. rewrite take_0. cbn [app].
  rewrite Hdec. reflexivity.
Qed.

(** Nothing is missing at the sender: one pass without a packet, and the
    acknowledgement ends the loop. *)
Lemma Retransfer_finishes p b w c c' partId n fin rest :
  sending p c b w -> geometry b -> transport_ok (PCTransportPacketPacker b) -> Interface.GetHeaderLen < 2 ^ 53 ->
  MissingSequenceNums b = [] -> MissingSequenceNumOffsets b = [] ->
  conn_Read c 1400 = (c', (fin, None)) ->
  request_ok (finish_packet partId n) -> gob_encode_request (finish_packet partId n) = inr fin ->
  locked (dp w) = false ->
  exists w', RetransferMissingPackets (ack_goroutine :: rest) w = Done true w'.
Proof.
  intros Hsd Hg Ht Hh Hm Hmo Hr Hok He Hl. unfold RetransferMissingPackets. rewrite bind_modify.
  set (w0 := set_dp _ w).
  assert (Hsd0 : sending p c b w0) by (destruct Hsd; by split).
  destruct (retransfer_pass_eq p b w0 c c Hsd0 Hg Ht Hh) as (o & _ & Hpass).
  { rewrite Hm, Hmo. constructor. }
  { unfold requested. rewrite Hm. constructor. }
  destruct (ack_goroutine_finishes (after_pass p b c o w0) c c' partId n fin) as (w' & Hack & Hs); try done.
  exists w'. cbn [retransfer_loop]. rewrite bind_gets.
  change (state (dp w0)) with DP_STATE_RETRANSFER. cbn [negb Z.eqb Pos.eqb DP_STATE_RETRANSFER].
  rewrite (bind_Done _ _ _ _ _ Hpass), (bind_Done _ _ _ _ _ Hack).
  destruct rest; cbn [retransfer_loop]; rewrite bind_gets, Hs; done.
Qed.

(** [sendPartFinish] and the stop of the requester, at a receiver. *)
Lemma FinishReadpart_eq p b w c c' n fin :
  Conn (dp w) = Some c -> cp_PartContext (owner w) = Some p -> parts w !! p = Some b ->
  gob_encode_request (finish_packet (PartId b) (i64 (RecvPackets b))) = inr fin ->
  conn_Write c fin = (c', n) -> (0 < requesters (owner w))%nat ->
  exists o, FinishReadpart w = Done tt (mkWorld (set_Conn c' (dp w)) (parts w) o).
Proof.
  intros Hc Hp Hb He Hw Hq. unfold FinishReadpart, sendPartFinish.
  assert (Hown : own_part w = Done p w) by (unfold own_part; go_step; by rewrite Hp).
  rewrite bind_assoc, (bind_Done _ _ _ _ _ Hown), bind_assoc, (bind_Done _ _ _ _ _ (at_part_gets p id w b Hb)).
  cbn [id]. fold (finish_packet (PartId b) (i64 (RecvPackets b))). rewrite He.
  rewrite bind_assoc, (bind_Done _ _ _ _ _ (Write_Done fin w c c' n Hc Hw)).
  destruct n as [m err]. rewrite bind_ret. destruct w as [d ps cp]. cbn in Hq.
  destruct (requesters cp) as [|q] eqn:E; [lia|].
  eexists. unfold at_cp, at_owner, zoom, gets, modify, mbind, go_bind, set_owner, set_dp. cbn. rewrite E. reflexivity.
Qed.

(** The calls of a sender: [Write] of a part. *)
Lemma Write_part w c c' data local remote s bs reply fin fuel rest :
  connected w c local remote s -> locked (dp w) = false ->
  0 <= Interface.GetHeaderLen -> PACKET_PAYLOAD_SIZE <= zlen data < 2 ^ 52 ->
  let partId := i64 (currentPartId (owner w) + 1) in
  let b := session_part CountInRateControl partId data local remote s in
  let hs := session_message local partId (zlen data) in
  handshake_ok hs -> gob_encode_handshake hs = inr bs ->
  request_ok (finish_packet partId (NumPackets b)) ->
  gob_encode_request (finish_packet partId (NumPackets b)) = inr fin ->
  conversation c (Sends bs :: Gets 1400 reply :: (Sends <$> packets b) ++ [Gets 1400 fin]) c' ->
  exists w', Write fuel (ack_goroutine :: rest) data w = Done (Some (i64 (u64 (total_len (packets b))), None)) w'.
Proof.
  intros [Hc Hl Hr Hrt Hrc] Hlk Hh [Hd0 Hd] partId b hs Hok He Hokf Hef Hconv.
  inversion Hconv as [|? ? c1 ? ? Hw1 Hconv1|]; subst.
  inversion Hconv1 as [| |? ? ? c2 ? ? Hr2 Hconv2]; subst.
  apply conversation_app in Hconv2 as (c3 & Hw3%conversation_writes & Hconv3).
  inversion Hconv3 as [| |? ? ? c4 ? ? Hr4 _]; subst.
  unfold Write. rewrite (proj2 (Z.leb_le _ _)) by done.
  pose proof (Handshake_eq w c c1 c2 data local remote s _ bs _ Hc Hl Hr Hrt Hh Hd Hok He Hw1 Hr2) as HS. cbv zeta in HS.
  rewrite (bind_Done _ _ _ _ _ HS). fold partId b. set (p := fresh (dom (parts w))). rewrite Write_starts.
  set (w1 := set_owner _ _).
  destruct (session_sender_ok CountInRateControl partId data local remote s Hrt Hh Hd) as [Hg Ht]. fold b in Hg, Ht.
  assert (Hh53 : Interface.GetHeaderLen < 2 ^ 53).
  { pose proof (rt_header _ _ _ Hrt) as [? Hlt]. unfold PACKET_SIZE in Hlt. lia. }
  assert (Hp1 : parts w1 !! p = Some b) by apply lookup_insert_eq.
  assert (Ho1 : listener_ok (owner w1)) by exact Hrc.
  destruct (WritePart_sends p w1 b c2 c3 Hp1 Hg Ht Hh53 eq_refl eq_refl Ho1 Hw3) as (o & Ho & HW).
  rewrite (bind_Done _ _ _ _ _ HW). set (w2 := after_write p b c3 o w1).
  destruct (Retransfer_finishes p (set_currentSequenceNumber (NumPackets b) b) w2 c3 c4 partId (NumPackets b) fin rest)
    as (w3 & HR); try done.
  { split; [done|apply lookup_insert_eq|done|done]. }
  rewrite (bind_Done _ _ _ _ _ HR). by eexists.
Qed.

(** The calls of a receiver: [Read] of a part. *)
Lemma Read_part w c c' buffer data local remote s from ls rs ss partId bs ans fin arrived :
  connected w c local remote s ->
  0 <= Interface.GetHeaderLen -> PACKET_PAYLOAD_SIZE <= zlen buffer < 2 ^ 52 -> in_i64 partId ->
  length buffer = length data -> Serializer_GetHeaderLen s = Serializer_GetHeaderLen ss ->
  let b := session_part CountInRateControl partId data ls rs ss in
  let hs := session_message from partId (zlen data) in
  handshake_ok hs -> gob_encode_handshake hs = inr bs ->
  gob_encode_handshake (session_message local partId (zlen data)) = inr ans ->
  gob_encode_request (finish_packet partId (NumPackets b)) = inr fin ->
  arrived ≡ₚ packets b ->
  conversation c (Gets 1400 bs :: Sends ans :: (Gets 1400 <$> arrived) ++ [Sends fin]) c' ->
  exists w', Read buffer w = Done (data, zlen buffer, None) w'.
Proof.
  intros [Hc Hl Hr Hrt Hrc] Hh [Hd0 Hd] Hid Hlen Hser b hs Hok He Hea Hef Harr Hconv.
  inversion Hconv as [| |? ? ? c1 ? ? Hr1 Hconv1]; subst.
  inversion Hconv1 as [|? ? c2 ? ? Hw2 Hconv2|]; subst.
  apply conversation_app in Hconv2 as (c3 & Hr3%conversation_reads & Hconv3).
  inversion Hconv3 as [|? ? c4 ? ? Hw4 _|]; subst.
  unfold Read. rewrite (proj2 (Z.leb_le _ _)) by done.
  pose proof (AwaitHandshake_eq w c c1 c2 buffer local remote s _ partId (zlen data) from bs ans
    Hc Hl Hr Hrt Hh Hd Hid Hok He Hea Hr1 Hw2) as HA. cbv zeta in HA.
  rewrite (bind_Done _ _ _ _ _ HA). set (p := fresh (dom (parts w))).
  fold (session_receiver partId buffer local remote s). set (br := session_receiver _ _ _ _ _).
  rewrite Read_starts. set (w1 := set_owner _ _).
  pose proof (session_receiver_ready partId buffer local remote s Hrt Hh Hd Hid) as Hrr. fold br in Hrr.
  destruct (session_same_part CountInRateControl partId data buffer ls rs ss local remote s Hlen Hser)
    as [Hpid Hpl Hn Hsl]. fold br b in Hpid, Hpl, Hn, Hsl.
  assert (Hp1 : parts w1 !! p = Some br) by apply lookup_insert_eq.
  assert (HN : 0 < NumPackets br).
  { destruct (rr_geometry _ Hrr) as (Hpos & _ & ->). change (Data br) with buffer.
    pose proof (ceil_div_bounds (zlen buffer) (PayloadLength br) ltac:(lia)). unfold PACKET_PAYLOAD_SIZE in Hd0. nia. }
  assert (Ho1 : listener_ok (StatusListenerSpec := receiver_listener_spec p) (owner w1)) by (split_and!; [exact Hrc|done|cbn; lia]).
  destruct (ReadPart_permuted (H2 := receiver_listener_spec p) p w1 br c2 c3 data arrived Hp1 eq_refl Ho1 Hrr HN) as
    (o & b' & (_ & Hop & Hoq) & HR & Hdata & _ & _ & _ & Hrp & Hid'); [by rewrite Hsl| |done|].
  { rewrite Hpid, Hpl, Hn. exact Harr. }
  rewrite (bind_Done _ _ _ _ _ HR). set (w2 := mkWorld _ _ o).
  assert (HN53 := geometry_NumPackets br (rr_geometry _ Hrr)).
  assert (Hb2 : parts w2 !! p = Some b') by apply lookup_insert_eq.
  destruct (FinishReadpart_eq p b' w2 c3 c4 (zlen fin, None) fin eq_refl Hop Hb2) as (o' & HF); [|exact Hw4|done|].
  { rewrite Hid', Hpid, Hrp, i64_id by (unfold in_i64; lia). by rewrite Hn. }
  rewrite (bind_Done _ _ _ _ _ HF). set (w3 := mkWorld _ _ o').
  rewrite (bind_Done _ _ _ _ _ (at_part_gets p Data w3 b' Hb2)), Hdata. by eexists.
Qed.

(** C1: a part through two connections.  The sender's connection takes the
    handshake, the answer, the packets of the part and the finishing
    acknowledgement; the receiver's hands over the handshake, takes the
    answer, hands over the packets in any order and takes the finishing
    acknowledgement.  Then [Write] and [Read] both return without error, and
    the receiver's buffer holds the sender's data. *)
Theorem Write_Read_part ws cs cs' ls rs ss data wr cr cr' lr rr sr buffer bs ans fin arrived fuel rest :
  connected ws cs ls rs ss -> connected wr cr lr rr sr -> locked (dp ws) = false ->
  Serializer_GetHeaderLen sr = Serializer_GetHeaderLen ss -> 0 <= Interface.GetHeaderLen ->
  PACKET_PAYLOAD_SIZE <= zlen data < 2 ^ 52 -> length buffer = length data ->
  let partId := i64 (currentPartId (owner ws) + 1) in
  let b := session_part CountInRateControl partId data ls rs ss in
  let hs := session_message ls partId (zlen data) in
  let finish := finish_packet partId (NumPackets b) in
  handshake_ok hs -> gob_encode_handshake hs = inr bs ->
  gob_encode_handshake (session_message lr partId (zlen data)) = inr ans ->
  request_ok finish -> gob_encode_request finish = inr fin ->
  conversation cs (Sends bs :: Gets 1400 ans :: (Sends <$> packets b) ++ [Gets 1400 fin]) cs' ->
  arrived ≡ₚ packets b ->
  conversation cr (Gets 1400 bs :: Sends ans :: (Gets 1400 <$> arrived) ++ [Sends fin]) cr' ->
  exists ws' wr',
    Write fuel (ack_goroutine :: rest) data ws = Done (Some (i64 (u64 (total_len (packets b))), None)) ws' /\
    Read buffer wr = Done (data, zlen data, None) wr'.
Proof.
  intros Hws Hwr Hlk Hser Hh Hd Hlen partId b hs finish Hok He Hea Hokf Hef Hcs Harr Hcr.
  assert (Hz : zlen buffer = zlen data) by by apply zlen_same_length.
  destruct (Write_part ws cs cs' data ls rs ss bs ans fin fuel rest) as (ws' & HW); try done.
  destruct (Read_part wr cr cr' buffer data lr rr sr ls ls rs ss partId bs ans fin arrived) as (wr' & HR); try done.
  { by rewrite Hz. }
  { apply i64_range. }
  exists ws', wr'. split; [exact HW|]. by rewrite HR, Hz.
Qed.

(** Two ends between which a part goes through: the premises above, for some
    datagrams. *)
Inductive part_exchange (ws wr : world C Addr ControlPlane) (data buffer : list byte) : Prop :=
| part_exchange_intro cs cs' ls rs ss cr cr' lr rr sr bs ans fin arrived :
    connected ws cs ls rs ss -> connected wr cr lr rr sr -> locked (dp ws) = false ->
    Serializer_GetHeaderLen sr = Serializer_GetHeaderLen ss -> 0 <= Interface.GetHeaderLen ->
    PACKET_PAYLOAD_SIZE <= zlen data < 2 ^ 52 -> length buffer = length data ->
    let partId := i64 (currentPartId (owner ws) + 1) in
    let b := session_part CountInRateControl partId data ls rs ss in
    let hs := session_message ls partId (zlen data) in
    let finish := finish_packet partId (NumPackets b) in
    handshake_ok hs -> gob_encode_handshake hs = inr bs ->
    gob_encode_handshake (session_message lr partId (zlen data)) = inr ans ->
    request_ok finish -> gob_encode_request finish = inr fin ->
    conversation cs (Sends bs :: Gets 1400 ans :: (Sends <$> packets b) ++ [Gets 1400 fin]) cs' ->
    arrived ≡ₚ packets b ->
    conversation cr (Gets 1400 bs :: Sends ans :: (Gets 1400 <$> arrived) ++ [Sends fin]) cr' ->
    part_exchange ws wr data buffer.

Lemma part_exchange_delivers ws wr data buffer fuel rest :
  part_exchange ws wr data buffer ->
  (exists n ws', Write fuel (ack_goroutine :: rest) data ws = Done (Some (n, None)) ws') /\
  (exists n wr', Read buffer wr = Done (data, n, None) wr').
Proof.
  intros [cs cs' ls rs ss cr cr' lr rr sr bs ans fin arrived Hws Hwr Hlk Hser Hh Hd Hlen partId b hs finish
    Hok He Hea Hokf Hef Hcs Harr Hcr].
  split; [eexists; by eapply Write_part|]. eexists.
  eapply (Read_part wr cr cr' buffer data lr rr sr ls ls rs ss partId bs ans fin arrived); try done.
  - by rewrite (zlen_same_length buffer data Hlen).
  - apply i64_range.
Qed.

(** The two ends after a message: the connections, and the part id used up. *)
Definition single_sent (c : C) w : world C Addr ControlPlane :=
  let w1 := set_owner (set_currentPartId (i64 (currentPartId (owner w) + 1)) (owner w)) w in
  set_dp (set_Conn c (dp w1)) w1.

Definition single_received (c : C) w : world C Addr ControlPlane := set_dp (set_Conn c (dp w)) w.

Lemma Write_single ws cs c1 c2 data fuel others :
  Conn (dp ws) = Some cs -> zlen data < PACKET_PAYLOAD_SIZE ->
  let partId := i64 (currentPartId (owner ws) + 1) in
  partId <> 0 -> (0 < fuel)%nat ->
  conn_Write cs (single_packet partId data) = (c1, (zlen (single_packet partId data), None)) ->
  conn_Read c1 8 = (c2, (take 8 (padded (single_packet partId data)), None)) ->
  Write fuel others data ws = Done (Some (zlen data + 8, None)) (single_sent c2 ws).
Proof.
  intros Hc Hd partId Hne Hf Hw Hr. unfold PACKET_PAYLOAD_SIZE in *. pose proof (zlen_nonneg data).
  rewrite take_padded_single in Hr. set (w1 := set_owner (set_currentPartId partId (owner ws)) ws).
  assert (HW : WriteSingle fuel data partId (dp w1) = Done (Some (zlen data + 8, None)) (set_Conn c2 (dp w1))).
  { apply (WriteSingle_loop_ends data partId (dp w1) cs cs c1 c2 [] fuel 0 0);
      (done || lia || apply i64_range || constructor). }
  unfold Write, PACKET_PAYLOAD_SIZE. rewrite (proj2 (Z.leb_gt _ _)) by done.
  rewrite (bind_Done _ _ _ partId w1) by done.
  rewrite (bind_Done _ _ _ (Some (zlen data + 8, None)) (set_dp (set_Conn c2 (dp w1)) w1)).
  - by rewrite ret_Done, i64_id by (unfold in_i64; lia).
  - unfold at_dp, zoom. by rewrite HW.
Qed.

Lemma Read_single wr cr c1 c2 partId data buffer n :
  Conn (dp wr) = Some cr -> zlen data < PACKET_PAYLOAD_SIZE -> zlen buffer < PACKET_PAYLOAD_SIZE ->
  conn_Read cr 1400 = (c1, (single_packet partId data, None)) ->
  conn_Write c1 (padded (single_packet partId data)) = (c2, (n, None)) ->
  Read buffer wr = Done (take (length buffer) (data ++ replicate (1392 - length data) Byte.x00), zlen data, None)
    (single_received c2 wr).
Proof.
  intros Hc Hd Hb Hr Hw. unfold PACKET_PAYLOAD_SIZE in *. pose proof (zlen_nonneg data).
  assert (HR : ReadSingle buffer (dp wr) = Done
    (take (length buffer) (data ++ replicate (1392 - length data) Byte.x00), zlen data, None) (set_Conn c2 (dp wr))).
  { eapply ReadSingle_eq; [done|lia|lia|exact Hr|exact Hw]. }
  unfold Read, PACKET_PAYLOAD_SIZE. rewrite (proj2 (Z.leb_gt _ _)) by done.
  rewrite (bind_Done _ _ _ (take (length buffer) (data ++ replicate (1392 - length data) Byte.x00), zlen data, None)
    (single_received c2 wr)).
  - by rewrite ret_Done, i64_id by (unfold in_i64; lia).
  - unfold at_dp, zoom. by rewrite HR.
Qed.

(** C24: a message shorter than a packet through two connections.  [Write]
    sends it with the next part id and ends when the reader's first eight
    bytes come back; [Read] returns its data, padded with zeros to the size of
    the caller's buffer, and the length of the message.  The length [Write]
    returns counts the eight bytes of the header too. *)
Theorem Write_Read_single ws cs cs' wr cr cr' data buffer fuel others :
  Conn (dp ws) = Some cs -> Conn (dp wr) = Some cr ->
  zlen data < PACKET_PAYLOAD_SIZE -> zlen buffer < PACKET_PAYLOAD_SIZE ->
  let partId := i64 (currentPartId (owner ws) + 1) in
  let answer := padded (single_packet partId data) in
  partId <> 0 -> (0 < fuel)%nat ->
  conversation cs [Sends (single_packet partId data); Gets 8 (take 8 answer)] cs' ->
  conversation cr [Gets 1400 (single_packet partId data); Sends answer] cr' ->
  exists ws' wr',
    Write fuel others data ws = Done (Some (zlen data + 8, None)) ws' /\
    Read buffer wr =
      Done (take (length buffer) (data ++ replicate (1392 - length data) Byte.x00), zlen data, None) wr'.
Proof.
  intros Hcs Hcr Hd Hb partId answer Hne Hf Hs Hr.
  inversion Hs as [|? ? c1 ? ? Hw1 Hs1|]; subst. inversion Hs1 as [| |? ? ? c2 ? ? Hr2 _]; subst.
  inversion Hr as [| |? ? ? c3 ? ? Hr3 Hr1]; subst. inversion Hr1 as [|? ? c4 ? ? Hw4 _|]; subst.
  exists (single_sent c2 ws), (single_received c4 wr). split; [by eapply Write_single|by eapply Read_single].
Qed.

(** The end that dials: the initial handshake goes out with part id 1. *)
Lemma Dial_eq {T : Type} (t : T) laddr addr listen remote0 remote err c c1 n bs :
  ParseUDPAddr laddr = inr listen -> ParseUDPAddr addr = inr remote0 -> SetDefaultPath remote0 = (remote, err) ->
  optimizedconn_Dial listen remote = inr c ->
  gob_encode_handshake (session_message listen 1 0) = inr bs -> conn_Write c bs = (c1, n) ->
  Dial laddr addr t = Done (inr (mkWorld
    (set_state DP_STATE_PENDING (set_Conn c1 (set_addrs (Some remote) (Some listen) (Some listen) (NewSCIONDataplane 64))))
    ∅ (set_currentPartId 1 NewControlPlane))) t.
Proof.
  intros Hl Ha Hp Hd He Hw. unfold Dial.
  set (w1 := mkWorld (set_state DP_STATE_PENDING (set_Conn c (set_addrs (Some remote) (Some listen) (Some listen)
    (NewSCIONDataplane 64)))) ∅ NewControlPlane).
  assert (E1 : at_dp (Dataplane.Dial laddr addr) newPartsConn = Done None w1).
  { unfold at_dp, zoom, Dataplane.Dial. rewrite Ha, Hl, Hp, bind_modify. cbn [dp newPartsConn]. by rewrite Hd. }
  set (w2 := set_owner (set_currentPartId 1 NewControlPlane) w1).
  set (w3 := set_dp (set_Conn c1 (dp w2)) w2).
  assert (E2 : InitialHandshake [] w1 = Done None w3).
  { unfold InitialHandshake. rewrite (bind_Done _ _ _ 1 w2) by reflexivity.
    rewrite (bind_Done _ _ _ (session_message listen 1 0) w2) by reflexivity.
    unfold Encode. rewrite He. cbn [raw set_raw].
    by rewrite (bind_Done _ _ _ _ _ (Write_Done bs w2 c c1 n eq_refl Hw)). }
  rewrite (bind_Done _ _ _ (None, w3) t); [reflexivity|].
  unfold with_new. by rewrite (bind_Done _ _ _ _ _ E1), E2.
Qed.

Lemma Listen_eq {T : Type} (t : T) laddr listen c :
  ParseUDPAddr laddr = inr listen -> optimizedconn_Listen listen = inr c ->
  Listen laddr t = Done (inr (mkWorld
    (set_addrs None (Some listen) (Some listen) (set_state DP_STATE_PENDING (set_Conn c
      (set_addrs None (Some listen) None (NewSCIONDataplane 64))))) ∅ NewControlPlane)) t.
Proof.
  intros Hl Hc. unfold Listen, mbind, go_bind, with_new, at_dp, zoom, Dataplane.Listen. rewrite Hl.
  cbn. by rewrite Hc.
Qed.

(** The end that accepts, with no remote address yet. *)
Lemma Accept_eq w c c1 from bs :
  Conn (dp w) = Some c -> remoteAddr (dp w) = None ->
  handshake_ok (session_message from 1 0) -> gob_encode_handshake (session_message from 1 0) = inr bs ->
  conn_Read c 1400 = (c1, (bs, None)) ->
  Accept w = Done None (set_dp
    (match ParseUDPAddr (UDPAddr_String (Some from)) with
     | inl _ => set_Conn c1 (dp w)
     | inr a => set_Conn (conn_SetRemote c1 a) (set_addrs (Some a) (localAddr (dp w)) (listenAddr (dp w)) (dp w))
     end) w).
Proof.
  intros Hc Hr Hok He Hrd. destruct (gob_handshake _ Hok) as (bs' & He' & Hdec). rewrite He in He'. injection He' as <-.
  unfold Accept, ControlPlane.Accept. rewrite (bind_Done _ _ _ _ _ (read_raw_eq w c c1 bs None Hc Hrd)).
  set (r := read_buffer _ bs).
  assert (E1 : Decode (set_raw r NewPartsHandshake) = inr (set_raw r (session_message from 1 0))).
  { unfold Decode. cbn [raw set_raw]. unfold r at 2, read_buffer, splice. rewrite take_0. cbn [app]. apply Hdec. }
  rewrite E1. destruct w as [d ps cp]. destruct d. cbn in Hc, Hr. subst.
  unfold learn_remote, at_dp, zoom, RemoteAddr, gets, mbind, go_bind, SetRemoteAddr. cbn.
  destruct (ParseUDPAddr _); reflexivity.
Qed.

(** An end that is ready for a part: it is connected, its transport packer can
    be made, with the header length of [s], and its remote address has its
    path afterwards. *)
Record ready (w : world C Addr ControlPlane) (c : C) (local remote : Addr) (s : Serializer) : Prop := {
  rd_connected : connected w c local remote s;
  rd_transport : transport_packer w = Done (routed_transport local remote s) (set_dp (rerouted remote (dp w)) w);
  rd_header : TransportHeaderLen (routed_transport local remote s) = Some (Serializer_GetHeaderLen s);
}.

Lemma connected_ready w c local remote s : connected w c local remote s -> ready w c local remote s.
Proof. intros []. split; [by split|by apply transport_packer_eq|done]. Qed.

(** C10: how two ends get connected.  [Dial] announces itself with an initial
    handshake; [Accept] at a listening end that reads it learns the dialer's
    address from it, as parsed from the message and so without a path.
    Afterwards both ends are ready for the transfer of parts, wherever there
    is a serializer between an end's address and the other one's with its path
    or the default one: the transport packer is made, and the remote address
    gets the path it lacks.  When the address in the message cannot be parsed,
    [Accept] returns no error all the same and the listener still knows no
    remote address. *)
Theorem Dial_Accept_connects {T : Type} (t : T) laddr addr dialed remote0 remote err cs cs1 n baddr bound cr cr1 bs :
  ParseUDPAddr laddr = inr dialed -> ParseUDPAddr addr = inr remote0 -> SetDefaultPath remote0 = (remote, err) ->
  optimizedconn_Dial dialed remote = inr cs ->
  ParseUDPAddr baddr = inr bound -> optimizedconn_Listen bound = inr cr ->
  handshake_ok (session_message dialed 1 0) -> gob_encode_handshake (session_message dialed 1 0) = inr bs ->
  conn_Write cs bs = (cs1, n) -> conn_Read cr 1400 = (cr1, (bs, None)) ->
  exists ws wr wr',
    Dial laddr addr t = Done (inr ws) t /\ Listen baddr t = Done (inr wr) t /\ Accept wr = Done None wr' /\
    locked (dp ws) = false /\ (forall s, routed dialed remote s -> ready ws cs1 dialed remote s) /\
    match ParseUDPAddr (UDPAddr_String (Some dialed)) with
    | inr a => forall s, routed bound a s -> ready wr' (conn_SetRemote cr1 a) bound a s
    | inl _ => remoteAddr (dp wr') = None
    end.
Proof.
  intros Hl Ha Hp Hd Hb Hlc Hok He Hw Hr.
  do 3 eexists. split; [by eapply Dial_eq|]. split; [by eapply Listen_eq|]. split; [by eapply Accept_eq|].
  split; [done|]. split.
  - intros s Hs. apply connected_ready. split; [done|done|done|done|]. split; [split; [discriminate|done]|done].
  - destruct (ParseUDPAddr (UDPAddr_String (Some dialed))); [done|].
    intros s Hs. apply connected_ready. split; [done|done|done|done|]. split; [split; [discriminate|done]|done].
Qed.

End sessions.

(** ** On the loopback network *)

#[local] Existing Instances BinaryPartsPacketPacker.packer BinaryPartsPacketPacker.packer_spec.

Fixpoint sent (es : list event) : list (list byte) :=
  match es with
  | [] => []
  | Sends d :: es' => d :: sent es'
  | Gets _ _ :: es' => sent es'
  end.

Fixpoint got (es : list event) : list (list byte) :=
  match es with
  | [] => []
  | Sends _ :: es' => got es'
  | Gets _ d :: es' => d :: got es'
  end.

Definition fits (e : event) : Prop := match e with Sends _ => True | Gets n d => zlen d <= n end.

Lemma loopback_conversation_then es rest t :
  Forall fits es -> conversation (mkLink (got es ++ rest) t) es (mkLink rest (t ++ sent es)).
Proof.
  intros Hf. induction Hf as [|[d|n d] es Hd Hf IH] in t |- *; cbn [got sent app].
  - rewrite app_nil_r. constructor.
  - apply conversation_sends with (mkLink (got es ++ rest) (t ++ [d])); [done|].
    specialize (IH (t ++ [d])). by rewrite <- app_assoc in IH.
  - apply conversation_gets with (mkLink (got es ++ rest) t); [|done].
    change (conn_Read _ n) with (mkLink (got es ++ rest) t, (take (Z.to_nat n) d, @None error)).
    rewrite take_ge; [done|]. cbn in Hd. unfold zlen in Hd. lia.
Qed.

Lemma loopback_conversation es t :
  Forall fits es -> conversation (mkLink (got es) t) es (mkLink [] (t ++ sent es)).
Proof. intros Hf. rewrite <- (app_nil_r (got es)). by apply loopback_conversation_then. Qed.

Definition two_packets : list byte := replicate 2000 Byte.x61.

Definition alice_part : PartContext := session_part CountInRateControl 1 two_packets alice bob tt.

Lemma idle_connected local remote c : connected (idle_end local remote c) c local remote tt.
Proof. split; [done|done|done|apply idle_routed|]. split; [split; discriminate|reflexivity]. Qed.

Lemma finish_ok :
  request_ok (finish_packet 1 2) /\ exists fin, gob_encode_request (finish_packet 1 2) = inr fin /\ zlen fin <= 1400.
Proof.
  split.
  - split; cbn; [|by split; [constructor|]|by split; [constructor|]|reflexivity].
    repeat (apply Forall_cons_2; [split; [discriminate|reflexivity]|]). apply Forall_nil_2.
  - eexists. split; [reflexivity|]. vm_compute. discriminate.
Qed.

Lemma packets_fit ds : Forall (fun d => zlen d <= 1400) ds -> Forall fits (Gets 1400 <$> ds).
Proof. intros Hd. by apply Forall_fmap. Qed.

Lemma sends_fit ds : Forall fits (Sends <$> ds).
Proof. apply Forall_fmap, Forall_true. done. Qed.

Lemma alice_packets_fit : Forall (fun d => zlen d <= 1400) (packets alice_part).
Proof. vm_compute. repeat (apply Forall_cons_2; [discriminate|]). apply Forall_nil_2. Qed.

Lemma Write_Read_part_witness :
  exists cs cr ws' wr',
    Write 0 [ack_goroutine] two_packets (idle_end alice bob cs) =
      Done (Some (i64 (u64 (total_len (packets alice_part))), None)) ws' /\
    Read (replicate 2000 Byte.x00) (idle_end bob alice cr) = Done (two_packets, 2000, None) wr'.
Proof.
  destruct (loopback_message alice 2000 (or_introl eq_refl) (or_intror (or_intror eq_refl))) as [Hok (bs & He & Hl)].
  destruct (loopback_message bob 2000 (or_intror eq_refl) (or_intror (or_intror eq_refl))) as [_ (ans & Hea & Hla)].
  destruct finish_ok as [Hokf (fin & Hef & Hlf)].
  set (es := Sends bs :: Gets 1400 ans :: (Sends <$> packets alice_part) ++ [Gets 1400 fin]).
  set (er := Gets 1400 bs :: Sends ans :: (Gets 1400 <$> rev (packets alice_part)) ++ [Sends fin]).
  exists (mkLink (got es) []), (mkLink (got er) []).
  apply (Write_Read_part (C := link) (Addr := string) (idle_end alice bob (mkLink (got es) [])) (mkLink (got es) [])
    (mkLink [] (sent es)) alice bob tt two_packets (idle_end bob alice (mkLink (got er) [])) (mkLink (got er) [])
    (mkLink [] (sent er)) bob alice tt (replicate 2000 Byte.x00) bs ans fin (rev (packets alice_part)) 0 []).
  - apply idle_connected.
  - apply idle_connected.
  - reflexivity.
  - reflexivity.
  - discriminate.
  - split; [discriminate|reflexivity].
  - reflexivity.
  - exact Hok.
  - exact He.
  - exact Hea.
  - exact Hokf.
  - exact Hef.
  - apply (loopback_conversation es []). constructor; [exact I|]. constructor; [exact Hla|].
    apply Forall_app. split; [apply sends_fit|]. by apply Forall_singleton.
  - symmetry. apply Permutation_rev.
  - apply (loopback_conversation er []). constructor; [exact Hl|]. constructor; [exact I|].
    apply Forall_app. split; [|by apply Forall_singleton].
    apply packets_fit. apply Forall_rev. exact alice_packets_fit.
Defined.

Lemma Write_Read_single_witness :
  exists cs cr ws' wr',
    Write 1 [] five (idle_end alice bob cs) = Done (Some (13, None)) ws' /\
    Read (no_bytes 6) (idle_end bob alice cr) = Done (five ++ [Byte.x00], 5, None) wr'.
Proof.
  set (d := single_packet 1 five).
  exists (mkLink [take 8 (padded d)] []), (mkLink [d] []).
  apply (Write_Read_single (C := link) (Addr := string)
    (idle_end alice bob (mkLink [take 8 (padded d)] [])) (mkLink [take 8 (padded d)] []) (mkLink [] [d])
    (idle_end bob alice (mkLink [d] [])) (mkLink [d] []) (mkLink [] [padded d]) five (no_bytes 6) 1 []).
  - reflexivity.
  - reflexivity.
  - reflexivity.
  - reflexivity.
  - discriminate.
  - apply le_n.
  - apply (loopback_conversation [Sends d; Gets 8 (take 8 (padded d))] []). repeat constructor. vm_compute. discriminate.
  - apply (loopback_conversation [Gets 1400 d; Sends (padded d)] []). repeat constructor. vm_compute. discriminate.
Defined.

(** The end that sends two packets, and the one that gets them in reverse. *)
Definition two_sent (partId : Z) (bs ans fin : list byte) : list event :=
  Sends bs :: Gets 1400 ans ::
    (Sends <$> packets (session_part CountInRateControl partId two_packets alice bob tt)) ++ [Gets 1400 fin].
Definition two_read (partId : Z) (bs ans fin : list byte) : list event :=
  Gets 1400 bs :: Sends ans ::
    (Gets 1400 <$> rev (packets (session_part CountInRateControl partId two_packets alice bob tt))) ++ [Sends fin].

Lemma loopback_part_exchange ws wr partId bs ans fin ts tr :
  connected ws (mkLink (got (two_sent partId bs ans fin)) ts) alice bob tt ->
  connected wr (mkLink (got (two_read partId bs ans fin)) tr) bob alice tt ->
  locked (dp ws) = false -> i64 (currentPartId (owner ws) + 1) = partId ->
  handshake_ok (session_message alice partId 2000) -> gob_encode_handshake (session_message alice partId 2000) = inr bs ->
  gob_encode_handshake (session_message bob partId 2000) = inr ans ->
  request_ok (finish_packet partId 2) -> gob_encode_request (finish_packet partId 2) = inr fin ->
  zlen bs <= 1400 -> zlen ans <= 1400 -> zlen fin <= 1400 ->
  Forall (fun d => zlen d <= 1400) (packets (session_part CountInRateControl partId two_packets alice bob tt)) ->
  part_exchange ws wr two_packets (replicate 2000 Byte.x00).
Proof.
  intros Hws Hwr Hlk Hid Hok He Hea Hokf Hef Hbs Hans Hfin Hps.
  set (es := two_sent partId bs ans fin) in *. set (er := two_read partId bs ans fin) in *.
  eapply (part_exchange_intro _ _ _ _ _ (mkLink [] (ts ++ sent es)) _ _ _ _ (mkLink [] (tr ++ sent er)) _ _ _
    bs ans fin (rev (packets (session_part CountInRateControl partId two_packets alice bob tt))) Hws Hwr); rewrite ?Hid; try done.
  - apply loopback_conversation. constructor; [exact I|]. constructor; [exact Hans|].
    apply Forall_app. split; [apply sends_fit|]. by apply Forall_singleton.
  - symmetry. apply Permutation_rev.
  - apply loopback_conversation. constructor; [exact Hbs|]. constructor; [exact I|].
    apply Forall_app. split; [|by apply Forall_singleton]. by apply packets_fit, Forall_rev.
Qed.

Lemma loopback_exchange :
  exists cs cr, part_exchange (idle_end alice bob cs) (idle_end bob alice cr) two_packets (replicate 2000 Byte.x00).
Proof.
  destruct (loopback_message alice 2000 (or_introl eq_refl) (or_intror (or_intror eq_refl))) as [Hok (bs & He & Hl)].
  destruct (loopback_message bob 2000 (or_intror eq_refl) (or_intror (or_intror eq_refl))) as [_ (ans & Hea & Hla)].
  destruct finish_ok as [Hokf (fin & Hef & Hlf)].
  exists (mkLink (got (two_sent 1 bs ans fin)) []), (mkLink (got (two_read 1 bs ans fin)) []).
  apply (loopback_part_exchange _ _ 1 bs ans fin [] []); try done.
  - apply idle_connected.
  - apply idle_connected.
  - exact alice_packets_fit.
Qed.

(** A loopback network on which a listener finds datagrams that have arrived. *)
Definition arrived_network (ds : list (list byte)) : SCIONNet link string := meeting (mkLink [] []) (mkLink ds []).

(** The listener learns an address without a path, and its transport packer
    sets the default one. *)
Lemma Dial_Accept_connects_witness :
  exists bs, let net := arrived_network [bs] in
  exists ws wr wr',
    Dial (H := net) alice bob tt = Done (inr ws) tt /\ Listen (H := net) bob tt = Done (inr wr) tt /\
    Accept (H := net) wr = Done None wr' /\
    ready ws (mkLink [] [bs]) alice (with_path bob) tt /\ ready wr' (mkLink [] []) bob alice tt /\
    Path_IsEmpty alice = true.
Proof.
  destruct (loopback_message alice 0 (or_introl eq_refl)) as [Hok (bs & He & Hl)]; [by right; left|].
  exists bs. cbv zeta. set (net := arrived_network [bs]).
  destruct (Dial_Accept_connects (H := net) tt alice bob alice bob (with_path bob) None (mkLink [] []) (mkLink [] [bs])
    (zlen bs, None) bob bob (mkLink [bs] []) (mkLink [] []) bs) as (ws & wr & wr' & HD & HL & HA & _ & Hs & Hr).
  - reflexivity.
  - reflexivity.
  - reflexivity.
  - reflexivity.
  - reflexivity.
  - reflexivity.
  - exact Hok.
  - exact He.
  - reflexivity.
  - by apply loopback_read.
  - exists ws, wr, wr'. split; [exact HD|]. split; [exact HL|]. split; [exact HA|].
    split; [by apply (Hs tt), default_routed|]. split; [by apply (Hr tt), default_routed|reflexivity].
Defined.
