(* ===== verification/Repair.v ===== *)
(** * Repair: the way of a request, and a part that is repaired

    What the control packets about a part look like, how the sender takes the
    requests of a tick, and that a part with losses becomes whole: the receiver
    asks for what is missing, the sender sends it again. *)

From S2P Require Import Prelude Utils Interface Packer PartContext Reassembly Metrics Dataplane Loopback Transfer.
From S2P Require Import Arrivals Retransfer Recovery RateControl Handshake Gob GobMessages ControlPlane Requests Acks PartsConn.

(** ** Control packets *)

Section control_packets.
Context `{PartsPacketPackerSpec} `{GobSpec}.

(** The part: its id, the length of a payload, the number of packets, the
    length of a packet buffer. *)
Variables (pid pl n m : Z).

(** A control packet about the part: machine integers, and at most a hundred
    ranges of it. *)
Record control_packet (r : PartRequestPacket) : Prop := {
  ct_ints : Forall in_i64 [req_PartId r; req_LastSequenceNumber r; req_NumPacketsPerTx r; req_PacketTxIndex r;
    req_TransactionId r; req_RequestSequenceId r; req_NumPackets r];
  ct_few : zlen (req_MissingSequenceNumbers r) <= 100;
  ct_ranges : Forall2 (fun v off => 1 <= v /\ 1 <= off /\ v + off <= n + 1)
    (req_MissingSequenceNumbers r) (req_MissingSequenceNumberOffsets r);
}.

(** What the two ends rely on. *)
Record part_fits : Prop := {
  pf_pid : in_i64 pid;
  pf_packets : 0 < n < 2 ^ 53;
  pf_room : 0 <= m /\ n * m < 2 ^ 63;
  pf_header : 0 < pl /\ GetHeaderLen + pl <= m;
  pf_header_len : GetHeaderLen < 2 ^ 53;
  pf_sendable : forall r, control_packet r -> request_ok r;
}.

Hypothesis Hfits : part_fits.

Lemma control_asks r : control_packet r -> asks_within n (ack_of r).
Proof. intros [_ _ Hr]. eapply Forall2_impl; [exact Hr|]. cbn. intros. lia. Qed.

Lemma control_request r : control_packet r -> req_PartFinished r = false -> request_like (ack_of r).
Proof.
  intros [Hi _ Hr] Hf. rewrite !Forall_cons in Hi. split; [|done|].
  - unfold ack_ok. cbn. tauto.
  - cbn. by eapply Forall2_length.
Qed.

(** The requests of a tick are control packets. *)
Lemma requests_control b index id bs :
  in_i64 (PartId b) -> ranges_in n b -> in_i64 id ->
  0 <= index -> index + zlen bs < 2 ^ 62 -> Forall (fun '(s, e) => 0 <= s /\ e <= s + 100) bs ->
  Forall (fun r => control_packet r /\ req_PartFinished r = false) (requests b index 1 id bs).
Proof.
  intros Hpid Hri Hid Hindex Hlt Hbs. pose proof (pf_packets Hfits) as Hn. pose proof (ranges_in_few n b Hri) as Hfew.
  pose proof (zlen_nonneg (MissingSequenceNums b)) as H0n. destruct Hri as [_ Hr Hh].
  pose proof (ceil_div_nonneg _ 100 H0n eq_refl). pose proof (ceil_div_le _ 100 H0n eq_refl).
  induction Hbs as [|[s e] bs Hse Hbs IH] in index, Hindex, Hlt |- *; [constructor|].
  unfold zlen in Hlt. cbn [length] in Hlt. cbn [requests]. constructor; [|apply IH; unfold zlen; lia].
  split; [|done]. split; cbn.
  - repeat (apply Forall_cons_2; [first [done|apply i64_range|unfold in_i64; lia]|]). constructor.
  - unfold slice, zlen. rewrite length_take. lia.
  - unfold slice. by apply Forall2_take, Forall2_drop.
Qed.

Lemma batches_fuel fuel start k : (length (batches fuel start k) <= fuel)%nat.
Proof.
  induction fuel as [|fuel IH] in start |- *; cbn [batches]; destruct (_ <? _); cbn [length]; try lia.
  specialize (IH (start + Z.min (start + 100) k)). lia.
Qed.

End control_packets.

(** ** On the wire format of gob *)

Lemma encode_fields_short {S : Type} (fs : list (field S)) gap (s : S) (k : Z) :
  0 <= k -> Forall (fun f => zlen (f_encode f s) <= k) fs -> zlen (encode_fields fs gap s) <= 9 + zlen fs * (9 + k).
Proof.
  intros Hk Hf. induction Hf as [|f fs Hf _ IH] in gap |- *; cbn [encode_fields].
  { pose proof (encode_uint_length 0). unfold zlen in *. cbn [length]. lia. }
  pose proof (IH (gap + 1)). pose proof (IH 1). pose proof (encode_uint_length gap).
  destruct (f_zero f s); unfold zlen in *; cbn [length]; [nia|]. rewrite !length_app. nia.
Qed.

Lemma encode_int_short i : zlen (encode_int i) <= 9.
Proof. apply encode_uint_length. Qed.

Lemma encode_ints_short l : zlen (encode ints_codec l) <= 9 + 9 * zlen l.
Proof.
  cbn. pose proof (encode_uint_length (zlen l)) as Hl.
  assert (Hc : zlen (concat (encode_int <$> l)) <= 9 * zlen l).
  { induction l as [|i l IH]; [done|]. pose proof (encode_int_short i). pose proof (encode_uint_length (zlen l)).
    unfold zlen in *. cbn. rewrite length_app. specialize (IH ltac:(lia)). lia. }
  unfold zlen in *. rewrite length_app. lia.
Qed.

Lemma control_packet_in_range n r : n < 2 ^ 53 -> control_packet n r -> ack_in_range (ack_of r).
Proof.
  intros Hn [Hi Hfew Hr]. rewrite !Forall_cons in Hi. destruct Hi as (? & ? & ? & ? & ? & ? & ? & _).
  pose proof (Forall2_length _ _ _ Hr) as Hlen. split; [cbn|cbn|cbn|].
  - by repeat (apply Forall_cons_2; [done|]).
  - split; [|lia]. eapply Forall2_Forall_l; [exact Hr|]. apply Forall_true. intros v off. unfold in_i64. lia.
  - split; [|unfold zlen in *; lia]. eapply Forall2_Forall_r; [exact Hr|]. apply Forall_true. intros v off. unfold in_i64. lia.
  - pose proof (encode_fields_short ack_fields 1 (ack_of r) 909 ltac:(lia)) as Hs.
    change (zlen ack_fields) with 10 in Hs. assert (Hf : Forall (fun f => zlen (f_encode f (ack_of r)) <= 909) ack_fields).
    { unfold ack_fields. repeat (apply Forall_cons_2; [|]); try apply Forall_nil_2;
        cbn [f_encode field_of encode int_codec bool_codec];
        first [etrans; [apply encode_int_short|lia] | etrans; [apply (proj2 (encode_uint_length _))|lia]
              | etrans; [apply encode_ints_short|cbn [ack_of ack_MissingSequenceNumbers ack_MissingSequenceNumberOffsets]; unfold zlen in *; lia]]. }
    specialize (Hs Hf). lia.
Qed.

(** ** A part that is repaired *)

Lemma merged_fresh nums offs ms os :
  NoDup (nums ++ ms) -> length ms = length os -> merged nums offs ms os = (nums ++ ms, offs ++ os).
Proof.
  induction ms as [|v ms IH] in nums, offs, os |- *; intros Hnd Hl; (destruct os as [|off os]; [|]); try done.
  { cbn. by rewrite !app_nil_r. }
  cbn [merged]. rewrite decide_False.
  - rewrite IH; [by rewrite <- !app_assoc|by rewrite <- app_assoc|by injection Hl].
  - intros Hv. apply NoDup_app in Hnd as (_ & Hnd & _). by apply (Hnd v Hv); left.
Qed.

Section repair.
Context {C Addr : Type} `{SCIONNetSpec C Addr}.
Context `{PartsPacketPackerSpec} `{GobSpec}.

Implicit Types (w : world C Addr ControlPlane).

Variables (pid pl n m : Z).
Hypothesis Hfits : part_fits pid pl n m.

(** One datagram of a request at the sender. *)
Lemma request_arrives p w c c' b r d :
  sending (H1 := sender_listener_spec p) p c b w -> control_packet n r -> req_PartFinished r = false ->
  gob_encode_request r = inr d -> conn_Read c PACKET_SIZE = (c', (d, None)) ->
  let a := merged (MissingSequenceNums b) (MissingSequenceNumOffsets b)
    (req_MissingSequenceNumbers r) (req_MissingSequenceNumberOffsets r) in
  exists o, sender_ok p o /\
    (r ← read_ack; handle_read r) w =
      Done false (mkWorld (set_Conn c' (dp w)) (<[p := set_Missing a.1 a.2 b]> (parts w)) o).
Proof.
  intros [Hcur Hb Hc Ho] Hr Hf He Hrd a.
  destruct (gob_request r (pf_sendable _ _ _ _ Hfits r Hr)) as (d' & He' & Hdec). rewrite He in He'. injection He' as <-.
  unfold read_ack. rewrite bind_assoc, (bind_Done _ _ _ _ _ (Read_Done PACKET_SIZE w c c' _ Hc Hrd)).
  go_step. unfold handle_read, parsePartAckPacket, read_buffer, splice. rewrite take_0. cbn [app]. rewrite Hdec.
  destruct (handle_request p (set_dp (set_Conn c' (dp w)) w) b (ack_of r) Ho Hb (control_request n r Hr Hf)) as (o & Ho' & Hrun).
  by exists o.
Qed.

(** The loop of [HandleAckPackets] takes requests for ranges it does not know. *)
Lemma HandleAckPackets_requests p rs ds w c c' b :
  sending (H1 := sender_listener_spec p) p c b w ->
  Forall (fun r => control_packet n r /\ req_PartFinished r = false) rs -> encoded rs ds -> reads PACKET_SIZE c ds c' ->
  NoDup (MissingSequenceNums b ++ concat (req_MissingSequenceNumbers <$> rs)) ->
  exists o, sender_ok p o /\ HandleAckPackets (length ds) w =
    Done false (mkWorld (set_Conn c' (dp w))
      (<[p := set_Missing (MissingSequenceNums b ++ concat (req_MissingSequenceNumbers <$> rs))
                (MissingSequenceNumOffsets b ++ concat (req_MissingSequenceNumberOffsets <$> rs)) b]> (parts w)) o).
Proof.
  intros Hsd Hrs. induction Hrs as [|r rs [Hr Hf] _ IH] in ds, w, c, b, Hsd |- *; intros He Hrd Hnd.
  { inversion He; subst. inversion Hrd; subst. destruct Hsd as [Hcur Hb Hc Ho]. exists (owner w). split; [done|].
    cbn. rewrite !app_nil_r, set_Conn_id by done. replace (set_Missing _ _ b) with b by (by destruct b).
    rewrite insert_id by done. by destruct w. }
  apply Forall2_cons_inv_l in He as (d & ds' & Hd & He & ->). inversion Hrd as [|? ? c1 ? ? Hr1 Hrd']; subst.
  destruct (request_arrives p w c c1 b r d Hsd Hr Hf Hd Hr1) as (o1 & Ho1 & Hrun). cbn [fmap list_fmap concat] in Hnd |- *.
  rewrite merged_fresh in Hrun;
    [|by rewrite app_assoc in Hnd; apply NoDup_app in Hnd as [? _]|by eapply Forall2_length, ct_ranges]. cbn [fst snd] in Hrun.
  set (b1 := set_Missing _ _ b) in Hrun. set (w1 := mkWorld _ _ o1) in Hrun.
  destruct (IH ds' w1 c1 b1) as (o & Ho & Hrest).
  { destruct Hsd. split; [done|apply lookup_insert_eq|done|done]. }
  { done. }
  { done. }
  { cbn. by rewrite <- app_assoc. }
  exists o. split; [done|]. cbn [length HandleAckPackets]. unfold mbind in Hrun |- *. unfold go_bind in Hrun |- *.
  destruct (read_ack w) as [r1 w2|f|w2]; [|done..]. rewrite Hrun. rewrite Hrest. unfold w1, b1. cbn.
  by rewrite insert_insert_eq, <- !app_assoc.
Qed.

End repair.

Section recovers.
Context {C Addr : Type} `{SCIONNetSpec C Addr}.
Context `{PartsPacketPackerSpec} `{GobSpec}.
Implicit Types (w : world C Addr ControlPlane).

(** What the receiver still reads once the lost packets arrive. *)
Lemma read_missed p w b1 bs br seqs c c' arrived n1 :
  parts w !! p = Some b1 -> Conn (dp w) = Some c -> receiver_ok p (owner w) ->
  reading (Data bs) (Data br) (list_to_set seqs) b1 -> same_part bs b1 -> RecvPackets b1 = Z.of_nat (length seqs) ->
  NoDup seqs -> (forall s, s ∈ seqs -> 1 <= s <= NumPackets bs) -> 0 < NumPackets bs -> in_u64 n1 ->
  arrived ≡ₚ packets_of bs (lost (NumPackets bs) seqs) -> reads (MaxPacketLength b1) c arrived c' ->
  exists w' b', ReadPart_loop p (length arrived) (Z.of_nat (length seqs)) n1 w = Done (u64 (n1 + total_len arrived), None) w' /\
    Conn (dp w') = Some c' /\ parts w' !! p = Some b' /\ Data b' = Data bs /\ MissingSequenceNums b' = [] /\
    RecvPackets b' = NumPackets bs.
Proof.
  intros Hb Hc Ho Hrd [Hid Hpl Hn Hl] Hrp Hnd Hin HN Hn1 (order & -> & Hperm)%Permutation_map_inv Hr.
  pose proof (lost_permutation (NumPackets bs) seqs Hnd Hin) as Hall. rewrite Hperm in Hall.
  assert (Hlen : Z.of_nat (length seqs) + Z.of_nat (length order) = NumPackets bs).
  { apply Permutation_length in Hall. rewrite length_app, length_seqZ in Hall. lia. }
  pose proof (geometry_NumPackets b1 (rs_geometry _ _ _ _ (rd_state _ _ _ _ Hrd))) as HN53. rewrite Hn in HN53.
  assert (Hmem : forall s, s ∈ order -> (1 <= s <= NumPackets bs) /\ s ∉ seqs).
  { intros s Hs. rewrite <- Hperm in Hs. apply list_elem_of_filter in Hs as [? Hs%elem_of_seqZ]. split; [lia|done]. }
  rewrite <- Hid, <- Hpl in Hr |- *.
  destruct (ReadPart_loop_any_order (H2 := receiver_listener_spec p) p (length order) (Z.of_nat (length seqs)) n1 w b1 c c'
    (Data bs) (Data br) (list_to_set seqs) order) as (o & b' & _ & Hrun & Hrd' & Hn' & Hpl' & _ & _ & Hrp' & _);
    try (done || lia).
  { rewrite Hrp. unfold in_i64. lia. }
  { rewrite <- Hperm. apply NoDup_filter, NoDup_seqZ. }
  { intros s Hs. rewrite Hn, elem_of_list_to_set. by apply Hmem. }
  rewrite length_fmap. eexists _, b'. split; [exact Hrun|]. split; [done|]. split; [apply lookup_insert_eq|].
  destruct Hrd' as [[Hg' _ _ _ Hd Hm] _ _].
  assert (HR : forall s, s ∈ (list_to_set order ∪ list_to_set seqs : gset Z) <-> 1 <= s <= NumPackets bs).
  { intros s. rewrite elem_of_union, !elem_of_list_to_set, (comm or), <- elem_of_app, Hall, elem_of_seqZ. lia. }
  split; [|split].
  - destruct Hg' as (Hp' & _ & Hc'). refine (data_inv_complete (PayloadLength b') (Data bs) (Data br) _ b' _ _ Hd); [lia|].
    intros s Hs. apply HR. rewrite <- Hn, <- Hn', Hc'. destruct Hd as [Hld _]. unfold zlen in *. by rewrite Hld.
  - by apply (missing_inv_complete _ (NumPackets bs) _ Hm HR HN).
  - rewrite Hrp', Hrp, i64_id by (unfold in_i64; lia). lia.
Qed.

(** The sender's part: the requests of the tick give it the ranges [b1] misses,
    and the next pass sends those packets. *)
Lemma sender_repairs m b1 bs seqId ds q ws cs cs1 cs2 missed :
  part_fits (PartId bs) (PayloadLength bs) (NumPackets bs) m ->
  geometry bs -> transport_ok (PCTransportPacketPacker bs) -> MissingSequenceNums bs = [] -> MissingSequenceNumOffsets bs = [] ->
  ranges_in (NumPackets bs) b1 -> 0 < zlen (MissingSequenceNums b1) <= 200 ->
  missed = packets_of bs (requested b1) ->
  let qs := requests b1 0 1 seqId (batches 53 0 (zlen (MissingSequenceNums b1))) in
  Forall (fun r => control_packet (NumPackets bs) r /\ req_PartFinished r = false) qs -> encoded qs ds ->
  sending (H1 := sender_listener_spec q) q cs bs ws -> reads PACKET_SIZE cs ds cs1 -> writes cs1 missed cs2 ->
  exists ws1 ws2, HandleAckPackets (length ds) ws = Done false ws1 /\ retransfer_pass ws1 = Done tt ws2 /\
    Conn (dp ws2) = Some cs2 /\ parts ws2 !! q = Some bs.
Proof.
  intros Hfits Hg Ht Hbn Hbo Hri Hmany -> qs Hqs Henc Hsd Hrs Hws. pose proof (ranges_in_length _ _ Hri) as Hlen.
  destruct (requests_all b1 1 seqId) as [Hnums Hoffs]; [lia|unfold zlen; by rewrite Hlen|]. fold qs in Hnums, Hoffs.
  destruct (HandleAckPackets_requests (PartId bs) (PayloadLength bs) _ m Hfits q qs ds ws cs cs1 bs Hsd Hqs Henc Hrs)
    as (os & Hos & HH).
  { rewrite Hbn, Hnums. apply Hri. }
  rewrite Hbn, Hbo, Hnums, Hoffs in HH. cbn [app] in HH.
  set (bs' := set_Missing (MissingSequenceNums b1) (MissingSequenceNumOffsets b1) bs) in HH.
  set (ws1 := mkWorld _ _ os) in HH.
  destruct (retransfer_pass_eq (H1 := sender_listener_spec q) q bs' ws1 cs1 cs2) as (o' & _ & Hpass); try done.
  { destruct Hsd. split; [done|apply lookup_insert_eq|done|done]. }
  { apply Hfits. }
  { eapply Forall2_impl; [apply Hri|]. cbn. intros. change (NumPackets bs') with (NumPackets bs). lia. }
  exists ws1. eexists. split; [exact HH|]. split; [exact Hpass|]. split; [done|].
  unfold after_pass, after_resend. cbn. rewrite lookup_insert_eq. f_equal.
  destruct bs. cbn in Hbn, Hbo. by rewrite Hbn, Hbo.
Qed.

(** C5: a part of which only the packets [seqs] arrive, in ascending order, the
    last packet among them; the others are lost.  The receiver reads those and
    knows its missing ranges.  The next tick of [requestRetransfers] writes
    requests; when the ranges are at most two hundred and the datagrams of the
    requests reach the sender, the loop of [HandleAckPackets] takes the ranges
    over from them and the next pass of the retransfer loop writes exactly the
    lost packets, each once, as the datagrams [WritePart] would write.  When
    these arrive, in any order, the remaining iterations of [ReadPart] end
    with the whole part and no missing range. *)
Theorem lossy_part_recovers p wr br cr cr1 bs seqs seqId :
  part_fits (PartId bs) (PayloadLength bs) (NumPackets bs) (MaxPacketLength br) ->
  parts wr !! p = Some br -> Conn (dp wr) = Some cr -> receiver_ok p (owner wr) -> receiver_ready br -> same_part bs br ->
  geometry bs -> transport_ok (PCTransportPacketPacker bs) -> MissingSequenceNums bs = [] -> MissingSequenceNumOffsets bs = [] -> in_i64 seqId ->
  ascending seqs -> NumPackets bs ∈ seqs -> (forall s, s ∈ seqs -> 1 <= s <= NumPackets bs) ->
  lost (NumPackets bs) seqs <> [] -> reads (MaxPacketLength br) cr (packets_of bs seqs) cr1 ->
  let missed := packets_of bs (lost (NumPackets bs) seqs) in
  exists n1 wr1 b1 ds,
    ReadPart_loop p (length seqs) 0 0 wr = Done (n1, None) wr1 /\ parts wr1 !! p = Some b1 /\
    (forall cr2, writes cr1 ds cr2 -> exists seqId' wr2,
       requestRetransfers_tick 53 1 seqId wr1 = Done (Some seqId') wr2 /\ Conn (dp wr2) = Some cr2 /\
       forall arrived cr3, arrived ≡ₚ missed -> reads (MaxPacketLength br) cr2 arrived cr3 ->
         exists wr' br', ReadPart_loop p (length arrived) (Z.of_nat (length seqs)) n1 wr2 =
             Done (u64 (n1 + total_len arrived), None) wr' /\
           parts wr' !! p = Some br' /\ Data br' = Data bs /\ MissingSequenceNums br' = [] /\ RecvPackets br' = NumPackets bs) /\
    (zlen (MissingSequenceNums b1) <= 200 ->
     forall q ws cs cs1 cs2, sending (H1 := sender_listener_spec q) q cs bs ws ->
       reads PACKET_SIZE cs ds cs1 -> writes cs1 missed cs2 -> exists ws1 ws2,
       HandleAckPackets (length ds) ws = Done false ws1 /\ retransfer_pass ws1 = Done tt ws2 /\
       Conn (dp ws2) = Some cs2 /\ parts ws2 !! q = Some bs).
Proof.
  intros Hfits Hb Hc Ho Hrr Hsp Hg Ht Hbn Hbo Hid Hasc Hlast Hin Hne Hr missed.
  destruct (read_ascending (H2 := receiver_listener_spec p) p wr br cr cr1 bs seqs Hb Hc Ho Hrr Hsp Hasc Hlast Hin Hr)
    as (o & b1 & Hok & Hrun & Hreq & Hhigh & Hrd & Hsp1 & Hm1 & Hrp1).
  set (wr1 := mkWorld _ _ o) in Hrun.
  assert (HN := pf_packets _ _ _ _ Hfits).
  assert (Hri : ranges_in (NumPackets bs) b1).
  { apply (missing_ranges_in (list_to_set seqs)); [apply (rs_missing _ _ _ _ (rd_state _ _ _ _ Hrd))|lia]. }
  pose proof (ranges_in_few _ _ Hri) as Hfew. pose proof (ranges_in_length _ _ Hri) as Hlen.
  assert (Hpos : 0 < zlen (MissingSequenceNums b1)).
  { destruct (MissingSequenceNums b1) as [|v l] eqn:E; [|unfold zlen; cbn; lia].
    destruct Hne. rewrite <- Hreq. unfold requested. by rewrite E. }
  assert (Hlen' : zlen (MissingSequenceNumOffsets b1) = zlen (MissingSequenceNums b1)) by (unfold zlen; by rewrite Hlen).
  set (qs := requests b1 0 1 seqId (batches 53 0 (zlen (MissingSequenceNums b1)))).
  assert (Hqs : Forall (fun r => control_packet (NumPackets bs) r /\ req_PartFinished r = false) qs).
  { apply (requests_control (PartId bs) (PayloadLength bs) _ (MaxPacketLength br) Hfits); try done.
    - destruct Hsp1 as [-> _ _ _]. apply Hfits.
    - pose proof (batches_fuel 53 0 (zlen (MissingSequenceNums b1))). unfold zlen at 1. lia.
    - eapply Forall_impl; [apply batches_bounds; lia|]. intros [s e] ?. lia. }
  assert (Henc : exists ds, encoded qs ds).
  { clear - Hqs Hfits. induction Hqs as [|r rs [Hr _] _ (ds & IH)]; [exists []; constructor|].
    destruct (gob_request r (pf_sendable _ _ _ _ Hfits r Hr)) as (d & Hd & _). exists (d :: ds). by constructor. }
  destruct Henc as (ds & Henc). exists (u64 (total_len (packets_of bs seqs))), wr1, b1, ds.
  split; [exact Hrun|]. split; [apply lookup_insert_eq|]. split.
  - intros cr2 Hw. eexists _, _. split; [|split; [|intros arrived cr3 Harr Hrd3]].
    + eapply (requestRetransfers_tick_eq p b1 cr1 cr2 1 seqId wr1 ds); try done; [|lia..].
      split; [apply Hok|apply lookup_insert_eq|done].
    + done.
    + rewrite <- Hm1 in Hrd3. destruct (read_missed p (set_dp (set_Conn cr2 (dp wr1)) wr1) b1 bs br seqs cr2 cr3 arrived
        (u64 (total_len (packets_of bs seqs)))) as (wr' & br' & HR & _ & Hp' & Hd' & Hm' & Hn'); try done.
      * apply lookup_insert_eq.
      * by apply ascending_NoDup.
      * lia.
      * apply u64_range.
      * by exists wr', br'.
  - intros Hmany q ws cs cs1 cs2 Hsd Hrs Hws. eapply (sender_repairs (MaxPacketLength br) b1 bs seqId ds q ws cs cs1 cs2 missed); (done || lia || idtac).
    unfold missed. by rewrite Hreq.
Qed.

End recovers.

(** ** On concrete data *)

#[local] Existing Instances BinaryPartsPacketPacker.packer BinaryPartsPacketPacker.packer_spec.

(** A part of five bytes in three packets. *)
Lemma small_fits : part_fits 7 2 3 18.
Proof.
  split; [by split|by split|by split|by split|done|]. intros r. by apply control_packet_in_range.
Qed.

Definition end_world (c : link) (b : PartContext) : world link string ControlPlane :=
  mkWorld (mkSCIONDataplane false (Some c) None None None [] 64 DP_STATE_PENDING (Some O) (NewMetrics 100))
    {[ O := b ]} (set_goroutines 1 1 sending_cp).

Lemma end_cp_ok : sender_ok O (set_goroutines 1 1 sending_cp).
Proof. destruct sending_cp_ok. by split. Qed.

(** Packets 1 and 3 come in, then 2, which was lost at first; the requests of
    the tick in between. *)
Definition two_of_three : world link string ControlPlane :=
  let w := end_world (mkLink (packets_of small_sender [1; 3; 2]) []) small_receiver in
  match ReadPart_loop 0 2 0 0 w with Done _ w' => w' | _ => w end.
Definition asks_for_two : list (list byte) :=
  match requestRetransfers_tick 53 1 1 two_of_three with Done _ w' => default [] (tx <$> Conn (dp w')) | _ => [] end.

Lemma lossy_part_recovers_witness :
  exists ws1 ws2, HandleAckPackets (length asks_for_two) (end_world (mkLink asks_for_two []) small_sender) = Done false ws1 /\
    retransfer_pass ws1 = Done tt ws2 /\ Conn (dp ws2) = Some (mkLink [] (packets_of small_sender [2])) /\
  exists wr2, requestRetransfers_tick 53 1 1 two_of_three = Done (Some 2) wr2 /\
  exists n1 n2 wr' br', ReadPart_loop 0 1 2 n1 wr2 = Done (n2, None) wr' /\ parts wr' !! O = Some br' /\ Data br' = five.
Proof.
  set (cr := mkLink (packets_of small_sender [1; 3; 2]) []). set (cr1 := mkLink (packets_of small_sender [2]) []).
  destruct (lossy_part_recovers (C := link) (Addr := string) O (end_world cr small_receiver) small_receiver cr cr1 small_sender [1; 3] 1)
    as (n1 & wr1 & b1 & ds & H1 & H2 & H3 & H4).
  - exact small_fits.
  - reflexivity.
  - reflexivity.
  - split_and!; [apply sending_cp_ok|reflexivity|apply le_n].
  - by apply small_ready.
  - by split.
  - by apply small_geometry.
  - by apply plain_transport_ok.
  - reflexivity.
  - reflexivity.
  - by split.
  - by repeat constructor.
  - by right; left.
  - intros s Hs. repeat (apply elem_of_cons in Hs as [->|Hs]; [done|]). by apply elem_of_nil in Hs.
  - discriminate.
  - apply (loopback_reads 18 (packets_of small_sender [1; 3]) (packets_of small_sender [2])).
    vm_compute. repeat constructor; done.
  - assert (El : lost (NumPackets small_sender) [1; 3] = [2]) by (vm_compute; reflexivity).
    cbv zeta in H3, H4. rewrite El in H3, H4.
    assert (Ew : wr1 = two_of_three) by (change (length [1; 3]) with 2%nat in H1; unfold two_of_three; cbv zeta; fold cr; by rewrite H1).
    destruct (H3 (mkLink (rx cr1) (tx cr1 ++ ds)) (loopback_writes cr1 ds)) as (id & wr2 & H5 & H6 & H7).
    rewrite Ew in H2, H5.
    assert (Ed : ds = asks_for_two) by (unfold asks_for_two; by rewrite H5, H6).
    assert (Eid : id = 2).
    { assert (E : match requestRetransfers_tick 53 1 1 two_of_three with Done r _ => r | _ => None end = Some 2)
        by (vm_compute; reflexivity). rewrite H5 in E. by injection E. }
    assert (En : zlen (MissingSequenceNums b1) <= 200).
    { assert (E : MissingSequenceNums <$> parts two_of_three !! O = Some [2]) by (vm_compute; reflexivity).
      rewrite H2 in E. injection E as ->. discriminate. }
    subst ds id.
    destruct (H4 En O (end_world (mkLink asks_for_two []) small_sender) (mkLink asks_for_two []) (mkLink [] [])
      (mkLink [] (packets_of small_sender [2]))) as (ws1 & ws2 & H8 & H9 & H10 & _).
    + split; [reflexivity|reflexivity|reflexivity|exact end_cp_ok].
    + assert (Hl : Forall (fun d => zlen d <= PACKET_SIZE) asks_for_two) by (vm_compute; repeat constructor; discriminate).
      pose proof (loopback_reads PACKET_SIZE asks_for_two [] [] Hl) as Hr. by rewrite app_nil_r in Hr.
    + pose proof (loopback_writes (mkLink [] []) (packets_of small_sender [2])) as Hw. cbn [rx tx app] in Hw. exact Hw.
    + destruct (H7 (packets_of small_sender [2]) (mkLink [] asks_for_two)) as (wr' & br' & H11 & H12 & H13 & _).
      * reflexivity.
      * pose proof (loopback_reads 18 (packets_of small_sender [2]) [] asks_for_two) as Hr. rewrite app_nil_r in Hr.
        apply Hr. vm_compute. repeat constructor; discriminate.
      * exists ws1, ws2. split; [exact H8|]. split; [exact H9|]. split; [exact H10|]. exists wr2. split; [exact H5|].
        exists n1, (u64 (n1 + total_len (packets_of small_sender [2]))), wr', br'.
        split; [exact H11|]. split; [exact H12|exact H13].
Defined.
