(* ===== verification/System.v ===== *)
(** * System: a sender, a receiver and the network between them

    The goroutines of [Write] at one end and of [Read] at the other as threads
    that take turns, over a network that loses, repeats and reorders
    datagrams.  A turn of a thread is a fragment of the model between two
    points where the others may run: the first lines of WritePart, one packet
    of it, the test of the retransfer loop with the slice it ranges over, the
    start of a range, one packet of a range, the reset after the ranges, the
    reading of an acknowledgement, its handling, the first lines of ReadPart,
    one packet of it, one tick of requestRetransfers, FinishReadpart. *)

From S2P Require Import Prelude Interface PartContext Metrics Dataplane Loopback Transfer RateControl Handshake ControlPlane.

(** Where the goroutine of [Write] is: before [WritePart]; [k] packets to go
    from packet [i] on; at the test of the retransfer loop; with the ranges
    from [i] on, those that start at [vs], to be sent again, or with [k]
    packets of the range of [v] to go from the [j]-th on before that.  [n] are
    the bytes counted. *)
Inductive sender_pc : Type :=
| WriteStarts
| Writing (k : nat) (i n : Z)
| Retransferring (n : Z)
| Ranging (vs : list Z) (i n : Z)
| Resending (k : nat) (v j : Z) (vs : list Z) (i n : Z)
| WriteReturned (n : Z) (err : option error)
| WriteHangs.

(** Where the goroutine of [Read] is. *)
Inductive receiver_pc : Type :=
| ReadStarts
| Reading (k : nat) (i n : Z)
| ReadReturned (err : option error)
| ReadHangs.

Section system.
Context `{PartsPacketPacker} `{Gob}.

Abbreviation W := (world link string ControlPlane).

(** Both ends; [acks] are the goroutines of HandleAckPackets, [request_id] is
    the counter of requestRetransfers. *)
Record system : Type := mkSystem {
  sender : W;
  s_pc : sender_pc;
  acks : ack_threads;
  receiver : W;
  r_pc : receiver_pc;
  request_id : Z;
}.

(** Whether HandleAckPackets goes on. *)
Definition handler (s : system) : bool := handling (acks s).

Section threads.
(** The part contexts of the two ends. *)
Variables p q : nat.

(** ** The turns of the threads *)

Definition write_turn (pc : sender_pc) : option (go W sender_pc) :=
  match pc with
  | WriteStarts => Some (
      modify (fun w => set_dp (set_partContext (Some p) (dp w)) w);;
      numPackets ← at_part p (gets NumPackets);
      mret (Writing (Z.to_nat numPackets) 0 0))
  | Writing (S k) i n => Some (
      '(n', err) ← WritePart_loop p 1 i n;
      mret (match err with Some e => WriteReturned 0 (Some e) | None => Writing k (i + 1) n' end))
  | Writing O i n => Some (
      modify (fun w => set_dp (set_state DP_STATE_RETRANSFER (dp w)) w);;
      mret (Retransferring n))
  | Retransferring n => Some (
      s ← gets (fun w => state (dp w));
      if negb (s =? DP_STATE_RETRANSFER) then mret (WriteReturned n None)
      else
        part ← current_part;
        nums ← at_part part (gets MissingSequenceNums);
        mret (Ranging nums 0 n))
  | Ranging (v :: vs) i n => Some (
      if v =? 0 then fail LogFatal
      else
        part ← current_part;
        offs ← at_part part (gets MissingSequenceNumOffsets);
        match go_index offs i with
        | None => mret (Ranging [] i n)
        | Some off => mret (Resending (Z.to_nat off) v 0 vs (i + 1) n)
        end)
  | Ranging [] i n => Some (
      part ← current_part;
      at_part part (modify (set_Missing [] []));;
      mret (Retransferring n))
  | Resending (S k) v j vs i n => Some (resend 1 v j;; mret (Resending k v (j + 1) vs i n))
  | Resending O v j vs i n => Some (mret (Ranging vs i n))
  | WriteReturned _ _ | WriteHangs => None
  end.

Definition read_turn (pc : receiver_pc) : option (go W receiver_pc) :=
  match pc with
  | ReadStarts => Some (
      numPackets ← at_part q (gets NumPackets);
      mret (Reading (Z.to_nat numPackets) 0 0))
  | Reading (S k) i n => Some (
      '(n', err) ← ReadPart_loop q 1 i n;
      mret (match err with Some e => ReadReturned (Some e) | None => Reading k (i + 1) n' end))
  | Reading O i n => Some (FinishReadpart;; mret (ReadReturned None))
  | ReadReturned _ | ReadHangs => None
  end.

(** A read waits while no datagram is there. *)
Definition waits (w : W) : bool :=
  match Conn (dp w) with Some c => bool_decide (rx c = []) | None => false end.

Definition read_waits (pc : receiver_pc) (w : W) : bool :=
  match pc with Reading (S _) _ _ => waits w | _ => false end.

(** ** The network *)

(** What an end has written so far. *)
Definition written (w : W) : list (list byte) :=
  match Conn (dp w) with Some c => tx c | None => [] end.

Definition arrive (d : list byte) (w : W) : W :=
  match Conn (dp w) with
  | Some c => set_dp (set_Conn (mkLink (rx c ++ [d]) (tx c)) (dp w)) w
  | None => w
  end.

(** ** Turns of the system *)

Inductive turn : Type :=
| WriteTurn | AckReadTurn | AckTurn | ReadTurn | RequestTurn
| ToReceiver (d : list byte) | ToSender (d : list byte).

(** A turn nobody can take now, the end of the program by a fault, the next
    system. *)
Inductive effect : Type :=
| Idle
| Crash (f : fault)
| OutOfFuel
| Next (s : system).

(** One turn of a thread in the world of its end. *)
Definition thread_turn {T : Type} (m : option (go W T)) (w : W) (done : T -> W -> system) (blocked : W -> system) : effect :=
  match m with
  | None => Idle
  | Some m =>
      match m w with
      | Done a w' => Next (done a w')
      | Blocked w' => Next (blocked w')
      | Faulted f => Crash f
      end
  end.

(** The network hands over a datagram that the other end wrote, as often and
    as late as it likes, or never.  Datagrams to the sender fit its buffer. *)
Definition perform (a : turn) (s : system) : effect :=
  match a with
  | WriteTurn =>
      thread_turn (write_turn (s_pc s)) (sender s)
        (fun pc w => mkSystem w pc (acks s) (receiver s) (r_pc s) (request_id s))
        (fun w => mkSystem w WriteHangs (acks s) (receiver s) (r_pc s) (request_id s))
  | AckReadTurn =>
      if waits (sender s) then Idle
      else thread_turn (reader_turn (acks s)) (sender s)
        (fun t w => mkSystem w (s_pc s) t (receiver s) (r_pc s) (request_id s))
        (fun w => s)
  | AckTurn =>
      thread_turn (handler_turn (acks s)) (sender s)
        (fun t w => mkSystem w (s_pc s) t (receiver s) (r_pc s) (request_id s))
        (fun w => mkSystem w (s_pc s) (mkAckThreads false None) (receiver s) (r_pc s) (request_id s))
  | ReadTurn =>
      if read_waits (r_pc s) (receiver s) then Idle
      else thread_turn (read_turn (r_pc s)) (receiver s)
        (fun pc w => mkSystem (sender s) (s_pc s) (acks s) w pc (request_id s))
        (fun w => mkSystem (sender s) (s_pc s) (acks s) w ReadHangs (request_id s))
  | RequestTurn =>
      match r_pc s with
      | ReadStarts | Reading _ _ _ =>
          match requestRetransfers_tick 53 1 (request_id s) (receiver s) with
          | Done (Some id) w => Next (mkSystem (sender s) (s_pc s) (acks s) w (r_pc s) id)
          | Done None _ => OutOfFuel
          | Blocked w => Next (mkSystem (sender s) (s_pc s) (acks s) w ReadHangs (request_id s))
          | Faulted f => Crash f
          end
      | _ => Idle
      end
  | ToReceiver d =>
      if bool_decide (d ∈ written (sender s)) then
        Next (mkSystem (sender s) (s_pc s) (acks s) (arrive d (receiver s)) (r_pc s) (request_id s))
      else Idle
  | ToSender d =>
      if bool_decide (d ∈ written (receiver s)) && (zlen d <=? PACKET_SIZE) then
        Next (mkSystem (arrive d (sender s)) (s_pc s) (acks s) (receiver s) (r_pc s) (request_id s))
      else Idle
  end.

Definition step (s s' : system) : Prop := exists a, perform a s = Next s'.

(** Take turns as long as they lead on. *)
Fixpoint play (turns : list turn) (s : system) : effect :=
  match turns with
  | [] => Next s
  | a :: turns' => match perform a s with Next s' => play turns' s' | e => e end
  end.

Lemma play_steps turns s s' : play turns s = Next s' -> rtc step s s'.
Proof.
  induction turns as [|a turns IH] in s |- *; cbn [play]; [by intros [= ->]|].
  destruct (perform a s) as [| | |s1] eqn:Ha; try done. intros Hp.
  eapply rtc_l; [by exists a|by apply IH].
Qed.

(** The datagrams that [ReadPart] takes from the connection during the turns. *)
Definition datagram_read (a : turn) (s : system) : list (list byte) :=
  match a, r_pc s, Conn (dp (receiver s)) with
  | ReadTurn, Reading (S _) _ _, Some c => take 1 (rx c)
  | _, _, _ => []
  end.

Fixpoint datagrams_read (turns : list turn) (s : system) : list (list byte) :=
  match turns with
  | [] => []
  | a :: turns' =>
      datagram_read a s ++ match perform a s with Next s' => datagrams_read turns' s' | _ => [] end
  end.

(** ** The turns put together are the calls *)

Lemma WritePart_loop_one k i n w :
  WritePart_loop p (S k) i n w =
    ('(n', err) ← WritePart_loop p 1 i n;
     match err with Some e => mret (0, Some e) | None => WritePart_loop p k (i + 1) n' end) w.
Proof.
  cbn [WritePart_loop]. rewrite bind_assoc. unfold mbind, go_bind.
  destruct (at_part p _ w) as [payload w1|f|w1]; try done.
  destruct (alloc_packet payload w1) as [buf w2|f|w2]; try done.
  destruct (at_part p _ w2) as [buf' w3|f|w3]; try done.
  destruct (at_dp _ w3) as [[bts err] w4|f|w4]; try done.
  destruct (on_status p 1 bts w4) as [[] w5|f|w5]; try done. by destruct err.
Qed.

Lemma ReadPart_loop_one k i n w :
  ReadPart_loop q (S k) i n w =
    ('(n', err) ← ReadPart_loop q 1 i n;
     match err with Some e => mret (0, Some e) | None => ReadPart_loop q k (i + 1) n' end) w.
Proof.
  cbn [ReadPart_loop]. rewrite bind_assoc. unfold mbind, go_bind.
  destruct (ReadPart_step q i w) as [[e|bts] w1|f|w1]; done.
Qed.

(** Turns of one thread, with nothing in between. *)
Definition write_alone (x x' : sender_pc * W) : Prop :=
  exists m, write_turn x.1 = Some m /\ m x.2 = Done x'.1 x'.2.

Definition read_alone (x x' : receiver_pc * W) : Prop :=
  exists m, read_turn x.1 = Some m /\ m x.2 = Done x'.1 x'.2.

Definition ack_alone (x x' : ack_threads * W) : Prop :=
  exists m, (reader_turn x.1 = Some m \/ handler_turn x.1 = Some m) /\ m x.2 = Done x'.1 x'.2.

(** A turn that leads on. *)
Lemma write_alone_turn pc w m pc' w' : write_turn pc = Some m -> m w = Done pc' w' -> write_alone (pc, w) (pc', w').
Proof. intros Hm Hr. by exists m. Qed.

Lemma WritePart_turns k i n w n' err w' :
  WritePart_loop p k i n w = Done (n', err) w' ->
  match err with
  | None => rtc write_alone (Writing k i n, w) (Retransferring n', set_dp (set_state DP_STATE_RETRANSFER (dp w')) w')
  | Some e => n' = 0 /\ rtc write_alone (Writing k i n, w) (WriteReturned 0 (Some e), w')
  end.
Proof.
  induction k as [|k IH] in i, n, w |- *.
  { intros [= <- <- <-]. apply rtc_once. by eapply write_alone_turn. }
  rewrite WritePart_loop_one. intros ([n1 err1] & w1 & H1 & H2)%bind_Done_inv.
  assert (Hturn : write_alone (Writing (S k) i n, w)
    (match err1 with Some e => WriteReturned 0 (Some e) | None => Writing k (i + 1) n1 end, w1)).
  { eapply write_alone_turn; [done|]. by rewrite (bind_Done _ _ _ _ _ H1). }
  destruct err1 as [e|].
  - injection H2 as <- <- <-. split; [done|]. by apply rtc_once.
  - specialize (IH _ _ _ H2). destruct err; [destruct IH as [-> IH]; split; [done|]|]; by eapply rtc_l.
Qed.

(** [WritePart] and the assignment after it are turns of the writer. *)
Lemma write_turns w n' err w' :
  WritePart p w = Done (n', err) w' ->
  match err with
  | None => rtc write_alone (WriteStarts, w) (Retransferring n', set_dp (set_state DP_STATE_RETRANSFER (dp w')) w')
  | Some e => n' = 0 /\ rtc write_alone (WriteStarts, w) (WriteReturned 0 (Some e), w')
  end.
Proof.
  unfold WritePart. rewrite bind_modify. intros (k & w1 & H1 & H2)%bind_Done_inv.
  assert (Hturn : write_alone (WriteStarts, w) (Writing (Z.to_nat k) 0 0, w1)).
  { eapply write_alone_turn; [done|]. by rewrite bind_modify, (bind_Done _ _ _ _ _ H1). }
  apply WritePart_turns in H2. destruct err; [destruct H2 as [-> H2]; split; [done|]|]; by eapply rtc_l.
Qed.

Lemma resend_one k v j w : resend (S k) v j w = (resend 1 v j;; resend k v (j + 1)) w.
Proof.
  cbn [resend]. rewrite bind_assoc. unfold mbind, go_bind.
  destruct (current_part w) as [part w0|f|w0]; try done.
  destruct (at_part part _ w0) as [payload w1|f|w1]; try done.
  destruct (alloc_packet payload w1) as [buf w2|f|w2]; try done.
  destruct (at_part part _ w2) as [buf' w3|f|w3]; try done.
  destruct (at_dp _ w3) as [[bts err] w4|f|w4]; try done.
  destruct (at_dp _ w4) as [[] w5|f|w5]; try done.
  destruct (on_status part 1 bts w5) as [[] w6|f|w6]; try done. by destruct err.
Qed.

Lemma resend_turns k v j vs i n w w' :
  resend k v j w = Done tt w' -> rtc write_alone (Resending k v j vs i n, w) (Ranging vs i n, w').
Proof.
  induction k as [|k IH] in j, w |- *; intros Hr.
  { injection Hr as <-. apply rtc_once. by eapply write_alone_turn. }
  rewrite resend_one in Hr. apply bind_Done_inv in Hr as ([] & w1 & H1 & H2).
  eapply rtc_l; [|by apply IH]. eapply write_alone_turn; [done|]. by rewrite (bind_Done _ _ _ _ _ H1).
Qed.

Lemma range_turns vs i n w w' :
  retransfer_range vs i w = Done tt w' -> exists i', rtc write_alone (Ranging vs i n, w) (Ranging [] i' n, w').
Proof.
  induction vs as [|v vs IH] in i, w |- *; cbn [retransfer_range].
  { intros [= <-]. by exists i. }
  destruct (v =? 0) eqn:Hv; [done|]. intros (part & w1 & H1 & (offs & w2 & H2 & H3)%bind_Done_inv)%bind_Done_inv.
  destruct (go_index offs i) as [off|] eqn:Ho.
  - apply bind_Done_inv in H3 as ([] & w3 & H3 & H4). apply IH in H4 as (i' & H4). exists i'.
    eapply rtc_l; [|etransitivity; [by apply resend_turns|exact H4]].
    eapply write_alone_turn; [done|]. by rewrite Hv, (bind_Done _ _ _ _ _ H1), (bind_Done _ _ _ _ _ H2), Ho.
  - injection H3 as <-. exists i. apply rtc_once. eapply write_alone_turn; [done|].
    by rewrite Hv, (bind_Done _ _ _ _ _ H1), (bind_Done _ _ _ _ _ H2), Ho.
Qed.

(** A pass of the retransfer loop is turns of the writer. *)
Lemma pass_turns n w w' :
  state (dp w) = DP_STATE_RETRANSFER -> retransfer_pass w = Done tt w' ->
  rtc write_alone (Retransferring n, w) (Retransferring n, w').
Proof.
  intros Hs (part & w1 & H1 & (nums & w2 & H2 & ([] & w3 & H3 & (part' & w4 & H4 & H5)%bind_Done_inv)%bind_Done_inv)%bind_Done_inv)%bind_Done_inv.
  apply (range_turns nums 0 n) in H3 as (i' & H3).
  eapply rtc_l; [|etransitivity; [exact H3|apply rtc_once]]; eapply write_alone_turn; try done.
  - rewrite bind_gets, Hs. cbn [negb Z.eqb Pos.eqb DP_STATE_RETRANSFER].
    by rewrite (bind_Done _ _ _ _ _ H1), (bind_Done _ _ _ _ _ H2).
  - by rewrite (bind_Done _ _ _ _ _ H4), (bind_Done _ _ _ _ _ H5).
Qed.

(** The loop of [RetransferMissingPackets] alternates turns of the writer with
    what the others do. *)
Lemma retransfer_turns n other others w w' :
  retransfer_loop (other :: others) w = Done true w' ->
  (write_alone (Retransferring n, w) (WriteReturned n None, w) /\ w' = w) \/
  exists w1 w2, rtc write_alone (Retransferring n, w) (Retransferring n, w1) /\ other w1 = Done tt w2 /\
    retransfer_loop others w2 = Done true w'.
Proof.
  cbn [retransfer_loop]. rewrite bind_gets. destruct (negb _) eqn:Hs.
  - intros [= <-]. left. split; [|done]. eapply write_alone_turn; [done|]. by rewrite bind_gets, Hs.
  - intros ([] & w1 & Hp & ([] & w2 & Ho & Hr)%bind_Done_inv)%bind_Done_inv. right. exists w1, w2.
    split; [|done]. apply pass_turns; [|done]. apply Z.eqb_eq. by apply negb_false_iff in Hs.
Qed.

Lemma ReadPart_turns k i n w n' w' w'' :
  ReadPart_loop q k i n w = Done (n', None) w' -> FinishReadpart w' = Done tt w'' ->
  rtc read_alone (Reading k i n, w) (ReadReturned None, w'').
Proof.
  intros Hr Hf. induction k as [|k IH] in i, n, w, Hr |- *.
  { injection Hr as _ <-. apply rtc_once. eexists. split; [reflexivity|]. cbn [fst snd]. by rewrite (bind_Done _ _ _ _ _ Hf). }
  rewrite ReadPart_loop_one in Hr. apply bind_Done_inv in Hr as ([n1 [e|]] & w1 & H1 & H2); [done|].
  eapply rtc_l; [|by eapply IH]. eexists. split; [reflexivity|]. cbn [fst snd]. by rewrite (bind_Done _ _ _ _ _ H1).
Qed.

(** [ReadPart] and [FinishReadpart] are turns of the reader. *)
Lemma read_turns w n' w' w'' :
  ReadPart q w = Done (n', None) w' -> FinishReadpart w' = Done tt w'' ->
  rtc read_alone (ReadStarts, w) (ReadReturned None, w'').
Proof.
  unfold ReadPart. intros (k & w1 & H1 & H2)%bind_Done_inv Hf.
  eapply rtc_l; [|by eapply ReadPart_turns]. eexists. split; [reflexivity|]. cbn [fst snd]. by rewrite (bind_Done _ _ _ _ _ H1).
Qed.

(** [HandleAckPackets] is turns of its two goroutines, one after the other. *)
Lemma ack_turns k w r w' :
  HandleAckPackets k w = Done r w' -> rtc ack_alone (mkAckThreads true None, w) (mkAckThreads (negb r) None, w').
Proof.
  induction k as [|k IH] in w |- *; cbn [HandleAckPackets]; [by intros [= <- <-]|].
  intros (d & w1 & H1 & ([] & w2 & H2 & H3)%bind_Done_inv)%bind_Done_inv;
    (eapply (rtc_l _ _ (mkAckThreads true (Some d), w1));
     [eexists; split; [by left|]; cbn [fst snd handling]; by rewrite (bind_Done _ _ _ _ _ H1)|]).
  - injection H3 as <- <-. apply rtc_once. eexists. split; [by right|]. cbn [fst snd]. by rewrite (bind_Done _ _ _ _ _ H2).
  - eapply rtc_l; [|by apply IH]. eexists. split; [by right|]. cbn [fst snd]. by rewrite (bind_Done _ _ _ _ _ H2).
Qed.

End threads.

End system.
