(* ===== verification/SystemInv.v ===== *)
(** * SystemInv: what every turn keeps true

    The invariants of the sender, of the receiver and of the datagrams in
    flight, and that each turn of [System] keeps them, never faults and never
    runs out of fuel. *)

From S2P Require Import Prelude Utils Interface Packer PartContext Reassembly Metrics Dataplane Loopback Transfer.
From S2P Require Import Arrivals Retransfer RateControl Handshake ControlPlane Requests Acks PartsConn Repair System.

Lemma loopback_Write (c : link) (d : list byte) : conn_Write c d = (mkLink (rx c) (tx c ++ [d]), (zlen d, None)).
Proof. reflexivity. Qed.

Section invariants.
Context `{PartsPacketPackerSpec} `{GobSpec}.

Abbreviation W := (world link string ControlPlane).
Implicit Types (w : W) (c : link).

(** The part: its id, the length of a payload, the number of packets, the
    length of a packet buffer, the sender's bytes and the receiver's old ones;
    where the two ends keep their part contexts. *)
Variables (pid pl n m : Z) (data init : list byte) (p q : nat).

Hypothesis Hfits : part_fits pid pl n m.

Abbreviation control_packet := (control_packet n).

(** The datagrams to the receiver: packets of the part. *)
Definition is_packet (d : list byte) : Prop := exists x, 1 <= x <= n /\ d = packet pid pl data x.

(** Those to the sender: requests, and once [Read] returned the end. *)
Definition is_control (finished : Prop) (d : list byte) : Prop :=
  exists r, control_packet r /\ gob_encode_request r = inr d /\ (req_PartFinished r = true -> finished).

Lemma is_control_weaken (F F' : Prop) ds : (F -> F') -> Forall (is_control F) ds -> Forall (is_control F') ds.
Proof. intros HF Hf. eapply Forall_impl; [exact Hf|]. intros d (r & ? & ? & ?). exists r. auto. Qed.

(** ** The sender *)

Record sender_part (b : PartContext) : Prop := {
  sn_geometry : geometry b;
  sn_transport : transport_ok (PCTransportPacketPacker b);
  sn_pid : PartId b = pid;
  sn_payload : PayloadLength b = pl;
  sn_packets : NumPackets b = n;
  sn_data : Data b = data;
  sn_asked : in_part b (MissingSequenceNums b) (MissingSequenceNumOffsets b);
}.

Record sender_inv (finished : Prop) w (b : PartContext) c : Prop := {
  se_here : parts w !! p = Some b;
  se_conn : Conn (dp w) = Some c;
  se_owner : sender_ok p (owner w);
  se_part : sender_part b;
  se_tx : Forall is_packet (tx c);
  se_rx : Forall (is_control finished) (rx c);
  se_short : Forall (fun d => zlen d <= PACKET_SIZE) (rx c);
}.

Lemma sender_inv_weaken (F F' : Prop) w b c : (F -> F') -> sender_inv F w b c -> sender_inv F' w b c.
Proof. intros HF []. split; try done. by eapply is_control_weaken. Qed.

Lemma sender_part_other b nums offs s :
  sender_part b -> in_part b nums offs -> sender_part (set_currentSequenceNumber s (set_Missing nums offs b)).
Proof. intros [] ?. by split. Qed.

Lemma set_Missing_id b : set_Missing (MissingSequenceNums b) (MissingSequenceNumOffsets b) b = b.
Proof. by destruct b. Qed.

(** What a turn of the writer leaves alone. *)
Definition same_plane w w' : Prop := state (dp w') = state (dp w) /\ partContext (dp w') = partContext (dp w).

(** One packet of WritePart. *)
Lemma WritePart_one finished w b c i k n0 :
  sender_inv finished w b c -> 0 <= i -> i + Z.of_nat (S k) = n -> currentSequenceNumber b = i ->
  exists n1 w1 b1 c1, WritePart_loop p 1 i n0 w = Done (n1, None) w1 /\
    sender_inv finished w1 b1 c1 /\ currentSequenceNumber b1 = i + 1 /\ same_plane w w1.
Proof.
  intros [Hb Hc Ho Hsp Htx Hrx Hsh] Hi Hk Hseq. pose proof Hsp as [Hg Ht Hid Hpl Hn Hd Hin].
  set (d := packet (PartId b) (PayloadLength b) (Data b) (i + 1)).
  destruct (WritePart_loop_eq (H1 := sender_listener_spec p) p 1 i n0 w b c (mkLink (rx c) (tx c ++ [d])) 1
    (u64 (n0 + u64 (zlen d)), None)) as (o & Hok & Hrun); try (done || lia).
  { apply Hfits. }
  eexists _, _, (set_currentSequenceNumber (i + 1) b), _. split; [exact Hrun|]. split; [|by split]. split; [apply lookup_insert_eq|done|exact Hok| | |done|done].
  - rewrite <- (set_Missing_id b). by apply sender_part_other.
  - apply Forall_app. split; [done|]. apply Forall_singleton. exists (i + 1). split; [lia|].
    unfold d. by rewrite Hid, Hpl, Hd.
Qed.

(** One packet that is sent again. *)
Lemma resend_inv finished w b c v j :
  sender_inv finished w b c -> partContext (dp w) = Some p -> 1 <= v -> 0 <= j -> v + j <= n ->
  exists w1 c1, resend 1 v j w = Done tt w1 /\ sender_inv finished w1 b c1 /\ same_plane w w1.
Proof.
  intros [Hb Hc Ho Hsp Htx Hrx Hsh] Hp Hv Hj Hle. pose proof Hsp as [Hg Ht Hid Hpl Hn Hd Hin].
  set (ds := packets_of b (seqZ (v + j) (Z.of_nat 1))).
  destruct (resend_sends (H1 := sender_listener_spec p) p b w c (mkLink (rx c) (tx c ++ ds)) 1 v j) as (o & Hok & Hrun);
    try (done || lia).
  { apply Hfits. }
  { apply loopback_writes. }
  eexists _, _. split; [exact Hrun|]. split; [|by split]. split; [done|done|exact Hok|done| |done|done].
  apply Forall_app. split; [done|]. unfold ds, packets_of. rewrite Hid, Hpl, Hd.
  apply Forall_fmap, Forall_forall. intros x Hx%elem_of_seqZ. exists x. split; [lia|done].
Qed.

(** The range at an index of the slices. *)
Lemma in_part_range b pre v more :
  sender_part b -> MissingSequenceNums b = pre ++ v :: more ->
  exists off, go_index (MissingSequenceNumOffsets b) (zlen pre) = Some off /\ 1 <= v /\ 0 <= off /\ v + off <= n + 1.
Proof.
  intros Hsp Hv. pose proof (sn_asked _ Hsp) as Hin. rewrite Hv in Hin. unfold in_part in Hin.
  apply Forall2_app_inv_l in Hin as (o1 & o2 & Hpre & Hrest & ->). apply Forall2_cons_inv_l in Hrest as (off & o3 & Hoff & _ & Ho2).
  rewrite Ho2.
  exists off. rewrite go_index_middle by (unfold zlen; by rewrite (Forall2_length _ _ _ Hpre)). split; [done|].
  by rewrite <- (sn_packets _ Hsp).
Qed.

(** The reset after the ranges. *)
Lemma reset_inv finished w b c :
  sender_inv finished w b c ->
  exists w1, at_part p (modify (set_Missing [] [])) w = Done tt w1 /\
    sender_inv finished w1 (set_Missing [] [] b) c /\ same_plane w w1.
Proof.
  intros [Hb Hc Ho Hsp Htx Hrx Hsh]. eexists. rewrite (at_part_Done p _ w b tt _ Hb (modify_Done _ b)).
  split; [done|]. split; [|by split]. split; try done; [apply lookup_insert_eq|]. destruct Hsp. split; try done. constructor.
Qed.

(** The acknowledgement that ends the part: the state of the two planes, the
    lock and the collectors are all it touches. *)
Lemma handle_finished w msg :
  ack_PartFinished msg = true ->
  exists d', (handlePartAckPacket msg w = Done true (mkWorld d' (parts w) (set_cp_state CP_STATE_PENDING (owner w))) \/
     handlePartAckPacket msg w = Blocked (mkWorld d' (parts w) (set_cp_state CP_STATE_PENDING (owner w)))) /\
    Conn d' = Conn (dp w) /\ partContext d' = partContext (dp w).
Proof.
  intros Hf. unfold handlePartAckPacket. rewrite Hf.
  destruct w as [[l c ra la li ch cap st pc mt] ps cp].
  destruct l; [eexists; split; [right; reflexivity|done]|].
  destruct mt as [? ? ? ? ? ? ? ? ? ? ? ? ? ? ? col].
  destruct col; cbn; eexists; (split; [first [left; reflexivity|right; reflexivity]|done]).
Qed.

(** What the reader of the acknowledgements holds. *)
Definition holds (finished : Prop) (r : option (error + list byte)) : Prop :=
  match r with
  | Some (inr buffer) => exists d, is_control finished d /\ buffer = read_buffer (replicate (Z.to_nat PACKET_SIZE) Byte.x00) d
  | _ => True
  end.

Lemma holds_weaken (F F' : Prop) r : (F -> F') -> holds F r -> holds F' r.
Proof. intros HF. destruct r as [[e|buf]|]; [done| |done]. intros (d & (rq & ? & ? & ?) & ->). exists d. split; [|done]. exists rq. auto. Qed.

(** The socket hands a control packet over whole. *)
Lemma read_ack_inv finished w b c :
  sender_inv finished w b c -> rx c <> [] ->
  exists r w1 c1, read_ack w = Done r w1 /\ holds finished (Some r) /\ sender_inv finished w1 b c1 /\ same_plane w w1.
Proof.
  intros [Hb Hc Ho Hsp Htx Hrx Hsh] Hne. destruct (rx c) as [|d ds] eqn:Hd; [done|]. clear Hne.
  apply Forall_cons in Hrx as [Hctl Hrx], Hsh as [Hlen Hsh].
  assert (Hread : conn_Read c PACKET_SIZE = (mkLink ds (tx c), (d, None))).
  { unfold conn_Read, loopback. rewrite Hd, take_ge; [done|]. unfold zlen in Hlen. lia. }
  exists (inr (read_buffer (replicate (Z.to_nat PACKET_SIZE) Byte.x00) d)). eexists _, (mkLink ds (tx c)). split.
  - unfold read_ack. by rewrite (bind_Done _ _ _ _ _ (Read_Done PACKET_SIZE w c _ _ Hc Hread)).
  - split; [by exists d|]. split; [|by split]. by split.
Qed.

Lemma merged_extends nums offs ms os : exists more, (merged nums offs ms os).1 = nums ++ more.
Proof.
  induction ms as [|v ms IH] in nums, offs, os |- *; (destruct os as [|off os]; cbn [merged]); try (exists []; by rewrite app_nil_r).
  case_decide; [apply IH|]. destruct (IH (nums ++ [v]) (offs ++ [off]) os) as (more & ->). exists (v :: more). by rewrite <- app_assoc.
Qed.

(** One acknowledgement: a request is merged, the end of the part ends the
    handler or leaves it hanging at the lock. *)
Lemma handle_read_inv finished w b c r :
  sender_inv finished w b c -> holds finished (Some r) ->
  exists w1 b1, sender_inv finished w1 b1 c /\ currentSequenceNumber b1 = currentSequenceNumber b /\
    partContext (dp w1) = partContext (dp w) /\ (exists more, MissingSequenceNums b1 = MissingSequenceNums b ++ more) /\
    (handle_read r w = Done false w1 /\ state (dp w1) = state (dp w) \/
     finished /\ (handle_read r w = Done true w1 \/ handle_read r w = Blocked w1)).
Proof.
  intros Hinv Hr. pose proof Hinv as [Hb Hc Ho Hsp Htx Hrx Hsh]. destruct r as [e|buf].
  { exists w, b. split_and!; try done; [by exists []; rewrite app_nil_r|by left]. }
  destruct Hr as (d & (rq & Hrq & He & Hf) & ->).
  destruct (gob_request rq (pf_sendable _ _ _ _ Hfits rq Hrq)) as (d' & He' & Hdec). rewrite He in He'. injection He' as <-.
  assert (Hh : handle_read (inr (read_buffer (replicate (Z.to_nat PACKET_SIZE) Byte.x00) d)) w = handlePartAckPacket (ack_of rq) w).
  { unfold handle_read, parsePartAckPacket, read_buffer, splice. rewrite take_0. cbn [app]. by rewrite Hdec. }
  rewrite Hh. destruct (req_PartFinished rq) eqn:Hfin.
  - destruct (handle_finished w (ack_of rq) Hfin) as (d' & Hrun & Hc' & Hp').
    exists (mkWorld d' (parts w) (set_cp_state CP_STATE_PENDING (owner w))), b.
    split; [|split; [done|split; [done|split; [by exists []; rewrite app_nil_r|right; split; [by apply Hf|]]]]].
    + split; try done; cbn; [by rewrite Hc'|by destruct Ho].
    + destruct Hrun as [Hrun|Hrun]; [left|right]; exact Hrun.
  - destruct (handle_request p w b (ack_of rq) Ho Hb (control_request n rq Hrq Hfin)) as (cp' & Ho' & Hrun).
    cbv zeta in Hrun. pose proof (merged_extends (MissingSequenceNums b) (MissingSequenceNumOffsets b)
      (ack_MissingSequenceNumbers (ack_of rq)) (ack_MissingSequenceNumberOffsets (ack_of rq))) as Hmore.
    set (a := merged _ _ _ _) in *.
    exists (mkWorld (dp w) (<[p := set_Missing a.1 a.2 b]> (parts w)) cp'), (set_Missing a.1 a.2 b).
    split; [|split; [done|split; [done|split; [exact Hmore|by left]]]]. split; try done; [apply lookup_insert_eq|].
    pose proof (control_asks n rq Hrq) as Hask. unfold asks_within in Hask. rewrite <- (sn_packets _ Hsp) in Hask.
    pose proof (merged_Forall2 _ _ _ _ _ (sn_asked _ Hsp) Hask) as Hm.
    apply (sender_part_other b _ _ (currentSequenceNumber b) Hsp) in Hm. exact Hm.
Qed.

(** ** The receiver *)

Record receiver_inv (finished : Prop) (R : gset Z) w (b : PartContext) c : Prop := {
  re_part : parts w !! q = Some b;
  re_conn : Conn (dp w) = Some c;
  re_fits : receiver_part pid pl n m data init R b;
  re_rx : Forall is_packet (rx c);
  re_tx : Forall (is_control finished) (tx c);
}.

Lemma receiver_inv_weaken (F F' : Prop) R w b c : (F -> F') -> receiver_inv F R w b c -> receiver_inv F' R w b c.
Proof. intros HF []. split; try done. by eapply is_control_weaken. Qed.

(** No packet is cut by the buffer it is read into. *)
Lemma packet_fits x : zlen (packet pid pl data x) <= m.
Proof.
  pose proof (pf_header _ _ _ _ Hfits). pose proof GetHeaderLen_nonneg. unfold packet, payload, zlen.
  rewrite length_app, packet_header_length, length_take. lia.
Qed.

Lemma ReadPart_loop_step k i n0 w r w' :
  ReadPart_step q i w = Done (inr r) w' ->
  ReadPart_loop q (S k) i n0 w = ReadPart_loop q k (i + 1) (u64 (n0 + r)) w'.
Proof. intros Hs. cbn [ReadPart_loop]. by rewrite (bind_Done _ _ _ _ _ Hs). Qed.

(** Among the packets of the part that were read, those accepted: while none was
    read twice, all of them, and the missing ranges are right. *)
Definition exact (taken : list Z) (R : gset Z) (b : PartContext) : Prop :=
  NoDup taken -> R = list_to_set taken /\ missing_inv R b.

(** One packet of ReadPart: packet [x] is accepted, or refused because one was
    read twice. *)
Lemma ReadPart_one finished R taken w b c i k n0 :
  receiver_inv finished R w b c -> exact taken R b ->
  receiver_ok q (owner w) -> rx c <> [] -> 0 <= i -> i + Z.of_nat (S k) = n ->
  exists x w1 b1 c1 R1, take 1 (rx c) = [packet pid pl data x] /\ 1 <= x <= n /\
    receiver_inv finished R1 w1 b1 c1 /\ exact (taken ++ [x]) R1 b1 /\ receiver_ok q (owner w1) /\
    (R1 = {[x]} ∪ R \/ R1 = R /\ ~ NoDup (taken ++ [x])) /\
    (ReadPart_loop q 1 i n0 w = Blocked w1 /\ R1 = R /\ ~ NoDup (taken ++ [x]) \/
     exists n1, ReadPart_loop q 1 i n0 w = Done (n1, None) w1).
Proof.
  intros [Hb Hc Hrp Hrx Htx] Hex Ho Hne Hi Hk. destruct (rx c) as [|d ds] eqn:Hd; [done|]. clear Hne.
  apply Forall_cons in Hrx as [(x & Hx & ->) Hrx].
  assert (Hread : conn_Read c m = (mkLink ds (tx c), (packet pid pl data x, None))).
  { unfold conn_Read, loopback. rewrite Hd, take_ge; [done|]. pose proof (packet_fits x). unfold zlen in *. lia. }
  assert (Hsplit : NoDup (taken ++ [x]) -> NoDup taken /\ x ∉ (list_to_set taken : gset Z)).
  { intros (Hnd & Hx' & _)%NoDup_app. split; [done|]. rewrite elem_of_list_to_set. intros Hin. apply (Hx' x Hin). by left. }
  destruct (ReadPart_step_arrival (H1 := cp_listener) (H2 := receiver_listener_spec q) pid pl n m (pf_room _ _ _ _ Hfits)
    q i w b c _ data init R x Hb Hc Ho Hrp ltac:(lia) Hx Hread)
    as [(o & b' & Hok & Hrp' & _ & Hnew & Hrun)|(b' & rest & Hrp' & _ & Hdup & Hrun)]; exists x.
  - eexists _, b', _, ({[x]} ∪ R). split; [done|]. split; [done|]. split; [|split; [|split; [|split; [by left|]]]].
    4:{ right. eexists. by rewrite (ReadPart_loop_step _ _ _ _ _ _ Hrun). }
    + split; try done. apply lookup_insert_eq.
    + intros Hnd. destruct (Hsplit Hnd) as [Hnd' Hx']. destruct (Hex Hnd') as [-> Hm].
      split; [|by apply Hnew]. rewrite list_to_set_app_L. cbn. rewrite union_empty_r_L. by rewrite (comm_L (∪)).
    + exact Hok.
  - assert (Htwice : ~ NoDup (taken ++ [x])).
    { intros Hnd. destruct (Hsplit Hnd) as [Hnd' Hx']. destruct (Hex Hnd') as [-> Hm]. by apply Hx', Hdup. }
    assert (Hex' : exact (taken ++ [x]) R b') by (intros Hnd; done).
    destruct Hrun as [Hrun|Hrun].
    + eexists _, b', _, R. split; [done|]. split; [done|].
      split; [|split; [done|split; [|split; [by right|left]]]].
      3:{ split; [|done]. cbn [ReadPart_loop]. by rewrite (bind_Blocked _ _ _ _ Hrun). }
      * split; try done. apply lookup_insert_eq.
      * exact Ho.
    + eexists _, b', _, R. split; [done|]. split; [done|].
      split; [|split; [done|split; [|split; [by right|right]]]].
      3:{ eexists. by rewrite (ReadPart_loop_step _ _ _ _ _ _ Hrun). }
      * split; try done. apply lookup_insert_eq.
      * exact Ho.
Qed.

(** The end of a part: the finishing acknowledgement is written. *)
Lemma FinishReadpart_inv finished R w b c :
  receiver_inv finished R w b c -> receiver_ok q (owner w) -> finished ->
  exists w1 c1, FinishReadpart w = Done tt w1 /\ receiver_inv finished R w1 b c1.
Proof.
  intros [Hb Hc Hrp Hrx Htx] (Hrc & Hq & Hreq) Hfin.
  set (r := finish_packet (PartId b) (i64 (RecvPackets b))).
  assert (Hr : control_packet r).
  { split; [|done|constructor]. cbn. rewrite (rp_id _ _ _ _ _ _ _ _ Hrp).
    repeat (apply Forall_cons_2; [first [apply Hfits|apply i64_range|by split]|]). constructor. }
  destruct (gob_request r (pf_sendable _ _ _ _ Hfits r Hr)) as (d & He & _).
  destruct (FinishReadpart_eq (C := link) (Addr := string) q b w c _ _ d Hc Hq Hb He (loopback_Write c d) Hreq)
    as (o & Hrun).
  eexists _, _. split; [exact Hrun|]. split; try done.
  apply Forall_app. split; [done|]. apply Forall_singleton. by exists r.
Qed.

Lemma control_encoded finished rs :
  Forall (fun r => control_packet r /\ req_PartFinished r = false) rs ->
  exists ds, encoded rs ds /\ Forall (is_control finished) ds.
Proof.
  induction 1 as [|r rs [Hr Hf] _ (ds & He & Hds)]; [exists []; by repeat constructor|].
  destruct (gob_request r (pf_sendable _ _ _ _ Hfits r Hr)) as (d & Hd & _).
  exists (d :: ds). split; [by constructor|]. constructor; [|done]. exists r. split_and!; [done|done|congruence].
Qed.

(** Without a missing range a tick writes one request without ranges. *)
Lemma request_loop_empty fuel b c rid w d :
  receiving q b c w -> MissingSequenceNums b = [] -> MissingSequenceNumOffsets b = [] ->
  gob_encode_request (request b 0 0 0 1 rid) = inr d ->
  request_loop (S fuel) 0 0 0 1 rid w = Done (Some tt) (set_dp (set_Conn (mkLink (rx c) (tx c ++ [d])) (dp w)) w).
Proof.
  intros Hr Hn Ho He. cbn [request_loop].
  rewrite (bind_Done _ _ _ _ _ (own_part_eq q b c w Hr)).
  rewrite (bind_Done _ _ _ _ _ (at_part_gets q id w b (rc_context _ _ _ _ Hr))).
  cbn [id]. rewrite Hn. change (zlen (@nil Z)) with 0. change (Min (i64 (0 + 100)) 0) with 0. cbn [Z.eqb orb Z.gtb Z.compare].
  rewrite (bind_Done _ _ _ _ _ (request_packet_eq b 0 0 0 1 rid w ltac:(done) (zlen_nonneg _)
    ltac:(by rewrite Hn, Ho) ltac:(by rewrite Hn))).
  rewrite He. by rewrite (bind_Done _ _ _ _ _ (Write_Done d w c _ _ (rc_conn _ _ _ _ Hr) (loopback_Write c d))).
Qed.

(** One tick of requestRetransfers: only requests are written. *)
Lemma tick_inv finished R w b c rid :
  receiver_inv finished R w b c -> receiver_ok q (owner w) -> in_i64 rid ->
  exists rid' w1 c1, requestRetransfers_tick 53 1 rid w = Done (Some rid') w1 /\ in_i64 rid' /\
    receiver_inv finished R w1 b c1 /\ owner w1 = owner w.
Proof.
  intros Hinv (_ & Hq & _) Hid. pose proof Hinv as [Hb Hc Hrp Hrx Htx]. pose proof Hrp as [Har Hpid _ Hn _ _].
  pose proof (ar_ranges _ _ _ _ Har) as Hri. rewrite Hn in Hri. pose proof (pf_packets _ _ _ _ Hfits) as HN.
  assert (Hr : receiving q b c w) by by split.
  assert (Hctl : forall bs, zlen bs <= 53 -> Forall (fun '(s, e) => 0 <= s /\ e <= s + 100) bs ->
    exists ds, encoded (requests b 0 1 rid bs) ds /\ Forall (is_control finished) ds).
  { intros bs Hlen Hbs. apply control_encoded, (requests_control pid pl n m Hfits); try (done || lia). rewrite Hpid. apply Hfits. }
  assert (Hnext : forall ds, Forall (is_control finished) ds ->
    request_loop 53 0 0 0 1 rid w = Done (Some tt) (set_dp (set_Conn (mkLink (rx c) (tx c ++ ds)) (dp w)) w) ->
    exists rid' w1 c1, (r ← request_loop 53 0 0 0 1 rid;
        match r with None => mret None | Some _ => mret (Some (i64 (rid + 1))) end) w = Done (Some rid') w1 /\
      in_i64 rid' /\ receiver_inv finished R w1 b c1 /\ owner w1 = owner w).
  { intros ds Hds Hrun. eexists _, _, _. rewrite (bind_Done _ _ _ _ _ Hrun). split; [reflexivity|].
    split; [apply i64_range|]. split; [|done]. split; try done. by apply Forall_app. }
  unfold requestRetransfers_tick. go_step. rewrite Hq.
  rewrite (bind_Done _ _ _ _ _ (at_part_gets q _ w b Hb)). destruct (_ <? 1).
  { exists rid, w, c. by split_and!. }
  pose proof (ranges_in_few n b Hri) as Hfew. pose proof (ranges_in_length n b Hri) as Hlen.
  pose proof (zlen_nonneg (MissingSequenceNums b)) as H0n.
  destruct (decide (zlen (MissingSequenceNums b) = 0)) as [E|E].
  - assert (Hnil : MissingSequenceNums b = []) by (apply nil_length_inv; unfold zlen in E; lia).
    rewrite Hnil in Hlen. symmetry in Hlen. apply nil_length_inv in Hlen.
    destruct (Hctl [(0, 0)]) as (ds & He & Hds); [done|by repeat constructor|].
    cbn in He. apply Forall2_cons_inv_l in He as (d & ds' & He & Hnil' & ->). inversion Hnil'; subst.
    apply (Hnext [d] Hds). by apply (request_loop_empty 52 b c rid w d).
  - destruct (Hctl (batches 53 0 (zlen (MissingSequenceNums b)))) as (ds & He & Hds).
    { pose proof (batches_fuel 53 0 (zlen (MissingSequenceNums b))). unfold zlen at 1. lia. }
    { eapply Forall_impl; [apply batches_bounds; lia|]. intros [s e] ?. lia. }
    apply (Hnext ds Hds). apply (request_loop_eq 53 q b c _ 0 0 1 rid w ds Hr); try done.
    + lia.
    + unfold zlen. by rewrite Hlen.
    + change (Z.of_nat 53) with 53. lia.
    + apply loopback_writes.
Qed.

End invariants.
