(* ===== verification/SystemSpec.v ===== *)
(** * SystemSpec: what a transfer promises

    The abstract transfer of a part, and that the system of a sender, a
    receiver and a network that loses, repeats and reorders datagrams refines
    it, whatever the order of its turns. *)

From S2P Require Import Prelude Utils Interface Packer PartContext Reassembly Metrics Dataplane Loopback Transfer.
From S2P Require Import Arrivals Retransfer RateControl Handshake Gob GobMessages ControlPlane Requests Acks PartsConn Repair System SystemInv.

(** ** The abstract transfer *)

(** The packets that [Read] was given, in their order, those of them whose
    bytes the receiver has taken over, and which of the two calls have
    returned. *)
Record transfer : Type := mkTransfer {
  taken : list Z;
  accepted : gset Z;
  read_done : bool;
  write_done : bool;
}.

(** Each datagram that is read is a packet of the part.  It is accepted, or it
    is refused, but only once some packet was read twice.  [Read] returns after
    [n] datagrams, [Write] after [Read]. *)
Inductive transfer_step (n : Z) : transfer -> transfer -> Prop :=
| transfer_accepts x t :
    1 <= x <= n -> zlen (taken t) < n -> read_done t = false ->
    transfer_step n t (mkTransfer (taken t ++ [x]) ({[x]} ∪ accepted t) false (write_done t))
| transfer_refuses x t :
    1 <= x <= n -> zlen (taken t) < n -> read_done t = false -> ~ NoDup (taken t ++ [x]) ->
    transfer_step n t (mkTransfer (taken t ++ [x]) (accepted t) false (write_done t))
| transfer_read_returns t :
    zlen (taken t) = n -> read_done t = false ->
    transfer_step n t (mkTransfer (taken t) (accepted t) true (write_done t))
| transfer_write_returns t :
    read_done t = true ->
    transfer_step n t (mkTransfer (taken t) (accepted t) true true).

Definition new_transfer : transfer := mkTransfer [] ∅ false false.

(** What the abstract transfer promises. *)
Record transfer_ok (n : Z) (t : transfer) : Prop := {
  tf_packets : forall x, x ∈ taken t -> 1 <= x <= n;
  tf_accepted : forall x, x ∈ accepted t -> x ∈ taken t;
  tf_fresh : NoDup (taken t) -> accepted t = list_to_set (taken t);
  tf_count : zlen (taken t) <= n;
  tf_read : read_done t = true -> zlen (taken t) = n;
  tf_write : write_done t = true -> read_done t = true;
}.

Lemma zlen_snoc {A} (l : list A) x : zlen (l ++ [x]) = zlen l + 1.
Proof. unfold zlen. rewrite length_app. cbn. lia. Qed.

Lemma transfer_step_ok n t t' : transfer_step n t t' -> transfer_ok n t -> transfer_ok n t'.
Proof.
  intros Hs [Hp Ha Hf Hk Hrd Hw].
  destruct Hs as [x t Hx Hc Hr|x t Hx Hc Hr Hdup|t Hc Hr|t Hr]; split; cbn; try done; rewrite ?zlen_snoc; try lia;
    try (intros E; by rewrite (Hw E) in Hr); try (intros _; by apply Hrd).
  - intros y [Hy| ->%list_elem_of_singleton]%elem_of_app; auto.
  - intros y [->%elem_of_singleton|Hy%Ha]%elem_of_union; apply elem_of_app; [by right; left|by left].
  - intros (Hnd & _ & _)%NoDup_app. rewrite list_to_set_app_L, (Hf Hnd). cbn. rewrite union_empty_r_L. by rewrite (comm_L (∪)).
  - intros y [Hy| ->%list_elem_of_singleton]%elem_of_app; auto.
  - intros y Hy%Ha. apply elem_of_app. by left.
Qed.

Lemma transfers_ok n t : 0 <= n -> rtc (transfer_step n) new_transfer t -> transfer_ok n t.
Proof.
  intros Hn Hs. assert (H0 : transfer_ok n new_transfer).
  { split; cbn; try done. intros x Hx. by apply elem_of_nil in Hx. }
  induction Hs as [|t t1 t2 Hs _ IH]; [done|]. apply IH. by eapply transfer_step_ok.
Qed.

(** When [Read] returns and no packet came twice, every packet is there. *)
Lemma all_accepted n t :
  transfer_ok n t -> read_done t = true -> NoDup (taken t) -> forall x, 1 <= x <= n -> x ∈ accepted t.
Proof.
  intros [Hp _ Hf _ Hr _] Hrd Hnd x Hx. rewrite (Hf Hnd), elem_of_list_to_set.
  assert (Hperm : taken t ≡ₚ seqZ 1 n).
  { apply submseteq_length_Permutation.
    - apply NoDup_submseteq; [done|]. intros y Hy%Hp. apply elem_of_seqZ. lia.
    - rewrite length_seqZ. specialize (Hr Hrd). unfold zlen in Hr. lia. }
  rewrite Hperm, elem_of_seqZ. lia.
Qed.

(** ** The system refines it *)

Section refinement.
Context `{PartsPacketPackerSpec} `{GobSpec}.
Variables (pid pl n m : Z) (data init : list byte) (p q : nat).
Hypothesis Hfits : part_fits pid pl n m.

Abbreviation sender_inv := (sender_inv pid pl n data p).
Abbreviation receiver_inv := (receiver_inv pid pl n m data init q).

(** The ranges [vs] are those from the [i]-th on when the pass began. *)
Definition to_send (b : PartContext) (vs : list Z) (i : Z) : Prop :=
  exists pre more, MissingSequenceNums b = pre ++ vs ++ more /\ i = zlen pre.

(** Where the writer is, once [Read] returned when [finished], with the handler
    going on when [h]. *)
Definition writer_at (finished : Prop) (h : bool) (w : world link string ControlPlane) (b : PartContext) (pc : sender_pc) : Prop :=
  let goes := partContext (dp w) = Some p /\ (h = true -> state (dp w) = DP_STATE_RETRANSFER) in
  match pc with
  | WriteStarts => currentSequenceNumber b = 0
  | Writing k i _ => partContext (dp w) = Some p /\ 0 <= i /\ i + Z.of_nat k = n /\ currentSequenceNumber b = i
  | Retransferring _ => goes
  | Ranging vs i _ => goes /\ to_send b vs i
  | Resending k v j vs i _ => goes /\ to_send b vs i /\ 1 <= v /\ 0 <= j /\ v + j + Z.of_nat k <= n + 1
  | WriteReturned _ err => err = None /\ finished
  | WriteHangs => False
  end.

(** The system while the abstract transfer is at [t]. *)
Record inv (t : transfer) (s : system) : Prop := {
  iv_sender : exists b c, sender_inv (read_done t = true) (sender s) b c /\
    writer_at (read_done t = true) (handler s) (sender s) b (s_pc s);
  iv_handler : handler s = false -> read_done t = true;
  iv_holds : holds n (read_done t = true) (in_channel (acks s));
  iv_receiver : exists b c, receiver_inv (read_done t = true) (accepted t) (receiver s) b c /\
    exact (taken t) (accepted t) b;
  iv_reader : match r_pc s with
    | ReadStarts => receiver_ok q (owner (receiver s)) /\ taken t = [] /\ read_done t = false
    | Reading k i _ => 0 <= i /\ i + Z.of_nat k = n /\ receiver_ok q (owner (receiver s)) /\
        zlen (taken t) = i /\ read_done t = false
    | ReadReturned err => err = None /\ read_done t = true
    | ReadHangs => read_done t = false
    end;
  iv_writer : write_done t = match s_pc s with WriteReturned _ _ => true | _ => false end;
  iv_request_id : in_i64 (request_id s);
}.

(** A turn is idle or leads to a system of the next abstract transfer, which
    was given the datagrams of the turn. *)
Definition goes_on (t : transfer) (ds : list (list byte)) (e : effect) : Prop :=
  match e with
  | Idle => True
  | Next s => exists t', rtc (transfer_step n) t t' /\ inv t' s /\
      packet pid pl data <$> taken t' = (packet pid pl data <$> taken t) ++ ds
  | Crash _ | OutOfFuel => False
  end.

Lemma goes_on_same t s : inv t s -> goes_on t [] (Next s).
Proof. intros Hi. exists t. by rewrite app_nil_r. Qed.

Lemma goes_on_once t t' s ds :
  transfer_step n t t' -> inv t' s -> packet pid pl data <$> taken t' = (packet pid pl data <$> taken t) ++ ds ->
  goes_on t ds (Next s).
Proof. intros Ht Hi Hd. exists t'. split; [by apply rtc_once|done]. Qed.

Lemma writer_at_moves finished h w w' b pc :
  same_plane w w' -> writer_at finished h w b pc -> writer_at finished h w' b pc.
Proof. intros [Hs Hp]. unfold writer_at. rewrite Hs, Hp. done. Qed.

Lemma writer_at_weaken (F F' : Prop) h w b pc : (F -> F') -> writer_at F h w b pc -> writer_at F' h w b pc.
Proof. intros HF. destruct pc; try done. cbn. tauto. Qed.

Lemma to_send_more b vs i more : to_send b vs i -> forall b', MissingSequenceNums b' = MissingSequenceNums b ++ more -> to_send b' vs i.
Proof. intros (pre & more1 & E & Hi) b' Hb'. exists pre, (more1 ++ more). by rewrite Hb', E, <- !app_assoc. Qed.

(** The writer's turns leave the system as it is apart from the writer. *)
Lemma writer_moves t s w' pc b c :
  inv t s -> write_done t = false -> sender_inv (read_done t = true) w' b c ->
  writer_at (read_done t = true) (handler s) w' b pc -> (forall k err, pc <> WriteReturned k err) ->
  goes_on t [] (Next (mkSystem w' pc (acks s) (receiver s) (r_pc s) (request_id s))).
Proof.
  intros [_ Hh Hho Hr Hrd Hw Hid] Hwd Hs Hpc Hne. apply goes_on_same. split; try done; [by exists b, c|].
  cbn. rewrite Hwd. destruct pc; try done. by destruct (Hne n0 err).
Qed.

Lemma sender_inv_plane finished w b c d :
  sender_inv finished w b c -> Conn d = Conn (dp w) -> sender_inv finished (set_dp d w) b c.
Proof. intros [] E. split; try done. cbn. by rewrite E. Qed.

Lemma WriteTurn_inv t s : inv t s -> goes_on t [] (perform p q WriteTurn s).
Proof.
  intros Hi. pose proof Hi as [(b & c & Hs & Hpc) Hh Hho Hr Hrd Hw Hid]. cbn [perform thread_turn].
  destruct (s_pc s) as [|[|k] i n0|n0|[|v vs] i n0|[|k] v j vs i n0|n0 err|] eqn:Epc; cbn [write_turn thread_turn]; try done;
    cbn [writer_at] in Hpc.
  - rewrite bind_modify. set (w1 := set_dp _ _).
    assert (Hs1 : sender_inv (read_done t = true) w1 b c) by by apply sender_inv_plane.
    rewrite (bind_Done _ _ _ _ _ (at_part_gets p NumPackets w1 b (se_here _ _ _ _ _ _ _ _ _ Hs1))), ret_Done.
    pose proof (pf_packets _ _ _ _ Hfits). rewrite (sn_packets _ _ _ _ _ (se_part _ _ _ _ _ _ _ _ _ Hs1)).
    apply (writer_moves t s w1 _ b c); try done. cbn. rewrite Z2Nat.id by lia. split_and!; (done || lia).
  - rewrite bind_modify, ret_Done. apply (writer_moves t s _ _ b c); try done; [by apply sender_inv_plane|].
    cbn. split; [apply Hpc|done].
  - destruct Hpc as (Hp & Hi0 & Hk & Hseq).
    destruct (WritePart_one pid pl n m data p Hfits _ _ b c i k n0 Hs Hi0 Hk Hseq)
      as (n1 & w1 & b1 & c1 & Hrun & Hs1 & Hseq1 & _ & Hp1).
    rewrite (bind_Done _ _ _ _ _ Hrun), ret_Done. apply (writer_moves t s _ _ b1 c1); try done.
    cbn. rewrite Hp1. split_and!; (done || lia).
  - destruct Hpc as [Hp Hst]. rewrite bind_gets.
    destruct (Z.eqb_spec (state (dp (sender s))) DP_STATE_RETRANSFER) as [E|E]; cbn [negb].
    + rewrite (bind_Done _ _ _ _ _ (current_part_eq (sender s) p Hp)).
      rewrite (bind_Done _ _ _ _ _ (at_part_gets p MissingSequenceNums (sender s) b (se_here _ _ _ _ _ _ _ _ _ Hs))), ret_Done.
      apply (writer_moves t s _ _ b c); try done. cbn. split; [done|]. exists [], []. by rewrite app_nil_r.
    + rewrite ret_Done. assert (Hd : read_done t = true).
      { apply Hh. destruct (handler s); [|done]. by destruct E; apply Hst. }
      eapply goes_on_once; [by apply transfer_write_returns| |by rewrite app_nil_r]. split; cbn; try done.
      * exists b, c. split; [|done]. eapply sender_inv_weaken; [|exact Hs]. done.
      * eapply holds_weaken; [|exact Hho]. done.
      * destruct Hr as (br & cr & Hr & Hex). exists br, cr. split; [|done]. eapply receiver_inv_weaken; [|exact Hr]. done.
      * destruct (r_pc s); [|destruct Hrd as (_ & _ & _ & _ & Hf); by rewrite Hf in Hd|by destruct Hrd|by rewrite Hrd in Hd].
        destruct Hrd as (_ & _ & Hf). by rewrite Hf in Hd.
  - destruct Hpc as [[Hp Hst] Hto]. rewrite (bind_Done _ _ _ _ _ (current_part_eq (sender s) p Hp)).
    destruct (reset_inv pid pl n data p _ _ b c Hs) as (w1 & Hrun & Hs1 & Hst1 & Hp1).
    rewrite (bind_Done _ _ _ _ _ Hrun), ret_Done. apply (writer_moves t s _ _ (set_Missing [] [] b) c); try done.
    cbn. by rewrite Hst1, Hp1.
  - destruct Hpc as [[Hp Hst] (pre & more & E & Hi0)].
    destruct (in_part_range pid pl n data b pre v (vs ++ more) (se_part _ _ _ _ _ _ _ _ _ Hs) E) as (off & Hoff & Hv & Ho & Hle).
    rewrite (proj2 (Z.eqb_neq v 0)) by lia. rewrite (bind_Done _ _ _ _ _ (current_part_eq (sender s) p Hp)).
    rewrite (bind_Done _ _ _ _ _ (at_part_gets p MissingSequenceNumOffsets (sender s) b (se_here _ _ _ _ _ _ _ _ _ Hs))).
    rewrite Hi0, Hoff, ret_Done. apply (writer_moves t s _ _ b c); try done. cbn. split; [done|]. split; [|lia].
    exists (pre ++ [v]), more. rewrite zlen_snoc. by rewrite <- app_assoc.
  - rewrite ret_Done. apply (writer_moves t s _ _ b c); try done. cbn. tauto.
  - destruct Hpc as [[Hp Hst] (Hto & Hv & Hj & Hle)].
    destruct (resend_inv pid pl n m data p Hfits _ _ b c v j Hs Hp Hv Hj ltac:(lia)) as (w1 & c1 & Hrun & Hs1 & Hst1 & Hp1).
    rewrite (bind_Done _ _ _ _ _ Hrun), ret_Done. apply (writer_moves t s _ _ b c1); try done.
    cbn. rewrite Hst1, Hp1. split; [done|]. split; [done|lia].
Qed.

Lemma waits_rx (w : world link string ControlPlane) c : Conn (dp w) = Some c -> waits w = false -> rx c <> [].
Proof. unfold waits. intros ->. apply bool_decide_eq_false. Qed.

Lemma AckReadTurn_inv t s : inv t s -> goes_on t [] (perform p q AckReadTurn s).
Proof.
  intros [(b & c & Hs & Hpc) Hh Hho Hr Hrd Hw Hid]. cbn [perform]. destruct (waits (sender s)) eqn:Ew; [done|].
  assert (Hne : rx c <> []) by (eapply waits_rx; [apply Hs|done]).
  unfold reader_turn. destruct (in_channel (acks s)); cbn [thread_turn]; [done|].
  destruct (read_ack_inv pid pl n data p _ _ b c Hs Hne) as (r & w1 & c1 & Hrun & Hr1 & Hs1 & Hpl1).
  rewrite (bind_Done _ _ _ _ _ Hrun), ret_Done. apply goes_on_same. split; try done.
  exists b, c1. split; [done|]. by eapply writer_at_moves.
Qed.

Lemma AckTurn_inv t s : inv t s -> goes_on t [] (perform p q AckTurn s).
Proof.
  intros [(b & c & Hs & Hpc) Hh Hho Hr Hrd Hw Hid]. cbn [perform]. unfold handler_turn, handler in *.
  destruct (handling (acks s)) eqn:Eh; [|done]. destruct (in_channel (acks s)) as [r|]; cbn [thread_turn]; [|done].
  destruct (handle_read_inv pid pl n m data p Hfits _ _ b c r Hs Hho) as (w1 & b1 & Hs1 & Hseq & Hp1 & (more & Hmore) & Hcase).
  assert (Hat : forall h, (h = true -> state (dp w1) = state (dp (sender s))) ->
    writer_at (read_done t = true) h w1 b1 (s_pc s)).
  { intros h Hst. destruct (s_pc s); cbn [writer_at] in *; rewrite ?Hp1, ?Hseq; try done.
    - split; [apply Hpc|]. intros Hht. rewrite (Hst Hht). by apply Hpc.
    - split; [split; [apply Hpc|intros Hht; rewrite (Hst Hht); by apply Hpc]|]. by eapply to_send_more; [apply Hpc|].
    - split; [split; [apply Hpc|intros Hht; rewrite (Hst Hht); by apply Hpc]|]. split; [by eapply to_send_more; [apply Hpc|]|apply Hpc]. }
  destruct Hcase as [[Hrun Hst]|[Hd [Hrun|Hrun]]].
  - rewrite (bind_Done _ _ _ _ _ Hrun), ret_Done. apply goes_on_same. split; try done. exists b1, c. split; [done|]. by apply Hat.
  - rewrite (bind_Done _ _ _ _ _ Hrun), ret_Done. apply goes_on_same. split; try done. exists b1, c. split; [done|]. by apply Hat.
  - rewrite (bind_Blocked _ _ _ _ Hrun). apply goes_on_same. split; try done. exists b1, c. split; [done|]. by apply Hat.
Qed.

Lemma ReadTurn_inv t s : inv t s -> goes_on t (datagram_read ReadTurn s) (perform p q ReadTurn s).
Proof.
  intros [(bs & cs & Hs & Hpc) Hh Hho (b & c & Hr & Hex) Hrd Hw Hid]. cbn [perform datagram_read].
  rewrite (re_conn _ _ _ _ _ _ _ _ _ _ _ _ Hr).
  destruct (r_pc s) as [|[|k] i n0|err|] eqn:Epc; cbn [read_turn read_waits thread_turn]; try done.
  - destruct Hrd as (Hok & Ht & Hd).
    rewrite (bind_Done _ _ _ _ _ (at_part_gets q NumPackets (receiver s) b (re_part _ _ _ _ _ _ _ _ _ _ _ _ Hr))), ret_Done.
    rewrite (rp_packets _ _ _ _ _ _ _ _ (re_fits _ _ _ _ _ _ _ _ _ _ _ _ Hr)). pose proof (pf_packets _ _ _ _ Hfits).
    apply goes_on_same. split; cbn; try done; [by exists bs, cs|by exists b, c|].
    rewrite Ht, Z2Nat.id by lia. by split_and!.
  - destruct Hrd as (Hi & Hk & Hok & Hc & Hd).
    assert (Hr' : receiver_inv True (accepted t) (receiver s) b c) by (eapply receiver_inv_weaken; [|exact Hr]; done).
    destruct (FinishReadpart_inv pid pl n m data init q Hfits True (accepted t) _ b c Hr' Hok I) as (w1 & c1 & Hrun & Hr1).
    rewrite (bind_Done _ _ _ _ _ Hrun), ret_Done.
    eapply goes_on_once; [apply transfer_read_returns; [lia|done]| |by rewrite app_nil_r]. split; cbn; try done.
    + exists bs, cs. split; [eapply sender_inv_weaken; [|exact Hs]; done|]. by eapply writer_at_weaken; [|exact Hpc].
    + by eapply holds_weaken; [|exact Hho].
    + exists b, c1. split; [|done]. by eapply receiver_inv_weaken; [|exact Hr1].
  - destruct (waits (receiver s)) eqn:Ew; [done|]. destruct Hrd as (Hi & Hk & Hok & Hc & Hd).
    assert (Hne : rx c <> []) by (eapply waits_rx; [apply Hr|done]).
    destruct (ReadPart_one pid pl n m data init q Hfits _ _ _ _ b c i k n0 Hr Hex Hok Hne Hi Hk)
      as (x & w1 & b1 & c1 & R1 & Hx & Hxn & Hr1 & Hex1 & Hok1 & HR1 & Hcase).
    rewrite Hx.
    set (t1 := mkTransfer (taken t ++ [x]) R1 false (write_done t)).
    assert (Ht1 : transfer_step n t t1).
    { destruct HR1 as [->|[-> Hdup]]; [apply transfer_accepts|apply transfer_refuses]; (done || lia). }
    assert (Hgiven : packet pid pl data <$> taken t1 = (packet pid pl data <$> taken t) ++ [packet pid pl data x])
      by (unfold t1; cbn; by rewrite fmap_app).
    rewrite Hd in *.
    destruct Hcase as [(Hrun & _ & _)|(n1 & Hrun)].
    + rewrite (bind_Blocked _ _ _ _ Hrun). eapply goes_on_once; [exact Ht1| |exact Hgiven]. split; cbn; try done.
      * by exists bs, cs.
      * by exists b1, c1.
    + rewrite (bind_Done _ _ _ _ _ Hrun), ret_Done. eapply goes_on_once; [exact Ht1| |exact Hgiven]. split; cbn; try done.
      * by exists bs, cs.
      * by exists b1, c1.
      * rewrite zlen_snoc. split_and!; (done || lia).
Qed.

Lemma RequestTurn_inv t s : inv t s -> goes_on t [] (perform p q RequestTurn s).
Proof.
  intros [Hs Hh Hho (b & c & Hr & Hex) Hrd Hw Hid]. cbn [perform].
  assert (Htick : receiver_ok q (owner (receiver s)) -> goes_on t []
    (match requestRetransfers_tick 53 1 (request_id s) (receiver s) with
     | Done (Some id) w => Next (mkSystem (sender s) (s_pc s) (acks s) w (r_pc s) id)
     | Done None _ => OutOfFuel
     | Blocked w => Next (mkSystem (sender s) (s_pc s) (acks s) w ReadHangs (request_id s))
     | Faulted f => Crash f
     end)).
  { intros Hok.
    destruct (tick_inv pid pl n m data init q Hfits _ _ _ b c (request_id s) Hr Hok Hid) as (rid & w1 & c1 & Hrun & Hrid & Hr1 & Ho).
    rewrite Hrun. apply goes_on_same. split; cbn; try done; [by exists b, c1|]. by rewrite Ho. }
  destruct (r_pc s) as [|k i n0|err|] eqn:Epc; [| |done|done]; apply Htick; apply Hrd.
Qed.

Lemma ToReceiver_inv t s d : inv t s -> goes_on t [] (perform p q (ToReceiver d) s).
Proof.
  intros [(bs & cs & Hs & Hpc) Hh Hho (b & c & Hr & Hex) Hrd Hw Hid]. cbn [perform].
  case_bool_decide as Hin; [|done]. apply goes_on_same. unfold arrive. rewrite (re_conn _ _ _ _ _ _ _ _ _ _ _ _ Hr).
  unfold written in Hin. rewrite (se_conn _ _ _ _ _ _ _ _ _ Hs) in Hin.
  pose proof (se_tx _ _ _ _ _ _ _ _ _ Hs) as Htx. rewrite Forall_forall in Htx. specialize (Htx _ Hin).
  split; cbn; try done; [by exists bs, cs|]. exists b, (mkLink (rx c ++ [d]) (tx c)).
  split; [|done]. destruct Hr. split; try done. apply Forall_app. split; [done|]. by apply Forall_singleton.
Qed.

Lemma ToSender_inv t s d : inv t s -> goes_on t [] (perform p q (ToSender d) s).
Proof.
  intros [(bs & cs & Hs & Hpc) Hh Hho (b & c & Hr & Hex) Hrd Hw Hid]. cbn [perform].
  case_bool_decide as Hin; cbn [andb]; [|done]. destruct (Z.leb_spec (zlen d) PACKET_SIZE) as [Hle|]; [|done].
  apply goes_on_same. unfold arrive. rewrite (se_conn _ _ _ _ _ _ _ _ _ Hs).
  unfold written in Hin. rewrite (re_conn _ _ _ _ _ _ _ _ _ _ _ _ Hr) in Hin.
  pose proof (re_tx _ _ _ _ _ _ _ _ _ _ _ _ Hr) as Htx. rewrite Forall_forall in Htx. specialize (Htx _ Hin).
  split; cbn; try done; [|by exists b, c]. exists bs, (mkLink (rx cs ++ [d]) (tx cs)).
  split; [|by eapply writer_at_moves; [|exact Hpc]]. destruct Hs. split; try done;
    (apply Forall_app; split; [done|by apply Forall_singleton]).
Qed.

Lemma perform_inv t s a : inv t s -> goes_on t (datagram_read a s) (perform p q a s).
Proof.
  destruct a; eauto using WriteTurn_inv, AckReadTurn_inv, AckTurn_inv, ReadTurn_inv, RequestTurn_inv, ToReceiver_inv, ToSender_inv.
Qed.

Lemma steps_inv t s s' : inv t s -> rtc (step p q) s s' -> exists t', inv t' s'.
Proof.
  intros Hi Hs. induction Hs as [s|s s1 s' (a & Ha) _ IH] in t, Hi |- *; [by exists t|].
  pose proof (perform_inv t s a Hi) as Hgo. rewrite Ha in Hgo. destruct Hgo as (t1 & _ & Hi1 & _). by apply (IH t1).
Qed.

Lemma play_inv t s turns s' :
  inv t s -> play p q turns s = Next s' ->
  exists t', rtc (transfer_step n) t t' /\ inv t' s' /\
    packet pid pl data <$> taken t' = (packet pid pl data <$> taken t) ++ datagrams_read p q turns s.
Proof.
  intros Hi. induction turns as [|a turns IH] in t, s, Hi |- *; cbn [play datagrams_read].
  { intros [= <-]. exists t. by rewrite app_nil_r. }
  pose proof (perform_inv t s a Hi) as Hgo. destruct (perform p q a s) as [| | |s1]; try done. intros Hp.
  destruct Hgo as (t1 & Ht1 & Hi1 & Hd1). destruct (IH t1 s1 Hi1 Hp) as (t' & Ht' & Hi' & Hd').
  exists t'. split; [by etrans|]. split; [done|]. by rewrite Hd', Hd1, app_assoc.
Qed.

(** Both ends after the handshake: nothing is sent or read yet, and neither
    call has begun. *)
Record starts (s : system) : Prop := {
  st_sender : exists b, parts (sender s) !! p = Some b /\ Conn (dp (sender s)) = Some (mkLink [] []) /\
    sender_part pid pl n data b /\ currentSequenceNumber b = 0;
  st_writer : s_pc s = WriteStarts;
  st_sender_owner : sender_ok p (owner (sender s));
  st_acks : acks s = mkAckThreads true None;
  st_receiver : exists b, parts (receiver s) !! q = Some b /\ Conn (dp (receiver s)) = Some (mkLink [] []) /\
    receiver_ready b /\ PartId b = pid /\ PayloadLength b = pl /\ NumPackets b = n /\ MaxPacketLength b = m /\
    Data b = init /\ length init = length data;
  st_reader : r_pc s = ReadStarts;
  st_owner : receiver_ok q (owner (receiver s));
  st_request_id : in_i64 (request_id s);
}.

Lemma starts_inv s : starts s -> inv new_transfer s.
Proof.
  intros [(b & Hb & Hc & Hsp & Hseq) Hw Hso Ha (br & Hbr & Hcr & Hrr & Hid & Hpl & Hn & Hm & Hd & Hl) Hr Ho Hq]. split.
  - exists b, (mkLink [] []). rewrite Hw. split; [|done]. by split.
  - unfold handler. by rewrite Ha.
  - by rewrite Ha.
  - exists br, (mkLink [] []). destruct Hrr. pose proof (pf_packets _ _ _ _ Hfits).
    assert (Hmiss : missing_inv ∅ br).
    { unfold missing_inv. rewrite rr_highest, rr_nums, rr_offs. split; [split; [done|by left]|]. exists [].
      cbn. split_and!; [lia|done|done]. }
    split; [|intros _; split; [done|exact Hmiss]].
    split; try done. split; try done; [|by rewrite <- Hn, <- Hm]. split; try done.
    + eapply missing_ranges_in; [exact Hmiss|]. rewrite rr_highest. lia.
    + rewrite Hpl, <- Hd. apply data_inv_init. by rewrite Hd.
  - by rewrite Hr.
  - by rewrite Hw.
  - done.
Qed.

(** How a system shows an abstract transfer: the packets [Read] has taken so
    far, which calls have returned, both without an error, and the bytes at
    the receiver. *)
Record shows (t : transfer) (s : system) : Prop := {
  sh_reading : forall k i n0, r_pc s = Reading k i n0 -> zlen (taken t) = i /\ i + Z.of_nat k = n;
  sh_read : forall err, r_pc s = ReadReturned err <-> err = None /\ read_done t = true;
  sh_write : (exists k err, s_pc s = WriteReturned k err) <-> write_done t = true;
  sh_write_error : forall k err, s_pc s = WriteReturned k err -> err = None;
  sh_data : exists b, parts (receiver s) !! q = Some b /\ length (Data b) = length data /\
    forall j : nat, Data b !! j = if decide (Z.of_nat j / pl + 1 ∈ accepted t) then data !! j else init !! j;
}.

Lemma inv_shows t s : inv t s -> shows t s.
Proof.
  intros [(b & c & Hs & Hpc) Hh Hho (br & cr & Hr & Hex) Hrd Hw Hid]. split.
  - intros k i n0 E. rewrite E in Hrd. destruct Hrd as (_ & Hk & _ & Hi & _). done.
  - intros err. destruct (r_pc s) as [|k i n0|err'|].
    + destruct Hrd as (_ & _ & ->). by split; [|intros [_ ?]].
    + destruct Hrd as (_ & _ & _ & _ & ->). by split; [|intros [_ ?]].
    + destruct Hrd as [-> ->]. split; [by intros [= <-]|by intros [-> _]].
    + rewrite Hrd. by split; [|intros [_ ?]].
  - rewrite Hw. destruct (s_pc s); split; try done; try (intros (? & ? & ?); done). intros _. by do 2 eexists.
  - intros k err E. rewrite E in Hpc. by destruct Hpc.
  - exists br. destruct Hr as [Hb _ [[_ _ _ _ [Hl Hd]] _ <- _ _ _] _ _]. done.
Qed.

(** C2: the whole transfer, from the first lines of both calls on, under every
    interleaving of its goroutines and every behaviour of the network (packets
    and control packets lost, repeated, late, out of order), is an abstract
    transfer whose packets are the datagrams [Read] took from its connection,
    in their order.  Each is a packet of the part; its bytes become the
    receiver's, and it is refused only when some packet was read twice.  The
    bytes of the receiver are the sender's in the packets it accepted and its
    own elsewhere.  [Read] returns after as many datagrams as the part has
    packets, [Write] only after [Read], both without error; and when [Read]
    returned and was not given the same packet twice, the receiver holds the
    sender's data. *)
Theorem system_refines_transfer s0 turns s :
  starts s0 -> play p q turns s0 = Next s ->
  exists t, rtc (transfer_step n) new_transfer t /\ transfer_ok n t /\ shows t s /\
    packet pid pl data <$> taken t = datagrams_read p q turns s0 /\
    (r_pc s = ReadReturned None -> NoDup (datagrams_read p q turns s0) ->
     exists b, parts (receiver s) !! q = Some b /\ Data b = data).
Proof.
  intros Hst Hs. pose proof (pf_packets _ _ _ _ Hfits) as HN.
  destruct (play_inv new_transfer s0 turns s (starts_inv s0 Hst) Hs) as (t & Ht & Hi & Hgiven).
  pose proof (transfers_ok n t ltac:(lia) Ht) as Hok. pose proof (inv_shows t s Hi) as Hsh.
  exists t. split; [done|]. split; [done|]. split; [done|]. split; [exact Hgiven|]. intros Hr Hnd.
  apply (sh_read t s Hsh) in Hr as [_ Hr]. change (packet pid pl data <$> taken t = datagrams_read p q turns s0) in Hgiven.
  rewrite <- Hgiven in Hnd. apply NoDup_fmap_1 in Hnd.
  destruct (iv_receiver t s Hi) as (b & c & [Hb _ [[Hg _ _ _ Hd] _ Hpl Hn _ _] _ _] & _).
  exists b. split; [done|]. destruct Hg as (Hpos & _ & Hceil).
  eapply data_inv_complete; [exact (proj1 Hpos)| |exact Hd]. intros x Hx.
  apply (all_accepted n t); [done|done|done|]. destruct Hd as [Hl _]. unfold zlen in *. rewrite Hl, Hn in Hceil. lia.
Qed.

(** C4: in no reachable state, whatever the network delivered, does a turn of
    one of the goroutines panic or divide by zero, nor does a tick of
    requestRetransfers go on for ever, and [Write] never hangs at a channel or
    a lock. *)
Theorem system_safe s0 s a :
  starts s0 -> rtc (step p q) s0 s ->
  (forall f, perform p q a s <> Crash f) /\ perform p q a s <> OutOfFuel /\ s_pc s <> WriteHangs.
Proof.
  intros Hst Hs. destruct (steps_inv new_transfer s0 s (starts_inv s0 Hst) Hs) as (t & Hi).
  pose proof (perform_inv t s a Hi) as Hgo. destruct Hi as [(b & c & _ & Hpc) _ _ _ _ _ _].
  destruct (perform p q a s); try done; (split; [done|split; [done|by intros E; rewrite E in Hpc]]).
Qed.

(** The handler has ended and the writer will not look at the state again
    before it sets it. *)
Definition forgotten (s : system) : Prop :=
  handler s = false /\
  match s_pc s with
  | WriteStarts | Writing _ _ _ => True
  | Retransferring _ | Ranging _ _ _ | Resending _ _ _ _ _ _ => state (dp (sender s)) = DP_STATE_RETRANSFER
  | _ => False
  end.

Lemma forgotten_write t s s' : inv t s -> forgotten s -> perform p q WriteTurn s = Next s' -> forgotten s'.
Proof.
  intros [(b & c & Hs & Hpc) _ _ _ _ _ _] [Hh Hf] Ha. cbn [perform] in Ha.
  cut (handler s' = handler s /\ match s_pc s' with
    | WriteStarts | Writing _ _ _ => True
    | Retransferring _ | Ranging _ _ _ | Resending _ _ _ _ _ _ => state (dp (sender s')) = DP_STATE_RETRANSFER
    | _ => False
    end); [by unfold forgotten; intros [-> ?]|].
  destruct (s_pc s) as [|[|k] i n0|n0|[|v vs] i n0|[|k] v j vs i n0|n0 err|] eqn:Epc; cbn [write_turn thread_turn] in Ha; try done;
    cbn [writer_at] in Hpc.
  - rewrite bind_modify in Ha. set (w1 := set_dp _ _) in Ha.
    rewrite (bind_Done _ _ _ _ _ (at_part_gets p NumPackets w1 b (se_here _ _ _ _ _ _ _ _ _ Hs))), ret_Done in Ha. by injection Ha as <-.
  - rewrite bind_modify, ret_Done in Ha. by injection Ha as <-.
  - destruct Hpc as (Hp & Hi0 & Hk & Hseq).
    destruct (WritePart_one pid pl n m data p Hfits _ _ b c i k n0 Hs Hi0 Hk Hseq) as (n1 & w1 & b1 & c1 & Hrun & _).
    rewrite (bind_Done _ _ _ _ _ Hrun), ret_Done in Ha. by injection Ha as <-.
  - destruct Hpc as [Hp _]. rewrite bind_gets, Hf in Ha. cbn [negb Z.eqb Pos.eqb DP_STATE_RETRANSFER] in Ha.
    rewrite (bind_Done _ _ _ _ _ (current_part_eq (sender s) p Hp)) in Ha.
    rewrite (bind_Done _ _ _ _ _ (at_part_gets p MissingSequenceNums (sender s) b (se_here _ _ _ _ _ _ _ _ _ Hs))), ret_Done in Ha.
    by injection Ha as <-.
  - destruct Hpc as [[Hp _] _]. rewrite (bind_Done _ _ _ _ _ (current_part_eq (sender s) p Hp)) in Ha.
    destruct (reset_inv pid pl n data p _ _ b c Hs) as (w1 & Hrun & _ & Hst1 & _).
    rewrite (bind_Done _ _ _ _ _ Hrun), ret_Done in Ha. injection Ha as <-. split; [done|]. cbn. by rewrite Hst1.
  - destruct Hpc as [[Hp _] (pre & more & E & Hi0)].
    destruct (in_part_range pid pl n data b pre v (vs ++ more) (se_part _ _ _ _ _ _ _ _ _ Hs) E) as (off & Hoff & Hv & Ho & Hle).
    rewrite (proj2 (Z.eqb_neq v 0)) in Ha by lia. rewrite (bind_Done _ _ _ _ _ (current_part_eq (sender s) p Hp)) in Ha.
    rewrite (bind_Done _ _ _ _ _ (at_part_gets p MissingSequenceNumOffsets (sender s) b (se_here _ _ _ _ _ _ _ _ _ Hs))) in Ha.
    rewrite Hi0, Hoff, ret_Done in Ha. by injection Ha as <-.
  - rewrite ret_Done in Ha. by injection Ha as <-.
  - destruct Hpc as [[Hp _] (Hto & Hv & Hj & Hle)].
    destruct (resend_inv pid pl n m data p Hfits _ _ b c v j Hs Hp Hv Hj ltac:(lia)) as (w1 & c1 & Hrun & _ & Hst1 & _).
    rewrite (bind_Done _ _ _ _ _ Hrun), ret_Done in Ha. injection Ha as <-. split; [done|]. cbn. by rewrite Hst1.
Qed.

Lemma forgotten_step t s s' : inv t s -> forgotten s -> step p q s s' -> forgotten s'.
Proof.
  intros Hi Hfo (a & Ha). destruct a; [by eapply forgotten_write| | | | | |]; destruct Hfo as [Hh Hf];
    unfold forgotten, handler in *; cbn [perform] in Ha.
  - pose proof Hi as [(b & c & Hs & _) _ _ _ _ _ _].
    assert (Hne : waits (sender s) = false -> rx c <> []) by (intros Ew; eapply waits_rx; [apply Hs|done]).
    destruct (waits (sender s)); [done|]. unfold reader_turn in Ha. destruct (in_channel (acks s)); [done|]. cbn [thread_turn] in Ha.
    destruct (read_ack_inv pid pl n data p _ _ b c Hs (Hne eq_refl)) as (r & w1 & c1 & Hrun & _ & _ & Hst & _).
    rewrite (bind_Done _ _ _ _ _ Hrun), ret_Done in Ha. injection Ha as <-. cbn. rewrite Hst. by split.
  - unfold handler_turn in Ha. by rewrite Hh in Ha.
  - destruct (read_waits _ _); [done|]. unfold thread_turn in Ha. destruct (read_turn q (r_pc s)) as [mt|]; [|done].
    destruct (mt (receiver s)); by simplify_eq.
  - destruct (r_pc s); try done; destruct (requestRetransfers_tick _ _ _ _) as [[id|]| |]; by simplify_eq.
  - case_bool_decide; by simplify_eq.
  - destruct (_ && _); [|done]. injection Ha as <-. cbn. split; [done|].
    destruct (s_pc s); try done; unfold arrive; by destruct (Conn _).
Qed.

(** C8: an acknowledgement of the end that is handled while [WritePart] still
    runs is forgotten: RetransferMissingPackets sets the state again, the
    handler has ended, and [Write] never returns, whatever happens later. *)
Theorem early_finish_forgotten s0 s s' :
  starts s0 -> rtc (step p q) s0 s -> handler s = false -> (exists k i k', s_pc s = Writing k i k') ->
  rtc (step p q) s s' -> handler s' = false /\ forall k err, s_pc s' <> WriteReturned k err.
Proof.
  intros Hst Hs Hh (k & i & k' & Hpc) Hs'.
  destruct (steps_inv new_transfer s0 s (starts_inv s0 Hst) Hs) as (t & Hi).
  assert (Hf : forgotten s) by (split; [done|by rewrite Hpc]). clear Hst Hs Hh Hpc.
  induction Hs' as [s|s s1 s' Hstep _ IH] in t, Hi, Hf |- *.
  { destruct Hf as [Hh Hf]. split; [done|]. intros k1 err E. by rewrite E in Hf. }
  pose proof (forgotten_step t s s1 Hi Hf Hstep) as Hf1.
  destruct (steps_inv t s s1 Hi (rtc_once _ _ Hstep)) as (t1 & Hi1). by apply (IH t1).
Qed.

End refinement.

(** ** On concrete data *)

#[local] Existing Instances BinaryPartsPacketPacker.packer BinaryPartsPacketPacker.packer_spec.

Definition small_receiver_world : world link string ControlPlane :=
  mkWorld (mkSCIONDataplane false (Some (mkLink [] [])) None None None [] 64 DP_STATE_PENDING None (NewMetrics 100))
    {[ O := small_receiver ]} (set_goroutines 0 1 (set_cp_PartContext (Some O) NewControlPlane)).

Definition small_system : system := mkSystem (sender_world false small_sender) WriteStarts (mkAckThreads true None)
  small_receiver_world ReadStarts 1.

Lemma small_starts : starts 7 2 3 18 five (no_bytes 5) O O small_system.
Proof.
  split; try done.
  - exists small_sender. split_and!; try done. split; try done; [by apply plain_transport_ok|constructor].
  - exists small_receiver. split_and!; try done. by apply small_ready.
  - split; [split; done|]. split; [done|cbn; lia].
Qed.

Definition to_receiver (x : Z) : turn := ToReceiver (packet 7 2 five x).

(** What the receiver wrote last. *)
Definition last_written (turns : list turn) : list byte :=
  match play O O turns small_system with
  | Next s => default [] (last (written (receiver s)))
  | _ => []
  end.

(** Packet 2 is lost, requested, sent again; then the part ends. *)
Definition lossy_start : list turn :=
  [WriteTurn; WriteTurn; WriteTurn; WriteTurn; WriteTurn; to_receiver 1; to_receiver 3;
   ReadTurn; ReadTurn; ReadTurn; RequestTurn].
Definition lossy_middle : list turn :=
  lossy_start ++ [ToSender (last_written lossy_start); AckReadTurn; AckTurn;
   WriteTurn; WriteTurn; WriteTurn; WriteTurn; WriteTurn; to_receiver 2; ReadTurn; ReadTurn].
Definition lossy_run : list turn :=
  lossy_middle ++ [ToSender (last_written lossy_middle); AckReadTurn; AckTurn; WriteTurn].

Definition after_turns (turns : list turn) : system :=
  match play O O turns small_system with Next s => s | _ => small_system end.

Lemma lossy_run_ends : play O O lossy_run small_system = Next (after_turns lossy_run) /\
  r_pc (after_turns lossy_run) = ReadReturned None /\ (exists k, s_pc (after_turns lossy_run) = WriteReturned k None) /\
  datagrams_read O O lossy_run small_system = packet 7 2 five <$> [1; 3; 2].
Proof. vm_compute. split; [reflexivity|]. split; [reflexivity|]. split; [by eexists|reflexivity]. Qed.

Lemma system_refines_transfer_witness :
  exists t, rtc (transfer_step 3) new_transfer t /\ shows 2 3 five (no_bytes 5) O t (after_turns lossy_run) /\
    write_done t = true /\ exists b, parts (receiver (after_turns lossy_run)) !! O = Some b /\ Data b = five.
Proof.
  destruct lossy_run_ends as (Hrun & Hr & (k & Hk) & Hd).
  destruct (system_refines_transfer 7 2 3 18 five (no_bytes 5) O O small_fits small_system lossy_run
    (after_turns lossy_run) small_starts Hrun) as (t & Ht & _ & Hs & _ & Hall).
  exists t. split; [exact Ht|]. split; [exact Hs|]. split.
  - apply (sh_write _ _ _ _ _ _ _ Hs). exists k, None. exact Hk.
  - apply (Hall Hr). rewrite Hd. apply (bool_decide_unpack _). vm_compute. exact I.
Defined.

(** A request that is handled during a pass is lost: the reset after the
    ranges drops what the pass did not range over. *)
Definition asked_of_sender (turns : list turn) : option (list Z) :=
  match play O O turns small_system with
  | Next s => MissingSequenceNums <$> parts (sender s) !! O
  | _ => None
  end.

Definition during_a_pass : list turn :=
  lossy_start ++ [WriteTurn; ToSender (last_written lossy_start); AckReadTurn; AckTurn].

Example request_lost_in_pass :
  asked_of_sender during_a_pass = Some [2] /\ asked_of_sender (during_a_pass ++ [WriteTurn]) = Some [] /\
  s_pc (after_turns (during_a_pass ++ [WriteTurn])) = s_pc (after_turns lossy_start).
Proof. vm_compute. split_and!; reflexivity. Qed.

Lemma system_safe_witness :
  (forall f, perform O O WriteTurn (after_turns lossy_run) <> Crash f) /\
  perform O O WriteTurn (after_turns lossy_run) <> OutOfFuel /\ s_pc (after_turns lossy_run) <> WriteHangs.
Proof.
  exact (system_safe 7 2 3 18 five (no_bytes 5) O O small_fits small_system (after_turns lossy_run) WriteTurn
    small_starts (play_steps O O _ _ _ (proj1 lossy_run_ends))).
Defined.

(** The packets arrive at once, and the end is handled before the writer goes on. *)
Definition early_start : list turn :=
  [WriteTurn; WriteTurn; WriteTurn; WriteTurn; to_receiver 1; to_receiver 2; to_receiver 3;
   ReadTurn; ReadTurn; ReadTurn; ReadTurn; ReadTurn].
Definition early_run : list turn := early_start ++ [ToSender (last_written early_start); AckReadTurn; AckTurn].

Lemma early_run_ends : play O O early_run small_system = Next (after_turns early_run) /\
  handler (after_turns early_run) = false /\ (exists k i k', s_pc (after_turns early_run) = Writing k i k') /\
  Data <$> parts (receiver (after_turns early_run)) !! O = Some five.
Proof. vm_compute. split_and!; try reflexivity. by do 3 eexists. Qed.

Lemma early_finish_forgotten_witness :
  Data <$> parts (receiver (after_turns early_run)) !! O = Some five /\
  forall s', rtc (step O O) (after_turns early_run) s' -> handler s' = false /\ forall k err, s_pc s' <> WriteReturned k err.
Proof.
  destruct early_run_ends as (Hrun & Hh & Hpc & Hd). split; [exact Hd|]. intros s' Hs.
  exact (early_finish_forgotten 7 2 3 18 five (no_bytes 5) O O small_fits small_system (after_turns early_run) s'
    small_starts (play_steps O O _ _ _ Hrun) Hh Hpc Hs).
Defined.
