(* ===== verification/PartsSocket.v ===== *)
(** * PartsSocket: [api/mp.go]

    A socket over several connections: a long buffer is cut into one piece per
    connection, and the pieces are written or read at the same time. *)

From S2P Require Import Prelude Utils Interface Packer PartContext Reassembly Metrics Dataplane SCIONPacker Loopback.
From S2P Require Import Transfer Single RateControl Handshake Gob GobMessages ControlPlane Acks Sessions PartsConn.
From stdpp Require Import pretty.
#[local] Open Scope Z_scope.

(** ** Goroutines on separate connections *)

Section parallel.
Context {S A : Type}.

(** One goroutine per state, and a wait for all of them: a fault in any of
    them ends the program, one that blocks blocks the wait. *)
Fixpoint in_parallel (ms : list (go S A)) : go (list S) (list A) := fun ws =>
  match ms, ws with
  | m :: ms', w :: ws' =>
      match m w, in_parallel ms' ws' with
      | Faulted f, _ => Faulted f
      | _, Faulted f => Faulted f
      | Done a w', Done bs ws'' => Done (a :: bs) (w' :: ws'')
      | Done _ w', Blocked ws'' => Blocked (w' :: ws'')
      | Blocked w', Done _ ws'' => Blocked (w' :: ws'')
      | Blocked w', Blocked ws'' => Blocked (w' :: ws'')
      end
  | _, _ => Done [] ws
  end.

(** Run a fragment on one of several states. *)
Definition at_nth {B : Type} (i : nat) (m : go S B) : go (list S) B := fun ws =>
  match ws !! i with
  | None => Faulted IndexRange
  | Some w => zoom (fun _ => w) (fun w' _ => <[i := w']> ws) m ws
  end.

End parallel.

Section socket.
Context {C Addr IA Serializer : Type} `{SCIONNet C Addr} `{PathLib Addr IA Serializer}.
Context `{PartsPacketPacker} `{Gob}.

(** [options] is [NumConns] behind a pointer. *)
Record PartsSocket : Type := mkPartsSocket {
  local : string;
  options : option Z;
  conns : list (world C Addr ControlPlane);
}.

Definition set_conns (cs : list (world C Addr ControlPlane)) (p : PartsSocket) : PartsSocket :=
  mkPartsSocket (local p) (options p) cs.

Definition newPartsSocket (local : string) (options : option Z) : PartsSocket := mkPartsSocket local options [].

Definition at_conns {A : Type} (m : go (list (world C Addr ControlPlane)) A) : go PartsSocket A := zoom conns set_conns m.

(** The loop of the two constructors, from [i] on; [k] connections to go. *)
Fixpoint connect (k : nat) (i : Z) (conn : Z -> go PartsSocket (error + world C Addr ControlPlane)) : go PartsSocket (option error) :=
  match k with
  | O => mret None
  | S k' =>
      r ← conn i;
      match r with
      | inl e => mret (Some e)
      | inr c => modify (fun p => set_conns (conns p ++ [c]) p);; connect k' (i + 1) conn
      end
  end.

Definition ListenMP {T : Type} (local : string) (options : option Z) : go T (error + PartsSocket) :=
  '(err, p) ← with_new (newPartsSocket local options)
    (n ← or_fail NilDeref options;
     connect (Z.to_nat n) 0 (fun i => Listen (IncreasePortInAddress local (i64 (i + 1)))));
  mret (match err with Some e => inl e | None => inr p end).

Definition DialMP {T : Type} (local remote : string) (options : option Z) : go T (error + PartsSocket) :=
  '(err, p) ← with_new (newPartsSocket local options)
    (n ← or_fail NilDeref options;
     connect (Z.to_nat n) 0 (fun i =>
       Dial (IncreasePortInAddress local (i64 (i + 1))) (IncreasePortInAddress remote (i64 (i + 1)))));
  mret (match err with Some e => inl e | None => inr p end).

(** The first error among the reports. *)
Fixpoint first_error (errs : list (option error)) : option error :=
  match errs with
  | [] => None
  | None :: errs' => first_error errs'
  | Some e :: _ => Some e
  end.

(** [order] is the order in which the goroutines report to the channel. *)
Definition AcceptMP (order : list (option error) -> list (option error)) : go PartsSocket (option error) :=
  n ← gets (fun p => length (conns p));
  errs ← at_conns (in_parallel (replicate n Accept));
  mret (first_error (order errs)).

Definition estimateConnsForData (b : list byte) : go PartsSocket (list (world C Addr ControlPlane)) := gets conns.

(** [b[start:end]] of the goroutine of connection [index]. *)
Definition piece (b : list byte) (partLen index : Z) : option (list byte) :=
  let start := i64 (partLen * index) in
  let end_ := Min (i64 (start + partLen)) (zlen b) in
  go_slice b start end_.

Definition returned {A : Type} (r : option A) : bool := match r with Some _ => true | None => false end.

(** The results of the goroutines are dropped; [None] when one of them did not
    return within its fuel and schedule. *)
Definition Write (fuel : nat) (others : nat -> list (go (world C Addr ControlPlane) unit)) (b : list byte) :
    go PartsSocket (option (Z * option error)) :=
  if zlen b <=? PACKET_PAYLOAD_SIZE then at_conns (at_nth 0 (PartsConn.Write fuel (others O) b))
  else
    cs ← estimateConnsForData b;
    partLen ← or_fail DivideByZero (CeilForceInt (zlen b) (zlen cs));
    rs ← at_conns (in_parallel (imap (fun index _ =>
      d ← or_fail SliceBounds (piece b partLen (Z.of_nat index));
      PartsConn.Write fuel (others index) d) cs));
    mret (if forallb returned rs then Some (0, None) else None).

(** The pieces are views of [b]: what the connections read is stored there. *)
Fixpoint store_pieces (b : list byte) (partLen index : Z) (ds : list (list byte)) : list byte :=
  match ds with
  | [] => b
  | d :: ds' => store_pieces (splice b (Z.to_nat (i64 (partLen * index))) d) partLen (index + 1) ds'
  end.

Definition Read (b : list byte) : go PartsSocket (list byte * Z * option error) :=
  if zlen b <=? PACKET_PAYLOAD_SIZE then at_conns (at_nth 0 (PartsConn.Read b))
  else
    cs ← estimateConnsForData b;
    partLen ← or_fail DivideByZero (CeilForceInt (zlen b) (zlen cs));
    rs ← at_conns (in_parallel (imap (fun index _ =>
      d ← or_fail SliceBounds (piece b partLen (Z.of_nat index));
      PartsConn.Read d) cs));
    mret (store_pieces b partLen 0 ((fun r => r.1.1) <$> rs), 0, None).

End socket.

Arguments PartsSocket : clear implicits.

(** ** Goroutines that all return *)

Section parallel_runs.
Context {S A : Type}.

Lemma in_parallel_Done (Q : nat -> A -> Prop) (ms : list (go S A)) ws :
  length ms = length ws ->
  (forall i m w, ms !! i = Some m -> ws !! i = Some w -> exists a w', m w = Done a w' /\ Q i a) ->
  exists rs ws', in_parallel ms ws = Done rs ws' /\ length rs = length ms /\ forall i a, rs !! i = Some a -> Q i a.
Proof.
  induction ms as [|m ms IH] in ws, Q |- *; intros Hl Hall; destruct ws as [|w ws]; try done.
  { by exists [], []. }
  destruct (Hall O m w eq_refl eq_refl) as (a & w' & Hm & HQ).
  destruct (IH (fun i => Q (Datatypes.S i)) ws) as (rs & ws' & Hr & Hlr & HQs); [by injection Hl|by intros i; apply (Hall (Datatypes.S i))|].
  exists (a :: rs), (w' :: ws'). cbn [in_parallel]. rewrite Hm, Hr. split; [done|]. split; [cbn; by rewrite Hlr|].
  intros [|i] b; cbn; [by intros [= <-]|apply HQs].
Qed.

Lemma in_parallel_Faulted (ms : list (go S A)) ws i m w f :
  length ms = length ws -> ms !! i = Some m -> ws !! i = Some w -> m w = Faulted f ->
  exists f', in_parallel ms ws = Faulted f'.
Proof.
  induction ms as [|m0 ms IH] in ws, i |- *; intros Hl Hm Hw Hf; destruct ws as [|w0 ws]; try done.
  cbn [in_parallel]. destruct i as [|i]; cbn in Hm, Hw.
  { simplify_eq. rewrite Hf. by eexists. }
  destruct (IH ws i) as (f' & ->); [by injection Hl|done..|]. destruct (m0 w0); by eexists.
Qed.

End parallel_runs.

(** ** Pieces *)

(** The pieces of all [n] connections exist when the last one starts within
    the buffer. *)
Lemma piece_eq (b : list byte) partLen index :
  0 <= partLen -> 0 <= index -> partLen * index <= zlen b -> zlen b < 2 ^ 53 -> partLen < 2 ^ 53 ->
  piece b partLen index = Some (take (Z.to_nat partLen) (drop (Z.to_nat (partLen * index)) b)).
Proof.
  intros Hp Hi Hle Hb Hpb. unfold piece. rewrite (i64_id (partLen * index)) by (unfold in_i64; nia).
  rewrite (i64_id (_ + _)) by (unfold in_i64; nia).
  assert (Hmin : Min (partLen * index + partLen) (zlen b) = Z.min (partLen * index + partLen) (zlen b)).
  { unfold Min. rewrite Z.gtb_ltb. destruct (Z.ltb_spec (zlen b) (partLen * index + partLen)); lia. }
  rewrite Hmin, go_slice_Some by nia. f_equal. unfold zlen in *.
  destruct (Z.min_spec (partLen * index + partLen) (Z.of_nat (length b))) as [[? ->]|[? ->]].
  - f_equal. lia.
  - rewrite !take_ge; [done|rewrite length_drop; lia..].
Qed.

Lemma piece_None (b : list byte) partLen index :
  0 <= partLen < 2 ^ 53 -> 0 <= index -> zlen b < partLen * index < 2 ^ 62 -> piece b partLen index = None.
Proof.
  intros Hp Hi Hgt. unfold piece. rewrite (i64_id (partLen * index)) by (unfold in_i64; lia).
  rewrite (i64_id (_ + _)) by (unfold in_i64; lia). unfold Min. rewrite Z.gtb_ltb.
  rewrite (proj2 (Z.ltb_lt _ _)) by lia. unfold go_slice. rewrite (proj2 (Z.leb_gt (partLen * index) (zlen b))) by lia.
  by rewrite andb_false_r.
Qed.

(** The bytes of the connection [index]. *)
Definition bytes_of (b : list byte) (partLen : Z) (index : nat) : list byte :=
  take (Z.to_nat partLen) (drop (Z.to_nat partLen * index) b).

Lemma concat_bytes_of (b : list byte) m k n :
  (length b <= m * (k + n))%nat ->
  concat ((fun i => take m (drop (m * i) b)) <$> seq k n) = drop (m * k) b.
Proof.
  induction n as [|n IH] in k |- *; intros Hl; cbn [seq fmap list_fmap concat].
  - rewrite drop_ge; [done|nia].
  - rewrite IH by nia. replace (m * Datatypes.S k)%nat with (m * k + m)%nat by lia. rewrite <- drop_drop. apply take_drop.
Qed.

Lemma store_pieces_eq (s b : list byte) partLen ds index :
  0 <= partLen -> length b = length s -> partLen * Z.of_nat (index + length ds) < 2 ^ 62 ->
  take (Z.to_nat partLen * index) b = take (Z.to_nat partLen * index) s ->
  (forall j, j < length ds -> Z.to_nat partLen * (index + j) <= length s)%nat ->
  (forall j d, ds !! j = Some d -> d = bytes_of s partLen (index + j)) ->
  length (store_pieces b partLen (Z.of_nat index) ds) = length s /\
  take (Z.to_nat partLen * (index + length ds)) (store_pieces b partLen (Z.of_nat index) ds) =
    take (Z.to_nat partLen * (index + length ds)) s.
Proof.
  intros Hp. induction ds as [|d ds IH] in b, index |- *; intros Hl Hw Ht Hlast Hds; cbn [store_pieces length].
  { by rewrite Nat.add_0_r. }
  set (m := Z.to_nat partLen) in *. cbn [length] in *.
  assert (Hd : d = bytes_of s partLen index) by (rewrite (Hds O d eq_refl); f_equal; lia).
  assert (E : Z.to_nat (i64 (partLen * Z.of_nat index)) = (m * index)%nat).
  { pose proof (Z.mul_nonneg_nonneg partLen (Z.of_nat (Datatypes.S (length ds)))).
    pose proof (Z.mul_nonneg_nonneg partLen (Z.of_nat index)). rewrite Nat2Z.inj_add, Z.mul_add_distr_l in Hw.
    rewrite i64_id by (unfold in_i64; lia). unfold m. rewrite Z2Nat.inj_mul, Nat2Z.id by lia. done. }
  rewrite E. set (b' := splice b (m * index) d).
  assert (Hdl : (length d <= m)%nat) by (rewrite Hd; unfold bytes_of; rewrite length_take; lia).
  assert (Hb' : b' = take (m * Datatypes.S index) s ++ drop (m * index + length d) b).
  { unfold b', splice. rewrite app_assoc, Ht. f_equal. rewrite Hd. unfold bytes_of. fold m.
    rewrite take_take_drop. f_equal. lia. }
  assert (Hl' : length b' = length s).
  { unfold b'. rewrite length_splice; [done|]. specialize (Hlast O ltac:(lia)). rewrite Nat.add_0_r in Hlast.
    rewrite Hl, Hd. unfold bytes_of. fold m.
    rewrite length_take, length_drop. lia. }
  replace (Z.of_nat index + 1) with (Z.of_nat (Datatypes.S index)) by lia.
  replace (index + Datatypes.S (length ds))%nat with (Datatypes.S index + length ds)%nat in * by lia.
  apply IH; [done|lia| | |].
  - rewrite Hb'. destruct (decide (m * Datatypes.S index <= length s)%nat) as [Hle|Hgt].
    + rewrite take_app_length'; [done|]. rewrite length_take. lia.
    + rewrite (take_ge s) by lia. rewrite drop_ge, app_nil_r; [by rewrite take_ge by lia|].
      rewrite Hl, Hd. unfold bytes_of. fold m. rewrite length_take, length_drop. lia.
  - intros j Hj. replace (Datatypes.S index + j)%nat with (index + Datatypes.S j)%nat by lia. apply Hlast. lia.
  - intros j e He. rewrite (Hds (Datatypes.S j) e He). f_equal. lia.
Qed.

(** ** The properties of a socket *)

Section socket_properties.
Context {C Addr IA Serializer : Type} `{SCIONNetSpec C Addr} `{PathLib Addr IA Serializer}.
Context `{PartsPacketPackerSpec} `{GobSpec}.
Implicit Types (p : PartsSocket C Addr).

(** The length of the pieces over [n] connections. *)
Definition piece_length (b : list byte) (n : nat) : Z := ceil_div (zlen b) (Z.of_nat n).

(** With few connections for the bytes there are, the last piece starts within
    them. *)
Lemma few_connections (b : list byte) n :
  (0 < n)%nat -> (Z.of_nat n - 1) * (Z.of_nat n - 1) <= zlen b -> piece_length b n * (Z.of_nat n - 1) <= zlen b.
Proof. intros Hn Hsq. pose proof (ceil_div_bounds (zlen b) (Z.of_nat n) ltac:(lia)). unfold piece_length. nia. Qed.

Lemma piece_length_bounds (b : list byte) n :
  (0 < n)%nat -> 0 <= piece_length b n <= zlen b /\ zlen b <= piece_length b n * Z.of_nat n < zlen b + Z.of_nat n.
Proof.
  intros Hn. pose proof (zlen_nonneg b). pose proof (ceil_div_bounds (zlen b) (Z.of_nat n) ltac:(lia)).
  pose proof (ceil_div_nonneg (zlen b) (Z.of_nat n)). pose proof (ceil_div_le (zlen b) (Z.of_nat n)). unfold piece_length. nia.
Qed.

Lemma piece_bytes (b : list byte) n i :
  (i < n)%nat -> piece_length b n * (Z.of_nat n - 1) <= zlen b -> zlen b < 2 ^ 53 ->
  piece b (piece_length b n) (Z.of_nat i) = Some (bytes_of b (piece_length b n) i).
Proof.
  intros Hi Hlast Hb. destruct (piece_length_bounds b n ltac:(lia)) as [[Hlo Hhi] _].
  rewrite piece_eq by nia. unfold bytes_of. do 3 f_equal. rewrite Z2Nat.inj_mul, Nat2Z.id by lia. done.
Qed.

Lemma imap_lookup_inv {A B : Type} (f : nat -> A -> B) (l : list A) i y :
  imap f l !! i = Some y -> exists x, l !! i = Some x /\ y = f i x.
Proof. rewrite list_lookup_imap. destruct (l !! i); cbn; [|done]. intros [= <-]. by eexists. Qed.

Lemma Write_pieces fuel others (b : list byte) p :
  let n := length (conns p) in
  (0 < n)%nat -> Z.of_nat n < 2 ^ 53 -> PACKET_PAYLOAD_SIZE < zlen b < 2 ^ 53 ->
  piece_length b n * (Z.of_nat n - 1) <= zlen b ->
  (forall i w, conns p !! i = Some w ->
     exists r w', PartsConn.Write fuel (others i) (bytes_of b (piece_length b n) i) w = Done (Some r) w') ->
  exists p', Write fuel others b p = Done (Some (0, None)) p'.
Proof.
  intros n Hn Hn53 Hb Hlast Hall. pose proof (zlen_nonneg b). unfold Write. rewrite (proj2 (Z.leb_gt _ _)) by lia.
  unfold estimateConnsForData. rewrite bind_gets. unfold zlen at 2. fold n.
  rewrite CeilForceInt_exact by lia. rewrite bind_some. fold (piece_length b n).
  set (ms := imap _ (conns p)).
  destruct (in_parallel_Done (fun _ r => returned r = true) ms (conns p)) as (rs & ws' & Hrun & _ & Hrs).
  { apply length_imap. }
  { intros i m w (w0 & Hw0 & ->)%imap_lookup_inv Hw. rewrite piece_bytes; [|by apply lookup_lt_Some in Hw|done|lia].
    rewrite bind_some. destruct (Hall i w Hw) as (r & w' & Hr). by exists (Some r), w'. }
  rewrite (bind_Done _ _ _ rs (set_conns ws' p)) by (unfold at_conns, zoom; by rewrite Hrun).
  rewrite (proj2 (forallb_forall returned rs)); [by eexists|].
  intros r Hr%list_elem_of_In%list_elem_of_lookup_1. destruct Hr as (i & Hr). by apply (Hrs i).
Qed.

Lemma Read_pieces (data b : list byte) p :
  let n := length (conns p) in
  (0 < n)%nat -> Z.of_nat n < 2 ^ 53 -> PACKET_PAYLOAD_SIZE < zlen b < 2 ^ 53 -> length b = length data ->
  piece_length b n * (Z.of_nat n - 1) <= zlen b ->
  (forall i w, conns p !! i = Some w ->
     exists k err w', PartsConn.Read (bytes_of b (piece_length b n) i) w =
       Done (bytes_of data (piece_length b n) i, k, err) w') ->
  exists p', Read b p = Done (data, 0, None) p'.
Proof.
  intros n Hn Hn53 Hb Hl Hlast Hall. pose proof (zlen_nonneg b). unfold Read. rewrite (proj2 (Z.leb_gt _ _)) by lia.
  unfold estimateConnsForData. rewrite bind_gets. unfold zlen at 2. fold n.
  rewrite CeilForceInt_exact by lia. rewrite bind_some. fold (piece_length b n).
  set (ms := imap _ (conns p)). set (len := piece_length b n) in *.
  destruct (in_parallel_Done (fun i r => r.1.1 = bytes_of data len i) ms (conns p)) as (rs & ws' & Hrun & Hlr & Hrs).
  { apply length_imap. }
  { intros i m w (w0 & Hw0 & ->)%imap_lookup_inv Hw. unfold len. rewrite piece_bytes; [|by apply lookup_lt_Some in Hw|done|lia].
    rewrite bind_some. destruct (Hall i w Hw) as (k & err & w' & Hr). by exists (bytes_of data len i, k, err), w'. }
  rewrite (bind_Done _ _ _ rs (set_conns ws' p)) by (unfold at_conns, zoom; by rewrite Hrun).
  exists (set_conns ws' p). rewrite ret_Done. do 3 f_equal.
  destruct (piece_length_bounds b n Hn) as [[Hlo Hhi] [Hcov _]]. fold len in Hlo, Hhi, Hcov.
  assert (Hlen : length ((fun r => r.1.1) <$> rs) = n) by (rewrite length_fmap, Hlr; apply length_imap).
  destruct (store_pieces_eq data b len ((fun r => r.1.1) <$> rs) 0) as [Hls Hst]; rewrite ?Hlen in *.
  - done.
  - done.
  - rewrite Nat.add_0_l. nia.
  - by rewrite Nat.mul_0_r.
  - intros j Hj. rewrite <- Hl. unfold zlen in Hlast. nia.
  - intros j d. rewrite list_lookup_fmap. destruct (rs !! j) as [r|] eqn:E; [|done]. cbn. intros [= <-]. by apply Hrs.
  - unfold zlen in Hcov. rewrite !take_ge in Hst by (rewrite ?Hls, <- ?Hl; nia). exact Hst.
Qed.

Lemma bytes_of_all (b : list byte) n :
  (0 < n)%nat -> concat (bytes_of b (piece_length b n) <$> seq 0 n) = b.
Proof.
  intros Hn. destruct (piece_length_bounds b n Hn) as [[Hlo _] [Hcov _]]. unfold bytes_of.
  rewrite concat_bytes_of; [by rewrite Nat.mul_0_r|]. unfold zlen in Hcov. nia.
Qed.

(** Every connection carries its piece: both calls return. *)
Lemma pieces_exchanged ps pr fuel data buffer :
  let n := length (conns ps) in
  length (conns pr) = n -> (0 < n)%nat -> length buffer = length data ->
  PACKET_PAYLOAD_SIZE < zlen data < 2 ^ 53 -> (Z.of_nat n - 1) * (Z.of_nat n - 1) <= zlen data ->
  (forall i ws wr, conns ps !! i = Some ws -> conns pr !! i = Some wr ->
     part_exchange ws wr (bytes_of data (piece_length data n) i) (bytes_of buffer (piece_length data n) i)) ->
  exists ps' pr', Write fuel (fun _ => [ack_goroutine]) data ps = Done (Some (0, None)) ps' /\
    Read buffer pr = Done (data, 0, None) pr'.
Proof.
  intros n Hpr Hn Hl Hd Hsq Hall.
  assert (Hn53 : Z.of_nat n < 2 ^ 53) by nia.
  pose proof (few_connections data n Hn Hsq) as Hlast.
  assert (Hz : zlen buffer = zlen data) by by apply zlen_same_length.
  assert (Hpl : piece_length buffer n = piece_length data n) by (unfold piece_length; by rewrite Hz).
  destruct (Write_pieces fuel (fun _ => [ack_goroutine]) data ps) as (ps' & HW); try done.
  { intros i ws Hws. destruct (lookup_lt_is_Some_2 (conns pr) i) as [wr Hwr].
    { rewrite Hpr. by apply lookup_lt_Some in Hws. }
    destruct (part_exchange_delivers _ _ _ _ fuel [] (Hall i ws wr Hws Hwr)) as [(k & ws' & HW) _]. by eexists _, ws'. }
  destruct (Read_pieces data buffer pr) as (pr' & HR); rewrite ?Hpr; rewrite ?Hpl, ?Hz; try done.
  { intros i wr Hwr. destruct (lookup_lt_is_Some_2 (conns ps) i) as [ws Hws].
    { fold n. rewrite <- Hpr. by apply lookup_lt_Some in Hwr. }
    destruct (part_exchange_delivers _ _ _ _ fuel [] (Hall i ws wr Hws Hwr)) as [_ (k & wr' & HR)]. by eexists _, _, wr'. }
  by exists ps', pr'.
Qed.

(** C11: a buffer over a socket of several connections, at most one more than
    the root of its length.  It is cut into pieces without gap or overlap;
    when every connection carries its piece to its peer, the reading socket
    ends with the whole buffer.  Both calls then return zero and no error. *)
Theorem Write_Read_pieces ps pr fuel data buffer :
  let n := length (conns ps) in
  let pieces := bytes_of data (piece_length data n) in
  length (conns pr) = n -> (0 < n)%nat -> length buffer = length data ->
  PACKET_PAYLOAD_SIZE < zlen data < 2 ^ 53 -> (Z.of_nat n - 1) * (Z.of_nat n - 1) <= zlen data ->
  (forall i ws wr, conns ps !! i = Some ws -> conns pr !! i = Some wr ->
     part_exchange ws wr (pieces i) (bytes_of buffer (piece_length data n) i)) ->
  concat (pieces <$> seq 0 n) = data /\
  exists ps' pr', Write fuel (fun _ => [ack_goroutine]) data ps = Done (Some (0, None)) ps' /\
    Read buffer pr = Done (data, 0, None) pr'.
Proof.
  intros n pieces Hpr Hn Hl Hd Hsq Hall. split; [by apply bytes_of_all|by apply pieces_exchanged].
Qed.

(** C33: with more connections than that the last piece can start past the end of
    the buffer: then the slice expression panics in its goroutine, and neither
    [Write] nor [Read] returns, whatever the connections do. *)
Theorem too_many_connections p fuel others (b : list byte) :
  let n := length (conns p) in
  PACKET_PAYLOAD_SIZE < zlen b < 2 ^ 53 -> (0 < n)%nat -> Z.of_nat n < 2 ^ 53 ->
  zlen b < piece_length b n * (Z.of_nat n - 1) ->
  (exists f, Write fuel others b p = Faulted f) /\ (exists f, Read b p = Faulted f).
Proof.
  intros n Hb Hn Hn53 Hpast. pose proof (zlen_nonneg b).
  destruct (piece_length_bounds b n Hn) as [[Hlo Hhi] [_ Hlt]].
  assert (Hi : (n - 1 < n)%nat) by lia. destruct (lookup_lt_is_Some_2 (conns p) (n - 1) Hi) as [w Hw].
  assert (Hnone : piece b (piece_length b n) (Z.of_nat (n - 1)) = None) by (apply piece_None; nia).
  assert (HceilW : CeilForceInt (zlen b) (zlen (conns p)) = Some (piece_length b n))
    by (unfold zlen at 2; fold n; apply CeilForceInt_exact; lia).
  unfold Write, Read. rewrite (proj2 (Z.leb_gt _ _)) by lia. unfold estimateConnsForData.
  rewrite !bind_gets, HceilW, !bind_some. split.
  all: match goal with |- context [in_parallel ?ms] =>
    destruct (in_parallel_Faulted ms (conns p) (n - 1) _ w SliceBounds (length_imap _ _)
      ltac:(rewrite list_lookup_imap, Hw; reflexivity) Hw) as (f & Hf); [by rewrite Hnone, bind_none|]
  end; exists f; apply bind_Faulted; unfold at_conns, zoom; by rewrite Hf.
Qed.

(** The loop of the constructors: all connections, or the first error. *)
Lemma connect_all (conn : Z -> go (PartsSocket C Addr) (error + world C Addr ControlPlane)) cs i p :
  (forall j c, cs !! j = Some c -> forall q, conn (i + Z.of_nat j) q = Done (inr c) q) ->
  connect (length cs) i conn p = Done None (set_conns (conns p ++ cs) p).
Proof.
  induction cs as [|c cs IH] in i, p |- *; intros Hall; cbn [connect length].
  { rewrite app_nil_r. by destruct p. }
  pose proof (Hall O c eq_refl p) as H0c. rewrite Z.add_0_r in H0c. rewrite (bind_Done _ _ _ _ _ H0c), bind_modify.
  rewrite IH; [cbn; by rewrite <- app_assoc|]. intros j c' Hj q.
  replace (i + 1 + Z.of_nat j) with (i + Z.of_nat (S j)) by lia. by apply (Hall (S j)).
Qed.

Lemma connect_fails (conn : Z -> go (PartsSocket C Addr) (error + world C Addr ControlPlane)) cs k e i p :
  (forall j c, cs !! j = Some c -> forall q, conn (i + Z.of_nat j) q = Done (inr c) q) ->
  (forall q, conn (i + zlen cs) q = Done (inl e) q) -> (length cs < k)%nat ->
  exists q, connect k i conn p = Done (Some e) q.
Proof.
  unfold zlen. induction cs as [|c cs IH] in k, i, p |- *; intros Hall He Hk; (destruct k as [|k]; [cbn in Hk; lia|]); cbn [connect].
  { specialize (He p). cbn in He. rewrite Z.add_0_r in He. rewrite (bind_Done _ _ _ _ _ He). by eexists. }
  pose proof (Hall O c eq_refl p) as H0c. rewrite Z.add_0_r in H0c. rewrite (bind_Done _ _ _ _ _ H0c), bind_modify.
  apply IH; [|intros q; specialize (He q); cbn [length] in He|cbn in Hk; lia].
  - intros j c' Hj q. replace (i + 1 + Z.of_nat j) with (i + Z.of_nat (S j)) by lia. by apply (Hall (S j)).
  - replace (i + 1 + Z.of_nat (length cs)) with (i + Z.of_nat (S (length cs))) by lia. exact He.
Qed.

(** C34: [ListenMP] on [host:port] opens [NumConns] connections, the [j]-th of
    them, counted from 0, on [host] with the port [port + j + 1], none of which
    overflows; the first address that cannot be listened on ends it with its
    error. *)
Theorem ListenMP_connects {T : Type} (host : string) (port n : Z) (cs : list (world C Addr ControlPlane)) (t : T) :
  let local := host +:+ ":" +:+ pretty port in
  let listen (j : nat) (q : PartsSocket C Addr) := Listen (host +:+ ":" +:+ pretty (port + (Z.of_nat j + 1))) q in
  0 <= port -> port + n < 2 ^ 63 -> n < 2 ^ 62 ->
  (forall j c, cs !! j = Some c -> forall q, listen j q = Done (inr c) q) ->
  (zlen cs = n -> ListenMP local (Some n) t = Done (inr (mkPartsSocket local (Some n) cs)) t) /\
  (forall e, zlen cs < n -> (forall q, listen (length cs) q = Done (inl e) q) ->
     ListenMP local (Some n) t = Done (inl e) t).
Proof.
  intros local listen Hp0 Hpn Hn Hall.
  set (conn := fun i => Listen (S := PartsSocket C Addr) (IncreasePortInAddress local (i64 (i + 1)))).
  assert (Hconn : forall j, Z.of_nat j < n -> conn (Z.of_nat j) = listen j).
  { intros j Hj. unfold conn, listen, local. by rewrite i64_id, IncreasePortInAddress_adds by (unfold in_i64; lia). }
  assert (Hall' : zlen cs <= n -> forall j c, cs !! j = Some c -> forall q, conn (0 + Z.of_nat j) q = Done (inr c) q).
  { intros Hlt j c Hj q. apply lookup_lt_Some in Hj as Hj'. unfold zlen in Hlt.
    rewrite Z.add_0_l, Hconn by lia. by apply (Hall j c). }
  unfold ListenMP. split.
  - intros Hz. rewrite (bind_Done _ _ t (None, mkPartsSocket local (Some n) cs) t); [done|].
    unfold with_new. rewrite bind_some. fold conn. replace (Z.to_nat n) with (length cs) by (unfold zlen in Hz; lia).
    by rewrite (connect_all conn cs 0) by (apply Hall'; lia).
  - intros e Hz He.
    destruct (connect_fails conn cs (Z.to_nat n) e 0 (newPartsSocket local (Some n))) as (q & Hq).
    { apply Hall'. lia. }
    { intros q. rewrite Z.add_0_l. unfold zlen. rewrite Hconn by done. apply He. }
    { unfold zlen in Hz. lia. }
    rewrite (bind_Done _ _ t (Some e, q) t); [done|]. unfold with_new. rewrite bind_some. fold conn. by rewrite Hq.
Qed.

End socket_properties.

(** ** On the loopback network *)

#[local] Existing Instances BinaryPartsPacketPacker.packer BinaryPartsPacketPacker.packer_spec.

(** A connection that listens on an address. *)
Definition listening (addr : string) : world link string ControlPlane :=
  mkWorld (mkSCIONDataplane false (Some (mkLink [] [])) None (Some addr) (Some addr) [] 64 DP_STATE_PENDING None
    (NewMetrics 100)) ∅ NewControlPlane.

Definition base_address : string := "19-ffaa:1:cf1,[127.0.0.1]:8000".

Lemma ListenMP_connects_witness :
  ListenMP base_address (Some 2) tt =
    Done (inr (mkPartsSocket base_address (Some 2)
      [listening "19-ffaa:1:cf1,[127.0.0.1]:8001"; listening "19-ffaa:1:cf1,[127.0.0.1]:8002"])) tt.
Proof.
  apply (ListenMP_connects (C := link) (Addr := string) "19-ffaa:1:cf1,[127.0.0.1]" 8000 2).
  - discriminate.
  - reflexivity.
  - reflexivity.
  - intros [|[|j]] c; [intros [= <-] q; reflexivity..|done].
  - reflexivity.
Defined.

Lemma too_many_connections_witness :
  exists f, Write 0 (fun _ => []) (no_bytes 1201)
    (mkPartsSocket base_address (Some 50) (replicate 50 (listening base_address))) = Faulted f.
Proof.
  apply (too_many_connections (C := link) (Addr := string)
    (mkPartsSocket base_address (Some 50) (replicate 50 (listening base_address))) 0 (fun _ => []) (no_bytes 1201)).
  - split; reflexivity.
  - apply Nat.lt_0_succ.
  - reflexivity.
  - reflexivity.
Defined.

(** Two connections, each with its half of four thousand bytes. *)
Definition four_packets : list byte := replicate 4000 Byte.x61.

Lemma halves i : (i < 2)%nat ->
  bytes_of four_packets 2000 i = two_packets /\ bytes_of (no_bytes 4000) 2000 i = replicate 2000 Byte.x00.
Proof. intros Hi. destruct i as [|[|i]]; [by split; vm_compute..|lia]. Qed.

Lemma Write_Read_pieces_witness :
  exists cs cr ps' pr',
    Write 0 (fun _ => [ack_goroutine]) four_packets
      (mkPartsSocket base_address (Some 2) (replicate 2 (idle_end alice bob cs))) = Done (Some (0, None)) ps' /\
    Read (no_bytes 4000) (mkPartsSocket base_address (Some 2) (replicate 2 (idle_end bob alice cr))) =
      Done (four_packets, 0, None) pr'.
Proof.
  destruct loopback_exchange as (cs & cr & Hex). exists cs, cr.
  apply (Write_Read_pieces (C := link) (Addr := string)
    (mkPartsSocket base_address (Some 2) (replicate 2 (idle_end alice bob cs)))
    (mkPartsSocket base_address (Some 2) (replicate 2 (idle_end bob alice cr))) 0 four_packets (no_bytes 4000)).
  - reflexivity.
  - apply Nat.lt_0_succ.
  - reflexivity.
  - split; reflexivity.
  - discriminate.
  - intros i ws wr [-> Hi]%lookup_replicate [-> _]%lookup_replicate.
    change (piece_length four_packets _) with 2000.
    destruct (halves i Hi) as [H1 H2]. rewrite H1, H2. exact Hex.
Defined.
