(* ===== verification/FileTransfer.v ===== *)
(** * FileTransfer: [example/filetransfer/filetransfer.go]

    The program that copies a file: a handshake with the size and the MD5 sum
    of the file over the first connection of a socket, then the file over all
    of them. *)

From S2P Require Import Prelude Utils Interface Packer PartContext Reassembly Metrics Dataplane SCIONPacker Loopback Transfer Single.
From S2P Require Import RateControl Handshake Gob GobMessages ControlPlane Acks Sessions PartsConn PartsSocket.

Record MetaPacket : Type := mkMetaPacket {
  FileSize : Z;
  Md5 : list byte;
}.

(** The fields of the command line; [Mode] is "server" or anything else. *)
Record flags : Type := mkFlags {
  Server : string;
  Client : string;
  Mode : string;
  NumCons : Z;
  Path : string;
}.

Definition default_flags : flags :=
  mkFlags "19-ffaa:1:cf1,[127.0.0.1]:8000" "19-ffaa:1:cf1,[127.0.0.1]:8001" "singlehost" 1 "".

(** What the program takes from the standard library and the operating
    system: the sum of a file, its content, the encoding of the handshake. *)
Class FileLib : Type := {
  md5_Sum : list byte -> list byte;
  ReadFile : string -> error + list byte;
  gob_encode_meta : MetaPacket -> error + list byte;
  gob_decode_meta : list byte -> error + MetaPacket;
}.

Class FileLibSpec `{FileLib} : Type := {
  meta_ok : MetaPacket -> Prop;
  md5_length : forall bs, length (md5_Sum bs) = 16%nat;
  gob_meta : forall m, meta_ok m -> exists bs, gob_encode_meta m = inr bs /\ gob_decode_meta bs = inr m;
}.

Section filetransfer.
Context {C Addr IA Serializer : Type} `{SCIONNet C Addr} `{PathLib Addr IA Serializer}.
Context `{PartsPacketPacker} `{Gob} `{FileLib}.

Abbreviation W := (world C Addr ControlPlane).

(** [if err != nil { log.Fatal(err) }] *)
Definition fatal_on {T : Type} (err : option error) : go T unit :=
  match err with Some _ => fail LogFatal | None => mret tt end.

(** The fuel and the schedules are those of the calls of the socket: the
    first ones for the handshake, the others for the file.  [None]: one of
    them ended before its call returned. *)
Definition outgoingHandshake (fuel : nat) (others : nat -> list (go W unit)) (file : list byte) :
    go (PartsSocket C Addr) (option (error + MetaPacket)) :=
  let metaPacket := mkMetaPacket (zlen file) (md5_Sum file) in
  match gob_encode_meta metaPacket with
  | inl err => mret (Some (inl err))
  | inr network =>
      r ← PartsSocket.Write fuel others network;
      match r with
      | None => mret None
      | Some (_, Some err) => mret (Some (inl err))
      | Some (_, None) =>
          '(_, _, err) ← PartsSocket.Read (replicate 1000 Byte.x00);
          match err with
          | Some err => mret (Some (inl err))
          | None => mret (Some (inr metaPacket))
          end
      end
  end.

(** The error of the answer is dropped. *)
Definition incomingHandshake (fuel : nat) (others : nat -> list (go W unit)) :
    go (PartsSocket C Addr) (option (error + MetaPacket)) :=
  '(buf, bts, err) ← PartsSocket.Read (replicate 1000 Byte.x00);
  match err with
  | Some err => mret (Some (inl err))
  | None =>
      network ← or_fail SliceBounds (go_slice buf 0 bts);
      match gob_decode_meta network with
      | inl err => mret (Some (inl err))
      | inr metaPacket =>
          match gob_encode_meta metaPacket with
          | inl err => mret (Some (inl err))
          | inr n =>
              r ← PartsSocket.Write fuel others n;
              match r with
              | None => mret None
              | Some _ => mret (Some (inr metaPacket))
              end
          end
      end
  end.

(** The server once its socket is open: the file, and the handshake it is
    logged with. *)
Definition serve (fuel : nat) (others : nat -> list (go W unit)) (order : list (option error) -> list (option error)) :
    go (PartsSocket C Addr) (option (list byte * MetaPacket)) :=
  err ← AcceptMP order;
  fatal_on err;;
  r ← incomingHandshake fuel others;
  match r with
  | None => mret None
  | Some (inl _) => fail LogFatal
  | Some (inr metaPacket) =>
      file ← or_fail MakeLen (go_make Byte.x00 (FileSize metaPacket));
      '(file, _, err) ← PartsSocket.Read file;
      fatal_on err;;
      mret (Some (file, metaPacket))
  end.

(** The client once its socket is open. *)
Definition send_file (fuel : nat) (others others' : nat -> list (go W unit)) (file : list byte) :
    go (PartsSocket C Addr) (option (list byte * MetaPacket)) :=
  r ← outgoingHandshake fuel others file;
  match r with
  | None => mret None
  | Some (inl _) => fail LogFatal
  | Some (inr metaPacket) =>
      r ← PartsSocket.Write fuel others' file;
      match r with
      | None => mret None
      | Some (_, err) => fatal_on err;; mret (Some (file, metaPacket))
      end
  end.

(** [main]: what the last log line shows, the file and the handshake. *)
Definition main {T : Type} (fl : flags) (fuel : nat) (others others' : nat -> list (go W unit))
    (order : list (option error) -> list (option error)) : go T (option (list byte * MetaPacket)) :=
  if decide (Mode fl = "server"%string) then
    r ← ListenMP (Server fl) (Some (NumCons fl));
    match r with
    | inl _ => fail LogFatal
    | inr socket => '(logged, _) ← with_new socket (serve fuel others order); mret logged
    end
  else
    match ReadFile (Path fl) with
    | inl _ => fail LogFatal
    | inr file =>
        r ← DialMP (Client fl) (Server fl) (Some (NumCons fl));
        match r with
        | inl _ => fail LogFatal
        | inr socket => '(logged, _) ← with_new socket (send_file fuel others others' file); mret logged
        end
    end.

End filetransfer.

(** ** The property of the program *)

(** The buffer of the handshake. *)
Lemma meta_buffer_small : zlen (replicate 1000 Byte.x00) < PACKET_PAYLOAD_SIZE.
Proof. reflexivity. Qed.

Section properties.
Context {C Addr IA Serializer : Type} `{SCIONNetSpec C Addr} `{PathLib Addr IA Serializer}.
Context `{PartsPacketPackerSpec} `{GobSpec} `{FileLibSpec}.
Implicit Types (p : PartsSocket C Addr).

Lemma at_first {A : Type} (m : go (world C Addr ControlPlane) A) p w w' a :
  conns p !! O = Some w -> m w = Done a w' ->
  at_conns (at_nth 0 m) p = Done a (set_conns (<[O := w']> (conns p)) p).
Proof. intros Hw Hm. unfold at_conns, at_nth, zoom. by rewrite Hw, Hm. Qed.

Lemma Write_first fuel others b p w w' r :
  conns p !! O = Some w -> zlen b <= PACKET_PAYLOAD_SIZE -> PartsConn.Write fuel (others O) b w = Done r w' ->
  PartsSocket.Write fuel others b p = Done r (set_conns (<[O := w']> (conns p)) p).
Proof.
  intros Hw Hb Hr. unfold PartsSocket.Write. rewrite (proj2 (Z.leb_le _ _)) by done. by apply (at_first _ p w).
Qed.

Lemma Read_first b p w w' r :
  conns p !! O = Some w -> zlen b <= PACKET_PAYLOAD_SIZE -> PartsConn.Read b w = Done r w' ->
  PartsSocket.Read b p = Done r (set_conns (<[O := w']> (conns p)) p).
Proof.
  intros Hw Hb Hr. unfold PartsSocket.Read. rewrite (proj2 (Z.leb_le _ _)) by done. by apply (at_first _ p w).
Qed.

(** What the first connections carry for the handshake [bs]: the client's
    message with its echo, the server's answer with its echo. *)
Definition client_handshake (a b : Z) (bs : list byte) : list event :=
  [Sends (single_packet a bs); Gets 8 (take 8 (padded (single_packet a bs)));
   Gets 1400 (single_packet b bs); Sends (padded (single_packet b bs))].
Definition server_handshake (a b : Z) (bs : list byte) : list event :=
  [Gets 1400 (single_packet a bs); Sends (padded (single_packet a bs));
   Sends (single_packet b bs); Gets 8 (take 8 (padded (single_packet b bs)))].

Definition next_id (w : world C Addr ControlPlane) : Z := i64 (currentPartId (owner w) + 1).

(** A socket after the handshake. *)
Definition handshaken (c : C) (w : world C Addr ControlPlane) p : PartsSocket C Addr :=
  set_conns (<[O := single_sent c w]> (conns p)) p.

Lemma outgoingHandshake_eq p w c c' a b file bs fuel :
  conns p !! O = Some w -> Conn (dp w) = Some c -> next_id w = a -> a <> 0 -> (0 < fuel)%nat ->
  let m := mkMetaPacket (zlen file) (md5_Sum file) in
  gob_encode_meta m = inr bs -> zlen bs <= 1000 -> conversation c (client_handshake a b bs) c' ->
  outgoingHandshake fuel (fun _ => []) file p = Done (Some (inr m)) (handshaken c' w p).
Proof.
  intros Hw Hc Ha Hne Hf m He Hl Hconv.
  inversion Hconv as [|? ? c1 ? ? Hw1 Hconv1|]; subst. inversion Hconv1 as [| |? ? ? c2 ? ? Hr2 Hconv2]; subst.
  inversion Hconv2 as [| |? ? ? c3 ? ? Hr3 Hconv3]; subst. inversion Hconv3 as [|? ? c4 ? ? Hw4 Hnil|]; subst.
  inversion Hnil; subst. unfold outgoingHandshake. fold m. rewrite He.
  assert (Hsent : PartsConn.Write fuel [] bs w = Done (Some (zlen bs + 8, None)) (single_sent c2 w)).
  { eapply Write_single; try done. unfold PACKET_PAYLOAD_SIZE. lia. }
  rewrite (bind_Done _ _ _ _ _ (Write_first fuel (fun _ => []) bs p w _ _ Hw ltac:(unfold PACKET_PAYLOAD_SIZE; lia) Hsent)).
  set (p1 := set_conns _ p).
  assert (Hw1' : conns p1 !! O = Some (single_sent c2 w)) by (apply list_lookup_insert_eq; by apply lookup_lt_Some in Hw).
  assert (Hgot := Read_single (single_sent c2 w) c2 c3 c' b bs (replicate 1000 Byte.x00) _ eq_refl
    ltac:(unfold PACKET_PAYLOAD_SIZE; lia) meta_buffer_small Hr3 Hw4).
  rewrite (bind_Done _ _ _ _ _ (Read_first _ p1 _ _ _ Hw1' (Z.lt_le_incl _ _ meta_buffer_small) Hgot)). cbn beta iota.
  rewrite ret_Done. f_equal. unfold handshaken, p1, set_conns. cbn. by rewrite list_insert_insert_eq.
Qed.

Lemma incomingHandshake_eq p w c c' a b m bs fuel :
  conns p !! O = Some w -> Conn (dp w) = Some c -> next_id w = b -> b <> 0 -> (0 < fuel)%nat ->
  meta_ok m -> gob_encode_meta m = inr bs -> zlen bs <= 1000 -> conversation c (server_handshake a b bs) c' ->
  incomingHandshake fuel (fun _ => []) p = Done (Some (inr m)) (handshaken c' w p).
Proof.
  intros Hw Hc Hb Hne Hf Hok He Hl Hconv.
  inversion Hconv as [| |? ? ? c1 ? ? Hr1 Hconv1]; subst. inversion Hconv1 as [|? ? c2 ? ? Hw2 Hconv2|]; subst.
  inversion Hconv2 as [|? ? c3 ? ? Hw3 Hconv3|]; subst. inversion Hconv3 as [| |? ? ? c4 ? ? Hr4 Hnil]; subst.
  inversion Hnil; subst. unfold incomingHandshake.
  assert (Hgot := Read_single w c c1 c2 a bs (replicate 1000 Byte.x00) _ Hc
    ltac:(unfold PACKET_PAYLOAD_SIZE; lia) meta_buffer_small Hr1 Hw2).
  rewrite (bind_Done _ _ _ _ _ (Read_first _ p w _ _ Hw (Z.lt_le_incl _ _ meta_buffer_small) Hgot)). cbn beta iota.
  set (p1 := set_conns _ p). pose proof (zlen_nonneg bs).
  assert (Hslice : go_slice (take (length (replicate 1000 Byte.x00)) (bs ++ replicate (1392 - length bs) Byte.x00)) 0 (zlen bs) = Some bs).
  { unfold zlen in *. rewrite length_replicate, go_slice_Some.
    - by rewrite drop_0, Z.sub_0_r, Nat2Z.id, take_take, Nat.min_l, take_app_length by lia.
    - lia.
    - unfold zlen. rewrite length_take, length_app, length_replicate. lia. }
  rewrite Hslice, bind_some. destruct (gob_meta m Hok) as (bs' & He' & Hdec). rewrite He in He'. injection He' as <-.
  rewrite Hdec, He.
  assert (Hw1' : conns p1 !! O = Some (single_received c2 w)) by (apply list_lookup_insert_eq; by apply lookup_lt_Some in Hw).
  assert (Hsent : PartsConn.Write fuel [] bs (single_received c2 w) =
    Done (Some (zlen bs + 8, None)) (single_sent c' (single_received c2 w))).
  { eapply Write_single; try done. unfold PACKET_PAYLOAD_SIZE. lia. }
  rewrite (bind_Done _ _ _ _ _ (Write_first fuel (fun _ => []) bs p1 _ _ _ Hw1' ltac:(unfold PACKET_PAYLOAD_SIZE; lia) Hsent)).
  rewrite ret_Done. f_equal. unfold handshaken, p1, set_conns. cbn. by rewrite list_insert_insert_eq.
Qed.

(** C12: a file of more than 1200 bytes and less than 2^53 over two sockets
    with as many connections, at most about the square root of its size, whose
    encoded handshake has at most 1000 bytes, the buffer it is read into; the
    ids of the first messages are not zero.  The server accepts its
    connections; then the first ones carry the handshake, and every one its
    piece of the file.  Client and server both end without
    [log.Fatal]: the server has the file, and the handshake both log is that
    of the file, its size and its MD5 sum. *)
Theorem file_arrives ps pr0 pr order fuel file ws wr cs cs' cr cr' bs :
  let n := length (conns ps) in
  let m := mkMetaPacket (zlen file) (md5_Sum file) in
  let ps1 := handshaken cs' ws ps in let pr1 := handshaken cr' wr pr in
  AcceptMP order pr0 = Done None pr -> length (conns pr) = n ->
  conns ps !! O = Some ws -> conns pr !! O = Some wr -> Conn (dp ws) = Some cs -> Conn (dp wr) = Some cr ->
  next_id ws <> 0 -> next_id wr <> 0 -> (0 < fuel)%nat ->
  meta_ok m -> gob_encode_meta m = inr bs -> zlen bs <= 1000 ->
  conversation cs (client_handshake (next_id ws) (next_id wr) bs) cs' ->
  conversation cr (server_handshake (next_id ws) (next_id wr) bs) cr' ->
  PACKET_PAYLOAD_SIZE < zlen file < 2 ^ 53 -> (Z.of_nat n - 1) * (Z.of_nat n - 1) <= zlen file ->
  (forall i w w', conns ps1 !! i = Some w -> conns pr1 !! i = Some w' ->
     part_exchange w w' (bytes_of file (piece_length file n) i)
       (bytes_of (replicate (length file) Byte.x00) (piece_length file n) i)) ->
  exists ps' pr',
    send_file fuel (fun _ => []) (fun _ => [ack_goroutine]) file ps = Done (Some (file, m)) ps' /\
    serve fuel (fun _ => []) order pr0 = Done (Some (file, m)) pr'.
Proof.
  intros n m ps1 pr1 Hacc Hn Hws Hwr Hcs Hcr Ha Hb Hf Hok He Hl Hconvs Hconvr Hfile Hsq Hall.
  assert (Hlen : length (conns ps1) = n) by apply length_insert.
  destruct (pieces_exchanged ps1 pr1 fuel file (replicate (length file) Byte.x00)) as (ps' & pr' & HW & HR);
    rewrite ?Hlen; try done.
  { unfold pr1, handshaken, set_conns. cbn. by rewrite length_insert. }
  { apply lookup_lt_Some in Hws. unfold n. lia. }
  { apply length_replicate. }
  exists ps', pr'. split.
  - unfold send_file.
    rewrite (bind_Done _ _ _ _ _ (outgoingHandshake_eq ps ws cs cs' _ _ file bs fuel Hws Hcs eq_refl Ha Hf He Hl Hconvs)).
    fold ps1. by rewrite (bind_Done _ _ _ _ _ HW).
  - unfold serve. rewrite (bind_Done _ _ _ _ _ Hacc). cbn [fatal_on]. rewrite bind_ret.
    rewrite (bind_Done _ _ _ _ _ (incomingHandshake_eq pr wr cr cr' _ _ m bs fuel Hwr Hcr eq_refl Hb Hf Hok He Hl Hconvr)).
    fold pr1. cbn [FileSize m]. unfold go_make. rewrite (proj2 (Z.leb_le _ _)) by apply zlen_nonneg. rewrite bind_some.
    unfold zlen at 1. rewrite Nat2Z.id. by rewrite (bind_Done _ _ _ _ _ HR).
Qed.

End properties.

(** ** The handshake in the gob format *)

(** A byte of an array; larger numbers are an overflow. *)
Definition byte_codec : codec byte :=
  mkCodec byte Byte.x00 (fun b => bool_decide (b = Byte.x00)) (fun b => encode_uint (byte.unsigned b))
    (fun bs => '(u, rest) ← decode_uint bs; if u <? 256 then Some (byte.of_Z u, rest) else None).

(** An array of [n] bytes: its length, then its elements. *)
Definition array_codec (n : nat) : codec (list byte) :=
  mkCodec (list byte) (replicate n Byte.x00) (fun l => bool_decide (l = replicate n Byte.x00))
    (fun l => encode_uint (zlen l) ++ concat (encode byte_codec <$> l))
    (fun bs => '(k, rest) ← decode_uint bs;
       if k =? Z.of_nat n then decode_elements byte_codec n rest else None).

Definition meta_fields : list (field MetaPacket) := [
  field_of int_codec FileSize (fun v m => mkMetaPacket v (Md5 m));
  field_of (array_codec 16) Md5 (fun v m => mkMetaPacket (FileSize m) v)].

Definition zero_meta : MetaPacket := mkMetaPacket 0 (replicate 16 Byte.x00).

Lemma byte_codec_ok : codec_ok (fun _ => True) byte_codec.
Proof.
  split; [|intros a; cbn; apply bool_decide_eq_true]. intros a rest _. pose proof (byte.unsigned_range a).
  cbn. rewrite decode_encode_uint by (unfold in_u64; lia). cbn. rewrite (proj2 (Z.ltb_lt _ _)) by lia.
  by rewrite byte.of_Z_unsigned.
Qed.

Lemma array_codec_ok n : Z.of_nat n < 2 ^ 63 -> codec_ok (fun l => length l = n) (array_codec n).
Proof.
  intros Hn. split; [|intros a; cbn; apply bool_decide_eq_true]. intros l rest Hl. cbn.
  rewrite <- app_assoc, decode_encode_uint by (unfold zlen, in_u64; lia). cbn.
  unfold zlen. rewrite Hl, Z.eqb_refl, <- Hl.
  apply (decode_elements_encode (fun _ => True) byte_codec byte_codec_ok). by apply Forall_true.
Qed.

(** A registry with the type description of [MetaPacket], some sum and some
    files. *)
Section instance.
Variables (types : list (Z * list byte)) (id : Z) (sum : list byte -> list byte) (files : string -> error + list byte).
Hypothesis types_registered : types_ok types id.
Hypothesis sum_length : forall bs, length (sum bs) = 16%nat.

Definition gob_files : FileLib := {|
  md5_Sum := sum;
  ReadFile := files;
  gob_encode_meta m := inr (encode_message types id meta_fields m);
  gob_decode_meta bs := or_gob_error (decode_message (length bs) meta_fields zero_meta bs);
|}.

Lemma meta_short m : length (Md5 m) = 16%nat -> zlen (encode_fields meta_fields 1 m) < 2 ^ 62.
Proof.
  intros Hl. cbn [meta_fields encode_fields f_zero f_encode field_of].
  assert (Harr : zlen (encode (array_codec 16) (Md5 m)) <= 9 + 9 * 16).
  { cbn [encode array_codec]. pose proof (encode_uint_length (zlen (Md5 m))).
    assert (Hc : zlen (concat (encode byte_codec <$> Md5 m)) <= 9 * zlen (Md5 m)).
    { clear. induction (Md5 m) as [|b l IH]; [done|]. pose proof (encode_uint_length (byte.unsigned b)).
      unfold zlen in *. cbn [fmap list_fmap concat length encode byte_codec] in *. rewrite length_app. lia. }
    unfold zlen in *. rewrite length_app. lia. }
  pose proof (encode_uint_length (if FileSize m <? 0 then 2 * (- FileSize m - 1) + 1 else 2 * FileSize m)) as Hi.
  change (encode int_codec (FileSize m)) with (encode_uint (if FileSize m <? 0 then 2 * (- FileSize m - 1) + 1 else 2 * FileSize m)).
  pose proof (encode_uint_length 0). pose proof (encode_uint_length 1). pose proof (encode_uint_length (1 + 1)).
  pose proof (encode_uint_length (1 + 1 + 1)).
  unfold zlen in *. repeat case_match; rewrite ?length_app; lia.
Qed.

#[refine] Instance gob_files_spec : FileLibSpec (H := gob_files) := {|
  meta_ok m := in_i64 (FileSize m) /\ length (Md5 m) = 16%nat;
|}.
Proof.
  - exact sum_length.
  - intros m [Hs Hl]. eexists. split; [reflexivity|]. cbn [gob_decode_meta gob_files].
    pose proof (types_short (types := types) (id := id) (encode_fields meta_fields 1 m)) as Hshort.
    rewrite <- (app_nil_r (encode_message _ _ _ _)) at 2.
    rewrite (decode_encode_message types id meta_fields m zero_meta).
    + destruct m as [size sm]. cbn in Hs, Hl. unfold meta_fields.
      rewrite (overlay_field _ _ _ _ _ _ _ int_codec_ok) by (cbn; intros ->; reflexivity). cbn -[overlay].
      rewrite (overlay_field _ _ _ _ _ _ _ (array_codec_ok 16 ltac:(done))) by (cbn; intros ->; reflexivity). done.
    + exact types_registered.
    + unfold meta_fields. repeat apply Forall_cons_2; [| |apply Forall_nil_2].
      * apply (field_of_ok in_i64); [exact int_codec_ok|done].
      * apply (field_of_ok (fun l => length l = 16%nat)); [by apply array_codec_ok|done].
    + done.
    + by apply meta_short.
    + unfold encode_message. lia.
Defined.

End instance.

(** ** On the loopback network *)

#[local] Existing Instances BinaryPartsPacketPacker.packer BinaryPartsPacketPacker.packer_spec.

(** Some sum of sixteen bytes, and no files. *)
Definition length_sum (bs : list byte) : list byte := replicate 15 Byte.x00 ++ [byte.of_Z (zlen bs)].
Definition no_files (_ : string) : error + list byte := inl (NetError 2).

Lemma meta_registered : types_ok [] 69.
Proof. split; [constructor|lia]. Qed.

#[local] Instance small_files : FileLib := gob_files [] 69 length_sum no_files.
#[local] Instance small_files_spec : FileLibSpec := gob_files_spec [] 69 length_sum no_files meta_registered (fun _ => eq_refl).

Definition or_nil (r : error + list byte) : list byte := match r with inr d => d | inl _ => [] end.

(** The messages: the client's announcement, the handshake of the file, then
    those of the part. *)
Definition hello : list byte := or_nil (gob_encode_handshake (session_message alice 1 0)).
Definition file_meta : MetaPacket := mkMetaPacket (zlen two_packets) (length_sum two_packets).
Definition meta_bytes : list byte := or_nil (gob_encode_meta file_meta).
Definition part_hello : list byte := or_nil (gob_encode_handshake (session_message alice 2 2000)).
Definition part_answer : list byte := or_nil (gob_encode_handshake (session_message bob 2 2000)).
Definition part_end : list byte := or_nil (gob_encode_request (finish_packet 2 2)).

Definition client_later : list (list byte) := got (two_sent 2 part_hello part_answer part_end).
Definition server_later : list (list byte) := got (two_read 2 part_hello part_answer part_end).

Definition client_link : link := mkLink (got (client_handshake 1 1 meta_bytes) ++ client_later) [].
Definition server_link : link := mkLink (got (server_handshake 1 1 meta_bytes) ++ server_later) [].

Definition client_socket : PartsSocket link string :=
  mkPartsSocket alice (Some 1) [idle_end alice bob client_link].
(** The server listens and knows no remote address; afterwards it knows the
    client's, which has no path yet. *)
Definition listening_socket : PartsSocket link string :=
  mkPartsSocket bob (Some 1) [listening_end bob (mkLink (hello :: rx server_link) [])].
Definition server_socket : PartsSocket link string :=
  mkPartsSocket bob (Some 1) [idle_end bob alice server_link].

Lemma server_accepts : AcceptMP id listening_socket = Done None server_socket.
Proof. vm_compute. reflexivity. Qed.

Lemma part_messages_ok :
  handshake_ok (session_message alice 2 2000) /\ request_ok (finish_packet 2 2) /\
  zlen part_hello <= 1400 /\ zlen part_answer <= 1400 /\ zlen part_end <= 1400 /\
  Forall (fun d => zlen d <= 1400) (packets (session_part CountInRateControl 2 two_packets alice bob tt)).
Proof.
  split; [split|split; [split; cbn|]].
  - repeat (apply Forall_cons_2; [split; [discriminate|reflexivity]|]). apply Forall_nil_2.
  - reflexivity.
  - split; [|reflexivity]. apply Forall_cons_2; [|apply Forall_nil_2]. split_and!; (split; [discriminate|reflexivity]).
  - reflexivity.
  - repeat (apply Forall_cons_2; [split; [discriminate|reflexivity]|]). apply Forall_nil_2.
  - by split; [constructor|].
  - by split; [constructor|].
  - reflexivity.
  - split_and!; [vm_compute; discriminate..|]. vm_compute. repeat (apply Forall_cons_2; [discriminate|]). apply Forall_nil_2.
Qed.

Lemma file_arrives_witness :
  exists ps' pr',
    send_file 1 (fun _ => []) (fun _ => [ack_goroutine]) two_packets client_socket = Done (Some (two_packets, file_meta)) ps' /\
    serve 1 (fun _ => []) id listening_socket = Done (Some (two_packets, file_meta)) pr'.
Proof.
  destruct part_messages_ok as (Hok & Hokf & H1 & H2 & H3 & H4).
  destruct (file_arrives (C := link) (Addr := string) client_socket listening_socket server_socket id 1 two_packets
    (idle_end alice bob client_link) (idle_end bob alice server_link) client_link
    (mkLink client_later (sent (client_handshake 1 1 meta_bytes))) server_link
    (mkLink server_later (sent (server_handshake 1 1 meta_bytes))) meta_bytes) as (ps' & pr' & Hc & Hs).
  - exact server_accepts.
  - reflexivity.
  - reflexivity.
  - reflexivity.
  - reflexivity.
  - reflexivity.
  - discriminate.
  - discriminate.
  - apply le_n.
  - split; [split; [discriminate|reflexivity]|reflexivity].
  - reflexivity.
  - vm_compute. discriminate.
  - apply loopback_conversation_then. repeat constructor; vm_compute; discriminate.
  - apply loopback_conversation_then. repeat constructor; vm_compute; discriminate.
  - split; reflexivity.
  - discriminate.
  - intros [|i] w w'; [|done]. intros [= <-] [= <-].
    change (piece_length two_packets _) with 2000.
    assert (E : bytes_of two_packets 2000 0 = two_packets) by (vm_compute; reflexivity).
    assert (E' : bytes_of (replicate (length two_packets) Byte.x00) 2000 0 = replicate 2000 Byte.x00) by (vm_compute; reflexivity).
    rewrite E, E'.
    apply (loopback_part_exchange _ _ 2 part_hello part_answer part_end (sent (client_handshake 1 1 meta_bytes))
      (sent (server_handshake 1 1 meta_bytes))); try done.
    + split; [done|done|done|apply idle_routed|]. split; [split; discriminate|reflexivity].
    + split; [done|done|done|apply idle_routed|]. split; [split; discriminate|reflexivity].
  - exists ps', pr'. split; [exact Hc|exact Hs].
Defined.
