(* ===== verification/Local.v ===== *)
(** * Local: [example/local/local.go]

    The program that sends a large buffer to itself: one goroutine dials and
    writes, the other listens, accepts and reads. *)

From S2P Require Import Prelude Utils Interface Packer PartContext Reassembly Metrics Dataplane SCIONPacker Loopback Transfer Single.
From S2P Require Import RateControl Handshake Gob GobMessages ControlPlane Acks Sessions PartsConn FileTransfer.

(** The fields of the command line; [ClientLocal] is used nowhere. *)
Record flags : Type := mkFlags {
  Server : string;
  Client : string;
  ClientLocal : string;
  Mode : string;
}.

Definition default_flags : flags :=
  mkFlags "19-ffaa:1:cf1,[127.0.0.1]:8000" "19-ffaa:1:cf1,[127.0.0.1]:8001" "" "singlehost".

(** The length both ends pass to [make]. *)
Definition buffer_length : Z := 2000000000.

Section local.
Context {C Addr IA Serializer : Type} `{SCIONNet C Addr} `{PathLib Addr IA Serializer}.
Context `{PartsPacketPacker} `{Gob}.

Abbreviation W := (world C Addr ControlPlane).

(** The goroutine that writes: the number it logs. *)
Definition writer {T : Type} (fl : flags) (fuel : nat) (others : list (go W unit)) : go T (option Z) :=
  r ← Dial (Client fl) (Server fl);
  match r with
  | inl _ => fail LogFatal
  | inr conn2 =>
      buf ← or_fail MakeLen (go_make Byte.x00 buffer_length);
      '(r, _) ← with_new conn2 (PartsConn.Write fuel others buf);
      match r with
      | None => mret None
      | Some (n, err) => fatal_on err;; mret (Some n)
      end
  end.

(** The rest of [main]: the number it logs.  The error of [Accept] is
    overwritten by that of [Read]. *)
Definition reader : go W Z :=
  _ ← PartsConn.Accept;
  buf ← or_fail MakeLen (go_make Byte.x00 buffer_length);
  '(_, n, err) ← PartsConn.Read buf;
  fatal_on err;;
  mret n.

(** The goroutines share nothing but the network.  When the one that writes
    ends: before the line of [main], between that line and the end of [main],
    or not at all, because the process ends with [main]. *)
Inductive goroutine_ends : Type := Earlier | Later | CutOff.

(** The lines of the log. *)
Inductive line : Type := Wrote (n : Z) | Was_read (n : Z).

(** What the process logs; nothing happens in another mode.  A [log.Fatal] of
    either goroutine ends the process.  [None]: the writer's fuel or schedule
    ended before its call returned. *)
Definition main {T : Type} (fl : flags) (fuel : nat) (others : list (go W unit)) (ends : goroutine_ends) :
    go T (option (list line)) :=
  if decide (Mode fl = "singlehost"%string) then
    r ← Listen (Server fl);
    match r with
    | inl _ => fail LogFatal
    | inr conn =>
        match ends with
        | Earlier =>
            wrote ← writer fl fuel others;
            '(n, _) ← with_new conn reader;
            mret (n' ← wrote; Some [Wrote n'; Was_read n])
        | Later =>
            '(n, _) ← with_new conn reader;
            wrote ← writer fl fuel others;
            mret (n' ← wrote; Some [Was_read n; Wrote n'])
        | CutOff =>
            '(n, _) ← with_new conn reader;
            mret (Some [Was_read n])
        end
    end
  else mret (Some []).

End local.

(** ** The property of the program *)

Definition zeros : list byte := replicate (Z.to_nat buffer_length) Byte.x00.

Lemma zeros_length : zlen zeros = buffer_length.
Proof. unfold zlen, zeros. rewrite length_replicate. apply Z2Nat.id. done. Qed.

Lemma make_zeros : go_make Byte.x00 buffer_length = Some zeros.
Proof. unfold go_make, zeros. rewrite (proj2 (Z.leb_le 0 buffer_length)) by done. apply f_equal, eq_refl. Qed.

Lemma zeros_are_a_part : PACKET_PAYLOAD_SIZE <= zlen zeros < 2 ^ 52.
Proof. rewrite zeros_length. split; [discriminate|reflexivity]. Qed.

Section properties.
Context {C Addr IA Serializer : Type} `{SCIONNetSpec C Addr} `{PathLib Addr IA Serializer}.
Context `{PartsPacketPackerSpec} `{GobSpec}.

Lemma with_new_Done {S T A : Type} (t : T) (m : go T A) (s : S) a t' :
  m t = Done a t' -> with_new t m s = Done (a, t') s.
Proof. intros Hm. unfold with_new. by rewrite Hm. Qed.

(** What [Write] counts for a part is not cut by the width of the counter. *)
Lemma counted_part cb partId data local remote s :
  routed local remote s -> 0 <= Interface.GetHeaderLen -> zlen data < 2 ^ 52 ->
  let b := session_part cb partId data local remote s in
  i64 (u64 (total_len (packets b))) = zlen data + NumPackets b * Interface.GetHeaderLen.
Proof.
  intros Hrt Hh Hd b. destruct (session_sender_ok cb partId data local remote s Hrt Hh Hd) as [Hg _].
  destruct (session_room cb partId data local remote s Hrt Hh Hd) as [Hroom _]. fold b in Hg, Hroom.
  destruct (rt_header _ _ _ Hrt) as [Hs0 Hs1]. pose proof (zlen_nonneg data).
  pose proof (geometry_NumPackets b Hg) as HN. rewrite total_len_packets by done.
  change (Data b) with data. unfold PACKET_SIZE in *.
  assert (NumPackets b * Interface.GetHeaderLen <= NumPackets b * 1400) by nia.
  rewrite u64_id, i64_id; [done|..].
  - unfold in_i64. nia.
  - unfold in_u64. nia.
Qed.

(** C13: the program in the mode "singlehost", on addresses that parse, with a
    serializer between each and the other one on its path or the default one,
    whose headers are equally long both ways.  The listener reads the dialer's
    announcement, then the connections carry the part, in any order.  Then the process ends with [main] and logs that
    the length of the buffer was read; that the buffer was written it logs
    only if the goroutine gets that far before, earlier or later than the
    reader's line, and the number in that line is larger, because a header is
    counted for every packet. *)
Theorem singlehost_delivers {T : Type} (t : T) fl dialed remote0 remote err cs cs1 cs2 n cr cr1 cr2 from ss sr
    hello bs ans fin arrived fuel rest ends :
  Mode fl = "singlehost"%string ->
  ParseUDPAddr (Client fl) = inr dialed -> ParseUDPAddr (Server fl) = inr remote0 ->
  SetDefaultPath remote0 = (remote, err) -> optimizedconn_Dial dialed remote = inr cs ->
  optimizedconn_Listen remote0 = inr cr -> ParseUDPAddr (UDPAddr_String (Some dialed)) = inr from ->
  routed dialed remote ss -> routed remote0 from sr -> Serializer_GetHeaderLen sr = Serializer_GetHeaderLen ss ->
  0 <= Interface.GetHeaderLen ->
  handshake_ok (session_message dialed 1 0) -> gob_encode_handshake (session_message dialed 1 0) = inr hello ->
  conn_Write cs hello = (cs1, n) -> conn_Read cr 1400 = (cr1, (hello, None)) ->
  let b := session_part CountInRateControl 2 zeros dialed remote ss in
  let hs := session_message dialed 2 buffer_length in
  let finish := finish_packet 2 (NumPackets b) in
  handshake_ok hs -> gob_encode_handshake hs = inr bs ->
  gob_encode_handshake (session_message remote0 2 buffer_length) = inr ans ->
  request_ok finish -> gob_encode_request finish = inr fin ->
  conversation cs1 (Sends bs :: Gets 1400 ans :: (Sends <$> packets b) ++ [Gets 1400 fin]) cs2 ->
  arrived ≡ₚ packets b ->
  conversation (conn_SetRemote cr1 from) (Gets 1400 bs :: Sends ans :: (Gets 1400 <$> arrived) ++ [Sends fin]) cr2 ->
  let wrote := Wrote (buffer_length + NumPackets b * Interface.GetHeaderLen) in
  main fl fuel (ack_goroutine :: rest) ends t =
    Done (Some (match ends with
                | Earlier => [wrote; Was_read buffer_length]
                | Later => [Was_read buffer_length; wrote]
                | CutOff => [Was_read buffer_length]
                end)) t.
Proof.
  generalize make_zeros zeros_length zeros_are_a_part. generalize zeros. intros data Hmake Hlen Hz.
  intros Hm Hl Ha Hp Hd Hlc Hf Hrs Hrr Hser Hh Hok1 He1 Hw1 Hr1 b hs finish Hok He Hea Hokf Hef Hcs Harr Hcr wrote.
  assert (HW : writer fl fuel (ack_goroutine :: rest) t =
    Done (Some (buffer_length + NumPackets b * Interface.GetHeaderLen)) t).
  { unfold writer. rewrite (bind_Done _ _ _ _ _ (Dial_eq t (Client fl) (Server fl) dialed remote0 remote err cs cs1 n hello
      Hl Ha Hp Hd He1 Hw1)).
    cbn beta iota. rewrite Hmake, bind_some. set (ws := mkWorld _ _ _).
    destruct (Write_part ws cs1 cs2 data dialed remote ss bs ans fin fuel rest) as (ws' & HW);
      rewrite ?Hlen; try done.
    change (i64 (currentPartId (owner ws) + 1)) with 2 in HW. rewrite counted_part, Hlen in HW by (done || lia).
    by rewrite (bind_Done _ _ _ _ _ (with_new_Done ws _ t _ _ HW)). }
  unfold main. rewrite decide_True by done.
  rewrite (bind_Done _ _ _ _ _ (Listen_eq t (Server fl) remote0 cr Ha Hlc)). cbn beta iota.
  set (wr := mkWorld _ _ _).
  assert (HR : exists wr', with_new wr reader t = Done (buffer_length, wr') t).
  { pose proof (Accept_eq wr cr cr1 dialed hello eq_refl eq_refl Hok1 He1 Hr1) as HA. rewrite Hf in HA.
    set (wr1 := set_dp _ wr) in HA.
    destruct (Read_part wr1 (conn_SetRemote cr1 from) cr2 data data remote0 from sr dialed dialed remote ss 2 bs ans fin
      arrived) as (wr' & HR); rewrite ?Hlen; try done.
    exists wr'. rewrite <- Hlen. apply with_new_Done.
    unfold reader. rewrite (bind_Done _ _ _ _ _ HA), Hmake, bind_some. by rewrite (bind_Done _ _ _ _ _ HR). }
  destruct HR as (wr' & HR).
  destruct ends; rewrite ?(bind_Done _ _ _ _ _ HW), (bind_Done _ _ _ _ _ HR), ?(bind_Done _ _ _ _ _ HW); reflexivity.
Qed.

End properties.

(** ** On the loopback network *)

#[local] Existing Instances BinaryPartsPacketPacker.packer BinaryPartsPacketPacker.packer_spec.

Abbreviation dialer := (Client default_flags).
Abbreviation listener := (Server default_flags).

Lemma meeting_conversation dialed listening c es c' :
  conversation (H := loopback) c es c' -> conversation (H := meeting dialed listening) c es c'.
Proof.
  induction 1; [constructor|eapply conversation_sends; eassumption|eapply conversation_gets; eassumption].
Qed.

(** The buffer in packets of 1312 bytes. *)
Definition big_part : PartContext := session_part CountInRateControl 2 zeros dialer (with_path listener) tt.
Definition big_packets : Z := 1524391.

Lemma big_part_packets : NumPackets big_part = big_packets.
Proof. cbn [big_part session_part NumPackets set_sizes]. rewrite zeros_length. vm_compute. reflexivity. Qed.

Lemma big_part_fits : Forall (fun d => zlen d <= 1400) (packets big_part).
Proof.
  apply Forall_fmap, Forall_true. intros s. unfold compose, packet, payload.
  change (PayloadLength big_part) with 1312. unfold zlen. rewrite length_app, length_take.
  change (length (packet_header _ _)) with 16%nat. lia.
Qed.

Lemma big_message local partId size :
  local = dialer \/ local = listener -> (partId, size) = (1, 0) \/ (partId, size) = (2, buffer_length) ->
  handshake_ok (session_message local partId size) /\
  exists bs, gob_encode_handshake (session_message local partId size) = inr bs /\ zlen bs <= 1400.
Proof.
  intros Hl Hs.
  assert (Hok : handshake_in_range (session_message local partId size)).
  { split.
    - repeat (apply Forall_cons_2; [split; [discriminate|reflexivity]|]). apply Forall_nil_2.
    - destruct Hl as [-> | ->]; reflexivity.
    - split; [|reflexivity]. apply Forall_cons_2; [|apply Forall_nil_2].
      destruct Hs as [[= -> ->] | [= -> ->]]; split_and!; (split; [discriminate|reflexivity]).
    - destruct Hl as [-> | ->], Hs as [[= -> ->] | [= -> ->]]; reflexivity. }
  split; [exact Hok|]. eexists. split; [reflexivity|].
  destruct Hl as [-> | ->], Hs as [[= -> ->] | [= -> ->]]; vm_compute; discriminate.
Qed.

Lemma big_finish :
  request_ok (finish_packet 2 big_packets) /\
  exists fin, gob_encode_request (finish_packet 2 big_packets) = inr fin /\ zlen fin <= 1400.
Proof.
  split.
  - split; cbn; [|by split; [constructor|]|by split; [constructor|]|reflexivity].
    repeat (apply Forall_cons_2; [split; [discriminate|reflexivity]|]). apply Forall_nil_2.
  - eexists. split; [reflexivity|]. vm_compute. discriminate.
Qed.

Lemma singlehost_delivers_witness :
  exists cs cr, let net := meeting cs cr in
    main (H := net) default_flags 0 [ack_goroutine (H := net)] Later tt =
      Done (Some [Was_read buffer_length; Wrote (buffer_length + big_packets * Interface.GetHeaderLen)]) tt /\
    main (H := net) default_flags 0 [ack_goroutine (H := net)] CutOff tt = Done (Some [Was_read buffer_length]) tt.
Proof.
  destruct (big_message dialer 1 0 (or_introl eq_refl) (or_introl eq_refl)) as [Hok1 (hello & He1 & Hl1)].
  destruct (big_message dialer 2 buffer_length (or_introl eq_refl) (or_intror eq_refl)) as [Hok (bs & He & Hl)].
  destruct (big_message listener 2 buffer_length (or_intror eq_refl) (or_intror eq_refl)) as [_ (ans & Hea & Hla)].
  destruct big_finish as [Hokf (fin & Hef & Hlf)].
  set (es := Sends bs :: Gets 1400 ans :: (Sends <$> packets big_part) ++ [Gets 1400 fin]).
  set (er := Gets 1400 bs :: Sends ans :: (Gets 1400 <$> packets big_part) ++ [Sends fin]).
  exists (mkLink (got es) []), (mkLink (hello :: got er) []). cbv zeta. set (net := meeting _ _).
  rewrite <- big_part_packets in *.
  assert (Hall : forall ends, main (H := net) default_flags 0 [ack_goroutine (H := net)] ends tt =
    Done (Some (match ends with
                | Earlier => [Wrote (buffer_length + NumPackets big_part * Interface.GetHeaderLen); Was_read buffer_length]
                | Later => [Was_read buffer_length; Wrote (buffer_length + NumPackets big_part * Interface.GetHeaderLen)]
                | CutOff => [Was_read buffer_length]
                end)) tt); [|split; [exact (Hall Later)|exact (Hall CutOff)]].
  intros ends. etransitivity; [apply (singlehost_delivers (H := net) (H0 := meeting_spec _ _) tt default_flags dialer listener
    (with_path listener) None
    (mkLink (got es) []) (mkLink (got es) [hello]) (mkLink [] ([hello] ++ sent es)) (zlen hello, None)
    (mkLink (hello :: got er) []) (mkLink (got er) []) (mkLink [] (sent er)) dialer tt tt
    hello bs ans fin (packets big_part) 0 [] ends)|reflexivity].
  - reflexivity.
  - reflexivity.
  - reflexivity.
  - reflexivity.
  - reflexivity.
  - reflexivity.
  - reflexivity.
  - by apply default_routed.
  - by apply default_routed.
  - reflexivity.
  - discriminate.
  - exact Hok1.
  - exact He1.
  - reflexivity.
  - by apply loopback_read.
  - exact Hok.
  - exact He.
  - exact Hea.
  - exact Hokf.
  - exact Hef.
  - apply meeting_conversation, (loopback_conversation es [hello]). constructor; [exact I|]. constructor; [exact Hla|].
    apply Forall_app. split; [apply sends_fit|]. by apply Forall_singleton.
  - apply Permutation_refl.
  - apply meeting_conversation, (loopback_conversation er []). constructor; [exact Hl|]. constructor; [exact I|].
    apply Forall_app. split; [|by apply Forall_singleton]. apply packets_fit, big_part_fits.
Defined.
